(* ===== verification/_CoqProject ===== *)
-Q . S2P
Prelude.v
PyStruct.v
PyFloat.v
PyFormat.v
Crc32.v
Sha256.v
Uuid.v
PyText.v
PyDecimal.v
Metrics.v
Config.v
Json.v
JsonFuel.v
Codec.v
Sequence.v
Health.v
Redis.v
Queue.v
QueueSpec.v
QueueProps.v
Sql.v
Schema.v
Session.v
Repository.v
RepositoryInv.v
RepositorySafe.v
RepositoryExample.v
RepositoryAccept.v
RepositoryRecord.v
RepositoryProps.v
RepositoryFresh.v
RepositoryMoves.v
RepositoryQuiet.v
RepositoryJobs.v
RepositoryTotal.v
RepositoryRaces.v
RepositoryIdle.v
Gateway.v
GroundApi.v
Worker.v
Linked.v
SystemApi.v
SystemWorker.v
SystemExample.v
SystemProps.v
SystemLive.v
GroundApiProps.v
SystemAnswer.v
Replays.v
SystemFrames.v
SystemStream.v
FloatBounds.v
SpacePacket.v
Commands.v
PyObject.v
PyEffect.v
PyJson.v
Logging.v
Spacecraft.v
Link.v
Ingest.v
Processor.v
HealthPath.v
Advisor.v
Dispatcher.v
MissionApi.v
MissionReads.v
CommandPath.v
LinkSchema.v
VendorSim.v
VendorPath.v
VendorStream.v
Startup.v
