(* ===== verification/Prelude.v ===== *)
(** * Verification library of the Cislunar Ground Platform

    The program, under [src/mission_ground/], has two parts.  The payload telemetry gateway ([telemetry/] and
    the services that use it) receives frames of a payload over HTTP from a vendor, keeps the received bytes
    and the decoded packets in PostgreSQL, hands each new packet to a worker through a Redis work queue, and
    stores the worker's health classification.  The spacecraft link ([common/] and its services) sends
    operator commands to a spacecraft over UDP, takes its packets in, and passes events between its services
    over a message bus, with PostgreSQL behind it.  This library models both, proves what makes each
    component correct, and what the components guarantee together.

    ** Parts, files, and the code they follow

    - Foundations.  [Prelude]: results, bytes, tactics, list lemmas.  [PyStruct]: [struct.pack] and
      [unpack].  [PyFloat], [PyDecimal]: IEEE doubles, [round], [float(text)], [repr(float)], [Decimal];
      [FloatBounds]: bounds of sums and products of doubles.
      [PyFormat]: integer formatting, character classes, datetimes.  [PyText]: [int(text)], prefixes,
      [hmac.compare_digest].  [Crc32], [Sha256]: [zlib.crc32] and [hashlib.sha256], the latter bit for bit.
      [Uuid]: parsing and printing of UUIDs.  [Json]: [json.dumps] of the queue's entries and [json.loads],
      with the interpreter's limits as a class; [JsonFuel]: that its fuel is enough.  [PyObject]: the values that JSON carries and the exceptions of the link services.
      [PyEffect]: handlers with state and exceptions, with rules for what they keep.  [PyJson]:
      [json.dumps] of any value, with its errors; the decoder of [Json] reads back what it prints.
    - Codec: [telemetry/codec.py] is [Codec] (frames, validation order, encoder, decoder, packet
      identifiers); [telemetry/sequence.py] is [Sequence]; [telemetry/health.py] is [Health].
    - Repository: [telemetry/storage.py].  [Sql] is the class of SQL engines with its laws and a
      finite-map instance; [Schema] holds the seven tables with their CHECK, UNIQUE and FOREIGN KEY
      constraints; [Session] is the monad of a database session; [Repository] has every method of
      [TelemetryRepository].  [RepositoryInv] states the consistency of the tables and how rows evolve,
      [RepositorySafe] that every method keeps both, [RepositoryQuiet] which methods put a job to work,
      [RepositoryFresh] which identifiers a method draws, [RepositoryMoves] and [RepositoryIdle] what it
      does to the ledger of request identifiers and to the rows it is not about; [RepositoryAccept], [RepositoryRecord],
      [RepositoryJobs], [RepositoryTotal] and [RepositoryProps] prove acceptance, that
      ledger, jobs, that calls return, and properties of call sequences; [RepositoryRaces] is about two
      acceptances that overlap; [RepositoryExample] has concrete worlds.
    - Queue: [telemetry/queue.py].  [Redis] is the class of servers with its laws and a finite-map
      instance; [Queue] has messages, Lua scripts and methods; [QueueSpec] the abstract queue of three
      lists and the refinement of each method; [QueueProps] the properties.
    - Gateway services.  [Metrics], [Config] and [Logging] are [telemetry/metrics.py],
      [telemetry/config.py] and [telemetry/structured_logging.py].  [Gateway] is the language of the
      services: a program is a tree of atomic actions on the system (database, server, counters), each
      served, refused, carried out with its reply lost, or without a connection; it has exceptions, a run function, the
      interleaving of several programs and a rely-guarantee logic.  [GroundApi] is
      [services/ground_api.py], handler by handler; [Worker] is [services/payload_worker.py].  [Linked]
      ties queue and database together and proves what each action may do; [SystemApi] and
      [SystemWorker] prove it of the handlers and of the worker; [SystemProps] states what any
      interleaving of them guarantees, [SystemLive] the worker's result and progress, [GroundApiProps]
      credentials, body limit and outages; [SystemAnswer] has the abstract gateway on the sessions of the
      sequence algorithm and proves that the handler implements it for new identifiers; [SystemFrames]
      proves what no activity changes, and [SystemStream] that a whole run of the system, whatever else
      it does in between, answers every request as the abstract gateway with its ledger does;
      [SystemExample] and [Replays] evaluate the whole system on concrete requests.
    - Vendor: [services/vendor_simulator.py] is [VendorSim] (payload source, boot file, wire failures,
      forwarder, route, automatic loop); [VendorPath] composes it with the abstract gateway, and
      [VendorStream] with the running gateway.
    - Spacecraft link.  [SpacePacket], [Commands] and the limits of [Processor] are
      [common/packet.py], [common/commands.py] and [common/limits.py]; [Startup] has
      [common/config.py], [common/retry.py] and [common/nats.py].  [Spacecraft] is
      [services/spacecraft_sim.py]; [Link] holds the state of the ground (the tables of [common/db.py],
      bus, uplink, metrics) and the calls on it; [Ingest] (with [common/sequence.py]), [Processor],
      [Advisor], [Dispatcher] and [MissionApi] are the services of those names, [MissionReads] the list
      routes and the websocket of the latter.  [CommandPath] runs all of them together as a sequence of
      steps, with faults, and proves what commands do; [HealthPath] what becomes of a health sample;
      [LinkSchema] has the schema of [common/db.py] and proves that every stored row fits it.

    Names are the source's, with a prefix or suffix where two records of the code share a field name.

    ** What the theorems show

    - The gateway as a whole (invariant, safety, liveness, refinement): no interleaving of transactions,
      crash or network fault changes stored evidence, packets or results, or separates an unfinished job
      from its queue message; a 202 answer names a packet whose job is queued or complete; every delivery,
      first or repeated, is answered as the abstract gateway answers it; a round of the worker completes
      the oldest job.
    - Vendor (invariant, safety, termination): identifiers never repeat over restarts and failed
      writes, whatever the simulator emits and its forwarder posts to the running gateway is answered
      202, 200 or 422 and never 409, the forwarder's retries are exact.
    - Repository (invariant, refinement, termination, safety): all methods, one after the other, keep the
      tables consistent, evidence and results are permanent, acceptance refines the pure sequence
      algorithm and always returns, leases are exclusive, retries are bounded; and what becomes of a
      delivery that another one overtakes between two of its statements.
    - Queue (refinement, invariant, error): the Lua scripts implement an abstract queue, messages are
      neither lost nor duplicated, the recovery loop ends, malformed entries are quarantined, except those
      that meet a limit of the interpreter, which stay in the processing list.
    - Codecs and rules (functional, round trip, bounds): decoding follows the interface document's
      order, encoding and decoding are inverse, bursts are detected, gap counts add up, health classes
      follow the tables of the document; the same for space packets, commands and lost packets.
    - Gateway's edge (safety, error, bounds): only the vendor's token is served, roles are exact, the
      body limit is exact, refused calls of the database and the server are answered 503 and never leak;
      which requests end with an error that no handler answers is stated exactly.
    - Logging (round trip, functional): a record is printed exactly when its values are within the
      interpreter's limits, and every line is one line of JSON that the decoder reads back with its
      members; configuring a logger is idempotent and touches no other.
    - Spacecraft link (safety, liveness, refinement): whatever is lost, refused or reordered, the
      spacecraft executes only commands that an operator armed, each at most once, and rows tell the
      truth about them; a command that meets no fault is executed and acknowledged; with ordinary readings no
      handler of the spacecraft raises, and telemetry reports the commands executed; a health message is acknowledged only when its row and alerts are stored, and a
      sample that meets no fault leaves exactly its row and its alerts; every row fits the schema; a client
      of the stream hears of events in their order.

    ** Bounds and fuel

    The recovery script's endless loop gets one round for each entry of the processing list and one to
    find it empty, which [recover_terminates] proves enough.  The JSON reader gets one more than twice the
    length of its input, which [loads_fuel] proves enough.  The retry of an acceptance after an integrity error, the
    forwarder's three attempts and the attempts of [retry_async] are the code's own bounds.  The worker's
    [while True] is any number of rounds, the link any sequence of steps.  All other recursion is
    structural.

    ** Abstractions

    A transaction is atomic and reads are fresh.  The engine runs READ COMMITTED, where a statement sees
    what is committed when it starts, and sessions keep loaded objects over a commit; row locks and the
    identity map are not modelled.  The claims about interleavings are about whole transactions in any
    order; [RepositoryRaces] shows the overlap of two acceptances that no such order explains.  Lengths of
    text columns are checked ([Schema], [Session]: too long a value is a DataError), except of the columns
    that hold SHA-256 digests, whose length is fixed; widths of integer columns are not, their values are
    decoded fields and counters within them.  A call without a connection ends with the driver's OSError,
    which is not a SQLAlchemyError; a refused one with an OperationalError.

    Queue entries are bytes: their reading is exact for ASCII text without NUL and without escapes for
    other characters ([readable]); other entries, which [json.loads] may accept as UTF-16 or UTF-32, are
    taken as malformed.  The limits on the digits of an integer and on nesting are parameters
    ([Interpreter]), and their errors are not JSONDecodeError.  The SQL engine and the Redis server are classes whose laws state documented behaviour, so
    every theorem holds for any engine and server that obeys them, and witnesses use finite maps.  The
    clock and [uuid.uuid4] are streams of the environment; a theorem that needs unused identifiers says
    so ([RepositoryFresh], [RepositoryMoves]: those a run draws and a few more).  Times are microseconds since the epoch in UTC, text is a sequence of 8-bit characters, floats
    are IEEE doubles of the Standard Library's specification.  A queue method is one action, which
    counts [claim]'s quarantine and the recovery loop as single steps.  Sleeping does nothing.
    The text of an exception stored with a failed attempt is a parameter.

    A handler of the spacecraft link runs without interruption, and handlers follow one another in any
    order; a list of faults says which of its calls are refused or lose their answers.  A bus message
    holds a value rather than its JSON text, and the text of a list or a dictionary in [str] and in the
    language model's prompt is a parameter.  Latencies are nanoseconds.  The values of columns filled
    by [now()] are parameters of the routes that show them.  Clock readings, the analogue noise, whether the telemetry
    loop's datagram can be sent, request identifiers, the gateway's answers to the
    forwarder and the language model's reply are arguments.

    ** Not modelled

    FastAPI's routing, response headers and engine construction; health-check entry points, connections
    and [main] functions, which only assemble what is modelled; the emission of a log line by the logging
    package beyond which handlers get it; deployment files, scripts and tests. *)
From Stdlib Require Export Init.Byte Strings.Byte.
From stdpp Require Export base list numbers strings pretty gmap.
From Stdlib Require Export Lia.

#[export] Set Warnings "-clear-no-such-hyp".

Open Scope Z_scope.

(** ** Results: the value of a call that may raise *)

Inductive result (E A : Type) : Type :=
| Ok (a : A)
| Raise (e : E).
Arguments Ok {E A} a.
Arguments Raise {E A} e.

#[export] Instance result_ret E : MRet (result E) := fun A a => Ok a.
#[export] Instance result_bind E : MBind (result E) := fun A B k m =>
  match m with
  | Ok a => k a
  | Raise e => Raise e
  end.
#[export] Instance result_eq_dec `{EqDecision E, EqDecision A} : EqDecision (result E A).
Proof. solve_decision. Defined.

(** [if c: raise e] followed by the rest of the block. *)
Declare Scope py_scope.
Delimit Scope py_scope with py.
Open Scope py_scope.
Notation "'raise:' e 'when' c ';;' k" := (if c then Raise e else k)
  (at level 100, e at level 99, c at level 99, k at level 200, right associativity,
   format "'raise:'  e  'when'  c  ';;' '//' k") : py_scope.

Definition is_ok {E A} (m : result E A) : bool :=
  match m with Ok _ => true | Raise _ => false end.

(** [try: m except e: h e]. *)
Definition catch {E F A} (m : result E A) (h : E -> result F A) : result F A :=
  match m with Ok a => Ok a | Raise e => h e end.

Lemma bind_ok {E A B} (m : result E A) (k : A -> result E B) b :
  (m ≫= k) = Ok b <-> exists a, m = Ok a /\ k a = Ok b.
Proof.
  destruct m as [a|e]; cbn; split; [eauto| | |]; intros H; [by destruct H as (? & [= ->] & ?)|done|].
  by destruct H as (? & ? & ?).
Qed.

Lemma bind_raise {E A B} (m : result E A) (k : A -> result E B) e :
  (m ≫= k) = Raise e <-> m = Raise e \/ exists a, m = Ok a /\ k a = Raise e.
Proof.
  destruct m as [a|e']; cbn; split; intros H; eauto.
  - destruct H as [H|(? & [= ->] & ?)]; done.
  - left. by injection H as ->.
  - by destruct H as [[= ->]|(? & ? & ?)].
Qed.

(** ** Tactics *)

(** Turn the boolean tests of the code into propositions for [lia]. *)
Ltac bool_to_prop :=
  repeat match goal with
  | H : _ && _ = true |- _ => apply andb_true_iff in H; destruct H
  | H : _ && _ = false |- _ => apply andb_false_iff in H
  | H : _ || _ = true |- _ => apply orb_true_iff in H
  | H : _ || _ = false |- _ => apply orb_false_iff in H; destruct H
  | H : negb _ = true |- _ => apply negb_true_iff in H
  | H : negb _ = false |- _ => apply negb_false_iff in H
  | H : (_ =? _)%Z = true |- _ => apply Z.eqb_eq in H
  | H : (_ =? _)%Z = false |- _ => apply Z.eqb_neq in H
  | H : (_ <=? _)%Z = true |- _ => apply Z.leb_le in H
  | H : (_ <=? _)%Z = false |- _ => apply Z.leb_gt in H
  | H : (_ <? _)%Z = true |- _ => apply Z.ltb_lt in H
  | H : (_ <? _)%Z = false |- _ => apply Z.ltb_ge in H
  | H : bool_decide _ = true |- _ => apply bool_decide_eq_true in H
  | H : bool_decide _ = false |- _ => apply bool_decide_eq_false in H
  end.

(** Split the first [if]/[match] test found in the goal, or in hypothesis [H]. *)
Ltac case_test :=
  match goal with
  | |- context [if ?c then _ else _] => let E := fresh "Htest" in destruct c eqn:E
  | |- context [match ?c with _ => _ end] => let E := fresh "Htest" in destruct c eqn:E
  end.
Ltac case_test_in H :=
  match type of H with
  | context [if ?c then _ else _] => let E := fresh "Htest" in destruct c eqn:E
  | context [match ?c with _ => _ end] => let E := fresh "Htest" in destruct c eqn:E
  end.

(** Follow the normal return of a block [H : block = Ok _]: every guard that raises is off. *)
Ltac follow_ok H :=
  repeat lazymatch type of H with
  | (if ?c then _ else _) = Ok _ =>
      let E := fresh "Hguard" in first [destruct c eqn:E; [discriminate H|] | destruct c eqn:E]
  | (_ ≫= _) = Ok _ =>
      let a := fresh "v" in let E := fresh "Hrun" in apply bind_ok in H as (a & E & H)
  | (match ?c with _ => _ end) = Ok _ =>
      let E := fresh "Hcase" in destruct c eqn:E; try discriminate H
  end; bool_to_prop.

(** The converse: drive a goal [block = Ok _] through guards that arithmetic rules out. *)
Ltac pass_guards :=
  repeat (match goal with |- (if ?c then _ else _) = _ => destruct c eqn:? end;
          bool_to_prop; [exfalso; lia|]).
Ltac bind_to v := match goal with |- (?m ≫= _) = _ => assert (m = Ok v) as ->; [|cbn [mbind result_bind]] end.

(** Walk through every test of a returned value [H : ... = Ok _ / Raise _]. *)
Ltac unwind H := repeat (case_test_in H; try discriminate H).

(** ** Bytes *)

Abbreviation bytes := (list byte).

#[export] Instance byte_eq_dec : EqDecision byte := Byte.byte_eq_dec.

(** The integer a byte stands for, and the byte of an integer's low eight bits. *)
Definition byte_val (b : byte) : Z := Z.of_N (Byte.to_N b).
Definition byte_of (z : Z) : byte :=
  match Byte.of_N (Z.to_N (z mod 256)) with Some b => b | None => x00 end.

Lemma byte_val_range b : 0 <= byte_val b < 256.
Proof. unfold byte_val. pose proof (Byte.to_N_bounded b). lia. Qed.

Lemma byte_of_val b : byte_of (byte_val b) = b.
Proof.
  pose proof (byte_val_range b) as Hb. unfold byte_of. rewrite Z.mod_small by done.
  unfold byte_val. by rewrite N2Z.id, Byte.of_to_N.
Qed.

Lemma byte_val_of z : byte_val (byte_of z) = z mod 256.
Proof.
  unfold byte_of. pose proof (Z.mod_pos_bound z 256 ltac:(lia)) as Hz.
  pose proof (Byte.to_of_N_option_map (Z.to_N (z mod 256))) as Ho.
  destruct (N.leb_spec (Z.to_N (z mod 256)) 255) as [_|]; [|lia].
  destruct (Byte.of_N (Z.to_N (z mod 256))) as [b|]; [|discriminate Ho].
  cbn in Ho. injection Ho as Ho. unfold byte_val. rewrite Ho. lia.
Qed.

#[export] Instance byte_val_inj : Inj (=) (=) byte_val.
Proof. intros b c H. by rewrite <- (byte_of_val b), H, byte_of_val. Qed.

Create Rewrite HintDb pybytes.
#[export] Hint Rewrite byte_of_val byte_val_of : pybytes.

(** ** Lists up to permutation *)

#[export] Instance bool_filter_Permutation {A} (f : A -> bool) :
  Proper ((≡ₚ) ==> (≡ₚ)) (List.filter f).
Proof.
  induction 1 as [|x l l' _ IH|x y l|l l' l'' _ IH1 _ IH2]; cbn; [done| | |by etransitivity].
  - destruct (f x); [by constructor|done].
  - destruct (f x), (f y); try done. constructor.
Qed.

(** The sum of [f] over a list. *)
Definition sum_by {A} (f : A -> Z) (l : list A) : Z := foldr (fun a n => f a + n) 0 l.

#[export] Instance sum_by_Permutation {A} (f : A -> Z) : Proper ((≡ₚ) ==> eq) (sum_by f).
Proof. unfold sum_by. induction 1; cbn in *; lia. Qed.


Lemma sum_by_app {A} (f : A -> Z) l l' : sum_by f (l ++ l') = sum_by f l + sum_by f l'.
Proof. unfold sum_by. induction l; cbn in *; lia. Qed.

(** ** Exhaustive checks over a finite range of integers *)

Definition zrange (lo : Z) (n : nat) : list Z := map (fun i => lo + Z.of_nat i) (seq 0 n).

Lemma zrange_check (P : Z -> bool) lo n :
  forallb P (zrange lo n) = true -> forall x, lo <= x < lo + Z.of_nat n -> P x = true.
Proof.
  intros H x Hx. apply (proj1 (forallb_forall P (zrange lo n)) H).
  apply in_map_iff. exists (Z.to_nat (x - lo)). split; [lia|]. apply in_seq. lia.
Qed.

(** ** Rules checked in order *)

(** The name of the first rule of the list that [x] breaks. *)
Fixpoint first_broken {R X} (rules : list (R * (X -> bool))) (x : X) : option R :=
  match rules with
  | [] => None
  | (r, broken) :: rules' => if broken x then Some r else first_broken rules' x
  end.

Lemma first_broken_app {R X} (rs ss : list (R * (X -> bool))) x :
  first_broken (rs ++ ss) x =
  match first_broken rs x with Some r => Some r | None => first_broken ss x end.
Proof. induction rs as [|[r b] rs IH]; cbn; [done|]. by destruct (b x). Qed.

Lemma first_broken_map {R X Y} (f : Y -> X) (rs : list (R * (X -> bool))) y :
  first_broken (map (fun rule => (rule.1, fun y => rule.2 (f y))) rs) y = first_broken rs (f y).
Proof. induction rs as [|[r b] rs IH]; cbn; [done|]. by rewrite IH. Qed.

Lemma first_broken_none {R X} (rs : list (R * (X -> bool))) x :
  first_broken rs x = None <-> Forall (fun rule => rule.2 x = false) rs.
Proof.
  induction rs as [|[r b] rs IH]; cbn; [by split|]. rewrite Forall_cons. cbn.
  destruct (b x); [split; [done|by intros [? _]]|]. rewrite IH. split; [by split|by intros [_ ?]].
Qed.
