(* ===== verification/PyStruct.v ===== *)
(** * Python's [struct] module in network byte order

    [struct.Struct("!...")] and [struct.Struct(">...")] with the format characters the program
    uses: [B], [H], [I], [Q] (unsigned, 1, 2, 4 and 8 bytes) and [h], [i] (two's complement, 2 and
    4 bytes).  Big-endian, standard sizes, no padding.  [pack] raises [struct.error] for a value
    outside the field's range and for a wrong number of values; [unpack] for a wrong length. *)
From S2P Require Import Prelude.

(** ** Big-endian unsigned integers *)

Fixpoint be_encode (n : nat) (z : Z) : bytes :=
  match n with
  | O => []
  | S n' => be_encode n' (z / 256) ++ [byte_of z]
  end.

Definition be_decode (bs : bytes) : Z := fold_left (fun acc b => acc * 256 + byte_val b) bs 0.

(** ** Format characters *)

Inductive fmt := fB | fH | fI | fQ | fh | fi.

#[export] Instance fmt_eq_dec : EqDecision fmt.
Proof. solve_decision. Defined.

Definition fmt_size (f : fmt) : nat :=
  match f with fB => 1 | fH => 2 | fI => 4 | fQ => 8 | fh => 2 | fi => 4 end.

Definition fmt_signed (f : fmt) : bool :=
  match f with fh | fi => true | _ => false end.

(** The number of values the field's bytes can take, and the field's range. *)
Definition fmt_modulus (f : fmt) : Z := 256 ^ Z.of_nat (fmt_size f).

Definition fmt_min (f : fmt) : Z := if fmt_signed f then - (fmt_modulus f / 2) else 0.
Definition fmt_max (f : fmt) : Z := fmt_min f + fmt_modulus f - 1.

Definition fmt_fits (f : fmt) (z : Z) : bool := (fmt_min f <=? z) && (z <=? fmt_max f).

(** Two's complement reading of an unsigned value. *)
Definition fmt_of_unsigned (f : fmt) (u : Z) : Z :=
  if fmt_signed f && (fmt_modulus f / 2 <=? u) then u - fmt_modulus f else u.

Inductive struct_error := StructError.
#[export] Instance struct_error_eq_dec : EqDecision struct_error.
Proof. solve_decision. Defined.

Definition calcsize (fs : list fmt) : nat := sum_list_with fmt_size fs.

Fixpoint pack (fs : list fmt) (vs : list Z) : result struct_error bytes :=
  match fs, vs with
  | [], [] => Ok []
  | f :: fs', v :: vs' =>
      if fmt_fits f v
      then rest ← pack fs' vs'; Ok (be_encode (fmt_size f) (v mod fmt_modulus f) ++ rest)
      else Raise StructError
  | _, _ => Raise StructError
  end.

Fixpoint unpack_fields (fs : list fmt) (bs : bytes) : list Z :=
  match fs with
  | [] => []
  | f :: fs' =>
      fmt_of_unsigned f (be_decode (take (fmt_size f) bs)) ::
      unpack_fields fs' (drop (fmt_size f) bs)
  end.

Definition unpack (fs : list fmt) (bs : bytes) : result struct_error (list Z) :=
  if bool_decide (length bs = calcsize fs) then Ok (unpack_fields fs bs) else Raise StructError.

(** ** Lemmas on big-endian integers *)

Lemma be_encode_length n z : length (be_encode n z) = n.
Proof. revert z; induction n as [|n IH]; intros z; cbn; [done|]. rewrite length_app, IH. cbn; lia. Qed.

Lemma be_decode_snoc bs b : be_decode (bs ++ [b]) = be_decode bs * 256 + byte_val b.
Proof. unfold be_decode. by rewrite fold_left_app. Qed.

Lemma pow256_S n : 256 ^ Z.of_nat (S n) = 256 ^ Z.of_nat n * 256.
Proof. rewrite Nat2Z.inj_succ, Z.pow_succ_r by lia. lia. Qed.

Lemma be_decode_encode n z : be_decode (be_encode n z) = z mod 256 ^ Z.of_nat n.
Proof.
  revert z; induction n as [|n IH]; intros z; cbn [be_encode].
  - cbn. by rewrite Z.mod_1_r.
  - rewrite be_decode_snoc, IH, byte_val_of, pow256_S, (Z.mul_comm (_ ^ _)).
    rewrite (Z.rem_mul_r z 256) by lia. lia.
Qed.

Lemma be_decode_range bs : 0 <= be_decode bs < 256 ^ Z.of_nat (length bs).
Proof.
  induction bs as [|b bs IH] using rev_ind; [cbn; lia|].
  rewrite be_decode_snoc, length_app, Nat.add_1_r, pow256_S.
  pose proof (byte_val_range b). lia.
Qed.

Lemma be_encode_decode bs : be_encode (length bs) (be_decode bs) = bs.
Proof.
  induction bs as [|b bs IH] using rev_ind; [done|].
  rewrite be_decode_snoc, length_app, Nat.add_1_r. cbn [be_encode].
  pose proof (byte_val_range b).
  rewrite Z.div_add_l, (Z.div_small (byte_val b)), Z.add_0_r, IH by lia. f_equal.
  rewrite <- (byte_of_val b) at 2. unfold byte_of.
  by rewrite Z.add_comm, Z.mod_add by lia.
Qed.

Lemma be_decode_inj bs cs :
  length bs = length cs -> be_decode bs = be_decode cs -> bs = cs.
Proof. intros Hl Hd. by rewrite <- (be_encode_decode bs), Hl, Hd, be_encode_decode. Qed.

(** ** Lemmas on fields *)

Lemma fmt_modulus_pos f : 0 < fmt_modulus f.
Proof. by destruct f. Qed.

Lemma fmt_fits_spec f z :
  fmt_fits f z = true <->
  match f with
  | fB => 0 <= z < 2 ^ 8 | fH => 0 <= z < 2 ^ 16 | fI => 0 <= z < 2 ^ 32 | fQ => 0 <= z < 2 ^ 64
  | fh => - 2 ^ 15 <= z < 2 ^ 15 | fi => - 2 ^ 31 <= z < 2 ^ 31
  end.
Proof.
  unfold fmt_fits, fmt_max. rewrite andb_true_iff, !Z.leb_le.
  destruct f;
    match goal with |- context [fmt_min ?f] =>
      let lo := eval vm_compute in (fmt_min f) in let m := eval vm_compute in (fmt_modulus f) in
      change (fmt_min f) with lo; change (fmt_modulus f) with m end; lia.
Qed.

Lemma fmt_modulus_half f : fmt_modulus f = 2 * (fmt_modulus f / 2).
Proof. by destruct f. Qed.

Lemma mod_wrap_neg m z : - m <= z < 0 -> z mod m = z + m.
Proof. intros. symmetry. apply Z.mod_unique with (-1); lia. Qed.

Lemma fmt_unsigned_roundtrip f z :
  fmt_fits f z = true -> fmt_of_unsigned f (z mod fmt_modulus f) = z.
Proof.
  unfold fmt_fits, fmt_of_unsigned, fmt_max, fmt_min. intros H.
  pose proof (fmt_modulus_pos f). pose proof (fmt_modulus_half f).
  destruct (fmt_signed f); cbn [andb]; bool_to_prop; [|by apply Z.mod_small; lia].
  destruct (Z.ltb_spec z 0).
  - rewrite mod_wrap_neg by lia. destruct (Z.leb_spec (fmt_modulus f / 2) (z + fmt_modulus f)); lia.
  - rewrite Z.mod_small by lia. destruct (Z.leb_spec (fmt_modulus f / 2) z); lia.
Qed.

Lemma fmt_of_unsigned_fits f u :
  0 <= u < fmt_modulus f ->
  fmt_fits f (fmt_of_unsigned f u) = true /\ fmt_of_unsigned f u mod fmt_modulus f = u.
Proof.
  unfold fmt_fits, fmt_of_unsigned, fmt_max, fmt_min. intros Hu.
  pose proof (fmt_modulus_half f).
  destruct (fmt_signed f); cbn [andb]; [destruct (Z.leb_spec (fmt_modulus f / 2) u)|].
  - split; [apply andb_true_iff; lia|]. rewrite mod_wrap_neg; lia.
  - split; [apply andb_true_iff; lia|]. by apply Z.mod_small.
  - split; [apply andb_true_iff; lia|]. by apply Z.mod_small.
Qed.

(** [v] packs into the field [f] as the bytes [bs]. *)
Lemma pack_field f v :
  fmt_fits f v = true ->
  be_decode (be_encode (fmt_size f) (v mod fmt_modulus f)) = v mod fmt_modulus f.
Proof.
  intros _. rewrite be_decode_encode. fold (fmt_modulus f). rewrite Z.mod_mod; [done|].
  pose proof (fmt_modulus_pos f); lia.
Qed.

Lemma pack_length fs vs bs : pack fs vs = Ok bs -> length bs = calcsize fs.
Proof.
  revert vs bs; induction fs as [|f fs IH]; intros [|v vs] bs; cbn; try discriminate.
  - by intros [= <-].
  - destruct (fmt_fits f v); [|discriminate]. intros (rest & Hr & [= <-])%bind_ok.
    rewrite length_app, be_encode_length. f_equal. by apply (IH vs).
Qed.

(** [pack] succeeds exactly on a list of values that fit their fields. *)
Lemma pack_ok_iff fs vs :
  (exists bs, pack fs vs = Ok bs) <-> Forall2 (fun f v => fmt_fits f v = true) fs vs.
Proof.
  revert vs; induction fs as [|f fs IH]; intros [|v vs]; cbn.
  - split; [constructor|eauto].
  - split; [by intros (? & [=])|]. intros H; inversion H.
  - split; [by intros (? & [=])|]. intros H; inversion H.
  - destruct (fmt_fits f v) eqn:Hf.
    + split.
      * intros (bs & (rest & Hr & _)%bind_ok). constructor; [done|]. apply IH; eauto.
      * intros H; inversion H; subst. destruct (proj2 (IH vs)) as (rest & ->); [done|].
        eexists. reflexivity.
    + split; [by intros (? & [=])|]. intros H; inversion H; congruence.
Qed.

Lemma unpack_pack fs vs bs : pack fs vs = Ok bs -> unpack fs bs = Ok vs.
Proof.
  intros Hp. unfold unpack. rewrite bool_decide_true by (by eapply pack_length). f_equal.
  revert vs bs Hp; induction fs as [|f fs IH]; intros [|v vs] bs; cbn; try discriminate; [done|].
  destruct (fmt_fits f v) eqn:Hf; [|discriminate]. intros (rest & Hr & [= <-])%bind_ok.
  rewrite take_app_length', drop_app_length' by by rewrite be_encode_length.
  rewrite pack_field, fmt_unsigned_roundtrip by done. f_equal. by apply IH.
Qed.

(** Every byte string of the right length is the packing of what it unpacks to. *)
Lemma pack_unpack fs bs vs : unpack fs bs = Ok vs -> pack fs vs = Ok bs.
Proof.
  unfold unpack. case_bool_decide as Hl; [|discriminate]. intros [= <-].
  revert bs Hl; induction fs as [|f fs IH]; intros bs; cbn.
  - by destruct bs.
  - intros Hl. assert (Ht : length (take (fmt_size f) bs) = fmt_size f) by (rewrite length_take; lia).
    pose proof (be_decode_range (take (fmt_size f) bs)) as Hr. rewrite Ht in Hr.
    destruct (fmt_of_unsigned_fits f _ Hr) as [-> ->].
    rewrite IH by (rewrite length_drop; unfold calcsize in *; lia). cbn. f_equal.
    rewrite <- Ht at 1. by rewrite be_encode_decode, take_drop.
Qed.

Lemma unpack_total fs bs : length bs = calcsize fs -> exists vs, unpack fs bs = Ok vs.
Proof. intros Hl. unfold unpack. rewrite bool_decide_true by done. eauto. Qed.

Lemma pack_inj fs vs ws bs : pack fs vs = Ok bs -> pack fs ws = Ok bs -> vs = ws.
Proof. intros Hv%unpack_pack Hw%unpack_pack. congruence. Qed.

(** Discharge [Forall2 fits] for a literal format and value list. *)
Ltac solve_fits :=
  repeat match goal with
  | |- Forall2 _ [] [] => constructor
  | |- Forall2 _ (_ :: _) (_ :: _) => constructor; [apply fmt_fits_spec; cbv beta iota; lia|]
  end.
