(* ===== verification/PyFloat.v ===== *)
(** * Python floats

    IEEE binary64 by the Standard Library's specification: integers as floats, arithmetic, comparison,
    and the built-in [round(x)] of a float, which rounds half to even and raises for an infinity or a
    value that is not a number. *)
From S2P Require Import Prelude.
From Stdlib Require Export SpecFloat.

Open Scope Z_scope.

Abbreviation float := spec_float (only parsing).

Definition float_of_Z (z : Z) : float := binary_normalize 53 1024 z 0 false.
Definition float_add : float -> float -> float := SFadd 53 1024.
Definition float_sub : float -> float -> float := SFsub 53 1024.
Definition float_mul : float -> float -> float := SFmul 53 1024.
Definition float_div : float -> float -> float := SFdiv 53 1024.

(** The literal with the value [n / 10 ^ d], for [n] and [10 ^ d] up to [2 ^ 53]. *)
Definition decimal (n : Z) (d : Z) : float := float_div (float_of_Z n) (float_of_Z (10 ^ d)).

Inductive round_error := NotANumber | Infinite.

(** The integer nearest to [m / d], the even one of two. *)
Definition round_half_even (m d : Z) : Z :=
  let q := m / d in
  let r := m mod d in
  if 2 * r <? d then q else if d <? 2 * r then q + 1 else if Z.even q then q else q + 1.

Definition py_round (f : float) : result round_error Z :=
  match f with
  | S754_zero _ => Ok 0
  | S754_infinity _ => Raise Infinite
  | S754_nan => Raise NotANumber
  | S754_finite s m e =>
      let n := if 0 <=? e then Z.pos m * 2 ^ e else round_half_even (Z.pos m) (2 ^ (- e)) in
      Ok (if s then - n else n)
  end.

(** [math.trunc] of a finite float. *)
Definition float_trunc (s : bool) (m : positive) (e : Z) : Z :=
  let n := if 0 <=? e then Z.pos m * 2 ^ e else Z.pos m / 2 ^ (- e) in if s then - n else n.

Example round_half_to_even : py_round (decimal 25 1) = Ok 2 /\ py_round (decimal 35 1) = Ok 4.
Proof. split; vm_compute; reflexivity. Qed.
Example round_anomaly : py_round (float_mul (decimal 228 1) (float_of_Z 1000)) = Ok 22_800.
Proof. vm_compute. reflexivity. Qed.

(** Rounding moves by at most one half. *)
Lemma round_half_even_near m d : 0 < d -> 2 * Z.abs (d * round_half_even m d - m) <= d.
Proof.
  intros Hd. unfold round_half_even. pose proof (Z_div_mod_eq_full m d). pose proof (Z.mod_pos_bound m d Hd).
  repeat case_test; bool_to_prop; lia.
Qed.
