(* ===== verification/PyFormat.v ===== *)
(** * Python integer formatting, character classes and aware datetimes

    The format specifications [:02d], [:02x], [:08X] and [%032x] as positional digits with zero
    padding, the regular expressions of the program (sequences of character classes, always used
    with [fullmatch]), and the [datetime] arithmetic behind microsecond timestamps.  Strings are
    sequences of 8-bit characters: text outside that range does not occur in the values formatted
    here. *)
From S2P Require Import Prelude.
From Stdlib Require Import Ascii.
Open Scope char_scope.
Open Scope Z_scope.

(** ** Positional digits, most significant first *)

Fixpoint to_digits (fuel : nat) (base n : Z) : list Z :=
  match fuel with
  | O => []
  | S fuel' =>
      if n <? base then [n] else (to_digits fuel' base (n / base) ++ [n mod base])%list
  end.

(** [Z.log2 n + 1] divisions by a base of at least two always suffice. *)
Definition digits (base n : Z) : list Z := to_digits (S (Z.to_nat (Z.log2 n))) base n.

Definition of_digits (base : Z) (ds : list Z) : Z := fold_left (fun acc d => acc * base + d) ds 0.

Definition zero_pad (width : nat) (ds : list Z) : list Z :=
  (replicate (width - length ds) 0 ++ ds)%list.

Definition digit_char (upper : bool) (d : Z) : ascii :=
  ascii_of_N (Z.to_N (if d <? 10 then 48 + d else (if upper then 55 else 87) + d)).

(** The value of a decimal or hexadecimal digit, [-1] for any other character. *)
Definition char_digit (c : ascii) : Z :=
  let n := Z.of_N (N_of_ascii c) in
  if (48 <=? n) && (n <=? 57) then n - 48
  else if (65 <=? n) && (n <=? 70) then n - 55
  else if (97 <=? n) && (n <=? 102) then n - 87
  else -1.

Definition digits_string (upper : bool) (ds : list Z) : string :=
  String.string_of_list_ascii (map (digit_char upper) ds).

(** [format(z, f"0{width}d")], [... x"] and [... X"] for [z]. *)
Definition format_int (base : Z) (upper : bool) (width : nat) (z : Z) : string :=
  if z <? 0
  then String.String "-" (digits_string upper (zero_pad (width - 1) (digits base (- z))))
  else digits_string upper (zero_pad width (digits base z)).

Definition format_02d : Z -> string := format_int 10 false 2.
Definition format_02x : Z -> string := format_int 16 false 2.
Definition format_08X : Z -> string := format_int 16 true 8.

(** Reading digits back: the left inverse of [digits_string]. *)
Definition parse_digits (base : Z) (s : string) : Z :=
  of_digits base (map char_digit (String.list_ascii_of_string s)).

(** ** Character classes *)

Definition is_char (c : ascii) : ascii -> bool := Ascii.eqb c.
Definition is_decimal (c : ascii) : bool := (0 <=? char_digit c) && (char_digit c <? 10).
Definition is_upper_hex (c : ascii) : bool :=
  is_decimal c || (let n := Z.of_N (N_of_ascii c) in (65 <=? n) && (n <=? 70)).

(** [re.fullmatch] for a pattern that is a sequence of one-character classes. *)
Fixpoint fullmatch (pat : list (ascii -> bool)) (s : string) : bool :=
  match pat, s with
  | [], String.EmptyString => true
  | p :: pat', String.String c s' => p c && fullmatch pat' s'
  | _, _ => false
  end.

Definition literal (s : string) : list (ascii -> bool) := map is_char (String.list_ascii_of_string s).

(** ** Datetimes

    A [datetime] is its wall-clock reading in microseconds from 1970-01-01T00:00:00 together with
    [utcoffset()], [None] for a naive value. *)

Record datetime := mk_datetime { wall_us : Z; utcoffset_us : option Z }.

#[export] Instance datetime_eq_dec : EqDecision datetime.
Proof. solve_decision. Defined.

Definition us_per_day : Z := 86_400_000_000.
Definition us_per_second : Z := 1_000_000.

(** [timedelta] normalisation: [days], [seconds] and [microseconds] of a difference. *)
Record timedelta := mk_timedelta { td_days : Z; td_seconds : Z; td_microseconds : Z }.
Definition timedelta_of_us (us : Z) : timedelta :=
  mk_timedelta (us / us_per_day) ((us mod us_per_day) / us_per_second) (us mod us_per_second).

(** An aware value in Coordinated Universal Time. *)
Definition utc (us : Z) : datetime := mk_datetime us (Some 0).

(** The proleptic Gregorian date of a day number counted from 1970-01-01: year, month, day. *)
Definition civil_date (days : Z) : Z * Z * Z :=
  let z := days + 719_468 in
  let era := z / 146_097 in
  let doe := z mod 146_097 in
  let yoe := (doe - doe / 1_460 + doe / 36_524 - doe / 146_096) / 365 in
  let doy := doe - (365 * yoe + yoe / 4 - yoe / 100) in
  let mp := (5 * doy + 2) / 153 in
  let month := if mp <? 10 then mp + 3 else mp - 9 in
  (yoe + era * 400 + (if month <=? 2 then 1 else 0), month, doy - (153 * mp + 2) / 5 + 1).

(** [isoformat()] of an instant in UTC: the microseconds are printed when they are not zero. *)
Definition isoformat_utc (us : Z) : string :=
  let td := timedelta_of_us us in
  let '(year, month, day) := civil_date (td_days td) in
  let secs := td_seconds td in
  let hour := format_02d (secs / 3_600) in
  let minute := format_02d (secs / 60 mod 60) in
  let second := format_02d (secs mod 60) in
  let micro := td_microseconds td in
  let fraction := if micro =? 0 then ""%string else ("." +:+ format_int 10 false 6 micro)%string in
  (format_int 10 false 4 year +:+ "-" +:+ format_02d month +:+ "-" +:+ format_02d day +:+ "T" +:+
   hour +:+ ":" +:+ minute +:+ ":" +:+ second +:+ fraction +:+ "+00:00")%string.

Example isoformat_seconds : isoformat_utc 1_784_203_201_000_000 = "2026-07-16T12:00:01+00:00"%string.
Proof. vm_compute. reflexivity. Qed.
Example isoformat_leap_day : isoformat_utc 951_827_696_000_042 = "2000-02-29T12:34:56.000042+00:00"%string.
Proof. vm_compute. reflexivity. Qed.

(** ** Lemmas on digits *)

Lemma of_digits_snoc base ds d : of_digits base (ds ++ [d]) = of_digits base ds * base + d.
Proof. unfold of_digits. by rewrite fold_left_app. Qed.

Lemma of_digits_app base ds es :
  of_digits base (ds ++ es) = of_digits base ds * base ^ Z.of_nat (length es) + of_digits base es.
Proof.
  induction es as [|e es IH] using rev_ind; [rewrite app_nil_r; cbn; lia|].
  rewrite app_assoc, !of_digits_snoc, IH, length_app, Nat.add_1_r, Nat2Z.inj_succ, Z.pow_succ_r; lia.
Qed.

Lemma of_digits_zeros base k ds : of_digits base (replicate k 0 ++ ds) = of_digits base ds.
Proof.
  rewrite of_digits_app. enough (of_digits base (replicate k 0) = 0) as -> by lia.
  induction k as [|k IH]; [done|]. rewrite replicate_S_end, of_digits_snoc, IH. done.
Qed.

Lemma to_digits_spec fuel base n :
  2 <= base -> 0 <= n < 2 ^ Z.of_nat fuel ->
  of_digits base (to_digits fuel base n) = n /\
  Forall (fun d => 0 <= d < base) (to_digits fuel base n).
Proof.
  intros Hb. revert n; induction fuel as [|fuel IH]; intros n Hn; cbn [to_digits].
  - cbn in Hn. split; [cbn; lia|constructor].
  - rewrite Nat2Z.inj_succ, Z.pow_succ_r in Hn by lia.
    destruct (Z.ltb_spec n base); [split; [cbn; lia|apply Forall_singleton; lia]|].
    assert (0 <= n / base < 2 ^ Z.of_nat fuel) as Hd.
    { split; [apply Z.div_pos; lia|]. apply Z.div_lt_upper_bound; [lia|]. nia. }
    destruct (IH _ Hd) as [IHv IHf]. pose proof (Z.mod_pos_bound n base ltac:(lia)).
    split; [|apply Forall_app; split; [done|by apply Forall_singleton]].
    rewrite of_digits_app, IHv. cbn. pose proof (Z_div_mod_eq_full n base). lia.
Qed.

Lemma digits_spec base n :
  2 <= base -> 0 <= n ->
  of_digits base (digits base n) = n /\ Forall (fun d => 0 <= d < base) (digits base n).
Proof.
  intros Hb Hn. apply to_digits_spec; [done|]. split; [done|].
  destruct (Z.eq_dec n 0) as [->|]; [done|].
  pose proof (Z.log2_spec n ltac:(lia)). pose proof (Z.log2_nonneg n).
  rewrite Nat2Z.inj_succ, Z2Nat.id by done. lia.
Qed.

Lemma to_digits_length fuel base n w :
  2 <= base -> 0 <= n < base ^ Z.of_nat (S w) -> (length (to_digits fuel base n) <= S w)%nat.
Proof.
  intros Hb. revert n w; induction fuel as [|fuel IH]; intros n w Hn; cbn [to_digits]; [cbn; lia|].
  destruct (Z.ltb_spec n base); [cbn; lia|].
  destruct w as [|w]; [change (Z.of_nat 1) with 1 in Hn; lia|].
  rewrite length_app, Nat.add_1_r. apply le_n_S, IH.
  rewrite Nat2Z.inj_succ, Z.pow_succ_r in Hn by lia.
  split; [apply Z.div_pos; lia|apply Z.div_lt_upper_bound; lia].
Qed.

Lemma char_digit_of_char upper d : 0 <= d < 16 -> char_digit (digit_char upper d) = d.
Proof.
  intros Hd. assert (Hin : In d (map Z.of_nat (seq 0 16))).
  { apply in_map_iff. exists (Z.to_nat d). split; [lia|apply in_seq; lia]. }
  cbn in Hin. destruct upper; repeat (destruct Hin as [<-|Hin]; [reflexivity|]); done.
Qed.

Lemma parse_digits_string base upper ds :
  base <= 16 -> Forall (fun d => 0 <= d < base) ds ->
  parse_digits base (digits_string upper ds) = of_digits base ds.
Proof.
  intros Hb Hds. unfold parse_digits, digits_string.
  rewrite String.list_ascii_of_string_of_list_ascii, map_map. f_equal.
  induction Hds as [|d ds Hd _ IH]; [done|]. cbn. rewrite IH. f_equal.
  apply char_digit_of_char; lia.
Qed.

(** Formatting a non-negative integer loses nothing, whatever the width. *)
Lemma parse_format base upper width z :
  2 <= base <= 16 -> 0 <= z -> parse_digits base (format_int base upper width z) = z.
Proof.
  intros Hb Hz. unfold format_int. destruct (Z.ltb_spec z 0); [lia|].
  destruct (digits_spec base z) as [Hv Hf]; [lia..|].
  rewrite parse_digits_string; [|lia|].
  - unfold zero_pad. by rewrite of_digits_zeros.
  - unfold zero_pad. apply Forall_app. split; [|done]. apply Forall_replicate. lia.
Qed.

Lemma format_int_inj base upper width z z' :
  2 <= base <= 16 -> 0 <= z -> 0 <= z' ->
  format_int base upper width z = format_int base upper width z' -> z = z'.
Proof. intros Hb Hz Hz' H. by rewrite <- (parse_format base upper width z), H, parse_format. Qed.

(** ** Lemmas on strings *)

Definition no_char (c : ascii) (s : string) : Prop := Forall (fun d => d <> c) (String.list_ascii_of_string s).

Lemma append_cons c s t : String.String c s +:+ t = String.String c (s +:+ t).
Proof. done. Qed.

Lemma append_nil t : String.EmptyString +:+ t = t.
Proof. done. Qed.

Lemma string_app_list s t :
  String.list_ascii_of_string (s +:+ t) = (String.list_ascii_of_string s ++ String.list_ascii_of_string t)%list.
Proof. induction s as [|c s IH]; [done|]. rewrite append_cons. cbn. by rewrite IH. Qed.

Lemma string_length_app s t : String.length (s +:+ t) = (String.length s + String.length t)%nat.
Proof. induction s as [|c s IH]; [done|]. rewrite append_cons. cbn. by rewrite IH. Qed.

Lemma string_app_assoc s t u : s +:+ (t +:+ u) = (s +:+ t) +:+ u.
Proof. induction s as [|c s IH]; [done|]. rewrite !append_cons. by rewrite IH. Qed.

Lemma string_app_inv_head s t u : s +:+ t = s +:+ u -> t = u.
Proof. induction s as [|c s IH]; [done|]. rewrite !append_cons. intros [= H]. by apply IH. Qed.

(** A separator that occurs in neither prefix splits the string in one way only. *)
Lemma split_at_char c s t u v :
  no_char c s -> no_char c u -> s +:+ String.String c t = u +:+ String.String c v -> s = u /\ t = v.
Proof.
  revert u; induction s as [|a s IH]; intros [|b u] Hs Hu;
    rewrite ?append_cons, ?append_nil.
  - by intros [= ->].
  - intros [= -> _]. inversion Hu; congruence.
  - intros [= -> _]. inversion Hs; congruence.
  - intros [= -> H]. inversion Hs; inversion Hu; subst. by destruct (IH u) as [-> ->].
Qed.

Lemma digit_char_cases upper d :
  0 <= d < 16 -> let n := Z.of_N (N_of_ascii (digit_char upper d)) in
  48 <= n <= 57 \/ 65 <= n <= 70 \/ 97 <= n <= 102.
Proof.
  intros Hd. assert (Hin : In d (map Z.of_nat (seq 0 16))).
  { apply in_map_iff. exists (Z.to_nat d). split; [lia|apply in_seq; lia]. }
  cbn in Hin. destruct upper; repeat (destruct Hin as [<-|Hin]; [intros n; vm_compute in n; subst n; lia|]); done.
Qed.

Lemma format_int_digits base upper width z :
  2 <= base <= 16 -> 0 <= z ->
  exists ds, format_int base upper width z = digits_string upper ds /\
             Forall (fun d => 0 <= d < base) ds.
Proof.
  intros Hb Hz. unfold format_int. destruct (Z.ltb_spec z 0); [lia|].
  eexists; split; [done|]. unfold zero_pad. apply Forall_app. split; [apply Forall_replicate; lia|].
  apply digits_spec; lia.
Qed.

Lemma format_int_no_dash base upper width z :
  2 <= base <= 16 -> 0 <= z -> no_char "-" (format_int base upper width z).
Proof.
  intros Hb Hz. destruct (format_int_digits base upper width z Hb Hz) as (ds & -> & Hds).
  unfold no_char, digits_string. rewrite String.list_ascii_of_string_of_list_ascii.
  induction Hds as [|d ds Hd _ IH]; [by constructor|]. constructor; [|done].
  intros He. pose proof (digit_char_cases upper d ltac:(lia)) as Hc. rewrite He in Hc. cbn in Hc. lia.
Qed.


Lemma length_string_of_list l : String.length (String.string_of_list_ascii l) = length l.
Proof. induction l; cbn; congruence. Qed.

(** A value of at most [width] digits is printed with exactly [width] characters. *)
Lemma format_int_length base upper width z :
  2 <= base -> 0 <= z < base ^ Z.of_nat (S width) ->
  String.length (format_int base upper (S width) z) = S width.
Proof.
  intros Hb Hz. unfold format_int. destruct (Z.ltb_spec z 0); [lia|].
  unfold digits_string, zero_pad. rewrite length_string_of_list, length_map, length_app, length_replicate.
  pose proof (to_digits_length (S (Z.to_nat (Z.log2 z))) base z width Hb Hz). unfold digits. lia.
Qed.

Lemma fullmatch_app p q s t : fullmatch p s = true -> fullmatch q t = true -> fullmatch (p ++ q) (s +:+ t) = true.
Proof.
  revert s; induction p as [|f p IH]; intros [|c s]; rewrite ?append_cons; cbn; try done.
  intros [Hf Hs]%andb_true_iff Ht. rewrite Hf. by apply IH.
Qed.

Lemma fullmatch_literal s : fullmatch (literal s) s = true.
Proof.
  induction s as [|c s IH]; [done|]. cbn. unfold is_char. by rewrite Ascii.eqb_refl.
Qed.

Lemma fullmatch_class (f : ascii -> bool) n s :
  String.length s = n -> Forall (fun c => f c = true) (String.list_ascii_of_string s) ->
  fullmatch (replicate n f) s = true.
Proof.
  revert n; induction s as [|c s IH]; intros n Hn Hs; cbn in *; subst n; [done|].
  inversion Hs; subst. cbn. apply andb_true_iff; split; [done|]. by apply IH.
Qed.

(** ** Reading a number of fixed width and printing it again *)

Lemma of_digits_bound base ds :
  2 <= base -> Forall (fun d => 0 <= d < base) ds -> 0 <= of_digits base ds < base ^ Z.of_nat (length ds).
Proof.
  intros Hb. induction ds as [|d ds IH] using rev_ind; [cbn; lia|]. intros [Hds Hd]%Forall_app.
  inversion Hd; subst. rewrite of_digits_snoc, length_app, Nat.add_1_r, Nat2Z.inj_succ, Z.pow_succ_r by lia.
  specialize (IH Hds). nia.
Qed.

Lemma of_digits_inj base ds es :
  2 <= base -> length ds = length es -> Forall (fun d => 0 <= d < base) ds -> Forall (fun d => 0 <= d < base) es ->
  of_digits base ds = of_digits base es -> ds = es.
Proof.
  intros Hb. revert es; induction ds as [|d ds IH] using rev_ind; intros es.
  - by destruct es.
  - destruct es as [|e es _] using rev_ind; rewrite !length_app; intros Hl; cbn in Hl; [lia|].
    intros [Hds Hd]%Forall_app [Hes He]%Forall_app. inversion Hd; inversion He; subst.
    rewrite !of_digits_snoc. intros Hv. assert (d = e) as <-.
    { apply (f_equal (fun z => z mod base)) in Hv.
      by rewrite !(Z.add_comm (_ * _)), !Z.mod_add, !Z.mod_small in Hv by lia. }
    f_equal. apply IH; [lia|done..|nia].
Qed.

Lemma format_of_digits base upper w ds :
  2 <= base -> length ds = S w -> Forall (fun d => 0 <= d < base) ds ->
  format_int base upper (S w) (of_digits base ds) = digits_string upper ds.
Proof.
  intros Hb Hl Hds. pose proof (of_digits_bound base ds Hb Hds) as Hv. rewrite Hl in Hv.
  unfold format_int. destruct (Z.ltb_spec (of_digits base ds) 0); [lia|]. f_equal.
  destruct (digits_spec base (of_digits base ds) Hb (proj1 Hv)) as [He Hf].
  pose proof (to_digits_length (S (Z.to_nat (Z.log2 (of_digits base ds)))) base _ w Hb Hv) as Hw.
  apply (of_digits_inj base); [done| | |done|].
  - unfold zero_pad. rewrite length_app, length_replicate. unfold digits. lia.
  - unfold zero_pad. apply Forall_app. split; [apply Forall_replicate; lia|done].
  - unfold zero_pad. by rewrite of_digits_zeros.
Qed.

Lemma digit_char_decimal c : is_decimal c = true -> 0 <= char_digit c < 10 /\ digit_char false (char_digit c) = c.
Proof. destruct c as [[] [] [] [] [] [] [] []]; vm_compute; try done; intros _; split; by split. Qed.

Lemma digit_char_upper_hex c : is_upper_hex c = true -> 0 <= char_digit c < 16 /\ digit_char true (char_digit c) = c.
Proof. destruct c as [[] [] [] [] [] [] [] []]; vm_compute; try done; intros _; split; by split. Qed.

(** Text that matches a fixed number of digits is the printed form of a number of that width. *)
Lemma digit_class_printed (class : ascii -> bool) base upper w s :
  2 <= base -> (forall c, class c = true -> 0 <= char_digit c < base /\ digit_char upper (char_digit c) = c) ->
  fullmatch (replicate (S w) class) s = true ->
  exists z, 0 <= z < base ^ Z.of_nat (S w) /\ s = format_int base upper (S w) z.
Proof.
  intros Hb Hc. remember (S w) as n eqn:Hn. intros Hm.
  assert (length (String.list_ascii_of_string s) = n /\ Forall (fun c => class c = true) (String.list_ascii_of_string s)) as [Hl Hf].
  { clear Hn. revert s Hm; induction n as [|n IH]; intros [|c s]; cbn; try done.
    intros [Hcc Hs]%andb_true_iff. destruct (IH s Hs) as [<- Hf]. by split; [|constructor]. }
  set (ds := map char_digit (String.list_ascii_of_string s)).
  assert (Forall (fun d => 0 <= d < base) ds) as Hds.
  { apply Forall_map. eapply Forall_impl; [exact Hf|]. intros c Hcc. by apply Hc. }
  assert (length ds = n) as Hld by by unfold ds; rewrite length_map.
  exists (of_digits base ds). split; [rewrite <- Hld; by apply of_digits_bound|].
  rewrite Hn, format_of_digits by (done || congruence). unfold digits_string, ds. rewrite map_map.
  rewrite <- (String.string_of_list_ascii_of_string s) at 1. f_equal. symmetry.
  rewrite <- (map_id (String.list_ascii_of_string s)) at 2. apply map_ext_in. intros c Hcc%list_elem_of_In.
  eapply Forall_forall in Hf; [|exact Hcc]. by apply Hc.
Qed.

(** Conversely, a number that fits the width is printed as that many digits. *)
Lemma printed_digit_class (class : ascii -> bool) base upper w z :
  2 <= base <= 16 -> (forall d, 0 <= d < base -> class (digit_char upper d) = true) ->
  0 <= z < base ^ Z.of_nat (S w) -> fullmatch (replicate (S w) class) (format_int base upper (S w) z) = true.
Proof.
  intros Hb Hc Hz. apply fullmatch_class; [apply format_int_length; [lia|done]|].
  destruct (format_int_digits base upper (S w) z Hb (proj1 Hz)) as (ds & -> & Hds).
  unfold digits_string. rewrite String.list_ascii_of_string_of_list_ascii. apply Forall_map.
  eapply Forall_impl; [exact Hds|]. exact Hc.
Qed.

Lemma fullmatch_split p q s :
  fullmatch (p ++ q) s = true -> exists s1 s2, s = s1 +:+ s2 /\ fullmatch p s1 = true /\ fullmatch q s2 = true.
Proof.
  revert s; induction p as [|f p IH]; intros s Hs; [by exists String.EmptyString, s|]. destruct s as [|c s]; [done|]. cbn in Hs.
  apply andb_true_iff in Hs as [Hc Hs]. destruct (IH s Hs) as (s1 & s2 & -> & H1 & H2).
  exists (String.String c s1), s2. cbn. by rewrite Hc.
Qed.

Lemma fullmatch_literal_inv s t : fullmatch (literal s) t = true -> t = s.
Proof.
  revert t; induction s as [|c s IH]; intros [|d t]; cbn; try done.
  intros [Hc%Ascii.eqb_eq Ht]%andb_true_iff. by rewrite Hc, (IH t).
Qed.

(** ** Lemmas on time *)

Lemma timedelta_total us :
  let d := timedelta_of_us us in
  td_days d * us_per_day + td_seconds d * us_per_second + td_microseconds d = us.
Proof.
  cbn. unfold us_per_day, us_per_second.
  pose proof (Z_div_mod_eq_full us 86400000000) as Hd.
  set (r := us mod 86400000000) in *. set (q := us / 86400000000) in *.
  assert (us mod 1000000 = r mod 1000000) as ->.
  { rewrite Hd. replace (86400000000 * q + r) with (r + 86400 * q * 1000000) by lia.
    by rewrite Z.mod_add. }
  pose proof (Z_div_mod_eq_full r 1000000). lia.
Qed.
