(* ===== verification/Crc32.v ===== *)
(** * [zlib.crc32]: CRC-32/ISO-HDLC

    The standard library's checksum with the parameters that docs/INTERFACE_CONTROL_DOCUMENT.md
    (6.6) writes out: reflected polynomial 0xEDB88320, initial value and final exclusive-or
    0xFFFFFFFF.  The lemmas give the error-detection power that both packet formats rely on: the
    register is a bijection of its previous value, so two messages that differ only inside a window
    of at most four consecutive bytes never share a checksum. *)
From S2P Require Import Prelude.

Definition crc_polynomial : Z := 0xEDB88320.
Definition crc_mask : Z := 0xFFFFFFFF.

(** One bit of the reflected shift register. *)
Definition crc_bit (x : Z) : Z :=
  if Z.odd x then Z.lxor (Z.shiftr x 1) crc_polynomial else Z.shiftr x 1.

Definition crc_byte (c : Z) (b : byte) : Z := Nat.iter 8 crc_bit (Z.lxor c (byte_val b)).

Definition crc_update (c : Z) (bs : bytes) : Z := fold_left crc_byte bs c.

Definition zlib_crc32 (data : bytes) : Z := Z.lxor (crc_update crc_mask data) crc_mask.

(** The bytes as one little-endian number: the order in which the register consumes them. *)
Fixpoint le_word (bs : bytes) : Z :=
  match bs with
  | [] => 0
  | b :: bs' => Z.lxor (byte_val b) (Z.shiftl (le_word bs') 8)
  end.

Definition u32 (x : Z) : Prop := 0 <= x < 2 ^ 32.

(** ** Unsigned 32-bit values *)

Lemma bounded_bits n x :
  0 <= n -> 0 <= x -> (0 <= x < 2 ^ n <-> forall i, n <= i -> Z.testbit x i = false).
Proof.
  intros Hn Hx. split.
  - intros Hlt i Hi. rewrite <- (Z.mod_small x (2 ^ n)) by done.
    by apply Z.mod_pow2_bits_high.
  - intros Hb. split; [done|]. assert (Hm : x mod 2 ^ n = x).
    { apply Z.bits_inj'. intros i Hi. rewrite Z.testbit_mod_pow2 by done.
      destruct (Z.ltb_spec i n); cbn; [done|]. by rewrite Hb. }
    rewrite <- Hm. apply Z.mod_pos_bound. by apply Z.pow_pos_nonneg.
Qed.

Lemma lxor_bounded n x y :
  0 <= n -> 0 <= x < 2 ^ n -> 0 <= y < 2 ^ n -> 0 <= Z.lxor x y < 2 ^ n.
Proof.
  intros Hn Hx Hy. apply bounded_bits; [done|by apply Z.lxor_nonneg; lia|].
  intros i Hi. rewrite Z.lxor_spec.
  by rewrite (proj1 (bounded_bits n x Hn (proj1 Hx)) Hx), (proj1 (bounded_bits n y Hn (proj1 Hy)) Hy).
Qed.

Lemma lxor_u32 x y : u32 x -> u32 y -> u32 (Z.lxor x y).
Proof. unfold u32. intros. by apply lxor_bounded. Qed.

Lemma shiftr1_u31 x : u32 x -> 0 <= Z.shiftr x 1 < 2 ^ 31.
Proof.
  unfold u32. rewrite Z.shiftr_div_pow2 by lia. change (2 ^ 1) with 2.
  change (2 ^ 32) with (2 ^ 31 * 2). intros [H0 H1]. split; [by apply Z.div_pos|].
  by apply Z.div_lt_upper_bound; lia.
Qed.

Lemma lxor_cancel_r x y z : Z.lxor x z = Z.lxor y z -> x = y.
Proof.
  intros H. rewrite <- (Z.lxor_0_r x), <- (Z.lxor_0_r y), <- (Z.lxor_nilpotent z).
  by rewrite <- !Z.lxor_assoc, H.
Qed.

Lemma crc_bit_u32 x : u32 x -> u32 (crc_bit x).
Proof.
  intros Hx. pose proof (shiftr1_u31 x Hx). unfold crc_bit.
  destruct (Z.odd x); [apply lxor_u32|]; unfold u32, crc_polynomial in *; lia.
Qed.

(** ** The register is linear and injective *)

Lemma crc_bit_top x : u32 x -> Z.testbit (crc_bit x) 31 = Z.odd x.
Proof.
  intros Hx. pose proof (shiftr1_u31 x Hx) as Hs.
  assert (Ht : Z.testbit (Z.shiftr x 1) 31 = false)
    by (apply (proj1 (bounded_bits 31 _ ltac:(lia) (proj1 Hs)) Hs); lia).
  unfold crc_bit. destruct (Z.odd x); [|done]. by rewrite Z.lxor_spec, Ht.
Qed.

Lemma odd_shiftr_inj x y : Z.odd x = Z.odd y -> Z.shiftr x 1 = Z.shiftr y 1 -> x = y.
Proof.
  rewrite <- !Z.div2_spec. intros Ho Hd.
  rewrite (Z.div2_odd x), (Z.div2_odd y). congruence.
Qed.

Lemma crc_bit_inj x y : u32 x -> u32 y -> crc_bit x = crc_bit y -> x = y.
Proof.
  intros Hx Hy H. assert (Ho : Z.odd x = Z.odd y) by (rewrite <- !crc_bit_top by done; congruence).
  apply odd_shiftr_inj; [done|]. unfold crc_bit in H. rewrite <- Ho in H.
  destruct (Z.odd x); [by apply lxor_cancel_r in H|done].
Qed.

Lemma crc_bit_lxor x y : crc_bit (Z.lxor x y) = Z.lxor (crc_bit x) (crc_bit y).
Proof.
  unfold crc_bit. rewrite <- !Z.bit0_odd, Z.lxor_spec, Z.shiftr_lxor.
  apply Z.bits_inj'. intros i Hi.
  destruct (Z.testbit x 0), (Z.testbit y 0); cbn [xorb]; rewrite !Z.lxor_spec;
    repeat destruct (Z.testbit _ i); done.
Qed.

Lemma iter_crc_lxor n x y :
  Nat.iter n crc_bit (Z.lxor x y) = Z.lxor (Nat.iter n crc_bit x) (Nat.iter n crc_bit y).
Proof. induction n as [|n IH]; [done|]. by rewrite !Nat.iter_succ, IH, crc_bit_lxor. Qed.

Lemma iter_crc_u32 n x : u32 x -> u32 (Nat.iter n crc_bit x).
Proof. intros. induction n; [done|]. rewrite Nat.iter_succ. by apply crc_bit_u32. Qed.

Lemma iter_crc_inj n x y :
  u32 x -> u32 y -> Nat.iter n crc_bit x = Nat.iter n crc_bit y -> x = y.
Proof.
  intros Hx Hy. induction n as [|n IH]; [done|]. rewrite !Nat.iter_succ.
  intros H%crc_bit_inj; try apply iter_crc_u32; auto.
Qed.

Lemma crc_bit_even y : crc_bit (2 * y) = y.
Proof.
  unfold crc_bit. rewrite Z.odd_mul. cbn [Z.odd andb].
  rewrite Z.shiftr_div_pow2 by lia. change (2 ^ 1) with 2. rewrite Z.mul_comm. by apply Z.div_mul.
Qed.

Lemma iter_crc_shift n y : Nat.iter n crc_bit (Z.shiftl y (Z.of_nat n)) = y.
Proof.
  induction n as [|n IH]; [apply Z.shiftl_0_r|].
  rewrite Nat.iter_succ_r, Z.shiftl_mul_pow2, Nat2Z.inj_succ, Z.pow_succ_r by lia.
  replace (y * (2 * 2 ^ Z.of_nat n)) with (2 * (y * 2 ^ Z.of_nat n)) by lia.
  by rewrite crc_bit_even, <- Z.shiftl_mul_pow2 by lia.
Qed.

(** ** The checksum of a block *)

Lemma crc_byte_u32 c b : u32 c -> u32 (crc_byte c b).
Proof.
  intros. apply iter_crc_u32, lxor_u32; [done|]. pose proof (byte_val_range b). unfold u32; lia.
Qed.

Lemma crc_update_u32 c bs : u32 c -> u32 (crc_update c bs).
Proof.
  revert c; induction bs as [|b bs IH]; intros c Hc; cbn; [done|]. by apply IH, crc_byte_u32.
Qed.

Lemma crc_mask_u32 : u32 crc_mask.
Proof. done. Qed.

Lemma zlib_crc32_u32 data : u32 (zlib_crc32 data).
Proof. by apply lxor_u32; [apply crc_update_u32|]. Qed.

Lemma crc_update_app c bs cs : crc_update c (bs ++ cs) = crc_update (crc_update c bs) cs.
Proof. apply fold_left_app. Qed.

(** Consuming a block is running the register over the block read as one number. *)
Lemma crc_update_word c bs :
  crc_update c bs = Nat.iter (8 * length bs) crc_bit (Z.lxor c (le_word bs)).
Proof.
  revert c; induction bs as [|b bs IH]; intros c; [by cbn; rewrite Z.lxor_0_r|].
  cbn [crc_update fold_left le_word length]. fold (crc_update (crc_byte c b) bs).
  rewrite IH, <- Z.lxor_assoc, Nat.mul_succ_r, Nat.iter_add. f_equal.
  rewrite (iter_crc_lxor 8). unfold crc_byte. by rewrite (iter_crc_shift 8).
Qed.

Lemma le_word_cons b bs : le_word (b :: bs) = byte_val b + 256 * le_word bs.
Proof.
  cbn [le_word]. rewrite <- Z.add_nocarry_lxor; [rewrite Z.shiftl_mul_pow2 by lia; lia|].
  apply Z.bits_inj'. intros i Hi. rewrite Z.land_spec, Z.bits_0.
  destruct (Z.ltb_spec i 8).
  - by rewrite Z.shiftl_spec_low, andb_false_r by lia.
  - pose proof (byte_val_range b) as Hb. change 256 with (2 ^ 8) in Hb.
    by rewrite (proj1 (bounded_bits 8 _ ltac:(lia) (proj1 Hb)) Hb).
Qed.

Lemma le_word_range bs : 0 <= le_word bs < 256 ^ Z.of_nat (length bs).
Proof.
  induction bs as [|b bs IH]; [cbn; lia|]. rewrite le_word_cons. cbn [length].
  rewrite Nat2Z.inj_succ, Z.pow_succ_r by lia. pose proof (byte_val_range b). lia.
Qed.

Lemma le_word_u32 bs : (length bs <= 4)%nat -> u32 (le_word bs).
Proof.
  intros Hl. pose proof (le_word_range bs). 
  pose proof (Z.pow_le_mono_r 256 (Z.of_nat (length bs)) 4 ltac:(lia) ltac:(lia)).
  unfold u32. change (2 ^ 32) with (256 ^ 4). lia.
Qed.

Lemma le_word_inj bs cs : length bs = length cs -> le_word bs = le_word cs -> bs = cs.
Proof.
  revert cs; induction bs as [|b bs IH]; intros [|c cs]; try discriminate; [done|].
  intros [= Hl]. rewrite !le_word_cons. intros Hw.
  pose proof (byte_val_range b). pose proof (byte_val_range c).
  assert (byte_val b = byte_val c /\ le_word bs = le_word cs) as [Hb Hws] by lia.
  f_equal; [by apply byte_val_inj|by apply IH].
Qed.

Lemma crc_update_inj c d bs :
  u32 c -> u32 d -> crc_update c bs = crc_update d bs -> c = d.
Proof.
  revert c d; induction bs as [|b bs IH]; intros c d Hc Hd; [done|].
  cbn [crc_update fold_left]. intros H%IH; [|by apply crc_byte_u32..].
  apply iter_crc_inj in H; [by apply lxor_cancel_r in H| |];
    (apply lxor_u32; [done|]; pose proof (byte_val_range b); unfold u32; lia).
Qed.

(** Error detection: changing a window of at most four consecutive bytes changes the checksum. *)
Lemma crc32_detects_burst pre bs cs post :
  length bs = length cs -> (length bs <= 4)%nat ->
  zlib_crc32 (pre ++ bs ++ post) = zlib_crc32 (pre ++ cs ++ post) -> bs = cs.
Proof.
  intros Hl H4. unfold zlib_crc32. rewrite !crc_update_app. intros H%lxor_cancel_r.
  apply crc_update_inj in H; [|by repeat apply crc_update_u32..].
  pose proof (crc_update_u32 crc_mask pre crc_mask_u32) as Hp.
  generalize dependent (crc_update crc_mask pre). intros c H Hc.
  rewrite !crc_update_word, <- Hl in H.
  apply iter_crc_inj in H; [|apply lxor_u32; [done|apply le_word_u32; lia]..].
  rewrite !(Z.lxor_comm c) in H. apply lxor_cancel_r in H. by apply le_word_inj.
Qed.

(** The reference check of the profile: the nine characters 123456789. *)
Example crc32_check_value :
  zlib_crc32 [x31; x32; x33; x34; x35; x36; x37; x38; x39] = 0xCBF43926.
Proof. vm_compute. reflexivity. Qed.
