(* ===== verification/Sha256.v ===== *)
(** * SHA-256: the digest [hashlib.sha256(data).hexdigest()] of the evidence records

    The message schedule, the compression function and the padding of FIPS 180-4 on 32-bit words
    kept as integers modulo 2^32. *)
From S2P Require Import Prelude PyStruct PyFormat.

Open Scope Z_scope.

Definition word32 (x : Z) : Z := x mod 2 ^ 32.
Definition add32 (xs : list Z) : Z := word32 (foldr Z.add 0 xs).
Definition rotr (n x : Z) : Z := Z.lor (Z.shiftr x n) (word32 (Z.shiftl x (32 - n))).
Definition xor3 (x y z : Z) : Z := Z.lxor x (Z.lxor y z).

Definition big_sigma0 x := xor3 (rotr 2 x) (rotr 13 x) (rotr 22 x).
Definition big_sigma1 x := xor3 (rotr 6 x) (rotr 11 x) (rotr 25 x).
Definition small_sigma0 x := xor3 (rotr 7 x) (rotr 18 x) (Z.shiftr x 3).
Definition small_sigma1 x := xor3 (rotr 17 x) (rotr 19 x) (Z.shiftr x 10).
Definition ch x y z := Z.lxor (Z.land x y) (Z.land (Z.lxor x 0xffffffff) z).
Definition maj x y z := xor3 (Z.land x y) (Z.land x z) (Z.land y z).

(** The constants are the first 32 bits of the fractional parts of the square roots of the first 8
    primes and of the cube roots of the first 64. *)
Definition prime (n : Z) : bool :=
  (2 <=? n) && forallb (fun k => (n <=? k) || negb (n mod k =? 0)) (zrange 2 18).
Definition first_primes : list Z := List.filter prime (zrange 2 310).

(** The greatest [r] with [r ^ 3 <= n], bit by bit from bit [k - 1]. *)
Fixpoint cube_root (k : nat) (r n : Z) : Z :=
  match k with
  | O => r
  | S k' => let r' := r + 2 ^ Z.of_nat k' in cube_root k' (if r' * r' * r' <=? n then r' else r) n
  end.

Definition initial_hash : list Z :=
  Eval vm_compute in map (fun p => word32 (Z.sqrt (p * 2 ^ 64))) (take 8 first_primes).
Definition round_constants : list Z :=
  Eval vm_compute in map (fun p => word32 (cube_root 35 0 (p * 2 ^ 96))) first_primes.

(** The 64 words of the message schedule: [window] holds the sixteen latest words. *)
Fixpoint schedule (n : nat) (window : list Z) : list Z :=
  match n with
  | O => []
  | S n' =>
      let w i := nth i window 0 in
      w 0%nat :: schedule n' (drop 1 window ++
        [add32 [small_sigma1 (w 14%nat); w 9%nat; small_sigma0 (w 1%nat); w 0%nat]])
  end.

Definition compress_round (st : list Z) (kw : Z * Z) : list Z :=
  match st with
  | [a; b; c; d; e; f; g; h] =>
      let t1 := add32 [h; big_sigma1 e; ch e f g; kw.1; kw.2] in
      let t2 := add32 [big_sigma0 a; maj a b c] in
      [add32 [t1; t2]; a; b; c; add32 [d; t1]; e; f; g]
  | _ => st
  end.

Fixpoint chunks {A} (fuel size : nat) (l : list A) : list (list A) :=
  match fuel, l with
  | S fuel', _ :: _ => take size l :: chunks fuel' size (drop size l)
  | _, _ => []
  end.

Definition compress (hash : list Z) (block : bytes) : list Z :=
  let words := map be_decode (chunks 16 4 block) in
  zip_with (fun x y => add32 [x; y]) hash
    (foldl compress_round hash (zip round_constants (schedule 64 words))).

(** One byte 0x80, zeros up to eight bytes short of a block, the length in bits. *)
Definition sha_padding (length_bytes : Z) : bytes :=
  (x80 :: replicate (Z.to_nat ((55 - length_bytes) mod 64)) x00) ++ be_encode 8 (8 * length_bytes).

Definition sha256_words (data : bytes) : list Z :=
  let padded := data ++ sha_padding (Z.of_nat (length data)) in
  foldl compress initial_hash (chunks (length padded) 64 padded).

(** [hashlib.sha256(data).hexdigest()]. *)
Definition sha256_hexdigest (data : bytes) : string :=
  String.concat "" (map (format_int 16 false 8) (sha256_words data)).

#[global] Arguments sha256_hexdigest : simpl never.

(** The example digests of the standard: no data, one block, two blocks. *)
Example sha256_empty :
  sha256_hexdigest [] = "e3b0c44298fc1c149afbf4c8996fb92427ae41e4649b934ca495991b7852b855"%string.
Proof. vm_compute. reflexivity. Qed.
Example sha256_abc :
  sha256_hexdigest [x61; x62; x63] =
    "ba7816bf8f01cfea414140de5dae2223b00361a396177a9cb410ff61f20015ad"%string.
Proof. vm_compute. reflexivity. Qed.
Example sha256_two_blocks :
  sha256_hexdigest (replicate 64 x61) =
    "ffe054fe7ae0cb6dc65c3af9b61d5209f439851db43d0ba5997337df154668eb"%string.
Proof. vm_compute. reflexivity. Qed.

(** ** The digest is always 64 characters *)

Lemma compress_round_length st kw : length st = 8%nat -> length (compress_round st kw) = 8%nat.
Proof. intros H. by do 9 (destruct st as [|? st]; try discriminate H). Qed.

Lemma compress_length st block : length st = 8%nat -> length (compress st block) = 8%nat.
Proof.
  intros H. unfold compress. rewrite length_zip_with, H.
  enough (forall l s, length s = 8%nat -> length (foldl compress_round s l) = 8%nat) as ->; [done|done|].
  induction l as [|x l IH]; intros s Hs; [done|]. cbn. by apply IH, compress_round_length.
Qed.

Lemma add32_range xs : 0 <= add32 xs < 2 ^ 32.
Proof. apply Z.mod_pos_bound. lia. Qed.

Lemma sha256_words_shape data :
  length (sha256_words data) = 8%nat /\ Forall (fun w => 0 <= w < 2 ^ 32) (sha256_words data).
Proof.
  unfold sha256_words. generalize (chunks (length (data ++ sha_padding (Z.of_nat (length data)))) 64
    (data ++ sha_padding (Z.of_nat (length data)))).
  assert (length initial_hash = 8%nat /\ Forall (fun w => 0 <= w < 2 ^ 32) initial_hash) as H
    by (split; [done|]; repeat constructor; lia).
  revert H. generalize initial_hash as st. intros st H bs; revert st H.
  induction bs as [|b bs IH]; intros st [Hl Hr]; [done|]. cbn. apply IH. split; [by apply compress_length|].
  apply Forall_forall. intros w (i & Hi)%list_elem_of_lookup.
  unfold compress in Hi. apply lookup_zip_with_Some in Hi as (? & ? & -> & _). apply add32_range.
Qed.

Lemma string_length_concat n l :
  Forall (fun s => String.length s = n) l -> String.length (String.concat "" l) = (n * length l)%nat.
Proof.
  induction 1 as [|s l Hs Hl IH]; [done|]. cbn [String.concat]. destruct l as [|s' l'].
  - cbn. lia.
  - rewrite !string_length_app, Hs. cbn [String.length]. rewrite IH. cbn [length]. lia.
Qed.

Lemma sha256_hexdigest_length data : String.length (sha256_hexdigest data) = 64%nat.
Proof.
  destruct (sha256_words_shape data) as [Hl Hr]. unfold sha256_hexdigest.
  rewrite (string_length_concat 8), length_map, Hl; [done|].
  apply Forall_map. eapply Forall_impl; [exact Hr|]. intros w Hw. apply format_int_length; [lia|exact Hw].
Qed.
