(* ===== verification/Uuid.v ===== *)
(** * UUID values: construction from text and canonical text

    [UUID(text)] of the Python standard library with all the spellings it tolerates, [str(uuid)],
    the version field, and the lemma that the canonical text is the one fixed point of the two. *)
From S2P Require Import Prelude PyFormat.
From Stdlib Require Import Ascii.

Open Scope Z_scope.

Abbreviation uuid := Z (only parsing).
Abbreviation chars := (list ascii).

Definition text_of (cs : chars) : string := String.string_of_list_ascii cs.
Definition chars_of (s : string) : chars := String.list_ascii_of_string s.

Definition uuid_max : Z := 2 ^ 128.

(** [str(uuid)]: 32 hexadecimal digits in groups of 8, 4, 4, 4 and 12. *)
Definition hyphenate (h : chars) : chars :=
  take 8 h ++ "-"%char :: take 4 (drop 8 h) ++ "-"%char :: take 4 (drop 12 h) ++
  "-"%char :: take 4 (drop 16 h) ++ "-"%char :: drop 20 h.
Definition uuid_hex (u : uuid) : string := format_int 16 false 32 u.
Definition uuid_str (u : uuid) : string := text_of (hyphenate (chars_of (uuid_hex u))).

(** [uuid.version]: the version field of an RFC 4122 variant, [None] for the other variants. *)
Definition uuid_version (u : uuid) : option Z :=
  if Z.testbit u 63 && negb (Z.testbit u 62) then Some (Z.land (Z.shiftr u 76) 15) else None.

(** [text.replace(pat, "")], left to right without overlaps. *)
Fixpoint remove_text (pat : chars) (skip : nat) (cs : chars) : chars :=
  match cs, skip with
  | [], _ => []
  | _ :: cs', S k => remove_text pat k cs'
  | c :: cs', O =>
      if bool_decide (take (length pat) cs = pat) then remove_text pat (length pat - 1) cs'
      else c :: remove_text pat 0 cs'
  end.

(** [text.strip(set)]. *)
Fixpoint lstrip (inset : ascii -> bool) (cs : chars) : chars :=
  match cs with [] => [] | c :: cs' => if inset c then lstrip inset cs' else cs end.
Definition strip_chars (inset : ascii -> bool) (cs : chars) : chars :=
  rev (lstrip inset (rev (lstrip inset cs))).

Definition is_brace (c : ascii) : bool := is_char "{" c || is_char "}" c.
Definition is_space (c : ascii) : bool :=
  let n := Z.of_N (N_of_ascii c) in
  ((9 <=? n) && (n <=? 13)) || ((28 <=? n) && (n <=? 32)) || (n =? 133) || (n =? 160).

(** [int(text, 16)]: surrounding white space, a sign, a prefix [0x], single underscores between
    digits. *)
Fixpoint int16_digits (after_digit : bool) (acc : Z) (cs : chars) : option Z :=
  match cs with
  | [] => if after_digit then Some acc else None
  | c :: cs' =>
      if is_char "_" c then (if after_digit then int16_digits false acc cs' else None)
      else if 0 <=? char_digit c then int16_digits true (acc * 16 + char_digit c) cs'
      else None
  end.

Definition int16_unsigned (cs : chars) : option Z :=
  match cs with
  | z :: x :: rest =>
      if is_char "0" z && (is_char "x" x || is_char "X" x) then
        int16_digits false 0
          (match rest with u :: rest' => if is_char "_" u then rest' else rest | [] => rest end)
      else int16_digits false 0 cs
  | _ => int16_digits false 0 cs
  end.

Definition int16 (cs : chars) : option Z :=
  match strip_chars is_space cs with
  | [] => None
  | c :: cs' =>
      if is_char "-" c then Z.opp <$> int16_unsigned cs'
      else if is_char "+" c then int16_unsigned cs'
      else int16_unsigned (c :: cs')
  end.

(** [uuid.UUID(text)], [None] for [ValueError]. *)
Definition UUID (s : string) : option uuid :=
  let hex := remove_text (chars_of "uuid:") 0 (remove_text (chars_of "urn:") 0 (chars_of s)) in
  let hex := List.filter (fun c => negb (is_char "-" c)) (strip_chars is_brace hex) in
  if negb (length hex =? 32)%nat then None
  else match int16 hex with
       | Some v => if (0 <=? v) && (v <? uuid_max) then Some v else None
       | None => None
       end.

(** ** Lemmas *)

Lemma chars_text cs : chars_of (text_of cs) = cs.
Proof. apply String.list_ascii_of_string_of_list_ascii. Qed.

Lemma text_chars s : text_of (chars_of s) = s.
Proof. apply String.string_of_list_ascii_of_string. Qed.

Lemma remove_text_absent p pat cs : Forall (fun c => c <> p) cs -> remove_text (p :: pat) 0 cs = cs.
Proof.
  induction 1 as [|c cs Hc _ IH]; [done|]. cbn [remove_text]. rewrite bool_decide_eq_false_2, IH; [done|].
  cbn. congruence.
Qed.

Lemma lstrip_absent inset cs : Forall (fun c => inset c = false) cs -> lstrip inset cs = cs.
Proof. destruct 1 as [|c cs Hc _]; [done|]. cbn. by rewrite Hc. Qed.

Lemma strip_absent inset cs : Forall (fun c => inset c = false) cs -> strip_chars inset cs = cs.
Proof.
  intros H. unfold strip_chars. rewrite (lstrip_absent inset cs H).
  rewrite lstrip_absent; [by rewrite rev_involutive|]. by apply Forall_rev.
Qed.

(** The lower-case hexadecimal digits, and the properties of them the parser needs. *)
Definition hex_char (c : ascii) : bool := (0 <=? char_digit c) && negb (is_upper_hex c && negb (is_decimal c)).

Definition plain_hex (c : ascii) : bool :=
  negb (is_char "-" c) && negb (is_char "_" c) && negb (is_char "x" c) && negb (is_char "X" c) &&
  negb (is_char "+" c) && negb (is_char "u" c) && negb (is_brace c) && negb (is_space c) &&
  (0 <=? char_digit c).

Lemma hex_digit_plain d : 0 <= d < 16 -> plain_hex (digit_char false d) = true.
Proof. intros Hd. apply (zrange_check (fun d => plain_hex (digit_char false d)) 0 16); [by vm_compute|lia]. Qed.

Lemma plain_hex_not_space c : plain_hex c = true -> is_space c = false.
Proof. intros H. unfold plain_hex in H. bool_to_prop. done. Qed.

Lemma uuid_hex_digits u :
  0 <= u < uuid_max ->
  exists ds, chars_of (uuid_hex u) = map (digit_char false) ds /\ length ds = 32%nat /\
    Forall (fun d => 0 <= d < 16) ds /\ of_digits 16 ds = u.
Proof.
  intros Hu. destruct (format_int_digits 16 false 32 u) as (ds & Hs & Hds); [lia|unfold uuid_max in *; lia|].
  exists ds. unfold uuid_hex, chars_of. rewrite Hs. unfold digits_string.
  rewrite String.list_ascii_of_string_of_list_ascii. split; [done|].
  assert (length ds = 32%nat) as Hl.
  { pose proof (format_int_length 16 false 31 u ltac:(lia) Hu) as H.
    rewrite Hs in H. unfold digits_string in H. by rewrite length_string_of_list, length_map in H. }
  split; [done|]. split; [done|].
  pose proof (parse_format 16 false 32 u ltac:(lia) (proj1 Hu)) as Hp. rewrite Hs in Hp.
  by rewrite (parse_digits_string 16 false ds ltac:(lia) Hds) in Hp.
Qed.

Lemma int16_digits_plain b acc ds :
  Forall (fun d => 0 <= d < 16) ds -> (b = true \/ ds <> []) ->
  int16_digits b acc (map (digit_char false) ds) = Some (fold_left (fun acc d => acc * 16 + d) ds acc).
Proof.
  intros H; revert b acc. induction H as [|d ds Hd _ IH]; intros b acc Hb.
  - destruct Hb as [->|Hb]; done.
  - cbn [map int16_digits fold_left]. pose proof (hex_digit_plain d Hd) as Hp.
    unfold plain_hex in Hp. bool_to_prop.
    destruct (is_char "_" (digit_char false d)) eqn:?; [done|].
    rewrite char_digit_of_char by lia. destruct (Z.leb_spec 0 d); [|lia]. apply IH. by left.
Qed.

Lemma int16_plain ds :
  Forall (fun d => 0 <= d < 16) ds -> ds <> [] -> int16 (map (digit_char false) ds) = Some (of_digits 16 ds).
Proof.
  intros H Hne. assert (Forall (fun c => plain_hex c = true) (map (digit_char false) ds)) as Hp.
  { apply Forall_map. eapply Forall_impl; [exact H|]. intros d. apply hex_digit_plain. }
  unfold int16. rewrite strip_absent by (eapply Forall_impl; [exact Hp|apply plain_hex_not_space]).
  assert (int16_unsigned (map (digit_char false) ds) = Some (of_digits 16 ds)) as Hu.
  { unfold of_digits. rewrite <- (int16_digits_plain false 0 ds H (or_intror Hne)).
    destruct ds as [|d [|e ds]]; [done..|]. cbn [map int16_unsigned].
    apply Forall_cons in Hp as [_ Hp]. apply Forall_cons in Hp as [He _].
    unfold plain_hex in He. bool_to_prop.
    replace (is_char "x" (digit_char false e)) with false by congruence.
    replace (is_char "X" (digit_char false e)) with false by congruence.
    by rewrite andb_false_r. }
  destruct ds as [|d ds]; [done|]. cbn [map] in *. apply Forall_cons in Hp as [Hd _].
  unfold plain_hex in Hd. bool_to_prop.
  replace (is_char "-" (digit_char false d)) with false by congruence.
  by replace (is_char "+" (digit_char false d)) with false by congruence.
Qed.

Lemma hyphenate_forall (P : ascii -> Prop) h : P "-"%char -> Forall P h -> Forall P (hyphenate h).
Proof.
  intros Hd Hh. unfold hyphenate.
  repeat (apply Forall_app; split) || (constructor; [exact Hd|]) || (apply Forall_take) || (apply Forall_drop) || exact Hh.
Qed.

Lemma filter_all {A} (f : A -> bool) l : Forall (fun a => f a = true) l -> List.filter f l = l.
Proof. induction 1 as [|a l Ha _ IH]; [done|]. cbn. by rewrite Ha, IH. Qed.

Lemma hyphenate_filter h :
  Forall (fun c => is_char "-" c = false) h ->
  List.filter (fun c => negb (is_char "-" c)) (hyphenate h) = h.
Proof.
  intros Hh. assert (forall l, Forall (fun c => is_char "-" c = false) l ->
    List.filter (fun c => negb (is_char "-" c)) l = l) as Hf.
  { intros l Hl. apply filter_all. eapply Forall_impl; [exact Hl|]. by intros c ->. }
  unfold hyphenate. repeat (rewrite List.filter_app; cbn [List.filter is_char Ascii.eqb Bool.eqb negb]).
  rewrite !Hf by (repeat (apply Forall_take || apply Forall_drop); exact Hh).
  symmetry. do 4 (etransitivity; [symmetry; first [apply (take_drop 8 h) | apply (take_drop 4)]|f_equal; rewrite ?drop_drop]).
  done.
Qed.

Lemma plain_cases c : plain_hex c = true \/ c = "-"%char ->
  c <> "u"%char /\ is_brace c = false.
Proof.
  intros [H| ->]; [|done]. unfold plain_hex in H. bool_to_prop. split; [|done].
  intros ->. done.
Qed.

(** The canonical text is read back, and two UUIDs have different texts. *)
Lemma UUID_str u : 0 <= u < uuid_max -> UUID (uuid_str u) = Some u.
Proof.
  intros Hu. destruct (uuid_hex_digits u Hu) as (ds & Hc & Hl & Hds & Hv).
  unfold UUID, uuid_str. rewrite chars_text, Hc.
  assert (Forall (fun c => plain_hex c = true \/ c = "-"%char) (hyphenate (map (digit_char false) ds))) as Hp.
  { apply hyphenate_forall; [by right|]. apply Forall_map. eapply Forall_impl; [exact Hds|].
    intros d Hd. left. by apply hex_digit_plain. }
  change (chars_of "uuid:") with ("u"%char :: chars_of "uid:").
  change (chars_of "urn:") with ("u"%char :: chars_of "rn:").
  rewrite (remove_text_absent _ (chars_of "rn:")) by (eapply Forall_impl; [exact Hp|]; intros c Hcc; by apply plain_cases).
  rewrite remove_text_absent by (eapply Forall_impl; [exact Hp|]; intros c Hcc; by apply plain_cases).
  rewrite strip_absent by (eapply Forall_impl; [exact Hp|]; intros c Hcc; by apply plain_cases).
  rewrite hyphenate_filter.
  - rewrite length_map, Hl. cbn [Nat.eqb negb]. rewrite int16_plain, Hv; [|done|by intros ->].
    destruct (Z.leb_spec 0 u); [|lia]. destruct (Z.ltb_spec u uuid_max); [done|lia].
  - apply Forall_map. eapply Forall_impl; [exact Hds|]. intros d Hd.
    pose proof (hex_digit_plain d Hd) as H. unfold plain_hex in H. bool_to_prop. done.
Qed.

Lemma uuid_str_length u : 0 <= u < uuid_max -> String.length (uuid_str u) = 36%nat.
Proof.
  intros Hu. destruct (uuid_hex_digits u Hu) as (ds & Hc & Hl & _).
  assert (length (chars_of (uuid_hex u)) = 32%nat) as Hh by (by rewrite Hc, length_map).
  unfold uuid_str, text_of. rewrite length_string_of_list. unfold hyphenate.
  repeat (rewrite length_app || rewrite length_take || rewrite length_drop || cbn [length]). rewrite !Hh. reflexivity.
Qed.

Lemma uuid_str_inj u v : 0 <= u < uuid_max -> 0 <= v < uuid_max -> uuid_str u = uuid_str v -> u = v.
Proof. intros Hu Hv He. pose proof (UUID_str u Hu) as H. rewrite He, UUID_str in H by done. congruence. Qed.

Lemma UUID_range s u : UUID s = Some u -> 0 <= u < uuid_max.
Proof. unfold UUID. intros H. unwind H. bool_to_prop. injection H as <-. lia. Qed.

Example uuid_urn : UUID "urn:uuid:{12345678-1234-4678-9abc-123456789abc}" = Some 0x12345678123446789abc123456789abc.
Proof. vm_compute. reflexivity. Qed.
Example uuid_text : uuid_str 0x1 = "00000000-0000-0000-0000-000000000001"%string.
Proof. vm_compute. reflexivity. Qed.
