(* ===== verification/PyText.v ===== *)
(** * Python text operations of the services

    [int(text)], prefixes, the first field of a header value, lower case and [hmac.compare_digest], on
    text of 8-bit characters. *)
From S2P Require Import Prelude PyFormat Uuid.
From Stdlib Require Import Ascii.

Open Scope Z_scope.

Fixpoint int10_digits (after_digit : bool) (acc : Z) (cs : chars) : option Z :=
  match cs with
  | [] => if after_digit then Some acc else None
  | c :: cs' =>
      if is_char "_" c then (if after_digit then int10_digits false acc cs' else None)
      else if is_decimal c then int10_digits true (acc * 10 + char_digit c) cs'
      else None
  end.

(** [int(text)], [None] for ValueError: surrounding white space, a sign, single underscores between
    digits, at most 4300 digits. *)
Definition py_int (s : string) : option Z :=
  let cs := strip_chars is_space (chars_of s) in
  if (4300 <? length (List.filter is_decimal cs))%nat then None
  else match cs with
  | c :: cs' =>
      if is_char "-" c then Z.opp <$> int10_digits false 0 cs'
      else if is_char "+" c then int10_digits false 0 cs'
      else int10_digits false 0 cs
  | [] => None
  end.

Definition startswith (prefix : string) (s : string) : bool := String.prefix prefix s.

(** [s.removeprefix(prefix)]. *)
Definition removeprefix (prefix : string) (s : string) : string :=
  if startswith prefix s then text_of (drop (String.length prefix) (chars_of s)) else s.

(** [s.split(sep, 1)[0]]. *)
Fixpoint before_char (sep : ascii) (cs : chars) : chars :=
  match cs with
  | [] => []
  | c :: cs' => if is_char sep c then [] else c :: before_char sep cs'
  end.

(** [c.lower()]; the letters beyond ASCII stay beyond ASCII. *)
Definition lower_char (c : ascii) : ascii :=
  let n := N_of_ascii c in if ((65 <=? n) && (n <=? 90))%N then ascii_of_N (n + 32) else c.

Definition is_ascii (s : string) : bool := forallb (fun c => (N_of_ascii c <? 128)%N) (chars_of s).

(** [hmac.compare_digest(a, b)] of two strings, [None] for the TypeError it raises on text that is
    not ASCII. *)
Definition compare_digest (a b : string) : option bool :=
  if is_ascii a && is_ascii b then Some (bool_decide (a = b)) else None.

Example int_underscores : py_int " +1_024 " = Some 1024.
Proof. vm_compute. reflexivity. Qed.
Example int_words : py_int "ten" = None.
Proof. vm_compute. reflexivity. Qed.

(** Decimal digits without sign or underscores are read as the number they spell. *)
Lemma int10_digits_plain acc ds :
  Forall (fun d => 0 <= d < 10) ds -> ds <> [] ->
  int10_digits false acc (map (digit_char false) ds) = Some (fold_left (fun acc d => acc * 10 + d) ds acc).
Proof.
  intros Hds Hne. assert (forall b acc, b = true \/ ds <> [] ->
    int10_digits b acc (map (digit_char false) ds) = Some (fold_left (fun acc d => acc * 10 + d) ds acc)) as H; [|by apply H; right].
  clear Hne. induction Hds as [|d ds Hd _ IH]; intros b n Hb.
  - by destruct Hb as [->|].
  - cbn [map int10_digits fold_left].
    assert (is_char "_" (digit_char false d) = false /\ is_decimal (digit_char false d) = true) as [-> ->].
    { enough (negb (is_char "_" (digit_char false d)) && is_decimal (digit_char false d) = true) as [?%negb_true_iff ?]%andb_true_iff by done.
      apply (zrange_check (fun d => negb (is_char "_" (digit_char false d)) && is_decimal (digit_char false d)) 0 10); [by vm_compute|lia]. }
    rewrite char_digit_of_char by lia. apply IH. by left.
Qed.
