(* ===== verification/PyDecimal.v ===== *)
(** * Floats and decimal text

    [float(text)] with correct rounding, the shortest decimal that [repr] prints for a float, and the
    rounding of [Decimal.quantize] with [ROUND_HALF_UP], on text of 8-bit characters. *)
From S2P Require Import Prelude PyFloat PyFormat Uuid PyText.
From Stdlib Require Import Ascii.

Open Scope Z_scope.

(** ** From text *)

(** The float nearest to [c * 10 ^ e]. *)
Definition decimal_float (negative : bool) (c e : Z) : float :=
  if c =? 0 then S754_zero negative
  else if 0 <=? e then binary_normalize 53 1024 ((if negative then Z.opp else id) (c * 10 ^ e)) 0 negative
  else SFdiv 53 1024 (S754_finite negative (Z.to_pos c) 0) (S754_finite false (Z.to_pos (10 ^ (- e))) 0).

(** Leading digits: their value after [acc], their number, and the rest. *)
Fixpoint leading_digits (acc : Z) (n : nat) (cs : chars) : Z * nat * chars :=
  match cs with
  | c :: cs' => if is_decimal c then leading_digits (acc * 10 + char_digit c) (S n) cs' else (acc, n, cs)
  | [] => (acc, n, [])
  end.

(** The exponent part, after which nothing may follow. *)
Definition exponent_part (cs : chars) : option Z :=
  match cs with
  | [] => Some 0
  | c :: cs' =>
      if negb (is_char "e" (lower_char c)) then None
      else
        let '(sign, ds) := match cs' with
          | d :: ds => if is_char "-" d then (-1, ds) else if is_char "+" d then (1, ds) else (1, cs')
          | [] => (1, [])
          end in
        let '(v, n, rest) := leading_digits 0 0 ds in
        if (0 <? n)%nat && bool_decide (rest = []) then Some (sign * v) else None
  end.

(** Digits with an optional point, at least one digit in all, and the exponent. *)
Definition number_part (negative : bool) (cs : chars) : option float :=
  let '(whole, n, rest) := leading_digits 0 0 cs in
  let '(c, m, rest) := match rest with
    | p :: rest' => if is_char "." p then leading_digits whole 0 rest' else (whole, O, rest)
    | [] => (whole, O, [])
    end in
  if (n + m =? 0)%nat then None
  else (fun e => decimal_float negative c (e - Z.of_nat m)) <$> exponent_part rest.

(** Underscores stand between digits only, and are then dropped. *)
Fixpoint drop_underscores (after_digit : bool) (cs : chars) : option chars :=
  match cs with
  | [] => Some []
  | c :: cs' =>
      if is_char "_" c then
        match cs' with
        | d :: _ => if after_digit && is_decimal d then drop_underscores false cs' else None
        | [] => None
        end
      else cons c <$> drop_underscores (is_decimal c) cs'
  end.

(** [float(text)], [None] for ValueError. *)
Definition py_float (s : string) : option float :=
  cs ← drop_underscores false (strip_chars is_space (chars_of s));
  let '(negative, body) := match cs with
    | c :: cs' => if is_char "-" c then (true, cs') else if is_char "+" c then (false, cs') else (false, cs)
    | [] => (false, [])
    end in
  let word := text_of (lower_char <$> body) in
  if bool_decide (word = "inf"%string) || bool_decide (word = "infinity"%string) then Some (S754_infinity negative)
  else if bool_decide (word = "nan"%string) then Some S754_nan
  else number_part negative body.

Example float_texts :
  py_float " 1_0.50 " = Some (decimal 105 1) /\ py_float "-.5e+1" = Some (float_of_Z (-5)) /\
  py_float "1e23" = Some (S754_finite false 5960464477539062 24) /\ py_float "0.1" = Some (decimal 1 1) /\
  py_float "1e" = None /\ py_float "." = None /\ py_float "1__0" = None /\ py_float "+Infinity" = Some (S754_infinity false).
Proof. vm_compute. split_and!; reflexivity. Qed.

(** ** To text *)

(** The value of a positive finite float as a fraction. *)
Definition fraction (m : positive) (e : Z) : Z * Z := (Z.pos m * 2 ^ Z.max e 0, 2 ^ Z.max (- e) 0).

(** The decimals [c * 10 ^ e] next below and above [num / den], the nearer one first. *)
Definition neighbours (num den e : Z) : list Z :=
  let '(n, d) := if 0 <=? e then (num, den * 10 ^ e) else (num * 10 ^ (- e), den) in
  let q := n / d in
  if 2 * (n mod d) <=? d then [q; q + 1] else [q + 1; q].

(** The first exponent, from above, at which a neighbour is read back as the same float. *)
Fixpoint shortest_from (digits_left : nat) (f : float) (num den e : Z) : Z * Z :=
  match digits_left, List.filter (fun c => SFeqb (decimal_float false c e) f) (neighbours num den e) with
  | _, c :: _ => (c, e)
  | O, [] => (hd 0 (neighbours num den e), e)
  | S n, [] => shortest_from n f num den (e - 1)
  end.

(** An exponent above that of the leading digit by at most 3: 30103/100000 approximates [log10 2]. *)
Definition above (num den : Z) : Z := (Z.log2 num - Z.log2 den + 1) * 30103 / 100000 + 1.

(** The exponent of the leading decimal digit of [num / den], found from above. *)
Fixpoint leading_exponent (fuel : nat) (num den e : Z) : Z :=
  match fuel with
  | O => e
  | S fuel' =>
      if (if 0 <=? e then den * 10 ^ e <=? num else den <=? num * 10 ^ (- e)) then e
      else leading_exponent fuel' num den (e - 1)
  end.

(** [Decimal(str(f))] of a finite float: coefficient and exponent. *)
Definition decimal_of (f : float) : Z * Z :=
  match f with
  | S754_finite s m e =>
      let '(num, den) := fraction m e in
      let '(c, k) := shortest_from 16 (SFabs f) num den (leading_exponent 5 num den (above num den)) in
      (if s then - c else c, k)
  | _ => (0, 0)
  end.

Example shortest_decimals :
  decimal_of (decimal 284 1) = (284, -1) /\ decimal_of (float_add (decimal 1 1) (decimal 2 1)) = (30000000000000004, -17) /\
  decimal_of (S754_finite true 5960464477539062 24) = (-10, 22) /\ decimal_of (S754_finite false 1 (-1074)) = (5, -324) /\
  decimal_of (float_of_Z 1200) = (12, 2).
Proof. vm_compute. split_and!; reflexivity. Qed.

(** The decimal digits of a coefficient without its trailing zeros. *)
Definition significant (c : Z) : chars :=
  rev (lstrip (is_char "0") (rev (chars_of (pretty c)))).
Definition zeros (n : Z) : chars := repeat "0"%char (Z.to_nat n).

(** [repr(f)]: positional for decimal points from -3 to 16 places after the first digit, otherwise with
    an exponent of two digits at least. *)
Definition float_repr (f : float) : string :=
  match f with
  | S754_zero s => if s then "-0.0" else "0.0"
  | S754_infinity s => if s then "-inf" else "inf"
  | S754_nan => "nan"
  | S754_finite s m e =>
      let '(c, k) := decimal_of (S754_finite false m e) in
      let ds := significant c in
      let point := (Z.of_nat (String.length (pretty c)) + k)%Z in
      let whole := take (Z.to_nat point) ds in
      let rest := drop (Z.to_nat point) ds in
      (if s then "-" else "") +:+
      if ((-4 <? point) && (point <=? 16))%Z then
        text_of (if (point <=? 0)%Z then chars_of "0." ++ zeros (- point)%Z ++ ds
                 else whole ++ zeros (point - Z.of_nat (length ds))%Z ++ chars_of "." ++ (if bool_decide (rest = []) then chars_of "0" else rest))
      else
        let x := pretty (Z.abs (point - 1)%Z) in
        text_of (take 1 ds ++ (if bool_decide (drop 1 ds = []) then [] else chars_of "." ++ drop 1 ds)) +:+ "e" +:+
        (if (point - 1 <? 0)%Z then "-" else "+") +:+ (if (String.length x <? 2)%nat then "0" +:+ x else x)
  end%string.

Example float_reprs :
  map float_repr [decimal 284 1; float_of_Z (-1200); decimal 1 4; decimal 1 5; float_of_Z (10 ^ 15); float_of_Z (10 ^ 16);
    S754_finite false 5960464477539062 24; decimal 5 1]
  = ["28.4"; "-1200.0"; "0.0001"; "1e-05"; "1000000000000000.0"; "1e+16"; "1e+23"; "0.5"]%string.
Proof. vm_compute. reflexivity. Qed.

(** The integer nearest to [n / d], away from zero when halfway. *)
Definition half_up (n d : Z) : Z :=
  let q := Z.abs n / d in
  let r := Z.abs n mod d in
  Z.sgn n * (if d <=? 2 * r then q + 1 else q).

Lemma half_up_near n d : 0 < d -> 2 * Z.abs (d * half_up n d - n) <= d.
Proof.
  intros Hd. unfold half_up. pose proof (Z.div_mod (Z.abs n) d ltac:(lia)) as He.
  pose proof (Z.mod_pos_bound (Z.abs n) d Hd) as Hr.
  set (q := _ / _) in *. set (r := _ mod _) in *. clearbody q r.
  destruct (Z.leb_spec d (2 * r)), (Z.sgn_spec n) as [[? ->]|[[? ->]|[? ->]]]; nia.
Qed.
