(* ===== verification/Metrics.v ===== *)
(** * Metric counters: [mission_ground/telemetry/metrics.py]

    The declared counters and the Prometheus text of a snapshot; the increments themselves are commands
    of the Redis server and live with the other effects in Gateway.v. *)
From S2P Require Import Prelude.

Open Scope Z_scope.

Definition METRIC_HASH_KEY : string := "ground:telemetry:metrics".

Definition COUNTERS : list (string * string) := [
  ("payload_messages_received_total", "Authenticated telemetry deliveries received");
  ("payload_messages_rejected_total", "Authenticated telemetry deliveries rejected");
  ("payload_duplicate_messages_total", "Exact duplicate telemetry deliveries");
  ("payload_sequence_gaps_total", "Telemetry sequence values observed missing");
  ("payload_processing_successes_total", "Telemetry records processed successfully");
  ("payload_processing_failures_total", "Telemetry processing attempts that failed");
  ("payload_stale_results_total", "Valid telemetry results more than 24 hours old at receipt");
  ("vendor_authentication_failures_total", "Vendor requests rejected by authentication");
  ("database_errors_total", "Database operations that failed")]%string.

Definition known_counter (name : string) : bool := existsb (fun c => bool_decide (c.1 = name)) COUNTERS.

(** The lines of one counter, and of the exposition. *)
Definition counter_lines (counters : gmap string Z) (c : string * string) : list string := [
  ("# HELP " +:+ c.1 +:+ " " +:+ c.2); ("# TYPE " +:+ c.1 +:+ " counter");
  (c.1 +:+ " " +:+ pretty (default 0 (counters !! c.1)))]%string.

Definition newline : string := String.String (Ascii.ascii_of_N 10) String.EmptyString.

Definition render_prometheus (counters : gmap string Z) (queue_depth : Z) : string :=
  let lines := concat (map (counter_lines counters) COUNTERS) ++ [
    "# HELP payload_processing_queue_depth References waiting for the payload worker";
    "# TYPE payload_processing_queue_depth gauge";
    "payload_processing_queue_depth " +:+ pretty queue_depth]%string in
  (String.concat newline lines +:+ newline)%string.
