(* ===== verification/Json.v ===== *)
(** * JSON values, [json.dumps] of the queue entries and [json.loads]

    The standard decoder on text of 8-bit characters: white space, the escapes of strings, numbers,
    literals, arrays and objects (of a repeated name the last value counts), and the interpreter's limits
    on the digits of an integer and on nesting, whose errors are not JSONDecodeError.  The first error in
    the order of reading is raised.  On [readable] text this is what [json.loads] does; a byte string
    with other bytes, or with an escape for a character of more than 8 bits, is not modelled and taken as
    malformed. *)
From S2P Require Import Prelude PyFormat Uuid.
From Stdlib Require Import Ascii.

#[local] Set Warnings "-register-all".

Open Scope Z_scope.

Inductive json :=
| JNull
| JBool (b : bool)
| JInt (z : Z)
| JFloat (text : chars)
| JString (s : string)
| JArray (items : list json)
| JObject (members : list (string * json)).

(** The limits of the interpreter: [sys.get_int_max_str_digits()], 0 for none, and how many arrays and
    objects its C code goes down, one in the other, before it raises RecursionError. *)
Class Interpreter := { int_max_str_digits : Z; nesting_limit : Z; nesting_some : 0 < nesting_limit }.

(** The defaults of the interpreter, with one depth its recursion limit may leave. *)
Definition cpython : Interpreter := {| int_max_str_digits := 4300; nesting_limit := 900; nesting_some := eq_refl |}.

(** Has an integer with these digits no conversion to or from decimal text? *)
Definition too_many_digits `{Interpreter} (digits : Z) : bool := (0 <? int_max_str_digits) && (int_max_str_digits <? digits).

(** What reading raises: JSONDecodeError, the ValueError of a long integer, the RecursionError of deep nesting. *)
Inductive json_error := JSONDecodeError | IntegerTooLong | NestedTooDeep.

#[export] Instance json_error_eq_dec : EqDecision json_error.
Proof. solve_decision. Defined.

Definition char_val (c : ascii) : Z := Z.of_N (N_of_ascii c).
Definition char_of (z : Z) : ascii := ascii_of_N (Z.to_N z).

Definition quote : ascii := char_of 34.
Definition backslash : ascii := char_of 92.

(** ** Encoding *)

(** One character of a JSON string with [ensure_ascii]. *)
Definition escape_char (c : ascii) : chars :=
  let n := char_val c in
  if is_char quote c then [backslash; quote]
  else if is_char backslash c then [backslash; backslash]
  else if n =? 10 then [backslash; "n"%char]
  else if n =? 13 then [backslash; "r"%char]
  else if n =? 9 then [backslash; "t"%char]
  else if n =? 8 then [backslash; "b"%char]
  else if n =? 12 then [backslash; "f"%char]
  else if (n <? 32) || (126 <? n)
  then backslash :: "u"%char :: chars_of (format_int 16 false 4 n)
  else [c].

Definition dump_string (s : string) : chars := quote :: flat_map escape_char (chars_of s) ++ [quote].

(** [json.dumps(members, separators=(",", ":"))] of an object with string values. *)
Fixpoint dump_members (ms : list (string * string)) : chars :=
  match ms with
  | [] => []
  | [(k, v)] => dump_string k ++ ":"%char :: dump_string v
  | (k, v) :: ms' => dump_string k ++ ":"%char :: dump_string v ++ ","%char :: dump_members ms'
  end.
Definition dump_object (ms : list (string * string)) : chars := "{"%char :: dump_members ms ++ ["}"%char].

(** ** Decoding *)

Definition is_ws (c : ascii) : bool := let n := char_val c in (n =? 32) || (n =? 9) || (n =? 10) || (n =? 13).
Definition skip_ws : chars -> chars := lstrip is_ws.

(** Four hexadecimal digits. *)
Definition hex4 (cs : chars) : option (Z * chars) :=
  match cs with
  | a :: b :: c :: d :: rest =>
      if forallb (fun x => 0 <=? char_digit x) [a; b; c; d]
      then Some (((char_digit a * 16 + char_digit b) * 16 + char_digit c) * 16 + char_digit d, rest) else None
  | _ => None
  end.

(** The rest of a string after its opening quote. *)
Fixpoint scan_string (fuel : nat) (cs : chars) : option (chars * chars) :=
  match fuel, cs with
  | S fuel', c :: rest =>
      if is_char quote c then Some ([], rest)
      else if is_char backslash c then
        match rest with
        | e :: rest' =>
            let simple (z : Z) := '(s, tl) ← scan_string fuel' rest'; Some (char_of z :: s, tl) in
            if is_char quote e then simple 34 else if is_char backslash e then simple 92
            else if is_char "/" e then simple 47 else if is_char "b" e then simple 8
            else if is_char "f" e then simple 12 else if is_char "n" e then simple 10
            else if is_char "r" e then simple 13 else if is_char "t" e then simple 9
            else if is_char "u" e then
              '(n, rest'') ← hex4 rest';
              if n <? 256 then '(s, tl) ← scan_string fuel' rest''; Some (char_of n :: s, tl) else None
            else None
        | [] => None
        end
      else if (char_val c <? 32) || (127 <? char_val c) then None
      else '(s, tl) ← scan_string fuel' rest; Some (c :: s, tl)
  | _, _ => None
  end.

Fixpoint span (f : ascii -> bool) (cs : chars) : chars * chars :=
  match cs with
  | c :: cs' => if f c then let '(a, b) := span f cs' in (c :: a, b) else ([], cs)
  | [] => ([], [])
  end.

(** The parts of a number, each with what follows it: an optional minus sign, an integer part without
    leading zeros, a fraction and an exponent. *)
Definition take_sign (cs : chars) : chars * chars :=
  match cs with c :: r => if is_char "-" c then ([c], r) else ([], cs) | [] => ([], cs) end.
Definition take_whole (cs : chars) : chars * chars :=
  match cs with c :: r => if is_char "0" c then ([c], r) else span is_decimal cs | [] => ([], []) end.
Definition take_fraction (cs : chars) : chars * chars :=
  match cs with
  | p :: r => let '(ds, r') := span is_decimal r in
      if is_char "." p && negb (length ds =? 0)%nat then (p :: ds, r') else ([], cs)
  | [] => ([], [])
  end.
Definition take_exponent (cs : chars) : chars * chars :=
  match cs with
  | e :: r =>
      let '(sg, r) := match r with s :: r' => if is_char "+" s || is_char "-" s then ([s], r') else ([], r) | [] => ([], r) end in
      let '(ds, r') := span is_decimal r in
      if (is_char "e" e || is_char "E" e) && negb (length ds =? 0)%nat then (e :: sg ++ ds, r') else ([], cs)
  | [] => ([], [])
  end.

Definition number_of (sign int frac expo : chars) : json :=
  if (length frac + length expo =? 0)%nat
  then let n := of_digits 10 (map char_digit int) in JInt (if (length sign =? 0)%nat then n else - n)
  else JFloat (sign ++ int ++ frac ++ expo).

Section Decoder.
Context `{Interpreter}.

Definition expect {A} (m : option A) : result json_error A :=
  match m with Some a => Ok a | None => Raise JSONDecodeError end.

Definition scan_number (cs : chars) : result json_error (json * chars) :=
  let '(sign, cs) := take_sign cs in
  let '(int, cs) := take_whole cs in
  raise: JSONDecodeError when (length int =? 0)%nat ;;
  let '(frac, cs) := take_fraction cs in
  let '(expo, cs) := take_exponent cs in
  raise: IntegerTooLong when (length frac + length expo =? 0)%nat && too_many_digits (Z.of_nat (length int)) ;;
  Ok (number_of sign int frac expo, cs).

Definition starts (pat : string) (cs : chars) : option chars :=
  if bool_decide (take (String.length pat) cs = chars_of pat) then Some (drop (String.length pat) cs) else None.

Definition scan_literal (cs : chars) : result json_error (json * chars) :=
  match starts "null" cs, starts "true" cs, starts "false" cs with
  | Some r, _, _ => Ok (JNull, r)
  | _, Some r, _ => Ok (JBool true, r)
  | _, _, Some r => Ok (JBool false, r)
  | _, _, _ =>
      match starts "NaN" cs, starts "Infinity" cs, starts "-Infinity" cs with
      | Some r, _, _ => Ok (JFloat (chars_of "NaN"), r)
      | _, Some r, _ => Ok (JFloat (chars_of "Infinity"), r)
      | _, _, Some r => Ok (JFloat (chars_of "-Infinity"), r)
      | _, _, _ => scan_number cs
      end
  end.

(** [room] is the number of arrays and objects that may still be opened. *)
Fixpoint scan_value (fuel : nat) (room : Z) (cs : chars) : result json_error (json * chars) :=
  match fuel, cs with
  | S fuel', c :: rest =>
      if is_char quote c then '(s, tl) ← expect (scan_string fuel' rest); Ok (JString (text_of s), tl)
      else if is_char "{" c then
        raise: NestedTooDeep when room <=? 0 ;;
        match skip_ws rest with
        | c' :: rest' => if is_char "}" c' then Ok (JObject [], rest')
                         else '(ms, tl) ← scan_members fuel' (room - 1) (c' :: rest'); Ok (JObject ms, tl)
        | [] => Raise JSONDecodeError
        end
      else if is_char "[" c then
        raise: NestedTooDeep when room <=? 0 ;;
        match skip_ws rest with
        | c' :: rest' => if is_char "]" c' then Ok (JArray [], rest')
                         else '(items, tl) ← scan_items fuel' (room - 1) (c' :: rest'); Ok (JArray items, tl)
        | [] => Raise JSONDecodeError
        end
      else scan_literal cs
  | _, _ => Raise JSONDecodeError
  end
(** The members of an object from a name on, up to its closing brace. *)
with scan_members (fuel : nat) (room : Z) (cs : chars) : result json_error (list (string * json) * chars) :=
  match fuel, cs with
  | S fuel', c :: rest =>
      raise: JSONDecodeError when negb (is_char quote c) ;;
      '(key, tl) ← expect (scan_string fuel' rest);
      match skip_ws tl with
      | colon :: tl =>
          raise: JSONDecodeError when negb (is_char ":" colon) ;;
          '(v, tl) ← scan_value fuel' room (skip_ws tl);
          match skip_ws tl with
          | sep :: tl =>
              if is_char "}" sep then Ok ([(text_of key, v)], tl)
              else if is_char "," sep then
                '(ms, tl) ← scan_members fuel' room (skip_ws tl); Ok ((text_of key, v) :: ms, tl)
              else Raise JSONDecodeError
          | [] => Raise JSONDecodeError
          end
      | [] => Raise JSONDecodeError
      end
  | _, _ => Raise JSONDecodeError
  end
with scan_items (fuel : nat) (room : Z) (cs : chars) : result json_error (list json * chars) :=
  match fuel with
  | S fuel' =>
      '(v, tl) ← scan_value fuel' room cs;
      match skip_ws tl with
      | sep :: tl =>
          if is_char "]" sep then Ok ([v], tl)
          else if is_char "," sep then '(vs, tl) ← scan_items fuel' room (skip_ws tl); Ok (v :: vs, tl)
          else Raise JSONDecodeError
      | [] => Raise JSONDecodeError
      end
  | O => Raise JSONDecodeError
  end.

(** [json.loads(text)].  Each call of a scanner consumes a character, so twice the length of the text is
    fuel enough. *)
Definition json_loads (cs : chars) : result json_error json :=
  '(v, tl) ← scan_value (S (2 * length cs)) nesting_limit (skip_ws cs);
  match skip_ws tl with [] => Ok v | _ => Raise JSONDecodeError end.

(** A decoded object as a dictionary: the value of the last member with the name. *)
Fixpoint member (key : string) (ms : list (string * json)) : option json :=
  match ms with
  | [] => None
  | (k, v) :: ms' =>
      match member key ms' with
      | Some w => Some w
      | None => if bool_decide (k = key) then Some v else None
      end
  end.

(** Text written with apostrophes for quotation marks. *)
Definition quoted (s : string) : chars := map (fun c => if is_char "'" c then quote else c) (chars_of s).

End Decoder.

(** Text that the decoder models: bytes of ASCII other than NUL, which are UTF-8 for [json.loads], and no
    escape for a character beyond U+007F. *)
Fixpoint narrow_escapes (cs : chars) : bool :=
  match cs with
  | b :: ((u :: z :: z' :: d :: _) as rest) =>
      negb (is_char backslash b && is_char "u" u &&
            negb (is_char "0" z && is_char "0" z' && (0 <=? char_digit d) && (char_digit d <? 8))) && narrow_escapes rest
  | _ => true
  end.
Definition readable (cs : chars) : bool := forallb (fun c => (1 <=? char_val c) && (char_val c <=? 127)) cs && narrow_escapes cs.

Module JsonExamples.
#[local] Existing Instance cpython.

Example loads_object : json_loads (quoted " {'a' : [1, -2.5e3, true], 'b':'x\u0041\n'} ") =
  Ok (JObject [("a"%string, JArray [JInt 1; JFloat (chars_of "-2.5e3"); JBool true]);
               ("b"%string, JString (text_of ["x"; "A"; char_of 10]%char))]).
Proof. vm_compute. reflexivity. Qed.
Example loads_extra : json_loads (chars_of "{} x") = Raise JSONDecodeError.
Proof. vm_compute. reflexivity. Qed.
(** The limits are errors of their own, before whatever else is wrong with the text; floats have none. *)
Example loads_long : json_loads (replicate 4300 "1"%char ++ ["."; "5"]%char) <> Raise IntegerTooLong /\
  json_loads ("["%char :: replicate 4301 "1"%char ++ chars_of ", x") = Raise IntegerTooLong /\
  is_ok (json_loads (replicate 4300 "1"%char)) = true.
Proof. vm_compute. split; [discriminate|split; reflexivity]. Qed.
Example loads_deep : json_loads (replicate 901 "["%char) = Raise NestedTooDeep /\
  json_loads (replicate 900 "["%char ++ ["x"%char]) = Raise JSONDecodeError /\
  is_ok (json_loads (replicate 900 "["%char ++ replicate 900 "]"%char)) = true.
Proof. vm_compute. split_and!; reflexivity. Qed.
End JsonExamples.

Section Plain.
Context `{Interpreter}.

(** ** Strings without escapes are read back *)

Definition plain_char (c : ascii) : bool :=
  negb (is_char quote c) && negb (is_char backslash c) && (32 <=? char_val c) && (char_val c <=? 126).

Lemma escape_plain cs : Forall (fun c => plain_char c = true) cs -> flat_map escape_char cs = cs.
Proof.
  induction 1 as [|c cs Hc _ IH]; [done|]. cbn [flat_map]. rewrite IH. unfold plain_char in Hc. bool_to_prop.
  unfold escape_char. cbn zeta.
  repeat match goal with H : is_char _ c = false |- _ => rewrite H; clear H end.
  repeat (case_test; bool_to_prop; [lia|]). done.
Qed.

Lemma scan_plain fuel cs rest :
  Forall (fun c => plain_char c = true) cs -> (length cs < fuel)%nat ->
  scan_string fuel (cs ++ quote :: rest) = Some (cs, rest).
Proof.
  intros Hcs. revert fuel; induction Hcs as [|c cs Hc _ IH]; intros [|fuel] Hf; cbn in Hf; try lia; [done|].
  cbn [app scan_string]. unfold plain_char in Hc. bool_to_prop.
  repeat match goal with H : is_char _ c = false |- _ => rewrite H; clear H end.
  rewrite IH by lia. case_test; [bool_to_prop; lia|done].
Qed.

Lemma length_chars_of s : length (chars_of s) = String.length s.
Proof. induction s; cbn; [done|]. by f_equal. Qed.

Definition plain_text (s : string) : Prop := Forall (fun c => plain_char c = true) (chars_of s).

Lemma plain_text_app s t : plain_text s -> plain_text t -> plain_text (s +:+ t).
Proof. unfold plain_text, chars_of. intros Hs Ht. rewrite string_app_list. by apply Forall_app. Qed.

(** The value of a string without escapes, by one scanner call more than its length. *)
Lemma scan_plain_value fuel room v rest :
  plain_text v -> (String.length v < fuel)%nat ->
  scan_value (S fuel) room (dump_string v ++ rest) = Ok (JString v, rest).
Proof.
  intros Hv Hf. unfold dump_string. rewrite escape_plain by done.
  rewrite <- app_comm_cons, <- app_assoc. change ([quote] ++ rest) with (quote :: rest).
  cbn [scan_value]. rewrite (scan_plain fuel (chars_of v) rest) by (done || by rewrite length_chars_of).
  cbn. by rewrite text_chars.
Qed.

Definition members_fuel (ms : list (string * string)) : nat :=
  foldr (fun m n => 3 + String.length m.1 + String.length m.2 + n)%nat 0%nat ms.

Lemma skip_ws_stop c cs : is_ws c = false -> skip_ws (c :: cs) = c :: cs.
Proof. intros Hc. unfold skip_ws. cbn. by rewrite Hc. Qed.

Lemma skip_ws_string v rest : skip_ws (dump_string v ++ rest) = dump_string v ++ rest.
Proof. unfold dump_string. rewrite <- app_comm_cons. by apply skip_ws_stop. Qed.

Lemma dump_members_cons k v m ms :
  dump_members ((k, v) :: m :: ms) = dump_string k ++ ":"%char :: dump_string v ++ ","%char :: dump_members (m :: ms).
Proof. done. Qed.

Lemma skip_ws_members m ms rest : skip_ws (dump_members (m :: ms) ++ rest) = dump_members (m :: ms) ++ rest.
Proof. destruct m as [k v], ms as [|[k' v'] ms]; cbn [dump_members]; rewrite <- app_assoc; apply skip_ws_string. Qed.

(** One member whose name and value have no escapes. *)
Lemma scan_plain_member fuel room k v sep tl :
  plain_text k -> plain_text v -> (String.length k <= fuel)%nat -> (String.length v < fuel)%nat -> is_ws sep = false ->
  scan_members (S (S fuel)) room (dump_string k ++ ":"%char :: dump_string v ++ sep :: tl) =
  if is_char "}" sep then Ok ([(k, JString v)], tl)
  else if is_char "," sep then '(ms, tl) ← scan_members (S fuel) room (skip_ws tl); Ok ((k, JString v) :: ms, tl)
  else Raise JSONDecodeError.
Proof.
  intros Hk Hv Hlk Hlv Hs. unfold dump_string at 1. rewrite (escape_plain (chars_of k)), <- app_comm_cons, <- app_assoc by done.
  remember (S fuel) as fuel1. cbn [scan_members]. change (negb (is_char quote quote)) with false. cbn iota.
  change ([quote] ++ ?x) with (quote :: x).
  rewrite scan_plain by (done || rewrite length_chars_of; lia). cbn [expect mbind result_bind].
  rewrite skip_ws_stop by done. change (negb (is_char ":" ":")) with false. cbn iota. subst fuel1.
  rewrite skip_ws_string, scan_plain_value by done. cbn [mbind result_bind]. by rewrite skip_ws_stop, text_chars.
Qed.

Lemma scan_plain_members fuel room m ms rest :
  Forall (fun m => plain_text m.1 /\ plain_text m.2) (m :: ms) ->
  (members_fuel (m :: ms) <= fuel)%nat ->
  scan_members fuel room (dump_members (m :: ms) ++ "}"%char :: rest) =
  Ok (map (fun m => (m.1, JString m.2)) (m :: ms), rest).
Proof.
  revert fuel m; induction ms as [|m' ms IH]; intros fuel [k v] Hp Hf; apply Forall_cons in Hp as [[Hk Hv] Hp];
    unfold members_fuel in Hf; cbn [foldr fst snd] in *; (destruct fuel as [|[|fuel]]; [lia..|]).
  - cbn [dump_members]. rewrite <- app_assoc, <- app_comm_cons, scan_plain_member by (done || lia). done.
  - rewrite dump_members_cons, <- app_assoc, <- app_comm_cons, <- app_assoc, <- app_comm_cons.
    rewrite scan_plain_member by (done || lia). cbn [is_char Ascii.eqb Bool.eqb].
    rewrite skip_ws_members, IH; [done|done|]. unfold members_fuel. cbn [foldr]. lia.
Qed.

Lemma plain_dump_length s : plain_text s -> length (dump_string s) = (2 + String.length s)%nat.
Proof. intros Hs. unfold dump_string. rewrite escape_plain by done. cbn. rewrite length_app, length_chars_of. cbn. lia. Qed.

Lemma members_fuel_enough ms :
  Forall (fun m => plain_text m.1 /\ plain_text m.2) ms -> (members_fuel ms <= length (dump_members ms))%nat.
Proof.
  induction 1 as [|[k v] ms [Hk Hv] Hp IH]; [done|]. unfold members_fuel in *. cbn [foldr fst snd] in *. destruct ms as [|m ms].
  - cbn [dump_members foldr]. rewrite length_app. cbn [length]. rewrite !plain_dump_length by done. lia.
  - rewrite dump_members_cons, length_app. cbn [length]. rewrite length_app. cbn [length].
    rewrite !plain_dump_length by done. lia.
Qed.

(** A dictionary of strings without escapes is read back from its encoding. *)
Lemma loads_dump_object ms :
  Forall (fun m => plain_text m.1 /\ plain_text m.2) ms ->
  json_loads (dump_object ms) = Ok (JObject (map (fun m => (m.1, JString m.2)) ms)).
Proof.
  intros Hp. unfold json_loads. assert ((nesting_limit <=? 0) = false) as Hroom by (pose proof nesting_some; lia).
  destruct ms as [|m ms]; [cbn; by rewrite Hroom|].
  pose proof (members_fuel_enough _ Hp) as Hf. unfold dump_object at 1 2. rewrite skip_ws_stop by done. cbn [length].
  rewrite length_app. cbn [length]. remember (2 * _)%nat as fuel. cbn [scan_value].
  change (is_char quote "{") with false. change (is_char "{" "{") with true. cbn iota.
  rewrite Hroom, skip_ws_members.
  assert (exists tl, dump_members (m :: ms) ++ ["}"%char] = quote :: tl) as [tl Htl].
  { destruct m as [k v], ms as [|m' ms]; [|rewrite dump_members_cons]; eexists; reflexivity. }
  rewrite Htl. change (is_char "}" quote) with false. cbn iota. rewrite <- Htl, scan_plain_members by (done || lia).
  done.
Qed.
End Plain.
