(* ===== verification/JsonFuel.v ===== *)
(** * The fuel of the JSON decoder

    Every scanner returns a rest that is no longer than its text, and with the fuel that [json_loads] gives
    it none of them runs out: more fuel changes nothing.  So a JSONDecodeError of the decoder is one of the
    text. *)
From S2P Require Import Prelude PyFormat Uuid Json.
From Stdlib Require Import Ascii.

Open Scope Z_scope.

Lemma lstrip_length f cs : (length (lstrip f cs) <= length cs)%nat.
Proof. induction cs as [|c cs IH]; cbn; [done|]. destruct (f c); cbn; lia. Qed.

Lemma skip_ws_length cs : (length (skip_ws cs) <= length cs)%nat.
Proof. apply lstrip_length. Qed.

Lemma span_length f cs : (length (span f cs).2 <= length cs)%nat.
Proof. induction cs as [|c cs IH]; cbn; [done|]. destruct (f c); [|done]. destruct (span f cs). cbn in *. lia. Qed.

Lemma hex4_length cs n tl : hex4 cs = Some (n, tl) -> (length tl <= length cs)%nat.
Proof. unfold hex4. destruct cs as [|a [|b [|c [|d cs]]]]; try done. destruct (forallb _ _); [|done]. intros [= _ <-]. cbn. lia. Qed.

Lemma scan_string_length fuel : forall cs s tl, scan_string fuel cs = Some (s, tl) -> (length tl <= length cs)%nat.
Proof.
  induction fuel as [|fuel IH]; intros [|c cs] s tl; cbn [scan_string]; try done.
  assert (forall rest z, (s0 ← scan_string fuel rest; let '(x, y) := s0 in Some (z :: x, y)) = Some (s, tl) -> (length tl <= length rest)%nat) as Hs.
  { intros rest z. destruct (scan_string fuel rest) as [[x y]|] eqn:Hr; [|done]. intros [= _ <-]. by eapply IH. }
  destruct (is_char quote c); [intros [= _ <-]; cbn; lia|]. destruct (is_char backslash c).
  - destruct cs as [|e cs]; [done|].
    cbn zeta. do 8 (match goal with |- (if ?b then _ else _) = _ -> _ => destruct b end; [intros Hx%Hs; cbn; lia|]).
    destruct (is_char "u" e); [|done]. destruct (hex4 cs) as [[n r]|] eqn:Hh; [|done]. cbn [mbind option_bind].
    destruct (n <? 256); [|done]. intros Hx%Hs. apply hex4_length in Hh. cbn. lia.
  - destruct (_ || _); [done|]. intros Hx%Hs. cbn. lia.
Qed.

Lemma take_sign_length cs : (length (take_sign cs).2 <= length cs)%nat.
Proof. destruct cs as [|c cs]; cbn [take_sign]; [done|]. destruct (is_char "-" c); cbn; lia. Qed.
Lemma take_whole_length cs : (length (take_whole cs).2 <= length cs)%nat.
Proof. destruct cs as [|c cs]; cbn [take_whole]; [done|]. destruct (is_char "0" c); [cbn; lia|apply span_length]. Qed.
Lemma take_fraction_length cs : (length (take_fraction cs).2 <= length cs)%nat.
Proof.
  destruct cs as [|c cs]; cbn [take_fraction]; [done|]. pose proof (span_length is_decimal cs) as Hs.
  destruct (span is_decimal cs) as [ds r]. destruct (_ && _); cbn in *; lia.
Qed.
Lemma take_exponent_length cs : (length (take_exponent cs).2 <= length cs)%nat.
Proof.
  destruct cs as [|c cs]; cbn [take_exponent]; [done|].
  set (p := match cs with [] => _ | _ :: _ => _ end). assert (length p.2 <= length cs)%nat as Hp by (unfold p; destruct cs as [|d cs]; [done|destruct (_ || _); cbn; lia]).
  destruct p as [sg r]. cbn [snd] in Hp. pose proof (span_length is_decimal r) as Hs.
  destruct (span is_decimal r) as [ds r']. destruct (_ && _); cbn in *; lia.
Qed.

Lemma starts_length pat cs r : starts pat cs = Some r -> (length r <= length cs)%nat.
Proof. unfold starts. case_bool_decide; [|done]. intros [= <-]. rewrite length_drop. lia. Qed.

Section Fuel.
Context `{Interpreter}.

Lemma scan_number_length cs v tl : scan_number cs = Ok (v, tl) -> (length tl <= length cs)%nat.
Proof.
  unfold scan_number. pose proof (take_sign_length cs) as H1. destruct (take_sign cs) as [a r1].
  pose proof (take_whole_length r1) as H2. destruct (take_whole r1) as [b r2]. destruct (length b =? 0)%nat; [done|].
  pose proof (take_fraction_length r2) as H3. destruct (take_fraction r2) as [c r3].
  pose proof (take_exponent_length r3) as H4. destruct (take_exponent r3) as [d r4]. destruct (_ && _); [done|].
  intros [= _ <-]. cbn in *. lia.
Qed.

Lemma scan_literal_length cs v tl : scan_literal cs = Ok (v, tl) -> (length tl <= length cs)%nat.
Proof.
  unfold scan_literal. repeat (case_match; try by (intros [= _ <-]; eapply starts_length)). apply scan_number_length.
Qed.

(** The rest after a scan is no longer than the text. *)
Lemma scan_length fuel : forall room cs,
  (forall v tl, scan_value fuel room cs = Ok (v, tl) -> (length tl <= length cs)%nat) /\
  (forall ms tl, scan_members fuel room cs = Ok (ms, tl) -> (length tl <= length cs)%nat) /\
  (forall vs tl, scan_items fuel room cs = Ok (vs, tl) -> (length tl <= length cs)%nat).
Proof.
  induction fuel as [|fuel IH]; intros room cs; [by split_and!; destruct cs|]. split_and!.
  - intros v tl. destruct cs as [|c rest]; [done|]. cbn [scan_value]. pose proof (skip_ws_length rest) as Hw.
    destruct (is_char quote c); [|destruct (is_char "{" c); [|destruct (is_char "[" c)]].
    + destruct (scan_string fuel rest) as [[s r]|] eqn:Hs; [|done]. intros [= _ <-]. apply scan_string_length in Hs. cbn. lia.
    + destruct (room <=? 0); [done|]. destruct (skip_ws rest) as [|c' rest']; [done|]. cbn [length] in *.
      destruct (is_char "}" c'); [intros [= _ <-]; lia|].
      destruct (scan_members fuel (room - 1) (c' :: rest')) as [[ms r]|] eqn:Hm; [|done]. intros [= _ <-].
      apply (IH (room - 1) (c' :: rest')) in Hm. cbn in Hm. lia.
    + destruct (room <=? 0); [done|]. destruct (skip_ws rest) as [|c' rest']; [done|]. cbn [length] in *.
      destruct (is_char "]" c'); [intros [= _ <-]; lia|].
      destruct (scan_items fuel (room - 1) (c' :: rest')) as [[ms r]|] eqn:Hm; [|done]. intros [= _ <-].
      apply (IH (room - 1) (c' :: rest')) in Hm. cbn in Hm. lia.
    + apply scan_literal_length.
  - intros ms tl. destruct cs as [|c rest]; [done|]. cbn [scan_members]. destruct (negb _); [done|].
    destruct (scan_string fuel rest) as [[key r1]|] eqn:Hs; [|done]. cbn [expect mbind result_bind]. apply scan_string_length in Hs.
    pose proof (skip_ws_length r1) as Hw1. destruct (skip_ws r1) as [|colon r2]; [done|]. destruct (negb _); [done|].
    pose proof (skip_ws_length r2) as Hw2. destruct (scan_value fuel room (skip_ws r2)) as [[v r3]|] eqn:Hv; [|done]. cbn [mbind result_bind].
    apply (IH room) in Hv. pose proof (skip_ws_length r3) as Hw3. destruct (skip_ws r3) as [|sep r4]; [done|]. cbn [length] in *.
    destruct (is_char "}" sep); [intros [= _ <-]; lia|]. destruct (is_char "," sep); [|done]. pose proof (skip_ws_length r4) as Hw4.
    destruct (scan_members fuel room (skip_ws r4)) as [[ms' r5]|] eqn:Hm; [|done]. intros [= _ <-]. apply (IH room) in Hm. lia.
  - intros vs tl. cbn [scan_items]. destruct (scan_value fuel room cs) as [[v r1]|] eqn:Hv; [|done]. cbn [mbind result_bind].
    apply (IH room) in Hv. pose proof (skip_ws_length r1) as Hw1. destruct (skip_ws r1) as [|sep r2]; [done|]. cbn [length] in *.
    destruct (is_char "]" sep); [intros [= _ <-]; lia|]. destruct (is_char "," sep); [|done]. pose proof (skip_ws_length r2) as Hw2.
    destruct (scan_items fuel room (skip_ws r2)) as [[vs' r3]|] eqn:Hi; [|done]. intros [= _ <-]. apply (IH room) in Hi. lia.
Qed.

Lemma scan_string_fuel fuel : forall fuel' cs, (length cs < fuel <= fuel')%nat -> scan_string fuel cs = scan_string fuel' cs.
Proof.
  induction fuel as [|fuel IH]; intros [|fuel'] cs Hf; try lia. destruct cs as [|c cs]; [done|]. cbn [length] in Hf. cbn [scan_string].
  destruct (is_char quote c); [done|]. destruct (is_char backslash c).
  - destruct cs as [|e cs]; [done|]. cbn [length] in Hf. rewrite (IH fuel' cs) by lia.
    destruct (hex4 cs) as [[n r]|] eqn:Hh; [|done]. apply hex4_length in Hh. cbn [mbind option_bind]. by rewrite (IH fuel' r) by lia.
  - by rewrite (IH fuel' cs) by lia.
Qed.

(** With twice the length of its text, and one more, no scanner runs out of fuel. *)
Lemma scan_fuel fuel : forall fuel' room cs, (fuel <= fuel')%nat ->
  ((2 * length cs < fuel)%nat -> scan_value fuel room cs = scan_value fuel' room cs) /\
  ((2 * length cs < fuel)%nat -> scan_members fuel room cs = scan_members fuel' room cs) /\
  ((2 * length cs + 1 < fuel)%nat -> scan_items fuel room cs = scan_items fuel' room cs).
Proof.
  induction fuel as [|fuel IH]; intros [|fuel'] room cs Hle; [by split_and!; lia..|]. split_and!; intros Hf.
  - destruct cs as [|c rest]; [done|]. cbn [length] in Hf. cbn [scan_value]. pose proof (skip_ws_length rest) as Hw.
    rewrite (scan_string_fuel fuel fuel' rest) by lia. destruct (skip_ws rest) as [|c' rest']; [done|].
    destruct (IH fuel' (room - 1) (c' :: rest')) as (_ & -> & ->); try (cbn [length] in *; lia). done.
  - destruct cs as [|c rest]; [done|]. cbn [length] in Hf. cbn [scan_members]. rewrite (scan_string_fuel fuel fuel' rest) by lia.
    destruct (negb _); [done|]. destruct (scan_string fuel' rest) as [[key r1]|] eqn:Hs; [|done]. apply scan_string_length in Hs. cbn [expect mbind result_bind].
    pose proof (skip_ws_length r1) as Hw1. destruct (skip_ws r1) as [|colon r2]; [done|]. destruct (negb _); [done|]. cbn [length] in *.
    pose proof (skip_ws_length r2) as Hw2. destruct (IH fuel' room (skip_ws r2)) as (-> & _ & _); try lia.
    destruct (scan_value fuel' room (skip_ws r2)) as [[v r3]|] eqn:Hv; [|done]. cbn [mbind result_bind]. apply (scan_length fuel' room) in Hv.
    pose proof (skip_ws_length r3) as Hw3. destruct (skip_ws r3) as [|sep r4]; [done|]. cbn [length] in *. pose proof (skip_ws_length r4) as Hw4.
    by destruct (IH fuel' room (skip_ws r4)) as (_ & -> & _); try lia.
  - cbn [scan_items]. destruct (IH fuel' room cs) as (-> & _ & _); try lia.
    destruct (scan_value fuel' room cs) as [[v r1]|] eqn:Hv; [|done]. cbn [mbind result_bind]. apply (scan_length fuel' room) in Hv.
    pose proof (skip_ws_length r1) as Hw1. destruct (skip_ws r1) as [|sep r2]; [done|]. cbn [length] in *. pose proof (skip_ws_length r2) as Hw2.
    by destruct (IH fuel' room (skip_ws r2)) as (_ & _ & ->); try lia.
Qed.

(** The decoder's result does not depend on its fuel: no error of [json_loads] is that of the fuel. *)
Theorem loads_fuel cs fuel : (2 * length cs < fuel)%nat ->
  json_loads cs = '(v, tl) ← scan_value fuel nesting_limit (skip_ws cs); match skip_ws tl with [] => Ok v | _ => Raise JSONDecodeError end.
Proof.
  intros Hf. unfold json_loads. pose proof (skip_ws_length cs) as Hw.
  destruct (scan_fuel (S (2 * length cs)) fuel nesting_limit (skip_ws cs)) as (-> & _ & _); try lia. done.
Qed.
End Fuel.
