(* ===== verification/Codec.v ===== *)
(** * The telemetry frame codec: [mission_ground/telemetry/codec.py]

    The 28-byte frame of protocol version 1: data, ordered validation, encoder, decoder and the
    display identifier of a packet.  Integer fields are Python integers ([Z]); [operating_mode] and
    [fault_flags] are held as the integers their enumerations wrap, because the decoder builds a
    frame with the raw mode integer before it validates it.  Error details are the source's
    messages. *)
From Stdlib Require Import Ascii.
From S2P Require Import Prelude PyStruct PyFormat Crc32.

Module Codec.

(** ** Constants *)

Definition PROTOCOL_VERSION : Z := 1.
Definition SUPPORTED_PAYLOAD_ID : Z := 1.
Definition TELEMETRY_V1_BODY : list fmt := [fB; fB; fI; fI; fQ; fh; fH; fB; fB].
Definition CRC32_BIG_ENDIAN : list fmt := [fI].
Definition TELEMETRY_V1_BODY_SIZE : nat := calcsize TELEMETRY_V1_BODY.
Definition TELEMETRY_V1_FRAME_SIZE : nat := TELEMETRY_V1_BODY_SIZE + calcsize CRC32_BIG_ENDIAN.

Definition UINT32_MAX : Z := Z.shiftl 1 32 - 1.
(** 2026-01-01T00:00:00Z is 20454 days after the Unix epoch. *)
Definition PROJECT_EPOCH_US : Z := 20_454 * 86_400 * 1_000_000.
Definition MAX_FUTURE_SKEW_US : Z := 5 * 60 * 1_000_000.
Definition MIN_TEMPERATURE_CENTI_C : Z := -10_000.
Definition MAX_TEMPERATURE_CENTI_C : Z := 15_000.
Definition MIN_VOLTAGE_MV : Z := 0.
Definition MAX_VOLTAGE_MV : Z := 50_000.

(** ** Enumerations *)

Inductive OperatingMode := SAFE | STANDBY | SCIENCE | CALIBRATION.

#[export] Instance OperatingMode_eq_dec : EqDecision OperatingMode.
Proof. solve_decision. Defined.

Definition OperatingMode_value (m : OperatingMode) : Z :=
  match m with SAFE => 0 | STANDBY => 1 | SCIENCE => 2 | CALIBRATION => 3 end.

Definition OperatingMode_name (m : OperatingMode) : string :=
  match m with
  | SAFE => "SAFE" | STANDBY => "STANDBY" | SCIENCE => "SCIENCE" | CALIBRATION => "CALIBRATION"
  end.

(** The call [OperatingMode(v)], [None] where it raises [ValueError]. *)
Definition OperatingMode_of (v : Z) : option OperatingMode :=
  if v =? 0 then Some SAFE
  else if v =? 1 then Some STANDBY
  else if v =? 2 then Some SCIENCE
  else if v =? 3 then Some CALIBRATION
  else None.

Inductive FaultFlag :=
| OVER_TEMPERATURE | UNDER_VOLTAGE | OVER_VOLTAGE
| TEMPERATURE_SENSOR_FAULT | VOLTAGE_SENSOR_FAULT | INTERNAL_PAYLOAD_FAULT.

Definition FaultFlag_value (f : FaultFlag) : Z :=
  match f with
  | OVER_TEMPERATURE => 0x01
  | UNDER_VOLTAGE => 0x02
  | OVER_VOLTAGE => 0x04
  | TEMPERATURE_SENSOR_FAULT => 0x08
  | VOLTAGE_SENSOR_FAULT => 0x10
  | INTERNAL_PAYLOAD_FAULT => 0x20
  end.

Definition FaultFlag_name (f : FaultFlag) : string :=
  match f with
  | OVER_TEMPERATURE => "OVER_TEMPERATURE"
  | UNDER_VOLTAGE => "UNDER_VOLTAGE"
  | OVER_VOLTAGE => "OVER_VOLTAGE"
  | TEMPERATURE_SENSOR_FAULT => "TEMPERATURE_SENSOR_FAULT"
  | VOLTAGE_SENSOR_FAULT => "VOLTAGE_SENSOR_FAULT"
  | INTERNAL_PAYLOAD_FAULT => "INTERNAL_PAYLOAD_FAULT"
  end.

(** Iteration order of the flag class, its zero member [NONE] left out. *)
Definition FaultFlag_members : list FaultFlag :=
  [OVER_TEMPERATURE; UNDER_VOLTAGE; OVER_VOLTAGE;
   TEMPERATURE_SENSOR_FAULT; VOLTAGE_SENSOR_FAULT; INTERNAL_PAYLOAD_FAULT].

Definition flags_value (fs : list FaultFlag) : Z := foldr Z.lor 0 (map FaultFlag_value fs).

Definition DEFINED_FAULT_MASK : Z := flags_value FaultFlag_members.
Definition RESERVED_FAULT_MASK : Z := 0xC0.

(** ** Errors *)

Inductive TelemetryRejectionReason :=
| EMPTY_BODY
| UNSUPPORTED_PROTOCOL_VERSION
| INVALID_FRAME_LENGTH
| CRC_MISMATCH
| UNSUPPORTED_PAYLOAD_ID
| INVALID_BOOT_ID
| TIMESTAMP_BEFORE_PROJECT_EPOCH
| TIMESTAMP_TOO_FAR_IN_FUTURE
| TEMPERATURE_OUT_OF_RANGE
| VOLTAGE_OUT_OF_RANGE
| INVALID_OPERATING_MODE
| RESERVED_FAULT_BITS_SET.

#[export] Instance TelemetryRejectionReason_eq_dec : EqDecision TelemetryRejectionReason.
Proof. solve_decision. Defined.

Definition reason_value (r : TelemetryRejectionReason) : string :=
  match r with
  | EMPTY_BODY => "EMPTY_BODY"
  | UNSUPPORTED_PROTOCOL_VERSION => "UNSUPPORTED_PROTOCOL_VERSION"
  | INVALID_FRAME_LENGTH => "INVALID_FRAME_LENGTH"
  | CRC_MISMATCH => "CRC_MISMATCH"
  | UNSUPPORTED_PAYLOAD_ID => "UNSUPPORTED_PAYLOAD_ID"
  | INVALID_BOOT_ID => "INVALID_BOOT_ID"
  | TIMESTAMP_BEFORE_PROJECT_EPOCH => "TIMESTAMP_BEFORE_PROJECT_EPOCH"
  | TIMESTAMP_TOO_FAR_IN_FUTURE => "TIMESTAMP_TOO_FAR_IN_FUTURE"
  | TEMPERATURE_OUT_OF_RANGE => "TEMPERATURE_OUT_OF_RANGE"
  | VOLTAGE_OUT_OF_RANGE => "VOLTAGE_OUT_OF_RANGE"
  | INVALID_OPERATING_MODE => "INVALID_OPERATING_MODE"
  | RESERVED_FAULT_BITS_SET => "RESERVED_FAULT_BITS_SET"
  end.

(** What the module's functions raise: [TelemetryValidationError], a plain [ValueError], or the
    [struct.error] of a pack or unpack call. *)
Inductive codec_error :=
| TelemetryValidationError (reason : TelemetryRejectionReason) (detail : string)
| ValueError (message : string)
| StructFailure (e : struct_error).

#[export] Instance codec_error_eq_dec : EqDecision codec_error.
Proof. solve_decision. Defined.

Definition of_struct {A} (m : result struct_error A) : result codec_error A :=
  catch m (fun e => Raise (StructFailure e)).

Definition _reject {A} (reason : TelemetryRejectionReason) (detail : string) : result codec_error A :=
  Raise (TelemetryValidationError reason detail).

(** ** The frame *)

Record TelemetryFrame := mk_frame {
  payload_id : Z;
  boot_id : Z;
  sequence_number : Z;
  timestamp_us : Z;
  temperature_centi_c : Z;
  voltage_mv : Z;
  operating_mode : Z;
  fault_flags : Z;
  protocol_version : Z
}.

#[export] Instance TelemetryFrame_eq_dec : EqDecision TelemetryFrame.
Proof. solve_decision. Defined.

Definition crc32_iso_hdlc (data : bytes) : Z := Z.land (zlib_crc32 data) UINT32_MAX.

Definition _timestamp_us (value : datetime) : result codec_error Z :=
  match utcoffset_us value with
  | None => Raise (ValueError "ground_received_at must include a timezone")
  | Some offset =>
      let delta := timedelta_of_us (wall_us value - offset) in
      Ok (td_days delta * 86_400_000_000 + td_seconds delta * 1_000_000 + td_microseconds delta)
  end.

(** Apply version 1 field rules in Interface Control Document order. *)
Definition _validate_fields (frame : TelemetryFrame) (ground_received_at : option datetime)
  : result codec_error unit :=
  if negb (protocol_version frame =? PROTOCOL_VERSION) then
    _reject UNSUPPORTED_PROTOCOL_VERSION
      ("protocol_version must be " +:+ pretty PROTOCOL_VERSION +:+ ", got "
       +:+ pretty (protocol_version frame))
  else if negb (payload_id frame =? SUPPORTED_PAYLOAD_ID) then
    _reject UNSUPPORTED_PAYLOAD_ID
      ("payload_id must be " +:+ pretty SUPPORTED_PAYLOAD_ID +:+ ", got "
       +:+ pretty (payload_id frame))
  else if negb ((1 <=? boot_id frame) && (boot_id frame <=? UINT32_MAX)) then
    _reject INVALID_BOOT_ID
      ("boot_id must be between 1 and " +:+ pretty UINT32_MAX +:+ ", got "
       +:+ pretty (boot_id frame))
  else if negb ((0 <=? sequence_number frame) && (sequence_number frame <=? UINT32_MAX)) then
    Raise (ValueError ("sequence_number must be between 0 and " +:+ pretty UINT32_MAX +:+ ", got "
                       +:+ pretty (sequence_number frame)))
  else if negb ((0 <=? timestamp_us frame) && (timestamp_us frame <? Z.shiftl 1 64)) then
    Raise (ValueError "timestamp_us must fit an unsigned 64-bit integer")
  else if timestamp_us frame <? PROJECT_EPOCH_US then
    _reject TIMESTAMP_BEFORE_PROJECT_EPOCH "timestamp_us is before 2026-01-01T00:00:00Z"
  else
    match ground_received_at with
    | None => Ok tt
    | Some value =>
        received_us ← _timestamp_us value;
        if received_us + MAX_FUTURE_SKEW_US <? timestamp_us frame then
          _reject TIMESTAMP_TOO_FAR_IN_FUTURE
            "sample timestamp is more than five minutes after ground receipt"
        else Ok tt
    end ;;
    if negb ((MIN_TEMPERATURE_CENTI_C <=? temperature_centi_c frame)
             && (temperature_centi_c frame <=? MAX_TEMPERATURE_CENTI_C)) then
      _reject TEMPERATURE_OUT_OF_RANGE "temperature_centi_c must be between -10000 and 15000"
    else if negb ((MIN_VOLTAGE_MV <=? voltage_mv frame) && (voltage_mv frame <=? MAX_VOLTAGE_MV)) then
      _reject VOLTAGE_OUT_OF_RANGE "voltage_mv must be between 0 and 50000"
    else
      match OperatingMode_of (operating_mode frame) with
      | Some _ => Ok tt
      | None =>
          _reject INVALID_OPERATING_MODE
            ("operating_mode is not defined in version 1: " +:+ pretty (operating_mode frame))
      end ;;
      let fault_value := fault_flags frame in
      if negb ((0 <=? fault_value) && (fault_value <=? 0xFF)) then
        Raise (ValueError "fault_flags must fit an unsigned 8-bit integer")
      else if negb (Z.land fault_value RESERVED_FAULT_MASK =? 0) then
        _reject RESERVED_FAULT_BITS_SET
          ("reserved fault bits must be zero: 0x" +:+ format_02x fault_value)
      else Ok tt.

(** ** Encoder and decoder *)

Definition encode_telemetry (frame : TelemetryFrame) (ground_received_at : option datetime)
  : result codec_error bytes :=
  _validate_fields frame ground_received_at ;;
  body ← of_struct (pack TELEMETRY_V1_BODY
    [protocol_version frame; payload_id frame; boot_id frame; sequence_number frame;
     timestamp_us frame; temperature_centi_c frame; voltage_mv frame; operating_mode frame;
     fault_flags frame]);
  crc ← of_struct (pack CRC32_BIG_ENDIAN [crc32_iso_hdlc body]);
  Ok (body ++ crc).

Definition decode_telemetry (raw : bytes) (ground_received_at : datetime)
  : result codec_error TelemetryFrame :=
  match raw with
  | [] => _reject EMPTY_BODY "telemetry body is empty"
  | raw_0 :: _ =>
      if negb (byte_val raw_0 =? PROTOCOL_VERSION) then
        _reject UNSUPPORTED_PROTOCOL_VERSION
          ("protocol_version must be " +:+ pretty PROTOCOL_VERSION +:+ ", got "
           +:+ pretty (byte_val raw_0))
      else if negb (bool_decide (length raw = TELEMETRY_V1_FRAME_SIZE)) then
        _reject INVALID_FRAME_LENGTH
          ("telemetry version 1 must be " +:+ pretty (Z.of_nat TELEMETRY_V1_FRAME_SIZE)
           +:+ " bytes, got " +:+ pretty (Z.of_nat (length raw)))
      else
        let body := take TELEMETRY_V1_BODY_SIZE raw in
        crc_fields ← of_struct (unpack CRC32_BIG_ENDIAN (drop TELEMETRY_V1_BODY_SIZE raw));
        let expected_crc := default 0 (crc_fields !! 0%nat) in
        let actual_crc := crc32_iso_hdlc body in
        if negb (expected_crc =? actual_crc) then
          _reject CRC_MISMATCH
            ("expected CRC 0x" +:+ format_08X expected_crc +:+ ", calculated 0x"
             +:+ format_08X actual_crc)
        else
          fields ← of_struct (unpack TELEMETRY_V1_BODY body);
          match fields with
          | [version; payload; boot; sequence; timestamp; temperature; voltage; mode; flags] =>
              let frame := {|
                protocol_version := version;
                payload_id := payload;
                boot_id := boot;
                sequence_number := sequence;
                timestamp_us := timestamp;
                temperature_centi_c := temperature;
                voltage_mv := voltage;
                operating_mode := mode;
                fault_flags := flags |} in
              _validate_fields frame (Some ground_received_at) ;;
              match OperatingMode_of mode with
              | None => Raise (ValueError (pretty mode +:+ " is not a valid OperatingMode"))
              | Some m =>
                  Ok {| protocol_version := protocol_version frame;
                        payload_id := payload_id frame;
                        boot_id := boot_id frame;
                        sequence_number := sequence_number frame;
                        timestamp_us := timestamp_us frame;
                        temperature_centi_c := temperature_centi_c frame;
                        voltage_mv := voltage_mv frame;
                        operating_mode := OperatingMode_value m;
                        fault_flags := fault_flags frame |}
              end
          | _ => Raise (ValueError "unpack returned a wrong number of values")
          end
  end.

(** ** The display identifier *)

Definition packet_id_text (payload boot sequence : Z) : string :=
  "TLM-P" +:+ format_02d payload +:+ "-B" +:+ format_08X boot +:+ "-S" +:+ format_08X sequence.

Definition format_packet_id (payload boot sequence : Z) : result codec_error string :=
  if negb ((0 <=? payload) && (payload <=? 99)) then
    Raise (ValueError "payload_id must fit the two-digit display field")
  else if negb ((0 <=? boot) && (boot <=? UINT32_MAX)) then
    Raise (ValueError "boot_id must fit an unsigned 32-bit integer")
  else if negb ((0 <=? sequence) && (sequence <=? UINT32_MAX)) then
    Raise (ValueError "sequence_number must fit an unsigned 32-bit integer")
  else Ok (packet_id_text payload boot sequence).

(** The property [TelemetryFrame.packet_id]. *)
Definition packet_id (frame : TelemetryFrame) : result codec_error string :=
  format_packet_id (payload_id frame) (boot_id frame) (sequence_number frame).

(** ** Specification: the rules of the Interface Control Document in its order

    [wire_rules] are steps 4 to 7 of its validation order, [field_rules] steps 9 and 10, over the
    fields read at the byte offsets of its frame diagram. *)

Definition wire_field (raw : bytes) (offset size : nat) : Z := be_decode (take size (drop offset raw)).
Arguments wire_field : simpl never.
Definition wire_signed16 (u : Z) : Z := if u <? 32_768 then u else u - 65_536.

Definition icd_frame (raw : bytes) : TelemetryFrame := {|
  protocol_version := wire_field raw 0 1;
  payload_id := wire_field raw 1 1;
  boot_id := wire_field raw 2 4;
  sequence_number := wire_field raw 6 4;
  timestamp_us := wire_field raw 10 8;
  temperature_centi_c := wire_signed16 (wire_field raw 18 2);
  voltage_mv := wire_field raw 20 2;
  operating_mode := wire_field raw 22 1;
  fault_flags := wire_field raw 23 1 |}.

Definition wire_rules : list (TelemetryRejectionReason * (bytes -> bool)) := [
  (EMPTY_BODY, fun raw => bool_decide (raw = []));
  (UNSUPPORTED_PROTOCOL_VERSION, fun raw => negb (wire_field raw 0 1 =? 1));
  (INVALID_FRAME_LENGTH, fun raw => negb (bool_decide (length raw = 28%nat)));
  (CRC_MISMATCH, fun raw => negb (wire_field raw 24 4 =? zlib_crc32 (take 24 raw)))].

Definition field_rules (received_us : Z) : list (TelemetryRejectionReason * (TelemetryFrame -> bool)) := [
  (UNSUPPORTED_PAYLOAD_ID, fun f => negb (payload_id f =? 1));
  (INVALID_BOOT_ID, fun f => boot_id f =? 0);
  (TIMESTAMP_BEFORE_PROJECT_EPOCH, fun f => timestamp_us f <? 1_767_225_600_000_000);
  (TIMESTAMP_TOO_FAR_IN_FUTURE, fun f => received_us + 300_000_000 <? timestamp_us f);
  (TEMPERATURE_OUT_OF_RANGE,
     fun f => (temperature_centi_c f <? -10_000) || (15_000 <? temperature_centi_c f));
  (VOLTAGE_OUT_OF_RANGE, fun f => 50_000 <? voltage_mv f);
  (INVALID_OPERATING_MODE, fun f => 4 <=? operating_mode f);
  (RESERVED_FAULT_BITS_SET, fun f => 0x40 <=? fault_flags f)].

Definition icd_rules (received_us : Z) : list (TelemetryRejectionReason * (bytes -> bool)) :=
  wire_rules ++ map (fun rule => (rule.1, fun raw => rule.2 (icd_frame raw))) (field_rules received_us).

(** A frame all of whose fields are interface-valid. *)
Definition valid_frame (f : TelemetryFrame) : Prop :=
  protocol_version f = 1 /\ payload_id f = 1 /\ 1 <= boot_id f < 2 ^ 32 /\
  0 <= sequence_number f < 2 ^ 32 /\ 1_767_225_600_000_000 <= timestamp_us f < 2 ^ 64 /\
  -10_000 <= temperature_centi_c f <= 15_000 /\ 0 <= voltage_mv f <= 50_000 /\
  0 <= operating_mode f <= 3 /\ 0 <= fault_flags f <= 0x3F.

(** The receipt time, when there is one, is aware and not more than five minutes behind. *)
Definition receipt_allows (f : TelemetryFrame) (g : option datetime) : Prop :=
  match g with
  | None => True
  | Some t =>
      match utcoffset_us t with
      | None => False
      | Some offset => timestamp_us f <= wall_us t - offset + 300_000_000
      end
  end.

(** ** Lemmas *)

Lemma timestamp_us_aware t offset :
  utcoffset_us t = Some offset -> _timestamp_us t = Ok (wall_us t - offset).
Proof.
  intros Ho. unfold _timestamp_us. rewrite Ho. f_equal.
  apply (timedelta_total (wall_us t - offset)).
Qed.

Lemma timestamp_us_ok t us :
  _timestamp_us t = Ok us <-> exists offset, utcoffset_us t = Some offset /\ us = wall_us t - offset.
Proof.
  destruct (utcoffset_us t) as [offset|] eqn:Ho.
  - rewrite (timestamp_us_aware _ _ Ho). split; [intros [= <-]; eauto|by intros (? & [= <-] & ->)].
  - unfold _timestamp_us. rewrite Ho. split; [done|by intros (? & [=] & _)].
Qed.

Lemma OperatingMode_of_value m : OperatingMode_of (OperatingMode_value m) = Some m.
Proof. by destruct m. Qed.

Lemma OperatingMode_of_Some z m : OperatingMode_of z = Some m -> z = OperatingMode_value m.
Proof. unfold OperatingMode_of. repeat case_test; bool_to_prop; intros [= <-]; done. Qed.

Lemma OperatingMode_of_None z : OperatingMode_of z = None <-> ~ (0 <= z <= 3).
Proof. unfold OperatingMode_of. repeat case_test; bool_to_prop; split; intros; first [discriminate|done|lia]. Qed.

Lemma reserved_bits_clear z :
  0 <= z <= 0xFF -> (Z.land z RESERVED_FAULT_MASK =? 0) = (z <? 0x40).
Proof.
  intros Hz. apply eqb_prop.
  apply (zrange_check (fun z => Bool.eqb (Z.land z RESERVED_FAULT_MASK =? 0) (z <? 0x40)) 0 256);
    [vm_compute; reflexivity|lia].
Qed.

Lemma reserved_bits_clear_iff z :
  0 <= z <= 0xFF -> Z.land z RESERVED_FAULT_MASK = 0 <-> z < 0x40.
Proof. intros Hz. rewrite <- Z.eqb_eq, reserved_bits_clear by done. apply Z.ltb_lt. Qed.

Lemma crc32_iso_hdlc_spec data : crc32_iso_hdlc data = zlib_crc32 data.
Proof.
  unfold crc32_iso_hdlc. change UINT32_MAX with (Z.ones 32). rewrite Z.land_ones by lia.
  apply Z.mod_small, zlib_crc32_u32.
Qed.

(** The validator accepts exactly the interface-valid frames. *)
Lemma validate_fields_ok f g :
  _validate_fields f g = Ok tt <-> valid_frame f /\ receipt_allows f g.
Proof.
  unfold _validate_fields, valid_frame, receipt_allows.
  change UINT32_MAX with (2 ^ 32 - 1). change (Z.shiftl 1 64) with (2 ^ 64).
  change PROJECT_EPOCH_US with 1_767_225_600_000_000.
  unfold PROTOCOL_VERSION, SUPPORTED_PAYLOAD_ID, MIN_TEMPERATURE_CENTI_C, MAX_TEMPERATURE_CENTI_C,
    MIN_VOLTAGE_MV, MAX_VOLTAGE_MV, MAX_FUTURE_SKEW_US, _reject.
  split.
  - intros H. follow_ok H.
    assert (OperatingMode_of (operating_mode f) <> None) as Hm by (by destruct (OperatingMode_of _)).
    rewrite OperatingMode_of_None in Hm.
    match goal with Hl : Z.land _ _ = 0 |- _ => apply reserved_bits_clear_iff in Hl; [|lia] end.
    split; [lia|]. destruct g as [t|]; [|done]. follow_ok Hrun.
    apply timestamp_us_ok in Hrun1 as (offset & -> & ->). lia.
  - intros [Hf Hg].
    pose proof (reserved_bits_clear_iff (fault_flags f)) as Hr.
    pose proof (OperatingMode_of_None (operating_mode f)) as Hm.
    pass_guards. bind_to tt.
    { destruct g as [t|]; [|done]. cbn [receipt_allows] in Hg.
      destruct (utcoffset_us t) as [offset|] eqn:Ho; [|done].
      rewrite (timestamp_us_aware _ _ Ho). cbn [mbind result_bind]. by pass_guards. }
    pass_guards. bind_to tt.
    { destruct (OperatingMode_of _); [done|]. exfalso. apply (proj1 Hm); [done|lia]. }
    by pass_guards.
Qed.

(** Whatever the decoder reads, every field is inside its wire range. *)
Definition wire_range (f : TelemetryFrame) : Prop :=
  0 <= boot_id f < 2 ^ 32 /\ 0 <= sequence_number f < 2 ^ 32 /\ 0 <= timestamp_us f < 2 ^ 64 /\
  0 <= voltage_mv f /\ 0 <= operating_mode f /\ 0 <= fault_flags f < 256.

Lemma validate_fields_first_broken f t offset :
  protocol_version f = 1 -> wire_range f -> utcoffset_us t = Some offset ->
  match first_broken (field_rules (wall_us t - offset)) f with
  | Some r => exists detail, _validate_fields f (Some t) = Raise (TelemetryValidationError r detail)
  | None => _validate_fields f (Some t) = Ok tt
  end.
Proof.
  intros Hv (Hb & Hs & Ht & Hvolt & Hmode & Hflags) Ho. unfold _validate_fields, field_rules.
  rewrite Hv, (timestamp_us_aware _ _ Ho). cbn [first_broken mbind result_bind].
  change UINT32_MAX with (2 ^ 32 - 1). change (Z.shiftl 1 64) with (2 ^ 64).
  assert ((0 <=? sequence_number f) && (sequence_number f <=? 2 ^ 32 - 1) = true) as -> by lia.
  assert ((0 <=? timestamp_us f) && (timestamp_us f <? 2 ^ 64) = true) as -> by lia.
  assert ((0 <=? fault_flags f) && (fault_flags f <=? 0xFF) = true) as -> by lia.
  assert (negb ((1 <=? boot_id f) && (boot_id f <=? 2 ^ 32 - 1)) = (boot_id f =? 0)) as -> by lia.
  assert (negb ((MIN_TEMPERATURE_CENTI_C <=? temperature_centi_c f)
             && (temperature_centi_c f <=? MAX_TEMPERATURE_CENTI_C)) =
    (temperature_centi_c f <? -10_000) || (15_000 <? temperature_centi_c f)) as ->
    by (unfold MIN_TEMPERATURE_CENTI_C, MAX_TEMPERATURE_CENTI_C; lia).
  assert (negb ((MIN_VOLTAGE_MV <=? voltage_mv f) && (voltage_mv f <=? MAX_VOLTAGE_MV)) =
    (50_000 <? voltage_mv f)) as -> by (unfold MIN_VOLTAGE_MV, MAX_VOLTAGE_MV; lia).
  rewrite reserved_bits_clear by lia.
  assert (negb (fault_flags f <? 64) = (0x40 <=? fault_flags f)) as -> by lia.
  change SUPPORTED_PAYLOAD_ID with 1. change PROJECT_EPOCH_US with 1_767_225_600_000_000.
  change MAX_FUTURE_SKEW_US with 300_000_000. unfold _reject.
  assert (match OperatingMode_of (operating_mode f) with Some _ => false | None => true end =
    (4 <=? operating_mode f)) as Hm.
  { pose proof (OperatingMode_of_None (operating_mode f)) as Hn.
    destruct (OperatingMode_of _), (Z.leb_spec 4 (operating_mode f)); try done.
    - assert (~ 0 <= operating_mode f <= 3) as Hc by lia. by apply Hn in Hc.
    - exfalso. apply (proj1 Hn); [done|lia]. }
  rewrite <- Hm. change (negb (1 =? PROTOCOL_VERSION)) with false. cbv iota.
  do 6 (lazymatch goal with |- match (if ?c then _ else _) with _ => _ end => destruct c end;
        [by eexists|]; cbn [mbind result_bind]).
  destruct (OperatingMode_of _); [|by eexists]. cbn [mbind result_bind].
  destruct (64 <=? fault_flags f); [by eexists|done].
Qed.

(** ** Reading the wire *)

Lemma wire_field_range raw off n : 0 <= wire_field raw off n < 256 ^ Z.of_nat n.
Proof.
  unfold wire_field. pose proof (be_decode_range (take n (drop off raw))) as H.
  assert (length (take n (drop off raw)) <= n)%nat as Hl by (rewrite length_take; lia).
  pose proof (Z.pow_le_mono_r 256 (Z.of_nat (length (take n (drop off raw)))) (Z.of_nat n)). lia.
Qed.

Lemma signed16_spec u : 0 <= u < 65_536 -> fmt_of_unsigned fh u = wire_signed16 u.
Proof.
  intros. unfold fmt_of_unsigned, wire_signed16. cbn [fmt_signed andb].
  change (fmt_modulus fh) with 65_536. change (65_536 / 2) with 32_768.
  destruct (Z.leb_spec 32_768 u), (Z.ltb_spec u 32_768); lia.
Qed.

Lemma icd_frame_range raw : wire_range (icd_frame raw).
Proof.
  unfold wire_range, icd_frame; cbn.
  pose proof (wire_field_range raw 2 4). pose proof (wire_field_range raw 6 4).
  pose proof (wire_field_range raw 10 8). pose proof (wire_field_range raw 20 2).
  pose proof (wire_field_range raw 22 1). pose proof (wire_field_range raw 23 1).
  cbn in *. lia.
Qed.

(** The struct module reads a 28-byte frame at the offsets of the frame diagram. *)
Lemma unpack_body raw :
  length raw = 28%nat ->
  unpack TELEMETRY_V1_BODY (take 24 raw) =
  Ok [wire_field raw 0 1; wire_field raw 1 1; wire_field raw 2 4; wire_field raw 6 4;
      wire_field raw 10 8; wire_signed16 (wire_field raw 18 2); wire_field raw 20 2;
      wire_field raw 22 1; wire_field raw 23 1].
Proof.
  intros Hl. rewrite <- signed16_spec by apply (wire_field_range raw 18 2).
  do 28 (destruct raw as [|? raw]; [discriminate Hl|]). destruct raw; [|discriminate Hl]. done.
Qed.

Lemma unpack_crc raw :
  length raw = 28%nat -> unpack CRC32_BIG_ENDIAN (drop 24 raw) = Ok [wire_field raw 24 4].
Proof.
  intros Hl. do 28 (destruct raw as [|? raw]; [discriminate Hl|]). destruct raw; [|discriminate Hl]. done.
Qed.

Lemma wire_field_byte0 b raw : wire_field (b :: raw) 0 1 = byte_val b.
Proof. reflexivity. Qed.

(** A frame of the right version, length and checksum is decided by its fields. *)
Lemma decode_past_crc raw t :
  wire_field raw 0 1 = 1 -> length raw = 28%nat -> wire_field raw 24 4 = zlib_crc32 (take 24 raw) ->
  decode_telemetry raw t =
    (_validate_fields (icd_frame raw) (Some t) ;; Ok (icd_frame raw)).
Proof.
  intros Hv Hl Hc. destruct raw as [|b0 raw']; [discriminate Hl|]. unfold decode_telemetry.
  rewrite <- (wire_field_byte0 b0 raw'), Hv. change (negb (1 =? PROTOCOL_VERSION)) with false.
  rewrite (bool_decide_true _ Hl : bool_decide (length (b0 :: raw') = TELEMETRY_V1_FRAME_SIZE) = true).
  cbn [negb]. change TELEMETRY_V1_BODY_SIZE with 24%nat. set (raw := b0 :: raw') in *.
  rewrite unpack_crc by done. cbn [of_struct catch mbind result_bind lookup list_lookup default].
  rewrite crc32_iso_hdlc_spec, Hc, Z.eqb_refl. cbn [negb]. rewrite unpack_body by done.
  cbn [of_struct catch mbind result_bind]. fold (icd_frame raw).
  destruct (_validate_fields (icd_frame raw) (Some t)) as [[]|e] eqn:Hf; [|done].
  apply validate_fields_ok in Hf as [(_ & _ & _ & _ & _ & _ & _ & Hm & _) _].
  cbn [mbind result_bind]. change (wire_field raw 22 1) with (operating_mode (icd_frame raw)).
  destruct (OperatingMode_of _) as [m|] eqn:Hmode.
  - apply OperatingMode_of_Some in Hmode. by rewrite <- Hmode.
  - by apply OperatingMode_of_None in Hmode.
Qed.

(** A frame that fails steps 4 to 7 is rejected whatever the receipt time says. *)
Lemma decode_wire_rejects raw t r :
  first_broken wire_rules raw = Some r ->
  exists detail, decode_telemetry raw t = Raise (TelemetryValidationError r detail).
Proof.
  destruct raw as [|b0 raw']; [intros [= <-]; by eexists|].
  cbn [wire_rules first_broken]. rewrite bool_decide_false by done.
  unfold decode_telemetry. rewrite <- (wire_field_byte0 b0 raw').
  change PROTOCOL_VERSION with 1. change TELEMETRY_V1_FRAME_SIZE with 28%nat.
  destruct (negb (wire_field _ 0 1 =? 1)); [intros [= <-]; by eexists|].
  case_bool_decide as Hl; cbn [negb]; [|intros [= <-]; by eexists].
  change TELEMETRY_V1_BODY_SIZE with 24%nat. rewrite unpack_crc by done.
  cbn [of_struct catch mbind result_bind lookup list_lookup default].
  rewrite crc32_iso_hdlc_spec. destruct (negb (_ =? _)); [intros [= <-]; by eexists|done].
Qed.

Lemma wire_rules_none raw :
  first_broken wire_rules raw = None <->
  wire_field raw 0 1 = 1 /\ length raw = 28%nat /\ wire_field raw 24 4 = zlib_crc32 (take 24 raw).
Proof.
  rewrite first_broken_none. unfold wire_rules. rewrite !Forall_cons, Forall_nil. cbn [snd].
  rewrite !negb_false_iff, bool_decide_eq_true, bool_decide_eq_false, !Z.eqb_eq.
  split; [tauto|]. intros (? & Hl & ?). repeat split; try done. by intros ->.
Qed.

Lemma decode_ok raw t f :
  decode_telemetry raw t = Ok f <->
  first_broken wire_rules raw = None /\ f = icd_frame raw /\
  _validate_fields (icd_frame raw) (Some t) = Ok tt.
Proof.
  destruct (first_broken wire_rules raw) as [r|] eqn:Hw.
  - destruct (decode_wire_rejects raw t r Hw) as [d ->]. split; [done|by intros [? _]].
  - apply wire_rules_none in Hw as (Hv & Hl & Hc). rewrite decode_past_crc by done. split.
    + intros ([] & Hf & [= <-])%bind_ok. done.
    + by intros (_ & -> & ->).
Qed.

(** Every error of the decoder is a validation error, at an aware receipt time. *)
Lemma decode_raises raw t offset e :
  utcoffset_us t = Some offset -> decode_telemetry raw t = Raise e -> exists r detail, e = TelemetryValidationError r detail.
Proof.
  intros Ht He. destruct (first_broken wire_rules raw) as [r|] eqn:Hw.
  { destruct (decode_wire_rejects raw t r Hw) as [d Hd]. rewrite Hd in He. injection He as <-. by eexists _, _. }
  apply wire_rules_none in Hw as (Hv & Hl & Hc). rewrite decode_past_crc in He by done.
  pose proof (validate_fields_first_broken (icd_frame raw) t offset Hv (icd_frame_range raw) Ht) as Hf.
  destruct (first_broken _ _) as [r|]; [destruct Hf as [d Hf]|]; rewrite Hf in He; [|done].
  injection He as <-. by eexists _, _.
Qed.

(** ** Encoding *)

Definition frame_values (f : TelemetryFrame) : list Z :=
  [protocol_version f; payload_id f; boot_id f; sequence_number f; timestamp_us f;
   temperature_centi_c f; voltage_mv f; operating_mode f; fault_flags f].

Lemma pack_valid f : valid_frame f -> exists body, pack TELEMETRY_V1_BODY (frame_values f) = Ok body.
Proof.
  intros (? & ? & ? & ? & ? & ? & ? & ? & ?). apply pack_ok_iff.
  unfold TELEMETRY_V1_BODY, frame_values. solve_fits.
Qed.

Lemma pack_crc data : exists crc, pack CRC32_BIG_ENDIAN [crc32_iso_hdlc data] = Ok crc.
Proof.
  apply pack_ok_iff. rewrite crc32_iso_hdlc_spec. pose proof (zlib_crc32_u32 data) as Hu.
  unfold u32 in Hu. unfold CRC32_BIG_ENDIAN. solve_fits.
Qed.

Lemma encode_ok f g raw :
  encode_telemetry f g = Ok raw <->
  valid_frame f /\ receipt_allows f g /\
  exists body crc, pack TELEMETRY_V1_BODY (frame_values f) = Ok body /\
    pack CRC32_BIG_ENDIAN [crc32_iso_hdlc body] = Ok crc /\ raw = (body ++ crc)%list.
Proof.
  unfold encode_telemetry. fold (frame_values f). split.
  - intros ([] & Hf & (body & Hb & (crc & Hc & [= <-])%bind_ok)%bind_ok)%bind_ok.
    apply validate_fields_ok in Hf as [Hf Hg]. split; [done|]. split; [done|].
    unfold of_struct in *. exists body, crc.
    by destruct (pack TELEMETRY_V1_BODY _), (pack CRC32_BIG_ENDIAN _); simplify_eq/=.
  - intros (Hf & Hg & body & crc & Hb & Hc & ->).
    rewrite (proj2 (validate_fields_ok f g)) by done. cbn [mbind result_bind].
    rewrite Hb. cbn [of_struct catch mbind result_bind]. by rewrite Hc.
Qed.

(** The bytes that the encoder writes are read back at the diagram's offsets. *)
Lemma encoded_wire f body crc :
  pack TELEMETRY_V1_BODY (frame_values f) = Ok body ->
  pack CRC32_BIG_ENDIAN [crc32_iso_hdlc body] = Ok crc ->
  length (body ++ crc) = 28%nat /\ icd_frame (body ++ crc) = f /\
  wire_field (body ++ crc) 24 4 = zlib_crc32 (take 24 (body ++ crc)).
Proof.
  intros Hb Hc. pose proof (pack_length _ _ _ Hb) as Lb. pose proof (pack_length _ _ _ Hc) as Lc.
  change (calcsize _) with 24%nat in Lb. change (calcsize _) with 4%nat in Lc.
  assert (length (body ++ crc) = 28%nat) as Hl by (rewrite length_app; lia).
  pose proof (unpack_body _ Hl) as Hub. pose proof (unpack_crc _ Hl) as Huc.
  rewrite take_app_length' in * by done. rewrite drop_app_length' in Huc by done.
  rewrite (unpack_pack _ _ _ Hb) in Hub. rewrite (unpack_pack _ _ _ Hc) in Huc.
  unfold frame_values in Hub. split; [done|]. split.
  - unfold icd_frame. destruct f; cbn in *. by simplify_eq.
  - rewrite crc32_iso_hdlc_spec in Huc. by simplify_eq.
Qed.

Lemma icd_frame_values raw :
  length raw = 28%nat -> unpack TELEMETRY_V1_BODY (take 24 raw) = Ok (frame_values (icd_frame raw)).
Proof. intros. by rewrite unpack_body. Qed.

(** ** Corruption *)

Lemma wire_crc_field raw : length raw = 28%nat -> wire_field raw 24 4 = be_decode (drop 24 raw).
Proof. intros Hl. unfold wire_field. by rewrite take_ge by (rewrite length_drop; lia). Qed.

(** Changing bytes of the body only, or of the stored checksum only, breaks the checksum rule. *)
Lemma burst_breaks_crc pre bs cs post :
  length (pre ++ bs ++ post) = 28%nat -> length bs = length cs -> (length bs <= 4)%nat -> bs <> cs ->
  (length pre + length bs <= 24 \/ 24 <= length pre)%nat ->
  wire_field (pre ++ bs ++ post) 24 4 = zlib_crc32 (take 24 (pre ++ bs ++ post)) ->
  wire_field (pre ++ cs ++ post) 24 4 <> zlib_crc32 (take 24 (pre ++ cs ++ post)).
Proof.
  intros Hl Hbc H4 Hne Hwin. rewrite !length_app in Hl.
  rewrite !wire_crc_field by (rewrite !length_app; lia). destruct Hwin as [Hw|Hw].
  - rewrite !(app_assoc pre), !drop_app_ge, !take_app_ge by (rewrite length_app; lia).
    rewrite !length_app, <- Hbc. intros Hb Hc. apply Hne.
    apply (crc32_detects_burst pre _ _ (take (24 - (length pre + length bs)) post)); [done..|].
    rewrite !app_assoc. congruence.
  - rewrite !take_app_le by lia. intros Hb Hc. apply Hne. rewrite <- Hc in Hb.
    rewrite !drop_app_le in Hb by lia.
    apply be_decode_inj in Hb; [|rewrite !length_app; lia].
    apply app_inv_head in Hb. by apply app_inv_tail in Hb.
Qed.

(** ** Packet identifiers *)

(** The identifiers of valid frames have 27 characters. *)
Lemma packet_id_text_length p b s :
  0 <= p <= 99 -> 0 <= b <= UINT32_MAX -> 0 <= s <= UINT32_MAX -> String.length (packet_id_text p b s) = 27%nat.
Proof.
  change UINT32_MAX with 4294967295. intros Hp Hb Hs. unfold packet_id_text, format_02d, format_08X. rewrite !string_length_app.
  rewrite (format_int_length 10 false 1), !(format_int_length 16 true 7); [reflexivity|cbn; lia..].
Qed.

Lemma packet_id_text_inj p b s p' b' s' :
  0 <= p -> 0 <= b -> 0 <= s -> 0 <= p' -> 0 <= b' -> 0 <= s' ->
  packet_id_text p b s = packet_id_text p' b' s' -> p = p' /\ b = b' /\ s = s'.
Proof.
  intros. unfold packet_id_text, format_02d, format_08X in *.
  repeat match goal with H : _ +:+ _ = _ +:+ _ |- _ => apply string_app_inv_head in H end.
  match goal with H : _ |- _ =>
    apply (split_at_char "-"%char _ ("B" +:+ _) _ ("B" +:+ _)) in H;
    [destruct H as [Hp Hbs]|by apply format_int_no_dash..] end.
  apply string_app_inv_head in Hbs.
  apply (split_at_char "-"%char _ ("S" +:+ _) _ ("S" +:+ _)) in Hbs; [|by apply format_int_no_dash..].
  destruct Hbs as [Hb Hs]. apply string_app_inv_head in Hs.
  repeat split; (eapply format_int_inj; [..|eassumption]; lia).
Qed.

Lemma format_packet_id_ok p b s id :
  format_packet_id p b s = Ok id <->
  0 <= p <= 99 /\ 0 <= b <= UINT32_MAX /\ 0 <= s <= UINT32_MAX /\ id = packet_id_text p b s.
Proof.
  unfold format_packet_id. split.
  - intros H. follow_ok H. injection H as <-. split_and!; [lia..|done].
  - intros (? & ? & ? & ->). by pass_guards.
Qed.

(** ** A concrete frame: the golden vector of the interface document *)

Definition golden_frame : TelemetryFrame := {|
  payload_id := 1; boot_id := 42; sequence_number := 1; timestamp_us := 1_784_203_200_000_000;
  temperature_centi_c := 2_840; voltage_mv := 28_100; operating_mode := 2; fault_flags := 0;
  protocol_version := 1 |}.

Definition golden_raw : bytes := map byte_of
  [0x01; 0x01; 0x00; 0x00; 0x00; 0x2a; 0x00; 0x00; 0x00; 0x01; 0x00; 0x06; 0x56; 0xb9; 0x2d; 0xf1;
   0x70; 0x00; 0x0b; 0x18; 0x6d; 0xc4; 0x02; 0x00; 0xcc; 0x6d; 0x02; 0x05].

Definition golden_receipt : datetime := utc 1_784_203_201_000_000.

(** ** Properties *)

(** C36. The decoder implements the Interface Control Document's validation order: the reason of a
    rejection is the first broken rule of the document, every body that breaks none decodes to the
    fields at the documented offsets, and no other exception ever escapes (aware receipt time). *)
Theorem decode_follows_icd raw wall offset :
  let t := mk_datetime wall (Some offset) in
  match first_broken (icd_rules (wall - offset)) raw with
  | Some r => exists detail, decode_telemetry raw t = Raise (TelemetryValidationError r detail)
  | None => decode_telemetry raw t = Ok (icd_frame raw)
  end.
Proof.
  intros t. unfold icd_rules. rewrite first_broken_app, first_broken_map.
  destruct (first_broken wire_rules raw) as [r|] eqn:Hw; [by apply decode_wire_rejects|].
  apply wire_rules_none in Hw as (Hv & Hl & Hc). rewrite decode_past_crc by done.
  pose proof (validate_fields_first_broken (icd_frame raw) t offset Hv (icd_frame_range raw) eq_refl)
    as Hf.
  change (wall_us t) with wall in Hf.
  destruct (first_broken (field_rules _) _); [destruct Hf as [d ->]; by exists d|by rewrite Hf].
Qed.

(** Encoding succeeds exactly on interface-valid frames whose timestamp the receipt time (when
    one is given) allows; no valid frame makes [struct.pack] fail. *)
Theorem encode_total f g :
  (exists raw, encode_telemetry f g = Ok raw) <-> valid_frame f /\ receipt_allows f g.
Proof.
  split.
  - intros [raw Hr]. apply encode_ok in Hr. tauto.
  - intros [Hf Hg]. destruct (pack_valid f Hf) as [body Hb]. destruct (pack_crc body) as [crc Hc].
    exists (body ++ crc)%list. apply encode_ok. eauto 10.
Qed.

(** An encoded frame is read back, at every receipt time that allows it. *)
Lemma encoded_decodes f g raw t :
  encode_telemetry f g = Ok raw -> length raw = 28%nat /\ icd_frame raw = f /\ valid_frame f /\
    (receipt_allows f (Some t) -> decode_telemetry raw t = Ok f).
Proof.
  intros (Hf & _ & body & crc & Hb & Hc & ->)%encode_ok.
  destruct (encoded_wire f body crc Hb Hc) as (Hl & Hi & Hcrc). split; [done|]. split; [done|]. split; [done|]. intros Ht.
  assert (wire_field (body ++ crc) 0 1 = 1) as Hv
    by (change (wire_field _ 0 1) with (protocol_version (icd_frame (body ++ crc))); rewrite Hi; apply Hf).
  rewrite decode_past_crc, Hi by done. by rewrite (proj2 (validate_fields_ok f (Some t))).
Qed.

(** C37. Round trip: every frame the payload can encode is 28 bytes long and decodes, at any receipt
    time that allows its timestamp, to exactly the frame that was encoded. *)
Theorem decode_encode f g raw t :
  encode_telemetry f g = Ok raw -> receipt_allows f (Some t) ->
  length raw = 28%nat /\ decode_telemetry raw t = Ok f.
Proof. intros (Hl & _ & _ & Hd)%(encoded_decodes _ _ _ t) Ht. auto. Qed.

(** Canonical decoding: a body that decodes is the one encoding of its frame, so the preserved
    bytes and the decoded fields determine each other. *)
Theorem encode_decode raw t f :
  decode_telemetry raw t = Ok f -> valid_frame f /\ encode_telemetry f (Some t) = Ok raw.
Proof.
  intros (Hw & -> & Hf)%decode_ok. apply validate_fields_ok in Hf as [Hf Ht].
  apply wire_rules_none in Hw as (Hv & Hl & Hc). split; [done|]. apply encode_ok.
  split; [done|]. split; [done|]. exists (take 24 raw), (drop 24 raw).
  split; [by apply pack_unpack, icd_frame_values|]. split; [|by rewrite take_drop].
  apply pack_unpack. by rewrite unpack_crc, crc32_iso_hdlc_spec, Hc by done.
Qed.

(** C38. Error detection: if a body decodes, then replacing up to four consecutive bytes inside the
    24 covered bytes, or any bytes of the stored checksum, by different bytes of the same number is
    rejected, at every receipt time, for its version or for its checksum. *)
Theorem decode_detects_burst pre bs cs post t t' f :
  decode_telemetry (pre ++ bs ++ post) t = Ok f ->
  length bs = length cs -> (length bs <= 4)%nat -> bs <> cs ->
  (length pre + length bs <= 24 \/ 24 <= length pre)%nat ->
  exists r detail,
    decode_telemetry (pre ++ cs ++ post) t' = Raise (TelemetryValidationError r detail) /\
    (r = UNSUPPORTED_PROTOCOL_VERSION \/ r = CRC_MISMATCH).
Proof.
  intros (Hw & _ & _)%decode_ok Hbc H4 Hne Hwin. apply wire_rules_none in Hw as (_ & Hl & Hc).
  pose proof (burst_breaks_crc _ _ _ _ Hl Hbc H4 Hne Hwin Hc) as Hbad.
  assert (length (pre ++ cs ++ post) = 28%nat) as Hl' by (rewrite !length_app in *; lia).
  assert (exists r, first_broken wire_rules (pre ++ cs ++ post) = Some r /\
    (r = UNSUPPORTED_PROTOCOL_VERSION \/ r = CRC_MISMATCH)) as (r & Hr & Hcases).
  { generalize dependent (pre ++ cs ++ post). intros raw' Hbad Hl'. cbn [wire_rules first_broken].
    rewrite bool_decide_false by (by intros ->). rewrite (bool_decide_true _ Hl'). cbn [negb].
    destruct (negb (wire_field raw' 0 1 =? 1)); [eauto|].
    destruct (Z.eqb_spec (wire_field raw' 24 4) (zlib_crc32 (take 24 raw'))); [done|eauto]. }
  destruct (decode_wire_rejects _ t' r Hr) as [d Hd]. by exists r, d.
Qed.

(** Packet identifiers are injective: two in-range keys with the same display identifier are the
    same payload, boot session and sequence number. *)
Theorem format_packet_id_injective p b s p' b' s' id :
  format_packet_id p b s = Ok id -> format_packet_id p' b' s' = Ok id ->
  p = p' /\ b = b' /\ s = s'.
Proof.
  intros (? & ? & ? & ->)%format_packet_id_ok (? & ? & ? & He)%format_packet_id_ok.
  apply packet_id_text_inj; [lia..|done].
Qed.

(** ** Witnesses *)

Lemma decode_encode_witness :
  encode_telemetry golden_frame None = Ok golden_raw /\ receipt_allows golden_frame (Some golden_receipt) /\
  length golden_raw = 28%nat /\ decode_telemetry golden_raw golden_receipt = Ok golden_frame.
Proof.
  assert (encode_telemetry golden_frame None = Ok golden_raw) as He by (vm_compute; reflexivity).
  assert (receipt_allows golden_frame (Some golden_receipt)) as Hr by (cbn; lia).
  split; [exact He|]. split; [exact Hr|]. exact (decode_encode _ _ _ _ He Hr).
Defined.

Lemma encode_decode_witness :
  decode_telemetry golden_raw golden_receipt = Ok golden_frame /\
  valid_frame golden_frame /\ encode_telemetry golden_frame (Some golden_receipt) = Ok golden_raw.
Proof.
  assert (decode_telemetry golden_raw golden_receipt = Ok golden_frame) as Hd by (vm_compute; reflexivity).
  split; [exact Hd|]. exact (encode_decode _ _ _ Hd).
Defined.

Lemma decode_detects_burst_witness :
  exists r detail,
    decode_telemetry (take 18 golden_raw ++ [x0b; x19] ++ drop 20 golden_raw) golden_receipt =
      Raise (TelemetryValidationError r detail) /\
    (r = UNSUPPORTED_PROTOCOL_VERSION \/ r = CRC_MISMATCH).
Proof.
  apply (decode_detects_burst (take 18 golden_raw) [x0b; x18] [x0b; x19] (drop 20 golden_raw)
           golden_receipt golden_receipt golden_frame).
  - vm_compute. reflexivity.
  - reflexivity.
  - cbn. lia.
  - discriminate.
  - left. cbn. lia.
Defined.

Lemma format_packet_id_injective_witness :
  format_packet_id 1 42 1 = Ok "TLM-P01-B0000002A-S00000001"%string /\ 1 = 1 /\ 42 = 42 /\ 1 = 1.
Proof.
  assert (format_packet_id 1 42 1 = Ok "TLM-P01-B0000002A-S00000001"%string) as H by (vm_compute; reflexivity).
  split; [exact H|]. exact (format_packet_id_injective _ _ _ _ _ _ _ H H).
Defined.

End Codec.
