(* ===== verification/Sequence.v ===== *)
(** * Sequence decisions: [mission_ground/telemetry/sequence.py]

    The pure algorithm that turns a high-water mark, an incoming sequence number and the permanent
    record under the same key into a decision.  Python [None] is [None]; the type tests on [bool]
    and on non-[bytes] arguments have no counterpart because the arguments are typed here. *)
From S2P Require Import Prelude.

Open Scope Z_scope.

Module Sequence.

Definition UINT32_MODULUS : Z := Z.shiftl 1 32.
Definition UINT32_MAX : Z := UINT32_MODULUS - 1.
Definition HALF_RANGE : Z := Z.shiftl 1 31.

Inductive SequenceDisposition :=
| FIRST_IN_ORDER | FIRST_WITH_GAP | IN_ORDER | GAP | DUPLICATE | CONFLICT | LATE_OR_OUT_OF_ORDER.

#[export] Instance SequenceDisposition_eq_dec : EqDecision SequenceDisposition.
Proof. solve_decision. Defined.

Inductive sequence_error :=
| ValueError (message : string)
| SequenceStateError (message : string).

Record SequenceDecision := mk_decision {
  disposition : SequenceDisposition;
  accepted : bool;
  should_queue : bool;
  should_advance_high_water : bool;
  next_high_water : option Z;
  missing_count : Z
}.

(** The property [is_unique]. *)
Definition is_unique (d : SequenceDecision) : bool :=
  negb (bool_decide (disposition d ∈ [DUPLICATE; CONFLICT])).

Definition _validate_uint32 (name : string) (value : Z) : result sequence_error unit :=
  if negb ((0 <=? value) && (value <=? UINT32_MAX)) then
    Raise (ValueError (name +:+ " must be an unsigned 32-bit integer"))
  else Ok tt.

(** The branch on the permanent record stored under the same key. *)
Definition decide_existing (last_high_water : option Z) (incoming_bytes existing : bytes)
  : SequenceDecision :=
  if bool_decide (existing = incoming_bytes) then
    {| disposition := DUPLICATE; accepted := true; should_queue := false;
       should_advance_high_water := false; next_high_water := last_high_water;
       missing_count := 0 |}
  else
    {| disposition := CONFLICT; accepted := false; should_queue := false;
       should_advance_high_water := false; next_high_water := last_high_water;
       missing_count := 0 |}.

(** The branch for a key without a permanent record. *)
Definition decide_new (last_high_water : option Z) (current_sequence : Z)
  : result sequence_error SequenceDecision :=
  match last_high_water with
  | None =>
      Ok {| disposition := if current_sequence =? 0 then FIRST_IN_ORDER else FIRST_WITH_GAP;
            accepted := true; should_queue := true; should_advance_high_water := true;
            next_high_water := Some current_sequence; missing_count := current_sequence |}
  | Some last =>
      let forward_distance := (current_sequence - last) mod UINT32_MODULUS in
      if forward_distance =? 0 then
        Raise (SequenceStateError
          "the current sequence equals the high-water mark, but its permanent packet record was not supplied")
      else if forward_distance =? 1 then
        Ok {| disposition := IN_ORDER; accepted := true; should_queue := true;
              should_advance_high_water := true; next_high_water := Some current_sequence;
              missing_count := 0 |}
      else if (2 <=? forward_distance) && (forward_distance <? HALF_RANGE) then
        Ok {| disposition := GAP; accepted := true; should_queue := true;
              should_advance_high_water := true; next_high_water := Some current_sequence;
              missing_count := forward_distance - 1 |}
      else
        Ok {| disposition := LATE_OR_OUT_OF_ORDER; accepted := true; should_queue := true;
              should_advance_high_water := false; next_high_water := last_high_water;
              missing_count := 0 |}
  end.

Definition decide_sequence (last_high_water : option Z) (current_sequence : Z)
    (incoming_bytes : bytes) (existing_packet_bytes : option bytes)
  : result sequence_error SequenceDecision :=
  _validate_uint32 "current_sequence" current_sequence ;;
  match last_high_water with
  | Some w => _validate_uint32 "last_high_water" w
  | None => Ok tt
  end ;;
  if bool_decide (incoming_bytes = []) then
    Raise (ValueError "incoming_bytes must be non-empty bytes")
  else
    match existing_packet_bytes with
    | Some existing => Ok (decide_existing last_high_water incoming_bytes existing)
    | None => decide_new last_high_water current_sequence
    end.

(** ** A boot session: the decisions taken for a stream of packets

    The caller's loop: load the high-water mark and the permanent record under the packet's key,
    decide, and persist the new mark and, for a new packet, its record. *)

Record session := mk_session { high_water : option Z; packets : gmap Z bytes }.

Definition empty_session : session := mk_session None ∅.

Definition deliver (s : session) (seqno : Z) (raw : bytes) : result sequence_error (SequenceDecision * session) :=
  d ← decide_sequence (high_water s) seqno raw (packets s !! seqno);
  Ok (d, {| high_water := next_high_water d;
            packets := if is_unique d then <[seqno := raw]> (packets s) else packets s |}).

(** The decisions for a stream of deliveries, with the session it leaves. *)
Fixpoint deliver_all (s : session) (stream : list (Z * bytes))
  : result sequence_error (list SequenceDecision * session) :=
  match stream with
  | [] => Ok ([], s)
  | (seqno, raw) :: stream' =>
      ds ← deliver s seqno raw;
      rest ← deliver_all ds.2 stream';
      Ok (ds.1 :: rest.1, rest.2)
  end.

(** The high-water mark is the sequence number of a stored packet, and every stored packet's number
    is an unsigned 32-bit value. *)
Definition session_ok (s : session) : Prop :=
  (forall k, is_Some (packets s !! k) -> 0 <= k <= UINT32_MAX) /\
  match high_water s with
  | None => packets s = ∅
  | Some w => is_Some (packets s !! w)
  end.

(** How many decisions moved the mark, and how many packets they reported missing. *)
Definition advances (ds : list SequenceDecision) : Z :=
  foldr (fun d acc => (if should_advance_high_water d then 1 else 0) + acc) 0 ds.
Definition missing (ds : list SequenceDecision) : Z := foldr (fun d acc => missing_count d + acc) 0 ds.

(** The mark that [n] counted packets (received in order or reported missing) amount to. *)
Definition counted_mark (n : Z) : option Z := if n =? 0 then None else Some ((n - 1) mod 2 ^ 32).

(** ** Lemmas *)

Lemma uint32_max_value : UINT32_MAX = 2 ^ 32 - 1.
Proof. done. Qed.

Lemma validate_uint32_ok name v : _validate_uint32 name v = Ok tt <-> 0 <= v <= UINT32_MAX.
Proof.
  unfold _validate_uint32. destruct (negb _) eqn:H; bool_to_prop; split; intros; try done; try lia.
Qed.

Definition mark_ok (w : option Z) : Prop := from_option (fun m => 0 <= m <= UINT32_MAX) True w.

(** Past the argument checks the decision is one of the two branches. *)
Lemma decide_sequence_checked w seqno raw existing :
  mark_ok w -> 0 <= seqno <= UINT32_MAX -> raw <> [] ->
  decide_sequence w seqno raw existing =
  match existing with
  | Some e => Ok (decide_existing w raw e)
  | None => decide_new w seqno
  end.
Proof.
  intros Hw Hs Hr. unfold decide_sequence.
  rewrite (proj2 (validate_uint32_ok _ seqno)) by done. cbn [mbind result_bind].
  bind_to tt; [destruct w; [by apply validate_uint32_ok|done]|]. by rewrite bool_decide_false.
Qed.

(** The converse: a decision was taken only on checked arguments. *)
Lemma decide_sequence_args w seqno raw existing d :
  decide_sequence w seqno raw existing = Ok d ->
  mark_ok w /\ 0 <= seqno <= UINT32_MAX /\ raw <> [].
Proof.
  intros ([] & Hs%validate_uint32_ok & ([] & Hw & H)%bind_ok)%bind_ok.
  case_bool_decide; [done|]. split; [|done]. destruct w; [by apply validate_uint32_ok in Hw|done].
Qed.

Lemma decide_new_shape w seqno d :
  0 <= seqno <= UINT32_MAX -> decide_new w seqno = Ok d ->
  is_unique d = true /\ accepted d = true /\ should_queue d = true /\
  next_high_water d = (if should_advance_high_water d then Some seqno else w) /\
  w <> Some seqno /\ 0 <= missing_count d.
Proof.
  intros Hs. unfold decide_new. destruct w as [last|].
  - cbv zeta. repeat case_test; bool_to_prop; intros [= <-]; cbn; split_and!; try done; try lia;
      intros [= ->]; rewrite Z.sub_diag in *; done.
  - intros [= <-]; cbn. split_and!; [by destruct (seqno =? 0)|done..|lia].
Qed.

(** Moving the mark forward by [n] counts [n - 1] missing packets and one received. *)
Lemma decide_new_count w seqno d n :
  mark_ok w -> 0 <= seqno <= UINT32_MAX -> decide_new w seqno = Ok d -> w = counted_mark n -> 0 <= n ->
  next_high_water d =
    counted_mark (n + (if should_advance_high_water d then 1 else 0) + missing_count d).
Proof.
  intros Hw Hs Hd -> Hn. unfold decide_new, counted_mark in *. rewrite uint32_max_value in *.
  destruct (Z.eqb_spec n 0) as [Hn0|Hn0]; cbv zeta in Hd.
  - subst n. injection Hd as <-. cbn. destruct (Z.eqb_spec (0 + 1 + seqno) 0); [lia|].
    f_equal. symmetry. rewrite Z.mod_small; lia.
  - change UINT32_MODULUS with (2 ^ 32) in *. cbn in Hw.
    set (last := (n - 1) mod 2 ^ 32) in *. set (fd := (seqno - last) mod 2 ^ 32) in *.
    assert (Hseq : (n - 1 + fd) mod 2 ^ 32 = seqno).
    { unfold fd, last. rewrite Zplus_mod_idemp_r, <- Zplus_mod_idemp_l.
      replace (_ + _) with seqno by (fold last; lia). apply Z.mod_small. lia. }
    repeat case_test_in Hd; try discriminate Hd; bool_to_prop; injection Hd as <-; cbn;
      match goal with |- context [if ?c =? 0 then _ else _] => destruct (Z.eqb_spec c 0) end;
      try lia; f_equal; try (rewrite <- Hseq; f_equal; lia).
    unfold last. f_equal. lia.
Qed.

(** One delivery to a consistent session. *)
Lemma deliver_ok s seqno raw :
  session_ok s -> 0 <= seqno <= UINT32_MAX -> raw <> [] ->
  exists d s', deliver s seqno raw = Ok (d, s') /\ session_ok s' /\
    (is_unique d = true <-> packets s !! seqno = None) /\
    (is_unique d = false -> s' = s) /\
    (is_unique d = true -> packets s' = <[seqno := raw]> (packets s)).
Proof.
  intros [Hk Hm] Hs Hr. unfold deliver.
  assert (mark_ok (high_water s)) as Hw by (destruct (high_water s); [by apply Hk|done]).
  rewrite decide_sequence_checked by done.
  destruct (packets s !! seqno) as [e|] eqn:He; cbn [mbind result_bind].
  - unfold decide_existing. case_bool_decide; cbn;
      (eexists _, _; split; [done|]; split; [by split|]); (split; [by split|]); (split; [|done]);
      by destruct s.
  - destruct (decide_new (high_water s) seqno) as [d|err] eqn:Hd; cbn [mbind result_bind].
    + destruct (decide_new_shape _ _ _ Hs Hd) as (Hu & _ & _ & Hn & Hne & _). rewrite Hu.
      eexists _, _; split; [done|]. split_and!; try done; [|by rewrite Hu]. split; cbn.
      * intros k. destruct (decide (k = seqno)) as [->|]; [done|]. rewrite lookup_insert_ne by done. apply Hk.
      * rewrite Hn. destruct (should_advance_high_water d); [by rewrite lookup_insert_eq|].
        destruct (high_water s) as [w|] eqn:Hhw.
        { rewrite lookup_insert_ne by congruence. done. }
        unfold decide_new in Hd. injection Hd as <-. done.
    + exfalso. unfold decide_new in Hd. destruct (high_water s) as [w|] eqn:Hhw; [|done].
      cbn in Hw. rewrite uint32_max_value in *. cbv zeta in Hd.
      repeat case_test_in Hd; try discriminate Hd. bool_to_prop.
      apply Z.mod_divide in Htest as [q Hq]; [|done]. change UINT32_MODULUS with (2 ^ 32) in Hq.
      assert (seqno = w) as -> by lia. rewrite He in Hm. by destruct Hm.
Qed.
Lemma empty_session_ok : session_ok empty_session.
Proof. split; [|done]. intros k Hk. cbn in Hk. rewrite lookup_empty in Hk. by destruct Hk. Qed.

Lemma session_mark_ok s : session_ok s -> mark_ok (high_water s).
Proof. intros [Hk Hm]. destruct (high_water s); [by apply Hk|done]. Qed.

Lemma advances_cons d ds :
  advances (d :: ds) = (if should_advance_high_water d then 1 else 0) + advances ds.
Proof. done. Qed.

Lemma missing_cons d ds : missing (d :: ds) = missing_count d + missing ds.
Proof. done. Qed.

(** A delivery keeps the mark equal to the packets counted so far. *)
Lemma deliver_count s seqno raw d s' n :
  deliver s seqno raw = Ok (d, s') -> high_water s = counted_mark n -> 0 <= n ->
  high_water s' = counted_mark (n + (if should_advance_high_water d then 1 else 0) + missing_count d) /\
  0 <= n + (if should_advance_high_water d then 1 else 0) + missing_count d.
Proof.
  unfold deliver. intros (d' & Hd & [= -> <-])%bind_ok Hn Hn0; cbn [high_water].
  destruct (decide_sequence_args _ _ _ _ _ Hd) as (Hw & Hs & Hr).
  rewrite decide_sequence_checked in Hd by done. destruct (packets s !! seqno) as [e|].
  - injection Hd as <-. unfold decide_existing. case_bool_decide; cbn; rewrite Hn; split; try lia;
      f_equal; lia.
  - destruct (decide_new_shape _ _ _ Hs Hd) as (_ & _ & _ & _ & _ & Hm).
    split; [by eapply decide_new_count|]. destruct (should_advance_high_water d); lia.
Qed.

Lemma deliver_all_count s stream ds s' n :
  deliver_all s stream = Ok (ds, s') -> high_water s = counted_mark n -> 0 <= n ->
  high_water s' = counted_mark (n + advances ds + missing ds).
Proof.
  revert s ds n; induction stream as [|[seqno raw] stream IH]; intros s ds n; cbn [deliver_all].
  - intros [= <- <-] Hn _. rewrite Hn. f_equal. cbn. lia.
  - intros ((d & s1) & Hd & ((ds1 & s2) & Hr & [= <- <-])%bind_ok)%bind_ok Hn Hn0. cbn [fst snd] in *.
    destruct (deliver_count _ _ _ _ _ _ Hd Hn Hn0) as [H1 H2].
    rewrite (IH _ _ _ Hr H1 H2). f_equal. rewrite advances_cons, missing_cons. lia.
Qed.

Lemma deliver_all_total s stream :
  session_ok s -> Forall (fun '(seqno, raw) => 0 <= seqno <= UINT32_MAX /\ raw <> []) stream ->
  exists ds s', deliver_all s stream = Ok (ds, s') /\ session_ok s' /\
    length ds = length stream /\ size (packets s') = (size (packets s) +
      length (filter (fun d => is_unique d = true) ds))%nat.
Proof.
  intros Hs Hstream; revert s Hs. induction Hstream as [|[seqno raw] stream [Hseq Hraw] _ IH]; intros s Hs.
  - exists [], s. cbn. split_and!; try done.
  - destruct (deliver_ok s seqno raw Hs Hseq Hraw) as (d & s1 & Hd & Hs1 & Hu & Hdup & Hnew).
    destruct (IH s1 Hs1) as (ds & s2 & Hr & Hs2 & Hl & Hsize).
    exists (d :: ds), s2. cbn [deliver_all]. rewrite Hd. cbn [mbind result_bind fst snd].
    rewrite Hr. split; [done|]. split; [done|]. split; [cbn; lia|]. rewrite Hsize.
    rewrite filter_cons. destruct (is_unique d) eqn:Hud.
    + rewrite decide_True by done. rewrite (Hnew eq_refl), map_size_insert_None by (by apply Hu).
      cbn. lia.
    + rewrite decide_False by done. by rewrite (Hdup eq_refl).
Qed.

(** ** Properties *)

(** Meaning of the circular comparison: for a new packet after mark [last], the mark advances
    exactly when the packet lies [n] steps ahead for some [1 <= n < 2^31], and then the decision
    reports the [n - 1] numbers skipped; any other packet than [last] itself is late, is still
    accepted and queued, and leaves the mark alone. *)
Theorem decide_new_distance last seqno raw n :
  0 <= last <= UINT32_MAX -> raw <> [] -> 1 <= n < 2 ^ 32 -> seqno = (last + n) mod 2 ^ 32 ->
  exists d, decide_sequence (Some last) seqno raw None = Ok d /\
    accepted d = true /\ should_queue d = true /\
    if n <? 2 ^ 31
    then should_advance_high_water d = true /\ next_high_water d = Some seqno /\
         missing_count d = n - 1 /\ disposition d = (if n =? 1 then IN_ORDER else GAP)
    else should_advance_high_water d = false /\ next_high_water d = Some last /\
         missing_count d = 0 /\ disposition d = LATE_OR_OUT_OF_ORDER.
Proof.
  intros Hlast Hraw Hn Hseq. rewrite uint32_max_value in Hlast.
  pose proof (Z.mod_pos_bound (last + n) (2 ^ 32) ltac:(lia)).
  rewrite decide_sequence_checked by (cbn; try rewrite uint32_max_value; try lia; done).
  assert ((seqno - last) mod UINT32_MODULUS = n) as Hfd.
  { change UINT32_MODULUS with (2 ^ 32). rewrite Hseq, Zminus_mod_idemp_l.
    rewrite Z.mod_small; lia. }
  unfold decide_new. rewrite Hfd. change HALF_RANGE with (2 ^ 31). cbv zeta.
  destruct (Z.eqb_spec n 0); [lia|]. destruct (Z.eqb_spec n 1) as [->|]; [by eexists|].
  destruct (Z.leb_spec 2 n); [|lia]. destruct (Z.ltb_spec n (2 ^ 31)); by eexists.
Qed.

(** No internal inconsistency: in a session whose mark belongs to a stored packet (the empty one
    is), any stream of well-formed deliveries is decided without an error, leaves a consistent
    session, and stores exactly one record for every unique delivery. *)
Theorem session_consistent stream :
  Forall (fun '(seqno, raw) => 0 <= seqno <= UINT32_MAX /\ raw <> []) stream ->
  exists ds s, deliver_all empty_session stream = Ok (ds, s) /\ session_ok s /\
    length ds = length stream /\
    size (packets s) = length (filter (fun d => is_unique d = true) ds).
Proof.
  intros H. destruct (deliver_all_total empty_session stream) as (ds & s & ? & ? & ? & Hsize);
    [apply empty_session_ok|done|]. by exists ds, s.
Qed.

(** C39. Gap accounting: after any stream, the mark is the number of packets that advanced it plus
    the number reported missing, less one, modulo 2^32; nothing is counted twice or lost, across
    duplicates, conflicts, late packets and wrap-around. *)
Theorem gap_accounting stream ds s :
  deliver_all empty_session stream = Ok (ds, s) ->
  high_water s = counted_mark (advances ds + missing ds).
Proof. intros H. by apply (deliver_all_count _ _ _ _ 0 H). Qed.

(** Redelivery is idempotent: once a packet is stored, its exact bytes are a duplicate and
    different bytes a conflict, neither is queued, and the session does not change. *)
Theorem redelivery_idempotent s seqno raw raw' :
  session_ok s -> packets s !! seqno = Some raw -> raw' <> [] ->
  exists d, deliver s seqno raw' = Ok (d, s) /\ should_queue d = false /\
    disposition d = (if bool_decide (raw = raw') then DUPLICATE else CONFLICT) /\
    accepted d = bool_decide (raw = raw').
Proof.
  intros Hs Hp Hr. pose proof (proj1 Hs seqno ltac:(by eexists)) as Hseq.
  unfold deliver. rewrite Hp, decide_sequence_checked by (done || by apply session_mark_ok).
  unfold decide_existing. destruct s as [w ps].
  case_bool_decide; (eexists; split; [reflexivity|done]).
Qed.

(** ** Witnesses *)

Lemma decide_new_distance_witness :
  exists d, decide_sequence (Some 4_294_967_290) 4 [x01] None = Ok d /\
    accepted d = true /\ should_queue d = true /\
    should_advance_high_water d = true /\ next_high_water d = Some 4 /\
    missing_count d = 10 - 1 /\ disposition d = GAP.
Proof.
  apply (decide_new_distance 4_294_967_290 4 [x01] 10); [vm_compute; split; discriminate|discriminate
    |vm_compute; split; [discriminate|reflexivity]|vm_compute; reflexivity].
Defined.

Lemma session_consistent_witness :
  exists ds s, deliver_all empty_session [(0, [x01]); (5, [x02]); (0, [x01]); (3, [x03])] = Ok (ds, s) /\
    session_ok s /\ length ds = 4%nat /\
    size (packets s) = length (filter (fun d => is_unique d = true) ds).
Proof.
  apply (session_consistent [(0, [x01]); (5, [x02]); (0, [x01]); (3, [x03])]).
  repeat (apply Forall_cons; split; [split; [vm_compute; split; discriminate|discriminate]|]).
  apply Forall_nil. exact I.
Defined.

Definition example_stream : list (Z * bytes) := [(0, [x01]); (5, [x02]); (0, [x01]); (3, [x03])].

Lemma gap_accounting_witness :
  match deliver_all empty_session example_stream with
  | Ok (ds, s) => high_water s = Some 5 /\ high_water s = counted_mark (advances ds + missing ds)
  | Raise _ => False
  end.
Proof.
  destruct (deliver_all empty_session example_stream) as [[ds s]|e] eqn:H.
  - split; [|exact (gap_accounting example_stream ds s H)].
    vm_compute in H. injection H as <- <-. reflexivity.
  - vm_compute in H. discriminate H.
Defined.

Lemma redelivery_idempotent_witness :
  let s := mk_session (Some 7) {[7 := [x01]]} in
  exists d, deliver s 7 [x02] = Ok (d, s) /\ should_queue d = false /\
    disposition d = CONFLICT /\ accepted d = false.
Proof.
  apply (redelivery_idempotent (mk_session (Some 7) {[7 := [x01]]}) 7 [x01] [x02]).
  - split; [|by eexists]. intros k Hk. cbn in Hk. apply lookup_singleton_is_Some in Hk as <-.
    vm_compute. split; discriminate.
  - reflexivity.
  - discriminate.
Defined.

End Sequence.
