(* ===== verification/Health.v ===== *)
(** * Health classification: [mission_ground/telemetry/health.py]

    Temperature, voltage and fault severities, the most-severe-wins combination and the staleness
    rule, with the theorems that relate them to the tables of the interface document (6.8). *)
From S2P Require Import Prelude PyStruct PyFormat Crc32 Codec.

Open Scope Z_scope.

Module Health.
Import Codec.

Definition STALE_AFTER_US : Z := 24 * 3_600 * 1_000_000.

Inductive HealthClassification := NOMINAL | WARNING | CRITICAL.
Inductive Freshness := CURRENT | STALE.

#[export] Instance HealthClassification_eq_dec : EqDecision HealthClassification.
Proof. solve_decision. Defined.
#[export] Instance Freshness_eq_dec : EqDecision Freshness.
Proof. solve_decision. Defined.

Definition HealthClassification_value (c : HealthClassification) : string :=
  match c with NOMINAL => "NOMINAL" | WARNING => "WARNING" | CRITICAL => "CRITICAL" end.

Definition _SEVERITY_RANK (c : HealthClassification) : Z :=
  match c with NOMINAL => 0 | WARNING => 1 | CRITICAL => 2 end.

Record HealthAssessment := mk_assessment {
  classification : HealthClassification;
  freshness : Freshness;
  temperature : HealthClassification;
  voltage : HealthClassification;
  faults : HealthClassification
}.

Definition is_stale (a : HealthAssessment) : bool := bool_decide (freshness a = STALE).

Definition classify_temperature (temperature_centi_c : Z) : HealthClassification :=
  if (temperature_centi_c <? -4_000) || (8_500 <=? temperature_centi_c) then CRITICAL
  else if (temperature_centi_c <? -2_000) || (6_200 <=? temperature_centi_c) then WARNING
  else NOMINAL.

Definition classify_voltage (voltage_mv : Z) : HealthClassification :=
  if (voltage_mv <? 22_000) || (34_000 <? voltage_mv) then CRITICAL
  else if (voltage_mv <? 26_000) || (30_000 <? voltage_mv) then WARNING
  else NOMINAL.

Definition critical_faults : list FaultFlag :=
  [TEMPERATURE_SENSOR_FAULT; VOLTAGE_SENSOR_FAULT; INTERNAL_PAYLOAD_FAULT].
Definition warning_faults : list FaultFlag := [OVER_TEMPERATURE; UNDER_VOLTAGE; OVER_VOLTAGE].

Definition classify_faults (flag_value : Z) : result codec_error HealthClassification :=
  if negb ((0 <=? flag_value) && (flag_value <=? 0xFF))
     || negb (Z.land flag_value (Z.lnot DEFINED_FAULT_MASK) =? 0) then
    Raise (ValueError "fault_flags contains a bit not defined by telemetry version 1")
  else if negb (Z.land flag_value (flags_value critical_faults) =? 0) then Ok CRITICAL
  else if negb (Z.land flag_value (flags_value warning_faults) =? 0) then Ok WARNING
  else Ok NOMINAL.

Definition classify_staleness (sample_timestamp_us : Z) (ground_received_at : datetime)
  : result codec_error Freshness :=
  received_us ← _timestamp_us ground_received_at;
  let age_us := received_us - sample_timestamp_us in
  Ok (if STALE_AFTER_US <? age_us then STALE else CURRENT).

(** Python's [max(..., key=...)] returns the first of the greatest elements. *)
Definition most_severe (first : HealthClassification) (rest : list HealthClassification) :=
  fold_left (fun best c => if _SEVERITY_RANK best <? _SEVERITY_RANK c then c else best) rest first.

Definition assess_health (frame : TelemetryFrame) (ground_received_at : datetime)
  : result codec_error HealthAssessment :=
  let temperature_class := classify_temperature (temperature_centi_c frame) in
  let voltage_class := classify_voltage (voltage_mv frame) in
  faults_class ← classify_faults (fault_flags frame);
  let overall := most_severe temperature_class [voltage_class; faults_class] in
  fresh ← classify_staleness (timestamp_us frame) ground_received_at;
  Ok {| classification := overall; freshness := fresh; temperature := temperature_class;
        voltage := voltage_class; faults := faults_class |}.

(** ** Specification: the tables of the interface document *)

Definition has_fault (flags : Z) (f : FaultFlag) : bool := negb (Z.land flags (FaultFlag_value f) =? 0).

(** Conditions that demand CRITICAL, and those that demand at least WARNING. *)
Definition icd_critical (f : TelemetryFrame) : Prop :=
  temperature_centi_c f < -4_000 \/ 8_500 <= temperature_centi_c f \/
  voltage_mv f < 22_000 \/ 34_000 < voltage_mv f \/
  existsb (has_fault (fault_flags f)) critical_faults = true.

Definition icd_warning (f : TelemetryFrame) : Prop :=
  temperature_centi_c f < -2_000 \/ 6_200 <= temperature_centi_c f \/
  voltage_mv f < 26_000 \/ 30_000 < voltage_mv f \/
  existsb (has_fault (fault_flags f)) FaultFlag_members = true.

(** ** Lemmas *)

Lemma most_severe_spec c cs :
  most_severe c cs ∈ c :: cs /\
  Forall (fun d => _SEVERITY_RANK d <= _SEVERITY_RANK (most_severe c cs)) (c :: cs).
Proof.
  unfold most_severe. revert c; induction cs as [|d cs IH]; intros c; cbn [fold_left].
  - split; [left|by apply Forall_singleton].
  - destruct (Z.ltb_spec (_SEVERITY_RANK c) (_SEVERITY_RANK d)) as [Hlt|Hge].
    + destruct (IH d) as [Hin Hall]. split; [by right|]. constructor; [|done].
      apply Forall_cons in Hall as [Hd _]. lia.
    + destruct (IH c) as [Hin Hall]. apply Forall_cons in Hall as [Hc Hcs]. split.
      * apply elem_of_cons in Hin as [->|Hin]; [left|by do 2 right].
      * constructor; [done|]. constructor; [lia|done].
Qed.

Lemma most_severe_critical c cs : most_severe c cs = CRITICAL <-> CRITICAL ∈ c :: cs.
Proof.
  destruct (most_severe_spec c cs) as [Hin Hall]. split; [by intros <-|].
  intros Hc. rewrite Forall_forall in Hall. specialize (Hall _ Hc).
  by destruct (most_severe c cs).
Qed.

Lemma most_severe_nominal c cs : most_severe c cs = NOMINAL <-> Forall (fun d => d = NOMINAL) (c :: cs).
Proof.
  destruct (most_severe_spec c cs) as [Hin Hall]. split; intros H.
  - rewrite H in Hall. eapply Forall_impl; [exact Hall|]. by intros [].
  - rewrite Forall_forall in H. by apply H.
Qed.

Lemma land_flags flags fs :
  negb (Z.land flags (flags_value fs) =? 0) = existsb (has_fault flags) fs.
Proof.
  unfold flags_value, has_fault. induction fs as [|f fs IH]; cbn [map foldr existsb].
  - by rewrite Z.land_0_r.
  - rewrite Z.land_lor_distr_r, <- IH.
    destruct (Z.eqb_spec (Z.lor (Z.land flags (FaultFlag_value f))
      (Z.land flags (foldr Z.lor 0 (map FaultFlag_value fs)))) 0) as [Hz|Hz].
    + apply Z.lor_eq_0_iff in Hz as [-> ->]. done.
    + destruct (Z.eqb_spec (Z.land flags (FaultFlag_value f)) 0) as [H1|]; [|done].
      destruct (Z.eqb_spec (Z.land flags (foldr Z.lor 0 (map FaultFlag_value fs))) 0) as [H2|]; [|done].
      by rewrite H1, H2 in Hz.
Qed.

Lemma defined_mask_clear z :
  0 <= z <= 0xFF -> (Z.land z (Z.lnot DEFINED_FAULT_MASK) =? 0) = (z <=? 0x3F).
Proof.
  intros Hz. apply eqb_prop.
  apply (zrange_check (fun z => Bool.eqb (Z.land z (Z.lnot DEFINED_FAULT_MASK) =? 0) (z <=? 0x3F)) 0 256);
    [vm_compute; reflexivity|lia].
Qed.

(** The three possible outcomes on defined fault bits. *)
Lemma classify_faults_spec z :
  0 <= z <= 0x3F ->
  exists c, classify_faults z = Ok c /\
    (c = CRITICAL <-> existsb (has_fault z) critical_faults = true) /\
    (c = NOMINAL <-> existsb (has_fault z) FaultFlag_members = false).
Proof.
  intros Hz. unfold classify_faults. rewrite defined_mask_clear by lia.
  assert (negb ((0 <=? z) && (z <=? 0xFF)) || negb (z <=? 0x3F) = false) as -> by lia.
  rewrite !land_flags.
  assert (existsb (has_fault z) FaultFlag_members =
    existsb (has_fault z) warning_faults || existsb (has_fault z) critical_faults) as ->
    by (rewrite <- existsb_app; done).
  destruct (existsb (has_fault z) critical_faults), (existsb (has_fault z) warning_faults);
    eexists; (split; [done|]); done.
Qed.

Lemma classify_faults_error z : ~ (0 <= z <= 0x3F) -> exists m, classify_faults z = Raise (ValueError m).
Proof.
  intros Hz. unfold classify_faults.
  destruct (negb ((0 <=? z) && (z <=? 0xFF))) eqn:Hr; [by eexists|]. bool_to_prop.
  rewrite defined_mask_clear by lia. destruct (Z.leb_spec z 0x3F); [lia|by eexists].
Qed.

Lemma classify_temperature_critical z :
  classify_temperature z = CRITICAL <-> z < -4_000 \/ 8_500 <= z.
Proof.
  unfold classify_temperature. repeat case_test; bool_to_prop; split; intros; first [done|lia].
Qed.

Lemma classify_temperature_nominal z : classify_temperature z = NOMINAL <-> -2_000 <= z < 6_200.
Proof.
  unfold classify_temperature. repeat case_test; bool_to_prop; split; intros; first [done|lia].
Qed.

Lemma classify_voltage_critical z : classify_voltage z = CRITICAL <-> z < 22_000 \/ 34_000 < z.
Proof. unfold classify_voltage. repeat case_test; bool_to_prop; split; intros; first [done|lia]. Qed.

Lemma classify_voltage_nominal z : classify_voltage z = NOMINAL <-> 26_000 <= z <= 30_000.
Proof. unfold classify_voltage. repeat case_test; bool_to_prop; split; intros; first [done|lia]. Qed.

Lemma classify_staleness_aware ts t offset :
  utcoffset_us t = Some offset ->
  classify_staleness ts t =
    Ok (if STALE_AFTER_US <? wall_us t - offset - ts then STALE else CURRENT).
Proof. intros Ho. unfold classify_staleness. by rewrite (timestamp_us_aware _ _ Ho). Qed.

(** On a valid frame and an aware receipt time the assessment never raises. *)
Lemma assess_health_total f t offset :
  valid_frame f -> utcoffset_us t = Some offset -> exists a, assess_health f t = Ok a.
Proof.
  intros (_ & _ & _ & _ & _ & _ & _ & _ & Hf) Ho. unfold assess_health.
  destruct (classify_faults_spec (fault_flags f) Hf) as (c & -> & _). cbn [mbind result_bind].
  rewrite (classify_staleness_aware _ _ _ Ho). by eexists.
Qed.

Lemma elem_of_three {A} (x a b c : A) : x ∈ [a; b; c] <-> a = x \/ b = x \/ c = x.
Proof. rewrite !elem_of_cons, elem_of_nil. intuition congruence. Qed.

(** ** Properties *)

(** C40. Health classification implements the tables of the interface document: for every frame and
    aware receipt time, undefined fault bits are the only error; otherwise the result is CRITICAL
    exactly when some critical condition holds, NOMINAL exactly when no warning condition holds, and
    the sample is STALE exactly when it is strictly more than 24 hours old at receipt. *)
Theorem assess_health_icd f wall offset :
  match assess_health f (mk_datetime wall (Some offset)) with
  | Ok a =>
      0 <= fault_flags f <= 0x3F /\
      (classification a = CRITICAL <-> icd_critical f) /\
      (classification a = NOMINAL <-> ~ icd_warning f) /\
      (is_stale a = true <-> 86_400_000_000 < wall - offset - timestamp_us f)
  | Raise e => ~ (0 <= fault_flags f <= 0x3F) /\ exists m, e = ValueError m
  end.
Proof.
  unfold assess_health. destruct (decide (0 <= fault_flags f <= 0x3F)) as [Hf|Hf].
  - destruct (classify_faults_spec (fault_flags f) Hf) as (c & -> & Hcrit & Hnom).
    cbn [mbind result_bind]. rewrite (classify_staleness_aware _ _ offset) by done.
    cbn [mbind result_bind classification]. split; [done|]. split; [|split].
    + rewrite most_severe_critical, elem_of_three. unfold icd_critical.
      rewrite <- Hcrit. pose proof (classify_temperature_critical (temperature_centi_c f)).
      pose proof (classify_voltage_critical (voltage_mv f)). tauto.
    + rewrite most_severe_nominal, !Forall_cons, Forall_nil. unfold icd_warning.
      rewrite classify_temperature_nominal, classify_voltage_nominal, Hnom.
      destruct (existsb _ FaultFlag_members); split; intros; intuition (try lia; try discriminate).
    + unfold is_stale. cbn. change STALE_AFTER_US with 86_400_000_000.
      destruct (Z.ltb_spec 86_400_000_000 (wall - offset - timestamp_us f)); cbn; split; intros;
        first [done|lia].
  - destruct (classify_faults_error (fault_flags f) Hf) as (m & ->). cbn. eauto.
Qed.

(** No decoded frame can make classification fail: whatever bytes the decoder accepts at a
    receipt time, the assessment of the frame at that receipt time returns, its overall class is the
    greatest of its three component classes, and the sample is at most five minutes in the future. *)
Theorem decoded_frames_assessed raw t f :
  decode_telemetry raw t = Ok f ->
  exists a, assess_health f t = Ok a /\
    classification a ∈ [temperature a; voltage a; faults a] /\
    Forall (fun c => _SEVERITY_RANK c <= _SEVERITY_RANK (classification a))
      [temperature a; voltage a; faults a].
Proof.
  intros (_ & -> & Hf)%decode_ok. apply validate_fields_ok in Hf as [Hf Ht]. cbn in Ht.
  destruct (utcoffset_us t) as [offset|] eqn:Ho; [|done].
  destruct (assess_health_total _ _ _ Hf Ho) as [a Ha]. exists a. split; [done|].
  unfold assess_health in Ha. apply bind_ok in Ha as (c & _ & (fr & _ & [= <-])%bind_ok).
  exact (most_severe_spec (classify_temperature _) [classify_voltage _; c]).
Qed.

(** Severity is monotone in the reported faults: setting more defined fault bits never lowers
    the classification of the flags. *)
Theorem classify_faults_monotone z extra c c' :
  classify_faults z = Ok c -> classify_faults (Z.lor z extra) = Ok c' ->
  _SEVERITY_RANK c <= _SEVERITY_RANK c'.
Proof.
  intros Hc Hc'.
  assert (0 <= z <= 0x3F) as Hz by (destruct (decide (0 <= z <= 0x3F)) as [|Hn]; [done|];
    destruct (classify_faults_error z Hn) as [m Hm]; congruence).
  assert (0 <= Z.lor z extra <= 0x3F) as Hz' by
    (destruct (decide (0 <= Z.lor z extra <= 0x3F)) as [|Hn]; [done|];
     destruct (classify_faults_error _ Hn) as [m Hm]; congruence).
  destruct (classify_faults_spec z Hz) as (d & Hd & Hcrit & Hnom).
  destruct (classify_faults_spec _ Hz') as (d' & Hd' & Hcrit' & Hnom').
  rewrite Hd in Hc. injection Hc as <-. rewrite Hd' in Hc'. injection Hc' as <-.
  assert (forall fs, existsb (has_fault z) fs = true -> existsb (has_fault (Z.lor z extra)) fs = true) as Hup.
  { intros fs. rewrite <- !land_flags, !negb_true_iff, !Z.eqb_neq, Z.land_lor_distr_l.
    intros Hne [Hl _]%Z.lor_eq_0_iff. done. }
  destruct (decide (d' = CRITICAL)) as [->|Hn']; [destruct d; done|].
  destruct (decide (d = NOMINAL)) as [->|Hn]; [destruct d'; done|].
  destruct (decide (d = CRITICAL)) as [->|Hnc]; [exfalso; by apply Hn', Hcrit', Hup, Hcrit|].
  destruct (existsb (has_fault z) FaultFlag_members) eqn:Hm; [|exfalso; by apply Hn, Hnom].
  apply Hup in Hm. destruct (decide (d' = NOMINAL)) as [->|Hn2].
  - by rewrite (proj1 Hnom' eq_refl) in Hm.
  - by destruct d, d'.
Qed.

(** ** Witnesses *)

Lemma decoded_frames_assessed_witness :
  exists a, assess_health golden_frame golden_receipt = Ok a /\
    classification a ∈ [temperature a; voltage a; faults a] /\
    Forall (fun c => _SEVERITY_RANK c <= _SEVERITY_RANK (classification a))
      [temperature a; voltage a; faults a].
Proof. apply (decoded_frames_assessed golden_raw). vm_compute. reflexivity. Defined.

Lemma classify_faults_monotone_witness :
  classify_faults 0x01 = Ok WARNING /\ classify_faults (Z.lor 0x01 0x20) = Ok CRITICAL /\
  _SEVERITY_RANK WARNING <= _SEVERITY_RANK CRITICAL.
Proof.
  assert (classify_faults 0x01 = Ok WARNING) as H1 by (vm_compute; reflexivity).
  assert (classify_faults (Z.lor 0x01 0x20) = Ok CRITICAL) as H2 by (vm_compute; reflexivity).
  split; [exact H1|]. split; [exact H2|]. exact (classify_faults_monotone _ _ _ _ H1 H2).
Defined.

End Health.
