(* ===== verification/Redis.v ===== *)
(** * The Redis server behind the work queue

    The server is not part of the program: the class [RedisServer] has the commands the queue issues,
    on a keyspace whose values are strings or lists (the head of a list is its left end), and
    [RedisLaws] states their documented effect on the value of each key.  Two keyspaces with the same
    values are interchangeable ([keyspace_equiv]).  [MapRedis] is a concrete server on a finite map. *)
From S2P Require Import Prelude Uuid.

Open Scope Z_scope.

Inductive redis_value :=
| RString (s : chars)
| RList (items : list chars).

#[export] Instance redis_value_eq_dec : EqDecision redis_value.
Proof. solve_decision. Defined.

(** [None] is the WRONGTYPE error reply of a command on a key that holds the other type. *)
Class RedisServer := {
  keyspace : Type;
  value_at : keyspace -> string -> option redis_value;
  redis_set : string -> chars -> keyspace -> keyspace;
  redis_del : string -> keyspace -> keyspace;
  redis_lpush : string -> chars -> keyspace -> option keyspace;
  (** [LREM key 1 item]. *)
  redis_lrem : string -> chars -> keyspace -> option (Z * keyspace);
  redis_rpoplpush : string -> string -> keyspace -> option (option chars * keyspace)
}.

(** The list stored at a key, empty when the key does not exist. *)
Definition list_at `{RedisServer} (s : keyspace) (k : string) : option (list chars) :=
  match value_at s k with
  | None => Some []
  | Some (RList l) => Some l
  | Some (RString _) => None
  end.

(** An emptied list is removed from the keyspace. *)
Definition stored_list (l : list chars) : option redis_value :=
  match l with [] => None | _ => Some (RList l) end.

(** [LREM 1]: the first occurrence from the head, with the number of items removed. *)
Fixpoint remove_first (x : chars) (l : list chars) : Z * list chars :=
  match l with
  | [] => (0, [])
  | y :: l' => if bool_decide (x = y) then (1, l') else let '(n, l'') := remove_first x l' in (n, y :: l'')
  end.

(** The list without its last item, and that item. *)
Definition pop_last (l : list chars) : option (list chars * chars) :=
  match rev l with [] => None | x :: l' => Some (rev l', x) end.

Class RedisLaws `{RedisServer} : Prop := {
  value_at_set s k v k' : value_at (redis_set k v s) k' = if decide (k' = k) then Some (RString v) else value_at s k';
  value_at_del s k k' : value_at (redis_del k s) k' = if decide (k' = k) then None else value_at s k';
  lpush_reply s k v l : list_at s k = Some l ->
    exists s', redis_lpush k v s = Some s' /\
      forall k', value_at s' k' = if decide (k' = k) then Some (RList (v :: l)) else value_at s k';
  lrem_reply s k v l : list_at s k = Some l ->
    exists s', redis_lrem k v s = Some ((remove_first v l).1, s') /\
      forall k', value_at s' k' = if decide (k' = k) then stored_list (remove_first v l).2 else value_at s k';
  rpoplpush_nil s k d : list_at s k = Some [] ->
    redis_rpoplpush k d s = Some (None, s);
  rpoplpush_reply s k d l x m : k <> d -> list_at s k = Some (l ++ [x]) -> list_at s d = Some m ->
    exists s', redis_rpoplpush k d s = Some (Some x, s') /\
      forall k', value_at s' k' =
        if decide (k' = k) then stored_list l
        else if decide (k' = d) then Some (RList (x :: m)) else value_at s k'
}.

(** ** Lemmas *)

Lemma pop_last_snoc (l : list chars) x : pop_last (l ++ [x]) = Some (l, x).
Proof. unfold pop_last. by rewrite rev_app_distr; cbn; rewrite rev_involutive. Qed.

Lemma remove_first_absent x l : x ∉ l -> remove_first x l = (0, l)%Z.
Proof.
  induction l as [|y l IH]; intros Hx; [done|]. cbn. apply not_elem_of_cons in Hx as [Hy Hx].
  by rewrite bool_decide_eq_false_2, IH.
Qed.

Lemma remove_first_present x l :
  x ∈ l -> exists l1 l2, l = l1 ++ x :: l2 /\ (x ∉ l1) /\ remove_first x l = (1%Z, l1 ++ l2).
Proof.
  induction l as [|y l IH]; intros Hx; [by apply elem_of_nil in Hx|]. cbn.
  destruct (decide (x = y)) as [->|Hne].
  - exists [], l. rewrite bool_decide_eq_true_2 by done. split; [done|]. split; [apply not_elem_of_nil|done].
  - apply elem_of_cons in Hx as [?|(l1 & l2 & -> & Hl1 & Hr)%IH]; [done|].
    exists (y :: l1), l2. rewrite bool_decide_eq_false_2, Hr by done. split_and!; [done| |done].
    by apply not_elem_of_cons.
Qed.

Lemma stored_list_at l : match stored_list l with None => Some [] | Some (RList l') => Some l' | Some (RString _) => None end = Some l.
Proof. by destruct l. Qed.

(** Keyspaces that no command tells apart. *)
Definition keyspace_equiv `{RedisServer} (s s' : keyspace) : Prop := forall k, value_at s k = value_at s' k.

#[export] Instance keyspace_equivalence `{RedisServer} : Equivalence keyspace_equiv.
Proof. split; [done|by intros s s' H1 k|by intros s s' s'' H1 H2 k; rewrite H1]. Qed.

#[export] Instance list_at_proper `{RedisServer} : Proper (keyspace_equiv ==> eq ==> eq) list_at.
Proof. intros s s' Hs k _ <-. unfold list_at. by rewrite Hs. Qed.

(** ** A server on a finite map *)

Module MapRedis.

Definition list_of (v : option redis_value) : option (list chars) :=
  match v with None => Some [] | Some (RList l) => Some l | Some (RString _) => None end.
Definition put (k : string) (l : list chars) (s : gmap string redis_value) : gmap string redis_value :=
  match l with [] => delete k s | _ => <[k := RList l]> s end.

Definition lpush (k : string) (v : chars) (s : gmap string redis_value) : option (gmap string redis_value) :=
  l ← list_of (s !! k); Some (put k (v :: l) s).
Definition lrem (k : string) (v : chars) (s : gmap string redis_value) : option (Z * gmap string redis_value) :=
  l ← list_of (s !! k); let '(n, l') := remove_first v l in Some (n, put k l' s).
Definition rpoplpush (k d : string) (s : gmap string redis_value) : option (option chars * gmap string redis_value) :=
  l ← list_of (s !! k);
  match pop_last l with
  | None => Some (None, s)
  | Some (l', x) =>
      _ ← list_of (s !! d);
      let s := put k l' s in
      m ← list_of (s !! d); Some (Some x, put d (x :: m) s)
  end.

#[export] Instance server : RedisServer := {|
  keyspace := gmap string redis_value;
  value_at := fun s k => s !! k;
  redis_set := fun k v s => <[k := RString v]> s;
  redis_del := fun k s => delete k s;
  redis_lpush := lpush;
  redis_lrem := lrem;
  redis_rpoplpush := rpoplpush
|}.

Lemma lookup_put k l s k' : put k l s !! k' = if decide (k' = k) then stored_list l else s !! k'.
Proof.
  destruct (decide _) as [->|Hk]; destruct l; cbn.
  - apply lookup_delete_eq.
  - apply lookup_insert_eq.
  - by rewrite lookup_delete_ne.
  - by rewrite lookup_insert_ne.
Qed.

#[export] Instance laws : RedisLaws.
Proof.
  split; cbn; unfold list_at; cbn.
  - intros s k v k'. destruct (decide _) as [->|]; [apply lookup_insert_eq|by rewrite lookup_insert_ne].
  - intros s k k'. destruct (decide _) as [->|]; [apply lookup_delete_eq|by rewrite lookup_delete_ne].
  - intros s k v l Hl. unfold lpush. unfold list_of. rewrite Hl. cbn. eexists. split; [done|].
    intros k'. apply (lookup_put k (v :: l)).
  - intros s k v l Hl. unfold lrem, list_of. rewrite Hl. cbn. destruct (remove_first v l) as [n l'].
    eexists. split; [done|]. intros k'. apply lookup_put.
  - intros s k d Hl. unfold rpoplpush, list_of. by rewrite Hl.
  - intros s k d l x m Hkd Hl Hm. unfold rpoplpush.
    change (match s !! k with None => Some [] | Some (RList l) => Some l | Some (RString _) => None end)
      with (list_of (s !! k)) in Hl.
    rewrite Hl. cbn. rewrite pop_last_snoc.
    change (list_of (s !! d) = Some m) in Hm. rewrite Hm. cbn. rewrite lookup_put, decide_False by done.
    rewrite Hm. cbn. eexists. split; [done|]. intros k'. etransitivity; [apply (lookup_put d (x :: m))|]. rewrite lookup_put.
    destruct (decide (k' = k)) as [->|]; [by rewrite decide_False|done].
Qed.

End MapRedis.
