(* ===== verification/Queue.v ===== *)
(** * The telemetry work queue

    telemetry/queue.py: the two-field queue message with its JSON form, the key names, the Lua scripts
    as programs over the server's commands, and the methods of [TelemetryQueue].  A script runs to its
    end before any other command; a WRONGTYPE reply stops it where it stands.  Entries are byte strings;
    the model of their reading is exact on those that [readable] accepts. *)
From S2P Require Import Prelude PyFormat Uuid Json Codec Redis.
From Stdlib Require Import Ascii.

Open Scope Z_scope.

Inductive queue_error :=
| QueueMessageError (reason : string)
| QueueConflictError (job_id : string)
| QueueStateError (reason : string)
| ValueError (reason : string)
| RecursionError
| ResponseError.

#[export] Instance queue_error_eq_dec : EqDecision queue_error.
Proof. solve_decision. Defined.

(** ** Messages *)

Record QueueMessage := mk_message { message_job_id : string; message_packet_id : string }.

#[export] Instance message_eq_dec : EqDecision QueueMessage.
Proof. solve_decision. Defined.

(** The pattern [TLM-P\d{2}-B[0-9A-F]{8}-S[0-9A-F]{8}]. *)
Definition packet_id_pattern : list (ascii -> bool) :=
  literal "TLM-P" ++ replicate 2 is_decimal ++ literal "-B" ++ replicate 8 is_upper_hex ++
  literal "-S" ++ replicate 8 is_upper_hex.

Definition check_field (name value : string) : result queue_error () :=
  raise: QueueMessageError (name +:+ " must be a non-empty, trimmed string")
    when bool_decide (value = ""%string) || negb (bool_decide (strip_chars is_space (chars_of value) = chars_of value)) ;;
  raise: QueueMessageError (name +:+ " must not exceed 128 characters") when (128 <? String.length value)%nat ;;
  Ok tt.

(** The constructor with [__post_init__]. *)
Definition new_message (job packet : string) : result queue_error QueueMessage :=
  _ ← check_field "job_id" job;
  _ ← check_field "packet_id" packet;
  match UUID job with
  | None => Raise (QueueMessageError "job_id must be a canonical UUID string")
  | Some parsed_job_id =>
      raise: QueueMessageError "job_id must be a canonical lowercase UUID string"
        when negb (bool_decide (uuid_str parsed_job_id = job)) ;;
      raise: QueueMessageError "packet_id must use the version 1 telemetry identifier format"
        when negb (fullmatch packet_id_pattern packet) ;;
      Ok (mk_message job packet)
  end.

Definition to_json_bytes (m : QueueMessage) : chars :=
  dump_object [("job_id"%string, message_job_id m); ("packet_id"%string, message_packet_id m)].

Definition from_json_bytes `{interpreter : Interpreter} (raw : chars) : result queue_error QueueMessage :=
  match json_loads raw with
  | Raise JSONDecodeError => Raise (QueueMessageError "queue entry is not valid JSON")
  | Raise IntegerTooLong => Raise (ValueError "Exceeds the limit for integer string conversion")
  | Raise NestedTooDeep => Raise RecursionError
  | Ok (JObject decoded) =>
      match member "job_id" decoded, member "packet_id" decoded with
      | Some job, Some packet =>
          raise: QueueMessageError "queue entry must contain only job_id and packet_id"
            when negb (forallb (fun m => bool_decide (m.1 = "job_id"%string) || bool_decide (m.1 = "packet_id"%string)) decoded) ;;
          match job, packet with
          | JString job_id, JString packet_id => new_message job_id packet_id
          | _, _ => Raise (QueueMessageError "job_id and packet_id must both be strings")
          end
      | _, _ => Raise (QueueMessageError "queue entry must contain only job_id and packet_id")
      end
  | Ok _ => Raise (QueueMessageError "queue entry must contain only job_id and packet_id")
  end.

(** ** Keys *)

Record QueueKeys := { pending : string; processing : string; failed : string; marker_prefix : string }.

Definition for_namespace (namespace : string) : result queue_error QueueKeys :=
  let cleaned := text_of (strip_chars (is_char ":") (chars_of namespace)) in
  raise: ValueError "queue namespace must not be empty" when bool_decide (cleaned = ""%string) ;;
  Ok {| pending := cleaned +:+ ":pending"; processing := cleaned +:+ ":processing";
        failed := cleaned +:+ ":failed"; marker_prefix := cleaned +:+ ":marker" |}.

Definition marker (keys : QueueKeys) (job_id : string) : string := marker_prefix keys +:+ ":" +:+ job_id.

(** ** Scripts *)

Section Queue.
Context `{RedisServer} `{interpreter : Interpreter}.

(** Code that talks to the server: the reply or an error, and the keyspace left behind. *)
Definition Q (A : Type) : Type := keyspace -> result queue_error A * keyspace.
#[export] Instance Q_ret : MRet Q := fun A a s => (Ok a, s).
#[export] Instance Q_bind : MBind Q := fun A B k m s =>
  match m s with (Ok a, s') => k a s' | (Raise e, s') => (Raise e, s') end.
Definition fail_with {A} (e : queue_error) : Q A := fun s => (Raise e, s).

(** [redis.call(...)]. *)
Definition call {A} (command : keyspace -> option (A * keyspace)) : Q A := fun s =>
  match command s with Some (a, s') => (Ok a, s') | None => (Raise ResponseError, s) end.
Definition redis_get (k : string) : Q (option chars) := call (fun s =>
  match value_at s k with None => Some (None, s) | Some (RString v) => Some (Some v, s) | Some (RList _) => None end).
Definition set (k : string) (v : chars) : Q () := call (fun s => Some (tt, redis_set k v s)).
Definition del (k : string) : Q () := call (fun s => Some (tt, redis_del k s)).
Definition lpush (k : string) (v : chars) : Q () := call (fun s => s' ← redis_lpush k v s; Some (tt, s')).
Definition lrem (k : string) (v : chars) : Q Z := call (redis_lrem k v).
Definition rpoplpush (k d : string) : Q (option chars) := call (redis_rpoplpush k d).
Definition llen (k : string) : Q Z := call (fun s => l ← list_at s k; Some (Z.of_nat (length l), s)).

Definition enqueue_script (marker_key pending_key : string) (raw : chars) : Q Z :=
  existing ← redis_get marker_key;
  match existing with
  | None => set marker_key raw ;; lpush pending_key raw ;; mret 1
  | Some existing => if bool_decide (existing = raw) then mret 0 else mret (-1)
  end.

Definition ack_script (processing_key marker_key : string) (raw : chars) : Q Z :=
  removed ← lrem processing_key raw;
  (if removed =? 1 then del marker_key else mret tt) ;; mret removed.

Definition retry_script (processing_key pending_key : string) (raw : chars) : Q Z :=
  removed ← lrem processing_key raw;
  (if removed =? 1 then lpush pending_key raw else mret tt) ;; mret removed.

Definition dead_letter_script (processing_key failed_key : string) (raw : chars) : Q Z :=
  removed ← lrem processing_key raw;
  (if removed =? 1 then lpush failed_key raw else mret tt) ;; mret removed.

(** The endless loop of the script, by rounds; [None] when the rounds are used up. *)
Fixpoint recover_loop (rounds : nat) (processing_key pending_key : string) (recovered : Z) : Q (option Z) :=
  match rounds with
  | O => mret None
  | S rounds' =>
      item ← rpoplpush processing_key pending_key;
      match item with
      | None => mret (Some recovered)
      | Some _ => recover_loop rounds' processing_key pending_key (recovered + 1)
      end
  end.

(** ** Methods *)

Implicit Type keys : QueueKeys.

Definition enqueue keys (message : QueueMessage) : Q bool :=
  let raw := to_json_bytes message in
  result ← enqueue_script (marker keys (message_job_id message)) (pending keys) raw;
  if result =? -1 then fail_with (QueueConflictError (message_job_id message)) else mret (result =? 1).

(** [BRPOPLPUSH] once it answers: the oldest entry, or nothing at the end of the time allowed.  Only a
    QueueMessageError of the entry is caught. *)
Definition claim keys (timeout_seconds : Z) : Q (option QueueMessage) :=
  if timeout_seconds <? 0 then fail_with (ValueError "timeout_seconds must not be negative")
  else
    raw ← rpoplpush (pending keys) (processing keys);
    match raw with
    | None => mret None
    | Some raw =>
        match from_json_bytes raw with
        | Ok message => mret (Some message)
        | Raise (QueueMessageError _ as exc) =>
            removed ← dead_letter_script (processing keys) (failed keys) raw;
            if negb (removed =? 1) then fail_with (QueueStateError "malformed queue entry could not be quarantined")
            else fail_with exc
        | Raise exc => fail_with exc
        end
    end.

Definition not_processing (message : QueueMessage) : queue_error :=
  QueueStateError ("job '" +:+ message_job_id message +:+ "' is not in the processing list").

Definition ack keys (message : QueueMessage) : Q () :=
  removed ← ack_script (processing keys) (marker keys (message_job_id message)) (to_json_bytes message);
  if negb (removed =? 1) then fail_with (not_processing message) else mret tt.

Definition acknowledge keys (message : QueueMessage) : Q () := ack keys message.

Definition retry keys (message : QueueMessage) : Q () :=
  removed ← retry_script (processing keys) (pending keys) (to_json_bytes message);
  if negb (removed =? 1) then fail_with (not_processing message) else mret tt.

Definition dead_letter keys (message : QueueMessage) : Q () :=
  removed ← dead_letter_script (processing keys) (failed keys) (to_json_bytes message);
  if negb (removed =? 1) then fail_with (not_processing message) else mret tt.

Definition recover_processing keys (rounds : nat) : Q (option Z) :=
  recover_loop rounds (processing keys) (pending keys) 0.

Definition queue_depth keys : Q Z := llen (pending keys).
Definition processing_depth keys : Q Z := llen (processing keys).
Definition failed_depth keys : Q Z := llen (failed keys).

End Queue.

(** ** Messages: lemmas *)

Definition valid_message (m : QueueMessage) : Prop := new_message (message_job_id m) (message_packet_id m) = Ok m.

Lemma plain_upper_hex c : is_upper_hex c = true -> plain_char c = true /\ is_space c = false.
Proof. destruct c as [[] [] [] [] [] [] [] []]; vm_compute; try done; by split. Qed.

Lemma fullmatch_forall (P : ascii -> Prop) pat s :
  Forall (fun f => forall c, f c = true -> P c) pat -> fullmatch pat s = true -> Forall P (chars_of s).
Proof.
  intros Hp; revert s. induction Hp as [|f pat Hf _ IH]; intros [|c s]; cbn; try done.
  intros [Hc Hs]%andb_true_iff. constructor; [by apply Hf|by apply IH].
Qed.

Lemma fullmatch_length pat s : fullmatch pat s = true -> String.length s = length pat.
Proof. revert s; induction pat as [|f pat IH]; intros [|c s]; cbn; try done. intros [_ Hs]%andb_true_iff. f_equal. by apply IH. Qed.

(** Identifiers are printable, without spaces, quotation marks or escapes. *)
Definition id_char (c : ascii) : Prop := plain_char c = true /\ is_space c = false.

Lemma literal_forall (P : ascii -> Prop) s : Forall P (chars_of s) -> Forall (fun f => forall c, f c = true -> P c) (literal s).
Proof. intros Hs. unfold literal. apply Forall_map. eapply Forall_impl; [exact Hs|]. intros c Hc d Hd. by apply Ascii.eqb_eq in Hd as <-. Qed.

Lemma packet_pattern_chars s : fullmatch packet_id_pattern s = true -> Forall id_char (chars_of s).
Proof.
  apply fullmatch_forall. unfold packet_id_pattern.
  repeat (apply Forall_app; split); try (apply Forall_replicate); try (apply literal_forall; repeat constructor).
  - intros c Hc. apply plain_upper_hex. unfold is_upper_hex. by rewrite Hc.
  - exact plain_upper_hex.
  - exact plain_upper_hex.
Qed.

Lemma uuid_str_chars u : 0 <= u < uuid_max -> Forall id_char (chars_of (uuid_str u)) /\ String.length (uuid_str u) = 36%nat.
Proof.
  intros Hu. destruct (uuid_hex_digits u Hu) as (ds & Hc & Hl & Hds & _). split.
  - unfold uuid_str. rewrite chars_text, Hc. apply hyphenate_forall; [done|]. apply Forall_map.
    eapply Forall_impl; [exact Hds|]. intros d Hd. cbn beta in Hd.
    enough (plain_char (digit_char false d) && negb (is_space (digit_char false d)) = true) as [Hp Hs%negb_true_iff]%andb_true_iff; [done|].
    apply (zrange_check (fun d => plain_char (digit_char false d) && negb (is_space (digit_char false d))) 0 16); [by vm_compute|lia].
  - rewrite <- length_chars_of. unfold uuid_str. rewrite chars_text, Hc. unfold hyphenate.
    repeat (rewrite length_app || rewrite length_take || rewrite length_drop || rewrite length_map || cbn [length]). lia.
Qed.

Lemma check_field_ok name value :
  value <> ""%string -> Forall id_char (chars_of value) -> (String.length value <= 128)%nat ->
  check_field name value = Ok tt.
Proof.
  intros Hn Hc Hl. unfold check_field. rewrite bool_decide_eq_false_2 by done.
  rewrite strip_absent by (eapply Forall_impl; [exact Hc|]; by intros c [_ ?]).
  rewrite bool_decide_eq_true_2 by done. cbn [negb orb]. destruct (Nat.ltb_spec 128 (String.length value)); [lia|done].
Qed.

Lemma packet_pattern_iff s :
  fullmatch packet_id_pattern s = true <-> exists p b n, Codec.format_packet_id p b n = Ok s.
Proof.
  unfold packet_id_pattern. split.
  - intros (s1 & s2 & -> & ->%fullmatch_literal_inv & Hs2)%fullmatch_split.
    apply fullmatch_split in Hs2 as (p & s3 & -> & Hp & Hs3).
    apply fullmatch_split in Hs3 as (s4 & s5 & -> & ->%fullmatch_literal_inv & Hs5).
    apply fullmatch_split in Hs5 as (b & s6 & -> & Hb & Hs6).
    apply fullmatch_split in Hs6 as (s7 & n & -> & ->%fullmatch_literal_inv & Hn).
    apply (digit_class_printed is_decimal 10 false) in Hp as (zp & Hzp & ->); [|lia|exact digit_char_decimal].
    apply (digit_class_printed is_upper_hex 16 true) in Hb as (zb & Hzb & ->); [|lia|exact digit_char_upper_hex].
    apply (digit_class_printed is_upper_hex 16 true) in Hn as (zn & Hzn & ->); [|lia|exact digit_char_upper_hex].
    change (10 ^ Z.of_nat 2) with 100 in Hzp. change (16 ^ Z.of_nat 8) with 4294967296 in Hzb, Hzn.
    exists zp, zb, zn. apply Codec.format_packet_id_ok. change Codec.UINT32_MAX with 4294967295.
    split; [lia|]. split; [lia|]. split; [lia|]. done.
  - intros (p & b & n & (Hp & Hb & Hn & ->)%Codec.format_packet_id_ok). unfold Codec.packet_id_text, Codec.UINT32_MAX in *.
    assert (forall z, 0 <= z <= 4294967295 -> fullmatch (replicate 8 is_upper_hex) (format_08X z) = true) as H8.
    { intros z Hz. apply (printed_digit_class _ 16 true 7); [lia| |change (16 ^ Z.of_nat 8) with 4294967296; lia].
      intros d Hd. apply (zrange_check (fun d => is_upper_hex (digit_char true d)) 0 16); [by vm_compute|lia]. }
    assert (fullmatch (replicate 2 is_decimal) (format_02d p) = true) as H2.
    { apply (printed_digit_class _ 10 false 1); [lia| |change (10 ^ Z.of_nat 2) with 100; lia].
      intros d Hd. apply (zrange_check (fun d => is_decimal (digit_char false d)) 0 10); [by vm_compute|lia]. }
    apply (fullmatch_app (literal "TLM-P")); [apply fullmatch_literal|]. apply fullmatch_app; [done|].
    apply (fullmatch_app (literal "-B") _ "-B"); [done|]. apply fullmatch_app; [by apply H8|].
    apply (fullmatch_app (literal "-S") _ "-S"); [done|]. by apply H8.
Qed.

Lemma new_message_inv job packet m :
  new_message job packet = Ok m ->
  (exists u, 0 <= u < uuid_max /\ job = uuid_str u) /\ fullmatch packet_id_pattern packet = true /\
  m = mk_message job packet.
Proof.
  unfold new_message. intros Hm. follow_ok Hm. injection Hm as <-. split; [|done].
  match goal with Hu : UUID _ = Some ?u |- _ => exists u; split; [by eapply UUID_range|done] end.
Qed.

Lemma valid_message_eq job packet m : new_message job packet = Ok m -> valid_message m.
Proof. intros Hm. pose proof (new_message_inv _ _ _ Hm) as (_ & _ & ->). exact Hm. Qed.

Lemma plain_id s : Forall id_char (chars_of s) -> plain_text s.
Proof. intros Hs. eapply Forall_impl; [exact Hs|]. by intros c [? _]. Qed.

Lemma valid_message_plain m : valid_message m -> plain_text (message_job_id m) /\ plain_text (message_packet_id m).
Proof.
  intros ((u & Hu & Hj) & Hp & _)%new_message_inv. split; apply plain_id.
  - rewrite Hj. by apply uuid_str_chars.
  - by apply packet_pattern_chars.
Qed.

Section Entries.
Context `{interpreter : Interpreter}.

(** A valid message survives the queue. *)
Lemma decode_valid m : valid_message m -> from_json_bytes (to_json_bytes m) = Ok m.
Proof.
  intros Hm. pose proof (valid_message_plain m Hm) as [Hj Hp]. unfold from_json_bytes, to_json_bytes.
  rewrite loads_dump_object; [exact Hm|].
  repeat constructor; cbn [fst snd]; done.
Qed.

Lemma to_json_inj m m' : valid_message m -> valid_message m' -> to_json_bytes m = to_json_bytes m' -> m = m'.
Proof. intros Hm Hm' He. pose proof (decode_valid m Hm) as Hd. rewrite He, decode_valid in Hd by done. congruence. Qed.

Lemma new_message_ok u p b n packet :
  0 <= u < uuid_max -> Codec.format_packet_id p b n = Ok packet ->
  new_message (uuid_str u) packet = Ok (mk_message (uuid_str u) packet).
Proof.
  intros Hu Hp. assert (fullmatch packet_id_pattern packet = true) as Hm by (apply packet_pattern_iff; eauto).
  destruct (uuid_str_chars u Hu) as [Hc Hl]. unfold new_message. pose proof (fullmatch_length _ _ Hm) as Hpl.
  rewrite (check_field_ok _ (uuid_str u)); [|intros He; by rewrite He in Hl|done|lia].
  rewrite (check_field_ok _ packet); [|by intros ->|by apply packet_pattern_chars|rewrite Hpl; cbn; lia].
  cbn [mbind result_bind]. rewrite UUID_str, bool_decide_eq_true_2 by done. by rewrite Hm.
Qed.

(** The constructor of queue messages accepts exactly the pairs of a canonical UUID text and an
    identifier that [format_packet_id] produces for some payload, boot and sequence number: every job the
    repository creates can be queued, and no other text enters the queue. *)
Theorem message_contract job packet m :
  new_message job packet = Ok m <->
  m = mk_message job packet /\ (exists u, 0 <= u < uuid_max /\ job = uuid_str u) /\
  exists payload boot sequence, Codec.format_packet_id payload boot sequence = Ok packet.
Proof.
  split.
  - intros (Hu & Hp & ->)%new_message_inv. split; [done|]. split; [done|]. by apply packet_pattern_iff.
  - intros (-> & (u & Hu & ->) & p & b & n & Hp). by apply (new_message_ok u p b n).
Qed.

(** Which errors an entry that is not a message raises. *)
Lemma from_json_error raw e : from_json_bytes raw = Raise e ->
  match json_loads raw with
  | Raise IntegerTooLong => exists reason, e = ValueError reason
  | Raise NestedTooDeep => e = RecursionError
  | Raise JSONDecodeError | Ok _ => exists reason, e = QueueMessageError reason
  end.
Proof.
  unfold from_json_bytes, new_message, check_field. destruct (json_loads raw) as [v|[]]; [|by intros [= <-]; eauto..].
  destruct v; try (by intros [= <-]; eauto). cbn [mbind result_bind]. intros He.
  repeat (case_match; cbn [mbind result_bind] in *; simplify_eq; eauto).
Qed.

(** Encoding is the inverse of decoding on every message that can be constructed, and whatever
    entry decoding accepts is such a message. *)
Theorem message_roundtrip raw m :
  from_json_bytes raw = Ok m ->
  from_json_bytes (to_json_bytes m) = Ok m /\ new_message (message_job_id m) (message_packet_id m) = Ok m /\
  (forall m', new_message (message_job_id m') (message_packet_id m') = Ok m' ->
     to_json_bytes m' = to_json_bytes m -> m' = m).
Proof.
  intros Hm. assert (valid_message m) as Hv.
  { unfold from_json_bytes in Hm. follow_ok Hm. by eapply valid_message_eq. }
  split; [by apply decode_valid|]. split; [exact Hv|]. intros m' Hm'. by apply to_json_inj.
Qed.

End Entries.

Definition example_message : QueueMessage :=
  mk_message "00000000-0000-4000-8000-00000000002a" "TLM-P01-B0000002A-S00000001".

#[local] Existing Instance cpython.

Lemma message_roundtrip_witness :
  from_json_bytes (quoted " {'packet_id': 'TLM-P01-B0000002A-S00000001', 'job_id' : '00000000-0000-4000-8000-00000000002a'} ")
  = Ok example_message /\ from_json_bytes (to_json_bytes example_message) = Ok example_message.
Proof.
  assert (from_json_bytes (quoted " {'packet_id': 'TLM-P01-B0000002A-S00000001', 'job_id' : '00000000-0000-4000-8000-00000000002a'} ")
    = Ok example_message) as H by (vm_compute; reflexivity).
  split; [exact H|]. exact (proj1 (message_roundtrip _ _ H)).
Defined.

Example conflicting_case : from_json_bytes (quoted "{'job_id':'00000000-0000-4000-8000-00000000002A','packet_id':'TLM-P01-B0000002A-S00000001'}")
  = Raise (QueueMessageError "job_id must be a canonical lowercase UUID string").
Proof. vm_compute. reflexivity. Qed.
Example extra_field : from_json_bytes (quoted "{'job_id':1,'packet_id':2,'x':3}")
  = Raise (QueueMessageError "queue entry must contain only job_id and packet_id").
Proof. vm_compute. reflexivity. Qed.
