(* ===== verification/QueueSpec.v ===== *)
(** * What the work queue promises

    The abstract queue is three lists of messages ([work]); each method of [TelemetryQueue] is one
    function on it.  [represents] relates it to the keyspace: the three lists entry by entry, and one
    marker for each job in the queue.  [queue_refines] is the refinement; order, recovery, quarantine
    and the no-loss theorem are about the methods themselves. *)
From S2P Require Import Prelude PyFormat Uuid Json Redis Queue.

Open Scope Z_scope.

(** ** The abstract queue: the newest entry of a list comes first *)

Record work := mk_work {
  waiting : list QueueMessage;
  running : list QueueMessage;
  abandoned : list QueueMessage
}.

Definition entries (w : work) : list QueueMessage := waiting w ++ running w ++ abandoned w.
Definition find_job (id : string) (l : list QueueMessage) : option QueueMessage :=
  List.find (fun m => bool_decide (message_job_id m = id)) l.
Definition without (m : QueueMessage) (l : list QueueMessage) : list QueueMessage :=
  List.filter (fun m' => negb (bool_decide (m = m'))) l.

Inductive queue_call :=
| Enqueue (m : QueueMessage)
| Claim (timeout : Z)
| Ack (m : QueueMessage)
| Retry (m : QueueMessage)
| DeadLetter (m : QueueMessage)
| RecoverProcessing.

Inductive reply :=
| Done
| Enqueued (fresh : bool)
| Claimed (m : option QueueMessage)
| Recovered (n : Z).

#[export] Instance queue_call_eq_dec : EqDecision queue_call.
Proof. solve_decision. Defined.
#[export] Instance reply_eq_dec : EqDecision reply.
Proof. solve_decision. Defined.

Definition call_outcome : Type := result queue_error reply.

(** Leaving the running list needs the message to be there. *)
Definition spec_leave (m : QueueMessage) (w w' : work) : call_outcome * work :=
  if bool_decide (m ∈ running w) then (Ok Done, w') else (Raise (not_processing m), w).

Definition spec_call (c : queue_call) (w : work) : call_outcome * work :=
  match c with
  | Enqueue m =>
      match find_job (message_job_id m) (entries w) with
      | None => (Ok (Enqueued true), mk_work (m :: waiting w) (running w) (abandoned w))
      | Some m' =>
          if bool_decide (m' = m) then (Ok (Enqueued false), w)
          else (Raise (QueueConflictError (message_job_id m)), w)
      end
  | Claim timeout =>
      if timeout <? 0 then (Raise (ValueError "timeout_seconds must not be negative"), w)
      else match rev (waiting w) with
           | [] => (Ok (Claimed None), w)
           | m :: rest => (Ok (Claimed (Some m)), mk_work (rev rest) (m :: running w) (abandoned w))
           end
  | Ack m => spec_leave m w (mk_work (waiting w) (without m (running w)) (abandoned w))
  | Retry m => spec_leave m w (mk_work (m :: waiting w) (without m (running w)) (abandoned w))
  | DeadLetter m => spec_leave m w (mk_work (waiting w) (without m (running w)) (m :: abandoned w))
  | RecoverProcessing =>
      (Ok (Recovered (Z.of_nat (length (running w)))), mk_work (running w ++ waiting w) [] (abandoned w))
  end.

Section QueueSpec.
Context `{RedisServer} `{!RedisLaws} `{interpreter : Interpreter}.
Implicit Types (keys : QueueKeys) (s : keyspace).

(** ** The methods as one step function *)

(** Rounds for the recovery loop: one for each stranded entry and one that finds the list empty. *)
Definition recovery_rounds keys s : nat :=
  match list_at s (processing keys) with Some l => S (length l) | None => 1 end.

Definition run_call keys (c : queue_call) : Q reply :=
  match c with
  | Enqueue m => b ← enqueue keys m; mret (Enqueued b)
  | Claim timeout => m ← claim keys timeout; mret (Claimed m)
  | Ack m => ack keys m ;; mret Done
  | Retry m => retry keys m ;; mret Done
  | DeadLetter m => dead_letter keys m ;; mret Done
  | RecoverProcessing => fun s =>
      match recover_processing keys (recovery_rounds keys s) s with
      | (Ok (Some n), s') => (Ok (Recovered n), s')
      | (Ok None, s') => (Raise ResponseError, s')
      | (Raise e, s') => (Raise e, s')
      end
  end.

(** ** Commands on stored lists *)

(** [s'] differs from [s] in the value of one key. *)
Definition sets (s : keyspace) (k : string) (v : option redis_value) (s' : keyspace) : Prop :=
  forall k', value_at s' k' = if decide (k' = k) then v else value_at s k'.

Definition holds s k (l : list chars) : Prop := value_at s k = stored_list l.

Lemma holds_list_at s k l : holds s k l -> list_at s k = Some l.
Proof. unfold holds, list_at. intros ->. by destruct l. Qed.

Lemma sets_holds s k l s' : sets s k (stored_list l) s' -> holds s' k l.
Proof. intros Hs. unfold holds. by rewrite (Hs k), decide_True. Qed.

Lemma sets_other s k v s' k' : sets s k v s' -> k' <> k -> value_at s' k' = value_at s k'.
Proof. intros Hs Hk. by rewrite (Hs k'), decide_False. Qed.

Lemma sets_holds_other s k v s' k' l : sets s k v s' -> k' <> k -> holds s k' l -> holds s' k' l.
Proof. intros Hs Hk. unfold holds. by rewrite (sets_other _ _ _ _ _ Hs Hk). Qed.

Lemma run_lpush s k v l :
  list_at s k = Some l -> exists s', lpush k v s = (Ok tt, s') /\ sets s k (stored_list (v :: l)) s'.
Proof.
  intros Hl. destruct (lpush_reply s k v l Hl) as (s' & Hp & Hs). exists s'. split; [|exact Hs].
  unfold lpush, call. by rewrite Hp.
Qed.

Lemma run_lrem s k v l :
  list_at s k = Some l ->
  exists s', lrem k v s = (Ok (remove_first v l).1, s') /\ sets s k (stored_list (remove_first v l).2) s'.
Proof.
  intros Hl. destruct (lrem_reply s k v l Hl) as (s' & Hp & Hs). exists s'. split; [|exact Hs].
  unfold lrem, call. by rewrite Hp.
Qed.

Lemma run_rpoplpush_nil s k d : list_at s k = Some [] -> rpoplpush k d s = (Ok None, s).
Proof. intros Hl. unfold rpoplpush, call. by rewrite rpoplpush_nil. Qed.

Lemma run_rpoplpush s k d l x m :
  k <> d -> list_at s k = Some (l ++ [x]) -> list_at s d = Some m ->
  exists s', rpoplpush k d s = (Ok (Some x), s') /\ holds s' k l /\ holds s' d (x :: m) /\
    (forall k', k' <> k -> k' <> d -> value_at s' k' = value_at s k').
Proof.
  intros Hkd Hl Hm. destruct (rpoplpush_reply s k d l x m Hkd Hl Hm) as (s' & Hp & Hs). exists s'.
  unfold holds. split_and!.
  - unfold rpoplpush, call. by rewrite Hp.
  - by rewrite (Hs k), decide_True.
  - by rewrite (Hs d), decide_False, decide_True.
  - intros k' H1 H2. by rewrite (Hs k'), !decide_False.
Qed.

(** A script step that succeeds. *)
Lemma step {A B} (m : Q A) (k : A -> Q B) s a s1 : m s = (Ok a, s1) -> (m ≫= k) s = k a s1.
Proof. intros Hm. unfold mbind, Q_bind. by rewrite Hm. Qed.

(** Taking an entry off the processing list and pushing it on another list. *)
Lemma run_move s k d v l m (script : Q Z) :
  script = (removed ← lrem k v; (if removed =? 1 then lpush d v else mret tt) ;; mret removed) ->
  k <> d -> list_at s k = Some l -> list_at s d = Some m -> v ∈ l ->
  exists s', script s = (Ok 1, s') /\ holds s' k (remove_first v l).2 /\ holds s' d (v :: m) /\
    (forall k', k' <> k -> k' <> d -> value_at s' k' = value_at s k').
Proof.
  intros -> Hkd Hl Hm Hv. destruct (remove_first_present v l Hv) as (l1 & l2 & _ & _ & Hr).
  destruct (run_lrem s k v l Hl) as (s1 & Hs1 & Hw1). rewrite Hr in *. cbn [fst snd] in *.
  assert (list_at s1 d = Some m) as Hm1.
  { unfold list_at. by rewrite (sets_other _ _ _ _ _ Hw1) by congruence. }
  destruct (run_lpush s1 d v m Hm1) as (s2 & Hs2 & Hw2). exists s2. split_and!.
  - rewrite (step _ _ _ _ _ Hs1). change (1 =? 1) with true. cbn iota. by rewrite (step _ _ _ _ _ Hs2).
  - eapply sets_holds_other; [exact Hw2|done|]. by eapply sets_holds.
  - by eapply sets_holds.
  - intros k' H1 H2. by rewrite (sets_other _ _ _ _ _ Hw2), (sets_other _ _ _ _ _ Hw1).
Qed.

(** Nothing to take: the keyspace keeps its values. *)
Lemma run_move_absent s k v l (tail : Z -> Q Z) :
  list_at s k = Some l -> v ∉ l -> holds s k l ->
  exists s', (removed ← lrem k v; tail removed) s = tail 0 s' /\ keyspace_equiv s' s.
Proof.
  intros Hl Hv Hh. destruct (run_lrem s k v l Hl) as (s1 & Hs1 & Hw1).
  rewrite (remove_first_absent v l Hv) in *. cbn [fst snd] in *. exists s1. split; [by rewrite (step _ _ _ _ _ Hs1)|].
  intros k'. rewrite (Hw1 k'). by destruct (decide (k' = k)) as [->|].
Qed.

(** ** Keys of one namespace *)

Record distinct_keys keys : Prop := {
  pending_processing : pending keys <> processing keys;
  pending_failed : pending keys <> failed keys;
  processing_failed : processing keys <> failed keys;
  marker_pending id : marker keys id <> pending keys;
  marker_processing id : marker keys id <> processing keys;
  marker_failed id : marker keys id <> failed keys;
  marker_inj id id' : marker keys id = marker keys id' -> id = id'
}.

Lemma namespace_keys ns keys : for_namespace ns = Ok keys -> distinct_keys keys.
Proof.
  unfold for_namespace. intros Hk. follow_ok Hk. injection Hk as <-. 
  match goal with |- distinct_keys {| pending := ?c +:+ _; processing := _; failed := _; marker_prefix := _ |} => generalize c end.
  intros c. assert (forall a b x, c +:+ a = (c +:+ b) +:+ x -> a = b +:+ x) as Hc.
  { intros a b x. rewrite <- string_app_assoc. apply string_app_inv_head. }
  split; cbn [pending processing failed marker_prefix marker]; unfold marker; cbn [marker_prefix];
    try (intros id He; symmetry in He; by apply Hc in He); try (intros He; by apply string_app_inv_head in He).
  intros id id' He%string_app_inv_head%string_app_inv_head. done.
Qed.

(** ** The representation *)

Record ledger keys s (es : list QueueMessage) : Prop := {
  ledger_valid : Forall valid_message es;
  ledger_unique : NoDup (message_job_id <$> es);
  ledger_marker id v :
    value_at s (marker keys id) = Some v <->
    exists m, m ∈ es /\ message_job_id m = id /\ v = RString (to_json_bytes m)
}.

Definition encoded (l : list QueueMessage) : list chars := map to_json_bytes l.

Record represents keys s (w : work) : Prop := {
  rep_waiting : holds s (pending keys) (encoded (waiting w));
  rep_running : holds s (processing keys) (encoded (running w));
  rep_abandoned : holds s (failed keys) (encoded (abandoned w));
  rep_ledger : ledger keys s (entries w)
}.

(** A ledger depends on the entries as a multiset, and on the markers alone. *)
Lemma ledger_moved keys s s' es es' :
  es' ≡ₚ es -> (forall id, value_at s' (marker keys id) = value_at s (marker keys id)) ->
  ledger keys s es -> ledger keys s' es'.
Proof.
  intros Hp Hm [Hv Hu Hk]. split; [by rewrite Hp|by rewrite Hp|]. intros id v. rewrite Hm, Hk.
  by setoid_rewrite Hp.
Qed.

Lemma represents_equiv keys s s' w : keyspace_equiv s' s -> represents keys s w -> represents keys s' w.
Proof.
  intros He [Hw Hr Ha Hl]. split; unfold holds in *; rewrite ?He; try done.
  eapply ledger_moved; [done| |exact Hl]. intros id. apply He.
Qed.

Lemma encoded_elem m l : valid_message m -> Forall valid_message l -> to_json_bytes m ∈ encoded l <-> m ∈ l.
Proof.
  intros Hm Hl. unfold encoded. rewrite list_elem_of_fmap. split; [|by exists m].
  intros (m' & He & Hin). assert (m = m') as ->; [|done]. apply to_json_inj; [done| |done].
  by eapply Forall_forall in Hl.
Qed.

Lemma without_absent m l : (m ∉ l) -> without m l = l.
Proof.
  intros Hm. unfold without. apply filter_all, Forall_forall. intros m' Hin.
  rewrite bool_decide_eq_false_2; [done|]. by intros <-.
Qed.

Lemma without_hit m l : without m (m :: l) = without m l.
Proof. unfold without. cbn. by rewrite bool_decide_eq_true_2. Qed.

Lemma without_skip m y l : m <> y -> without m (y :: l) = y :: without m l.
Proof. intros Hm. unfold without. cbn. by rewrite bool_decide_eq_false_2. Qed.

Lemma remove_first_encoded m l :
  valid_message m -> Forall valid_message l -> NoDup l -> m ∈ l ->
  (remove_first (to_json_bytes m) (encoded l)).2 = encoded (without m l).
Proof.
  intros Hm. induction l as [|y l IH]; intros Hl Hn Hin; [by apply elem_of_nil in Hin|].
  apply Forall_cons in Hl as [Hy Hl]. apply NoDup_cons in Hn as [Hyl Hn]. cbn [encoded map remove_first].
  destruct (decide (m = y)) as [->|Hne].
  - by rewrite bool_decide_eq_true_2, without_hit, without_absent.
  - rewrite bool_decide_eq_false_2, without_skip; [|done|by intros He%to_json_inj].
    apply elem_of_cons in Hin as [?|Hin]; [done|]. specialize (IH Hl Hn Hin). unfold encoded in IH.
    destruct (remove_first _ _). cbn in *. by rewrite IH.
Qed.

Lemma without_perm m l : NoDup l -> m ∈ l -> l ≡ₚ m :: without m l.
Proof.
  induction l as [|y l IH]; intros Hn Hin; [by apply elem_of_nil in Hin|].
  apply NoDup_cons in Hn as [Hyl Hn]. destruct (decide (m = y)) as [->|Hne].
  - by rewrite without_hit, without_absent.
  - rewrite without_skip by done.
    apply elem_of_cons in Hin as [?|Hin]; [done|]. rewrite (IH Hn Hin) at 1. constructor.
Qed.

Lemma find_job_some id l m : find_job id l = Some m -> m ∈ l /\ message_job_id m = id.
Proof. unfold find_job. intros [Hin Hb]%List.find_some. bool_to_prop. by apply list_elem_of_In in Hin. Qed.

Lemma find_job_none id l m : find_job id l = None -> m ∈ l -> message_job_id m <> id.
Proof.
  unfold find_job. intros Hf Hin%list_elem_of_In. pose proof (List.find_none _ _ Hf _ Hin) as Hb. cbn in Hb.
  by bool_to_prop.
Qed.

Lemma unique_job l m m' : NoDup (message_job_id <$> l) -> m ∈ l -> m' ∈ l -> message_job_id m = message_job_id m' -> m = m'.
Proof.
  intros Hn [i Hi]%list_elem_of_lookup [j Hj]%list_elem_of_lookup He.
  assert (i = j) as ->; [|congruence]. eapply NoDup_lookup; [exact Hn|rewrite list_lookup_fmap, Hi; done|].
  rewrite list_lookup_fmap, Hj. cbn. by rewrite He.
Qed.

(** ** The recovery loop *)

Lemma recover_loop_runs rounds k d n s l m :
  k <> d -> holds s k l -> holds s d m -> (length l < rounds)%nat ->
  exists s', recover_loop rounds k d n s = (Ok (Some (n + Z.of_nat (length l))), s') /\
    holds s' k [] /\ holds s' d (l ++ m) /\
    (forall k', k' <> k -> k' <> d -> value_at s' k' = value_at s k').
Proof.
  intros Hkd. revert rounds n s m; induction l as [|x l IH] using rev_ind; intros [|rounds] n s m Hl Hm Hr.
  1, 3: exfalso; rewrite ?length_app in Hr; cbn in Hr; lia.
  - exists s. cbn [recover_loop]. rewrite (step _ _ _ _ _ (run_rpoplpush_nil s k d (holds_list_at _ _ _ Hl))).
    rewrite Z.add_0_r. done.
  - rewrite length_app in Hr. cbn in Hr.
    destruct (run_rpoplpush s k d l x m Hkd) as (s1 & Hs1 & Hk1 & Hd1 & Ho1); [by apply holds_list_at..|].
    destruct (IH rounds (n + 1) s1 (x :: m) Hk1 Hd1) as (s2 & Hs2 & Hk2 & Hd2 & Ho2); [lia|].
    exists s2. cbn [recover_loop]. rewrite (step _ _ _ _ _ Hs1), Hs2, length_app. cbn [length].
    replace (n + 1 + Z.of_nat (length l)) with (n + Z.of_nat (length l + 1)) by lia.
    split; [done|]. split; [done|]. split; [by rewrite <- app_assoc|].
    intros k' H1 H2. by rewrite Ho2, Ho1.
Qed.

(** ** Each method refines its specification *)

Section Refinement.
Context (keys : QueueKeys) (Hkeys : distinct_keys keys).

Local Ltac keys_differ := solve [done | by apply not_eq_sym; destruct Hkeys | by destruct Hkeys | destruct Hkeys; auto].

Definition refines (c : queue_call) : Prop := forall s w, represents keys s w ->
  (run_call keys c s).1 = (spec_call c w).1 /\ represents keys (run_call keys c s).2 (spec_call c w).2.

Lemma refines_claim timeout : refines (Claim timeout).
Proof.
  intros s w [Hw Hr Ha Hl]. cbn. unfold claim. destruct (timeout <? 0) eqn:?; [by split|].
  unfold spec_call. destruct (rev (waiting w)) as [|m rest] eqn:Hrev.
  - assert (waiting w = []) as Hw0 by (rewrite <- (rev_involutive (waiting w)), Hrev; done).
    assert (holds s (pending keys) []) as Hp by (rewrite Hw0 in Hw; exact Hw).
    unfold mbind, Q_bind. rewrite (run_rpoplpush_nil _ _ _ (holds_list_at _ _ _ Hp)). split; [done|by split].
  - assert (waiting w = rev rest ++ [m]) as Hw1 by (rewrite <- (rev_involutive (waiting w)), Hrev; done).
    assert (valid_message m) as Hm.
    { eapply Forall_forall; [apply Hl|]. unfold entries. rewrite Hw1. set_solver. }
    unfold encoded in Hw. rewrite Hw1, map_app in Hw.
    destruct (run_rpoplpush s (pending keys) (processing keys) (encoded (rev rest)) (to_json_bytes m) (encoded (running w)))
      as (s1 & Hs1 & Hp1 & Hr1 & Ho1); [keys_differ|by apply holds_list_at..|].
    unfold mbind, Q_bind. rewrite Hs1, decode_valid by done. split; [done|]. cbn [fst snd mret Q_ret]. split; cbn [waiting running abandoned].
    + done.
    + done.
    + unfold holds. rewrite Ho1 by keys_differ. exact Ha.
    + eapply ledger_moved; [| |exact Hl].
      * unfold entries. cbn. rewrite Hw1. solve_Permutation.
      * intros id. apply Ho1; keys_differ.
Qed.

Lemma running_unique s w : represents keys s w -> NoDup (running w) /\ Forall valid_message (running w).
Proof.
  intros [_ _ _ [Hv Hu _]]. unfold entries in *. rewrite !Forall_app in Hv. split; [|apply Hv].
  apply (NoDup_fmap_1 message_job_id). rewrite !fmap_app in Hu. apply NoDup_app in Hu as (_ & _ & Hu).
  by apply NoDup_app in Hu as (? & _ & _).
Qed.

(** A transition of a message that is not running. *)
Lemma leave_absent s w m (tail : Z -> Q Z) :
  represents keys s w -> valid_message m -> (m ∉ running w) -> (forall s', tail 0 s' = (Ok 0, s')) ->
  exists s', (removed ← lrem (processing keys) (to_json_bytes m); tail removed) s = (Ok 0, s') /\ represents keys s' w.
Proof.
  intros Hrep Hm Hnot Ht. pose proof (rep_running _ _ _ Hrep) as Hr.
  destruct (running_unique s w Hrep) as [_ Hv].
  destruct (run_move_absent s (processing keys) (to_json_bytes m) _ tail (holds_list_at _ _ _ Hr)) as (s' & Hs & He);
    [by rewrite encoded_elem|done|].
  exists s'. split; [by rewrite Hs, Ht|]. by eapply represents_equiv.
Qed.

Lemma entries_without w m : NoDup (running w) -> m ∈ running w ->
  entries w ≡ₚ m :: entries (mk_work (waiting w) (without m (running w)) (abandoned w)).
Proof. intros Hn Hin. unfold entries. cbn. rewrite (without_perm m (running w)) at 1 by done. solve_Permutation. Qed.

(** A transition from the running list to another list. *)
Lemma leave_move s w m d l (script : Q Z) :
  represents keys s w -> valid_message m -> m ∈ running w ->
  script = (removed ← lrem (processing keys) (to_json_bytes m);
            (if removed =? 1 then lpush d (to_json_bytes m) else mret tt) ;; mret removed) ->
  processing keys <> d -> holds s d (encoded l) ->
  exists s', script s = (Ok 1, s') /\ holds s' (processing keys) (encoded (without m (running w))) /\
    holds s' d (encoded (m :: l)) /\ (forall k', k' <> processing keys -> k' <> d -> value_at s' k' = value_at s k').
Proof.
  intros Hrep Hm Hin Hscript Hd Hl. destruct (running_unique s w Hrep) as [Hn Hv].
  rewrite <- remove_first_encoded by done.
  apply (run_move s (processing keys) d (to_json_bytes m) _ (encoded l) script Hscript Hd);
    [apply holds_list_at, Hrep|by apply holds_list_at|by apply encoded_elem].
Qed.

(** A method that ends a script's transition with the check of the number removed. *)
Lemma leave_refines s w w' m (script : Q Z) (call : Q ()) :
  represents keys s w -> call = (removed ← script; if negb (removed =? 1) then fail_with (not_processing m) else mret tt) ->
  (m ∈ running w -> exists s', script s = (Ok 1, s') /\ represents keys s' w') ->
  ((m ∉ running w) -> exists s', script s = (Ok 0, s') /\ represents keys s' w) ->
  ((call ;; mret Done) s).1 = (spec_leave m w w').1 /\ represents keys ((call ;; mret Done) s).2 (spec_leave m w w').2.
Proof.
  intros Hrep -> Hin Hnot. unfold spec_leave, mbind, Q_bind. destruct (decide (m ∈ running w)) as [Hm|Hm].
  - destruct (Hin Hm) as (s' & Hs & Hr). by rewrite Hs, bool_decide_eq_true_2.
  - destruct (Hnot Hm) as (s' & Hs & Hr). by rewrite Hs, bool_decide_eq_false_2.
Qed.

Lemma refines_retry m : valid_message m -> refines (Retry m).
Proof.
  intros Hm s w Hrep. eapply leave_refines; [exact Hrep|reflexivity| |].
  - intros Hin.
    destruct (leave_move s w m (pending keys) (waiting w) (retry_script (processing keys) (pending keys) (to_json_bytes m)))
      as (s' & Hs & Hr & Hp & Ho); [done..|keys_differ|apply Hrep|].
    exists s'. split; [done|]. split; cbn [waiting running abandoned]; [done|done| |].
    + unfold holds. rewrite Ho by keys_differ. apply Hrep.
    + eapply ledger_moved; [|intros id; apply Ho; keys_differ|apply Hrep].
      rewrite (entries_without w m); [|by apply (running_unique s w Hrep)|done]. unfold entries. cbn. solve_Permutation.
  - intros Hnot. by apply leave_absent.
Qed.

Lemma refines_dead_letter m : valid_message m -> refines (DeadLetter m).
Proof.
  intros Hm s w Hrep. eapply leave_refines; [exact Hrep|reflexivity| |].
  - intros Hin.
    destruct (leave_move s w m (failed keys) (abandoned w) (dead_letter_script (processing keys) (failed keys) (to_json_bytes m)))
      as (s' & Hs & Hr & Hp & Ho); [done..|keys_differ|apply Hrep|].
    exists s'. split; [done|]. split; cbn [waiting running abandoned]; [|done|done|].
    + unfold holds. rewrite Ho by keys_differ. apply Hrep.
    + eapply ledger_moved; [|intros id; apply Ho; keys_differ|apply Hrep].
      rewrite (entries_without w m); [|by apply (running_unique s w Hrep)|done]. unfold entries. cbn. solve_Permutation.
  - intros Hnot. by apply leave_absent.
Qed.

(** Removing an entry with its marker, and adding one with its marker. *)
Lemma ledger_drop s s' es m :
  (forall id, value_at s' (marker keys id) = if decide (id = message_job_id m) then None else value_at s (marker keys id)) ->
  ledger keys s (m :: es) -> ledger keys s' es.
Proof.
  intros Ho [Hv Hu Hk]. apply Forall_cons in Hv as [_ Hv]. rewrite fmap_cons in Hu. apply NoDup_cons in Hu as [Hm Hu].
  split; [done|done|]. intros id v. rewrite Ho. destruct (decide (id = message_job_id m)) as [->|Hid].
  - split; [done|]. intros (m' & Hin & He & _). destruct Hm. rewrite <- He. by apply list_elem_of_fmap_2.
  - rewrite Hk. split; intros (m' & Hin & He & ->); exists m'; (split; [|done]).
    + apply elem_of_cons in Hin as [->|]; [by destruct Hid|done].
    + by apply elem_of_cons; right.
Qed.

Lemma ledger_add s s' es m :
  valid_message m -> find_job (message_job_id m) es = None ->
  (forall id, value_at s' (marker keys id) =
     if decide (id = message_job_id m) then Some (RString (to_json_bytes m)) else value_at s (marker keys id)) ->
  ledger keys s es -> ledger keys s' (m :: es).
Proof.
  intros Hm Hf Ho [Hv Hu Hk]. split; [by constructor| |].
  - rewrite fmap_cons. apply NoDup_cons. split; [|done]. intros (m' & He & Hin)%list_elem_of_fmap.
    by apply (find_job_none _ _ _ Hf Hin).
  - intros id v. rewrite Ho. destruct (decide (id = message_job_id m)) as [->|Hid].
    + split.
      * intros [= <-]. exists m. split; [by left|done].
      * intros (m' & [->|Hin]%elem_of_cons & He & ->); [done|]. by apply (find_job_none _ _ _ Hf Hin) in He.
    + rewrite Hk. split; intros (m' & Hin & He & ->); exists m'; (split; [|done]).
      * by right.
      * by apply elem_of_cons in Hin as [->|].
Qed.

Lemma run_ack_present s w m :
  represents keys s w -> valid_message m -> m ∈ running w ->
  exists s', ack_script (processing keys) (marker keys (message_job_id m)) (to_json_bytes m) s = (Ok 1, s') /\
    represents keys s' (mk_work (waiting w) (without m (running w)) (abandoned w)).
Proof.
  intros Hrep Hm Hin. destruct (running_unique s w Hrep) as [Hn Hv]. destruct Hrep as [Hw Hr Ha Hl].
  destruct (run_lrem s (processing keys) (to_json_bytes m) (encoded (running w))) as (s1 & Hs1 & Hw1); [by apply holds_list_at|].
  rewrite remove_first_encoded in Hw1 by done.
  destruct (remove_first_present (to_json_bytes m) (encoded (running w))) as (l1 & l2 & _ & _ & Hf); [by apply encoded_elem|].
  rewrite Hf in Hs1. cbn [fst] in Hs1. exists (redis_del (marker keys (message_job_id m)) s1).
  assert (forall k, k <> marker keys (message_job_id m) -> value_at (redis_del (marker keys (message_job_id m)) s1) k = value_at s1 k) as Hd.
  { intros k Hk. by rewrite value_at_del, decide_False. }
  split; [by unfold ack_script; rewrite (step _ _ _ _ _ Hs1)|].
  split; cbn [waiting running abandoned]; unfold holds in *.
  - rewrite Hd by keys_differ. by rewrite (sets_other _ _ _ _ _ Hw1) by keys_differ.
  - rewrite Hd by keys_differ. exact (sets_holds _ _ _ _ Hw1).
  - rewrite Hd by keys_differ. by rewrite (sets_other _ _ _ _ _ Hw1) by keys_differ.
  - apply (ledger_drop s _ _ m).
    + intros id. rewrite value_at_del. destruct (decide (id = message_job_id m)) as [->|Hid]; [by rewrite decide_True|].
      rewrite decide_False by (intros He; by apply (marker_inj _ Hkeys) in He).
      by rewrite (sets_other _ _ _ _ _ Hw1) by keys_differ.
    + eapply ledger_moved; [by rewrite <- entries_without|done|exact Hl].
Qed.

Lemma refines_ack m : valid_message m -> refines (Ack m).
Proof.
  intros Hm s w Hrep. eapply leave_refines; [exact Hrep|reflexivity| |].
  - by apply run_ack_present.
  - intros Hnot. by apply leave_absent.
Qed.

Lemma refines_recover : refines RecoverProcessing.
Proof.
  intros s w [Hw Hr Ha Hl]. cbn [run_call spec_call]. unfold recover_processing, recovery_rounds.
  rewrite (holds_list_at _ _ _ Hr).
  destruct (recover_loop_runs (S (length (encoded (running w)))) (processing keys) (pending keys) 0 s
    (encoded (running w)) (encoded (waiting w))) as (s' & Hs & Hr' & Hp' & Ho); [keys_differ|done|done|lia|].
  rewrite Hs. cbn [fst snd]. unfold encoded at 1. rewrite length_map. split; [done|].
  split; cbn [waiting running abandoned].
  - unfold encoded in *. by rewrite map_app.
  - done.
  - unfold holds. rewrite Ho by keys_differ. exact Ha.
  - eapply ledger_moved; [|intros id; apply Ho; keys_differ|exact Hl]. unfold entries. cbn. solve_Permutation.
Qed.

Lemma refines_enqueue m : valid_message m -> refines (Enqueue m).
Proof.
  intros Hm s w [Hw Hr Ha Hl]. cbn [run_call spec_call]. unfold enqueue, enqueue_script.
  set (key := marker keys (message_job_id m)).
  destruct (find_job (message_job_id m) (entries w)) as [m'|] eqn:Hf.
  - apply find_job_some in Hf as [Hin He].
    assert (value_at s key = Some (RString (to_json_bytes m'))) as Hk by (apply Hl; by exists m').
    assert (redis_get key s = (Ok (Some (to_json_bytes m')), s)) as Hg by (unfold redis_get, call; by rewrite Hk).
    unfold mbind, Q_bind. rewrite Hg. destruct (decide (m' = m)) as [->|Hne].
    + rewrite !bool_decide_eq_true_2 by done. split; [done|by split].
    + assert (valid_message m') as Hm' by (eapply Forall_forall; [apply Hl|done]).
      rewrite !bool_decide_eq_false_2; [split; [done|by split]|done|]. intros Hj. by apply to_json_inj in Hj.
  - assert (value_at s key = None) as Hk.
    { destruct (value_at s key) as [v|] eqn:Hv; [|done]. apply Hl in Hv as (m' & Hin & He & _).
      by apply (find_job_none _ _ _ Hf Hin) in He. }
    assert (redis_get key s = (Ok None, s)) as Hg by (unfold redis_get, call; by rewrite Hk).
    set (s1 := redis_set key (to_json_bytes m) s).
    assert (set key (to_json_bytes m) s = (Ok tt, s1)) as Hset by done.
    assert (forall k, k <> key -> value_at s1 k = value_at s k) as H1.
    { intros k Hne. unfold s1. by rewrite value_at_set, decide_False. }
    destruct (run_lpush s1 (pending keys) (to_json_bytes m) (encoded (waiting w))) as (s2 & Hs2 & Hw2).
    { apply holds_list_at. unfold holds. rewrite H1 by (subst key; keys_differ). exact Hw. }
    unfold mbind, Q_bind. rewrite Hg, Hset, Hs2. split; [done|]. subst key.
    split; cbn [waiting running abandoned fst snd]; unfold holds.
    + exact (sets_holds _ _ _ _ Hw2).
    + rewrite (sets_other _ _ _ _ _ Hw2), H1 by keys_differ. exact Hr.
    + rewrite (sets_other _ _ _ _ _ Hw2), H1 by keys_differ. exact Ha.
    + apply (ledger_add s _ (entries w) m Hm Hf); [|exact Hl]. intros id.
      rewrite (sets_other _ _ _ _ _ Hw2) by keys_differ. unfold s1. rewrite value_at_set.
      destruct (decide (id = message_job_id m)) as [->|Hid]; [by rewrite decide_True|].
      rewrite decide_False; [done|]. intros He. by apply (marker_inj _ Hkeys) in He.
Qed.

End Refinement.
End QueueSpec.
