(* ===== verification/QueueProps.v ===== *)
(** * Properties of the work queue

    Refinement of the abstract queue by every method, and its consequences for whole runs: no job is
    lost or duplicated, claims are first in first out; recovery after a worker exit; what becomes of
    entries that are not messages. *)
From S2P Require Import Prelude PyFormat Uuid Json Redis Queue QueueSpec.
From Stdlib Require Import Ascii.

Open Scope Z_scope.

(** Methods take messages, and messages are valid by construction. *)
Definition call_ok (c : queue_call) : Prop :=
  match c with
  | Enqueue m | Ack m | Retry m | DeadLetter m => valid_message m
  | Claim _ | RecoverProcessing => True
  end.

Definition no_work : work := mk_work [] [] [].

(** A run of the abstract queue: the outcomes and the final lists. *)
Fixpoint spec_run (cs : list queue_call) (w : work) : list call_outcome * work :=
  match cs with
  | [] => ([], w)
  | c :: cs' =>
      let '(o, w') := spec_call c w in
      let '(os, w'') := spec_run cs' w' in (o :: os, w'')
  end.

(** How often [m] was freshly enqueued, and how often acknowledged, in a run. *)
Definition is_enqueued (m : QueueMessage) (step : queue_call * call_outcome) : bool :=
  match step with (Enqueue m', Ok (Enqueued true)) => bool_decide (m' = m) | _ => false end.
Definition is_acknowledged (m : QueueMessage) (step : queue_call * call_outcome) : bool :=
  match step with (Ack m', Ok Done) => bool_decide (m' = m) | _ => false end.
Definition times {A} (f : A -> bool) (l : list A) : nat := length (List.filter f l).
Definition copies (m : QueueMessage) (l : list QueueMessage) : nat := times (fun m' => bool_decide (m' = m)) l.

Section Runs.
Context `{RedisServer} `{!RedisLaws} `{interpreter : Interpreter}.

Fixpoint run_queue (keys : QueueKeys) (cs : list queue_call) (s : keyspace) : list call_outcome * keyspace :=
  match cs with
  | [] => ([], s)
  | c :: cs' =>
      let '(o, s') := run_call keys c s in
      let '(os, s'') := run_queue keys cs' s' in (o :: os, s'')
  end.

Lemma call_refines keys c : distinct_keys keys -> call_ok c -> refines keys c.
Proof.
  intros Hk Hc. destruct c; cbn in Hc.
  - by apply refines_enqueue.
  - by apply refines_claim.
  - by apply refines_ack.
  - by apply refines_retry.
  - by apply refines_dead_letter.
  - by apply refines_recover.
Qed.

Lemma run_refines keys cs s w :
  distinct_keys keys -> Forall call_ok cs -> represents keys s w ->
  (run_queue keys cs s).1 = (spec_run cs w).1 /\ represents keys (run_queue keys cs s).2 (spec_run cs w).2.
Proof.
  intros Hk Hcs. revert s w; induction Hcs as [|c cs Hc _ IH]; intros s w Hrep; [by split|].
  cbn. destruct (call_refines keys c Hk Hc s w Hrep) as [Ho Hw].
  destruct (run_call keys c s) as [o s1], (spec_call c w) as [o' w1]. cbn in Ho, Hw. subst o'.
  destruct (IH s1 w1 Hw) as [Hos Hw'].
  destruct (run_queue keys cs s1), (spec_run cs w1). cbn in *. by subst.
Qed.

Lemma depth_of k (l : list chars) s : holds s k l -> llen k s = (Ok (Z.of_nat (length l)), s).
Proof. intros Hl. unfold llen, call. by rewrite (holds_list_at _ _ _ Hl). Qed.

(** Keyspaces without the namespace hold the empty queue. *)
Lemma empty_queue keys s : (forall k, value_at s k = None) -> represents keys s no_work.
Proof.
  intros He. split; unfold holds; rewrite ?He; try done.
  split; cbn; [constructor|constructor|]. intros id v. rewrite He. split; [done|].
  intros (m & Hm & _). by apply elem_of_nil in Hm.
Qed.
End Runs.

(** ** The abstract queue keeps count *)

Lemma copies_app m l l' : copies m (l ++ l') = (copies m l + copies m l')%nat.
Proof. unfold copies, times. by rewrite List.filter_app, length_app. Qed.

Lemma copies_cons m m' l : copies m (m' :: l) = ((if decide (m' = m) then 1 else 0) + copies m l)%nat.
Proof.
  unfold copies, times. cbn [List.filter]. destruct (decide (m' = m)).
  - by rewrite bool_decide_eq_true_2.
  - by rewrite bool_decide_eq_false_2.
Qed.

#[export] Instance copies_perm m : Proper ((≡ₚ) ==> eq) (copies m).
Proof. intros l l' Hp. unfold copies, times. by rewrite Hp. Qed.

Lemma copies_at_most_one m l : NoDup (message_job_id <$> l) -> (copies m l <= 1)%nat.
Proof.
  induction l as [|y l IH]; [cbn; lia|]. rewrite fmap_cons, NoDup_cons, copies_cons. intros [Hy Hl].
  destruct (decide (y = m)) as [->|]; [|by apply IH]. enough (copies m l = 0)%nat by lia.
  unfold copies, times. destruct (List.filter _ l) as [|z zs] eqn:Hf; [done|]. destruct Hy.
  assert (In z (List.filter (fun m' => bool_decide (m' = m)) l)) as [Hin Hz]%List.filter_In by (rewrite Hf; by left).
  bool_to_prop. subst z. apply list_elem_of_fmap_2. by apply list_elem_of_In.
Qed.

Lemma copies_entries m w : copies m (entries w) = (copies m (waiting w) + (copies m (running w) + copies m (abandoned w)))%nat.
Proof. unfold entries. by rewrite !copies_app. Qed.

Lemma spec_call_count c w m : NoDup (message_job_id <$> entries w) ->
  (copies m (entries (spec_call c w).2) + times (is_acknowledged m) [(c, (spec_call c w).1)] =
   copies m (entries w) + times (is_enqueued m) [(c, (spec_call c w).1)])%nat.
Proof.
  intros Hn. assert (NoDup (running w)) as Hr.
  { apply (NoDup_fmap_1 message_job_id). unfold entries in Hn. rewrite !fmap_app in Hn.
    apply NoDup_app in Hn as (_ & _ & Hn). by apply NoDup_app in Hn as (? & _ & _). }
  rewrite !copies_entries.
  assert (forall x, x ∈ running w -> copies m (running w) = (if decide (x = m) then 1 else 0) + copies m (without x (running w)))%nat as Hw.
  { intros x Hx. by rewrite <- copies_cons, <- without_perm. }
  destruct c as [m'|t|m'|m'|m'|]; cbn [spec_call]; unfold spec_leave, times;
    [destruct (find_job _ _) as [m0|]| |try specialize (Hw m')..|];
    repeat case_bool_decide; cbn [fst snd waiting running abandoned]; rewrite ?copies_cons, ?copies_app;
    cbn [List.filter is_acknowledged is_enqueued length];
    rewrite ?Hw by done; repeat case_bool_decide; repeat case_decide; subst; try done; cbn; try lia.
  destruct (t <? 0); [cbn; lia|]. destruct (rev (waiting w)) as [|m' rest] eqn:Hrev; [cbn; lia|].
  rewrite <- (rev_involutive (waiting w)), Hrev. cbn [fst snd waiting running abandoned rev].
  rewrite copies_app, !copies_cons. cbn. lia.
Qed.

(** A uniqueness-preserving abstract step keeps job identifiers unique: by the representation. *)
Section Theorems.
Context `{RedisServer} `{!RedisLaws} `{interpreter : Interpreter}.
Implicit Types (keys : QueueKeys) (s : keyspace).

(** C12. Every method of the queue refines its abstract specification: on a keyspace that represents three
    lists of messages, with one marker per job, it returns what the specification returns, errors
    included, and leaves the keyspace that represents the specified lists; the depth counters return the
    lengths of the lists. *)
Theorem queue_refines ns keys c s w :
  for_namespace ns = Ok keys -> call_ok c -> represents keys s w ->
  let '(o, s') := run_call keys c s in
  let w' := (spec_call c w).2 in
  o = (spec_call c w).1 /\ represents keys s' w' /\
  queue_depth keys s' = (Ok (Z.of_nat (length (waiting w'))), s') /\
  processing_depth keys s' = (Ok (Z.of_nat (length (running w'))), s') /\
  failed_depth keys s' = (Ok (Z.of_nat (length (abandoned w'))), s').
Proof.
  intros Hk%namespace_keys Hc Hrep. destruct (call_refines keys c Hk Hc s w Hrep) as [Ho Hw].
  destruct (run_call keys c s) as [o s']. cbn in Ho, Hw. split; [done|]. split; [done|].
  destruct Hw as [Hw Hr Ha _]. unfold queue_depth, processing_depth, failed_depth.
  rewrite (depth_of _ _ _ Hw), (depth_of _ _ _ Hr), (depth_of _ _ _ Ha).
  unfold encoded. by rewrite !length_map.
Qed.

Lemma run_queue_count keys cs s w m :
  distinct_keys keys -> Forall call_ok cs -> represents keys s w ->
  (copies m (entries (spec_run cs w).2) + times (is_acknowledged m) (zip cs (run_queue keys cs s).1) =
   copies m (entries w) + times (is_enqueued m) (zip cs (run_queue keys cs s).1))%nat.
Proof.
  intros Hk Hcs. revert s w; induction Hcs as [|c cs Hc _ IH]; intros s w Hrep; [by cbn; lia|].
  destruct (call_refines keys c Hk Hc s w Hrep) as [Ho Hw].
  pose proof (spec_call_count c w m (ledger_unique _ _ _ (rep_ledger _ _ _ Hrep))) as Hc1.
  cbn [run_queue spec_run]. destruct (run_call keys c s) as [o s1], (spec_call c w) as [o' w1].
  cbn [fst snd] in *. subst o'. specialize (IH s1 w1 Hw).
  destruct (run_queue keys cs s1) as [os s2], (spec_run cs w1) as [os' w2]. cbn [fst snd zip zip_with] in *.
  unfold times in *. change ((c, o) :: zip cs os) with ([(c, o)] ++ zip cs os).
  rewrite !List.filter_app, !length_app. change (result queue_error reply) with call_outcome in *. lia.
Qed.

(** C13. No job is lost or duplicated.  After any sequence of calls on an empty namespace, whatever errors
    they raise, the three lists hold each message exactly as often as it was freshly enqueued and not
    acknowledged since, and that is at most once, also among messages that share the job identifier. *)
Theorem queue_no_loss ns keys cs s0 :
  for_namespace ns = Ok keys -> (forall k, value_at s0 k = None) -> Forall call_ok cs ->
  let '(os, s) := run_queue keys cs s0 in
  exists w, represents keys s w /\ NoDup (message_job_id <$> entries w) /\
  forall m, (copies m (entries w) <= 1)%nat /\
    (copies m (entries w) + times (is_acknowledged m) (zip cs os) = times (is_enqueued m) (zip cs os))%nat.
Proof.
  intros Hk%namespace_keys He Hcs. pose proof (empty_queue keys s0 He) as Hrep.
  destruct (run_refines keys cs s0 no_work Hk Hcs Hrep) as [_ Hw].
  pose proof (fun m => run_queue_count keys cs s0 no_work m Hk Hcs Hrep) as Hc.
  destruct (run_queue keys cs s0) as [os s]. cbn [fst snd] in *. exists (spec_run cs no_work).2.
  pose proof (ledger_unique _ _ _ (rep_ledger _ _ _ Hw)) as Hu. split; [done|]. split; [done|].
  intros m. split; [by apply copies_at_most_one|]. by rewrite (Hc m).
Qed.

(** Fresh jobs are put behind the waiting ones. *)
Lemma spec_enqueues ms w :
  NoDup (message_job_id <$> ms ++ entries w) ->
  spec_run (map Enqueue ms) w =
    (replicate (length ms) (Ok (Enqueued true)), mk_work (rev ms ++ waiting w) (running w) (abandoned w)).
Proof.
  revert w; induction ms as [|m ms IH]; intros w Hn; [by destruct w|]. cbn [map spec_run spec_call].
  cbn [app] in Hn. rewrite fmap_cons in Hn. apply NoDup_cons in Hn as [Hm Hn].
  assert (find_job (message_job_id m) (entries w) = None) as ->.
  { destruct (find_job _ _) as [m'|] eqn:Hf; [|done]. apply find_job_some in Hf as [Hin He].
    destruct Hm. rewrite <- He. apply list_elem_of_fmap_2. set_solver. }
  rewrite IH; cbn [waiting running abandoned]; [cbn [length replicate rev]; by rewrite <- app_assoc|].
  assert (ms ++ entries (mk_work (m :: waiting w) (running w) (abandoned w)) ≡ₚ m :: ms ++ entries w) as ->.
  { unfold entries. cbn. solve_Permutation. }
  rewrite fmap_cons. by apply NoDup_cons.
Qed.

Lemma spec_claims timeout w :
  0 <= timeout ->
  spec_run (replicate (length (waiting w)) (Claim timeout)) w =
    (map (fun m => Ok (Claimed (Some m))) (rev (waiting w)), mk_work [] (waiting w ++ running w) (abandoned w)).
Proof.
  intros Ht. destruct w as [l r a]. cbn [waiting running abandoned]. revert r; induction l as [|m l IH] using rev_ind; intros r.
  - done.
  - rewrite length_app, Nat.add_comm. cbn [length Nat.add replicate spec_run spec_call waiting running abandoned].
    destruct (Z.ltb_spec timeout 0); [lia|]. rewrite rev_app_distr. cbn [rev app]. rewrite rev_involutive, IH.
    cbn [map]. by rewrite <- app_assoc.
Qed.

Lemma spec_run_app cs cs' w :
  spec_run (cs ++ cs') w =
  ((spec_run cs w).1 ++ (spec_run cs' (spec_run cs w).2).1, (spec_run cs' (spec_run cs w).2).2).
Proof.
  revert w; induction cs as [|c cs IH]; intros w; cbn; [by destruct (spec_run cs' w)|].
  destruct (spec_call c w) as [o w1]. rewrite IH. by destruct (spec_run cs w1).
Qed.

(** First in, first out: after new jobs are enqueued, claims deliver the jobs that were waiting, oldest
    first, and then the new ones in the order of their enqueueing, one each, and then nothing. *)
Theorem claim_fifo ns keys s w ms timeout :
  for_namespace ns = Ok keys -> represents keys s w -> Forall valid_message ms ->
  NoDup (message_job_id <$> ms ++ entries w) -> 0 <= timeout ->
  (run_queue keys (map Enqueue ms ++ replicate (length (waiting w) + length ms) (Claim timeout) ++ [Claim timeout]) s).1 =
  replicate (length ms) (Ok (Enqueued true)) ++
  map (fun m => Ok (Claimed (Some m))) (rev (waiting w) ++ ms) ++ [Ok (Claimed None)].
Proof.
  intros Hk%namespace_keys Hrep Hms Hn Ht.
  destruct (run_refines keys (map Enqueue ms ++ replicate (length (waiting w) + length ms) (Claim timeout) ++ [Claim timeout]) s w)
    as [-> _]; [done| |done|].
  { apply Forall_app; split; [by apply Forall_map|]. apply Forall_app; split; [by apply Forall_replicate|by constructor]. }
  rewrite !spec_run_app, spec_enqueues by done. cbn [fst snd].
  pose proof (spec_claims timeout (mk_work (rev ms ++ waiting w) (running w) (abandoned w)) Ht) as Hc.
  cbn [waiting running abandoned] in Hc. rewrite length_app, length_rev in Hc.
  rewrite (Nat.add_comm (length (waiting w))), Hc. cbn [fst snd spec_run spec_call waiting].
  destruct (Z.ltb_spec timeout 0); [lia|]. cbn [fst snd rev]. by rewrite rev_app_distr, rev_involutive.
Qed.

(** C34. Recovery ends: however long the processing list, the loop of the script stops after one round per
    stranded entry and one more, returns their number, leaves the processing list empty and puts the
    entries in front of the waiting ones in their old order, and touches no other key,
    whatever the number of rounds allowed.  The entries need not be messages. *)
Theorem recover_terminates ns keys s stranded queued rounds :
  for_namespace ns = Ok keys ->
  holds s (processing keys) stranded -> holds s (pending keys) queued -> (length stranded < rounds)%nat ->
  exists s', recover_processing keys rounds s = (Ok (Some (Z.of_nat (length stranded))), s') /\
    holds s' (processing keys) [] /\ holds s' (pending keys) (stranded ++ queued) /\
    forall k, k <> processing keys -> k <> pending keys -> value_at s' k = value_at s k.
Proof.
  intros Hk%namespace_keys Hp Hq Hr. apply (recover_loop_runs rounds _ _ 0); [|done..].
  apply not_eq_sym. by destruct Hk.
Qed.

(** What a claim leaves of an entry that it cannot return: a malformed one is in the failed list, one that
    meets a limit of the interpreter still in the processing list. *)
Definition left_behind (keys : QueueKeys) (raw : chars) (e : queue_error) (running_entries failed_entries : list chars) (s : keyspace) : Prop :=
  match e with
  | QueueMessageError _ => holds s (processing keys) running_entries /\ holds s (failed keys) (raw :: failed_entries)
  | _ => holds s (processing keys) (raw :: running_entries) /\ holds s (failed keys) failed_entries
  end.

(** C35. What a claim does with an entry that is not a queue message.  It raises the parser's error, whatever
    the rest of the queue.  That error is a QueueMessageError, and then the entry has moved, byte for byte,
    from the waiting to the failed list; unless reading the JSON meets, before any other mistake, an integer
    with more digits than the interpreter converts or deeper nesting than its recursion limit: then the
    ValueError or RecursionError escapes, and the entry stays in the processing list, where the next start
    finds it again.  The entry is ASCII text without NUL and without escapes for other characters. *)
Theorem claim_quarantines ns keys s rest raw running_entries failed_entries e timeout :
  for_namespace ns = Ok keys -> 0 <= timeout -> readable raw = true -> from_json_bytes raw = Raise e ->
  holds s (pending keys) (rest ++ [raw]) -> holds s (processing keys) running_entries ->
  holds s (failed keys) failed_entries ->
  match json_loads raw with
  | Raise IntegerTooLong => exists reason, e = ValueError reason
  | Raise NestedTooDeep => e = RecursionError
  | Raise JSONDecodeError | Ok _ => exists reason, e = QueueMessageError reason
  end /\
  exists s', claim keys timeout s = (Raise e, s') /\
    holds s' (pending keys) rest /\ left_behind keys raw e running_entries failed_entries s' /\
    forall k, k <> pending keys -> k <> processing keys -> k <> failed keys -> value_at s' k = value_at s k.
Proof.
  intros Hk%namespace_keys Ht _ He Hp Hr Hf. split; [by apply from_json_error|].
  destruct Hk as [Hpp Hpf Hrf _ _ _ _]. unfold claim. destruct (Z.ltb_spec timeout 0); [lia|].
  destruct (run_rpoplpush s (pending keys) (processing keys) rest raw running_entries) as (s1 & Hs1 & Hp1 & Hr1 & Ho1);
    [done|by apply holds_list_at..|].
  assert (holds s1 (failed keys) failed_entries) as Hf1 by (unfold holds; by rewrite Ho1 by congruence).
  unfold mbind, Q_bind. rewrite Hs1, He. destruct e as [reason| | | | |]; [|exists s1; by repeat split; auto..].
  destruct (run_move s1 (processing keys) (failed keys) raw (raw :: running_entries) failed_entries
    (dead_letter_script (processing keys) (failed keys) raw)) as (s2 & Hs2 & Hr2 & Hf2 & Ho2);
    [done|done|by apply holds_list_at..|by left|].
  exists s2. rewrite Hs2. cbn [remove_first] in Hr2. rewrite bool_decide_eq_true_2 in Hr2 by done.
  split; [done|]. split; [unfold holds; rewrite Ho2 by done; exact Hp1|]. split; [by split|].
  intros k Hk1 Hk2 Hk3. by rewrite Ho2, Ho1.
Qed.
End Theorems.

(** ** Concrete runs on the map server *)

Module QueueExample.
#[local] Existing Instance cpython.
#[local] Existing Instance MapRedis.server.
#[local] Existing Instance MapRedis.laws.

Definition default_keys : QueueKeys := {|
  pending := "ground:telemetry:jobs:pending"; processing := "ground:telemetry:jobs:processing";
  failed := "ground:telemetry:jobs:failed"; marker_prefix := "ground:telemetry:jobs:marker" |}.

Definition job (n : Z) : QueueMessage :=
  mk_message (uuid_str n) ("TLM-P01-B0000002A-S" +:+ format_08X n).

Definition history : list queue_call :=
  [Enqueue (job 1); Enqueue (job 2); Enqueue (job 1); Claim 1; Retry (job 2); Claim 1; DeadLetter (job 2);
   Claim 1; Ack (job 1); Claim 1; RecoverProcessing].

Lemma default_namespace : for_namespace ":ground:telemetry:jobs:" = Ok default_keys.
Proof. vm_compute. reflexivity. Qed.

Lemma job_valid n : 0 <= n <= 4294967295 -> valid_message (job n).
Proof.
  intros Hn. unfold valid_message. cbn [job message_job_id message_packet_id].
  apply (new_message_ok n 1 42 n); [unfold uuid_max; lia|]. apply Codec.Codec.format_packet_id_ok.
  change Codec.Codec.UINT32_MAX with 4294967295. split; [lia|]. split; [lia|]. split; [lia|]. reflexivity.
Qed.

Lemma history_ok : Forall call_ok history.
Proof. repeat constructor; cbn [call_ok]; try exact I; apply job_valid; lia. Qed.

Definition start : keyspace (RedisServer:=MapRedis.server) := (∅ : gmap string redis_value).
Definition one_running : keyspace (RedisServer:=MapRedis.server) :=
  (run_queue default_keys [Enqueue (job 1); Enqueue (job 2); Claim 1] start).2.

Lemma start_empty : forall k, value_at start k = None.
Proof. intros k. exact (lookup_empty (K:=string) (M:=gmap string) (A:=redis_value) k). Qed.

Lemma start_represents : represents default_keys start no_work.
Proof. exact (empty_queue default_keys start start_empty). Qed.

Lemma one_running_represents : represents default_keys one_running (mk_work [job 2] [job 1] []).
Proof.
  refine (proj2 (run_refines default_keys [Enqueue (job 1); Enqueue (job 2); Claim 1] start no_work _ _ start_represents)).
  - exact (namespace_keys _ _ default_namespace).
  - repeat constructor; cbn [call_ok]; try exact I; apply job_valid; lia.
Qed.

Lemma queue_refines_witness :
  (run_call default_keys (Ack (job 1)) one_running).1 = Ok Done /\
  (run_call default_keys (Ack (job 2)) one_running).1 = Raise (not_processing (job 2)).
Proof.
  pose proof (queue_refines _ default_keys (Ack (job 1)) one_running _ default_namespace (job_valid 1 ltac:(lia)) one_running_represents) as H1.
  pose proof (queue_refines _ default_keys (Ack (job 2)) one_running _ default_namespace (job_valid 2 ltac:(lia)) one_running_represents) as H2.
  destruct (run_call default_keys (Ack (job 1)) one_running), (run_call default_keys (Ack (job 2)) one_running).
  exact (conj (proj1 H1) (proj1 H2)).
Defined.

Lemma queue_no_loss_witness :
  exists w, represents default_keys (run_queue default_keys history start).2 w /\
    copies (job 1) (entries w) = 0%nat /\ copies (job 2) (entries w) = 1%nat.
Proof.
  pose proof (queue_no_loss _ default_keys history start default_namespace start_empty history_ok) as H.
  assert (times (is_acknowledged (job 1)) (zip history (run_queue default_keys history start).1) = 1%nat) as A1 by (vm_compute; reflexivity).
  assert (times (is_enqueued (job 1)) (zip history (run_queue default_keys history start).1) = 1%nat) as E1 by (vm_compute; reflexivity).
  assert (times (is_acknowledged (job 2)) (zip history (run_queue default_keys history start).1) = 0%nat) as A2 by (vm_compute; reflexivity).
  assert (times (is_enqueued (job 2)) (zip history (run_queue default_keys history start).1) = 1%nat) as E2 by (vm_compute; reflexivity).
  destruct (run_queue default_keys history start) as [os s]. destruct H as (w & Hw & _ & Hc). exists w.
  destruct (Hc (job 1)) as [_ H1], (Hc (job 2)) as [_ H2]. cbn [fst snd] in *.
  split; [exact Hw|]. lia.
Defined.

Lemma claim_fifo_witness :
  (run_queue default_keys (map Enqueue [job 3; job 4] ++ replicate 3 (Claim 5) ++ [Claim 5]) one_running).1 =
  [Ok (Enqueued true); Ok (Enqueued true); Ok (Claimed (Some (job 2))); Ok (Claimed (Some (job 3)));
   Ok (Claimed (Some (job 4))); Ok (Claimed None)].
Proof.
  refine (claim_fifo _ default_keys one_running (mk_work [job 2] [job 1] []) [job 3; job 4] 5
    default_namespace one_running_represents _ _ _).
  - repeat constructor; apply job_valid; lia.
  - refine (proj1 (bool_decide_eq_true _) _). vm_compute. reflexivity.
  - lia.
Defined.

Lemma recover_terminates_witness :
  exists s', recover_processing default_keys 2 one_running = (Ok (Some 1), s') /\
    holds s' (pending default_keys) (encoded [job 1; job 2]).
Proof.
  destruct (recover_terminates _ default_keys one_running (encoded [job 1]) (encoded [job 2]) 2 default_namespace
    (rep_running _ _ _ one_running_represents) (rep_waiting _ _ _ one_running_represents)) as (s' & Hs & _ & Hp & _).
  - cbn. lia.
  - exists s'. split; [exact Hs|exact Hp].
Defined.

Definition garbage : chars := chars_of "not json".
Definition with_garbage : keyspace (RedisServer:=MapRedis.server) :=
  ({[pending default_keys := RList [garbage]]} : gmap string redis_value).

(** A job whose first field is an integer of 4301 digits. *)
Definition long_number : chars := quoted "{'job_id':" ++ replicate 4301 "1"%char ++ ["}"%char].
Definition with_long_number : keyspace (RedisServer:=MapRedis.server) :=
  ({[pending default_keys := RList [long_number]]} : gmap string redis_value).

Lemma claim_quarantines_witness :
  (exists s', claim default_keys 0 with_garbage = (Raise (QueueMessageError "queue entry is not valid JSON"), s') /\
    holds s' (processing default_keys) [] /\ holds s' (failed default_keys) [garbage]) /\
  exists s' reason, claim default_keys 0 with_long_number = (Raise (ValueError reason), s') /\
    holds s' (processing default_keys) [long_number] /\ holds s' (failed default_keys) [].
Proof.
  split.
  - destruct (claim_quarantines _ default_keys with_garbage [] garbage [] []
      (QueueMessageError "queue entry is not valid JSON") 0 default_namespace) as (_ & s' & Hs & _ & [Hr Hf] & _);
      [lia|vm_compute; reflexivity..|].
    exists s'. split; [exact Hs|]. split; [exact Hr|exact Hf].
  - destruct (claim_quarantines _ default_keys with_long_number [] long_number [] []
      (ValueError "Exceeds the limit for integer string conversion") 0 default_namespace) as (_ & s' & Hs & _ & [Hr Hf] & _);
      [lia|vm_compute; reflexivity..|].
    exists s', "Exceeds the limit for integer string conversion"%string. split; [exact Hs|]. split; [exact Hr|exact Hf].
Defined.

End QueueExample.
