(* ===== verification/Sql.v ===== *)
(** * The relational engine behind the repository

    The database server is not part of the program: it is the class [SqlEngine], whose operations
    are the statements the repository issues on one table (a look-up by primary key, a scan, an
    insertion, an update of one row, an ordered scan).  [SqlLaws] states the documented behaviour
    the repository relies on; a table's declared constraints are a [Schema], given with the row
    types in Schema.v.  [MapSql] is a concrete engine on finite maps, for evaluation. *)
From S2P Require Import Prelude.
From stdpp Require Import sorting.

Open Scope Z_scope.

(** The declared constraints of a table with rows [R] and primary keys [K]: CHECK clauses, the pairs
    of rows that its UNIQUE columns keep from coexisting, and the values of its VARCHAR columns, each
    with its declared length. *)
Class Schema (K R : Type) := {
  primary_key : R -> K;
  checks : R -> bool;
  unique_clash : R -> R -> bool;
  texts : R -> list (Z * option string)
}.
#[global] Hint Mode Schema - ! : typeclass_instances.

(** A value fits its column; a statement with one that does not is a DataError.  An INSERT sends every
    column, an UPDATE the columns that changed. *)
Definition fits_column (c : Z * option string) : bool :=
  match c.2 with None => true | Some text => Z.of_nat (String.length text) <=? c.1 end.
Definition fits `{Schema K R} (r : R) : bool := forallb fits_column (texts r).
Definition fits_update `{Schema K R} (old r : R) : bool :=
  forallb (fun c => bool_decide (c.1 = c.2) || fits_column c.2) (zip (texts old) (texts r)).

Lemma fits_all `{Schema K R} (r : R) : Forall (fun c => fits_column c = true) (texts r) -> fits r = true.
Proof. unfold fits. induction 1 as [|c l Hc _ IH]; [done|]. cbn. by rewrite Hc, IH. Qed.

Lemma fits_changed `{Schema K R} (old r : R) :
  Forall (fun c => c.1 = c.2 \/ fits_column c.2 = true) (zip (texts old) (texts r)) -> fits_update old r = true.
Proof.
  unfold fits_update. induction 1 as [|c l Hc _ IH]; [done|]. cbn [forallb]. rewrite IH, andb_true_r.
  apply orb_true_iff. destruct Hc; [left; by apply bool_decide_eq_true_2|by right].
Qed.

Lemma short_fits n s : Z.of_nat (String.length s) <= n -> fits_column (n, Some s) = true.
Proof. intros Hs. by apply Z.leb_le. Qed.

(** Column by column; what is left are bounds of lengths that no computation gives. *)
Ltac column_fits := first [assumption | reflexivity | apply short_fits; first [assumption | vm_compute; discriminate | idtac]].
Ltac solve_fits := apply fits_all; repeat (constructor; [column_fits|]); try constructor.
Ltac solve_fits_changed :=
  apply fits_changed; repeat (constructor; [first [left; reflexivity | right; column_fits]|]); try constructor.

Lemma fits_unchanged `{Schema K R} (old r : R) : texts old = texts r -> fits_update old r = true.
Proof.
  unfold fits_update. intros ->. induction (texts r) as [|c l IH]; [done|]. cbn. by rewrite bool_decide_eq_true_2.
Qed.

Class SqlEngine := {
  table : forall (K : Type) `{Countable K}, Type -> Type;
  create_table : forall `{Countable K} {R}, table K R;
  row_at : forall `{Countable K} {R}, table K R -> K -> option R;
  rows : forall `{Countable K} {R}, table K R -> list R;
  (** [None] is an IntegrityError. *)
  insert_row : forall `{Countable K} `{!Schema K R}, table K R -> R -> option (table K R);
  update_row : forall `{Countable K} `{!Schema K R}, table K R -> R -> option (table K R);
  order_by : forall {R}, (R -> Z) -> list R -> list R
}.

Class SqlLaws `{SqlEngine} : Prop := {
  row_at_create `{Countable K} {R} (k : K) : row_at (create_table (R:=R)) k = None;
  rows_create `{Countable K} {R} : rows (create_table (K:=K) (R:=R)) = [];
  elem_of_rows `{Countable K} {R} (t : table K R) r : r ∈ rows t <-> exists k, row_at t k = Some r;
  insert_accepted `{Countable K} `{!Schema K R} (t : table K R) r :
    is_Some (insert_row t r) <->
    row_at t (primary_key r) = None /\ checks r = true /\
    Forall (fun q => unique_clash r q = false) (rows t);
  row_at_insert `{Countable K} `{!Schema K R} (t t' : table K R) r k :
    insert_row t r = Some t' ->
    row_at t' k = if decide (k = primary_key r) then Some r else row_at t k;
  rows_insert `{Countable K} `{!Schema K R} (t t' : table K R) r :
    insert_row t r = Some t' -> rows t' ≡ₚ r :: rows t;
  (** An update of a stored row succeeds when it keeps the CHECK clauses and makes no new clash. *)
  update_accepted `{Countable K} `{!Schema K R} (t : table K R) q r :
    row_at t (primary_key r) = Some q -> checks r = true ->
    (forall x, unique_clash r x = unique_clash q x) -> is_Some (update_row t r);
  row_at_update `{Countable K} `{!Schema K R} (t t' : table K R) r k :
    update_row t r = Some t' ->
    row_at t' k = if decide (k = primary_key r) then Some r else row_at t k;
  update_found `{Countable K} `{!Schema K R} (t t' : table K R) r :
    update_row t r = Some t' -> is_Some (row_at t (primary_key r));
  rows_update `{Countable K} `{!Schema K R} (t t' : table K R) q r :
    row_at t (primary_key r) = Some q -> update_row t r = Some t' ->
    exists rest, rows t ≡ₚ q :: rest /\ rows t' ≡ₚ r :: rest;
  order_by_perm {R} (f : R -> Z) l : order_by f l ≡ₚ l;
  order_by_sorted {R} (f : R -> Z) l : StronglySorted (fun a b => f a <= f b) (order_by f l)
}.

(** ** Derived facts *)

Lemma sorted_before {A} (R : A -> A -> Prop) l i j x y :
  StronglySorted R l -> (i < j)%nat -> l !! i = Some x -> l !! j = Some y -> R x y.
Proof.
  intros Hs; revert i j; induction Hs as [|a l Hs IH Ha]; intros [|i] [|j] Hij Hx Hy; try done; try lia; cbn in *.
  - injection Hx as <-. apply list_elem_of_lookup_2 in Hy. by eapply Forall_forall in Ha.
  - eapply (IH i j); [lia|done|done].
Qed.

Section Laws.
Context `{SqlLaws}.
Context `{Countable K} `{!Schema K R}.
Implicit Types (t : table K R) (r : R) (k : K).

Lemma insert_fresh t t' r : insert_row t r = Some t' -> row_at t (primary_key r) = None.
Proof. intros Hi. by apply (insert_accepted t r). Qed.

Lemma insert_unique t t' r q : insert_row t r = Some t' -> q ∈ rows t -> unique_clash r q = false.
Proof.
  intros Hi Hq. assert (is_Some (insert_row t r)) as (_ & _ & Hu)%insert_accepted by done.
  by eapply Forall_forall in Hu.
Qed.

Lemma insert_checks t t' r : insert_row t r = Some t' -> checks r = true.
Proof. intros Hi. by apply (insert_accepted t r). Qed.

Lemma row_at_inserted t t' r : insert_row t r = Some t' -> row_at t' (primary_key r) = Some r.
Proof. intros Hi. by rewrite (row_at_insert _ _ _ _ Hi), decide_True. Qed.

(** Insertions keep every stored row. *)
Lemma row_at_insert_old t t' r k q : insert_row t r = Some t' -> row_at t k = Some q -> row_at t' k = Some q.
Proof.
  intros Hi Hk. rewrite (row_at_insert _ _ _ _ Hi). destruct (decide _) as [->|]; [|done].
  apply insert_fresh in Hi. congruence.
Qed.

Lemma row_at_insert_inv t t' r k q :
  insert_row t r = Some t' -> row_at t' k = Some q -> (k = primary_key r /\ q = r) \/ row_at t k = Some q.
Proof.
  intros Hi. rewrite (row_at_insert _ _ _ _ Hi). destruct (decide _) as [->|]; [|by right].
  intros [= ->]. by left.
Qed.

Lemma row_at_updated t t' r : update_row t r = Some t' -> row_at t' (primary_key r) = Some r.
Proof. intros Hi. by rewrite (row_at_update _ _ _ _ Hi), decide_True. Qed.

Lemma row_at_update_ne t t' r k : update_row t r = Some t' -> k <> primary_key r -> row_at t' k = row_at t k.
Proof. intros Hi Hk. by rewrite (row_at_update _ _ _ _ Hi), decide_False. Qed.
End Laws.

(** ** An engine on finite maps *)

Module MapSql.

Definition no_clash `{Countable K} `{!Schema K R} (t : gmap K R) (r : R) : bool :=
  forallb (fun q => negb (unique_clash r q)) (snd <$> map_to_list t).

Definition insert `{Countable K} `{!Schema K R} (t : gmap K R) (r : R) : option (gmap K R) :=
  match t !! primary_key r with
  | Some _ => None
  | None => if checks r && no_clash t r then Some (<[primary_key r := r]> t) else None
  end.

Definition update `{Countable K} `{!Schema K R} (t : gmap K R) (r : R) : option (gmap K R) :=
  match t !! primary_key r with
  | None => None
  | Some q =>
      if checks r && forallb (fun x => negb (unique_clash r x) || unique_clash q x) (snd <$> map_to_list t)
      then Some (<[primary_key r := r]> t) else None
  end.

Definition by_key {R} (f : R -> Z) (a b : R) : Prop := f a <= f b.
#[export] Instance by_key_dec {R} (f : R -> Z) : RelDecision (by_key f).
Proof. intros a b. unfold by_key. apply _. Defined.

#[export] Instance engine : SqlEngine := {|
  table := fun K _ _ R => gmap K R;
  create_table := fun K _ _ R => ∅;
  row_at := fun K _ _ R t k => t !! k;
  rows := fun K _ _ R t => snd <$> map_to_list t;
  insert_row := fun K _ _ R _ t r => insert t r;
  update_row := fun K _ _ R _ t r => update t r;
  order_by := fun R f l => merge_sort (by_key f) l
|}.

Lemma forallb_Forall {A} (f : A -> bool) l : forallb f l = true <-> Forall (fun a => f a = true) l.
Proof. rewrite forallb_forall, Forall_forall. split; intros H x Hx; apply H; by apply list_elem_of_In. Qed.

Lemma insert_Some `{Countable K} `{!Schema K R} (t t' : gmap K R) r :
  insert t r = Some t' <->
  t !! primary_key r = None /\ checks r && no_clash t r = true /\ t' = <[primary_key r := r]> t.
Proof.
  unfold insert. destruct (t !! primary_key r); [split; [done|by intros (? & _)]|].
  destruct (checks r && no_clash t r).
  - split; [intros [= <-]; done|by intros (_ & _ & ->)].
  - split; [done|by intros (_ & ? & _)].
Qed.

Lemma update_Some `{Countable K} `{!Schema K R} (t t' : gmap K R) r :
  update t r = Some t' -> is_Some (t !! primary_key r) /\ t' = <[primary_key r := r]> t.
Proof.
  unfold update. destruct (t !! primary_key r); [|done]. destruct (_ && _); [|done]. by intros [= <-].
Qed.

#[export] Instance laws : SqlLaws.
Proof.
  split; cbn.
  - intros. apply lookup_empty.
  - intros. by rewrite map_to_list_empty.
  - intros K ? ? R t r. rewrite list_elem_of_fmap. split.
    + intros ([k q] & -> & Hq%elem_of_map_to_list). by exists k.
    + intros [k Hk]. exists (k, r). split; [done|by apply elem_of_map_to_list].
  - intros K ? ? R ? t r. split.
    + intros [t' (Hn & [Hc Hu]%andb_true_iff & _)%insert_Some]. split; [done|]. split; [done|].
      unfold no_clash in Hu. apply forallb_Forall in Hu. eapply Forall_impl; [exact Hu|].
      intros q. apply negb_true_iff.
    + intros (Hn & Hc & Hu). exists (<[primary_key r := r]> t). apply insert_Some. split; [done|].
      split; [|done]. apply andb_true_iff. split; [done|]. apply forallb_Forall.
      eapply Forall_impl; [exact Hu|]. intros q. apply negb_true_iff.
  - intros K ? ? R ? t t' r k (_ & _ & ->)%insert_Some. destruct (decide (k = primary_key r)) as [->|Hk].
    + by rewrite lookup_insert_eq.
    + by rewrite lookup_insert_ne.
  - intros K ? ? R ? t t' r (Hn & _ & ->)%insert_Some. by rewrite map_to_list_insert.
  - intros K ? ? R ? t q r Hq Hc Hu. unfold update. rewrite Hq, Hc. cbn.
    destruct (forallb _ _) eqn:Hf; [done|]. exfalso. apply not_true_iff_false in Hf. apply Hf.
    apply forallb_Forall, Forall_forall. intros x _. rewrite Hu. by destruct (unique_clash q x).
  - intros K ? ? R ? t t' r k [_ ->]%update_Some. destruct (decide (k = primary_key r)) as [->|Hk].
    + by rewrite lookup_insert_eq.
    + by rewrite lookup_insert_ne.
  - intros K ? ? R ? t t' r [? _]%update_Some. done.
  - intros K ? ? R ? t t' q r Hq [_ ->]%update_Some.
    exists (snd <$> map_to_list (delete (primary_key r) t)). split.
    + rewrite <- (insert_delete_id t (primary_key r) q Hq) at 1.
      rewrite map_to_list_insert; [done|]. apply lookup_delete_eq.
    + rewrite <- insert_delete_eq, map_to_list_insert; [done|]. apply lookup_delete_eq.
  - intros R f l. apply merge_sort_Permutation.
  - intros R f l. assert (Transitive (by_key f)) by (intros a b c; unfold by_key; lia).
    assert (Total (by_key f)) by (intros a b; unfold by_key; lia).
    apply (StronglySorted_merge_sort (by_key f)).
Qed.

End MapSql.
