(* ===== verification/Schema.v ===== *)
(** * The telemetry tables of [mission_ground/telemetry/storage.py]

    One record per mapped class, its declared constraints as a [Schema], the database of the seven
    tables with its foreign keys, and the session operations of a transaction.  Times are instants
    in microseconds from 1970-01-01 UTC, UUIDs their 128-bit values, floats IEEE binary64. *)
From Stdlib Require Import SpecFloat.
From S2P Require Import Prelude PyFormat Uuid Json Sql.

Open Scope Z_scope.

Definition MAX_UINT32 : Z := 0xFFFFFFFF.
Definition HALF_UINT32_RANGE : Z := Z.shiftl 1 31.
Definition MAX_EVIDENCE_BODY_BYTES : Z := 1_024.

(** ** Enumerations *)

Inductive DeliveryValidationStatus := PENDING | ACCEPTED | REJECTED | DUPLICATE | CONFLICT.
Inductive DeliveryQueueStatus := NOT_APPLICABLE | DELIVERY_PENDING_QUEUE | DELIVERY_QUEUED.
Inductive SequenceDisposition := FIRST | IN_ORDER | GAP | LATE.
Inductive HealthClassification := NOMINAL | WARNING | CRITICAL.
Inductive ProcessingJobState := PENDING_QUEUE | QUEUED | PROCESSING | RETRY_WAIT | COMPLETE | FAILED.

#[export] Instance DeliveryValidationStatus_eq_dec : EqDecision DeliveryValidationStatus.
Proof. solve_decision. Defined.
#[export] Instance DeliveryQueueStatus_eq_dec : EqDecision DeliveryQueueStatus.
Proof. solve_decision. Defined.
#[export] Instance SequenceDisposition_eq_dec : EqDecision SequenceDisposition.
Proof. solve_decision. Defined.
#[export] Instance HealthClassification_eq_dec : EqDecision HealthClassification.
Proof. solve_decision. Defined.
#[export] Instance ProcessingJobState_eq_dec : EqDecision ProcessingJobState.
Proof. solve_decision. Defined.

Definition DeliveryValidationStatus_value (s : DeliveryValidationStatus) : string :=
  match s with
  | PENDING => "PENDING" | ACCEPTED => "ACCEPTED" | REJECTED => "REJECTED"
  | DUPLICATE => "DUPLICATE" | CONFLICT => "CONFLICT"
  end.
Definition DeliveryQueueStatus_value (s : DeliveryQueueStatus) : string :=
  match s with
  | NOT_APPLICABLE => "NOT_APPLICABLE" | DELIVERY_PENDING_QUEUE => "PENDING_QUEUE"
  | DELIVERY_QUEUED => "QUEUED"
  end.
Definition SequenceDisposition_value (d : SequenceDisposition) : string :=
  match d with FIRST => "FIRST" | IN_ORDER => "IN_ORDER" | GAP => "GAP" | LATE => "LATE" end.
Definition HealthClassification_value (c : HealthClassification) : string :=
  match c with NOMINAL => "NOMINAL" | WARNING => "WARNING" | CRITICAL => "CRITICAL" end.
Definition ProcessingJobState_value (s : ProcessingJobState) : string :=
  match s with
  | PENDING_QUEUE => "PENDING_QUEUE" | QUEUED => "QUEUED" | PROCESSING => "PROCESSING"
  | RETRY_WAIT => "RETRY_WAIT" | COMPLETE => "COMPLETE" | FAILED => "FAILED"
  end.

(** ** Rows *)

(** Exact evidence for one request body. *)
Record TelemetryDeliveryReceipt := mk_receipt {
  receipt_id : uuid;
  presented_request_id : option string;
  canonical_request_id : option uuid;
  peer_certificate_identity : string;
  content_type : option string;
  vendor_sent_at : option Z;
  received_at : Z;
  receipt_updated_at : Z;
  raw_body : bytes;
  raw_body_size : Z;
  body_sha256 : string;
  validation_status : DeliveryValidationStatus;
  rejection_reason : option string;
  parsed_identifiers : option (list (string * json));
  duplicate_of_receipt_id : option uuid;
  logical_packet_id : option string;
  queue_status : DeliveryQueueStatus
}.

(** The first receipt of a canonical request identifier. *)
Record TelemetryRequestIdentity := mk_identity {
  request_id : uuid;
  first_receipt_id : uuid;
  identity_sha256 : string;
  identity_created_at : Z
}.

(** One processable packet of a source key. *)
Record LogicalTelemetryPacket := mk_packet {
  packet_id : string;
  source_receipt_id : uuid;
  protocol_version : Z;
  payload_id : Z;
  boot_id : Z;
  sequence_number : Z;
  sample_timestamp_us : Z;
  temperature_centi_c : Z;
  voltage_mv : Z;
  operating_mode : Z;
  fault_flags : Z;
  raw_sha256 : string;
  sequence_disposition : SequenceDisposition;
  missing_before : Z;
  accepted_at : Z
}.

(** The high-water mark of a boot session. *)
Record TelemetrySequenceState := mk_sequence_state {
  state_payload_id : Z;
  state_boot_id : Z;
  high_water_sequence : Z;
  accepted_packet_count : Z;
  missing_packet_count : Z;
  last_high_water_packet_id : string;
  state_created_at : Z;
  state_updated_at : Z
}.

(** Durable work state. *)
Record TelemetryProcessingJob := mk_job {
  job_id : uuid;
  job_packet_id : string;
  job_state : ProcessingJobState;
  queue_message_id : option string;
  attempt_count : Z;
  max_attempts : Z;
  claimed_by : option string;
  claimed_at : option Z;
  lease_expires_at : option Z;
  next_attempt_at : option Z;
  last_error : option string;
  failed_at : option Z;
  completed_at : option Z;
  job_created_at : Z;
  job_updated_at : Z
}.

(** One engineering result of a packet. *)
Record ProcessedTelemetry := mk_processed {
  processed_packet_id : string;
  processing_job_id : uuid;
  temperature_c : spec_float;
  voltage_v : spec_float;
  mode_name : string;
  fault_names : list string;
  classification : HealthClassification;
  stale : bool;
  processor_version : string;
  processed_at : Z
}.

(** One line of the audit history. *)
Record TelemetryAuditEvent := mk_event {
  event_id : uuid;
  occurred_at : Z;
  service_name : string;
  event_name : string;
  actor_identity : string;
  outcome : string;
  reason : option string;
  event_receipt_id : option uuid;
  event_packet_id : option string;
  event_job_id : option uuid;
  event_data : list (string * json)
}.

(** ** Attribute assignment on the mapped objects *)

Definition set_receipt_updated_at (v : Z) (r : TelemetryDeliveryReceipt) : TelemetryDeliveryReceipt :=
  mk_receipt (receipt_id r) (presented_request_id r) (canonical_request_id r) 
    (peer_certificate_identity r) (content_type r) (vendor_sent_at r) (received_at r) v 
    (raw_body r) (raw_body_size r) (body_sha256 r) (validation_status r) (rejection_reason r) 
    (parsed_identifiers r) (duplicate_of_receipt_id r) (logical_packet_id r) (queue_status r).
Definition set_validation_status (v : DeliveryValidationStatus) (r : TelemetryDeliveryReceipt) : TelemetryDeliveryReceipt :=
  mk_receipt (receipt_id r) (presented_request_id r) (canonical_request_id r) 
    (peer_certificate_identity r) (content_type r) (vendor_sent_at r) (received_at r) 
    (receipt_updated_at r) (raw_body r) (raw_body_size r) (body_sha256 r) v (rejection_reason r) 
    (parsed_identifiers r) (duplicate_of_receipt_id r) (logical_packet_id r) (queue_status r).
Definition set_rejection_reason (v : option string) (r : TelemetryDeliveryReceipt) : TelemetryDeliveryReceipt :=
  mk_receipt (receipt_id r) (presented_request_id r) (canonical_request_id r) 
    (peer_certificate_identity r) (content_type r) (vendor_sent_at r) (received_at r) 
    (receipt_updated_at r) (raw_body r) (raw_body_size r) (body_sha256 r) (validation_status r) v 
    (parsed_identifiers r) (duplicate_of_receipt_id r) (logical_packet_id r) (queue_status r).
Definition set_parsed_identifiers (v : option (list (string * json))) (r : TelemetryDeliveryReceipt) : TelemetryDeliveryReceipt :=
  mk_receipt (receipt_id r) (presented_request_id r) (canonical_request_id r) 
    (peer_certificate_identity r) (content_type r) (vendor_sent_at r) (received_at r) 
    (receipt_updated_at r) (raw_body r) (raw_body_size r) (body_sha256 r) (validation_status r) 
    (rejection_reason r) v (duplicate_of_receipt_id r) (logical_packet_id r) (queue_status r).
Definition set_duplicate_of_receipt_id (v : option uuid) (r : TelemetryDeliveryReceipt) : TelemetryDeliveryReceipt :=
  mk_receipt (receipt_id r) (presented_request_id r) (canonical_request_id r) 
    (peer_certificate_identity r) (content_type r) (vendor_sent_at r) (received_at r) 
    (receipt_updated_at r) (raw_body r) (raw_body_size r) (body_sha256 r) (validation_status r) 
    (rejection_reason r) (parsed_identifiers r) v (logical_packet_id r) (queue_status r).
Definition set_logical_packet_id (v : option string) (r : TelemetryDeliveryReceipt) : TelemetryDeliveryReceipt :=
  mk_receipt (receipt_id r) (presented_request_id r) (canonical_request_id r) 
    (peer_certificate_identity r) (content_type r) (vendor_sent_at r) (received_at r) 
    (receipt_updated_at r) (raw_body r) (raw_body_size r) (body_sha256 r) (validation_status r) 
    (rejection_reason r) (parsed_identifiers r) (duplicate_of_receipt_id r) v (queue_status r).
Definition set_queue_status (v : DeliveryQueueStatus) (r : TelemetryDeliveryReceipt) : TelemetryDeliveryReceipt :=
  mk_receipt (receipt_id r) (presented_request_id r) (canonical_request_id r) 
    (peer_certificate_identity r) (content_type r) (vendor_sent_at r) (received_at r) 
    (receipt_updated_at r) (raw_body r) (raw_body_size r) (body_sha256 r) (validation_status r) 
    (rejection_reason r) (parsed_identifiers r) (duplicate_of_receipt_id r) (logical_packet_id r) v.
Definition set_high_water_sequence (v : Z) (s : TelemetrySequenceState) : TelemetrySequenceState :=
  mk_sequence_state (state_payload_id s) (state_boot_id s) v (accepted_packet_count s) 
    (missing_packet_count s) (last_high_water_packet_id s) (state_created_at s) 
    (state_updated_at s).
Definition set_accepted_packet_count (v : Z) (s : TelemetrySequenceState) : TelemetrySequenceState :=
  mk_sequence_state (state_payload_id s) (state_boot_id s) (high_water_sequence s) v 
    (missing_packet_count s) (last_high_water_packet_id s) (state_created_at s) 
    (state_updated_at s).
Definition set_missing_packet_count (v : Z) (s : TelemetrySequenceState) : TelemetrySequenceState :=
  mk_sequence_state (state_payload_id s) (state_boot_id s) (high_water_sequence s) 
    (accepted_packet_count s) v (last_high_water_packet_id s) (state_created_at s) 
    (state_updated_at s).
Definition set_last_high_water_packet_id (v : string) (s : TelemetrySequenceState) : TelemetrySequenceState :=
  mk_sequence_state (state_payload_id s) (state_boot_id s) (high_water_sequence s) 
    (accepted_packet_count s) (missing_packet_count s) v (state_created_at s) (state_updated_at s).
Definition set_state_updated_at (v : Z) (s : TelemetrySequenceState) : TelemetrySequenceState :=
  mk_sequence_state (state_payload_id s) (state_boot_id s) (high_water_sequence s) 
    (accepted_packet_count s) (missing_packet_count s) (last_high_water_packet_id s) 
    (state_created_at s) v.
Definition set_job_state (v : ProcessingJobState) (j : TelemetryProcessingJob) : TelemetryProcessingJob :=
  mk_job (job_id j) (job_packet_id j) v (queue_message_id j) (attempt_count j) (max_attempts j) 
    (claimed_by j) (claimed_at j) (lease_expires_at j) (next_attempt_at j) (last_error j) 
    (failed_at j) (completed_at j) (job_created_at j) (job_updated_at j).
Definition set_queue_message_id (v : option string) (j : TelemetryProcessingJob) : TelemetryProcessingJob :=
  mk_job (job_id j) (job_packet_id j) (job_state j) v (attempt_count j) (max_attempts j) 
    (claimed_by j) (claimed_at j) (lease_expires_at j) (next_attempt_at j) (last_error j) 
    (failed_at j) (completed_at j) (job_created_at j) (job_updated_at j).
Definition set_attempt_count (v : Z) (j : TelemetryProcessingJob) : TelemetryProcessingJob :=
  mk_job (job_id j) (job_packet_id j) (job_state j) (queue_message_id j) v (max_attempts j) 
    (claimed_by j) (claimed_at j) (lease_expires_at j) (next_attempt_at j) (last_error j) 
    (failed_at j) (completed_at j) (job_created_at j) (job_updated_at j).
Definition set_claimed_by (v : option string) (j : TelemetryProcessingJob) : TelemetryProcessingJob :=
  mk_job (job_id j) (job_packet_id j) (job_state j) (queue_message_id j) (attempt_count j) 
    (max_attempts j) v (claimed_at j) (lease_expires_at j) (next_attempt_at j) (last_error j) 
    (failed_at j) (completed_at j) (job_created_at j) (job_updated_at j).
Definition set_claimed_at (v : option Z) (j : TelemetryProcessingJob) : TelemetryProcessingJob :=
  mk_job (job_id j) (job_packet_id j) (job_state j) (queue_message_id j) (attempt_count j) 
    (max_attempts j) (claimed_by j) v (lease_expires_at j) (next_attempt_at j) (last_error j) 
    (failed_at j) (completed_at j) (job_created_at j) (job_updated_at j).
Definition set_lease_expires_at (v : option Z) (j : TelemetryProcessingJob) : TelemetryProcessingJob :=
  mk_job (job_id j) (job_packet_id j) (job_state j) (queue_message_id j) (attempt_count j) 
    (max_attempts j) (claimed_by j) (claimed_at j) v (next_attempt_at j) (last_error j) 
    (failed_at j) (completed_at j) (job_created_at j) (job_updated_at j).
Definition set_next_attempt_at (v : option Z) (j : TelemetryProcessingJob) : TelemetryProcessingJob :=
  mk_job (job_id j) (job_packet_id j) (job_state j) (queue_message_id j) (attempt_count j) 
    (max_attempts j) (claimed_by j) (claimed_at j) (lease_expires_at j) v (last_error j) 
    (failed_at j) (completed_at j) (job_created_at j) (job_updated_at j).
Definition set_last_error (v : option string) (j : TelemetryProcessingJob) : TelemetryProcessingJob :=
  mk_job (job_id j) (job_packet_id j) (job_state j) (queue_message_id j) (attempt_count j) 
    (max_attempts j) (claimed_by j) (claimed_at j) (lease_expires_at j) (next_attempt_at j) v 
    (failed_at j) (completed_at j) (job_created_at j) (job_updated_at j).
Definition set_failed_at (v : option Z) (j : TelemetryProcessingJob) : TelemetryProcessingJob :=
  mk_job (job_id j) (job_packet_id j) (job_state j) (queue_message_id j) (attempt_count j) 
    (max_attempts j) (claimed_by j) (claimed_at j) (lease_expires_at j) (next_attempt_at j) 
    (last_error j) v (completed_at j) (job_created_at j) (job_updated_at j).
Definition set_completed_at (v : option Z) (j : TelemetryProcessingJob) : TelemetryProcessingJob :=
  mk_job (job_id j) (job_packet_id j) (job_state j) (queue_message_id j) (attempt_count j) 
    (max_attempts j) (claimed_by j) (claimed_at j) (lease_expires_at j) (next_attempt_at j) 
    (last_error j) (failed_at j) v (job_created_at j) (job_updated_at j).
Definition set_job_updated_at (v : Z) (j : TelemetryProcessingJob) : TelemetryProcessingJob :=
  mk_job (job_id j) (job_packet_id j) (job_state j) (queue_message_id j) (attempt_count j) 
    (max_attempts j) (claimed_by j) (claimed_at j) (lease_expires_at j) (next_attempt_at j) 
    (last_error j) (failed_at j) (completed_at j) (job_created_at j) v.

(** [row |> set_x v |> set_y w]. *)
Notation "x |> f" := (f x) (at level 61, left associativity, only parsing) : py_scope.

(** ** Declared constraints

    The columns of digests are left out of [texts]: they hold [sha256_hexdigest] texts, which have the 64
    characters of their columns ([sha256_hexdigest_length]). *)

Definition receipt_schema : Schema uuid TelemetryDeliveryReceipt := {|
  primary_key := receipt_id;
  checks := fun r => (0 <=? raw_body_size r) && (raw_body_size r <=? MAX_EVIDENCE_BODY_BYTES);
  unique_clash := fun _ _ => false;
  texts := fun r => [(512, Some (peer_certificate_identity r)); (255, content_type r); (64, logical_packet_id r)]
|}.

Definition identity_schema : Schema uuid TelemetryRequestIdentity := {|
  primary_key := request_id;
  checks := fun _ => true;
  unique_clash := fun i i' => first_receipt_id i =? first_receipt_id i';
  texts := fun _ => []
|}.

(** The source key that identifies a packet, and the session it belongs to. *)
Definition packet_key (p : LogicalTelemetryPacket) : Z * Z * Z := (payload_id p, boot_id p, sequence_number p).
Definition packet_session (p : LogicalTelemetryPacket) : Z * Z := (payload_id p, boot_id p).

Definition packet_schema : Schema string LogicalTelemetryPacket := {|
  primary_key := packet_id;
  checks := fun p => (0 <? payload_id p) && (0 <? boot_id p) &&
    ((0 <=? sequence_number p) && (sequence_number p <=? MAX_UINT32));
  unique_clash := fun p p' =>
    bool_decide (packet_key p = packet_key p') || (source_receipt_id p =? source_receipt_id p');
  texts := fun p => [(64, Some (packet_id p))]
|}.

Definition sequence_state_schema : Schema (Z * Z) TelemetrySequenceState := {|
  primary_key := fun s => (state_payload_id s, state_boot_id s);
  checks := fun s => (0 <? state_payload_id s) && (0 <? state_boot_id s) &&
    ((0 <=? high_water_sequence s) && (high_water_sequence s <=? MAX_UINT32));
  unique_clash := fun _ _ => false;
  texts := fun s => [(64, Some (last_high_water_packet_id s))]
|}.

Definition job_schema : Schema uuid TelemetryProcessingJob := {|
  primary_key := job_id;
  checks := fun j => (0 <=? attempt_count j) && (0 <? max_attempts j);
  unique_clash := fun j j' => bool_decide (job_packet_id j = job_packet_id j');
  texts := fun j => [(64, Some (job_packet_id j)); (255, queue_message_id j); (255, claimed_by j)]
|}.

Definition processed_schema : Schema string ProcessedTelemetry := {|
  primary_key := processed_packet_id;
  checks := fun _ => true;
  unique_clash := fun t t' => processing_job_id t =? processing_job_id t';
  texts := fun t => [(64, Some (processed_packet_id t)); (32, Some (mode_name t)); (64, Some (processor_version t))]
|}.

Definition event_schema : Schema uuid TelemetryAuditEvent := {|
  primary_key := event_id;
  checks := fun _ => true;
  unique_clash := fun _ _ => false;
  texts := fun e => [(64, Some (service_name e)); (128, Some (event_name e)); (512, Some (actor_identity e));
    (64, Some (outcome e)); (64, event_packet_id e)]
|}.

#[export] Existing Instances receipt_schema identity_schema packet_schema sequence_state_schema job_schema
  processed_schema event_schema.

(** ** The database *)

Section Database.
Context `{SqlEngine}.

Record database := mk_database {
  receipts : table uuid TelemetryDeliveryReceipt;
  identities : table uuid TelemetryRequestIdentity;
  packets : table string LogicalTelemetryPacket;
  sequence_states : table (Z * Z) TelemetrySequenceState;
  jobs : table uuid TelemetryProcessingJob;
  processed : table string ProcessedTelemetry;
  events : table uuid TelemetryAuditEvent
}.

(** [Base.metadata.create_all]. *)
Definition create_schema : database :=
  mk_database create_table create_table create_table create_table create_table create_table create_table.

(** A mapped class: its table, and the foreign keys of a row, checked when the row is inserted. *)
Class Mapped (K R : Type) `{Countable K} := {
  mapped_schema :: Schema K R;
  table_of : database -> table K R;
  with_table : table K R -> database -> database;
  foreign_keys : database -> R -> bool
}.

Definition present `{Countable K} {R} (t : table K R) (k : K) : bool := bool_decide (is_Some (row_at t k)).
Definition present_if `{Countable K} {R} (t : table K R) (k : option K) : bool :=
  match k with Some k => present t k | None => true end.

#[export] Instance receipts_mapped : Mapped uuid TelemetryDeliveryReceipt := {|
  table_of := receipts;
  with_table := fun t d => mk_database t (identities d) (packets d) (sequence_states d) (jobs d) (processed d) (events d);
  foreign_keys := fun d r => present_if (receipts d) (duplicate_of_receipt_id r)
|}.
#[export] Instance identities_mapped : Mapped uuid TelemetryRequestIdentity := {|
  table_of := identities;
  with_table := fun t d => mk_database (receipts d) t (packets d) (sequence_states d) (jobs d) (processed d) (events d);
  foreign_keys := fun d i => present (receipts d) (first_receipt_id i)
|}.
#[export] Instance packets_mapped : Mapped string LogicalTelemetryPacket := {|
  table_of := packets;
  with_table := fun t d => mk_database (receipts d) (identities d) t (sequence_states d) (jobs d) (processed d) (events d);
  foreign_keys := fun d p => present (receipts d) (source_receipt_id p)
|}.
#[export] Instance sequence_states_mapped : Mapped (Z * Z) TelemetrySequenceState := {|
  table_of := sequence_states;
  with_table := fun t d => mk_database (receipts d) (identities d) (packets d) t (jobs d) (processed d) (events d);
  foreign_keys := fun d s => present (packets d) (last_high_water_packet_id s)
|}.
#[export] Instance jobs_mapped : Mapped uuid TelemetryProcessingJob := {|
  table_of := jobs;
  with_table := fun t d => mk_database (receipts d) (identities d) (packets d) (sequence_states d) t (processed d) (events d);
  foreign_keys := fun d j => present (packets d) (job_packet_id j)
|}.
#[export] Instance processed_mapped : Mapped string ProcessedTelemetry := {|
  table_of := processed;
  with_table := fun t d => mk_database (receipts d) (identities d) (packets d) (sequence_states d) (jobs d) t (events d);
  foreign_keys := fun d t => present (packets d) (processed_packet_id t) && present (jobs d) (processing_job_id t)
|}.
#[export] Instance events_mapped : Mapped uuid TelemetryAuditEvent := {|
  table_of := events;
  with_table := fun t d => mk_database (receipts d) (identities d) (packets d) (sequence_states d) (jobs d) (processed d) t;
  foreign_keys := fun d e => present_if (receipts d) (event_receipt_id e) &&
    present_if (packets d) (event_packet_id e) && present_if (jobs d) (event_job_id e)
|}.

End Database.
