(* ===== verification/Session.v ===== *)
(** * Sessions and transactions

    The repository's calls run in a world: the committed or in-transaction database, and the
    positions in the streams of clock readings and random UUIDs that the environment supplies.
    A session operation reads or changes the world and may raise; [session_begin] is
    [async with session.begin()]: it commits when the block returns and rolls the tables back when
    the block raises.  Nothing else happens during the block, and its reads are fresh; what two overlapping
    blocks may do under READ COMMITTED is the subject of RepositoryRaces.v. *)
From S2P Require Import Prelude Uuid Json Sql Schema.

Open Scope Z_scope.

Inductive storage_error :=
| ValueError (message : string)
| TelemetryStorageError (message : string)
| DeliveryNotFoundError (receipt_id : uuid)
| InvalidDeliveryStateError (message : string)
| ProcessingJobNotFoundError (job_id : uuid)
| ProcessingResultConflictError (message : string)
| IntegrityError
| DataError
| AssertionError (message : string).

(** The clock and the random generator: [utc_now()] and [uuid4()] return successive readings. *)
Class Env := { clock : nat -> Z; uuid4 : nat -> uuid }.

Section Session.
Context `{SqlEngine} `{Env}.

Record world := mk_world { db : database; clock_reads : nat; uuid_draws : nat }.

Definition M (A : Type) : Type := world -> result storage_error A * world.

#[global] Instance M_ret : MRet M := fun A a w => (Ok a, w).
#[global] Instance M_bind : MBind M := fun A B k m w =>
  match m w with
  | (Ok a, w') => k a w'
  | (Raise e, w') => (Raise e, w')
  end.

Definition raise {A} (e : storage_error) : M A := fun w => (Raise e, w).
Definition when_ (c : bool) (m : M ()) : M () := if c then m else mret ().

Definition utc_now : M Z := fun w =>
  (Ok (clock (clock_reads w)), mk_world (db w) (S (clock_reads w)) (uuid_draws w)).
Definition draw_uuid4 : M uuid := fun w =>
  (Ok (uuid4 (uuid_draws w)), mk_world (db w) (clock_reads w) (S (uuid_draws w))).

Definition with_db (d : database) (w : world) : world := mk_world d (clock_reads w) (uuid_draws w).

(** [async with session.begin(): block]. *)
Definition session_begin {A} (block : M A) : M A := fun w =>
  match block w with
  | (Ok a, w') => (Ok a, w')
  | (Raise e, w') => (Raise e, with_db (db w) w')
  end.

(** [session.get(cls, key)]. *)
Definition session_get `{Countable K} `{!Mapped K R} (k : K) : M (option R) := fun w =>
  (Ok (row_at (table_of (db w)) k), w).

(** [session.scalars(select(cls).where(...))] and [session.scalar(...)], its first row. *)
Definition session_scalars `{Countable K} `{!Mapped K R} (where_ : R -> bool) : M (list R) := fun w =>
  (Ok (List.filter where_ (rows (table_of (db w)))), w).
Definition session_scalar `{Countable K} `{!Mapped K R} (where_ : R -> bool) : M (option R) :=
  found ← session_scalars where_; mret (head found).

(** [session.add(row)] with the flush that inserts it: a text longer than its column is a DataError. *)
Definition session_add `{Countable K} `{!Mapped K R} (r : R) : M () := fun w =>
  if negb (fits r) then (Raise DataError, w)
  else if foreign_keys (db w) r then
    match insert_row (table_of (db w)) r with
    | Some t => (Ok (), with_db (with_table t (db w)) w)
    | None => (Raise IntegrityError, w)
    end
  else (Raise IntegrityError, w).

(** Assignments to the attributes of a loaded object: the flush updates the changed columns of its row. *)
Definition session_update `{Countable K} `{!Mapped K R} (r : R) : M () := fun w =>
  if from_option (fun old => negb (fits_update old r)) false (row_at (table_of (db w)) (primary_key r))
  then (Raise DataError, w)
  else match update_row (table_of (db w)) r with
  | Some t => (Ok (), with_db (with_table t (db w)) w)
  | None => (Raise IntegrityError, w)
  end.

Fixpoint for_each {A} (l : list A) (body : A -> M ()) : M () :=
  match l with
  | [] => mret ()
  | a :: l' => body a ;; for_each l' body
  end.

(** [for attempt in range(n): try: return body() except IntegrityError: if attempt == n - 1: raise].
    The statement after the loop is an [AssertionError]. *)
Fixpoint retry_on_integrity_error {A} (n : nat) (after : string) (body : M A) : M A :=
  match n with
  | O => raise (AssertionError after)
  | S n' => fun w =>
      match body w with
      | (Raise IntegrityError, w') =>
          if (n' =? 0)%nat then (Raise IntegrityError, w') else retry_on_integrity_error n' after body w'
      | outcome => outcome
      end
  end.

(** ** Runs *)

Lemma run_bind_ok {A B} (m : M A) (k : A -> M B) w b w' :
  (m ≫= k) w = (Ok b, w') <-> exists a w1, m w = (Ok a, w1) /\ k a w1 = (Ok b, w').
Proof.
  unfold mbind, M_bind. destruct (m w) as [[a|e] w1]; split; [eauto| | |].
  - by intros (? & ? & [= -> ->] & ?).
  - done.
  - by intros (? & ? & ? & ?).
Qed.

Lemma run_ret_ok {A} (a b : A) w w' : mret (M:=M) a w = (Ok b, w') <-> a = b /\ w = w'.
Proof. unfold mret, M_ret. split; [by intros [= -> ->]|by intros [-> ->]]. Qed.

Lemma run_raise_ok {A} e w (a : A) w' : raise e w = (Ok a, w') <-> False.
Proof. done. Qed.

Lemma run_now_ok w t w' :
  utc_now w = (Ok t, w') <-> t = clock (clock_reads w) /\ w' = mk_world (db w) (S (clock_reads w)) (uuid_draws w).
Proof. unfold utc_now. split; [by intros [= <- <-]|by intros [-> ->]]. Qed.

Lemma run_uuid_ok w u w' :
  draw_uuid4 w = (Ok u, w') <-> u = uuid4 (uuid_draws w) /\ w' = mk_world (db w) (clock_reads w) (S (uuid_draws w)).
Proof. unfold draw_uuid4. split; [by intros [= <- <-]|by intros [-> ->]]. Qed.

Lemma run_get_ok `{Countable K} `{!Mapped K R} k w o w' :
  session_get (R:=R) k w = (Ok o, w') <-> o = row_at (table_of (db w)) k /\ w' = w.
Proof. unfold session_get. split; [by intros [= <- <-]|by intros [-> ->]]. Qed.

Lemma run_scalars_ok `{Countable K} `{!Mapped K R} p w l w' :
  session_scalars (R:=R) p w = (Ok l, w') <-> l = List.filter p (rows (table_of (db w))) /\ w' = w.
Proof. unfold session_scalars. split; [by intros [= <- <-]|by intros [-> ->]]. Qed.

Lemma run_scalar_ok `{Countable K} `{!Mapped K R} p w o w' :
  session_scalar (R:=R) p w = (Ok o, w') <->
  o = head (List.filter p (rows (table_of (db w)))) /\ w' = w.
Proof.
  unfold session_scalar. rewrite run_bind_ok. split.
  - intros (l & w1 & [-> ->]%run_scalars_ok & [<- <-]%run_ret_ok). done.
  - intros [-> ->]. eexists _, _. split; [by apply run_scalars_ok|done].
Qed.

Lemma run_add_ok `{Countable K} `{!Mapped K R} (r : R) w u w' :
  session_add r w = (Ok u, w') <->
  fits r = true /\ foreign_keys (db w) r = true /\
  exists t, insert_row (table_of (db w)) r = Some t /\ w' = with_db (with_table t (db w)) w.
Proof.
  destruct u.
  unfold session_add. destruct (fits r); [cbn [negb]|split; [done|by intros [? _]]].
  destruct (foreign_keys (db w) r); [|split; [done|by intros (_ & ? & _)]].
  destruct (insert_row _ r) as [t|]; split.
  - intros [= <-]. eauto.
  - by intros (_ & _ & t' & [= ->] & ->).
  - done.
  - by intros (_ & _ & t' & ? & _).
Qed.

Lemma run_update_ok `{Countable K} `{!Mapped K R} (r : R) w u w' :
  session_update r w = (Ok u, w') ->
  exists t, update_row (table_of (db w)) r = Some t /\ w' = with_db (with_table t (db w)) w.
Proof.
  destruct u. unfold session_update. destruct (from_option _ _ _); [done|].
  destruct (update_row _ r) as [t|]; [|done]. intros [= <-]. eauto.
Qed.

Lemma run_update_fits `{Countable K} `{!Mapped K R} (old r : R) w u w' :
  session_update r w = (Ok u, w') -> row_at (table_of (db w)) (primary_key r) = Some old -> fits_update old r = true.
Proof. unfold session_update. intros Hu Hold. rewrite Hold in Hu. cbn in Hu. by destruct (fits_update old r). Qed.

Lemma run_begin_ok {A} (block : M A) w a w' :
  session_begin block w = (Ok a, w') -> block w = (Ok a, w').
Proof. unfold session_begin. by destruct (block w) as [[b|e] w1]. Qed.

(** An operation is atomic when the tables are unchanged whenever it raises. *)
Definition atomic {A} (m : M A) : Prop := forall w e w', m w = (Raise e, w') -> db w' = db w.

Lemma atomic_begin {A} (block : M A) : atomic (session_begin block).
Proof.
  intros w e w'. unfold session_begin. destruct (block w) as [[a|e'] w1]; [done|]. by intros [= _ <-].
Qed.

Lemma atomic_ret {A} (a : A) : atomic (mret (M:=M) a).
Proof. by intros w e w' Hr. Qed.

Lemma atomic_raise {A} e : atomic (raise (A:=A) e).
Proof. by intros w e' w' [= _ <-]. Qed.

(** Reading the clock before a transaction changes no table. *)
Lemma atomic_now {A} (k : Z -> M A) : (forall t, atomic (k t)) -> atomic (t ← utc_now; k t).
Proof. intros Hk w e w' He. by apply Hk in He. Qed.

Lemma atomic_if {A} (c : bool) (m m' : M A) : atomic m -> atomic m' -> atomic (if c then m else m').
Proof. by destruct c. Qed.

Lemma atomic_retry {A} n s (body : M A) : atomic body -> atomic (retry_on_integrity_error n s body).
Proof.
  intros Hb. induction n as [|n IH]; [apply atomic_raise|]. intros w e w'. cbn.
  destruct (body w) as [[a|e'] w1] eqn:Hw; [done|]. pose proof (Hb _ _ _ Hw) as Hd.
  destruct e'; try (intros [= _ <-]; exact Hd).
  destruct (n =? 0)%nat; [by intros [= _ <-]|]. intros He. rewrite <- Hd. by eapply IH.
Qed.

(** The retry loop succeeds with a run of its body on the same tables. *)
Lemma run_retry_ok {A} n s (body : M A) w a w' :
  atomic body -> retry_on_integrity_error n s body w = (Ok a, w') ->
  exists w1, db w1 = db w /\ body w1 = (Ok a, w').
Proof.
  intros Hb. revert w; induction n as [|n IH]; intros w; cbn; [done|].
  destruct (body w) as [[b|e] w1] eqn:Hw.
  - intros [= -> ->]. by exists w.
  - destruct e; try done. destruct (n =? 0)%nat; [done|]. intros (w2 & Hd & Hw2)%IH.
    exists w2. split; [|done]. rewrite Hd. by eapply Hb.
Qed.
End Session.

Section Total.
Context `{SqlEngine} `{!SqlLaws} `{Env}.

(** ** Runs that succeed *)

Lemma add_total `{Countable K} `{!Mapped K R} (r : R) w :
  fits r = true ->
  foreign_keys (db w) r = true -> row_at (table_of (db w)) (primary_key r) = None -> checks r = true ->
  (forall q, q ∈ rows (table_of (db w)) -> unique_clash r q = false) ->
  exists t, insert_row (table_of (db w)) r = Some t /\
    session_add r w = (Ok tt, with_db (with_table t (db w)) w).
Proof.
  intros Hfit Hfk Hn Hc Hu. destruct (proj2 (insert_accepted (table_of (db w)) r)) as [t Ht].
  { split; [done|]. split; [done|]. by apply Forall_forall. }
  exists t. split; [done|]. by apply run_add_ok; eauto.
Qed.

Lemma update_total `{Countable K} `{!Mapped K R} (q r : R) w :
  row_at (table_of (db w)) (primary_key r) = Some q -> fits_update q r = true -> checks r = true ->
  (forall x, unique_clash r x = unique_clash q x) ->
  exists t, update_row (table_of (db w)) r = Some t /\
    session_update r w = (Ok tt, with_db (with_table t (db w)) w).
Proof.
  intros Hq Hfit Hc Hu. destruct (update_accepted (table_of (db w)) q r Hq Hc Hu) as [t Ht].
  exists t. split; [done|]. unfold session_update. by rewrite Hq, Ht; cbn; rewrite Hfit.
Qed.

Lemma run_bind {A B} (m : M A) (k : A -> M B) w a w1 : m w = (Ok a, w1) -> (m ≫= k) w = k a w1.
Proof. intros Hm. unfold mbind, M_bind. by rewrite Hm. Qed.

End Total.

Create HintDb atomicity.
#[export] Hint Resolve atomic_begin atomic_ret atomic_raise atomic_now atomic_if atomic_retry : atomicity.

(** Follow a successful run command by command. *)
Ltac run_step H :=
  lazymatch type of H with
  | (_ ≫= _) _ = (Ok _, _) =>
      let a := fresh "x" in let w1 := fresh "w" in let E := fresh "Hrun" in
      apply run_bind_ok in H as (a & w1 & E & H); run_step E
  | mret _ _ = (Ok _, _) => apply run_ret_ok in H as [? ?]
  | raise _ _ = (Ok _, _) => by apply run_raise_ok in H
  | utc_now _ = (Ok _, _) => apply run_now_ok in H as [-> ->]
  | draw_uuid4 _ = (Ok _, _) => apply run_uuid_ok in H as [-> ->]
  | session_get _ _ = (Ok _, _) => apply run_get_ok in H as [-> ->]
  | session_scalar _ _ = (Ok _, _) => apply run_scalar_ok in H as [-> ->]
  | session_scalars _ _ = (Ok _, _) => apply run_scalars_ok in H as [-> ->]
  | session_add _ _ = (Ok _, _) =>
      let t := fresh "t" in let Hfit := fresh "Hfit" in let Hfk := fresh "Hfk" in let Hin := fresh "Hin" in
      apply run_add_ok in H as (Hfit & Hfk & t & Hin & ?)
  | session_update _ _ = (Ok _, _) =>
      let t := fresh "t" in let Hup := fresh "Hup" in apply run_update_ok in H as (t & Hup & ?)
  | session_begin _ _ = (Ok _, _) => apply run_begin_ok in H; run_step H
  | _ => idtac
  end.

(** A step of a run that is known to succeed. *)
Ltac run_next H := rewrite (run_bind _ _ _ _ _ H).
Ltac pure_next := erewrite run_bind by done; cbn beta.
