(* ===== verification/Repository.v ===== *)
(** * The telemetry repository: [TelemetryRepository] of [mission_ground/telemetry/storage.py]

    Every public method as one definition over the session operations of Session.v, in the order
    of the source's statements.  Each mutating method is one transaction. *)
From Stdlib Require Import SpecFloat.
From S2P Require Import Prelude PyFormat Sha256 Uuid Json Sql Schema Session.

Open Scope Z_scope.

(** ** Arguments and results *)

Record DeliveryRecordResult := mk_delivery_result {
  result_receipt_id : uuid;
  result_validation_status : DeliveryValidationStatus;
  result_queue_status : DeliveryQueueStatus;
  request_replay : bool;
  request_conflict : bool;
  result_duplicate_of : option uuid;
  result_logical_packet_id : option string
}.

Record DecodedTelemetryValues := mk_values {
  v_protocol_version : Z;
  v_payload_id : Z;
  v_boot_id : Z;
  v_sequence_number : Z;
  v_sample_timestamp_us : Z;
  v_temperature_centi_c : Z;
  v_voltage_mv : Z;
  v_operating_mode : Z;
  v_fault_flags : Z
}.

Definition values_packet_id (v : DecodedTelemetryValues) : string :=
  ("TLM-P" +:+ format_02d (v_payload_id v) +:+ "-B" +:+ format_08X (v_boot_id v) +:+
   "-S" +:+ format_08X (v_sequence_number v))%string.

Definition identifiers (v : DecodedTelemetryValues) : list (string * json) := [
  ("packet_id", JString (values_packet_id v));
  ("protocol_version", JInt (v_protocol_version v));
  ("payload_id", JInt (v_payload_id v));
  ("boot_id", JInt (v_boot_id v));
  ("sequence_number", JInt (v_sequence_number v));
  ("sample_timestamp_us", JInt (v_sample_timestamp_us v))]%string.

Record PacketAcceptanceResult := mk_acceptance {
  acceptance_receipt_id : uuid;
  acceptance_packet_id : option string;
  acceptance_job_id : option uuid;
  acceptance_validation_status : DeliveryValidationStatus;
  acceptance_queue_status : DeliveryQueueStatus;
  acceptance_disposition : option SequenceDisposition;
  acceptance_missing_before : Z;
  duplicate : bool;
  conflict : bool;
  acceptance_duplicate_of : option uuid
}.

Record TelemetryWorkItem := mk_work_item {
  work_job_id : uuid;
  work_packet_id : string;
  work_raw_body : bytes;
  work_received_at : Z;
  work_values : DecodedTelemetryValues;
  work_attempt_count : Z;
  work_max_attempts : Z
}.

Record ProcessingResultValues := mk_result_values {
  r_temperature_c : spec_float;
  r_voltage_v : spec_float;
  r_operating_mode : string;
  r_fault_names : list string;
  r_classification : HealthClassification;
  r_is_stale : bool;
  r_processor_version : string
}.

Record ProcessingFailureResult := mk_failure {
  failure_job_id : uuid;
  failure_state : ProcessingJobState;
  failure_attempt_count : Z;
  failure_next_attempt_at : option Z
}.

Definition delivery_result (receipt : TelemetryDeliveryReceipt) (replay conflicting : bool) : DeliveryRecordResult := {|
  result_receipt_id := receipt_id receipt;
  result_validation_status := validation_status receipt;
  result_queue_status := queue_status receipt;
  request_replay := replay;
  request_conflict := conflicting;
  result_duplicate_of := duplicate_of_receipt_id receipt;
  result_logical_packet_id := logical_packet_id receipt
|}.

Definition job_state_to_queue_status (state : ProcessingJobState) : DeliveryQueueStatus :=
  if bool_decide (state = PENDING_QUEUE) then DELIVERY_PENDING_QUEUE else DELIVERY_QUEUED.

Definition _same_processing_result (stored : ProcessedTelemetry) (candidate : ProcessingResultValues) : bool :=
  SFeqb (temperature_c stored) (r_temperature_c candidate) &&
  SFeqb (voltage_v stored) (r_voltage_v candidate) &&
  bool_decide (mode_name stored = r_operating_mode candidate) &&
  bool_decide (fault_names stored = r_fault_names candidate) &&
  bool_decide (classification stored = r_classification candidate) &&
  Bool.eqb (stale stored) (r_is_stale candidate) &&
  bool_decide (processor_version stored = r_processor_version candidate).

(** The position of a new packet relative to the stored sequence state: [None] when the mark has
    no packet. *)
Definition classify_new (sequence_state : option TelemetrySequenceState) (sequence : Z)
  : option (SequenceDisposition * Z) :=
  match sequence_state with
  | None => Some (FIRST, sequence)
  | Some s =>
      let forward_distance := Z.land (sequence - high_water_sequence s) MAX_UINT32 in
      if forward_distance =? 0 then None
      else if forward_distance =? 1 then Some (IN_ORDER, 0)
      else if forward_distance <? HALF_UINT32_RANGE then Some (GAP, forward_distance - 1)
      else Some (LATE, 0)
  end.

(** [min(base * 2 ** max(attempt_count - 1, 0), 300)] seconds. *)
Definition backoff_seconds (base attempts : Z) : Z := Z.min (base * 2 ^ Z.max (attempts - 1) 0) 300.

Definition seconds (n : Z) : Z := n * us_per_second.

Section Repository.
Context `{SqlEngine} `{Env}.

(** ** Audit *)

Definition _audit (service event actor outcome_ : string) (reason_ : option string)
  (receipt : option uuid) (packet : option string) (job : option uuid) (data : list (string * json)) : M () :=
  event_key ← draw_uuid4;
  occurred ← utc_now;
  session_add {| event_id := event_key; occurred_at := occurred; service_name := service;
    event_name := event; actor_identity := actor; outcome := outcome_; reason := reason_;
    event_receipt_id := receipt; event_packet_id := packet; event_job_id := job; event_data := data |}.

Definition record_audit_event (service event actor outcome_ : string) (reason_ : option string)
  (receipt : option uuid) (packet : option string) (job : option uuid) (data : list (string * json)) : M () :=
  session_begin (_audit service event actor outcome_ reason_ receipt packet job data).

(** ** Deliveries *)

(** The ledger row of a canonical request identifier, and the receipt it points to. *)
Definition first_delivery (canonical_request_id : option uuid)
  : M (option (TelemetryRequestIdentity * TelemetryDeliveryReceipt)) :=
  match canonical_request_id with
  | None => mret None
  | Some request =>
      identity ← session_get (R:=TelemetryRequestIdentity) request;
      match identity with
      | None => mret None
      | Some i =>
          first_receipt ← session_get (R:=TelemetryDeliveryReceipt) (first_receipt_id i);
          match first_receipt with
          | None => raise (TelemetryStorageError "request identity points to a missing receipt")
          | Some first => mret (Some (i, first))
          end
      end
  end.

Definition add_delivery (raw : bytes) (peer : string) (presented : option string)
  (canonical : option uuid) (content : option string) (vendor_sent : option Z) (digest : string)
  (receipt_time : Z) (chosen_id : option uuid) (first : option TelemetryDeliveryReceipt)
  : M DeliveryRecordResult :=
  let conflicting := bool_decide (is_Some first) in
  key ← match chosen_id with Some k => mret k | None => draw_uuid4 end;
  let receipt := {|
    receipt_id := key; presented_request_id := presented; canonical_request_id := canonical;
    peer_certificate_identity := peer; content_type := content; vendor_sent_at := vendor_sent;
    received_at := receipt_time; receipt_updated_at := receipt_time;
    raw_body := raw; raw_body_size := Z.of_nat (length raw); body_sha256 := digest;
    validation_status := if conflicting then CONFLICT else PENDING;
    rejection_reason := if conflicting then Some "REQUEST_ID_REUSED_WITH_DIFFERENT_BODY"%string else None;
    parsed_identifiers := None;
    duplicate_of_receipt_id := receipt_id <$> first;
    logical_packet_id := None; queue_status := NOT_APPLICABLE |} in
  session_add receipt ;;
  match canonical, first with
  | Some request, None =>
      session_add {| request_id := request; first_receipt_id := receipt_id receipt;
                     identity_sha256 := digest; identity_created_at := receipt_time |}
  | _, _ => mret ()
  end ;;
  _audit "ground-api"
    (if conflicting then "telemetry.delivery.request_id_conflict" else "telemetry.delivery.received")
    peer (if conflicting then "CONFLICT" else "RECORDED") (rejection_reason receipt)
    (Some (receipt_id receipt)) None None
    [("body_sha256", JString digest); ("raw_body_size", JInt (Z.of_nat (length raw)))]%string ;;
  mret (delivery_result receipt false conflicting).

Definition record_delivery (raw : bytes) (peer : string) (presented : option string)
  (canonical : option uuid) (content : option string) (received vendor_sent : option Z)
  (chosen_id : option uuid) : M DeliveryRecordResult :=
  if MAX_EVIDENCE_BODY_BYTES <? Z.of_nat (length raw) then
    raise (ValueError "raw body exceeds 1024-byte evidence limit")
  else if bool_decide (peer = ""%string) then
    raise (ValueError "peer_certificate_identity must not be empty")
  else
    let digest := sha256_hexdigest raw in
    receipt_time ← match received with Some t => mret t | None => utc_now end;
    retry_on_integrity_error 2 "unreachable request-id retry state" (session_begin (
      prior ← first_delivery canonical;
      match prior with
      | Some (i, first) =>
          if bool_decide (identity_sha256 i = digest) && bool_decide (raw_body first = raw)
          then mret (delivery_result first true false)
          else add_delivery raw peer presented canonical content vendor_sent digest receipt_time
                 chosen_id (Some first)
      | None =>
          add_delivery raw peer presented canonical content vendor_sent digest receipt_time
            chosen_id None
      end)).

Definition reject_delivery (key : uuid) (why : string) (parsed : option (list (string * json)))
  (actor : string) : M DeliveryRecordResult :=
  session_begin (
    found ← session_get (R:=TelemetryDeliveryReceipt) key;
    match found with
    | None => raise (DeliveryNotFoundError key)
    | Some receipt =>
        if bool_decide (validation_status receipt = REJECTED) then
          if negb (bool_decide (rejection_reason receipt = Some why)) then
            raise (InvalidDeliveryStateError "delivery was already rejected for a different reason")
          else mret (delivery_result receipt true false)
        else if negb (bool_decide (validation_status receipt = PENDING)) then
          raise (InvalidDeliveryStateError
            ("cannot reject a " +:+ DeliveryValidationStatus_value (validation_status receipt) +:+ " delivery"))
        else
          updated ← utc_now;
          let receipt := receipt |> set_validation_status REJECTED |> set_rejection_reason (Some why)
            |> set_parsed_identifiers parsed |> set_queue_status NOT_APPLICABLE
            |> set_receipt_updated_at updated in
          session_update receipt ;;
          _audit "ground-api" "telemetry.delivery.rejected" actor "REJECTED" (Some why)
            (Some key) None None (default [] parsed) ;;
          mret (delivery_result receipt false false)
    end).

(** ** Acceptance *)

Definition job_of_packet (packet : string) : M (option TelemetryProcessingJob) :=
  session_scalar (R:=TelemetryProcessingJob) (fun j => bool_decide (job_packet_id j = packet)).

(** A receipt that was already accepted or found duplicate. *)
Definition replay_acceptance (receipt : TelemetryDeliveryReceipt) : M PacketAcceptanceResult :=
  packet_and_job ← match logical_packet_id receipt with
    | Some p =>
        packet ← session_get (R:=LogicalTelemetryPacket) p;
        job ← job_of_packet p;
        mret (packet, job)
    | None => mret (None, None)
    end;
  let '(packet, job) := packet_and_job in
  mret {|
    acceptance_receipt_id := receipt_id receipt;
    acceptance_packet_id := logical_packet_id receipt;
    acceptance_job_id := job_id <$> job;
    acceptance_validation_status := validation_status receipt;
    acceptance_queue_status := from_option (fun j => job_state_to_queue_status (job_state j)) (queue_status receipt) job;
    acceptance_disposition := sequence_disposition <$> packet;
    acceptance_missing_before := from_option missing_before 0 packet;
    duplicate := bool_decide (validation_status receipt = DUPLICATE);
    conflict := false;
    acceptance_duplicate_of := duplicate_of_receipt_id receipt |}.

(** The source key already has a packet. *)
Definition accept_existing (receipt : TelemetryDeliveryReceipt) (values : DecodedTelemetryValues)
  (existing : LogicalTelemetryPacket) (actor : string) : M PacketAcceptanceResult :=
  origin ← session_get (R:=TelemetryDeliveryReceipt) (source_receipt_id existing);
  let exact_duplicate := match origin with
    | Some o => bool_decide (raw_sha256 existing = body_sha256 receipt) &&
                bool_decide (raw_body o = raw_body receipt)
    | None => false
    end in
  updated ← utc_now;
  let receipt := receipt |> set_logical_packet_id (Some (packet_id existing))
    |> set_duplicate_of_receipt_id (Some (source_receipt_id existing))
    |> set_parsed_identifiers (Some (identifiers values)) |> set_receipt_updated_at updated in
  if exact_duplicate then
    let receipt := receipt |> set_validation_status DUPLICATE |> set_queue_status NOT_APPLICABLE
      |> set_rejection_reason None in
    session_update receipt ;;
    existing_job ← job_of_packet (packet_id existing);
    _audit "ground-api" "telemetry.delivery.duplicate" actor "DUPLICATE" None
      (Some (receipt_id receipt)) (Some (packet_id existing)) (job_id <$> existing_job)
      [("original_receipt_id"%string, JString (uuid_str (source_receipt_id existing)))] ;;
    mret {|
      acceptance_receipt_id := receipt_id receipt;
      acceptance_packet_id := Some (packet_id existing);
      acceptance_job_id := job_id <$> existing_job;
      acceptance_validation_status := DUPLICATE;
      acceptance_queue_status := from_option (fun j => job_state_to_queue_status (job_state j)) NOT_APPLICABLE existing_job;
      acceptance_disposition := Some (sequence_disposition existing);
      acceptance_missing_before := missing_before existing;
      duplicate := true; conflict := false;
      acceptance_duplicate_of := Some (source_receipt_id existing) |}
  else
    let receipt := receipt |> set_validation_status CONFLICT |> set_queue_status NOT_APPLICABLE
      |> set_rejection_reason (Some "SEQUENCE_CONFLICT"%string) in
    session_update receipt ;;
    _audit "ground-api" "telemetry.delivery.sequence_conflict" actor "CONFLICT" (Some "SEQUENCE_CONFLICT"%string)
      (Some (receipt_id receipt)) (Some (packet_id existing)) None [] ;;
    mret {|
      acceptance_receipt_id := receipt_id receipt;
      acceptance_packet_id := Some (packet_id existing);
      acceptance_job_id := None;
      acceptance_validation_status := CONFLICT;
      acceptance_queue_status := NOT_APPLICABLE;
      acceptance_disposition := None;
      acceptance_missing_before := 0;
      duplicate := false; conflict := true;
      acceptance_duplicate_of := Some (source_receipt_id existing) |}.

(** The high-water mark names a sequence number without a packet. *)
Definition accept_state_conflict (receipt : TelemetryDeliveryReceipt) (values : DecodedTelemetryValues)
  (actor : string) : M PacketAcceptanceResult :=
  updated ← utc_now;
  let receipt := receipt |> set_validation_status CONFLICT
    |> set_rejection_reason (Some "SEQUENCE_STATE_CONFLICT"%string)
    |> set_parsed_identifiers (Some (identifiers values)) |> set_receipt_updated_at updated in
  session_update receipt ;;
  _audit "ground-api" "telemetry.sequence.state_conflict" actor "CONFLICT" (rejection_reason receipt)
    (Some (receipt_id receipt)) None None [] ;;
  mret {|
    acceptance_receipt_id := receipt_id receipt; acceptance_packet_id := None; acceptance_job_id := None;
    acceptance_validation_status := CONFLICT; acceptance_queue_status := NOT_APPLICABLE;
    acceptance_disposition := None; acceptance_missing_before := 0; duplicate := false; conflict := true;
    acceptance_duplicate_of := None |}.

(** The sequence state after a new packet: created by the first one, moved by those ahead of it. *)
Definition save_sequence_state (sequence_state : option TelemetrySequenceState)
  (values : DecodedTelemetryValues) (packet : string) (disposition : SequenceDisposition) (missing : Z) : M () :=
  match sequence_state with
  | None =>
      created ← utc_now;
      updated ← utc_now;
      session_add {|
        state_payload_id := v_payload_id values; state_boot_id := v_boot_id values;
        high_water_sequence := v_sequence_number values; accepted_packet_count := 1;
        missing_packet_count := missing; last_high_water_packet_id := packet;
        state_created_at := created; state_updated_at := updated |}
  | Some s =>
      let s := s |> set_accepted_packet_count (accepted_packet_count s + 1) in
      let s :=
        if bool_decide (disposition = IN_ORDER) || bool_decide (disposition = GAP) then
          s |> set_high_water_sequence (v_sequence_number values)
            |> set_missing_packet_count (missing_packet_count s + missing)
            |> set_last_high_water_packet_id packet
        else s in
      updated ← utc_now;
      session_update (s |> set_state_updated_at updated)
  end.

Definition accept_new (receipt : TelemetryDeliveryReceipt) (values : DecodedTelemetryValues)
  (max_attempts_ : Z) (actor : string) : M PacketAcceptanceResult :=
  let packet_key_ := values_packet_id values in
  sequence_state ← session_get (R:=TelemetrySequenceState) (v_payload_id values, v_boot_id values);
  match classify_new sequence_state (v_sequence_number values) with
  | None => accept_state_conflict receipt values actor
  | Some (disposition, missing) =>
      accepted ← utc_now;
      session_add {|
        packet_id := packet_key_; source_receipt_id := receipt_id receipt;
        protocol_version := v_protocol_version values; payload_id := v_payload_id values;
        boot_id := v_boot_id values; sequence_number := v_sequence_number values;
        sample_timestamp_us := v_sample_timestamp_us values;
        temperature_centi_c := v_temperature_centi_c values; voltage_mv := v_voltage_mv values;
        operating_mode := v_operating_mode values; fault_flags := v_fault_flags values;
        raw_sha256 := body_sha256 receipt; sequence_disposition := disposition;
        missing_before := missing; accepted_at := accepted |} ;;
      save_sequence_state sequence_state values packet_key_ disposition missing ;;
      job_key ← draw_uuid4;
      created ← utc_now;
      job_updated ← utc_now;
      session_add {|
        job_id := job_key; job_packet_id := packet_key_; job_state := PENDING_QUEUE;
        queue_message_id := None; attempt_count := 0; max_attempts := max_attempts_;
        claimed_by := None; claimed_at := None; lease_expires_at := None; next_attempt_at := None;
        last_error := None; failed_at := None; completed_at := None;
        job_created_at := created; job_updated_at := job_updated |} ;;
      updated ← utc_now;
      session_update (receipt |> set_validation_status ACCEPTED |> set_rejection_reason None
        |> set_parsed_identifiers (Some (identifiers values)) |> set_logical_packet_id (Some packet_key_)
        |> set_queue_status DELIVERY_PENDING_QUEUE |> set_receipt_updated_at updated) ;;
      _audit "ground-api" "telemetry.packet.accepted" actor "PENDING_QUEUE" None
        (Some (receipt_id receipt)) (Some packet_key_) (Some job_key)
        [("sequence_disposition", JString (SequenceDisposition_value disposition));
         ("missing_before", JInt missing)]%string ;;
      mret {|
        acceptance_receipt_id := receipt_id receipt;
        acceptance_packet_id := Some packet_key_;
        acceptance_job_id := Some job_key;
        acceptance_validation_status := ACCEPTED;
        acceptance_queue_status := DELIVERY_PENDING_QUEUE;
        acceptance_disposition := Some disposition;
        acceptance_missing_before := missing;
        duplicate := false; conflict := false; acceptance_duplicate_of := None |}
  end.

Definition same_source_key (values : DecodedTelemetryValues) (p : LogicalTelemetryPacket) : bool :=
  (payload_id p =? v_payload_id values) && (boot_id p =? v_boot_id values) &&
  (sequence_number p =? v_sequence_number values).

Definition _accept_packet_transaction (key : uuid) (values : DecodedTelemetryValues)
  (max_attempts_ : Z) (actor : string) : M PacketAcceptanceResult :=
  session_begin (
    found ← session_get (R:=TelemetryDeliveryReceipt) key;
    match found with
    | None => raise (DeliveryNotFoundError key)
    | Some receipt =>
        if bool_decide (validation_status receipt = ACCEPTED) || bool_decide (validation_status receipt = DUPLICATE)
        then replay_acceptance receipt
        else if negb (bool_decide (validation_status receipt = PENDING)) then
          raise (InvalidDeliveryStateError
            ("cannot accept a " +:+ DeliveryValidationStatus_value (validation_status receipt) +:+ " delivery"))
        else
          existing_packet ← session_scalar (R:=LogicalTelemetryPacket) (same_source_key values);
          match existing_packet with
          | Some existing => accept_existing receipt values existing actor
          | None => accept_new receipt values max_attempts_ actor
          end
    end).

Definition accept_packet_and_create_job (key : uuid) (values : DecodedTelemetryValues)
  (max_attempts_ : Z) (actor : string) : M PacketAcceptanceResult :=
  if negb ((0 <=? v_sequence_number values) && (v_sequence_number values <=? MAX_UINT32)) then
    raise (ValueError "sequence_number must be an unsigned 32-bit value")
  else if v_boot_id values <=? 0 then raise (ValueError "boot_id must be nonzero")
  else if max_attempts_ <=? 0 then raise (ValueError "max_attempts must be positive")
  else
    retry_on_integrity_error 2 "unreachable packet acceptance retry state"
      (_accept_packet_transaction key values max_attempts_ actor).

(** ** Processing jobs *)

Definition mark_job_queued (key : uuid) (message : string) (actor : string) : M bool :=
  session_begin (
    found ← session_get (R:=TelemetryProcessingJob) key;
    match found with
    | None => raise (ProcessingJobNotFoundError key)
    | Some job =>
        if bool_decide (job_state job = QUEUED) then
          if negb (bool_decide (queue_message_id job = Some message)) then
            raise (InvalidDeliveryStateError "job is already queued with a different queue message ID")
          else mret false
        else if negb (bool_decide (job_state job = PENDING_QUEUE) || bool_decide (job_state job = RETRY_WAIT)) then
          raise (InvalidDeliveryStateError
            ("cannot queue a " +:+ ProcessingJobState_value (job_state job) +:+ " processing job"))
        else
          updated ← utc_now;
          session_update (job |> set_job_state QUEUED |> set_queue_message_id (Some message)
            |> set_next_attempt_at None |> set_job_updated_at updated) ;;
          accepted ← session_scalars (R:=TelemetryDeliveryReceipt) (fun r =>
            bool_decide (logical_packet_id r = Some (job_packet_id job)) &&
            bool_decide (validation_status r = ACCEPTED));
          for_each accepted (fun r =>
            t ← utc_now;
            session_update (r |> set_queue_status DELIVERY_QUEUED |> set_receipt_updated_at t)) ;;
          _audit "ground-api" "telemetry.processing.queued" actor "QUEUED" None None
            (Some (job_packet_id job)) (Some (job_id job))
            [("queue_message_id"%string, JString message)] ;;
          mret true
    end).

(** [next_attempt_at <= now] of a row, false on NULL. *)
Definition due (now : Z) (at_ : option Z) : bool := from_option (fun t => t <=? now) false at_.

Definition list_jobs (wanted : TelemetryProcessingJob -> bool) (limit : Z) : M (list uuid) :=
  session_begin (
    found ← session_scalars (R:=TelemetryProcessingJob) wanted;
    mret (job_id <$> take (Z.to_nat limit) (order_by job_created_at found))).

Definition pending_queue_jobs (limit : Z) : M (list uuid) :=
  if negb ((1 <=? limit) && (limit <=? 1_000)) then raise (ValueError "limit must be between 1 and 1000")
  else
    now ← utc_now;
    list_jobs (fun j =>
      bool_decide (job_state j = PENDING_QUEUE) ||
      (bool_decide (job_state j = RETRY_WAIT) && due now (next_attempt_at j))) limit.

Definition recoverable_queue_jobs (limit : Z) : M (list uuid) :=
  if negb ((1 <=? limit) && (limit <=? 10_000)) then raise (ValueError "limit must be between 1 and 10000")
  else
    now ← utc_now;
    list_jobs (fun j =>
      bool_decide (job_state j = PENDING_QUEUE) || bool_decide (job_state j = QUEUED) ||
      (bool_decide (job_state j = RETRY_WAIT) && due now (next_attempt_at j))) limit.

(** The states from which a worker may take a job at time [now]. *)
Definition claimable (now : Z) (job : TelemetryProcessingJob) : bool :=
  let expired_lease := bool_decide (job_state job = PROCESSING) && due now (lease_expires_at job) in
  let due_retry := bool_decide (job_state job = RETRY_WAIT) && due now (next_attempt_at job) in
  bool_decide (job_state job = QUEUED) || expired_lease || due_retry.

Definition packet_values (packet : LogicalTelemetryPacket) : DecodedTelemetryValues := {|
  v_protocol_version := protocol_version packet; v_payload_id := payload_id packet;
  v_boot_id := boot_id packet; v_sequence_number := sequence_number packet;
  v_sample_timestamp_us := sample_timestamp_us packet;
  v_temperature_centi_c := temperature_centi_c packet; v_voltage_mv := voltage_mv packet;
  v_operating_mode := operating_mode packet; v_fault_flags := fault_flags packet |}.

Definition claim_processing_job (key : uuid) (worker : string) (lease_seconds : Z)
  : M (option TelemetryWorkItem) :=
  if bool_decide (worker = ""%string) then raise (ValueError "worker_id must not be empty")
  else if lease_seconds <=? 0 then raise (ValueError "lease_seconds must be positive")
  else
    now ← utc_now;
    session_begin (
      found ← session_get (R:=TelemetryProcessingJob) key;
      match found with
      | None => raise (ProcessingJobNotFoundError key)
      | Some job =>
          done_already ← session_get (R:=ProcessedTelemetry) (job_packet_id job);
          match done_already with
          | Some t =>
              (if negb (bool_decide (job_state job = COMPLETE)) then
                 session_update (job |> set_job_state COMPLETE |> set_completed_at (Some (processed_at t))
                   |> set_lease_expires_at None |> set_job_updated_at now)
               else mret ()) ;;
              mret None
          | None =>
              if negb (claimable now job) then mret None
              else
                stored_packet ← session_get (R:=LogicalTelemetryPacket) (job_packet_id job);
                match stored_packet with
                | None => raise (TelemetryStorageError ("job " +:+ uuid_str key +:+ " points to a missing packet"))
                | Some packet =>
                    stored_receipt ← session_get (R:=TelemetryDeliveryReceipt) (source_receipt_id packet);
                    match stored_receipt with
                    | None => raise (TelemetryStorageError
                        ("packet " +:+ packet_id packet +:+ " points to a missing raw receipt"))
                    | Some receipt =>
                        let job := job |> set_job_state PROCESSING
                          |> set_attempt_count (attempt_count job + 1)
                          |> set_claimed_by (Some worker) |> set_claimed_at (Some now)
                          |> set_lease_expires_at (Some (now + seconds lease_seconds))
                          |> set_next_attempt_at None |> set_job_updated_at now in
                        session_update job ;;
                        _audit "payload-worker" "telemetry.processing.claimed" worker "PROCESSING" None
                          (Some (receipt_id receipt)) (Some (packet_id packet)) (Some (job_id job))
                          [("attempt_count"%string, JInt (attempt_count job))] ;;
                        mret (Some {|
                          work_job_id := job_id job; work_packet_id := packet_id packet;
                          work_raw_body := raw_body receipt; work_received_at := received_at receipt;
                          work_values := packet_values packet;
                          work_attempt_count := attempt_count job;
                          work_max_attempts := max_attempts job |})
                    end
                end
          end
      end).

Definition complete_processing_job (key : uuid) (outcome_ : ProcessingResultValues) (worker : string)
  (processed_time : option Z) : M ProcessedTelemetry :=
  completion_time ← match processed_time with Some t => mret t | None => utc_now end;
  session_begin (
    found ← session_get (R:=TelemetryProcessingJob) key;
    match found with
    | None => raise (ProcessingJobNotFoundError key)
    | Some job =>
        existing ← session_get (R:=ProcessedTelemetry) (job_packet_id job);
        match existing with
        | Some stored =>
            if negb (_same_processing_result stored outcome_) then
              raise (ProcessingResultConflictError
                ("packet " +:+ job_packet_id job +:+ " already has a different processed result"))
            else
              updated ← utc_now;
              session_update (job |> set_job_state COMPLETE |> set_completed_at (Some (processed_at stored))
                |> set_lease_expires_at None |> set_job_updated_at updated) ;;
              mret stored
        | None =>
            if negb (bool_decide (job_state job = PROCESSING)) then
              raise (InvalidDeliveryStateError
                ("cannot complete a " +:+ ProcessingJobState_value (job_state job) +:+ " processing job"))
            else if negb (bool_decide (claimed_by job = Some worker)) then
              raise (InvalidDeliveryStateError "processing job is owned by another worker")
            else
              let stored := {|
                processed_packet_id := job_packet_id job; processing_job_id := job_id job;
                temperature_c := r_temperature_c outcome_; voltage_v := r_voltage_v outcome_;
                mode_name := r_operating_mode outcome_; fault_names := r_fault_names outcome_;
                classification := r_classification outcome_; stale := r_is_stale outcome_;
                processor_version := r_processor_version outcome_; processed_at := completion_time |} in
              session_add stored ;;
              session_update (job |> set_job_state COMPLETE |> set_completed_at (Some completion_time)
                |> set_lease_expires_at None |> set_next_attempt_at None |> set_last_error None
                |> set_job_updated_at completion_time) ;;
              _audit "payload-worker" "telemetry.processing.completed" worker "COMPLETE" None None
                (Some (job_packet_id job)) (Some (job_id job))
                [("classification", JString (HealthClassification_value (r_classification outcome_)));
                 ("is_stale", JBool (r_is_stale outcome_))]%string ;;
              mret stored
        end
    end).

Definition fail_processing_attempt (key : uuid) (worker why : string) (temporary : bool)
  (base_backoff_seconds : Z) (now : option Z) : M ProcessingFailureResult :=
  if base_backoff_seconds <=? 0 then raise (ValueError "base_backoff_seconds must be positive")
  else
    failure_time ← match now with Some t => mret t | None => utc_now end;
    session_begin (
      found ← session_get (R:=TelemetryProcessingJob) key;
      match found with
      | None => raise (ProcessingJobNotFoundError key)
      | Some job =>
          if bool_decide (job_state job = FAILED) then
            mret (mk_failure (job_id job) (job_state job) (attempt_count job) None)
          else if negb (bool_decide (job_state job = PROCESSING)) then
            raise (InvalidDeliveryStateError
              ("cannot fail a " +:+ ProcessingJobState_value (job_state job) +:+ " processing job"))
          else if negb (bool_decide (claimed_by job = Some worker)) then
            raise (InvalidDeliveryStateError "processing job is owned by another worker")
          else
            let exhausted := max_attempts job <=? attempt_count job in
            let job := job |> set_last_error (Some why) |> set_lease_expires_at None
              |> set_job_updated_at failure_time in
            let '(job, event) :=
              if negb temporary || exhausted then
                (job |> set_job_state FAILED |> set_failed_at (Some failure_time) |> set_next_attempt_at None,
                 "telemetry.processing.failed"%string)
              else
                (job |> set_job_state RETRY_WAIT
                   |> set_next_attempt_at (Some (failure_time +
                        seconds (backoff_seconds base_backoff_seconds (attempt_count job)))),
                 "telemetry.processing.retry_scheduled"%string) in
            session_update job ;;
            _audit "payload-worker" event worker (ProcessingJobState_value (job_state job)) (Some why)
              None (Some (job_packet_id job)) (Some (job_id job))
              [("attempt_count", JInt (attempt_count job)); ("max_attempts", JInt (max_attempts job));
               ("next_attempt_at", from_option (fun t => JString (isoformat_utc t)) JNull (next_attempt_at job))]%string ;;
            mret (mk_failure (job_id job) (job_state job) (attempt_count job) (next_attempt_at job))
      end).

(** ** Queries *)

Definition get_delivery (key : uuid) : M (option TelemetryDeliveryReceipt) :=
  session_begin (session_get (R:=TelemetryDeliveryReceipt) key).
Definition get_packet (key : string) : M (option LogicalTelemetryPacket) :=
  session_begin (session_get (R:=LogicalTelemetryPacket) key).
Definition get_processed (key : string) : M (option ProcessedTelemetry) :=
  session_begin (session_get (R:=ProcessedTelemetry) key).
Definition get_job (key : uuid) : M (option TelemetryProcessingJob) :=
  session_begin (session_get (R:=TelemetryProcessingJob) key).
Definition get_job_for_packet (key : string) : M (option TelemetryProcessingJob) :=
  session_begin (job_of_packet key).

Definition list_audit_events (limit : Z) : M (list TelemetryAuditEvent) :=
  if negb ((1 <=? limit) && (limit <=? 1_000)) then raise (ValueError "limit must be between 1 and 1000")
  else session_begin (
    found ← session_scalars (R:=TelemetryAuditEvent) (fun _ => true);
    mret (take (Z.to_nat limit) (order_by (fun e => - occurred_at e) found))).

Definition processing_queue_depth : M Z :=
  session_begin (
    active ← session_scalars (R:=TelemetryProcessingJob) (fun j =>
      negb (bool_decide (job_state j = COMPLETE) || bool_decide (job_state j = FAILED)));
    mret (Z.of_nat (length active))).

End Repository.
