(* ===== verification/RepositoryInv.v ===== *)
(** * Consistency of the telemetry tables

    The invariant [consistent] of the seven tables, the order [evolves] between two of their
    states, and the lemmas that each kind of change the repository makes keeps them. *)
From S2P Require Import Prelude PyFormat Sha256 Uuid Json Sql Schema Session Repository.
From S2P Require Import Codec.

Open Scope Z_scope.

(** ** Rows on their own *)

(** What a receipt preserves of a delivery: everything but its processing status. *)
Definition evidence (r : TelemetryDeliveryReceipt) :=
  (receipt_id r, (presented_request_id r, canonical_request_id r, peer_certificate_identity r, content_type r),
   (vendor_sent_at r, received_at r), (raw_body r, raw_body_size r, body_sha256 r)).

Definition evidence_ok (r : TelemetryDeliveryReceipt) : Prop :=
  raw_body_size r = Z.of_nat (length (raw_body r)) /\ raw_body_size r <= MAX_EVIDENCE_BODY_BYTES /\
  body_sha256 r = sha256_hexdigest (raw_body r).

(** A packet satisfies the table's CHECK clauses and is named after its source key. *)
Definition packet_ok (p : LogicalTelemetryPacket) : Prop :=
  checks p = true /\
  packet_id p = Codec.Codec.packet_id_text (payload_id p) (boot_id p) (sequence_number p).

(** The columns each job state fills in. *)
Definition job_ok (j : TelemetryProcessingJob) : Prop :=
  0 <= attempt_count j /\ 0 < max_attempts j /\
  match job_state j with
  | PROCESSING => 1 <= attempt_count j /\ is_Some (claimed_by j) /\ is_Some (lease_expires_at j)
  | RETRY_WAIT => 1 <= attempt_count j < max_attempts j /\ is_Some (next_attempt_at j)
  | COMPLETE => is_Some (completed_at j)
  | FAILED => 1 <= attempt_count j /\ is_Some (failed_at j) /\ is_Some (last_error j)
  | QUEUED => is_Some (queue_message_id j)
  | PENDING_QUEUE => attempt_count j = 0
  end.

(** The legal moves of a processing job. *)
Inductive job_move : ProcessingJobState -> ProcessingJobState -> Prop :=
| move_enqueue : job_move PENDING_QUEUE QUEUED
| move_requeue : job_move RETRY_WAIT QUEUED
| move_claim : job_move QUEUED PROCESSING
| move_claim_retry : job_move RETRY_WAIT PROCESSING
| move_reclaim : job_move PROCESSING PROCESSING
| move_complete : job_move PROCESSING COMPLETE
| move_retry : job_move PROCESSING RETRY_WAIT
| move_fail : job_move PROCESSING FAILED.

Create HintDb lifecycle.
#[export] Hint Constructors job_move : lifecycle.

Section Consistency.
Context `{SqlEngine}.

(** ** The invariant *)

(** What the status of a receipt says about the other rows. *)
Definition status_ok (d : database) (r : TelemetryDeliveryReceipt) : Prop :=
  match validation_status r with
  | PENDING =>
      rejection_reason r = None /\ duplicate_of_receipt_id r = None /\ logical_packet_id r = None /\
      queue_status r = NOT_APPLICABLE
  | REJECTED => is_Some (rejection_reason r) /\ logical_packet_id r = None /\ queue_status r = NOT_APPLICABLE
  | ACCEPTED =>
      rejection_reason r = None /\ queue_status r <> NOT_APPLICABLE /\
      exists p, row_at (packets d) (packet_id p) = Some p /\ source_receipt_id p = receipt_id r /\
        logical_packet_id r = Some (packet_id p)
  | DUPLICATE =>
      queue_status r = NOT_APPLICABLE /\
      exists p o, row_at (packets d) (packet_id p) = Some p /\ logical_packet_id r = Some (packet_id p) /\
        duplicate_of_receipt_id r = Some (source_receipt_id p) /\
        row_at (receipts d) (source_receipt_id p) = Some o /\ raw_body o = raw_body r
  | CONFLICT =>
      queue_status r = NOT_APPLICABLE /\
      exists k o, duplicate_of_receipt_id r = Some k /\ row_at (receipts d) k = Some o /\
        raw_body o <> raw_body r
  end.

(** The packets of a boot session, and the totals a sequence state keeps of them. *)
Definition in_session (key : Z * Z) (p : LogicalTelemetryPacket) : bool := bool_decide (packet_session p = key).
Definition session_packets (d : database) (key : Z * Z) : list LogicalTelemetryPacket :=
  List.filter (in_session key) (rows (packets d)).
Definition total_missing (ps : list LogicalTelemetryPacket) : Z := sum_by missing_before ps.

Record consistent (d : database) : Prop := {
  receipt_rows k r : row_at (receipts d) k = Some r ->
    receipt_id r = k /\ evidence_ok r /\ status_ok d r;
  (** A canonical request identifier belongs to its first receipt; later bodies are conflicts. *)
  identity_rows k i : row_at (identities d) k = Some i ->
    request_id i = k /\
    exists r, row_at (receipts d) (first_receipt_id i) = Some r /\ canonical_request_id r = Some k /\
      identity_sha256 i = body_sha256 r;
  request_owner k r q : row_at (receipts d) k = Some r -> canonical_request_id r = Some q ->
    exists i, row_at (identities d) q = Some i /\
      (first_receipt_id i = k \/
       (validation_status r = CONFLICT /\ duplicate_of_receipt_id r = Some (first_receipt_id i)));
  packet_rows k p : row_at (packets d) k = Some p ->
    packet_id p = k /\ packet_ok p /\ 0 <= missing_before p /\
    exists r, row_at (receipts d) (source_receipt_id p) = Some r /\ validation_status r = ACCEPTED /\
      logical_packet_id r = Some k /\ raw_sha256 p = body_sha256 r;
  (** A packet's identifier fits the columns that refer to it. *)
  packet_names k : is_Some (row_at (packets d) k) -> Z.of_nat (String.length k) <= 64;
  (** One packet per source key. *)
  packet_unique k p k' p' : row_at (packets d) k = Some p -> row_at (packets d) k' = Some p' ->
    packet_key p = packet_key p' -> k = k';
  (** One job per packet. *)
  job_rows k j : row_at (jobs d) k = Some j ->
    job_id j = k /\ job_ok j /\ is_Some (row_at (packets d) (job_packet_id j));
  (** The worker that holds a job fits its column. *)
  job_claims k j : row_at (jobs d) k = Some j -> fits_column (255, claimed_by j) = true;
  job_unique k j k' j' : row_at (jobs d) k = Some j -> row_at (jobs d) k' = Some j' ->
    job_packet_id j = job_packet_id j' -> k = k';
  job_total k : is_Some (row_at (packets d) k) ->
    exists kj j, row_at (jobs d) kj = Some j /\ job_packet_id j = k;
  (** The high-water mark of a session is the number of one of its packets. *)
  state_rows k s : row_at (sequence_states d) k = Some s ->
    (state_payload_id s, state_boot_id s) = k /\
    (exists p, row_at (packets d) (last_high_water_packet_id s) = Some p /\ packet_session p = k /\
      sequence_number p = high_water_sequence s) /\
    accepted_packet_count s = Z.of_nat (length (session_packets d k)) /\
    missing_packet_count s = total_missing (session_packets d k);
  state_total k p : row_at (packets d) k = Some p -> is_Some (row_at (sequence_states d) (packet_session p));
  (** A result belongs to a completed job, and a completed job has a result. *)
  processed_rows k t : row_at (processed d) k = Some t ->
    processed_packet_id t = k /\
    exists j, row_at (jobs d) (processing_job_id t) = Some j /\ job_packet_id j = k /\ job_state j = COMPLETE;
  complete_jobs k j : row_at (jobs d) k = Some j -> job_state j = COMPLETE ->
    is_Some (row_at (processed d) (job_packet_id j))
}.

(** ** Evolution *)

(** A receipt keeps its evidence; once its status is final it is never classified again. *)
Definition receipt_evolves (r r' : TelemetryDeliveryReceipt) : Prop :=
  evidence r' = evidence r /\
  (validation_status r <> PENDING ->
    validation_status r' = validation_status r /\ rejection_reason r' = rejection_reason r /\
    logical_packet_id r' = logical_packet_id r /\ duplicate_of_receipt_id r' = duplicate_of_receipt_id r /\
    parsed_identifiers r' = parsed_identifiers r).

Definition job_evolves (j j' : TelemetryProcessingJob) : Prop :=
  job_id j' = job_id j /\ job_packet_id j' = job_packet_id j /\ max_attempts j' = max_attempts j /\
  job_created_at j' = job_created_at j /\ attempt_count j <= attempt_count j' /\
  rtc job_move (job_state j) (job_state j').

Definition keeps `{Countable K} {R} (rel : R -> R -> Prop) (t t' : table K R) : Prop :=
  forall k r, row_at t k = Some r -> exists r', row_at t' k = Some r' /\ rel r r'.

Record evolves (d d' : database) : Prop := {
  receipts_evolve : keeps receipt_evolves (receipts d) (receipts d');
  jobs_evolve : keeps job_evolves (jobs d) (jobs d');
  identities_kept : keeps eq (identities d) (identities d');
  packets_kept : keeps eq (packets d) (packets d');
  results_kept : keeps eq (processed d) (processed d');
  events_kept : keeps eq (events d) (events d')
}.

(** ** Writing one row *)

(** [t'] is [t] with row [r] inserted or updated. *)
Definition written `{Countable K} `{!Schema K R} (t : table K R) (r : R) (t' : table K R) : Prop :=
  forall k, row_at t' k = if decide (k = primary_key r) then Some r else row_at t k.

Section Written.
Context `{!SqlLaws} `{Countable K} `{!Schema K R}.
Implicit Types (t : table K R) (r : R).

Lemma written_insert t r t' : insert_row t r = Some t' -> written t r t'.
Proof. intros Hi k. by apply row_at_insert. Qed.

Lemma written_update t r t' : update_row t r = Some t' -> written t r t'.
Proof. intros Hi k. by apply row_at_update. Qed.

Lemma written_at t r t' : written t r t' -> row_at t' (primary_key r) = Some r.
Proof. intros Hw. by rewrite Hw, decide_True. Qed.

Lemma written_inv t r t' k q :
  written t r t' -> row_at t' k = Some q -> (k = primary_key r /\ q = r) \/ (k <> primary_key r /\ row_at t k = Some q).
Proof. intros Hw. rewrite Hw. destruct (decide _); [intros [= ->]; by left|by right]. Qed.

(** Writing a row with a value that no row has keeps the values unique. *)
Lemma written_unique {A} (f : R -> A) t r t' :
  written t r t' -> (forall k q, row_at t k = Some q -> f r <> f q) ->
  (forall k q k' q', row_at t k = Some q -> row_at t k' = Some q' -> f q = f q' -> k = k') ->
  forall k q k' q', row_at t' k = Some q -> row_at t' k' = Some q' -> f q = f q' -> k = k'.
Proof.
  intros Hw Hfresh Hu k q k' q' [(-> & ->)|(_ & Hq)]%(written_inv _ _ _ _ _ Hw)
    [(-> & ->)|(_ & Hq')]%(written_inv _ _ _ _ _ Hw) Hf; [done| | |by eapply Hu].
  - by apply Hfresh in Hq'.
  - by apply Hfresh in Hq.
Qed.

Lemma written_keeps rel t r t' q :
  Reflexive rel -> written t r t' -> row_at t (primary_key r) = Some q -> rel q r -> keeps rel t t'.
Proof.
  intros Hrefl Hw Hq Hr k x Hx. rewrite Hw. destruct (decide _) as [->|]; [|by exists x].
  exists r. split; [done|]. congruence.
Qed.

Lemma written_keeps_new rel t r t' :
  Reflexive rel -> written t r t' -> row_at t (primary_key r) = None -> keeps rel t t'.
Proof.
  intros Hrefl Hw Hq k x Hx. rewrite Hw. destruct (decide _) as [->|]; [congruence|by exists x].
Qed.
End Written.

Lemma keeps_refl `{Countable K} {R} (rel : R -> R -> Prop) (t : table K R) : Reflexive rel -> keeps rel t t.
Proof. intros Hr k r Hk. by exists r. Qed.

Lemma keeps_trans `{Countable K} {R} (rel : R -> R -> Prop) (t t' t'' : table K R) :
  Transitive rel -> keeps rel t t' -> keeps rel t' t'' -> keeps rel t t''.
Proof.
  intros Hr H1 H2 k r Hk. destruct (H1 _ _ Hk) as (r' & Hk' & Hrr).
  destruct (H2 _ _ Hk') as (r'' & Hk'' & Hrr'). exists r''. split; [done|]. by etransitivity.
Qed.

#[export] Instance receipt_evolves_preorder : PreOrder receipt_evolves.
Proof.
  split.
  - intros r. by split.
  - intros r r' r'' [He Hs] [He' Hs']. split; [congruence|]. intros Hp.
    destruct (Hs Hp) as (H1 & H2 & H3 & H4 & H5).
    destruct Hs' as (H1' & H2' & H3' & H4' & H5'); [congruence|]. repeat split; congruence.
Qed.

#[export] Instance job_evolves_preorder : PreOrder job_evolves.
Proof.
  split.
  - intros j. repeat split; [lia|apply rtc_refl].
  - intros j j' j'' (?&?&?&?&?&?) (?&?&?&?&?&?). repeat split; try congruence; [lia|]. by etransitivity.
Qed.

#[export] Instance evolves_preorder : PreOrder evolves.
Proof.
  split.
  - intros d. split; apply keeps_refl; apply _.
  - intros d d' d'' [] []. split; (eapply keeps_trans; [apply _|done|done]).
Qed.

(** ** Changes that keep the tables consistent *)

Context `{!SqlLaws}.
Implicit Types (d : database).

Definition set_receipts t d : database := with_table (R:=TelemetryDeliveryReceipt) t d.
Definition set_identities t d : database := with_table (R:=TelemetryRequestIdentity) t d.
Definition set_packets t d : database := with_table (R:=LogicalTelemetryPacket) t d.
Definition set_states t d : database := with_table (R:=TelemetrySequenceState) t d.
Definition set_jobs t d : database := with_table (R:=TelemetryProcessingJob) t d.
Definition set_processed t d : database := with_table (R:=ProcessedTelemetry) t d.
Definition set_events t d : database := with_table (R:=TelemetryAuditEvent) t d.

Lemma consistent_events t d : consistent d -> consistent (set_events t d).
Proof. intros []. split; assumption. Qed.

Lemma evolves_events d t e :
  written (events d) e t -> row_at (events d) (event_id e) = None -> evolves d (set_events t d).
Proof.
  intros Hw Hn. split; cbn; try (apply keeps_refl; apply _). eapply written_keeps_new; [apply _|done|done].
Qed.

(** The status of a receipt only looks at packets and at the bodies of other receipts. *)
Lemma status_ok_mono d d' r :
  keeps (fun o o' => raw_body o' = raw_body o) (receipts d) (receipts d') ->
  keeps eq (packets d) (packets d') -> status_ok d r -> status_ok d' r.
Proof.
  intros Hr Hp. unfold status_ok. destruct (validation_status r); [done| |done| |].
  - intros (? & ? & p & Hk & ?). split; [done|]. split; [done|]. destruct (Hp _ _ Hk) as (p' & Hk' & <-). eauto.
  - intros (? & p & o & Hk & ? & ? & Ho & Hb). split; [done|].
    destruct (Hp _ _ Hk) as (p' & Hk' & <-). destruct (Hr _ _ Ho) as (o' & Ho' & Hb').
    exists p, o'. repeat split; congruence.
  - intros (? & k & o & ? & Ho & Hb). split; [done|]. destruct (Hr _ _ Ho) as (o' & Ho' & Hb').
    exists k, o'. repeat split; congruence.
Qed.

Lemma evidence_body r r' : evidence r' = evidence r -> raw_body r' = raw_body r.
Proof. by intros [=]. Qed.

Lemma evidence_ok_eq r r' : evidence r' = evidence r -> evidence_ok r -> evidence_ok r'.
Proof. unfold evidence_ok. by intros [= _ _ _ _ _ _ _ -> -> ->]. Qed.

Lemma keeps_bodies (t t' : table uuid TelemetryDeliveryReceipt) :
  keeps receipt_evolves t t' -> keeps (fun o o' => raw_body o' = raw_body o) t t'.
Proof. intros Hk k r Hr. destruct (Hk _ _ Hr) as (r' & ? & He & _). exists r'. split; [done|by apply evidence_body]. Qed.

(** A stored receipt changes its status. *)
Lemma consistent_receipt d r r' t :
  consistent d -> row_at (receipts d) (receipt_id r) = Some r -> receipt_evolves r r' -> status_ok d r' ->
  written (receipts d) r' t -> consistent (set_receipts t d).
Proof.
  intros Hc Hr Hev Hs Hw. pose proof Hev as [He Hst].
  assert (receipt_id r' = receipt_id r) as Hid by (by injection He).
  assert (canonical_request_id r' = canonical_request_id r) as Hcan by (by injection He).
  assert (body_sha256 r' = body_sha256 r) as Hsha by (by injection He).
  assert (keeps receipt_evolves (receipts d) t) as Hkeep
    by (eapply written_keeps; [apply _|done|cbn; rewrite Hid; exact Hr|done]).
  assert (forall x, status_ok d x -> status_ok (set_receipts t d) x) as Hmono.
  { intros x. apply status_ok_mono; [by apply keeps_bodies|]. apply keeps_refl, _. }
  destruct Hc as [Crec Cid Cown Cpk Cname Cuniq Cjob Cclaim Cjuniq Cjtot Cst Cstt Cpr Ccomp].
  split; cbn; try assumption.
  - intros k x [(-> & ->)|(_ & Hx)]%(written_inv _ _ _ _ _ Hw).
    + split; [done|]. split; [|by apply Hmono]. eapply evidence_ok_eq; [done|]. by apply (Crec _ _ Hr).
    + destruct (Crec _ _ Hx) as (? & ? & ?). auto.
  - intros k i Hi. destruct (Cid _ _ Hi) as (? & x & Hx & ? & ?). split; [done|].
    destruct (Hkeep _ _ Hx) as (x' & Hx' & [= _ _ Hq _ _ _ _ _ _ Hh] & _). exists x'. repeat split; congruence.
  - intros k x q [(-> & ->)|(_ & Hx)]%(written_inv _ _ _ _ _ Hw) Hq; [|by eapply Cown].
    destruct (Cown _ _ q Hr ltac:(congruence)) as (i & Hi & Hor). exists i. split; [done|]. cbn. rewrite Hid.
    destruct Hor as [->|[Hcf Hd]]; [by left|right].
    destruct (Hst ltac:(congruence)) as (-> & _ & _ & -> & _). done.
  - intros k p Hp. destruct (Cpk _ _ Hp) as (? & ? & ? & x & Hx & Hv & Hl & Hsh). do 3 (split; [done|]).
    destruct (Hkeep _ _ Hx) as (x' & Hx' & [= _ _ _ _ _ _ _ _ _ Hh] & Hst').
    destruct (Hst' ltac:(congruence)) as (? & _ & ? & _). exists x'. repeat split; congruence.
Qed.

(** A stored job moves on. *)
Lemma consistent_job d j j' t :
  consistent d -> row_at (jobs d) (job_id j) = Some j -> job_evolves j j' -> job_ok j' ->
  (job_state j' = COMPLETE -> is_Some (row_at (processed d) (job_packet_id j))) ->
  (job_state j = COMPLETE -> job_state j' = COMPLETE) ->
  (fits_column (255, claimed_by j) = true -> fits_column (255, claimed_by j') = true) ->
  written (jobs d) j' t -> consistent (set_jobs t d).
Proof.
  intros Hc Hj (Hid & Hpk & _ & _ & _ & _) Hok Hdone Hterm Hclaim Hw.
  destruct Hc as [Crec Cid Cown Cpk Cname Cuniq Cjob Cclaim Cjuniq Cjtot Cst Cstt Cpr Ccomp].
  assert (forall k x, row_at t k = Some x -> exists y, row_at (jobs d) k = Some y /\ job_packet_id x = job_packet_id y) as Hback.
  { intros k x [(-> & ->)|(_ & Hx)]%(written_inv _ _ _ _ _ Hw); [|by exists x].
    exists j. cbn. by rewrite Hid. }
  split; cbn; try assumption.
  - intros k x Hx. destruct (Hback _ _ Hx) as (y & Hy & Hxy). rewrite Hxy.
    destruct (Cjob _ _ Hy) as (Hyid & Hyok & Hyp).
    apply (written_inv _ _ _ _ _ Hw) in Hx as [(-> & ->)|(_ & Hx)]; [done|]. by apply Cjob in Hx as (? & ? & _).
  - intros k x [(-> & ->)|(_ & Hx)]%(written_inv _ _ _ _ _ Hw); [|by eapply Cclaim]. by eapply Hclaim, Cclaim.
  - intros k x k' x' Hx Hx'. destruct (Hback _ _ Hx) as (y & Hy & ->). destruct (Hback _ _ Hx') as (y' & Hy' & ->).
    by eapply Cjuniq.
  - intros k Hk. destruct (Cjtot k Hk) as (kj & x & Hx & Hxp). exists kj.
    rewrite Hw. destruct (decide _) as [->|]; [|by exists x]. exists j'. split; [done|].
    cbn in Hx. rewrite Hid, Hj in Hx. congruence.
  - intros k x Hx. destruct (Cpr _ _ Hx) as (? & y & Hy & Hyp & Hys). split; [done|].
    rewrite Hw. destruct (decide _) as [He|]; [|by exists y]. exists j'. split; [done|].
    cbn in He. rewrite He, Hid, Hj in Hy. injection Hy as ->. split; [congruence|auto].
  - intros k x [(-> & ->)|(_ & Hx)]%(written_inv _ _ _ _ _ Hw); [|by eapply Ccomp].
    rewrite Hpk. exact Hdone.
Qed.

(** A result is stored and its job completes. *)
Lemma consistent_result d j j' y tp tj :
  consistent d -> row_at (jobs d) (job_id j) = Some j -> job_evolves j j' -> job_ok j' ->
  job_state j' = COMPLETE -> claimed_by j' = claimed_by j ->
  processed_packet_id y = job_packet_id j -> processing_job_id y = job_id j ->
  written (processed d) y tp -> row_at (processed d) (processed_packet_id y) = None ->
  written (jobs d) j' tj -> consistent (set_jobs tj (set_processed tp d)).
Proof.
  intros Hc Hj Hev Hok Hst Hclaim Hyp Hyj Hwp Hnew Hwj.
  pose proof Hev as (Hid & Hpk & _).
  destruct Hc as [Crec Cid Cown Cpk Cname Cuniq Cjob Cclaim Cjuniq Cjtot Cst Cstt Cpr Ccomp].
  assert (forall k x, row_at tj k = Some x -> exists z, row_at (jobs d) k = Some z /\ job_packet_id x = job_packet_id z) as Hback.
  { intros k x [(-> & ->)|(_ & Hx)]%(written_inv _ _ _ _ _ Hwj); [|by exists x].
    exists j. cbn. by rewrite Hid. }
  assert (forall k x, row_at (jobs d) k = Some x -> exists x', row_at tj k = Some x' /\
    job_packet_id x' = job_packet_id x /\ (job_state x = COMPLETE -> job_state x' = COMPLETE)) as Hforth.
  { intros k x Hx. rewrite Hwj. destruct (decide _) as [->|]; [|by exists x]. exists j'.
    cbn in Hx. rewrite Hid, Hj in Hx. injection Hx as <-. done. }
  split; cbn; try assumption.
  - intros k x Hx. destruct (Hback _ _ Hx) as (z & Hz & Hxz). rewrite Hxz.
    destruct (Cjob _ _ Hz) as (Hzid & Hzok & Hzp).
    apply (written_inv _ _ _ _ _ Hwj) in Hx as [(-> & ->)|(_ & Hx)]; [done|]. by apply Cjob in Hx as (? & ? & _).
  - intros k x [(-> & ->)|(_ & Hx)]%(written_inv _ _ _ _ _ Hwj); [|by eapply Cclaim]. rewrite Hclaim. by eapply Cclaim.
  - intros k x k' x' Hx Hx'. destruct (Hback _ _ Hx) as (z & Hz & ->). destruct (Hback _ _ Hx') as (z' & Hz' & ->).
    by eapply Cjuniq.
  - intros k Hk. destruct (Cjtot k Hk) as (kj & x & Hx & <-). destruct (Hforth _ _ Hx) as (x' & ? & ? & _). eauto.
  - intros k x [(-> & ->)|(_ & Hx)]%(written_inv _ _ _ _ _ Hwp).
    + split; [done|]. destruct (Hforth _ _ Hj) as (x' & Hx' & He & _). exists j'. rewrite Hyj.
      split; [by rewrite <- Hid; apply (written_at _ _ _ Hwj)|]. cbn. split; congruence.
    + destruct (Cpr _ _ Hx) as (? & z & Hz & <- & Hzs). split; [done|].
      destruct (Hforth _ _ Hz) as (x' & ? & ? & ?). eauto.
  - intros k x [(-> & ->)|(_ & Hx)]%(written_inv _ _ _ _ _ Hwj) Hxs.
    + rewrite Hpk, <- Hyp. exists y. apply (written_at _ _ _ Hwp).
    + rewrite Hwp. destruct (decide _); [done|]. by eapply Ccomp.
Qed.

(** A delivery is recorded, with its ledger row when it is the first of its request. *)
Definition ledger_ok d (r : TelemetryDeliveryReceipt) ti : Prop :=
  (ti = identities d /\
   forall q, canonical_request_id r = Some q -> exists i, row_at (identities d) q = Some i /\
     validation_status r = CONFLICT /\ duplicate_of_receipt_id r = Some (first_receipt_id i)) \/
  (exists i, written (identities d) i ti /\ row_at (identities d) (request_id i) = None /\
     canonical_request_id r = Some (request_id i) /\ first_receipt_id i = receipt_id r /\
     identity_sha256 i = body_sha256 r).

Lemma ledger_keeps d r ti : ledger_ok d r ti -> keeps eq (identities d) ti.
Proof.
  intros [[-> _]|(i & Hw & Hn & _)]; [by apply keeps_refl; apply _|].
  eapply written_keeps_new; [apply _|done|done].
Qed.

Lemma consistent_delivery d r tr ti :
  consistent d -> row_at (receipts d) (receipt_id r) = None -> evidence_ok r -> status_ok d r ->
  written (receipts d) r tr -> ledger_ok d r ti -> consistent (set_identities ti (set_receipts tr d)).
Proof.
  intros Hc Hn Hev Hs Hw Hl.
  assert (keeps eq (receipts d) tr) as Hkeep by (eapply written_keeps_new; [apply _|done|done]).
  assert (forall x, status_ok d x -> status_ok (set_identities ti (set_receipts tr d)) x) as Hmono.
  { intros x. apply status_ok_mono; [|by apply keeps_refl, _]. cbn. intros k o Ho.
    destruct (Hkeep _ _ Ho) as (o' & Ho' & <-). eauto. }
  pose proof (ledger_keeps _ _ _ Hl) as Hlk.
  destruct Hc as [Crec Cid Cown Cpk Cname Cuniq Cjob Cclaim Cjuniq Cjtot Cst Cstt Cpr Ccomp].
  split; cbn; try assumption.
  - intros k x [(-> & ->)|(_ & Hx)]%(written_inv _ _ _ _ _ Hw); [auto|].
    destruct (Crec _ _ Hx) as (? & ? & ?). auto.
  - intros k i Hi. assert (row_at (identities d) k = Some i \/
      (k = request_id i /\ canonical_request_id r = Some k /\ first_receipt_id i = receipt_id r /\
       identity_sha256 i = body_sha256 r)) as [Hold|(-> & Hq & Hf & Hh)].
    { destruct Hl as [[-> _]|(i' & Hwi & _ & ? & ? & ?)]; [by left|].
      apply (written_inv _ _ _ _ _ Hwi) in Hi as [(-> & ->)|(_ & Hi)]; [by right|by left]. }
    + destruct (Cid _ _ Hold) as (? & x & Hx & ? & ?). split; [done|].
      destruct (Hkeep _ _ Hx) as (x' & ? & <-). eauto.
    + split; [done|]. exists r. rewrite Hf. split; [apply (written_at _ _ _ Hw)|]. done.
  - intros k x q [(-> & ->)|(_ & Hx)]%(written_inv _ _ _ _ _ Hw) Hq.
    + destruct Hl as [[-> Hcf]|(i & Hwi & _ & Hq' & Hf & _)].
      * destruct (Hcf q Hq) as (i & Hi & ? & ?). exists i. split; [done|by right].
      * assert (q = request_id i) as -> by congruence. exists i.
        split; [apply (written_at _ _ _ Hwi)|by left].
    + destruct (Cown _ _ _ Hx Hq) as (i & Hi & Hor). destruct (Hlk _ _ Hi) as (i' & ? & <-). eauto.
  - intros k p Hp. destruct (Cpk _ _ Hp) as (? & ? & ? & x & Hx & Hv & ? & ?). do 3 (split; [done|]).
    destruct (Hkeep _ _ Hx) as (x' & ? & <-). eauto.
Qed.

(** A new packet is accepted: its row, its session's state, its job and its receipt. *)

(** The rows of an acceptance: receipt [r] becomes [r'], the source of the new packet [p], whose
    session state is [st'] and whose job is [j]; the new tables are [tr], [tp], [ts] and [tj]. *)
Record acceptance d r r' p st' j tr tp ts tj : Prop := {
  acc_stored : row_at (receipts d) (receipt_id r) = Some r;
  acc_pending : validation_status r = PENDING;
  acc_evidence : evidence r' = evidence r;
  acc_accepted : validation_status r' = ACCEPTED;
  acc_no_reason : rejection_reason r' = None;
  acc_linked : logical_packet_id r' = Some (packet_id p);
  acc_queue : queue_status r' <> NOT_APPLICABLE;
  acc_receipts : written (receipts d) r' tr;
  acc_source : source_receipt_id p = receipt_id r;
  acc_digest : raw_sha256 p = body_sha256 r;
  acc_missing : 0 <= missing_before p;
  acc_packet_ok : packet_ok p;
  acc_name : Z.of_nat (String.length (packet_id p)) <= 64;
  acc_new_packet : row_at (packets d) (packet_id p) = None;
  acc_new_key : forall q, q ∈ rows (packets d) -> packet_key p <> packet_key q;
  acc_packets : written (packets d) p tp;
  acc_packet_rows : rows tp ≡ₚ p :: rows (packets d);
  acc_session : (state_payload_id st', state_boot_id st') = packet_session p;
  acc_state :
    match row_at (sequence_states d) (packet_session p) with
    | None => accepted_packet_count st' = 1 /\ missing_packet_count st' = missing_before p /\
        high_water_sequence st' = sequence_number p /\ last_high_water_packet_id st' = packet_id p
    | Some st => accepted_packet_count st' = accepted_packet_count st + 1 /\
        missing_packet_count st' = missing_packet_count st + missing_before p /\
        ((high_water_sequence st' = sequence_number p /\ last_high_water_packet_id st' = packet_id p) \/
         (high_water_sequence st' = high_water_sequence st /\
          last_high_water_packet_id st' = last_high_water_packet_id st))
    end;
  acc_states : written (sequence_states d) st' ts;
  acc_job : job_packet_id j = packet_id p;
  acc_job_ok : job_ok j;
  acc_job_state : job_state j = PENDING_QUEUE;
  acc_unclaimed : claimed_by j = None;
  acc_new_job : row_at (jobs d) (job_id j) = None;
  acc_jobs : written (jobs d) j tj;
  acc_original : duplicate_of_receipt_id r' = duplicate_of_receipt_id r
}.

Definition accepted_tables d tr tp ts tj : database :=
  set_receipts tr (set_jobs tj (set_states ts (set_packets tp d))).

(** The totals of the packet's session after an acceptance. *)
Lemma acceptance_state d r r' p st' j tr tp ts tj d' :
  consistent d -> acceptance d r r' p st' j tr tp ts tj -> packets d' = tp ->
  (exists q, row_at tp (last_high_water_packet_id st') = Some q /\ packet_session q = packet_session p /\
    sequence_number q = high_water_sequence st') /\
  accepted_packet_count st' = Z.of_nat (length (session_packets d' (packet_session p))) /\
  missing_packet_count st' = total_missing (session_packets d' (packet_session p)).
Proof.
  intros Hc [] Hd'. pose proof (written_at _ _ _ acc_packets0) as Hpat. cbn in Hpat.
  assert (keeps eq (packets d) tp) as Hkp by (eapply written_keeps_new; [apply _|done|done]).
  assert (session_packets d' (packet_session p) ≡ₚ p :: session_packets d (packet_session p)) as Hs.
  { unfold session_packets. rewrite Hd', acc_packet_rows0. cbn. unfold in_session at 1.
    by rewrite bool_decide_eq_true_2. }
  unfold total_missing. rewrite Hs. cbn [length sum_by foldr]. fold (sum_by missing_before).
  destruct (row_at (sequence_states d) (packet_session p)) as [st|] eqn:Hold.
  - destruct acc_state0 as (Hcnt & Hmis & Hmark).
    destruct (state_rows _ Hc _ _ Hold) as (_ & (x & Hx & Hxs & Hxn) & Hct & Hm). unfold total_missing in Hm.
    split; [|rewrite Hcnt, Hmis, Hct, Hm; unfold sum_by; cbn; lia].
    destruct Hmark as [[-> ->]|[-> ->]]; [by exists p|].
    destruct (Hkp _ _ Hx) as (x' & ? & <-). by exists x.
  - destruct acc_state0 as (Hcnt & Hmis & Hhw & Hlast). split; [rewrite Hhw, Hlast; by exists p|].
    assert (session_packets d (packet_session p) = []) as ->; [|unfold sum_by; cbn; lia].
    destruct (session_packets d (packet_session p)) as [|x l] eqn:Hl'; [done|].
    assert (x ∈ session_packets d (packet_session p)) as Hx by (rewrite Hl'; left).
    unfold session_packets in Hx. apply list_elem_of_In, filter_In in Hx as [Hx Hin].
    apply list_elem_of_In, elem_of_rows in Hx as [k Hk]. apply (state_total _ Hc) in Hk.
    unfold in_session in Hin. apply bool_decide_eq_true in Hin. rewrite Hin, Hold in Hk. by destruct Hk.
Qed.

(** Another session has the packets it had. *)
Lemma acceptance_others d r r' p st' j tr tp ts tj d' key :
  acceptance d r r' p st' j tr tp ts tj -> packets d' = tp -> key <> packet_session p ->
  session_packets d' key ≡ₚ session_packets d key.
Proof.
  intros [] Hd' Hne. unfold session_packets. rewrite Hd', acc_packet_rows0. cbn. unfold in_session at 1.
  by rewrite bool_decide_eq_false_2 by congruence.
Qed.

Lemma consistent_accept d r r' p st' j tr tp ts tj :
  consistent d -> acceptance d r r' p st' j tr tp ts tj -> consistent (accepted_tables d tr tp ts tj).
Proof.
  intros Hc Hacc.
  destruct (acceptance_state _ _ _ _ _ _ _ _ _ _ (accepted_tables d tr tp ts tj) Hc Hacc eq_refl) as (Hmark & Hcnt & Hmis).
  pose proof Hacc as [Hr Hpend He Hv Hrej Hl Hq Hwr Hsrc Hsha Hmiss Hchk Hname Hpnew Hkey Hwp Hperm Hst Hstate Hws
    Hjp Hjok Hjs Hjcl Hjnew Hwj _].
  assert (receipt_id r' = receipt_id r) as Hid by (by injection He).
  assert (keeps receipt_evolves (receipts d) tr) as Hkeep.
  { eapply written_keeps; [apply _|done|cbn; rewrite Hid; exact Hr|]. split; [done|by rewrite Hpend]. }
  assert (keeps eq (packets d) tp) as Hkp by (eapply written_keeps_new; [apply _|done|done]).
  set (d' := accepted_tables d tr tp ts tj) in *.
  assert (forall x, status_ok d x -> status_ok d' x) as Hmono.
  { intros x. apply status_ok_mono; [by apply keeps_bodies|exact Hkp]. }
  pose proof (written_at _ _ _ Hwp) as Hpat. cbn in Hpat.
  destruct Hc as [Crec Cid Cown Cpk Cname Cuniq Cjob Cclaim Cjuniq Cjtot Cst Cstt Cpr Ccomp].
  split; cbn.
  - intros k x [(-> & ->)|(_ & Hx)]%(written_inv _ _ _ _ _ Hwr).
    + split; [done|]. split; [eapply evidence_ok_eq; [done|]; by apply (Crec _ _ Hr)|].
      unfold status_ok. rewrite Hv. split; [done|]. split; [done|]. exists p. cbn.
      split; [done|]. split; congruence.
    + destruct (Crec _ _ Hx) as (? & ? & ?). auto.
  - intros k i Hi. destruct (Cid _ _ Hi) as (? & x & Hx & ? & ?). split; [done|].
    destruct (Hkeep _ _ Hx) as (x' & Hx' & [= _ _ Hqq _ _ _ _ _ _ Hh] & _). exists x'. repeat split; congruence.
  - intros k x q [(-> & ->)|(_ & Hx)]%(written_inv _ _ _ _ _ Hwr) Hcan; [|by eapply Cown].
    assert (canonical_request_id r = Some q) as Hcan' by (by injection He; congruence).
    destruct (Cown _ _ q Hr Hcan') as (i & Hi & [Hf|[Hcf _]]); [|congruence].
    exists i. split; [done|left]. cbn. congruence.
  - intros k x [(-> & ->)|(_ & Hx)]%(written_inv _ _ _ _ _ Hwp).
    + do 3 (split; [done|]). exists r'. rewrite Hsrc, <- Hid. split; [apply (written_at _ _ _ Hwr)|].
      split; [done|]. split; [done|]. rewrite Hsha. by injection He.
    + destruct (Cpk _ _ Hx) as (? & ? & ? & y & Hy & Hyv & Hyl & Hsh). do 3 (split; [done|]).
      destruct (Hkeep _ _ Hy) as (y' & Hy' & [= _ _ _ _ _ _ _ _ _ Hh] & Hst').
      destruct (Hst' ltac:(congruence)) as (? & _ & ? & _). exists y'. repeat split; congruence.
  - intros k [x [(-> & ->)|(_ & Hx)]%(written_inv _ _ _ _ _ Hwp)]; [exact Hname|]. apply Cname. by exists x.
  - apply (written_unique packet_key _ _ _ Hwp); [|exact Cuniq]. intros k x Hx. apply Hkey. apply elem_of_rows. eauto.
  - intros k x [(-> & ->)|(_ & Hx)]%(written_inv _ _ _ _ _ Hwj).
    + split; [done|]. split; [done|]. rewrite Hjp. by exists p.
    + destruct (Cjob _ _ Hx) as (? & ? & [y Hy]). split; [done|]. split; [done|].
      destruct (Hkp _ _ Hy) as (? & ? & _). eauto.
  - intros k x [(-> & ->)|(_ & Hx)]%(written_inv _ _ _ _ _ Hwj); [by rewrite Hjcl|by eapply Cclaim].
  - apply (written_unique job_packet_id _ _ _ Hwj); [|exact Cjuniq]. intros k x Hx Hxp.
    destruct (Cjob _ _ Hx) as (_ & _ & [y Hy]). congruence.
  - intros k [x [(-> & ->)|(_ & Hx)]%(written_inv _ _ _ _ _ Hwp)].
    + exists (job_id j), j. split; [apply (written_at _ _ _ Hwj)|done].
    + destruct (Cjtot k ltac:(by exists x)) as (kj & y & Hy & ?). exists kj, y.
      rewrite Hwj. destruct (decide _) as [->|]; [cbn in Hy; congruence|done].
  - intros k x [(-> & ->)|(Hne & Hx)]%(written_inv _ _ _ _ _ Hws).
    + split; [done|]. cbn. rewrite Hst. done.
    + destruct (Cst _ _ Hx) as (Hk & (y & Hy & Hys & Hyn) & Hcn & Hms). split; [done|].
      destruct (Hkp _ _ Hy) as (y' & Hy' & <-). split; [by exists y|].
      cbn in Hne. rewrite Hst in Hne.
      pose proof (acceptance_others _ _ _ _ _ _ _ _ _ _ d' k Hacc eq_refl Hne) as Hs.
      change (session_packets _ k) with (session_packets d' k). unfold total_missing. by rewrite Hs.
  - intros k x Hx. rewrite Hws. destruct (decide _) as [|Hne]; [done|].
    apply (written_inv _ _ _ _ _ Hwp) in Hx as [(-> & ->)|(_ & Hx)]; [cbn in Hne; congruence|by eapply Cstt].
  - intros k x Hx. destruct (Cpr _ _ Hx) as (? & y & Hy & ? & ?). split; [done|]. exists y.
    rewrite Hwj. destruct (decide _) as [He'|]; [cbn in He'; congruence|done].
  - intros k x [(-> & ->)|(_ & Hx)]%(written_inv _ _ _ _ _ Hwj) Hxs; [congruence|by eapply Ccomp].
Qed.

End Consistency.
