(* ===== verification/RepositorySafe.v ===== *)
(** * The repository keeps its tables consistent

    Each method of Repository.v, run to its return, preserves the invariant of RepositoryInv.v and
    only moves rows along [evolves]; when it raises the tables are unchanged.  The theorems at the
    end lift this to every sequence of calls. *)
From S2P Require Import Prelude PyFormat Sha256 Uuid Json Sql Schema Session Repository RepositoryInv.

Open Scope Z_scope.

Section Safe.
Context `{SqlEngine} `{!SqlLaws} `{Env}.
Implicit Types (w : world) (d : database).

Definition safe_step d d' : Prop := consistent d -> consistent d' /\ evolves d d'.

#[local] Instance safe_step_preorder : PreOrder safe_step.
Proof.
  split; [by intros d|]. intros d d' d'' Hs1 Hs2 Hc. destruct (Hs1 Hc) as [Hc' He].
  destruct (Hs2 Hc') as [Hc'' He']. split; [done|]. by etransitivity.
Qed.

Lemma safe_trans d d1 d2 : consistent d -> safe_step d d1 -> safe_step d1 d2 -> consistent d2 /\ evolves d d2.
Proof. intros Hc Hs1 Hs2. by apply (transitivity Hs1 Hs2). Qed.

(** A method whose returns are safe steps. *)
Definition safe {A} (m : M A) : Prop := forall w a w', m w = (Ok a, w') -> safe_step (db w) (db w').

Lemma safe_begin {A} (block : M A) : safe block -> safe (session_begin block).
Proof. intros Hs w a w' Hr%run_begin_ok. eapply Hs, Hr. Qed.

Lemma safe_ret {A} (a : A) : safe (mret a).
Proof. by intros w b w' [_ ->]%run_ret_ok. Qed.

Lemma safe_raise {A} e : safe (raise (A:=A) e).
Proof. by intros w b w' ?%run_raise_ok. Qed.

Lemma safe_now {A} (k : Z -> M A) : (forall t, safe (k t)) -> safe (t ← utc_now; k t).
Proof. intros Hk w a w' Hr. run_step Hr.  by apply Hk in Hr. Qed.

Lemma safe_if {A} (c : bool) (m m' : M A) : safe m -> safe m' -> safe (if c then m else m').
Proof. by destruct c. Qed.

Lemma safe_bind {A B} (m : M A) (k : A -> M B) : safe m -> (forall a, safe (k a)) -> safe (m ≫= k).
Proof. intros Hm Hk w b w' (a & w1 & Ha & Hb)%run_bind_ok. etransitivity; [eapply Hm, Ha|eapply Hk, Hb]. Qed.

Lemma safe_retry {A} n s (body : M A) : atomic body -> safe body -> safe (retry_on_integrity_error n s body).
Proof. intros Ha Hs w a w' (w1 & <- & Hr)%run_retry_ok; [eapply Hs, Hr|done]. Qed.

Lemma safe_get {A} `{Countable K} `{!Mapped K R} k (f : option R -> M A) :
  (forall o, safe (f o)) -> safe (o ← session_get k; f o).
Proof. intros Hf w a w' Hr. run_step Hr.  by apply Hf in Hr. Qed.

Lemma safe_scalars {A} `{Countable K} `{!Mapped K R} p (f : list R -> M A) :
  (forall l, safe (f l)) -> safe (l ← session_scalars p; f l).
Proof. intros Hf w a w' Hr. run_step Hr.  by apply Hf in Hr. Qed.

Lemma safe_audit service event actor out why r p j data : safe (_audit service event actor out why r p j data).
Proof.
  intros w [] w' Hr Hc. unfold _audit in Hr. run_step Hr. run_step Hr.
  run_step Hr. subst. split; [by apply consistent_events|].
  eapply evolves_events; [by apply written_insert|]. by apply insert_fresh in Hin.
Qed.

Create HintDb safety.
Hint Resolve safe_begin safe_ret safe_raise safe_now safe_if safe_bind safe_retry safe_get safe_scalars safe_audit
  atomic_begin : safety.

(** ** Changes of one row *)

Lemma update_receipt_step d r r' w a w' :
  session_update r' w = (Ok a, w') -> db w = d ->
  row_at (receipts d) (receipt_id r) = Some r ->
  receipt_evolves r r' -> (consistent d -> status_ok d r') -> safe_step d (db w').
Proof.
  intros Hu <- Hr Hev Hs Hc. run_step Hu. subst. apply written_update in Hup as Hw.
  assert (receipt_id r' = receipt_id r) as Hid by (by destruct Hev as [[=] _]).
  split; [by eapply (consistent_receipt (db w) r r'); eauto|].
  split; cbn; try (apply keeps_refl; apply _).
  eapply written_keeps; [apply _|done|cbn; by rewrite Hid|done].
Qed.

Lemma job_evolves_step d j j' t :
  row_at (jobs d) (job_id j) = Some j -> job_evolves j j' -> written (jobs d) j' t -> evolves d (set_jobs t d).
Proof.
  intros Hj Hev Hw. split; cbn; try (apply keeps_refl; apply _).
  eapply written_keeps; [apply _|done| |done]. cbn. by destruct Hev as (-> & _).
Qed.

Lemma update_job_step d j j' w a w' :
  session_update j' w = (Ok a, w') -> db w = d ->
  row_at (jobs d) (job_id j) = Some j -> (consistent d -> job_evolves j j' /\ job_ok j') ->
  (consistent d -> job_state j' = COMPLETE -> is_Some (row_at (processed d) (job_packet_id j))) ->
  (consistent d -> job_state j = COMPLETE -> job_state j' = COMPLETE) ->
  safe_step d (db w').
Proof.
  intros Hu <- Hj Hev Hdone Hterm Hc. destruct (Hev Hc) as [He Hok].
  assert (fits_update j j' = true) as Hfit.
  { refine (run_update_fits j j' w a w' Hu _). cbn. by destruct He as (-> & _). }
  assert (fits_column (255, claimed_by j) = true -> fits_column (255, claimed_by j') = true) as Hclaim.
  { unfold fits_update in Hfit. cbn in Hfit. apply andb_true_iff in Hfit as [_ Hfit]. apply andb_true_iff in Hfit as [_ Hfit].
    apply andb_true_iff in Hfit as [Hfit _]. apply orb_true_iff in Hfit as [[= ->]%bool_decide_eq_true|]; done. }
  run_step Hu. subst.
  apply written_update in Hup as Hw. split; [|by eapply job_evolves_step].
  eapply (consistent_job (db w) j j'); eauto.
Qed.

(** A stored row is found under its own identifier. *)
Lemma receipt_at d k r : consistent d -> row_at (receipts d) k = Some r -> row_at (receipts d) (receipt_id r) = Some r.
Proof. intros Hc Hr. by destruct (receipt_rows d Hc _ _ Hr) as (-> & _). Qed.

Lemma job_at d k j : consistent d -> row_at (jobs d) k = Some j -> row_at (jobs d) (job_id j) = Some j.
Proof. intros Hc Hr. by destruct (job_rows d Hc _ _ Hr) as (-> & _). Qed.

(** ** Methods on deliveries *)

Lemma safe_reject key why parsed actor : safe (reject_delivery key why parsed actor).
Proof.
  apply safe_begin. intros w a w' Hr. run_step Hr. cbn in Hr.
  destruct (row_at (receipts (db w)) key) as [r|] eqn:Hk; [|by run_step Hr].
  case_test_in Hr; [by revert Hr; case_test; [apply safe_raise|apply safe_ret]|].
  case_test_in Hr; [by apply run_raise_ok in Hr|]. bool_to_prop.
  run_step Hr.  apply run_bind_ok in Hr as (u & w1 & Hu & Hr). intros Hc.
  apply (safe_trans _ (db w1)); [done| |].
  - eapply (update_receipt_step _ r); [exact Hu|done|by eapply receipt_at| |].
    + split; [done|by intros Hn; congruence].
    + intros _. unfold status_ok. cbn. destruct (receipt_rows _ Hc _ _ Hk) as (_ & _ & Hs).
      unfold status_ok in Hs. rewrite Htest0 in Hs. destruct Hs as (_ & _ & Hl & _).
      split; [by eexists|by split].
  - revert Hr. apply (safe_bind (_audit _ _ _ _ _ _ _ _ _)); auto with safety.
Qed.

(** ** Methods on jobs *)

(** The new state of a job, for [update_job_step]. *)
Ltac job_moves Hc Hk :=
  let Hid := fresh in let Hok := fresh "Hok" in
  destruct (job_rows _ Hc _ _ Hk) as (Hid & Hok & _); unfold job_ok in *; cbn.

Lemma safe_claim key worker lease : safe (claim_processing_job key worker lease).
Proof.
  apply safe_if; [apply safe_raise|]. apply safe_if; [apply safe_raise|]. apply safe_now. intros now.
  apply safe_begin. intros w a w' Hr. run_step Hr. cbn in Hr.
  destruct (row_at (jobs (db w)) key) as [j|] eqn:Hk; [|by run_step Hr].
  run_step Hr. cbn in Hr. intros Hc.
  pose proof (job_at _ _ _ Hc Hk) as Hj. job_moves Hc Hk. destruct Hok as (Hatt & Hmax & Hst).
  destruct (row_at (processed (db w)) (job_packet_id j)) as [t|] eqn:Hp.
  - destruct (processed_rows _ Hc _ _ Hp) as (_ & j' & Hj' & Hjp & Hdone).
    assert (processing_job_id t = key) as He by (by eapply job_unique). rewrite He, Hk in Hj'. injection Hj' as <-.
    rewrite bool_decide_eq_true_2 in Hr by done. apply run_bind_ok in Hr as (u & w1 & [_ <-]%run_ret_ok & [_ <-]%run_ret_ok).
    split; [done|reflexivity].
  - case_test_in Hr; [apply run_ret_ok in Hr as [_ <-]; split; [done|reflexivity]|]. bool_to_prop.
   run_step Hr. cbn in Hr.
    destruct (row_at (packets (db w)) (job_packet_id j)) as [p|] eqn:Hpk; [|by run_step Hr].
   run_step Hr. cbn in Hr.
    destruct (row_at (receipts (db w)) (source_receipt_id p)) as [r|] eqn:Hrc; [|by run_step Hr].
    apply run_bind_ok in Hr as (u & w1 & Hu & Hr).
    apply (safe_trans _ (db w1)); [done| |revert Hr; apply (safe_bind (_audit _ _ _ _ _ _ _ _ _)); auto with safety].
    eapply (update_job_step _ j); [exact Hu|done|done| | |].
    + intros _. split.
      * repeat split; cbn; [lia|]. apply rtc_once. unfold claimable in Htest.
        destruct (job_state j); try discriminate Htest; auto with lifecycle.
      * repeat split; cbn; (lia || done).
    + done.
    + intros _ Hcm. unfold claimable in Htest. by rewrite Hcm in Htest.
Qed.

Lemma safe_fail key worker why temporary base now :
  safe (fail_processing_attempt key worker why temporary base now).
Proof.
  apply safe_if; [apply safe_raise|]. apply safe_bind; [destruct now; [apply safe_ret|]|].
  { intros w a w' Hr. run_step Hr. done. }
  intros at_. apply safe_begin. intros w a w' Hr. run_step Hr. cbn in Hr.
  destruct (row_at (jobs (db w)) key) as [j|] eqn:Hk; [|by run_step Hr].
  case_test_in Hr; [apply run_ret_ok in Hr as [_ <-]; reflexivity|].
  case_test_in Hr; [by apply run_raise_ok in Hr|]. case_test_in Hr; [by apply run_raise_ok in Hr|]. bool_to_prop.
  intros Hc. pose proof (job_at _ _ _ Hc Hk) as Hj. job_moves Hc Hk. rewrite Htest0 in Hok.
  destruct Hok as (Hatt & Hmax & Hone & _).
  case_test_in Hr; apply run_bind_ok in Hr as (u & w1 & Hu & Hr);
    (apply (safe_trans _ (db w1)); [done| |revert Hr; apply (safe_bind (_audit _ _ _ _ _ _ _ _ _)); auto with safety]);
    (eapply (update_job_step _ j); [exact Hu|done|done| |done|congruence]); intros _; bool_to_prop.
  - split; [repeat split; cbn; [lia|]; rewrite Htest0; apply rtc_once; auto with lifecycle|].
    repeat split; cbn; (lia || done).
  - split; [repeat split; cbn; [lia|]; rewrite Htest0; apply rtc_once; auto with lifecycle|].
    repeat split; cbn; (lia || done).
Qed.

Lemma safe_complete key out worker at_ : safe (complete_processing_job key out worker at_).
Proof.
  apply safe_bind; [destruct at_; [apply safe_ret|]|].
  { intros w a w' Hr. run_step Hr. done. }
  intros done_at. apply safe_begin. intros w a w' Hr. run_step Hr. cbn in Hr.
  destruct (row_at (jobs (db w)) key) as [j|] eqn:Hk; [|by run_step Hr].
  run_step Hr. cbn in Hr. intros Hc.
  pose proof (job_at _ _ _ Hc Hk) as Hj. job_moves Hc Hk.
  destruct (row_at (processed (db w)) (job_packet_id j)) as [t|] eqn:Hp.
  - destruct (processed_rows _ Hc _ _ Hp) as (_ & j' & Hj' & Hjp & Hdone).
    assert (processing_job_id t = key) as He by (by eapply job_unique). rewrite He, Hk in Hj'. injection Hj' as <-.
    case_test_in Hr; [by apply run_raise_ok in Hr|]. run_step Hr.
    apply run_bind_ok in Hr as (u & w1 & Hu & Hr). apply run_ret_ok in Hr as [_ <-].
    eapply (update_job_step _ j); [exact Hu|done|done| | |done|done].
    + intros _. split; [repeat split; cbn; [lia|]; rewrite Hdone; apply rtc_refl|].
      repeat split; cbn; [lia|lia|done].
    + intros _ _. by exists t.
  - case_test_in Hr; [by apply run_raise_ok in Hr|]. case_test_in Hr; [by apply run_raise_ok in Hr|]. bool_to_prop.
    rewrite Htest in Hok. destruct Hok as (Hatt & Hmax & _).
    apply run_bind_ok in Hr as (u & w1 & Hu & Hr). run_step Hu. subst.
    apply run_bind_ok in Hr as (u' & w2 & Hu & Hr). run_step Hu. subst. cbn in Hup.
    apply (safe_trans _ (db (with_db (set_jobs t0 (set_processed t (db w))) w))); [done| |].
    2: revert Hr; apply (safe_bind (_audit _ _ _ _ _ _ _ _ _)); auto with safety.
    intros _. cbn. apply written_update in Hup. apply insert_fresh in Hin as Hnew. apply written_insert in Hin.
    match type of Hup with written _ ?j' _ => assert (job_evolves j j') as Hev end.
    { repeat split; cbn; [lia|]. rewrite Htest. apply rtc_once. auto with lifecycle. }
    split.
    + refine (consistent_result (db w) j _ _ _ _ Hc Hj Hev _ eq_refl _ _ _ Hin Hnew Hup); [|done|done|done].
      repeat split; cbn; (lia || done).
    + transitivity (set_processed t (db w)); [|exact (job_evolves_step (set_processed t (db w)) _ _ _ Hj Hev Hup)].
      split; cbn; try (apply keeps_refl; apply _). eapply written_keeps_new; [apply _|done|done].
Qed.

(** The receipts of a queued packet are loaded once and updated one by one. *)
Lemma safe_queue_receipts l w a w' :
  for_each l (fun r => t ← utc_now;
    session_update (r |> set_queue_status DELIVERY_QUEUED |> set_receipt_updated_at t)) w = (Ok a, w') ->
  (forall r, r ∈ l -> validation_status r = ACCEPTED /\
    exists q, row_at (receipts (db w)) (receipt_id r) = Some q /\ receipt_evolves r q) ->
  safe_step (db w) (db w').
Proof.
  revert w; induction l as [|r l IH]; intros w Hr Hl; cbn in Hr; [apply run_ret_ok in Hr as [_ <-]; reflexivity|].
  apply run_bind_ok in Hr as (u & w1 & Hu & Hr). run_step Hu.
  destruct (Hl r ltac:(left)) as (Hacc & q & Hq & [He Hs]). intros Hc.
  destruct (Hs ltac:(congruence)) as (Hv & Hrej & Hlog & Hdup & Hpar).
  assert (receipt_id q = receipt_id r) as Hid by (by injection He).
  assert (safe_step (db w) (db w1)) as Hstep.
  { eapply (update_receipt_step _ q); [exact Hu|done|by rewrite Hid| |].
    - split; [cbn; done|]. intros _. repeat split; cbn; congruence.
    - intros _. destruct (receipt_rows _ Hc _ _ Hq) as (_ & _ & Hok). unfold status_ok in *. cbn.
      rewrite Hacc in *. rewrite Hv in Hok. destruct Hok as (? & _ & p & ? & ? & ?).
      split; [congruence|]. split; [done|]. exists p. repeat split; congruence. }
  apply (safe_trans _ (db w1)); [done..|]. apply (IH _ Hr). intros x Hx.
  destruct (Hl x ltac:(by right)) as (Hxa & y & Hy & Hxy). split; [done|].
  destruct (receipts_evolve _ _ (proj2 (Hstep Hc)) _ _ Hy) as (y' & Hy' & Hyy').
  exists y'. split; [done|]. by etransitivity.
Qed.

Lemma safe_mark_queued key message actor : safe (mark_job_queued key message actor).
Proof.
  apply safe_begin. intros w a w' Hr. run_step Hr. cbn in Hr.
  destruct (row_at (jobs (db w)) key) as [j|] eqn:Hk; [|by run_step Hr].
  case_test_in Hr.
  { case_test_in Hr; [by apply run_raise_ok in Hr|]. apply run_ret_ok in Hr as [_ <-]. reflexivity. }
  case_test_in Hr; [by apply run_raise_ok in Hr|]. intros Hc.
  pose proof (job_at _ _ _ Hc Hk) as Hj. job_moves Hc Hk. destruct Hok as (Hatt & Hmax & Hst).
  run_step Hr.  apply run_bind_ok in Hr as (u & w1 & Hu & Hr).
  apply (safe_trans _ (db w1)); [done| |].
  - eapply (update_job_step _ j); [exact Hu|done|done| |done|].
    + intros _. split.
      * repeat split; cbn; [lia|]. destruct (job_state j); try discriminate; apply rtc_once; auto with lifecycle.
      * repeat split; cbn; (lia || done).
    + intros _ Hcm. by rewrite Hcm in Htest0.
  - run_step Hr.  apply run_bind_ok in Hr as (u' & w2 & Hu' & Hr). intros Hc1.
    apply (safe_trans _ (db w2)); [done| |revert Hr; apply (safe_bind (_audit _ _ _ _ _ _ _ _ _)); auto with safety].
    apply (safe_queue_receipts _ _ _ _ Hu'). intros r [Hr' Hf]%list_elem_of_In%filter_In. bool_to_prop.
    split; [done|]. apply list_elem_of_In, elem_of_rows in Hr' as [k Hkr]. exists r.
    split; [by eapply receipt_at|reflexivity].
Qed.

Lemma safe_record_event service event actor out why r p j data :
  safe (record_audit_event service event actor out why r p j data).
Proof. apply safe_begin, safe_audit. Qed.

(** ** Recording a delivery *)

Lemma first_delivery_ok canonical w o w' :
  first_delivery canonical w = (Ok o, w') -> w' = w /\
  match o with
  | Some (i, first) => exists q, canonical = Some q /\ row_at (identities (db w)) q = Some i /\
      row_at (receipts (db w)) (first_receipt_id i) = Some first
  | None => forall q, canonical = Some q -> row_at (identities (db w)) q = None
  end.
Proof.
  unfold first_delivery. intros Hr. destruct canonical as [q|].
  - run_step Hr. cbn in Hr.
    destruct (row_at (identities (db w)) q) as [i|] eqn:Hi.
    + run_step Hr. cbn in Hr. case_test_in Hr; [|by run_step Hr].
      apply run_ret_ok in Hr as [<- <-]. split; [done|]. by exists q.
    + apply run_ret_ok in Hr as [<- <-]. split; [done|]. by intros ? [= <-].
  - apply run_ret_ok in Hr as [<- <-]. done.
Qed.

Lemma add_delivery_step raw peer presented canonical content sent at_ chosen first i w a w' :
  Z.of_nat (length raw) <= MAX_EVIDENCE_BODY_BYTES ->
  add_delivery raw peer presented canonical content sent (sha256_hexdigest raw) at_ chosen first w = (Ok a, w') ->
  match first with
  | Some f => exists q, canonical = Some q /\ row_at (identities (db w)) q = Some i /\
      row_at (receipts (db w)) (first_receipt_id i) = Some f /\ raw_body f <> raw
  | None => forall q, canonical = Some q -> row_at (identities (db w)) q = None
  end -> safe_step (db w) (db w').
Proof.
  intros Hsize Hr Hf Hc. unfold add_delivery in Hr.
  apply run_bind_ok in Hr as (key & w0 & Hkey & Hr).
  assert (db w0 = db w) as Hw0.
  { destruct chosen; [by apply run_ret_ok in Hkey as [_ <-]|]. by apply run_uuid_ok in Hkey as [_ ->]. }
  rewrite <- Hw0 in *. clear Hw0 Hkey w.
  apply run_bind_ok in Hr as (u & w1 & Hu & Hr). run_step Hu. subst.
  apply run_bind_ok in Hr as (u' & w2 & Hid & Hr).
  apply (safe_trans _ (db w2)); [done| |revert Hr; apply (safe_bind (_audit _ _ _ _ _ _ _ _ _)); auto with safety].
  apply insert_fresh in Hin as Hnew. apply written_insert in Hin as Hw. cbn in Hnew. clear Hr Hin.
  match type of Hw with written _ ?x _ => set (r := x) in * end. intros _.
  assert (exists ti, db w2 = set_identities ti (set_receipts t (db w0)) /\ ledger_ok (db w0) r ti) as (ti & -> & Hl).
  { destruct canonical as [q|], first as [f|].
    - apply run_ret_ok in Hid as [_ <-]. exists (identities (db w0)). split; [done|]. left. split; [done|].
      destruct Hf as (q' & [= <-] & Hi & Hfirst & _). intros ? [= <-]. exists i. split; [done|].
      split; [done|]. cbn. by destruct (receipt_rows _ Hc _ _ Hfirst) as (-> & _).
    - run_step Hid. subst. eexists. split; [done|]. right. eexists. split; [by apply written_insert|].
      split; [by eapply Hf|]. done.
    - by destruct Hf as (? & ? & _).
    - apply run_ret_ok in Hid as [_ <-]. exists (identities (db w0)). split; [done|]. left. done. }
  assert (keeps eq (receipts (db w0)) t) as Hkeep by (eapply written_keeps_new; [apply _|done|done]).
  split.
  - apply (consistent_delivery _ r); [done|done|done| |done|done].
    unfold status_ok. destruct first as [f|]; cbn; [|done]. split; [done|].
    destruct Hf as (q & _ & _ & Hfirst & Hne). exists (receipt_id f), f.
    split; [done|]. split; [by eapply receipt_at|done].
  - split; cbn; try (apply keeps_refl; apply _).
    + intros k x Hx. destruct (Hkeep _ _ Hx) as (x' & ? & <-). eexists. split; [done|reflexivity].
    + by eapply ledger_keeps.
Qed.

Lemma safe_record_delivery raw peer presented canonical content received sent chosen :
  safe (record_delivery raw peer presented canonical content received sent chosen).
Proof.
  unfold record_delivery. destruct (Z.ltb_spec MAX_EVIDENCE_BODY_BYTES (Z.of_nat (length raw))) as [|Hsize];
    [apply safe_raise|].
  apply safe_if; [apply safe_raise|]. apply safe_bind.
  { destruct received; [apply safe_ret|]. intros w a w' Hr. run_step Hr. done. }
  intros at_. apply safe_retry; [apply atomic_begin|]. apply safe_begin. intros w a w' Hr.
  apply run_bind_ok in Hr as (prior & w1 & Hp & Hr). apply first_delivery_ok in Hp as [-> Hp].
  destruct prior as [[i first]|].
  - destruct Hp as (q & -> & Hi & Hfirst). case_test_in Hr; [apply run_ret_ok in Hr as [_ <-]; reflexivity|].
    intros Hc. refine (add_delivery_step _ _ _ _ _ _ _ _ (Some first) i _ _ _ Hsize Hr _ Hc).
    exists q. split; [done|]. split; [done|]. split; [done|]. intros <-.
    destruct (identity_rows _ Hc _ _ Hi) as (_ & r & Hr' & _ & Hsha). rewrite Hfirst in Hr'. injection Hr' as <-.
    destruct (receipt_rows _ Hc _ _ Hfirst) as (_ & (_ & _ & Hdig) & _).
    rewrite !bool_decide_eq_true_2 in Htest by congruence. done.
  - by apply (add_delivery_step _ _ _ _ _ _ _ _ None (mk_identity 0 0 "" 0) _ _ _ Hsize Hr).
Qed.

(** ** Accepting a packet *)

Lemma same_source_key_spec v p :
  same_source_key v p = true <-> packet_key p = (v_payload_id v, v_boot_id v, v_sequence_number v).
Proof.
  unfold same_source_key, packet_key. rewrite !andb_true_iff, !Z.eqb_eq.
  split; [by intros [[-> ->] ->]|by intros [= -> -> ->]].
Qed.

(** The look-up by source key finds the packet of that key, if there is one. *)
Lemma find_packet d v :
  consistent d ->
  match head (List.filter (same_source_key v) (rows (packets d))) with
  | Some p => row_at (packets d) (packet_id p) = Some p /\ same_source_key v p = true
  | None => forall k p, row_at (packets d) k = Some p ->
      packet_key p <> (v_payload_id v, v_boot_id v, v_sequence_number v)
  end.
Proof.
  intros Hc. destruct (List.filter _ _) as [|p l] eqn:Hf; cbn.
  - intros k p Hp Hkey. apply same_source_key_spec in Hkey.
    assert (In p (List.filter (same_source_key v) (rows (packets d)))) as Hin.
    { apply filter_In. split; [|done]. apply list_elem_of_In, elem_of_rows. eauto. }
    by rewrite Hf in Hin.
  - assert (In p (List.filter (same_source_key v) (rows (packets d)))) as [Hin Hkey]%filter_In by (rewrite Hf; by left).
    apply list_elem_of_In, elem_of_rows in Hin as [k Hk]. split; [|done].
    by destruct (packet_rows _ Hc _ _ Hk) as (-> & _).
Qed.

(** A consistent state never has a mark without its packet, and [classify_new] decides. *)
Lemma classify_new_total d v :
  consistent d ->
  (forall k p, row_at (packets d) k = Some p -> packet_key p <> (v_payload_id v, v_boot_id v, v_sequence_number v)) ->
  0 <= v_sequence_number v <= MAX_UINT32 ->
  is_Some (classify_new (row_at (sequence_states d) (v_payload_id v, v_boot_id v)) (v_sequence_number v)).
Proof.
  intros Hc Hno Hseq. unfold classify_new.
  destruct (row_at (sequence_states d) _) as [s|] eqn:Hs; [|done]. cbn zeta.
  destruct (Z.eqb_spec (Z.land (v_sequence_number v - high_water_sequence s) MAX_UINT32) 0) as [Hz|];
    [|by repeat case_test]. exfalso.
  destruct (state_rows _ Hc _ _ Hs) as (_ & (p & Hp & [= Hpay Hboot] & Hsn) & _).
  destruct (packet_rows _ Hc _ _ Hp) as (_ & [Hchk _] & _). cbn in Hchk. bool_to_prop.
  apply (Hno _ _ Hp). unfold packet_key. rewrite Hpay, Hboot. repeat f_equal.
  change MAX_UINT32 with (Z.ones 32) in *. rewrite Z.land_ones in Hz by lia.
  change (Z.ones 32) with (2 ^ 32 - 1) in *. apply Z.mod_divide in Hz; [|lia]. destruct Hz as [m Hm]. nia.
Qed.

Lemma classify_new_missing s n disposition missing :
  0 <= n -> classify_new s n = Some (disposition, missing) ->
  0 <= missing /\ (disposition <> IN_ORDER -> disposition <> GAP -> disposition <> FIRST -> missing = 0).
Proof.
  intros Hn. unfold classify_new. destruct s as [s|]; cbn zeta; [|intros [= <- <-]; done].
  assert (0 <= Z.land (n - high_water_sequence s) MAX_UINT32) by (apply Z.land_nonneg; right; done).
  repeat case_test; intros [= <- <-]; bool_to_prop; (split; [lia|done]).
Qed.

Lemma accept_existing_step r v p actor w a w' :
  row_at (receipts (db w)) (receipt_id r) = Some r -> validation_status r = PENDING ->
  row_at (packets (db w)) (packet_id p) = Some p ->
  accept_existing r v p actor w = (Ok a, w') -> safe_step (db w) (db w').
Proof.
  intros Hr Hpend Hp Ha Hc. unfold accept_existing in Ha. run_step Ha. cbn in Ha.
  run_step Ha.
  destruct (packet_rows _ Hc _ _ Hp) as (_ & _ & _ & o & Ho & Hov & _ & Hsha). rewrite Ho in Ha.
  destruct (receipt_rows _ Hc _ _ Ho) as (_ & (_ & _ & Hdo) & _).
  destruct (receipt_rows _ Hc _ _ Hr) as (_ & (_ & _ & Hdr) & _).
  case_test_in Ha; apply run_bind_ok in Ha as (u & w1 & Hu & Ha); (apply (safe_trans _ (db w1)); [done| |]).
  - eapply (update_receipt_step _ r); [exact Hu|done|done|by split|]. intros _. unfold status_ok. cbn.
    bool_to_prop. split; [done|]. by exists p, o.
  - revert Ha. apply (safe_bind (job_of_packet _)).
    + intros w2 b w3 Hj. unfold job_of_packet in Hj. run_step Hj. done.
    + intros jo. apply (safe_bind (_audit _ _ _ _ _ _ _ _ _)); auto with safety.
  - eapply (update_receipt_step _ r); [exact Hu|done|done|by split|]. intros _. unfold status_ok. cbn.
    split; [done|]. exists (source_receipt_id p), o. split; [done|]. split; [done|].
    intros Hb. rewrite !bool_decide_eq_true_2 in Htest by congruence. done.
  - revert Ha. apply (safe_bind (_audit _ _ _ _ _ _ _ _ _)); auto with safety.
Qed.

(** The sequence state written for a new packet, next to the stored one. *)
Definition next_state (old : option TelemetrySequenceState) v (pid : string) (disposition : SequenceDisposition)
  (missing : Z) (s' : TelemetrySequenceState) : Prop :=
  (state_payload_id s', state_boot_id s') = (v_payload_id v, v_boot_id v) /\
  match old with
  | None => accepted_packet_count s' = 1 /\ missing_packet_count s' = missing /\
      high_water_sequence s' = v_sequence_number v /\ last_high_water_packet_id s' = pid
  | Some s => accepted_packet_count s' = accepted_packet_count s + 1 /\
      missing_packet_count s' = missing_packet_count s + missing /\
      if bool_decide (disposition = LATE)
      then high_water_sequence s' = high_water_sequence s /\
           last_high_water_packet_id s' = last_high_water_packet_id s
      else high_water_sequence s' = v_sequence_number v /\ last_high_water_packet_id s' = pid
  end.

Lemma save_sequence_state_ok d v pid disposition missing w u w' :
  let old := row_at (sequence_states d) (v_payload_id v, v_boot_id v) in
  sequence_states (db w) = sequence_states d -> consistent d -> 0 <= v_sequence_number v ->
  classify_new old (v_sequence_number v) = Some (disposition, missing) ->
  save_sequence_state old v pid disposition missing w = (Ok u, w') ->
  exists s' t, db w' = set_states t (db w) /\ written (sequence_states d) s' t /\
    next_state old v pid disposition missing s'.
Proof.
  intros old Hst Hc Hseq Hcl Hr. destruct (classify_new_missing _ _ _ _ Hseq Hcl) as [_ Hmiss].
  unfold next_state. destruct old as [s|] eqn:Hs; subst old; cbn in Hr.
  - destruct (state_rows _ Hc _ _ Hs) as (Hkey & _). run_step Hr. run_step Hr. subst.
    cbn in Hup. rewrite Hst in Hup.
    assert (disposition <> FIRST) as Hnf by (intros ->; unfold classify_new in Hcl; by unwind Hcl).
    eexists _, t. split; [done|]. split; [by apply written_update in Hup|].
    destruct disposition; cbn; [done|done|done|].
    split; [done|]. split; [done|]. split; [|done]. rewrite Hmiss by done. rewrite Z.add_0_r. done.
  - run_step Hr. run_step Hr. run_step Hr. subst. cbn in Hin. rewrite Hst in Hin.
    eexists _, t. split; [done|]. split; [by apply written_insert in Hin|]. done.
Qed.

(** A returning run of [accept_new] on consistent tables. *)
Lemma accept_new_run r v n actor w a w' :
  consistent (db w) ->
  row_at (receipts (db w)) (receipt_id r) = Some r -> validation_status r = PENDING -> 0 < n ->
  0 <= v_sequence_number v <= MAX_UINT32 ->
  (forall k p, row_at (packets (db w)) k = Some p ->
    packet_key p <> (v_payload_id v, v_boot_id v, v_sequence_number v)) ->
  accept_new r v n actor w = (Ok a, w') ->
  let old := row_at (sequence_states (db w)) (v_payload_id v, v_boot_id v) in
  exists disp missing r' p s' j tr tp ts tj te,
    classify_new old (v_sequence_number v) = Some (disp, missing) /\
    acceptance (db w) r r' p s' j tr tp ts tj /\
    written (events (db w)) te.1 te.2 /\ row_at (events (db w)) (event_id te.1) = None /\
    db w' = set_events te.2 (accepted_tables (db w) tr tp ts tj) /\
    packet_key p = (v_payload_id v, v_boot_id v, v_sequence_number v) /\
    sequence_disposition p = disp /\ missing_before p = missing /\
    next_state old v (packet_id p) disp missing s' /\ max_attempts j = n /\
    a = {| acceptance_receipt_id := receipt_id r; acceptance_packet_id := Some (packet_id p);
           acceptance_job_id := Some (job_id j); acceptance_validation_status := ACCEPTED;
           acceptance_queue_status := DELIVERY_PENDING_QUEUE; acceptance_disposition := Some disp;
           acceptance_missing_before := missing; duplicate := false; conflict := false;
           acceptance_duplicate_of := None |}.
Proof.
  intros Hc Hr Hpend Hn Hseq Hno Ha old. unfold accept_new in Ha. run_step Ha. cbn in Ha.
  destruct (classify_new_total _ _ Hc Hno Hseq) as [[disp missing] Hcl]. rewrite Hcl in Ha.
  run_step Ha. apply run_bind_ok in Ha as (u & w1 & Hu & Ha). run_step Hu. subst.
  rename t into tp, Hin into Hip, Hfit into Hfitp. cbn in Hip, Hfk.
  apply run_bind_ok in Ha as (u1 & w2 & Hu1 & Ha).
  apply (save_sequence_state_ok (db w)) in Hu1 as (s' & ts & Hd2 & Hws & Hnext); [|done|done|lia|done].
  do 3 (run_step Ha).
  apply run_bind_ok in Ha as (u2 & w3 & Hu2 & Ha). run_step Hu2. subst. rename t into tj, Hin into Hij. cbn in Hij.
  run_step Ha.
  apply run_bind_ok in Ha as (u3 & w4 & Hu3 & Ha). run_step Hu3. subst. rename t into tr, Hup into Hur. cbn in Hur.
  apply run_bind_ok in Ha as (u4 & w5 & Hu4 & Ha). unfold _audit in Hu4. do 3 (run_step Hu4). subst.
  rename t into te, Hin into Hie. apply run_ret_ok in Ha as [<- <-].
  cbn in Hie. rewrite Hd2 in Hij, Hur, Hie. cbn in Hij, Hur, Hie.
  apply insert_checks in Hip as Hpc. apply insert_fresh in Hip as Hpn. apply rows_insert in Hip as Hperm.
  apply insert_fresh in Hij as Hjn. apply insert_fresh in Hie as Hen.
  apply written_insert in Hip, Hij, Hie. apply written_update in Hur.
  pose proof (classify_new_missing _ _ _ _ (proj1 Hseq) Hcl) as [Hm0 _].
  eexists disp, missing, _, _, s', _, tr, tp, ts, tj, (_, te).
  split; [done|]. split.
  - destruct Hnext as [Hkey Hstate].
    constructor; try (exact Hip || exact Hij || exact Hur || exact Hws); try done.
    + unfold fits in Hfitp. cbn in Hfitp. apply andb_true_iff in Hfitp as [Hlen%Z.leb_le _]. exact Hlen.
    + intros q [k Hq]%elem_of_rows He. by apply (Hno _ _ Hq).
    + revert Hstate. unfold old, packet_session. cbn. destruct (row_at (sequence_states (db w)) _); [|done].
      intros (-> & -> & Hmark). split; [done|]. split; [done|]. case_bool_decide; [by right|by left].
  - cbn. rewrite Hd2. split; [exact Hie|]. split; [exact Hen|]. done.
Qed.

Lemma accept_new_step r v n actor w a w' :
  row_at (receipts (db w)) (receipt_id r) = Some r -> validation_status r = PENDING -> 0 < n ->
  0 <= v_sequence_number v <= MAX_UINT32 ->
  (forall k p, row_at (packets (db w)) k = Some p ->
    packet_key p <> (v_payload_id v, v_boot_id v, v_sequence_number v)) ->
  accept_new r v n actor w = (Ok a, w') -> safe_step (db w) (db w').
Proof.
  intros Hr Hpend Hn Hseq Hno Ha Hc.
  destruct (accept_new_run _ _ _ _ _ _ _ Hc Hr Hpend Hn Hseq Hno Ha)
    as (disp & missing & r' & p & s' & j & tr & tp & ts & tj & [e te] & _ & Hacc & Hwe & Hen & -> & _).
  split; [by apply consistent_events, (consistent_accept _ r r' p s' j)|].
  transitivity (accepted_tables (db w) tr tp ts tj); [|by eapply evolves_events].
  destruct Hacc. split; cbn; try (apply keeps_refl; apply _).
  - assert (receipt_id r' = receipt_id r) as Hid by (by injection acc_evidence).
    eapply written_keeps; [apply _|eassumption|cbn; rewrite Hid; exact Hr|]. split; [done|by rewrite Hpend].
  - eapply written_keeps_new; [apply _|exact acc_jobs|done].
  - eapply written_keeps_new; [apply _|exact acc_packets|done].
Qed.

Lemma safe_accept key v n actor : safe (accept_packet_and_create_job key v n actor).
Proof.
  unfold accept_packet_and_create_job. case_test; [apply safe_raise|]. case_test; [apply safe_raise|].
  case_test; [apply safe_raise|]. bool_to_prop.
  assert (0 <= v_sequence_number v <= MAX_UINT32) as Hseq by lia. apply safe_retry; [apply atomic_begin|]. apply safe_begin.
  intros w a w' Hr. run_step Hr. cbn in Hr.
  destruct (row_at (receipts (db w)) key) as [r|] eqn:Hk; [|by run_step Hr].
  case_test_in Hr.
  { unfold replay_acceptance in Hr. apply run_bind_ok in Hr as ([op oj] & w1 & Hpj & Hr).
    apply run_ret_ok in Hr as [_ <-]. destruct (logical_packet_id r).
    - run_step Hpj. unfold job_of_packet in Hpj. run_step Hpj.
      apply run_ret_ok in Hpj as [_ <-]. reflexivity.
    - apply run_ret_ok in Hpj as [_ <-]. reflexivity. }
  case_test_in Hr; [by apply run_raise_ok in Hr|]. bool_to_prop.
  run_step Hr. cbn in Hr. intros Hc.
  pose proof (find_packet _ v Hc) as Hfind. pose proof (receipt_at _ _ _ Hc Hk) as Hat.
  destruct (head _) as [p|].
  - by apply (accept_existing_step _ _ _ _ _ _ _ Hat Htest2 (proj1 Hfind) Hr).
  - by apply (accept_new_step _ _ _ _ _ _ _ Hat Htest2 Htest1 Hseq Hfind Hr).
Qed.

Lemma consistent_start : consistent create_schema.
Proof. split; cbn; intros *; rewrite ?row_at_create; done. Qed.

(** A returning call leaves consistent tables. *)
Lemma safe_world {A} (m : M A) w :
  safe m -> consistent (db w) -> is_ok (m w).1 = true -> consistent (db (m w).2).
Proof.
  intros Hs Hc Hok. destruct (m w) as [[a|e] w'] eqn:Hm; [|done]. by apply (Hs _ _ _ Hm).
Qed.

(** The two identifiers to be drawn next are in no table. *)
Definition fresh_uuids w : Prop :=
  forall i, (uuid_draws w <= i <= S (uuid_draws w))%nat ->
    row_at (receipts (db w)) (uuid4 i) = None /\ row_at (jobs (db w)) (uuid4 i) = None /\
    row_at (events (db w)) (uuid4 i) = None.

End Safe.
