(* ===== verification/RepositoryExample.v ===== *)
(** * A concrete environment and database

    The finite-map engine with a clock that ticks once a second and consecutive version 4 UUIDs,
    and the golden packet of the interface document as a delivery: worlds on which the theorems
    about the repository are evaluated. *)
From Stdlib Require Import SpecFloat.
From S2P Require Import Prelude PyFormat Sha256 Uuid Json Sql Schema Session Repository RepositoryInv RepositorySafe.
From S2P Require Import Codec.

Open Scope Z_scope.

#[export] Existing Instance MapSql.engine.
#[export] Existing Instance MapSql.laws.

#[export] Instance example_env : Env := {|
  clock := fun n => 1_784_203_201_000_000 + 1_000_000 * Z.of_nat n;
  uuid4 := fun n => 0x0b5d1e3a77f14c0e9a51c3d2e4f50000 + Z.of_nat n
|}.

Definition example_raw : bytes := Codec.Codec.golden_raw.
Definition example_values : DecodedTelemetryValues := {|
  v_protocol_version := 1; v_payload_id := 1; v_boot_id := 42; v_sequence_number := 1;
  v_sample_timestamp_us := 1_784_203_200_000_000; v_temperature_centi_c := 2_840; v_voltage_mv := 28_100;
  v_operating_mode := 2; v_fault_flags := 0 |}.

(** The same packet with another body, and the packet after a gap of two. *)
Definition other_raw : bytes := x01 :: x02 :: drop 2 example_raw.
Definition later_values : DecodedTelemetryValues := {|
  v_protocol_version := 1; v_payload_id := 1; v_boot_id := 42; v_sequence_number := 4;
  v_sample_timestamp_us := 1_784_203_203_000_000; v_temperature_centi_c := 2_850; v_voltage_mv := 28_100;
  v_operating_mode := 2; v_fault_flags := 0 |}.

Definition example_request : uuid := 0x7d1b0a5ce2d84d53b4ce4c1e5a0f0001.
Definition example_peer : string := "local-token:vendor-simulator".

Definition empty_world : world := mk_world create_schema 0 0.

(** The receipt identifier drawn by a first delivery, and the job identifier of its acceptance. *)
Definition example_receipt : uuid := uuid4 0.
Definition example_job : uuid := uuid4 2.

Definition deliver_example : M DeliveryRecordResult :=
  record_delivery example_raw example_peer None (Some example_request) (Some "application/octet-stream"%string)
    None None None.
Definition accept_example : M PacketAcceptanceResult :=
  accept_packet_and_create_job example_receipt example_values 3 "ground-api".

Definition delivered_world : world := (deliver_example empty_world).2.
Definition accepted_world : world := (accept_example delivered_world).2.
Definition queued_world : world := (mark_job_queued example_job "message" "ground-api" accepted_world).2.
Definition claimed_world : world := (claim_processing_job example_job "worker-1" 60 queued_world).2.

Definition example_result : ProcessingResultValues := {|
  r_temperature_c := SFdiv 53 1024 (binary_normalize 53 1024 2_840 0 false) (binary_normalize 53 1024 100 0 false);
  r_voltage_v := SFdiv 53 1024 (binary_normalize 53 1024 28_100 0 false) (binary_normalize 53 1024 1_000 0 false);
  r_operating_mode := "SCIENCE"; r_fault_names := []; r_classification := NOMINAL; r_is_stale := false;
  r_processor_version := "telemetry-v1" |}.
Definition completed_world : world := (complete_processing_job example_job example_result "worker-1" None claimed_world).2.

Example example_accepted :
  (accept_example delivered_world).1 = Ok {|
    acceptance_receipt_id := example_receipt; acceptance_packet_id := Some "TLM-P01-B0000002A-S00000001"%string;
    acceptance_job_id := Some example_job; acceptance_validation_status := ACCEPTED;
    acceptance_queue_status := DELIVERY_PENDING_QUEUE; acceptance_disposition := Some FIRST;
    acceptance_missing_before := 1; duplicate := false; conflict := false; acceptance_duplicate_of := None |}.
Proof. vm_compute. reflexivity. Qed.

Example example_completed :
  job_state <$> row_at (jobs (db completed_world)) example_job = Some COMPLETE.
Proof. vm_compute. reflexivity. Qed.

(** ** The example worlds are consistent *)

Lemma empty_consistent : consistent (db empty_world).
Proof. apply consistent_start. Qed.
Lemma delivered_consistent : consistent (db delivered_world).
Proof. apply safe_world; [apply safe_record_delivery|apply empty_consistent|by vm_compute]. Qed.
Lemma accepted_consistent : consistent (db accepted_world).
Proof. apply safe_world; [apply safe_accept|apply delivered_consistent|by vm_compute]. Qed.
Lemma queued_consistent : consistent (db queued_world).
Proof. apply safe_world; [apply safe_mark_queued|apply accepted_consistent|by vm_compute]. Qed.
Lemma claimed_consistent : consistent (db claimed_world).
Proof. apply safe_world; [apply safe_claim|apply queued_consistent|by vm_compute]. Qed.
Lemma completed_consistent : consistent (db completed_world).
Proof. apply safe_world; [apply safe_complete|apply claimed_consistent|by vm_compute]. Qed.

(** The identifiers drawn later are larger than those in the tables. *)
Definition keys_below {R} (n : nat) (t : gmap uuid R) : bool :=
  forallb (fun kr => kr.1 <? uuid4 n) (map_to_list t).

Lemma keys_below_fresh {R} n i (t : gmap uuid R) : keys_below n t = true -> (n <= i)%nat -> t !! uuid4 i = None.
Proof.
  intros Hb Hi. destruct (t !! uuid4 i) as [r|] eqn:Ht; [|done]. exfalso.
  apply elem_of_map_to_list, list_elem_of_In in Ht. unfold keys_below in Hb. rewrite forallb_forall in Hb.
  specialize (Hb _ Ht). cbn in Hb. bool_to_prop. lia.
Qed.

Lemma fresh_example w :
  keys_below (uuid_draws w) (receipts (db w)) && keys_below (uuid_draws w) (jobs (db w)) &&
  keys_below (uuid_draws w) (events (db w)) = true -> fresh_uuids w.
Proof.
  intros [[Hr Hj]%andb_true_iff He]%andb_true_iff i Hi. repeat split; (eapply keys_below_fresh; [done|lia]).
Qed.
