(* ===== verification/RepositoryAccept.v ===== *)
(** * Acceptance refines the sequence algorithm

    [storage.py] classifies a packet with its own code, next to the pure algorithm of
    [sequence.py].  A stored boot session represents a session of Sequence.v; an acceptance takes
    the decision of [decide_sequence] and stores the session it leaves. *)
From S2P Require Import Prelude PyFormat Sha256 Uuid Json Sql Schema Session Repository RepositoryInv RepositorySafe RepositoryExample.
From S2P Require Import Codec Sequence.

Open Scope Z_scope.

Module Seq := Sequence.Sequence.

Section Accept.
Context `{SqlEngine} `{!SqlLaws} `{Env}.
Implicit Types (w : world) (d : database).

(** ** Abstraction *)

(** The session [key] has a packet number [n] whose evidence is [raw]. *)
Definition stored_packet d (key : Z * Z) (n : Z) (raw : bytes) : Prop :=
  exists p r, row_at (packets d) (packet_id p) = Some p /\ packet_key p = (key, n) /\
    row_at (receipts d) (source_receipt_id p) = Some r /\ raw_body r = raw.

Record represents d (key : Z * Z) (s : Seq.session) : Prop := {
  rep_mark : Seq.high_water s = high_water_sequence <$> row_at (sequence_states d) key;
  rep_packets n raw : Seq.packets s !! n = Some raw <-> stored_packet d key n raw
}.

(** The result of an acceptance reports the decision. *)
Definition reports (dec : Seq.SequenceDecision) (res : PacketAcceptanceResult) : Prop :=
  match Seq.disposition dec with
  | Seq.DUPLICATE => acceptance_validation_status res = DUPLICATE /\ duplicate res = true /\ conflict res = false
  | Seq.CONFLICT => acceptance_validation_status res = CONFLICT /\ duplicate res = false /\ conflict res = true /\
      acceptance_job_id res = None
  | dsp =>
      acceptance_validation_status res = ACCEPTED /\ duplicate res = false /\ conflict res = false /\
      is_Some (acceptance_job_id res) /\ acceptance_missing_before res = Seq.missing_count dec /\
      acceptance_disposition res = Some
        match dsp with Seq.IN_ORDER => IN_ORDER | Seq.GAP => GAP | Seq.LATE_OR_OUT_OF_ORDER => LATE | _ => FIRST end
  end.

(** ** Lemmas *)

Lemma stored_packet_unique d key n raw raw' :
  consistent d -> stored_packet d key n raw -> stored_packet d key n raw' -> raw = raw'.
Proof.
  intros Hc (p & r & Hp & Hk & Hr & <-) (p' & r' & Hp' & Hk' & Hr' & <-).
  assert (packet_id p = packet_id p') as He by (eapply packet_unique; [done..|congruence]).
  rewrite He, Hp' in Hp. injection Hp as ->. congruence.
Qed.

(** The decision for a new packet is the classification of the stored code. *)
Lemma classify_new_decides old n disp missing :
  classify_new old n = Some (disp, missing) ->
  exists dec, Seq.decide_new (high_water_sequence <$> old) n = Ok dec /\ Seq.missing_count dec = missing /\
    Seq.is_unique dec = true /\
    Seq.next_high_water dec =
      (if bool_decide (disp = LATE) then high_water_sequence <$> old else Some n) /\
    match Seq.disposition dec with
    | Seq.FIRST_IN_ORDER | Seq.FIRST_WITH_GAP => disp = FIRST
    | Seq.IN_ORDER => disp = IN_ORDER
    | Seq.GAP => disp = GAP
    | Seq.LATE_OR_OUT_OF_ORDER => disp = LATE
    | _ => False
    end.
Proof.
  unfold classify_new, Seq.decide_new. destruct old as [s|]; cbn [fmap option_fmap option_map].
  - cbn zeta. change MAX_UINT32 with (Z.ones 32). rewrite Z.land_ones by lia.
    change Seq.UINT32_MODULUS with (2 ^ 32).
    set (fd := (n - high_water_sequence s) mod 2 ^ 32).
    assert (0 <= fd) by (apply Z.mod_pos_bound; lia).
    change HALF_UINT32_RANGE with Seq.HALF_RANGE.
    destruct (Z.eqb_spec fd 0) as [|Hfd0]; [done|]. destruct (Z.eqb_spec fd 1) as [|Hfd1].
    { intros [= <- <-]. by eexists. }
    destruct (Z.leb_spec 2 fd); [|lia]. cbn [andb].
    destruct (fd <? Seq.HALF_RANGE); intros [= <- <-]; by eexists.
  - intros [= <- <-]. eexists. split; [done|]. cbn. by destruct (n =? 0).
Qed.

(** Writing other rows leaves a represented session as it is. *)
Lemma represents_mono d d' key s :
  keeps receipt_evolves (receipts d) (receipts d') ->
  packets d' = packets d -> sequence_states d' = sequence_states d ->
  consistent d -> represents d key s -> represents d' key s.
Proof.
  intros Hr Hp Hs Hc [Hm Hpk]. split; [by rewrite Hs|]. intros n raw. rewrite Hpk.
  split; intros (p & r & Hrow & Hk & Hsrc & <-).
  - destruct (Hr _ _ Hsrc) as (r' & Hr' & He & _). exists p, r'. rewrite Hp.
    split_and!; try done. by apply evidence_body.
  - rewrite Hp in Hrow. destruct (packet_rows _ Hc _ _ Hrow) as (_ & _ & _ & q & Hq & _).
    destruct (Hr _ _ Hq) as (q' & Hq' & He & _). rewrite Hsrc in Hq'. injection Hq' as <-.
    exists p, q. split_and!; try done. symmetry. by apply evidence_body.
Qed.

(** An acceptance adds one packet to its session and none to the others. *)
Lemma acceptance_stored d r r' p st' j tr tp ts tj d' key n raw :
  consistent d -> acceptance d r r' p st' j tr tp ts tj -> packets d' = tp -> receipts d' = tr ->
  stored_packet d' key n raw <->
  (packet_key p = (key, n) /\ raw = raw_body r) \/ stored_packet d key n raw.
Proof.
  intros Hc Hacc Hp' Hr'. destruct Hacc.
  assert (receipt_id r' = receipt_id r) as Hid by (by injection acc_evidence).
  assert (keeps receipt_evolves (receipts d) tr) as Hkeep.
  { eapply written_keeps; [apply _|exact acc_receipts|cbn; rewrite Hid; exact acc_stored|].
    split; [done|by rewrite acc_pending]. }
  unfold stored_packet. rewrite Hp', Hr'. split.
  - intros (q & x & [(_ & ->)|(_ & Hq)]%(written_inv _ _ _ _ _ acc_packets) & Hk & Hx & <-).
    + left. split; [done|]. rewrite acc_source, <- Hid in Hx.
      pose proof (written_at _ _ _ acc_receipts) as Hat. cbn in Hat. rewrite Hat in Hx. injection Hx as <-.
      by apply evidence_body.
    + right. destruct (packet_rows _ Hc _ _ Hq) as (_ & _ & _ & y & Hy & _).
      destruct (Hkeep _ _ Hy) as (y' & Hy' & He & _). rewrite Hx in Hy'. injection Hy' as <-.
      exists q, y. split_and!; try done. symmetry. by apply evidence_body.
  - intros [[Hk ->]|(q & x & Hq & Hk & Hx & <-)].
    + exists p, r'. split; [by apply (written_at _ _ _ acc_packets)|]. split; [done|].
      split; [rewrite acc_source, <- Hid; by apply (written_at _ _ _ acc_receipts)|by apply evidence_body].
    + destruct (Hkeep _ _ Hx) as (x' & Hx' & He & _). exists q, x'.
      rewrite acc_packets. destruct (decide _) as [He'|]; [cbn in He'; congruence|].
      split_and!; try done. by apply evidence_body.
Qed.

(** ** Returning runs *)

(** The result for a key that already has packet [p], whose job is [job]. *)
Definition existing_result (r : TelemetryDeliveryReceipt) (p : LogicalTelemetryPacket)
  (exact : bool) (job : option TelemetryProcessingJob) : PacketAcceptanceResult := {|
  acceptance_receipt_id := receipt_id r;
  acceptance_packet_id := Some (packet_id p);
  acceptance_job_id := if exact then job_id <$> job else None;
  acceptance_validation_status := if exact then DUPLICATE else CONFLICT;
  acceptance_queue_status :=
    if exact then from_option (fun j => job_state_to_queue_status (job_state j)) NOT_APPLICABLE job else NOT_APPLICABLE;
  acceptance_disposition := if exact then Some (sequence_disposition p) else None;
  acceptance_missing_before := if exact then missing_before p else 0;
  duplicate := exact; conflict := negb exact;
  acceptance_duplicate_of := Some (source_receipt_id p) |}.

Lemma accept_existing_run r v p actor w a w' :
  consistent (db w) -> row_at (receipts (db w)) (receipt_id r) = Some r ->
  row_at (packets (db w)) (packet_id p) = Some p -> validation_status r = PENDING ->
  accept_existing r v p actor w = (Ok a, w') ->
  exists o r' t te, row_at (receipts (db w)) (source_receipt_id p) = Some o /\
    receipt_evolves r r' /\ written (receipts (db w)) r' t /\
    db w' = set_events te (set_receipts t (db w)) /\
    let exact := bool_decide (raw_body o = raw_body r) in
    validation_status r' = (if exact then DUPLICATE else CONFLICT) /\
    logical_packet_id r' = Some (packet_id p) /\ duplicate_of_receipt_id r' = Some (source_receipt_id p) /\
    a = existing_result r p exact
          (head (List.filter (fun j => bool_decide (job_packet_id j = packet_id p)) (rows (jobs (db w))))).
Proof.
  intros Hc Hr Hp Hpend Ha. unfold accept_existing in Ha. run_step Ha. cbn in Ha. run_step Ha.
  destruct (packet_rows _ Hc _ _ Hp) as (_ & _ & _ & o & Ho & _ & _ & Hsha). rewrite Ho in Ha.
  destruct (receipt_rows _ Hc _ _ Ho) as (_ & (_ & _ & Hdo) & _).
  destruct (receipt_rows _ Hc _ _ Hr) as (_ & (_ & _ & Hdr) & _).
  assert (bool_decide (raw_sha256 p = body_sha256 r) && bool_decide (raw_body o = raw_body r) =
          bool_decide (raw_body o = raw_body r)) as Hexact.
  { destruct (decide (raw_body o = raw_body r)) as [Hb|Hb].
    - rewrite (bool_decide_eq_true_2 (_ = body_sha256 r)); [done|congruence].
    - by rewrite (bool_decide_eq_false_2 (raw_body o = _)), andb_false_r by done. }
  rewrite Hexact in Ha. exists o.
  case_test_in Ha; apply run_bind_ok in Ha as (u & w1 & Hu & Ha); run_step Hu; subst; apply written_update in Hup.
  - apply run_bind_ok in Ha as (jo & w2 & Hj & Ha). unfold job_of_packet in Hj. run_step Hj.
    apply run_bind_ok in Ha as (u' & w3 & Hu & Ha). unfold _audit in Hu. do 3 (run_step Hu). subst.
    apply run_ret_ok in Ha as [<- <-]. eexists _, t, _. split; [done|]. split; [|split; [exact Hup|done]].
    split; [done|by rewrite Hpend].
  - apply run_bind_ok in Ha as (u' & w3 & Hu & Ha). unfold _audit in Hu. do 3 (run_step Hu). subst.
    apply run_ret_ok in Ha as [<- <-]. eexists _, t, _. split; [done|]. split; [|split; [exact Hup|done]].
    split; [done|by rewrite Hpend].
Qed.

(** Accepting a pending receipt runs one of the two branches on the same tables. *)
Lemma accept_run key v n actor w res w' r :
  accept_packet_and_create_job key v n actor w = (Ok res, w') ->
  row_at (receipts (db w)) key = Some r -> validation_status r = PENDING ->
  0 <= v_sequence_number v <= MAX_UINT32 /\ 0 < n /\
  exists w1, db w1 = db w /\
    match head (List.filter (same_source_key v) (rows (packets (db w)))) with
    | Some p => accept_existing r v p actor w1 = (Ok res, w')
    | None => accept_new r v n actor w1 = (Ok res, w')
    end.
Proof.
  intros Ha Hk Hpend. unfold accept_packet_and_create_job in Ha. unwind Ha. bool_to_prop.
  split; [lia|]. split; [done|].
  apply run_retry_ok in Ha as (w1 & Hd & Ha); [|apply atomic_begin]. exists w1. split; [done|].
  unfold _accept_packet_transaction in Ha. run_step Ha. cbn in Ha. rewrite Hd, Hk, Hpend in Ha.
  rewrite (bool_decide_eq_false_2 (PENDING = ACCEPTED)), (bool_decide_eq_false_2 (PENDING = DUPLICATE)),
    (bool_decide_eq_true_2 (PENDING = PENDING)) in Ha by done. cbn in Ha.
  run_step Ha. cbn in Ha. rewrite ?Hd in Ha. by destruct (head _).
Qed.

(** ** Runs that succeed *)

Lemma audit_total service event actor out why r p j data w :
  fits_column (64, Some service) = true -> fits_column (128, Some event) = true ->
  Z.of_nat (String.length actor) <= 512 -> fits_column (64, Some out) = true -> fits_column (64, p) = true ->
  present_if (receipts (db w)) r = true -> present_if (packets (db w)) p = true ->
  present_if (jobs (db w)) j = true -> row_at (events (db w)) (uuid4 (uuid_draws w)) = None ->
  exists w', _audit service event actor out why r p j data w = (Ok tt, w').
Proof.
  intros Hfs Hfe Hfa Hfo Hfp Hr Hp Hj Hn. unfold _audit.
  do 2 (erewrite run_bind by done; cbn beta).
  match goal with |- context [session_add ?e ?w1] => destruct (add_total e w1) as (t & _ & ->) end;
    [solve_fits| |done|done|done|eauto].
  cbn. by rewrite Hr, Hp, Hj.
Qed.

Lemma present_row `{Countable K} {R} (t : table K R) k r : row_at t k = Some r -> present t k = true.
Proof. intros Hk. unfold present. rewrite Hk. by apply bool_decide_eq_true_2. Qed.

Lemma job_of_packet_run p w :
  job_of_packet p w = (Ok (head (List.filter (fun j => bool_decide (job_packet_id j = p)) (rows (jobs (db w))))), w).
Proof. done. Qed.

Lemma accept_existing_total r v p actor w :
  consistent (db w) -> fresh_uuids w -> row_at (receipts (db w)) (receipt_id r) = Some r ->
  row_at (packets (db w)) (packet_id p) = Some p -> Z.of_nat (String.length actor) <= 512 ->
  exists res w', accept_existing r v p actor w = (Ok res, w').
Proof.
  intros Hc Hf Hr Hp Hactor. pose proof (packet_names _ Hc _ (ex_intro _ p Hp)) as Hname. unfold accept_existing. erewrite run_bind by done. cbn beta zeta.
  erewrite run_bind by done. cbn beta zeta.
  destruct (receipt_rows _ Hc _ _ Hr) as (_ & (Hsz & Hmax & _) & _).
  destruct (Hf (uuid_draws w) ltac:(lia)) as (_ & _ & He).
  assert (forall q, receipt_id q = receipt_id r -> raw_body_size q = raw_body_size r -> checks q = true) as Hchk.
  { intros q _ Hq. cbn. rewrite Hq. apply andb_true_iff. split; apply Z.leb_le; lia. }
  assert (forall t q, update_row (receipts (db w)) q = Some t -> receipt_id q = receipt_id r ->
    present t (receipt_id r) = true) as Hpres.
  { intros t q Hu <-. apply (present_row t (receipt_id q) q). exact (row_at_updated _ _ _ Hu). }
  case_test.
  all: match goal with |- context [session_update ?q ≫= _] =>
    match goal with |- context [(session_update q ≫= _) ?w1] =>
      destruct (update_total r q w1) as (t & Hup & Hrun); [exact Hr|solve_fits_changed|by apply Hchk|done|];
      rewrite (run_bind _ _ _ _ _ Hrun) end end.
  - rewrite (run_bind _ _ _ _ _ (job_of_packet_run _ _)).
    match goal with |- context [(_audit ?a ?b ?c ?d ?e ?f ?g ?h ?i ≫= _) ?w1] =>
      destruct (audit_total a b c d e f g h i w1) as [w' Hrun'] end; [done|done|done|done|by apply short_fits|..].
    + by eapply Hpres.
    + by eapply present_row.
    + cbn. destruct (List.filter _ _) as [|j l] eqn:Hl; [done|]. cbn.
      assert (In j (j :: l)) as Hin by (by left). rewrite <- Hl in Hin. apply filter_In in Hin as [Hin _].
      apply list_elem_of_In, elem_of_rows in Hin as [k Hk]. eapply present_row. by eapply job_at.
    + exact He.
    + rewrite (run_bind _ _ _ _ _ Hrun'). eauto.
  - match goal with |- context [(_audit ?a ?b ?c ?d ?e ?f ?g ?h ?i ≫= _) ?w1] =>
      destruct (audit_total a b c d e f g h i w1) as [w' Hrun'] end; [done|done|done|done|by apply short_fits|..].
    + by eapply Hpres.
    + by eapply present_row.
    + done.
    + exact He.
    + rewrite (run_bind _ _ _ _ _ Hrun'). eauto.
Qed.

Lemma packet_text_values v :
  values_packet_id v = Codec.Codec.packet_id_text (v_payload_id v) (v_boot_id v) (v_sequence_number v).
Proof. done. Qed.

(** A source key without a packet has an unused packet identifier. *)
Lemma packet_id_unused d v :
  consistent d -> 0 <= v_payload_id v -> 0 <= v_boot_id v -> 0 <= v_sequence_number v ->
  (forall k p, row_at (packets d) k = Some p -> packet_key p <> (v_payload_id v, v_boot_id v, v_sequence_number v)) ->
  row_at (packets d) (values_packet_id v) = None.
Proof.
  intros Hc Hp Hb Hs Hno. destruct (row_at (packets d) (values_packet_id v)) as [p|] eqn:Hrow; [|done].
  destruct (packet_rows _ Hc _ _ Hrow) as (Hid & [Hchk Htext] & _). exfalso. apply (Hno _ _ Hrow).
  rewrite Hid, packet_text_values in Htext. cbn in Hchk. bool_to_prop.
  apply Codec.Codec.packet_id_text_inj in Htext as (-> & -> & ->); [done|lia..].
Qed.

Lemma save_sequence_state_total d v pid disposition missing w :
  let old := row_at (sequence_states d) (v_payload_id v, v_boot_id v) in
  consistent d -> sequence_states (db w) = sequence_states d ->
  0 < v_payload_id v -> 0 < v_boot_id v -> 0 <= v_sequence_number v <= MAX_UINT32 ->
  present (packets (db w)) pid = true -> Z.of_nat (String.length pid) <= 64 ->
  exists w', save_sequence_state old v pid disposition missing w = (Ok tt, w') /\ uuid_draws w' = uuid_draws w.
Proof.
  intros old Hc Hst Hp Hb Hs Hpid Hname. unfold save_sequence_state. destruct old as [s|] eqn:Hold; subst old.
  - destruct (state_rows _ Hc _ _ Hold) as ([= Hpay Hboot] & (q & Hq & _ & Hqn) & _).
    destruct (packet_rows _ Hc _ _ Hq) as (_ & [Hchk _] & _). cbn in Hchk. bool_to_prop.
    pure_next. match goal with |- context [session_update ?x ?w1] => destruct (update_total s x w1) as (t & _ & ->) end.
    + cbn. rewrite Hst. by case_test; cbn; rewrite Hpay, Hboot.
    + case_test; solve_fits_changed.
    + cbn. case_test; cbn; rewrite Hpay, Hboot; repeat (apply andb_true_iff; split); apply Z.leb_le || apply Z.ltb_lt; lia.
    + done.
    + eauto.
  - do 2 pure_next.
    match goal with |- context [session_add ?x ?w1] => destruct (add_total x w1) as (t & _ & ->) end; [solve_fits|done| | |done|eauto].
    + cbn. by rewrite Hst.
    + cbn. repeat (apply andb_true_iff; split); apply Z.leb_le || apply Z.ltb_lt; lia.
Qed.

Lemma accept_new_total r v n actor w :
  consistent (db w) -> fresh_uuids w -> row_at (receipts (db w)) (receipt_id r) = Some r ->
  validation_status r = PENDING -> 0 < v_payload_id v -> 0 < v_boot_id v ->
  0 <= v_sequence_number v <= MAX_UINT32 -> 0 < n ->
  Z.of_nat (String.length (values_packet_id v)) <= 64 -> Z.of_nat (String.length actor) <= 512 ->
  (forall k p, row_at (packets (db w)) k = Some p ->
    packet_key p <> (v_payload_id v, v_boot_id v, v_sequence_number v)) ->
  exists res w', accept_new r v n actor w = (Ok res, w').
Proof.
  intros Hc Hf Hr Hpend Hpay Hboot Hseq Hn Hname Hactor Hno. unfold accept_new. cbn zeta. pure_next.
  destruct (classify_new_total _ _ Hc Hno Hseq) as [[disp missing] Hcl]. cbn. rewrite Hcl.
  pose proof (packet_id_unused (db w) v Hc ltac:(lia) ltac:(lia) ltac:(lia) Hno) as Hunused.
  destruct (receipt_rows _ Hc _ _ Hr) as (_ & (Hsz & Hmax & _) & _).
  destruct (Hf (uuid_draws w) ltac:(lia)) as (_ & Hjob & _).
  destruct (Hf (S (uuid_draws w)) ltac:(lia)) as (_ & _ & Hev).
  pure_next.
  match goal with |- context [(session_add ?x ≫= _) ?w1] => destruct (add_total x w1) as (tp & Htp & Hrun) end.
  - solve_fits.
  - by eapply present_row.
  - done.
  - cbn. repeat (apply andb_true_iff; split); apply Z.leb_le || apply Z.ltb_lt; lia.
  - cbn. intros q [k Hq]%elem_of_rows. apply orb_false_iff. split.
    + apply bool_decide_eq_false_2. intros He. by apply (Hno _ _ Hq).
    + apply Z.eqb_neq. intros He. destruct (packet_rows _ Hc _ _ Hq) as (_ & _ & _ & x & Hx & Hxv & _).
      rewrite <- He, Hr in Hx. congruence.
  - run_next Hrun. apply row_at_inserted in Htp as Hpin. cbn in Hpin.
    match goal with |- context [(save_sequence_state ?a ?b ?c ?d ?e ≫= _) ?w1] =>
      destruct (save_sequence_state_total (db w) b c d e w1) as (w2 & Hrun2 & Hdraw); try done end;
      [by eapply present_row|].
    apply (save_sequence_state_ok (db w)) in Hrun2 as Hok; [|done|done|lia|done].
    destruct Hok as (s' & ts & Hd2 & _). cbn in Hd2, Hdraw. cbn in Hrun2 |- *. run_next Hrun2. cbn beta.
    do 3 pure_next.
    match goal with |- context [(session_add ?x ≫= _) ?w1] => destruct (add_total x w1) as (tj & Htj & Hrun3) end.
    + solve_fits.
    + cbn. rewrite Hd2. by eapply present_row.
    + cbn. by rewrite Hd2, Hdraw.
    + cbn. by apply Z.ltb_lt.
    + cbn. rewrite Hd2. intros q [k Hq]%elem_of_rows. apply bool_decide_eq_false_2. intros He.
      destruct (job_rows _ Hc _ _ Hq) as (_ & _ & [x Hx]). rewrite <- He in Hx. cbn in Hunused. congruence.
    + run_next Hrun3. pure_next. apply row_at_inserted in Htj as Hjin. cbn in Hjin.
      match goal with |- context [(session_update ?x ≫= _) ?w1] => destruct (update_total r x w1) as (tr & Htr & Hrun4) end.
      * cbn. by rewrite Hd2.
      * solve_fits_changed.
      * cbn. apply andb_true_iff. split; apply Z.leb_le; lia.
      * done.
      * run_next Hrun4. apply row_at_updated in Htr as Hrin. cbn in Hrin.
        match goal with |- context [(_audit ?a ?b ?c ?d ?e ?f ?g ?h ?i ≫= _) ?w1] =>
          destruct (audit_total a b c d e f g h i w1) as [w' Hrun5] end; [done|done|done|done|by apply short_fits|..].
        -- by eapply present_row.
        -- cbn. rewrite Hd2. by eapply present_row.
        -- by eapply present_row.
        -- cbn. by rewrite Hd2, Hdraw.
        -- run_next Hrun5. eauto.
Qed.

(** ** Settled deliveries *)

(** Delivery [key] is accepted or a duplicate, and [res] reports its packet and job. *)
Definition settled d (key : uuid) (res : PacketAcceptanceResult) : Prop :=
  exists r p j, row_at (receipts d) key = Some r /\
    (validation_status r = ACCEPTED \/ validation_status r = DUPLICATE) /\
    logical_packet_id r = Some (packet_id p) /\ row_at (packets d) (packet_id p) = Some p /\
    row_at (jobs d) (job_id j) = Some j /\ job_packet_id j = packet_id p /\
    acceptance_receipt_id res = key /\ acceptance_packet_id res = Some (packet_id p) /\
    acceptance_job_id res = Some (job_id j) /\ acceptance_validation_status res = validation_status r /\
    acceptance_disposition res = Some (sequence_disposition p) /\
    acceptance_missing_before res = missing_before p /\
    acceptance_duplicate_of res = duplicate_of_receipt_id r.

(** What a caller can tell two results of the same delivery apart by, the queue status aside. *)
Definition same_outcome (a b : PacketAcceptanceResult) : Prop :=
  acceptance_packet_id a = acceptance_packet_id b /\ acceptance_job_id a = acceptance_job_id b /\
  acceptance_validation_status a = acceptance_validation_status b /\
  acceptance_disposition a = acceptance_disposition b /\
  acceptance_missing_before a = acceptance_missing_before b /\
  acceptance_duplicate_of a = acceptance_duplicate_of b.

Lemma settled_evolves d d' key res : evolves d d' -> settled d key res -> settled d' key res.
Proof.
  intros He (r & p & j & Hr & Hst & Hl & Hp & Hj & Hjp & Hrest).
  destruct (receipts_evolve _ _ He _ _ Hr) as (r' & Hr' & _ & Hfin).
  destruct (Hfin ltac:(destruct Hst; congruence)) as (Hv & _ & Hl' & Hd & _).
  destruct (packets_kept _ _ He _ _ Hp) as (p' & Hp' & <-).
  destruct (jobs_evolve _ _ He _ _ Hj) as (j' & Hj' & Hji & Hjp' & _).
  exists r', p, j'. rewrite Hji, Hjp', Hv, Hl', Hd. done.
Qed.

(** The job look-up of a packet finds its one job. *)
Lemma find_job d p j :
  consistent d -> row_at (jobs d) (job_id j) = Some j -> job_packet_id j = p ->
  head (List.filter (fun j => bool_decide (job_packet_id j = p)) (rows (jobs d))) = Some j.
Proof.
  intros Hc Hj Hp. destruct (List.filter _ _) as [|j' l] eqn:Hl.
  - assert (In j []) as []. rewrite <- Hl. apply filter_In. split; [|by apply bool_decide_eq_true_2].
    apply list_elem_of_In, elem_of_rows. eauto.
  - assert (In j' (j' :: l)) as Hin by (by left). rewrite <- Hl in Hin. apply filter_In in Hin as [Hin Hpj].
    apply bool_decide_eq_true in Hpj. apply list_elem_of_In, elem_of_rows in Hin as [k Hk].
    assert (k = job_id j) as -> by (eapply job_unique; [done..|congruence]). cbn. congruence.
Qed.

Lemma settled_functional d key a b : consistent d -> settled d key a -> settled d key b -> same_outcome a b.
Proof.
  intros Hc (r & p & j & Hr & _ & Hl & Hpk & Hj & Hjp & _ & ? & ? & ? & ? & ? & ?)
    (r' & p' & j' & Hr' & _ & Hl' & Hpk' & Hj' & Hjp' & _ & ? & ? & ? & ? & ? & ?).
  assert (r' = r) as -> by congruence. assert (packet_id p' = packet_id p) as Hp by congruence.
  assert (job_id j' = job_id j) as Hji by (eapply job_unique; [done..|congruence]).
  assert (p' = p) as -> by congruence. unfold same_outcome. split_and!; congruence.
Qed.

Lemma replay_settled r w :
  consistent (db w) -> row_at (receipts (db w)) (receipt_id r) = Some r ->
  (validation_status r = ACCEPTED \/ validation_status r = DUPLICATE) ->
  exists res, replay_acceptance r w = (Ok res, w) /\ settled (db w) (receipt_id r) res.
Proof.
  intros Hc Hr Hst.
  assert (exists p, row_at (packets (db w)) (packet_id p) = Some p /\ logical_packet_id r = Some (packet_id p)) as (p & Hp & Hl).
  { destruct (receipt_rows _ Hc _ _ Hr) as (_ & _ & Hok). unfold status_ok in Hok.
    destruct Hst as [Hst|Hst]; rewrite Hst in Hok; [destruct Hok as (_ & _ & p & ? & _ & ?)|destruct Hok as (_ & p & o & ? & ? & _)]; eauto. }
  destruct (job_total _ Hc (packet_id p) ltac:(eauto)) as (kj & j & Hj & Hjp).
  pose proof (job_at _ _ _ Hc Hj) as Hj'.
  unfold replay_acceptance. rewrite Hl. eexists. split.
  - erewrite run_bind; [|erewrite run_bind by done; cbn beta; erewrite run_bind by done; cbn beta; done]. cbn.
    rewrite Hp, (find_job _ (packet_id p) j Hc Hj' Hjp). done.
  - exists r, p, j. cbn. by rewrite Hl.
Qed.

Lemma accept_settled_run key v n actor w r :
  0 <= v_sequence_number v <= MAX_UINT32 -> 0 < v_boot_id v -> 0 < n ->
  row_at (receipts (db w)) key = Some r -> (validation_status r = ACCEPTED \/ validation_status r = DUPLICATE) ->
  forall res, replay_acceptance r w = (Ok res, w) -> accept_packet_and_create_job key v n actor w = (Ok res, w).
Proof.
  intros Hseq Hboot Hn Hk Hst res Hrun. unfold accept_packet_and_create_job.
  destruct (Z.leb_spec 0 (v_sequence_number v)); [|lia].
  destruct (Z.leb_spec (v_sequence_number v) MAX_UINT32); [|lia].
  destruct (Z.leb_spec (v_boot_id v) 0); [lia|]. destruct (Z.leb_spec n 0); [lia|]. cbn [andb negb].
  assert (_accept_packet_transaction key v n actor w = (Ok res, w)) as Ht; [|cbn; by rewrite Ht].
  unfold _accept_packet_transaction, session_begin. erewrite run_bind by done. cbn. rewrite Hk.
  destruct (bool_decide (validation_status r = ACCEPTED) || bool_decide (validation_status r = DUPLICATE)) eqn:Htest.
  - by rewrite Hrun.
  - bool_to_prop. by destruct Hst.
Qed.

(** A returned acceptance without conflict settles its delivery. *)
Lemma accept_settles key v n actor w res w' :
  consistent (db w) -> accept_packet_and_create_job key v n actor w = (Ok res, w') -> conflict res = false ->
  settled (db w') key res /\ 0 <= v_sequence_number v <= MAX_UINT32.
Proof.
  intros Hc Ha Hncf. pose proof Ha as Ha'. unfold accept_packet_and_create_job in Ha'. unwind Ha'. bool_to_prop.
  split; [|lia]. apply run_retry_ok in Ha' as (w1 & Hd & Ht); [|apply atomic_begin].
  unfold _accept_packet_transaction in Ht. run_step Ht. cbn in Ht. rewrite Hd in *.
  destruct (row_at (receipts (db w)) key) as [r|] eqn:Hk; [|by run_step Ht].
  assert (receipt_id r = key) as Hid by (by destruct (receipt_rows _ Hc _ _ Hk)).
  case_test_in Ht.
  { destruct (replay_settled r w1) as (res' & Hrun & Hset); [by rewrite Hd|by rewrite Hd, Hid| |].
    { by rewrite orb_true_iff, !bool_decide_eq_true in Htest. }
    rewrite Hrun in Ht. injection Ht as <- <-. by rewrite <- Hid. }
  case_test_in Ht; [by apply run_raise_ok in Ht|].
  assert (validation_status r = PENDING) as Hpend by (bool_to_prop; done).
  destruct (accept_run _ _ _ _ _ _ _ _ Ha Hk Hpend) as (Hseq & Hn & w2 & Hd2 & Hb). clear Ht Ha. rewrite <- Hd2 in *.
  pose proof (find_packet _ v Hc) as Hfind. pose proof (receipt_at _ _ _ Hc Hk) as Hat.
  destruct (head _) as [p|].
  - destruct Hfind as [Hp _].
    destruct (accept_existing_run _ _ _ _ _ _ _ Hc Hat Hp Hpend Hb) as (o & r' & t & te & Ho & Hev & Hw & Hd' & Hval).
    destruct (job_total _ Hc (packet_id p) ltac:(eauto)) as (kj & j & Hj & Hjp).
    pose proof (job_at _ _ _ Hc Hj) as Hj'. rewrite (find_job _ (packet_id p) j Hc Hj' Hjp) in Hval.
    destruct Hval as (Hval & Hl & Hdup & Hres). rewrite Hres in Hncf |- *. cbn in Hncf.
    apply negb_false_iff in Hncf. rewrite Hncf in Hval. rewrite Hncf. clear Hres Hncf.
    exists r', p, j. rewrite Hd'. cbn. rewrite Hval, Hl, Hdup.
    assert (receipt_id r' = receipt_id r) as Hid' by (by destruct Hev as [[=] _]).
    split; [|by eauto 15].
    rewrite <- Hid, <- Hid'. apply (written_at _ _ _ Hw).
  - assert (0 < n) as Hn' by done.
    destruct (accept_new_run _ _ _ _ _ _ _ Hc Hat Hpend Hn Hseq Hfind Hb)
      as (disp & missing & r' & p & s' & j & tr & tp & ts & tj & te & _ & Hacc & _ & _ & Hd' & _ & <- & <- & _ & _ & ->).
    destruct Hacc. exists r', p, j. rewrite Hd'. cbn.
    assert (receipt_id r' = receipt_id r) as Hid' by (by injection acc_evidence).
    split; [rewrite <- Hid, <- Hid'; apply (written_at _ _ _ acc_receipts)|].
    split; [by left|]. split; [done|]. split; [apply (written_at _ _ _ acc_packets)|].
    split; [apply (written_at _ _ _ acc_jobs)|]. split; [done|]. split; [done|]. split; [done|]. split; [done|].
    split; [done|]. split; [done|]. split; [done|]. rewrite acc_original.
    destruct (receipt_rows _ Hc _ _ Hat) as (_ & _ & Hok). unfold status_ok in Hok. rewrite Hpend in Hok.
    by destruct Hok as (_ & -> & _).
Qed.

(** The mark of a represented session is the number of a stored packet. *)
Lemma represents_mark d key s : consistent d -> represents d key s -> Seq.mark_ok (Seq.high_water s).
Proof.
  intros Hc Hrep. rewrite (rep_mark _ _ _ Hrep). destruct (row_at (sequence_states d) key) as [st|] eqn:Hs; [|done].
  destruct (state_rows _ Hc _ _ Hs) as (_ & (q & Hq & _ & Hqn) & _).
  destruct (packet_rows _ Hc _ _ Hq) as (_ & [Hchk _] & _). cbn in Hchk |- *. bool_to_prop.
  change Seq.UINT32_MAX with MAX_UINT32. lia.
Qed.

(** The decision taken, and the sessions left, by an acceptance from [d] to [d']. *)
Definition decides d d' (v : DecodedTelemetryValues) (raw : bytes) (res : PacketAcceptanceResult) (s : Seq.session) : Prop :=
  let key := (v_payload_id v, v_boot_id v) in
  (exists dec s', Seq.deliver s (v_sequence_number v) raw = Ok (dec, s') /\ reports dec res /\ represents d' key s') /\
  (forall other s2, other <> key -> represents d other s2 -> represents d' other s2).

Lemma existing_decides r v p actor w res w' s :
  consistent (db w) -> row_at (receipts (db w)) (receipt_id r) = Some r -> validation_status r = PENDING -> raw_body r <> [] ->
  0 <= v_sequence_number v <= MAX_UINT32 -> represents (db w) (v_payload_id v, v_boot_id v) s ->
  row_at (packets (db w)) (packet_id p) = Some p -> packet_key p = (v_payload_id v, v_boot_id v, v_sequence_number v) ->
  accept_existing r v p actor w = (Ok res, w') -> decides (db w) (db w') v (raw_body r) res s.
Proof.
  intros Hc Hat Hpend Hne Hseq Hrep Hp Hkey Hb. pose proof (represents_mark _ _ _ Hc Hrep) as Hmark.
  destruct (accept_existing_run _ _ _ _ _ _ _ Hc Hat Hp Hpend Hb) as (o & r' & t & te & Ho & Hev & Hw & Hd' & Hval & _ & _ & ->).
  assert (Seq.packets s !! v_sequence_number v = Some (raw_body o)) as Hold.
  { apply (rep_packets _ _ _ Hrep). exists p, o. done. }
  assert (forall x sx, represents (db w) x sx -> represents (db w') x sx) as Hframe.
  { intros x sx. rewrite Hd'. apply represents_mono; [|done|done|done].
    eapply written_keeps; [apply _|exact Hw| |exact Hev]. cbn. destruct Hev as [[= ->] _]. done. }
  split; [|by intros x s2 _; apply Hframe]. unfold Seq.deliver. rewrite Seq.decide_sequence_checked, Hold by done.
  unfold Seq.decide_existing.
  case_bool_decide; (eexists _, _; split; [done|]; split; [done|]; cbn; destruct s; by apply Hframe).
Qed.

Lemma new_decides r v n actor w res w' s :
  consistent (db w) -> row_at (receipts (db w)) (receipt_id r) = Some r -> validation_status r = PENDING -> raw_body r <> [] ->
  0 <= v_sequence_number v <= MAX_UINT32 -> 0 < n -> represents (db w) (v_payload_id v, v_boot_id v) s ->
  (forall k p, row_at (packets (db w)) k = Some p -> packet_key p <> (v_payload_id v, v_boot_id v, v_sequence_number v)) ->
  accept_new r v n actor w = (Ok res, w') -> decides (db w) (db w') v (raw_body r) res s.
Proof.
  intros Hc Hat Hpend Hne Hseq Hn Hrep Hfind Hb. pose proof (represents_mark _ _ _ Hc Hrep) as Hmark.
  unfold decides. set (ses := (v_payload_id v, v_boot_id v)) in *.
  destruct (accept_new_run _ _ _ _ _ _ _ Hc Hat Hpend Hn Hseq Hfind Hb)
    as (disp & missing & r' & p & s' & j & tr & tp & ts & tj & te & Hcl & Hacc & _ & _ & Hd' & Hpk & Hdisp &
        Hmiss & Hnext & _ & ->).
  destruct (classify_new_decides _ _ _ _ Hcl) as (dec & Hdec & Hdm & Huniq & Hnw & Hdd).
  assert (Seq.packets s !! v_sequence_number v = None) as Hnone.
  { apply eq_None_not_Some. intros [raw Hraw]. apply (rep_packets _ _ _ Hrep) in Hraw as (q & x & Hq & Hqk & _).
    by apply (Hfind _ _ Hq). }
  assert (forall x m raw, stored_packet (db w') x m raw <->
    (packet_key p = (x, m) /\ raw = raw_body r) \/ stored_packet (db w) x m raw) as Hstored.
  { intros x m raw. eapply acceptance_stored; [done|exact Hacc|by rewrite Hd'..]. }
  assert (sequence_states (db w') = ts) as Hts by (by rewrite Hd').
  destruct Hnext as [Hsk Hnext]. pose proof (acc_states _ r r' p s' j tr tp ts tj Hacc) as Hws.
  unfold Seq.deliver. rewrite Seq.decide_sequence_checked, Hnone, (rep_mark _ _ _ Hrep) by done.
  fold ses in Hdec. rewrite Hdec. cbn [mbind result_bind]. split.
  - eexists dec, _. split; [done|]. split.
    { unfold reports. cbn. rewrite Hdm. destruct (Seq.disposition dec); try done; rewrite Hdd; done. }
    split; cbn.
    + rewrite Hnw, Hts, Hws. cbn. rewrite Hsk, decide_True by done. cbn. fold ses in Hnext, Hcl |- *.
      destruct (row_at (sequence_states (db w)) ses) as [st|].
      * destruct Hnext as (_ & _ & Hmk). cbn. destruct (bool_decide (disp = LATE)); by destruct Hmk as [-> _].
      * destruct Hnext as (_ & _ & -> & _). unfold classify_new in Hcl. injection Hcl as <- _. done.
    + intros m raw. rewrite Huniq, Hstored, Hpk. fold ses. split.
      * rewrite lookup_insert_Some, (rep_packets _ _ _ Hrep). intros [[<- <-]|[_ Hold]]; [by left|by right].
      * intros [[[= <-] ->]|Hold]; [by rewrite lookup_insert_eq|].
        rewrite lookup_insert_ne; [by apply (rep_packets _ _ _ Hrep)|].
        intros <-. destruct Hold as (q & x & Hq & Hqk & _). by apply (Hfind _ _ Hq).
  - intros x s2 Hx [Hm2 Hp2]. split.
    + rewrite Hm2, Hts, Hws. cbn. rewrite Hsk. by rewrite decide_False.
    + intros m raw. rewrite Hp2, Hstored, Hpk. fold ses. split; [by right|]. intros [[[= ->] _]|]; done.
Qed.

Lemma accept_decides key v n actor w r res w' s :
  consistent (db w) -> row_at (receipts (db w)) key = Some r -> validation_status r = PENDING ->
  raw_body r <> [] -> represents (db w) (v_payload_id v, v_boot_id v) s ->
  accept_packet_and_create_job key v n actor w = (Ok res, w') -> decides (db w) (db w') v (raw_body r) res s.
Proof.
  intros Hc Hk Hpend Hne Hrep Ha.
  destruct (accept_run _ _ _ _ _ _ _ _ Ha Hk Hpend) as (Hseq & Hn & w1 & Hd & Hb). rewrite <- Hd in *. clear Ha Hd.
  pose proof (find_packet _ v Hc) as Hfind. pose proof (receipt_at _ _ _ Hc Hk) as Hat.
  destruct (head _) as [p|]; [destruct Hfind as [Hp Hkey%same_source_key_spec]; by eapply existing_decides|by eapply new_decides].
Qed.

(** C11. Refinement: when a pending receipt is accepted under a source key, the repository takes the
    decision that the pure sequence algorithm takes for the stored mark, the received bytes and the
    stored bytes of that key; its result reports that decision, and the tables it leaves represent
    the session the algorithm leaves.  Every other boot session is untouched. *)
Theorem accept_refines_sequence key v n actor w r res w' s :
  consistent (db w) -> row_at (receipts (db w)) key = Some r -> validation_status r = PENDING ->
  raw_body r <> [] -> represents (db w) (v_payload_id v, v_boot_id v) s ->
  accept_packet_and_create_job key v n actor w = (Ok res, w') ->
  (exists dec s', Seq.deliver s (v_sequence_number v) (raw_body r) = Ok (dec, s') /\
     reports dec res /\ represents (db w') (v_payload_id v, v_boot_id v) s') /\
  (forall other s2, other <> (v_payload_id v, v_boot_id v) -> represents (db w) other s2 ->
     represents (db w') other s2).
Proof. apply accept_decides. Qed.

(** Acceptance returns: on consistent tables, with random identifiers that are not yet in use, a
    pending receipt is accepted, found duplicate or found conflicting for any values with a positive
    payload and boot, a 32-bit sequence number and an identifier that fits its column; no constraint of
    the schema is violated. *)
Theorem accept_total key v n actor w r :
  consistent (db w) -> fresh_uuids w -> row_at (receipts (db w)) key = Some r -> validation_status r = PENDING ->
  0 < v_payload_id v -> 0 < v_boot_id v -> 0 <= v_sequence_number v <= MAX_UINT32 -> 0 < n ->
  Z.of_nat (String.length (values_packet_id v)) <= 64 -> Z.of_nat (String.length actor) <= 512 ->
  exists res w', accept_packet_and_create_job key v n actor w = (Ok res, w') /\
    acceptance_validation_status res ∈ [ACCEPTED; DUPLICATE; CONFLICT] /\ acceptance_packet_id res <> None.
Proof.
  intros Hc Hf Hk Hpend Hpay Hboot Hseq Hn Hname Hactor.
  pose proof (find_packet _ v Hc) as Hfind. pose proof (receipt_at _ _ _ Hc Hk) as Hat.
  assert (exists res w', (match head (List.filter (same_source_key v) (rows (packets (db w)))) with
    | Some p => accept_existing r v p actor
    | None => accept_new r v n actor
    end) w = (Ok res, w') /\ acceptance_validation_status res ∈ [ACCEPTED; DUPLICATE; CONFLICT] /\
    acceptance_packet_id res <> None) as (res & w' & Hrun & Hres).
  { destruct (head _) as [p|].
    - destruct (accept_existing_total r v p actor w Hc Hf Hat (proj1 Hfind) Hactor) as (res & w' & Hrun).
      exists res, w'. split; [done|].
      destruct (accept_existing_run _ _ _ _ _ _ _ Hc Hat (proj1 Hfind) Hpend Hrun) as (o & ? & ? & ? & _ & _ & _ & _ & _ & _ & _ & ->).
      cbn. split; [|done]. case_bool_decide; [by right; left|by right; right; left].
    - destruct (accept_new_total r v n actor w Hc Hf Hat Hpend Hpay Hboot Hseq Hn Hname Hactor Hfind) as (res & w' & Hrun).
      exists res, w'. split; [done|].
      destruct (accept_new_run _ _ _ _ _ _ _ Hc Hat Hpend Hn Hseq Hfind Hrun)
        as (? & ? & ? & p & ? & ? & ? & ? & ? & ? & ? & _ & _ & _ & _ & _ & _ & _ & _ & _ & _ & ->).
      cbn. split; [by left|done]. }
  exists res, w'. split; [|done]. unfold accept_packet_and_create_job.
  destruct (Z.leb_spec 0 (v_sequence_number v)); [|lia].
  destruct (Z.leb_spec (v_sequence_number v) MAX_UINT32); [|lia].
  destruct (Z.leb_spec (v_boot_id v) 0); [lia|]. destruct (Z.leb_spec n 0); [lia|]. cbn [andb negb].
  assert (_accept_packet_transaction key v n actor w = (Ok res, w')) as Ht; [|cbn; by rewrite Ht].
  unfold _accept_packet_transaction, session_begin. erewrite run_bind by done. cbn. rewrite Hk, Hpend.
  rewrite (bool_decide_eq_false_2 (PENDING = ACCEPTED)), (bool_decide_eq_false_2 (PENDING = DUPLICATE)),
    (bool_decide_eq_true_2 (PENDING = PENDING)) by done. cbn. erewrite run_bind by done. cbn.
  destruct (head _); by rewrite Hrun.
Qed.

End Accept.

(** ** Witnesses *)

(** The session of the golden packet after its acceptance. *)
Definition example_session : Seq.session := {| Seq.high_water := Some 1; Seq.packets := {[1 := example_raw]} |}.

Lemma empty_represents key : represents (db delivered_world) key Seq.empty_session.
Proof.
  split; [done|]. intros n raw. split; [intros Hn; cbn in Hn; by rewrite lookup_empty in Hn|].
  intros (p & _ & Hp & _). by vm_compute in Hp.
Qed.

Lemma accept_refines_sequence_witness :
  exists res, accept_example delivered_world = (Ok res, accepted_world) /\
    exists dec s', Seq.deliver Seq.empty_session 1 example_raw = Ok (dec, s') /\ reports dec res /\
      Seq.missing_count dec = 1 /\ represents (db accepted_world) (1, 42) s'.
Proof.
  destruct (accept_example delivered_world) as [[res|e] w1] eqn:Hrun; [|by vm_compute in Hrun].
  assert (w1 = accepted_world) as -> by (unfold accepted_world; by rewrite Hrun).
  destruct (row_at (receipts (db delivered_world)) example_receipt) as [r|] eqn:Hr; [|by vm_compute in Hr].
  assert (validation_status r = PENDING) as Hp by (vm_compute in Hr; by injection Hr as <-).
  assert (raw_body r = example_raw) as Hraw by (vm_compute in Hr; by injection Hr as <-).
  destruct (accept_refines_sequence example_receipt example_values 3 "ground-api"%string delivered_world r res
    accepted_world Seq.empty_session delivered_consistent Hr Hp ltac:(by rewrite Hraw) (empty_represents _) Hrun)
    as [(dec & s' & Hd & Hrep & Hs) _].
  rewrite Hraw in Hd. exists res. split; [reflexivity|]. exists dec, s'. split; [exact Hd|]. split; [exact Hrep|].
  split; [|exact Hs]. vm_compute in Hd. by injection Hd as <- _.
Defined.

Lemma accept_total_witness :
  exists res w', accept_packet_and_create_job example_receipt later_values 5 "ground-api" delivered_world = (Ok res, w') /\
    acceptance_validation_status res ∈ [ACCEPTED; DUPLICATE; CONFLICT] /\ acceptance_packet_id res <> None.
Proof.
  destruct (row_at (receipts (db delivered_world)) example_receipt) as [r|] eqn:Hr; [|by vm_compute in Hr].
  assert (validation_status r = PENDING) as Hp by (vm_compute in Hr; by injection Hr as <-).
  apply (accept_total example_receipt later_values 5 "ground-api" delivered_world r);
    [exact delivered_consistent|by apply fresh_example; vm_compute|exact Hr|exact Hp|
     first [split; vm_compute; discriminate | vm_compute; discriminate | vm_compute; reflexivity]..].
Defined.
