(* ===== verification/RepositoryRecord.v ===== *)
(** * Recording a delivery

    The ledger of canonical request identifiers: which receipt a call of [record_delivery] returns
    or creates. *)
From S2P Require Import Prelude PyFormat Sha256 Uuid Json Sql Schema Session Repository RepositoryInv RepositorySafe RepositoryAccept RepositoryExample.

Open Scope Z_scope.

Section Record.
Context `{SqlEngine} `{!SqlLaws} `{Env}.
Implicit Types (w : world) (d : database).

Lemma first_delivery_total canonical w :
  consistent (db w) ->
  exists o, first_delivery canonical w = (Ok o, w) /\ fst <$> o = canonical ≫= row_at (identities (db w)).
Proof.
  intros Hc. unfold first_delivery. destruct canonical as [q|]; [|by exists None].
  erewrite run_bind by done. cbn. destruct (row_at (identities (db w)) q) as [i|] eqn:Hi; [|by exists None].
  destruct (identity_rows _ Hc _ _ Hi) as (_ & r & Hr & _). erewrite run_bind by done. cbn. rewrite Hr.
  by exists (Some (i, r)).
Qed.

Lemma add_delivery_total raw peer presented canonical content sent at_ first w :
  consistent (db w) -> fresh_uuids w -> Z.of_nat (length raw) <= MAX_EVIDENCE_BODY_BYTES ->
  Z.of_nat (String.length peer) <= 512 -> fits_column (255, content) = true ->
  match first with
  | Some f => row_at (receipts (db w)) (receipt_id f) = Some f
  | None => forall q, canonical = Some q -> row_at (identities (db w)) q = None
  end ->
  exists r w',
    add_delivery raw peer presented canonical content sent (sha256_hexdigest raw) at_ None first w =
      (Ok (delivery_result r false (bool_decide (is_Some first))), w') /\
    receipt_id r = uuid4 (uuid_draws w) /\ row_at (receipts (db w')) (receipt_id r) = Some r /\
    raw_body r = raw /\ body_sha256 r = sha256_hexdigest raw /\ canonical_request_id r = canonical /\
    validation_status r = (if bool_decide (is_Some first) then CONFLICT else PENDING) /\
    duplicate_of_receipt_id r = receipt_id <$> first /\
    (first = None -> forall q, canonical = Some q ->
       exists i, row_at (identities (db w')) q = Some i /\ first_receipt_id i = receipt_id r).
Proof.
  intros Hc Hf Hsize Hpeer Hcontent Hfirst.
  destruct (Hf (uuid_draws w) ltac:(lia)) as (Hkey & _ & _).
  destruct (Hf (S (uuid_draws w)) ltac:(lia)) as (_ & _ & Hev).
  unfold add_delivery. cbn zeta. pure_next.
  match goal with |- context [(session_add ?x ≫= _) ?w1] =>
    set (r := x); destruct (add_total r w1) as (tr & Htr & Hrun) end.
  - solve_fits.
  - cbn. destruct first as [f|]; [|done]. by eapply present_row.
  - done.
  - cbn. apply andb_true_iff. split; apply Z.leb_le; lia.
  - done.
  - run_next Hrun. apply row_at_inserted in Htr as Hin. cbn in Hin.
    assert (exists w2, match canonical, first with
        | Some request, None =>
            session_add {| request_id := request; first_receipt_id := receipt_id r;
                           identity_sha256 := sha256_hexdigest raw; identity_created_at := at_ |}
        | _, _ => mret ()
        end (with_db (set_receipts tr (db w)) (mk_world (db w) (clock_reads w) (S (uuid_draws w)))) = (Ok tt, w2) /\
      receipts (db w2) = tr /\ events (db w2) = events (db w) /\ uuid_draws w2 = S (uuid_draws w) /\
      (first = None -> forall q, canonical = Some q ->
       exists i, row_at (identities (db w2)) q = Some i /\ first_receipt_id i = receipt_id r))
      as (w2 & Hrun2 & Hw2r & Hw2e & Hw2u & Hled).
    { destruct canonical as [q|], first as [f|]; try by eexists.
      match goal with |- context [session_add ?x ?w1] => destruct (add_total x w1) as (ti & Hti & ->) end.
      - solve_fits.
      - cbn. by eapply present_row.
      - cbn. by apply Hfirst.
      - done.
      - cbn. intros i [k Hi]%elem_of_rows. apply Z.eqb_neq. intros He.
        destruct (identity_rows _ Hc _ _ Hi) as (_ & x & Hx & _). rewrite <- He in Hx. congruence.
      - eexists. split; [done|]. cbn. split; [done|]. split; [done|]. split; [done|].
        intros _ ? [= <-]. apply row_at_inserted in Hti. by eexists. }
    run_next Hrun2.
    match goal with |- context [(_audit ?a ?b ?c ?d ?e ?f ?g ?h ?i ≫= _) ?w1] =>
      destruct (audit_total a b c d e f g h i w1) as [w3 Hrun3] end; [done|by destruct first|done|by destruct first|done| |done|done| |].
    + cbn. rewrite Hw2r. by eapply present_row.
    + by rewrite Hw2e, Hw2u.
    + run_next Hrun3. exists r, w3. split; [done|]. split; [done|].
      unfold _audit in Hrun3. do 3 run_step Hrun3. subst. cbn. done.
Qed.

(** A repetition with the recorded bytes reads the ledger and writes nothing. *)
Lemma record_replay raw peer presented q content received sent w i first :
  consistent (db w) -> Z.of_nat (length raw) <= MAX_EVIDENCE_BODY_BYTES -> peer <> ""%string ->
  row_at (identities (db w)) q = Some i -> row_at (receipts (db w)) (first_receipt_id i) = Some first -> raw_body first = raw ->
  exists w', record_delivery raw peer presented (Some q) content received sent None w = (Ok (delivery_result first true false), w') /\
    db w' = db w.
Proof.
  intros Hc Hsize Hpeer Hi Hfirst Hraw. unfold record_delivery.
  destruct (Z.ltb_spec MAX_EVIDENCE_BODY_BYTES (Z.of_nat (length raw))); [lia|].
  rewrite bool_decide_eq_false_2 by done. cbn zeta.
  assert (exists at_ w1, (match received with Some t => mret t | None => utc_now end : M Z) w = (Ok at_, w1) /\ db w1 = db w)
    as (at_ & w1 & Hnow & Hd) by (destruct received; by do 2 eexists).
  run_next Hnow. destruct (identity_rows _ Hc _ _ Hi) as (_ & x & Hx & _ & Hsha). rewrite Hfirst in Hx. injection Hx as <-.
  destruct (receipt_rows _ Hc _ _ Hfirst) as (_ & (_ & _ & Hdig) & _).
  assert (first_delivery (Some q) w1 = (Ok (Some (i, first)), w1)) as Hfd.
  { unfold first_delivery. erewrite run_bind by done. cbn. rewrite Hd, Hi. erewrite run_bind by done. cbn. by rewrite Hd, Hfirst. }
  exists w1. cbn [retry_on_integrity_error]. unfold session_begin. run_next Hfd. rewrite !bool_decide_eq_true_2 by congruence. done.
Qed.

(** A delivery to be recorded whose content type is longer than its column: a DataError, and nothing is
    recorded. *)
Lemma record_wide raw peer presented canonical content received sent w :
  consistent (db w) -> Z.of_nat (length raw) <= MAX_EVIDENCE_BODY_BYTES -> peer <> ""%string ->
  fits_column (255, content) = false ->
  (forall q i first, canonical = Some q -> row_at (identities (db w)) q = Some i ->
     row_at (receipts (db w)) (first_receipt_id i) = Some first -> raw_body first <> raw) ->
  exists w', record_delivery raw peer presented canonical content received sent None w = (Raise DataError, w') /\ db w' = db w.
Proof.
  intros Hc Hsize Hpeer Hwide Hother. unfold record_delivery.
  destruct (Z.ltb_spec MAX_EVIDENCE_BODY_BYTES (Z.of_nat (length raw))); [lia|].
  rewrite bool_decide_eq_false_2 by done. cbn zeta.
  assert (exists at_ w1, (match received with Some t => mret t | None => utc_now end : M Z) w = (Ok at_, w1) /\ db w1 = db w)
    as (at_ & w1 & Hnow & Hd) by (destruct received; by do 2 eexists).
  run_next Hnow. rewrite <- Hd in *. clear Hnow Hd w.
  assert (forall first, exists w', add_delivery raw peer presented canonical content sent (sha256_hexdigest raw) at_ None first w1 =
    (Raise DataError, w')) as Hadd.
  { intros first. unfold add_delivery. cbn zeta. pure_next. unfold mbind at 1, M_bind, session_add.
    assert (forall r : TelemetryDeliveryReceipt, content_type r = content -> fits r = false) as Hfit.
    { intros r Hr. unfold fits. cbn. rewrite Hr, Hwide. by rewrite andb_false_r. }
    rewrite Hfit by done. by eexists. }
  destruct (first_delivery_total canonical w1 Hc) as (o & Hfd & Ho).
  pose proof (first_delivery_ok _ _ _ _ Hfd) as [_ Hprior].
  destruct (Hadd (snd <$> o)) as [w' Hrun]. exists (with_db (db w1) w').
  cbn [retry_on_integrity_error]. unfold session_begin. run_next Hfd.
  destruct o as [[i first]|]; cbn [snd fmap option_fmap option_map] in Hrun.
  - destruct Hprior as (q & -> & Hi & Hfirst).
    rewrite (bool_decide_eq_false_2 (raw_body first = raw)), andb_false_r by (by eapply Hother). by rewrite Hrun.
  - by rewrite Hrun.
Qed.

(** Request identifiers: a delivery whose identifier is in the ledger returns the first receipt
    unchanged when its bytes are the recorded ones, and records a new conflict receipt that points
    to the first when they differ; a delivery with a new identifier, or none, is recorded pending
    with its exact bytes and digest.  The call returns whenever the drawn identifiers are unused. *)
Theorem record_delivery_ledger raw peer presented canonical content received sent w :
  consistent (db w) -> fresh_uuids w -> Z.of_nat (length raw) <= MAX_EVIDENCE_BODY_BYTES -> peer <> ""%string ->
  Z.of_nat (String.length peer) <= 512 -> fits_column (255, content) = true ->
  exists res w', record_delivery raw peer presented canonical content received sent None w = (Ok res, w') /\
  match canonical ≫= row_at (identities (db w)) with
  | None =>
      result_validation_status res = PENDING /\ request_replay res = false /\ request_conflict res = false /\
      row_at (receipts (db w)) (result_receipt_id res) = None /\
      exists r, row_at (receipts (db w')) (result_receipt_id res) = Some r /\
        raw_body r = raw /\ body_sha256 r = sha256_hexdigest raw /\ canonical_request_id r = canonical /\
        forall q, canonical = Some q ->
          exists i, row_at (identities (db w')) q = Some i /\ first_receipt_id i = result_receipt_id res
  | Some i =>
      exists first, row_at (receipts (db w)) (first_receipt_id i) = Some first /\
      if bool_decide (raw_body first = raw)
      then res = delivery_result first true false /\ db w' = db w
      else result_validation_status res = CONFLICT /\ request_conflict res = true /\
        result_duplicate_of res = Some (first_receipt_id i) /\
        row_at (receipts (db w)) (result_receipt_id res) = None /\
        exists r, row_at (receipts (db w')) (result_receipt_id res) = Some r /\ raw_body r = raw
  end.
Proof.
  intros Hc Hf Hsize Hpeer Hname Hcontent. unfold record_delivery.
  destruct (Z.ltb_spec MAX_EVIDENCE_BODY_BYTES (Z.of_nat (length raw))); [lia|].
  rewrite bool_decide_eq_false_2 by done. cbn zeta.
  assert (exists at_ w1, (match received with Some t => mret t | None => utc_now end : M Z) w = (Ok at_, w1) /\
    db w1 = db w /\ uuid_draws w1 = uuid_draws w) as (at_ & w1 & Hnow & Hd & Hu) by (destruct received; by do 2 eexists).
  run_next Hnow. rewrite <- Hd in *. assert (fresh_uuids w1) as Hf1 by (unfold fresh_uuids in *; by rewrite Hu, Hd).
  clear Hf Hnow Hd Hu w.
  destruct (first_delivery_total canonical w1 Hc) as (o & Hfd & Ho).
  pose proof (first_delivery_ok _ _ _ _ Hfd) as [_ Hprior].
  cbn [retry_on_integrity_error]. unfold session_begin. run_next Hfd. rewrite <- Ho.
  destruct o as [[i first]|]; cbn [fmap option_fmap option_map fst].
  - destruct Hprior as (q & -> & Hi & Hfirst).
    destruct (identity_rows _ Hc _ _ Hi) as (_ & x & Hx & _ & Hsha). rewrite Hfirst in Hx. injection Hx as <-.
    destruct (receipt_rows _ Hc _ _ Hfirst) as (Hid & (_ & _ & Hdig) & _).
    destruct (decide (raw_body first = raw)) as [Hb|Hb].
    + rewrite !bool_decide_eq_true_2 by congruence. cbn. do 2 eexists. split; [done|]. exists first.
      split; [done|]. by rewrite bool_decide_eq_true_2.
    + rewrite (bool_decide_eq_false_2 (raw_body first = raw)), andb_false_r by done.
      destruct (add_delivery_total raw peer presented (Some q) content sent at_ (Some first) w1 Hc Hf1 Hsize Hname Hcontent)
        as (r & w' & -> & Hr & Hrow & Hraw & _ & _ & Hv & Hdup & _); [by rewrite Hid|].
      do 2 eexists. split; [done|]. exists first. split; [done|]. rewrite bool_decide_eq_false_2 by done. cbn.
      rewrite Hv, Hdup. cbn. rewrite Hid. destruct (Hf1 (uuid_draws w1) ltac:(lia)) as (Hnew & _). rewrite Hr at 1.
      do 4 (split; [done|]). eauto.
  - destruct (add_delivery_total raw peer presented canonical content sent at_ None w1 Hc Hf1 Hsize Hname Hcontent)
      as (r & w' & -> & Hr & Hrow & Hraw & Hsh & Hcan & Hv & _ & Hled); [done|].
    do 2 eexists. split; [done|]. cbn. rewrite Hv. destruct (Hf1 (uuid_draws w1) ltac:(lia)) as (Hnew & _).
    do 3 (split; [done|]). split; [by rewrite Hr|]. exists r. do 4 (split; [done|]). by apply Hled.
Qed.

End Record.

(** ** Witnesses *)

(** A retry of the example request with other bytes. *)
Lemma record_delivery_ledger_witness :
  exists res w', record_delivery other_raw example_peer None (Some example_request) None None None None delivered_world =
      (Ok res, w') /\ result_validation_status res = CONFLICT /\ request_conflict res = true.
Proof.
  destruct (record_delivery_ledger other_raw example_peer None (Some example_request) None None None delivered_world
    delivered_consistent) as (res & w' & Hrun & Hres);
    [by apply fresh_example; vm_compute|vm_compute; discriminate|discriminate|vm_compute; discriminate|reflexivity|].
  exists res, w'. split; [exact Hrun|]. vm_compute in Hrun. injection Hrun as <- _. clear Hres. split; reflexivity.
Defined.
