(* ===== verification/RepositoryProps.v ===== *)
(** * Properties of the telemetry repository

    Sequences of calls, and what they guarantee: consistency of the tables, permanence of the
    evidence, the life cycle of a job, and the refinement of the pure sequence algorithm. *)
From S2P Require Import Prelude PyFormat Sha256 Uuid Json Sql Schema Session Repository RepositoryInv RepositorySafe RepositoryAccept RepositoryExample.
From S2P Require Import Sequence.

Open Scope Z_scope.

(** ** Calls *)

(** A call of a mutating method, with its arguments. *)
Inductive call :=
| RecordDelivery (raw : bytes) (peer : string) (presented : option string) (canonical : option uuid)
    (content : option string) (received sent : option Z) (chosen : option uuid)
| RejectDelivery (key : uuid) (why : string) (parsed : option (list (string * json))) (actor : string)
| AcceptPacket (key : uuid) (values : DecodedTelemetryValues) (limit : Z) (actor : string)
| MarkQueued (key : uuid) (message actor : string)
| ClaimJob (key : uuid) (worker : string) (lease : Z)
| CompleteJob (key : uuid) (out : ProcessingResultValues) (worker : string) (at_ : option Z)
| FailJob (key : uuid) (worker why : string) (temporary : bool) (base : Z) (now : option Z)
| RecordEvent (service event actor out : string) (why : option string) (receipt : option uuid)
    (packet : option string) (job : option uuid) (data : list (string * json)).

Section Calls.
Context `{SqlEngine} `{Env}.

Definition exec (c : call) : M () :=
  match c with
  | RecordDelivery raw peer presented canonical content received sent chosen =>
      record_delivery raw peer presented canonical content received sent chosen ;; mret ()
  | RejectDelivery key why parsed actor => reject_delivery key why parsed actor ;; mret ()
  | AcceptPacket key v n actor => accept_packet_and_create_job key v n actor ;; mret ()
  | MarkQueued key message actor => mark_job_queued key message actor ;; mret ()
  | ClaimJob key worker lease => claim_processing_job key worker lease ;; mret ()
  | CompleteJob key out worker at_ => complete_processing_job key out worker at_ ;; mret ()
  | FailJob key worker why temporary base now => fail_processing_attempt key worker why temporary base now ;; mret ()
  | RecordEvent service event actor out why r p j data => record_audit_event service event actor out why r p j data
  end.

(** The world after a sequence of calls, whether they return or raise. *)
Definition run_calls (cs : list call) (w : world) : world := fold_left (fun w c => (exec c w).2) cs w.

Definition start : world := mk_world create_schema 0 0.

Context `{!SqlLaws}.

Lemma atomic_then {A} (m : M A) : atomic m -> atomic (m ;; mret ()).
Proof.
  intros Ha w e w'. unfold mbind, M_bind. destruct (m w) as [[a|e'] w1] eqn:Hm; [done|].
  intros [= -> ->]. by eapply Ha.
Qed.

Lemma atomic_optional_now {A} (o : option Z) (k : Z -> M A) :
  (forall t, atomic (k t)) -> atomic (t ← match o with Some t => mret t | None => utc_now end; k t).
Proof. intros Hk. destruct o; [apply Hk|by apply atomic_now]. Qed.

Lemma exec_atomic c : atomic (exec c).
Proof.
  destruct c; cbn; try apply atomic_then.
  - unfold record_delivery. repeat (apply atomic_if; [apply atomic_raise|]). apply atomic_optional_now.
    intros t. apply atomic_retry, atomic_begin.
  - apply atomic_begin.
  - unfold accept_packet_and_create_job. repeat (apply atomic_if; [apply atomic_raise|]).
    apply atomic_retry, atomic_begin.
  - apply atomic_begin.
  - unfold claim_processing_job. repeat (apply atomic_if; [apply atomic_raise|]). apply atomic_now.
    intros t. apply atomic_begin.
  - apply atomic_optional_now. intros t. apply atomic_begin.
  - unfold fail_processing_attempt. apply atomic_if; [apply atomic_raise|]. apply atomic_optional_now.
    intros t. apply atomic_begin.
  - apply atomic_begin.
Qed.

Lemma exec_safe c : safe (exec c).
Proof.
  destruct c; cbn; try (apply safe_bind; [|intros; apply safe_ret]).
  - apply safe_record_delivery.
  - apply safe_reject.
  - apply safe_accept.
  - apply safe_mark_queued.
  - apply safe_claim.
  - apply safe_complete.
  - apply safe_fail.
  - apply safe_record_event.
Qed.

Lemma run_calls_step cs w : consistent (db w) -> consistent (db (run_calls cs w)) /\ evolves (db w) (db (run_calls cs w)).
Proof.
  revert w; induction cs as [|c cs IH]; intros w Hc; cbn; [by split|].
  assert (consistent (db (exec c w).2) /\ evolves (db w) (db (exec c w).2)) as [Hc1 He1].
  { destruct (exec c w) as [[[]|e] w1] eqn:Hw; cbn; [by apply (exec_safe _ _ _ _ Hw)|].
    by rewrite (exec_atomic _ _ _ _ Hw). }
  destruct (IH _ Hc1) as [Hc2 He2]. split; [done|]. by etransitivity.
Qed.

(** ** Properties *)

(** C8. Consistency: whatever calls are made on freshly created tables, and whether they return or
    raise, every packet has one source receipt with its digest and exactly one job, source keys and
    request identifiers have one owner, each session's mark is one of its packets and its totals
    are those of its packets, and exactly the completed jobs have a result. *)
Theorem repository_consistent cs : consistent (db (run_calls cs start)).
Proof. apply run_calls_step, consistent_start. Qed.

(** C24. Permanence of evidence: no sequence of calls removes a receipt, a request identity, a
    packet, a result or an audit event, or changes a packet, a result or the evidence columns of a
    receipt; a receipt that has left PENDING is never classified again. *)
Theorem evidence_permanent cs w :
  consistent (db w) ->
  let d := db w in let d' := db (run_calls cs w) in
  keeps receipt_evolves (receipts d) (receipts d') /\ keeps eq (identities d) (identities d') /\
  keeps eq (packets d) (packets d') /\ keeps eq (processed d) (processed d') /\ keeps eq (events d) (events d').
Proof. intros Hc. by destruct (run_calls_step cs w Hc) as [_ []]. Qed.

Lemma job_move_terminal s s' : rtc job_move s s' -> s = COMPLETE \/ s = FAILED -> s' = s.
Proof. induction 1 as [|s s1 s' Hm _ _]; [done|]. intros [-> | ->]; inversion Hm. Qed.

(** C25. Life cycle: between any two moments a job keeps its packet and its limit, its attempt count
    never decreases, it has only moved along the legal transitions, and a completed or failed job
    stays as it is. *)
Theorem job_lifecycle cs w k j :
  consistent (db w) -> row_at (jobs (db w)) k = Some j ->
  exists j', row_at (jobs (db (run_calls cs w))) k = Some j' /\
    job_id j' = job_id j /\ job_packet_id j' = job_packet_id j /\ max_attempts j' = max_attempts j /\
    attempt_count j <= attempt_count j' /\ rtc job_move (job_state j) (job_state j') /\
    (job_state j = COMPLETE \/ job_state j = FAILED -> job_state j' = job_state j).
Proof.
  intros Hc Hj. destruct (run_calls_step cs w Hc) as [_ He].
  destruct (jobs_evolve _ _ He _ _ Hj) as (j' & Hj' & ? & ? & ? & _ & ? & ?).
  exists j'. split_and!; try done. by apply job_move_terminal.
Qed.

(** Idempotence of acceptance: once a call has accepted a delivery or found it duplicate, then
    after any further calls an acceptance of the same delivery returns the same packet, job,
    classification and original, and changes no table. *)
Theorem accept_idempotent key v n actor w res w1 cs v' n' actor' :
  consistent (db w) -> accept_packet_and_create_job key v n actor w = (Ok res, w1) -> conflict res = false ->
  0 <= v_sequence_number v' <= MAX_UINT32 -> 0 < v_boot_id v' -> 0 < n' ->
  let w2 := run_calls cs w1 in
  exists res', accept_packet_and_create_job key v' n' actor' w2 = (Ok res', w2) /\ same_outcome res' res.
Proof.
  intros Hc Ha Hncf Hseq Hboot Hn w2.
  destruct (safe_accept _ _ _ _ _ _ _ Ha Hc) as [Hc1 _].
  destruct (accept_settles _ _ _ _ _ _ _ Hc Ha Hncf) as [Hset _].
  destruct (run_calls_step cs w1 Hc1) as [Hc2 He]. apply (settled_evolves _ _ _ _ He) in Hset.
  pose proof Hset as (r & _ & _ & Hr & Hst & _).
  assert (receipt_id r = key) as Hid by (by destruct (receipt_rows _ Hc2 _ _ Hr)).
  destruct (replay_settled r w2 Hc2 ltac:(by rewrite Hid) Hst) as (res' & Hrun & Hset').
  exists res'. split; [by eapply accept_settled_run|]. rewrite Hid in Hset'.
  by eapply settled_functional.
Qed.

End Calls.

(** ** Witnesses *)

Definition example_calls : list call := [
  RecordDelivery example_raw example_peer None (Some example_request) None None None None;
  AcceptPacket example_receipt example_values 3 "ground-api";
  MarkQueued example_job "message" "ground-api";
  ClaimJob example_job "worker-1" 60;
  CompleteJob example_job example_result "worker-1" None;
  RejectDelivery example_receipt "CRC_MISMATCH" None "ground-api"].

Lemma repository_consistent_witness :
  (job_state <$> rows (jobs (db (run_calls example_calls start))) = [COMPLETE]) /\
  consistent (db (run_calls example_calls start)).
Proof. split; [vm_compute; reflexivity|]. apply (repository_consistent example_calls). Defined.

Lemma evidence_permanent_witness :
  length (rows (receipts (db accepted_world))) = 1%nat /\
  keeps receipt_evolves (receipts (db accepted_world)) (receipts (db (run_calls example_calls accepted_world))).
Proof.
  split; [vm_compute; reflexivity|].
  destruct (evidence_permanent example_calls accepted_world accepted_consistent) as [Hk _]. exact Hk.
Defined.

Lemma job_lifecycle_witness :
  exists j j', row_at (jobs (db claimed_world)) example_job = Some j /\ job_state j = PROCESSING /\
    row_at (jobs (db (run_calls [CompleteJob example_job example_result "worker-1" None] claimed_world))) example_job = Some j' /\
    rtc job_move (job_state j) (job_state j').
Proof.
  destruct (row_at (jobs (db claimed_world)) example_job) as [j|] eqn:Hj; [|by vm_compute in Hj].
  destruct (job_lifecycle [CompleteJob example_job example_result "worker-1" None] _ _ _ claimed_consistent Hj)
    as (j' & Hj' & _ & _ & _ & _ & Hm & _).
  exists j, j'. split; [reflexivity|]. split; [|split; [exact Hj'|exact Hm]].
  vm_compute in Hj. injection Hj as <-. reflexivity.
Defined.

Lemma accept_idempotent_witness :
  exists res res', accept_example delivered_world = (Ok res, accepted_world) /\
    accept_packet_and_create_job example_receipt later_values 1 "retry" (run_calls example_calls accepted_world) =
      (Ok res', run_calls example_calls accepted_world) /\ same_outcome res' res.
Proof.
  destruct (accept_example delivered_world) as [[res|e] w1] eqn:Hrun; [|by vm_compute in Hrun].
  assert (w1 = accepted_world) as -> by (unfold accepted_world; by rewrite Hrun).
  assert (conflict res = false) as Hn by (vm_compute in Hrun; by injection Hrun as <-).
  destruct (accept_idempotent example_receipt example_values 3 "ground-api"%string delivered_world res accepted_world
    example_calls later_values 1 "retry"%string delivered_consistent Hrun Hn) as (res' & Hres & Hsame);
    [split; vm_compute; discriminate|vm_compute; reflexivity..|].
  exists res, res'. split; [reflexivity|]. split; [exact Hres|exact Hsame].
Defined.
