(* ===== verification/RepositoryFresh.v ===== *)
(** * Random identifiers that are still to come

    A call of the repository puts no identifier into the tables that it has not drawn itself, and draws a
    bounded number of them.  So when the next identifiers are distinct and in no table, those that are
    left after a call still are. *)
From S2P Require Import Prelude PyFormat Sha256 Uuid Json Codec Sql Schema Session Repository RepositoryInv RepositorySafe.

Open Scope Z_scope.

Section Fresh.
Context `{SqlEngine} `{!SqlLaws} `{Env}.
Implicit Types (w : world) (d : database) (K : list uuid) (n : nat).

(** The keys of the tables whose rows have random identifiers. *)
Definition taken d (k : uuid) : Prop :=
  is_Some (row_at (receipts d) k) \/ is_Some (row_at (jobs d) k) \/ is_Some (row_at (events d) k).

(** The next [n] identifiers are distinct and not taken. *)
Record fresh_for n w : Prop := {
  fresh_keys i : (uuid_draws w <= i < uuid_draws w + n)%nat -> ~ taken (db w) (uuid4 i);
  fresh_distinct i j : (uuid_draws w <= i < j)%nat -> (j < uuid_draws w + n)%nat -> uuid4 i <> uuid4 j
}.

Lemma fresh_two n w : fresh_for (S (S n)) w -> fresh_uuids w.
Proof.
  intros [Hk _] i Hi. specialize (Hk i ltac:(lia)). unfold taken in Hk.
  split_and!; apply eq_None_not_Some; tauto.
Qed.

(** At most [n] draws, and no new key but those drawn and those of [K]. *)
Record draws_step n K w w' : Prop := {
  step_draws : (uuid_draws w <= uuid_draws w' <= uuid_draws w + n)%nat;
  step_keys k : taken (db w') k -> taken (db w) k \/ k ∈ K \/
    exists i, (uuid_draws w <= i < uuid_draws w')%nat /\ k = uuid4 i
}.

Lemma fresh_step n m w w' : draws_step n [] w w' -> fresh_for (n + m) w -> fresh_for m w'.
Proof.
  intros [Hd Hk] [Hf Hne]. split; [|intros i j Hi Hj; apply Hne; lia].
  intros i Hi [Ht|[Hin|(j & Hj & He)]]%Hk; [by apply (Hf i); [lia|]|by apply elem_of_nil in Hin|].
  by apply (Hne j i); [lia|lia|].
Qed.

Definition drawn {A} n K (m : M A) : Prop := forall w, draws_step n K w (m w).2.

Lemma draws_refl n K w w' : db w' = db w -> uuid_draws w' = uuid_draws w -> draws_step n K w w'.
Proof. intros Hd Hu. split; [lia|]. rewrite Hd. auto. Qed.

Lemma draws_trans n m K w1 w2 w3 : draws_step n K w1 w2 -> draws_step m K w2 w3 -> draws_step (n + m) K w1 w3.
Proof.
  intros [Hn1 Hk1] [Hn2 Hk2]. split; [lia|]. intros k [[?|[?|(i & ? & ?)]]%Hk1|[?|(i & ? & ?)]]%Hk2; auto;
    right; right; exists i; (split; [lia|done]).
Qed.

Lemma drawn_weaken {A} n m K (p : M A) : (n <= m)%nat -> drawn n K p -> drawn m K p.
Proof. intros Hn Hp w. destruct (Hp w) as [Hd Hk]. split; [lia|done]. Qed.

Lemma drawn_ret {A} n K (a : A) : drawn n K (mret a).
Proof. intros w. by apply draws_refl. Qed.
Lemma drawn_raise {A} n K e : drawn n K (raise (A:=A) e).
Proof. intros w. by apply draws_refl. Qed.
Lemma drawn_now n K : drawn n K utc_now.
Proof. intros w. by apply draws_refl. Qed.
Lemma drawn_get n K `{Countable B} `{!Mapped B R} k : drawn n K (session_get (R:=R) k).
Proof. intros w. by apply draws_refl. Qed.
Lemma drawn_scalars n K `{Countable B} `{!Mapped B R} p : drawn n K (session_scalars (R:=R) p).
Proof. intros w. by apply draws_refl. Qed.
Lemma drawn_scalar n K `{Countable B} `{!Mapped B R} p : drawn n K (session_scalar (R:=R) p).
Proof. intros w. by apply draws_refl. Qed.

Lemma drawn_add n K `{Countable B} `{!Mapped B R} (r : R) :
  (forall d t, insert_row (table_of d) r = Some t -> forall k, taken (with_table t d) k -> taken d k \/ k ∈ K) ->
  drawn n K (session_add r).
Proof.
  intros Hr w. unfold session_add. destruct (fits r); [cbn [negb]|by apply draws_refl]. destruct (foreign_keys _ _); [|by apply draws_refl].
  destruct (insert_row _ _) as [t|] eqn:Ht; [|by apply draws_refl]. split; [cbn; lia|]. intros k [Hk|Hk]%(Hr _ _ Ht); auto.
Qed.

Lemma drawn_update n K `{Countable B} `{!Mapped B R} (r : R) :
  (forall d t, update_row (table_of d) r = Some t -> forall k, taken (with_table t d) k -> taken d k) -> drawn n K (session_update r).
Proof.
  intros Hr w. unfold session_update. destruct (from_option _ _ _); [by apply draws_refl|]. destruct (update_row _ _) as [t|] eqn:Ht; [|by apply draws_refl].
  split; [cbn; lia|]. intros k Hk%(Hr _ _ Ht). by left.
Qed.

(** A call that draws nothing, then the rest. *)
Lemma drawn_bind {A B} n K (m : M A) (f : A -> M B) : drawn 0 K m -> (forall a, drawn n K (f a)) -> drawn n K (m ≫= f).
Proof.
  intros Hm Hf w. specialize (Hm w). change ((m ≫= f) w) with (M_bind A B f m w). unfold M_bind.
  destruct (m w) as [[a|e] w1]; cbn in *; [exact (draws_trans 0 n K _ _ _ Hm (Hf a w1))|]. destruct Hm. split; [lia|done].
Qed.

Lemma drawn_uuid {B} n K (f : uuid -> M B) : (forall u, drawn n (u :: K) (f u)) -> drawn (S n) K (draw_uuid4 ≫= f).
Proof.
  intros Hf w. change ((draw_uuid4 ≫= f) w) with (f (uuid4 (uuid_draws w)) (mk_world (db w) (clock_reads w) (S (uuid_draws w)))).
  destruct (Hf (uuid4 (uuid_draws w)) (mk_world (db w) (clock_reads w) (S (uuid_draws w)))) as [Hd Hk]. cbn in *.
  split; [lia|]. intros k [Ht|[[->|Hin]%elem_of_cons|(i & Hi & ->)]]%Hk; auto; right; right.
  - exists (uuid_draws w). split; [lia|done].
  - exists i. split; [lia|done].
Qed.

Lemma drawn_begin {A} n K (m : M A) : drawn n K m -> drawn n K (session_begin m).
Proof.
  intros Hm w. specialize (Hm w). unfold session_begin. destruct (m w) as [[a|e] w1]; [done|]. destruct Hm as [Hd _].
  split; [done|]. by left.
Qed.

Lemma drawn_retry {A} n K c text (m : M A) : drawn n K m -> drawn (c * n) K (retry_on_integrity_error c text m).
Proof.
  intros Hm. induction c as [|c IH]; [apply drawn_raise|]. intros w. cbn [retry_on_integrity_error]. pose proof (Hm w) as Hw.
  assert (draws_step (S c * n) K w (m w).2) as Hone by (destruct Hw; split; [lia|done]).
  destruct (m w) as [[a|e] w1]; [done|]. destruct e; try exact Hone. destruct (c =? 0)%nat; [exact Hone|].
  eapply draws_trans; [exact Hw|apply IH].
Qed.

Lemma drawn_for_each {A} n K (l : list A) (body : A -> M ()) : (forall a, drawn 0 K (body a)) -> drawn n K (for_each l body).
Proof. intros Hb. induction l as [|a l IH]; [apply drawn_ret|]. by apply drawn_bind. Qed.

(** A method's own identifiers are all drawn. *)
Lemma drawn_call {A} n m w (p : M A) : drawn n [] p -> fresh_for (n + m) w -> fresh_for m (p w).2.
Proof. intros Hp. by apply fresh_step. Qed.

(** *** Rows of each table *)

Lemma taken_insert_receipt d t r k :
  insert_row (receipts d) r = Some t -> taken (set_receipts t d) k -> taken d k \/ k = receipt_id r.
Proof.
  intros Hi [Hk|[Hk|Hk]]; [|left; by right; left|left; by right; right]. cbn in Hk. rewrite (row_at_insert _ _ _ _ Hi) in Hk.
  case_decide; [by right|left; by left].
Qed.
Lemma taken_insert_job d t j k : insert_row (jobs d) j = Some t -> taken (set_jobs t d) k -> taken d k \/ k = job_id j.
Proof.
  intros Hi [Hk|[Hk|Hk]]; [left; by left| |left; by right; right]. cbn in Hk. rewrite (row_at_insert _ _ _ _ Hi) in Hk.
  case_decide; [by right|left; by right; left].
Qed.
Lemma taken_insert_event d t e k : insert_row (events d) e = Some t -> taken (set_events t d) k -> taken d k \/ k = event_id e.
Proof.
  intros Hi [Hk|[Hk|Hk]]; [left; by left|left; by right; left|]. cbn in Hk. rewrite (row_at_insert _ _ _ _ Hi) in Hk.
  case_decide; [by right|left; by right; right].
Qed.

Lemma update_same `{Countable B} `{!Schema B R} (t t' : table B R) r k :
  update_row t r = Some t' -> is_Some (row_at t' k) -> is_Some (row_at t k).
Proof. intros Hu. rewrite (row_at_update _ _ _ _ Hu). case_decide; [subst; by intros _; eapply update_found|done]. Qed.

Lemma taken_update_receipt d t r k : update_row (receipts d) r = Some t -> taken (set_receipts t d) k -> taken d k.
Proof. intros Hu [Hk|Hk]; [left; by eapply update_same|by right]. Qed.
Lemma taken_update_job d t j k : update_row (jobs d) j = Some t -> taken (set_jobs t d) k -> taken d k.
Proof. intros Hu [Hk|[Hk|Hk]]; [by left|right; left; by eapply update_same|by right; right]. Qed.
End Fresh.

(** ** The methods *)

Create HintDb drawn.
#[export] Hint Resolve drawn_ret drawn_raise drawn_now drawn_get drawn_scalars drawn_scalar : drawn.
#[export] Hint Extern 1 (drawn _ _ (session_add _)) =>
  (apply drawn_add; intros ? ? Hi ? Ht;
   first [ by left
         | destruct (taken_insert_receipt _ _ _ _ Hi Ht) as [| ->]; [by left|right; cbn; set_solver]
         | destruct (taken_insert_job _ _ _ _ Hi Ht) as [| ->]; [by left|right; cbn; set_solver]
         | destruct (taken_insert_event _ _ _ _ Hi Ht) as [| ->]; [by left|right; cbn; set_solver] ]) : drawn.
#[export] Hint Extern 1 (drawn _ _ (session_update _)) =>
  (apply drawn_update; intros ? ? Hi ? Ht;
   first [ exact Ht | exact (taken_update_receipt _ _ _ _ Hi Ht) | exact (taken_update_job _ _ _ _ Hi Ht) ]) : drawn.

Ltac solve_drawn :=
  repeat first
    [ solve [auto 2 with drawn]
    | simple apply drawn_begin | simple apply drawn_uuid | simple apply drawn_for_each
    | simple apply drawn_bind
    | progress intros
    | match goal with
      | |- drawn _ _ (if ?c then _ else _) => destruct c
      | |- drawn _ _ (match ?c with _ => _ end) => destruct c
      | |- drawn _ _ (let _ := _ in _) => cbv zeta
      end ].

Section Methods.
Context `{SqlEngine} `{!SqlLaws} `{Env}.

Lemma drawn_audit n K service event actor out why r p j data : drawn (S n) K (_audit service event actor out why r p j data).
Proof. unfold _audit. solve_drawn. Qed.

Lemma drawn_audit_then {B} n K service event actor out why r p j data (f : () -> M B) :
  (forall a, drawn n K (f a)) -> drawn (S n) K (_audit service event actor out why r p j data ≫= f).
Proof.
  intros Hf w. change ((_ ≫= f) w) with (M_bind unit B f (_audit service event actor out why r p j data) w). unfold M_bind.
  pose proof (drawn_audit 0 K service event actor out why r p j data w) as Ha.
  destruct (_audit _ _ _ _ _ _ _ _ _ w) as [[a|e] w1]; cbn in *; [exact (draws_trans 1 n K _ _ _ Ha (Hf a w1))|]. destruct Ha. split; [lia|done].
Qed.
#[local] Hint Extern 0 (drawn _ _ (_audit _ _ _ _ _ _ _ _ _ ≫= _)) => (simple apply drawn_audit_then; intros; solve_drawn) : drawn.

Lemma drawn_record_delivery raw peer presented canonical content received sent :
  drawn 4 [] (record_delivery raw peer presented canonical content received sent None).
Proof.
  unfold record_delivery. do 2 (case_match; [solve_drawn|]). apply drawn_bind; [solve_drawn|intros t].
  apply (drawn_retry 2 [] 2). unfold first_delivery, add_delivery. solve_drawn.
Qed.

Lemma drawn_reject key why parsed actor : drawn 1 [] (reject_delivery key why parsed actor).
Proof. unfold reject_delivery. solve_drawn. Qed.

Lemma drawn_accept key v n actor : drawn 4 [] (accept_packet_and_create_job key v n actor).
Proof.
  unfold accept_packet_and_create_job. repeat (case_match; [solve_drawn|]). apply (drawn_retry 2 [] 2).
  unfold _accept_packet_transaction, replay_acceptance, accept_existing, accept_new, accept_state_conflict, job_of_packet, save_sequence_state. solve_drawn.
Qed.

Lemma drawn_mark key message actor : drawn 1 [] (mark_job_queued key message actor).
Proof. unfold mark_job_queued. solve_drawn. Qed.
End Methods.
