(* ===== verification/RepositoryMoves.v ===== *)
(** * What a call may do to the tables

    [moves R m]: whatever the outcome of [m], the tables before and after are related by the preorder
    [R].  No method but [record_delivery] writes the ledger of request identifiers, and every method
    leaves the identifiers that are still to come new ([stays_fresh]). *)
From S2P Require Import Prelude PyFormat Sha256 Uuid Json Codec Sql Schema Session Repository RepositoryInv RepositorySafe.
From S2P Require Import RepositoryFresh.

Open Scope Z_scope.

Section Moves.
Context `{SqlEngine} `{!SqlLaws} `{Env}.
Context (R : database -> database -> Prop) `{!PreOrder R}.

Definition moves {A} (m : M A) : Prop := forall w, R (db w) (db (m w).2).

Lemma moves_ret {A} (a : A) : moves (mret a).
Proof. intros w. cbn. reflexivity. Qed.
Lemma moves_raise {A} e : moves (raise (A:=A) e).
Proof. intros w. cbn. reflexivity. Qed.
Lemma moves_now : moves utc_now.
Proof. intros w. cbn. reflexivity. Qed.
Lemma moves_uuid : moves draw_uuid4.
Proof. intros w. cbn. reflexivity. Qed.
Lemma moves_get `{Countable B} `{!Mapped B X} k : moves (session_get (R:=X) k).
Proof. intros w. cbn. reflexivity. Qed.
Lemma moves_scalars `{Countable B} `{!Mapped B X} p : moves (session_scalars (R:=X) p).
Proof. intros w. cbn. reflexivity. Qed.
Lemma moves_scalar `{Countable B} `{!Mapped B X} p : moves (session_scalar (R:=X) p).
Proof. intros w. cbn. reflexivity. Qed.

Lemma moves_add `{Countable B} `{!Mapped B X} (r : X) :
  (forall d t, insert_row (table_of d) r = Some t -> R d (with_table t d)) -> moves (session_add r).
Proof.
  intros Hr w. unfold session_add. destruct (fits r); [cbn [negb]|cbn; reflexivity]. destruct (foreign_keys _ _); [|cbn; reflexivity].
  destruct (insert_row _ _) as [t|] eqn:Ht; cbn; [by apply Hr|reflexivity].
Qed.

Lemma moves_update `{Countable B} `{!Mapped B X} (r : X) :
  (forall d t, update_row (table_of d) r = Some t -> R d (with_table t d)) -> moves (session_update r).
Proof. intros Hr w. unfold session_update. destruct (from_option _ _ _); [cbn; reflexivity|]. destruct (update_row _ _) as [t|] eqn:Ht; cbn; [by apply Hr|reflexivity]. Qed.

Lemma moves_bind {A B} (m : M A) (f : A -> M B) : moves m -> (forall a, moves (f a)) -> moves (m ≫= f).
Proof.
  intros Hm Hf w. specialize (Hm w). change ((m ≫= f) w) with (M_bind A B f m w). unfold M_bind.
  destruct (m w) as [[a|e] w1]; cbn in *; [|done]. etransitivity; [exact Hm|apply Hf].
Qed.

(** A transaction that fails is rolled back. *)
Lemma moves_begin {A} (m : M A) : moves m -> moves (session_begin m).
Proof. intros Hm w. specialize (Hm w). unfold session_begin. destruct (m w) as [[a|e] w1]; cbn; [done|reflexivity]. Qed.

Lemma moves_retry {A} c text (m : M A) : moves m -> moves (retry_on_integrity_error c text m).
Proof.
  intros Hm. induction c as [|c IH]; [apply moves_raise|]. intros w. cbn [retry_on_integrity_error]. pose proof (Hm w) as Hw.
  destruct (m w) as [[a|e] w1]; [done|]. destruct e; try exact Hw. destruct (c =? 0)%nat; [exact Hw|].
  etransitivity; [exact Hw|apply IH].
Qed.

Lemma moves_for_each {A} (l : list A) (body : A -> M ()) : (forall a, moves (body a)) -> moves (for_each l body).
Proof. intros Hb. induction l as [|a l IH]; [apply moves_ret|]. by apply moves_bind. Qed.
End Moves.

(** Walk through a method; [tac] relates the tables around each row that is written. *)
Ltac solve_moves tac :=
  repeat first
    [ match goal with |- PreOrder _ => apply _ end
    | simple apply moves_ret | simple apply moves_raise | simple apply moves_now | simple apply moves_uuid
    | simple apply moves_get | simple apply moves_scalars | simple apply moves_scalar
    | simple apply moves_begin | simple apply moves_retry | simple apply moves_for_each | simple apply moves_bind
    | simple apply moves_add | simple apply moves_update
    | match goal with |- moves _ _ => fail 1 | _ => solve [tac] end
    | progress intros
    | match goal with
      | |- moves _ (if ?c then _ else _) => destruct c
      | |- moves _ (match (if ?c then _ else _) with _ => _ end) => destruct c
      | |- moves _ (match ?c with _ => _ end) => destruct c
      | |- moves _ (let _ := _ in _) => cbv zeta
      end ].

Section Methods.
Context `{SqlEngine} `{!SqlLaws} `{Env}.
Implicit Types (d : database) (w : world).

(** *** The ledger of request identifiers *)

Definition same_ledger d d' : Prop := identities d' = identities d.

#[export] Instance same_ledger_preorder : PreOrder same_ledger.
Proof. split; [done|]. unfold same_ledger. congruence. Qed.

(** Recording a delivery writes at most its own identifier. *)
Definition ledger_grows (canonical : option uuid) d d' : Prop :=
  forall q, canonical <> Some q -> row_at (identities d') q = row_at (identities d) q.

#[export] Instance ledger_grows_preorder canonical : PreOrder (ledger_grows canonical).
Proof. split; [by intros d q|]. intros d1 d2 d3 H12 H23 q Hq. by rewrite H23, H12. Qed.

Lemma ledger_record raw peer presented canonical content received sent :
  moves (ledger_grows canonical) (record_delivery raw peer presented canonical content received sent None).
Proof.
  unfold record_delivery, first_delivery, add_delivery, _audit. solve_moves ltac:(first [by intros q|
    intros q Hq; match goal with Hi : insert_row _ _ = Some _ |- _ => cbn; rewrite (row_at_insert _ _ _ _ Hi) end; cbn;
    by rewrite decide_False by congruence]).
Qed.

Lemma ledger_reject key why parsed actor : moves same_ledger (reject_delivery key why parsed actor).
Proof. unfold reject_delivery, _audit. solve_moves ltac:(reflexivity). Qed.
Lemma ledger_accept key v n actor : moves same_ledger (accept_packet_and_create_job key v n actor).
Proof.
  unfold accept_packet_and_create_job, _accept_packet_transaction, replay_acceptance, accept_existing, accept_new, accept_state_conflict,
    job_of_packet, save_sequence_state, _audit. solve_moves ltac:(reflexivity).
Qed.
Lemma ledger_mark key message actor : moves same_ledger (mark_job_queued key message actor).
Proof. unfold mark_job_queued, _audit. solve_moves ltac:(reflexivity). Qed.

(** *** Random identifiers *)

#[local] Hint Extern 0 (drawn _ _ (_audit _ _ _ _ _ _ _ _ _ ≫= _)) => (simple apply drawn_audit_then; intros; solve_drawn) : drawn.

Lemma drawn_claim key worker lease : drawn 1 [] (claim_processing_job key worker lease).
Proof. unfold claim_processing_job. solve_drawn. Qed.
Lemma drawn_complete key out worker at_ : drawn 1 [] (complete_processing_job key out worker at_).
Proof. unfold complete_processing_job, job_of_packet. solve_drawn. Qed.
Lemma drawn_fail key worker why temporary base at_ : drawn 1 [] (fail_processing_attempt key worker why temporary base at_).
Proof. unfold fail_processing_attempt. solve_drawn. Qed.
Lemma drawn_record_event service event actor out why r p j data : drawn 1 [] (record_audit_event service event actor out why r p j data).
Proof. unfold record_audit_event. apply drawn_begin, drawn_audit. Qed.

(** The identifiers up to the [k]-th are distinct, and those still to come are in no table. *)
Definition fresh_until (k : nat) w : Prop := fresh_for (k - uuid_draws w) w.

(** Identifiers are only drawn, and those still to come stay new. *)
Definition stays_fresh w w' : Prop :=
  (uuid_draws w <= uuid_draws w')%nat /\ forall k, fresh_until k w -> fresh_until k w'.

#[export] Instance stays_fresh_preorder : PreOrder stays_fresh.
Proof.
  split; [by intros w; split|]. intros w1 w2 w3 [Hd1 Hf1] [Hd2 Hf2]. split; [lia|auto].
Qed.

Lemma drawn_fresh {A} n (m : M A) w : drawn n [] m -> stays_fresh w (m w).2.
Proof.
  intros Hm. destruct (Hm w) as [Hd Hk]. split; [lia|]. intros k [Hf Hne]. split; [|intros i j Hi Hj; apply Hne; lia].
  intros i Hi [Ht|[Hin|(j & Hj & He)]]%Hk; [by apply (Hf i); [lia|]|by apply elem_of_nil in Hin|].
  by apply (Hne j i); [lia|lia|].
Qed.

Lemma read_fresh w n : stays_fresh w (mk_world (db w) n (uuid_draws w)).
Proof. split; [done|]. intros k []. by split. Qed.

Lemma until_for n k w : fresh_until k w -> (uuid_draws w + n <= k)%nat -> fresh_for n w.
Proof. intros [Hf Hne] Hk. split; [intros i Hi; apply Hf; lia|intros i j Hi Hj; apply Hne; lia]. Qed.
End Methods.
