(* ===== verification/RepositoryQuiet.v ===== *)
(** * Which repository calls put a job at work

    A job is at work between its queueing and its completion or failure.  Every method other than
    [mark_job_queued] is [quiet]: jobs at work were at work before, new jobs have a fresh identifier in the
    range of UUIDs, and new packets have numbers that fit the display identifier.  [mark_job_queued] puts
    one job to work. *)
From S2P Require Import Prelude PyFormat Sha256 Uuid Json Codec Sql Schema Session Repository RepositoryInv RepositorySafe.
From S2P Require Import RepositoryAccept.

Open Scope Z_scope.

(** The generator of random UUIDs returns 128-bit values. *)
Class UuidLaws `{Env} : Prop := uuid4_range n : 0 <= uuid4 n < uuid_max.

Definition at_work (s : ProcessingJobState) : bool :=
  match s with QUEUED | PROCESSING | RETRY_WAIT => true | _ => false end.

(** The numbers of a packet fit its two-digit and eight-digit fields. *)
Definition displayable (p : LogicalTelemetryPacket) : Prop :=
  payload_id p <= 99 /\ boot_id p <= Codec.Codec.UINT32_MAX.
Definition values_displayable (v : DecodedTelemetryValues) : Prop :=
  v_payload_id v <= 99 /\ v_boot_id v <= Codec.Codec.UINT32_MAX.

Section Quiet.
Context `{SqlEngine} `{!SqlLaws} `{Env} `{!UuidLaws}.
Implicit Types (w : world) (d : database).

(** From [d] to [d'], jobs in [more] aside. *)
Record quiet_step (more : uuid -> Prop) d d' : Prop := {
  quiet_jobs k j' : row_at (jobs d') k = Some j' ->
    (exists j, row_at (jobs d) k = Some j /\ (at_work (job_state j') = true -> at_work (job_state j) = true \/ more k)) \/
    ((at_work (job_state j') = true -> more k) /\ 0 <= k < uuid_max);
  quiet_packets k p' : row_at (packets d') k = Some p' -> row_at (packets d) k = Some p' \/ displayable p'
}.

#[export] Instance quiet_step_preorder more : PreOrder (quiet_step more).
Proof.
  split.
  - intros d. split; [|by left]. intros k j Hj. left. exists j. split; [done|by left].
  - intros d1 d2 d3 [Hj1 Hp1] [Hj2 Hp2]. split.
    + intros k j3 [(j2 & Hr2 & Hw2)|Hn]%Hj2; [|by right].
      destruct (Hj1 _ _ Hr2) as [(j1 & Hr1 & Hw1)|[Hn Hk]].
      * left. exists j1. split; [done|]. intros Ha. destruct (Hw2 Ha) as [Ha2|]; [by apply Hw1|by right].
      * right. split; [|done]. intros Ha. destruct (Hw2 Ha) as [Ha2|]; [by apply Hn|done].
    + intros k p [Hp|]%Hp2; [by apply Hp1|by right].
Qed.

(** ** Methods that write neither jobs, packets nor sequence states *)

Definition same_work d d' : Prop :=
  jobs d' = jobs d /\ packets d' = packets d /\ sequence_states d' = sequence_states d.

Lemma same_work_quiet more d d' : same_work d d' -> quiet_step more d d'.
Proof. intros (Hj & Hp & _). split; rewrite ?Hj, ?Hp; [|by left]. intros k j Hk. left. exists j. split; [done|by left]. Qed.

(** Another table than those two. *)
Definition other_table `{Countable K} {R} `{!Mapped K R} : Prop :=
  forall (t : table K R) d, same_work d (with_table t d).

Definition frames {A} (m : M A) : Prop := forall w a w', m w = (Ok a, w') -> same_work (db w) (db w').

Lemma frames_ret {A} (a : A) : frames (mret a).
Proof. by intros w b w' [_ ->]%run_ret_ok. Qed.
Lemma frames_raise {A} e : frames (raise (A:=A) e).
Proof. by intros w b w' ?%run_raise_ok. Qed.
Lemma frames_now : frames utc_now.
Proof. by intros w b w' [_ ->]%run_now_ok. Qed.
Lemma frames_uuid : frames draw_uuid4.
Proof. by intros w b w' [_ ->]%run_uuid_ok. Qed.
Lemma frames_get `{Countable K} `{!Mapped K R} k : frames (session_get (R:=R) k).
Proof. by intros w b w' [_ ->]%run_get_ok. Qed.
Lemma frames_scalars `{Countable K} `{!Mapped K R} p : frames (session_scalars (R:=R) p).
Proof. by intros w b w' [_ ->]%run_scalars_ok. Qed.
Lemma frames_scalar `{Countable K} `{!Mapped K R} p : frames (session_scalar (R:=R) p).
Proof. by intros w b w' [_ ->]%run_scalar_ok. Qed.
Lemma frames_add `{Countable K} `{!Mapped K R} (r : R) : other_table (R:=R) -> frames (session_add r).
Proof. intros Ho w b w' (_ & _ & t & _ & ->)%run_add_ok. apply Ho. Qed.
Lemma frames_update `{Countable K} `{!Mapped K R} (r : R) : other_table (R:=R) -> frames (session_update r).
Proof. intros Ho w b w' (t & _ & ->)%run_update_ok. apply Ho. Qed.
Lemma frames_begin {A} (m : M A) : frames m -> frames (session_begin m).
Proof. intros Hm w b w' Hr%run_begin_ok. by eapply Hm. Qed.
Lemma frames_bind {A B} (m : M A) (k : A -> M B) : frames m -> (forall a, frames (k a)) -> frames (m ≫= k).
Proof.
  intros Hm Hk w b w' (a & w1 & Ha & Hb)%run_bind_ok. destruct (Hm _ _ _ Ha) as (? & ? & ?), (Hk _ _ _ _ Hb) as (? & ? & ?). split_and!; congruence.
Qed.
Lemma frames_retry {A} n s (body : M A) : atomic body -> frames body -> frames (retry_on_integrity_error n s body).
Proof. intros Ha Hm w b w' (w1 & Hd & Hr)%run_retry_ok; [|done]. rewrite <- Hd. by eapply Hm. Qed.
Lemma frames_for_each {A} (l : list A) (body : A -> M ()) : (forall a, frames (body a)) -> frames (for_each l body).
Proof. intros Hb. induction l as [|a l IH]; [apply frames_ret|]. by apply frames_bind. Qed.

Lemma audit_frames service event actor out why r p j data : frames (_audit service event actor out why r p j data).
Proof. apply frames_bind; [apply frames_uuid|intros u]. apply frames_bind; [apply frames_now|intros t]. by apply frames_add. Qed.
End Quiet.

Create HintDb frames.
#[export] Hint Resolve frames_ret frames_raise frames_now frames_uuid frames_get frames_scalars frames_scalar
  frames_begin frames_retry frames_for_each audit_frames atomic_begin : frames.
#[export] Hint Extern 1 (frames (session_add _)) => (apply frames_add; intros ? ?; repeat split; reflexivity) : frames.
#[export] Hint Extern 1 (frames (session_update _)) => (apply frames_update; intros ? ?; repeat split; reflexivity) : frames.

(** Through binds, tests and the session operations. *)
Ltac solve_frames :=
  repeat first
    [ solve [auto 3 with frames]
    | simple apply frames_begin | simple apply frames_retry | simple apply frames_bind | simple apply frames_for_each
    | progress intros
    | match goal with
      | |- frames (if ?c then _ else _) => destruct c
      | |- frames (match ?c with _ => _ end) => destruct c
      end ].

Section Methods.
Context `{SqlEngine} `{!SqlLaws} `{Env} `{!UuidLaws}.
Implicit Types (w : world) (d : database).

Lemma frames_record_delivery raw peer presented canonical content received sent chosen :
  frames (record_delivery raw peer presented canonical content received sent chosen).
Proof. unfold record_delivery, first_delivery, add_delivery. solve_frames. Qed.

Lemma frames_reject key why parsed actor : frames (reject_delivery key why parsed actor).
Proof. unfold reject_delivery. solve_frames. Qed.

Lemma frames_record_event service event actor out why r p j data :
  frames (record_audit_event service event actor out why r p j data).
Proof. unfold record_audit_event. solve_frames. Qed.

Lemma frames_get_delivery key : frames (get_delivery key).
Proof. unfold get_delivery. solve_frames. Qed.
Lemma frames_get_job key : frames (get_job key).
Proof. unfold get_job. solve_frames. Qed.
Lemma frames_get_packet key : frames (get_packet key).
Proof. unfold get_packet. solve_frames. Qed.
Lemma frames_get_processed key : frames (get_processed key).
Proof. unfold get_processed. solve_frames. Qed.
Lemma frames_get_job_for_packet key : frames (get_job_for_packet key).
Proof. unfold get_job_for_packet, job_of_packet. solve_frames. Qed.
Lemma frames_recoverable limit : frames (recoverable_queue_jobs limit).
Proof. unfold recoverable_queue_jobs, list_jobs. solve_frames. Qed.
Lemma frames_list_events limit : frames (list_audit_events limit).
Proof. unfold list_audit_events. solve_frames. Qed.

(** ** Methods that write jobs *)

Definition quiet {A} (m : M A) : Prop :=
  forall w a w', consistent (db w) -> m w = (Ok a, w') -> quiet_step (fun _ => False) (db w) (db w').

Lemma frames_quiet {A} (m : M A) : frames m -> quiet m.
Proof. intros Hf w a w' _ Hr. apply same_work_quiet. by eapply Hf. Qed.

(** One job is written over its stored row, and then no job or packet. *)
Lemma quiet_update more d j j' t d' :
  row_at (jobs d) (job_id j) = Some j -> job_id j' = job_id j -> written (jobs d) j' t ->
  (at_work (job_state j') = true -> at_work (job_state j) = true \/ more (job_id j)) ->
  jobs d' = t -> packets d' = packets d -> quiet_step more d d'.
Proof.
  intros Hj Hid Hw Ha Ht Hp. split; [|intros k p; rewrite Hp; by left].
  intros k x. rewrite Ht. intros [(-> & ->)|(_ & Hx)]%(written_inv _ _ _ _ _ Hw).
  - left. exists j. cbn. by rewrite Hid.
  - left. exists x. split; [done|by left].
Qed.

(** [session_update] of a job followed by calls that write neither jobs nor packets. *)
Lemma quiet_job_update {A} more d w j j' (k : () -> M A) a w' :
  db w = d -> row_at (jobs d) (job_id j) = Some j -> job_id j' = job_id j ->
  (at_work (job_state j') = true -> at_work (job_state j) = true \/ more (job_id j)) ->
  (forall u, frames (k u)) -> (session_update j' ≫= k) w = (Ok a, w') -> quiet_step more d (db w').
Proof.
  intros <- Hj Hid Ha Hk (u & w1 & Hu & Hr)%run_bind_ok. run_step Hu. subst.
  destruct (Hk _ _ _ _ Hr) as (Hjs & Hps & _). cbn in Hjs, Hps.
  eapply quiet_update; [done|done|by apply written_update|done|done|done].
Qed.

Lemma quiet_claim key worker lease : quiet (claim_processing_job key worker lease).
Proof.
  unfold claim_processing_job. intros w a w' Hc Hr. do 2 (case_test_in Hr; [by apply run_raise_ok in Hr|]).
  run_step Hr. apply run_begin_ok in Hr. run_step Hr. cbn in Hr.
  destruct (row_at (jobs (db w)) key) as [j|] eqn:Hk; [|by run_step Hr].
  pose proof (job_at _ _ _ Hc Hk) as Hj. run_step Hr. cbn in Hr.
  destruct (row_at (processed (db w)) (job_packet_id j)) as [t|] eqn:Hp.
  - destruct (processed_rows _ Hc _ _ Hp) as (_ & j' & Hj' & Hjp & Hdone).
    assert (processing_job_id t = key) as He by (by eapply job_unique). rewrite He, Hk in Hj'. injection Hj' as <-.
    rewrite bool_decide_eq_true_2 in Hr by done.
    apply run_bind_ok in Hr as (u & w1 & [_ <-]%run_ret_ok & [_ <-]%run_ret_ok). reflexivity.
  - case_test_in Hr; [apply run_ret_ok in Hr as [_ <-]; reflexivity|]. bool_to_prop.
    run_step Hr. cbn in Hr. case_test_in Hr; [|by run_step Hr].
    run_step Hr. cbn in Hr. case_test_in Hr; [|by run_step Hr].
    eapply (quiet_job_update _ _ _ j); [| | | | |exact Hr]; [done|exact Hj|done| |].
    + intros _. left. unfold claimable in Htest1. by destruct (job_state j).
    + intros []. solve_frames.
Qed.

Lemma quiet_fail key worker why temporary base now : quiet (fail_processing_attempt key worker why temporary base now).
Proof.
  unfold fail_processing_attempt. intros w a w' Hc Hr. case_test_in Hr; [by apply run_raise_ok in Hr|].
  apply run_bind_ok in Hr as (at_ & w1 & Ht & Hr).
  assert (db w1 = db w) as Hd by (destruct now; [by apply run_ret_ok in Ht as [_ ->]|by apply run_now_ok in Ht as [_ ->]]).
  rewrite <- Hd in *. clear Ht Hd w. apply run_begin_ok in Hr. run_step Hr. cbn in Hr.
  destruct (row_at (jobs (db w1)) key) as [j|] eqn:Hk; [|by run_step Hr].
  pose proof (job_at _ _ _ Hc Hk) as Hj.
  case_test_in Hr; [apply run_ret_ok in Hr as [_ <-]; reflexivity|].
  case_test_in Hr; [by apply run_raise_ok in Hr|]. case_test_in Hr; [by apply run_raise_ok in Hr|]. bool_to_prop.
  case_test_in Hr; (eapply (quiet_job_update _ _ _ j); [| | | | |exact Hr]; [done|exact Hj|done| |intros []; solve_frames]);
    intros _; left; by rewrite Htest1.
Qed.

Lemma quiet_complete key out worker at_ : quiet (complete_processing_job key out worker at_).
Proof.
  unfold complete_processing_job. intros w a w' Hc Hr. apply run_bind_ok in Hr as (done_at & w1 & Ht & Hr).
  assert (db w1 = db w) as Hd by (destruct at_; [by apply run_ret_ok in Ht as [_ ->]|by apply run_now_ok in Ht as [_ ->]]).
  rewrite <- Hd in *. clear Ht Hd w. apply run_begin_ok in Hr. run_step Hr. cbn in Hr.
  destruct (row_at (jobs (db w1)) key) as [j|] eqn:Hk; [|by run_step Hr].
  pose proof (job_at _ _ _ Hc Hk) as Hj. run_step Hr. cbn in Hr.
  destruct (row_at (processed (db w1)) (job_packet_id j)) as [t|] eqn:Hp.
  - case_test_in Hr; [by apply run_raise_ok in Hr|]. run_step Hr.
    eapply (quiet_job_update _ _ _ j); [| | | | |exact Hr]; [done|exact Hj|done|done|intros []; solve_frames].
  - case_test_in Hr; [by apply run_raise_ok in Hr|]. case_test_in Hr; [by apply run_raise_ok in Hr|].
    apply run_bind_ok in Hr as (u & w2 & Hu & Hr). run_step Hu. subst. apply run_bind_ok in Hr as (u' & w3 & Hu & Hr).
    run_step Hu. subst. cbn in Hup. match type of Hr with ?m _ = _ => assert (frames m) as Hf by solve_frames end.
    destruct (Hf _ _ _ Hr) as (Hjs & Hps & _). cbn in Hjs, Hps.
    eapply (quiet_update _ _ j); [exact Hj| |by apply written_update| |exact Hjs|exact Hps]; done.
Qed.

Lemma accept_new_draws r v n actor w a w' :
  accept_new r v n actor w = (Ok a, w') -> forall u, acceptance_job_id a = Some u -> exists i, u = uuid4 i.
Proof.
  unfold accept_new. intros Ha u Hu. run_step Ha. cbn in Ha. case_test_in Ha.
  - destruct p as [disp missing]. run_step Ha.
    apply run_bind_ok in Ha as (u1 & w1 & _ & Ha). apply run_bind_ok in Ha as (u2 & w2 & _ & Ha).
    do 3 (run_step Ha). apply run_bind_ok in Ha as (u3 & w3 & _ & Ha). run_step Ha.
    apply run_bind_ok in Ha as (u4 & w4 & _ & Ha). apply run_bind_ok in Ha as (u5 & w5 & _ & Ha).
    apply run_ret_ok in Ha as [<- _]. injection Hu as <-. eauto.
  - unfold accept_state_conflict in Ha. run_step Ha. apply run_bind_ok in Ha as (u1 & w1 & _ & Ha).
    apply run_bind_ok in Ha as (u2 & w2 & _ & Ha). by apply run_ret_ok in Ha as [<- _].
Qed.

Lemma frames_settled_accept key v n actor w a w' r :
  row_at (receipts (db w)) key = Some r -> validation_status r <> PENDING ->
  _accept_packet_transaction key v n actor w = (Ok a, w') -> same_work (db w) (db w').
Proof.
  intros Hk Hp Ht. unfold _accept_packet_transaction in Ht. run_step Ht. cbn in Ht. rewrite Hk in Ht.
  case_test_in Ht.
  - assert (frames (replay_acceptance r)) as Hf by (unfold replay_acceptance, job_of_packet; solve_frames).
    exact (Hf _ _ _ Ht).
  - case_test_in Ht; [by apply run_raise_ok in Ht|]. by bool_to_prop.
Qed.

Lemma quiet_accept key v n actor : values_displayable v -> quiet (accept_packet_and_create_job key v n actor).
Proof.
  intros Hv w a w' Hc Ha.
  destruct (row_at (receipts (db w)) key) as [r|] eqn:Hk.
  2: { unfold accept_packet_and_create_job in Ha. unwind Ha.
       apply run_retry_ok in Ha as (w1 & Hd & Ht); [|apply atomic_begin].
       unfold _accept_packet_transaction in Ht. run_step Ht. cbn in Ht. rewrite Hd, Hk in Ht. by run_step Ht. }
  pose proof (receipt_at _ _ _ Hc Hk) as Hat.
  destruct (decide (validation_status r = PENDING)) as [Hpend|Hpend].
  - destruct (accept_run _ _ _ _ _ _ _ _ Ha Hk Hpend) as (Hseq & Hn & w1 & Hd & Hb). rewrite <- Hd in *. clear Hd Ha w.
    pose proof (find_packet _ v Hc) as Hfind. destruct (head _) as [p|].
    + destruct (accept_existing_run _ _ _ _ _ _ _ Hc Hat (proj1 Hfind) Hpend Hb) as (o & r' & t & te & _ & _ & _ & Hd' & _).
      apply same_work_quiet. by rewrite Hd'.
    + destruct (accept_new_run _ _ _ _ _ _ _ Hc Hat Hpend Hn Hseq Hfind Hb)
        as (disp & missing & r' & p & s' & j & tr & tp & ts & tj & te & _ & Hacc & _ & _ & Hd' & Hpk & _ & _ & _ & _ & Hres).
      rewrite Hres in Hb. destruct Hacc. rewrite Hd'. split; cbn.
      * intros k x [(-> & ->)|(_ & Hx)]%(written_inv _ _ _ _ _ acc_jobs).
        -- right. rewrite acc_job_state. split; [done|]. destruct (accept_new_draws _ _ _ _ _ _ _ Hb _ eq_refl) as [i Hi].
           change (primary_key j) with (job_id j). rewrite Hi. apply uuid4_range.
        -- left. exists x. split; [done|by left].
      * intros k x [(-> & ->)|(_ & Hx)]%(written_inv _ _ _ _ _ acc_packets); [right|by left].
        unfold displayable. injection Hpk as -> -> _. exact Hv.
  - unfold accept_packet_and_create_job in Ha. unwind Ha. apply run_retry_ok in Ha as (w1 & Hd & Ht); [|apply atomic_begin].
    apply same_work_quiet. rewrite <- Hd. eapply (frames_settled_accept key v n actor w1); [|exact Hpend|exact Ht]. by rewrite Hd.
Qed.

(** [mark_job_queued] puts at most its own job to work. *)
Lemma mark_puts_to_work key message actor w a w' :
  consistent (db w) -> mark_job_queued key message actor w = (Ok a, w') ->
  quiet_step (fun k => k = key) (db w) (db w') /\ is_Some (row_at (jobs (db w)) key).
Proof.
  unfold mark_job_queued. intros Hc Hr. apply run_begin_ok in Hr. run_step Hr. cbn in Hr.
  destruct (row_at (jobs (db w)) key) as [j|] eqn:Hk; [|by run_step Hr]. split; [|done].
  pose proof (job_at _ _ _ Hc Hk) as Hj. assert (job_id j = key) as Hid by (by destruct (job_rows _ Hc _ _ Hk)).
  case_test_in Hr.
  { case_test_in Hr; [by apply run_raise_ok in Hr|]. apply run_ret_ok in Hr as [_ <-]. reflexivity. }
  case_test_in Hr; [by apply run_raise_ok in Hr|]. run_step Hr.
  eapply (quiet_job_update _ _ _ j); [| | | | |exact Hr]; [done|exact Hj|done| |intros []; solve_frames].
  intros _. right. exact Hid.
Qed.
End Methods.
