(* ===== verification/RepositoryJobs.v ===== *)
(** * Processing jobs: claims, leases, retries and results *)
From Stdlib Require Import SpecFloat.
From S2P Require Import Prelude PyFormat Sha256 Uuid Json Sql Schema Session Repository RepositoryInv RepositorySafe RepositoryAccept RepositoryProps RepositoryExample.

Open Scope Z_scope.

Section Jobs.
Context `{SqlEngine} `{!SqlLaws} `{Env}.
Implicit Types (w : world) (d : database).

(** ** Lemmas *)

(** Only a completed job has a result. *)
Lemma no_result d k j :
  consistent d -> row_at (jobs d) k = Some j -> job_state j <> COMPLETE -> row_at (processed d) (job_packet_id j) = None.
Proof.
  intros Hc Hj Hs. destruct (row_at (processed d) (job_packet_id j)) as [t|] eqn:Ht; [|done].
  destruct (processed_rows _ Hc _ _ Ht) as (_ & j' & Hj' & Hp & Hcm).
  assert (processing_job_id t = k) as He by (by eapply job_unique). congruence.
Qed.

Lemma claimable_active now j : claimable now j = true -> job_state j <> COMPLETE.
Proof. unfold claimable. intros Hcl Hs. by rewrite Hs in Hcl. Qed.

Lemma raise_begin {A} e w (block : M A) w' : block w = (Raise e, w') -> session_begin block w = (Raise e, with_db (db w) w').
Proof. unfold session_begin. by intros ->. Qed.

Lemma begin_ok {A} (block : M A) w a w' : block w = (Ok a, w') -> session_begin block w = (Ok a, w').
Proof. unfold session_begin. by intros ->. Qed.

Lemma run_now w : utc_now w = (Ok (clock (clock_reads w)), mk_world (db w) (S (clock_reads w)) (uuid_draws w)).
Proof. done. Qed.

(** The foreign keys of a job's audit event. *)
Lemma job_event_keys d j :
  consistent d -> row_at (jobs d) (job_id j) = Some j -> present (packets d) (job_packet_id j) = true.
Proof. intros Hc Hj. destruct (job_rows _ Hc _ _ Hj) as (_ & _ & [p Hp]). by eapply present_row. Qed.

Lemma update_job_total w j j' :
  row_at (jobs (db w)) (job_id j) = Some j -> job_id j' = job_id j -> job_packet_id j' = job_packet_id j -> job_ok j' ->
  fits_update j j' = true ->
  exists t, session_update j' w = (Ok tt, with_db (set_jobs t (db w)) w) /\
    row_at t (job_id j) = Some j' /\ written (jobs (db w)) j' t.
Proof.
  intros Hj Hid Hp (Ha & Hm & _) Hfit. destruct (update_total j j' w) as (t & Ht & Hrun).
  - cbn. by rewrite Hid.
  - done.
  - cbn. apply andb_true_iff. split; [by apply Z.leb_le|by apply Z.ltb_lt].
  - intros x. cbn. by rewrite Hp.
  - exists t. split; [done|]. split; [|by apply written_update]. rewrite <- Hid. exact (row_at_updated _ _ _ Ht).
Qed.

(** ** Claims *)

(** The job as a claim at [now] leaves it. *)
Definition claimed_job (j : TelemetryProcessingJob) (worker : string) (now lease : Z) : TelemetryProcessingJob :=
  j |> set_job_state PROCESSING |> set_attempt_count (attempt_count j + 1) |> set_claimed_by (Some worker)
    |> set_claimed_at (Some now) |> set_lease_expires_at (Some (now + seconds lease))
    |> set_next_attempt_at None |> set_job_updated_at now.

Lemma claimed_job_ok j worker now lease : job_ok j -> job_ok (claimed_job j worker now lease).
Proof. intros (Ha & Hm & _). repeat split; cbn; (lia || done). Qed.

Lemma claim_total key worker lease w j :
  consistent (db w) -> fresh_uuids w -> worker <> ""%string -> Z.of_nat (String.length worker) <= 255 -> 0 < lease ->
  row_at (jobs (db w)) key = Some j -> claimable (clock (clock_reads w)) j = true ->
  exists p r w', row_at (packets (db w)) (job_packet_id j) = Some p /\
    row_at (receipts (db w)) (source_receipt_id p) = Some r /\
    claim_processing_job key worker lease w = (Ok (Some {|
      work_job_id := key; work_packet_id := packet_id p; work_raw_body := raw_body r;
      work_received_at := received_at r; work_values := packet_values p;
      work_attempt_count := attempt_count j + 1; work_max_attempts := max_attempts j |}), w') /\
    row_at (jobs (db w')) key = Some (claimed_job j worker (clock (clock_reads w)) lease) /\
    uuid_draws w' = S (uuid_draws w) /\
    (forall u, u <> uuid4 (uuid_draws w) -> row_at (events (db w')) u = row_at (events (db w)) u).
Proof.
  intros Hc Hf Hwk Hlen Hl Hk Hcl. destruct (job_rows _ Hc _ _ Hk) as (Hid & Hok & [p Hp]).
  destruct (packet_rows _ Hc _ _ Hp) as (Hpid & _ & _ & r & Hr & _).
  assert (receipt_id r = source_receipt_id p) as Hrid by (by destruct (receipt_rows _ Hc _ _ Hr)).
  exists p, r. unfold claim_processing_job. rewrite (bool_decide_eq_false_2 (worker = _)) by done.
  destruct (Z.leb_spec lease 0); [lia|]. pure_next.
  set (now := clock (clock_reads w)) in *.
  destruct (update_job_total (mk_world (db w) (S (clock_reads w)) (uuid_draws w)) j (claimed_job j worker now lease))
    as (t & Hup & Hat & _); [by rewrite Hid|done|done|by apply claimed_job_ok|solve_fits_changed|].
  assert (exists w', _audit "payload-worker" "telemetry.processing.claimed" worker "PROCESSING" None
    (Some (receipt_id r)) (Some (packet_id p)) (Some (job_id j)) [("attempt_count"%string, JInt (attempt_count j + 1))]
    (with_db (set_jobs t (db w)) (mk_world (db w) (S (clock_reads w)) (uuid_draws w))) = (Ok tt, w')) as [w' Haud].
  { apply audit_total; cbn; [done|done|lia|done|rewrite Hpid; by apply short_fits, (packet_names _ Hc _ (ex_intro _ p Hp))|rewrite Hrid; by eapply present_row|rewrite Hpid; by eapply present_row|by eapply present_row|].
    apply (Hf (uuid_draws w)); lia. }
  exists w'. split; [done|]. split; [done|]. split.
  - apply begin_ok. pure_next. cbn. rewrite Hk. pure_next. cbn.
    rewrite (no_result _ _ _ Hc Hk) by (by eapply claimable_active). rewrite Hcl. cbn.
    pure_next. cbn. rewrite Hp. pure_next. cbn. rewrite Hr. run_next Hup. run_next Haud. by rewrite <- Hid.
  - unfold _audit in Haud. do 3 run_step Haud. subst. split; [done|]. split; [done|]. cbn.
    intros u Hu. apply written_insert in Hin. by rewrite (Hin u), decide_False.
Qed.

(** C26. A claim delivers the evidence: a worker that claims a queued job, a due retry or an expired
    lease gets the bytes, receipt time and decoded values that were stored when the packet was
    accepted, bytes whose digest is the packet's; the job is then leased to it until the lease time
    has passed and its attempt is counted.  The worker's name must fit its column of 255 characters. *)
Theorem claim_delivers_evidence key worker lease w j :
  consistent (db w) -> fresh_uuids w -> worker <> ""%string -> Z.of_nat (String.length worker) <= 255 -> 0 < lease ->
  row_at (jobs (db w)) key = Some j -> claimable (clock (clock_reads w)) j = true ->
  exists p r item w', claim_processing_job key worker lease w = (Ok (Some item), w') /\
    row_at (packets (db w)) (job_packet_id j) = Some p /\ row_at (receipts (db w)) (source_receipt_id p) = Some r /\
    work_raw_body item = raw_body r /\ sha256_hexdigest (work_raw_body item) = raw_sha256 p /\
    work_received_at item = received_at r /\ work_values item = packet_values p /\
    work_attempt_count item = attempt_count j + 1 /\
    row_at (jobs (db w')) key = Some (claimed_job j worker (clock (clock_reads w)) lease).
Proof.
  intros Hc Hf Hwk Hlen Hl Hk Hcl.
  destruct (claim_total key worker lease w j Hc Hf Hwk Hlen Hl Hk Hcl) as (p & r & w' & Hp & Hr & Hrun & Hrow & _).
  destruct (packet_rows _ Hc _ _ Hp) as (_ & _ & _ & r' & Hr' & _ & _ & Hsha). rewrite Hr in Hr'. injection Hr' as <-.
  destruct (receipt_rows _ Hc _ _ Hr) as (_ & (_ & _ & Hdig) & _).
  exists p, r. eexists. exists w'. split; [exact Hrun|]. cbn. split_and!; try done. congruence.
Qed.

(** The stored row of a job that worker [me] holds until [expiry]. *)
Definition held (me : string) (expiry : Z) (j : TelemetryProcessingJob) : Prop :=
  job_state j = PROCESSING /\ claimed_by j = Some me /\ lease_expires_at j = Some expiry.

(** C27. Exclusive leases: while a worker's lease has not passed, no other claim gets the job, and
    another worker can neither complete nor fail it; these calls leave the tables as they are. *)
Theorem lease_exclusive key me expiry j w other lease out at_ why temporary base failed_at_ :
  consistent (db w) -> row_at (jobs (db w)) key = Some j -> held me expiry j ->
  (other <> ""%string -> 0 < lease -> clock (clock_reads w) < expiry ->
     exists w', claim_processing_job key other lease w = (Ok None, w') /\ db w' = db w) /\
  (other <> me -> exists m w', complete_processing_job key out other at_ w = (Raise (InvalidDeliveryStateError m), w') /\
     db w' = db w) /\
  (other <> me -> 0 < base -> exists m w',
     fail_processing_attempt key other why temporary base failed_at_ w = (Raise (InvalidDeliveryStateError m), w') /\
     db w' = db w).
Proof.
  intros Hc Hk (Hst & Hby & Hexp).
  pose proof (no_result _ _ _ Hc Hk ltac:(by rewrite Hst)) as Hnone.
  assert (claimed_by j <> Some other \/ other = me) as Hown by (destruct (decide (other = me)); [by right|left; congruence]).
  split; [|split].
  - intros Hwk Hl Hbefore. unfold claim_processing_job. rewrite (bool_decide_eq_false_2 (other = _)) by done.
    destruct (Z.leb_spec lease 0); [lia|]. pure_next.
    exists (mk_world (db w) (S (clock_reads w)) (uuid_draws w)). split; [|done]. apply begin_ok.
    pure_next. cbn. rewrite Hk. pure_next. cbn. rewrite Hnone.
    assert (claimable (clock (clock_reads w)) j = false) as ->; [|done].
    unfold claimable. rewrite Hst, Hexp. cbn. destruct (Z.leb_spec expiry (clock (clock_reads w))); [lia|done].
  - intros Hne. unfold complete_processing_job.
    assert (exists t w1, (match at_ with Some t => mret t | None => utc_now end : M Z) w = (Ok t, w1) /\ db w1 = db w)
      as (t & w1 & Hnow & Hd) by (destruct at_; by do 2 eexists).
    run_next Hnow. do 2 eexists. split; [apply raise_begin|exact Hd].
    pure_next. cbn. rewrite Hd, Hk. pure_next. cbn. rewrite Hd, Hnone, Hst.
    rewrite (bool_decide_eq_true_2 (PROCESSING = PROCESSING)) by done. cbn.
    rewrite bool_decide_eq_false_2 by (by destruct Hown). done.
  - intros Hne Hb. unfold fail_processing_attempt. destruct (Z.leb_spec base 0); [lia|].
    assert (exists t w1, (match failed_at_ with Some t => mret t | None => utc_now end : M Z) w = (Ok t, w1) /\ db w1 = db w)
      as (t & w1 & Hnow & Hd) by (destruct failed_at_; by do 2 eexists).
    run_next Hnow. do 2 eexists. split; [apply raise_begin|exact Hd].
    pure_next. cbn. rewrite Hd, Hk, Hst.
    rewrite (bool_decide_eq_false_2 (PROCESSING = FAILED)), (bool_decide_eq_true_2 (PROCESSING = PROCESSING)) by done. cbn.
    rewrite bool_decide_eq_false_2 by (by destruct Hown). done.
Qed.

(** ** Failures *)

Lemma backoff_range base attempts : 0 < base -> 1 <= backoff_seconds base attempts <= 300.
Proof.
  intros Hb. unfold backoff_seconds. assert (0 < 2 ^ Z.max (attempts - 1) 0) by (apply Z.pow_pos_nonneg; lia). nia.
Qed.

(** A job written with its identifiers unchanged, and the event that tells of it. *)
Lemma update_and_audit w j j' event worker outcome_ why data :
  consistent (db w) -> fresh_uuids w -> row_at (jobs (db w)) (job_id j) = Some j -> is_Some (row_at (packets (db w)) (job_packet_id j)) ->
  job_id j' = job_id j -> job_packet_id j' = job_packet_id j -> job_ok j' -> fits_update j j' = true ->
  fits_column (128, Some event) = true -> Z.of_nat (String.length worker) <= 255 -> fits_column (64, Some outcome_) = true ->
  exists t w', session_update j' w = (Ok tt, with_db (set_jobs t (db w)) w) /\
    _audit "payload-worker" event worker outcome_ why None (Some (job_packet_id j')) (Some (job_id j')) data
      (with_db (set_jobs t (db w)) w) = (Ok tt, w') /\ row_at (jobs (db w')) (job_id j) = Some j'.
Proof.
  intros Hc Hf Hk [p Hp] Hij Hpj Hokj Hfit Hfe Hlen Hfo.
  destruct (update_job_total w j j') as (t & Hup & Hat & _); [done..|].
  destruct (audit_total "payload-worker" event worker outcome_ why None (Some (job_packet_id j')) (Some (job_id j'))
    data (with_db (set_jobs t (db w)) w)) as [w' Haud].
  - done.
  - done.
  - lia.
  - done.
  - rewrite Hpj. by apply short_fits, (packet_names _ Hc _ (ex_intro _ p Hp)).
  - done.
  - cbn. rewrite Hpj. by eapply present_row.
  - cbn. rewrite Hij. by eapply present_row.
  - apply (Hf (uuid_draws w)); lia.
  - exists t, w'. split; [done|]. split; [done|]. unfold _audit in Haud. do 3 run_step Haud. subst. done.
Qed.

(** C28. Failed attempts: when its worker reports a failure, a job with attempts left and a temporary
    reason waits for a retry, between one second and five minutes, doubling with each attempt; with
    a permanent reason or no attempt left it is failed for good.  The result reports the stored row
    and the reason is kept. *)
Theorem fail_schedules_retry key worker why temporary base at_ w j :
  consistent (db w) -> fresh_uuids w -> 0 < base -> row_at (jobs (db w)) key = Some j ->
  job_state j = PROCESSING -> claimed_by j = Some worker ->
  exists res w' j', fail_processing_attempt key worker why temporary base (Some at_) w = (Ok res, w') /\
    row_at (jobs (db w')) key = Some j' /\ failure_state res = job_state j' /\
    failure_attempt_count res = attempt_count j /\ attempt_count j' = attempt_count j /\
    last_error j' = Some why /\ lease_expires_at j' = None /\ failure_next_attempt_at res = next_attempt_at j' /\
    if negb temporary || (max_attempts j <=? attempt_count j)
    then job_state j' = FAILED /\ failed_at j' = Some at_ /\ next_attempt_at j' = None
    else job_state j' = RETRY_WAIT /\
      exists delay, next_attempt_at j' = Some (at_ + delay * 1_000_000) /\ 1 <= delay <= 300 /\
        delay = Z.min (base * 2 ^ (attempt_count j - 1)) 300.
Proof.
  intros Hc Hf Hb Hk Hst Hby. destruct (job_rows _ Hc _ _ Hk) as (Hid & Hok & [p Hp]).
  pose proof Hok as (Ha & Hm & Hstate). rewrite Hst in Hstate. destruct Hstate as (Hone & _).
  unfold fail_processing_attempt. destruct (Z.leb_spec base 0); [lia|]. pure_next.
  assert (row_at (jobs (db w)) (job_id j) = Some j) as Hk' by (by rewrite Hid).
  pose proof (job_claims _ Hc _ _ Hk) as Hlen. rewrite Hby in Hlen. apply Z.leb_le in Hlen. cbn in Hlen.
  destruct (negb temporary || (max_attempts j <=? attempt_count j)) eqn:Hfin.
  - destruct (update_and_audit w j (j |> set_last_error (Some why) |> set_lease_expires_at None |> set_job_updated_at at_
        |> set_job_state FAILED |> set_failed_at (Some at_) |> set_next_attempt_at None)
        "telemetry.processing.failed" worker "FAILED" (Some why)
        [("attempt_count", JInt (attempt_count j)); ("max_attempts", JInt (max_attempts j));
         ("next_attempt_at", JNull)]%string Hc Hf Hk' (ex_intro _ p Hp) eq_refl eq_refl ltac:(repeat split; cbn; (lia || done))
        ltac:(by apply fits_unchanged) eq_refl Hlen eq_refl)
      as (t & w' & Hup & Haud & Hrow). rewrite Hid in Hrow.
    do 3 eexists. split.
    + apply begin_ok. pure_next. cbn. rewrite Hk, Hst, Hby.
      rewrite (bool_decide_eq_false_2 (PROCESSING = FAILED)), (bool_decide_eq_true_2 (PROCESSING = PROCESSING)) by done.
      cbn. rewrite bool_decide_eq_true_2 by done. cbn. rewrite Hfin. run_next Hup. run_next Haud. done.
    + cbn. split_and!; done.
  - assert (attempt_count j < max_attempts j) as Hleft by (bool_to_prop; lia).
    destruct (update_and_audit w j (j |> set_last_error (Some why) |> set_lease_expires_at None |> set_job_updated_at at_
        |> set_job_state RETRY_WAIT
        |> set_next_attempt_at (Some (at_ + seconds (backoff_seconds base (attempt_count j)))))
        "telemetry.processing.retry_scheduled" worker "RETRY_WAIT" (Some why)
        [("attempt_count", JInt (attempt_count j)); ("max_attempts", JInt (max_attempts j));
         ("next_attempt_at", JString (isoformat_utc (at_ + seconds (backoff_seconds base (attempt_count j)))))]%string
        Hc Hf Hk' (ex_intro _ p Hp) eq_refl eq_refl ltac:(repeat split; cbn; (lia || done))
        ltac:(by apply fits_unchanged) eq_refl Hlen eq_refl)
      as (t & w' & Hup & Haud & Hrow). rewrite Hid in Hrow.
    do 3 eexists. split.
    + apply begin_ok. pure_next. cbn. rewrite Hk, Hst, Hby.
      rewrite (bool_decide_eq_false_2 (PROCESSING = FAILED)), (bool_decide_eq_true_2 (PROCESSING = PROCESSING)) by done.
      cbn. rewrite bool_decide_eq_true_2 by done. cbn.
      rewrite Hfin. run_next Hup. run_next Haud. done.
    + cbn. split_and!; try done.
      exists (backoff_seconds base (attempt_count j)). split; [done|]. split; [by apply backoff_range|].
      unfold backoff_seconds. by rewrite Z.max_l by lia.
Qed.

(** ** Results *)

(** A returned completion leaves the job's packet with the returned result. *)
Lemma complete_run key out worker at_ w t w1 :
  consistent (db w) -> complete_processing_job key out worker at_ w = (Ok t, w1) ->
  exists j, row_at (jobs (db w1)) key = Some j /\ job_packet_id j = processed_packet_id t /\
    row_at (processed (db w1)) (processed_packet_id t) = Some t.
Proof.
  intros Hc Hr. unfold complete_processing_job in Hr. apply run_bind_ok in Hr as (at' & w0 & Hnow & Hr).
  assert (db w0 = db w) as Hd by (destruct at_; [by apply run_ret_ok in Hnow as [_ <-]|by apply run_now_ok in Hnow as [_ ->]]).
  run_step Hr. cbn in Hr. rewrite Hd in Hr.
  destruct (row_at (jobs (db w)) key) as [j|] eqn:Hk; [|by run_step Hr].
  destruct (job_rows _ Hc _ _ Hk) as (Hid & _ & _).
  run_step Hr. cbn in Hr. rewrite Hd in Hr.
  destruct (row_at (processed (db w)) (job_packet_id j)) as [x|] eqn:Hp.
  - case_test_in Hr; [by apply run_raise_ok in Hr|]. run_step Hr.
    apply run_bind_ok in Hr as (u & w2 & Hu & Hr). run_step Hu. subst. apply run_ret_ok in Hr as [-> <-]. cbn.
    apply written_update, written_at in Hup. cbn in Hup. rewrite Hd in *.
    destruct (processed_rows _ Hc _ _ Hp) as (Hpid & _). rewrite Hpid. eauto.
  - case_test_in Hr; [by apply run_raise_ok in Hr|]. case_test_in Hr; [by apply run_raise_ok in Hr|].
    apply run_bind_ok in Hr as (u & w2 & Hu & Hr). run_step Hu. subst.
    apply run_bind_ok in Hr as (u' & w3 & Hu & Hr). run_step Hu. subst.
    apply run_bind_ok in Hr as (u'' & w4 & Hu & Hr). unfold _audit in Hu. do 3 run_step Hu. subst.
    apply run_ret_ok in Hr as [<- <-]. cbn.
    apply written_update, written_at in Hup. apply written_insert, written_at in Hin. eauto.
Qed.

(** The worker that holds a job completes it. *)
Definition result_of (j : TelemetryProcessingJob) (out : ProcessingResultValues) (at_ : Z) : ProcessedTelemetry := {|
  processed_packet_id := job_packet_id j; processing_job_id := job_id j;
  temperature_c := r_temperature_c out; voltage_v := r_voltage_v out;
  mode_name := r_operating_mode out; fault_names := r_fault_names out;
  classification := r_classification out; stale := r_is_stale out;
  processor_version := r_processor_version out; processed_at := at_ |}.

Lemma complete_total key out worker w j :
  consistent (db w) -> row_at (events (db w)) (uuid4 (uuid_draws w)) = None ->
  Z.of_nat (String.length (r_operating_mode out)) <= 32 -> Z.of_nat (String.length (r_processor_version out)) <= 64 ->
  row_at (jobs (db w)) key = Some j -> job_state j = PROCESSING -> claimed_by j = Some worker ->
  exists w', complete_processing_job key out worker None w = (Ok (result_of j out (clock (clock_reads w))), w').
Proof.
  intros Hc Hf Hmode Hversion Hk Hst Hby. destruct (job_rows _ Hc _ _ Hk) as (Hid & (Ha & Hm & _) & [p Hp]).
  pose proof (job_claims _ Hc _ _ Hk) as Hlen. rewrite Hby in Hlen. apply Z.leb_le in Hlen. cbn in Hlen.
  pose proof (packet_names _ Hc _ (ex_intro _ p Hp)) as Hname.
  pose proof (no_result _ _ _ Hc Hk ltac:(by rewrite Hst)) as Hn. unfold complete_processing_job.
  pure_next. set (w0 := mk_world (db w) (S (clock_reads w)) (uuid_draws w)). set (now := clock (clock_reads w)).
  unfold session_begin. pure_next. cbn. rewrite Hk. pure_next. cbn. rewrite Hn, Hst, Hby, !bool_decide_eq_true_2 by done.
  cbn [negb]. destruct (add_total (result_of j out now) w0) as (tp & Htp & Hadd).
  { solve_fits. }
  { cbn. rewrite Hid. apply andb_true_iff. split; by eapply present_row. }
  { exact Hn. } { done. }
  { cbn. intros t [kt Ht]%elem_of_rows. apply Z.eqb_neq. intros He.
    destruct (processed_rows _ Hc _ _ Ht) as (_ & j' & Hj' & Hp' & Hcm). rewrite <- He, Hid, Hk in Hj'. congruence. }
  run_next Hadd.
  destruct (update_job_total (with_db (with_table tp (db w0)) w0) j
    (j |> set_job_state COMPLETE |> set_completed_at (Some now) |> set_lease_expires_at None
       |> set_next_attempt_at None |> set_last_error None |> set_job_updated_at now)) as (tj & Hup & Hat & _);
    [cbn; by rewrite Hid|done|done|repeat split; cbn; (lia || done)|by apply fits_unchanged|].
  run_next Hup.
  match goal with |- context [(_audit ?a ?b ?c ?d ?e ?f ?g ?h ?i ≫= _) ?w1] =>
    destruct (audit_total a b c d e f g h i w1) as [w2 Haud] end;
    [done|done|lia|done|by apply short_fits|done|by eapply present_row|by eapply present_row|done|].
  run_next Haud. by eexists.
Qed.

(** C29. One result per packet: once a completion has returned a result, then after any further calls
    it is still stored, completing the job again returns it when the values are the same and is
    refused when they differ, and no claim ever gets the job again. *)
Theorem result_final key out worker at_ w t w1 cs out' worker' at_' lease :
  consistent (db w) -> complete_processing_job key out worker at_ w = (Ok t, w1) ->
  worker' <> ""%string -> 0 < lease ->
  let w2 := run_calls cs w1 in
  row_at (processed (db w2)) (processed_packet_id t) = Some t /\
  (exists r w3, complete_processing_job key out' worker' at_' w2 = (r, w3) /\
     if _same_processing_result t out' then r = Ok t
     else db w3 = db w2 /\ exists m, r = Raise (ProcessingResultConflictError m)) /\
  (exists w3, claim_processing_job key worker' lease w2 = (Ok None, w3) /\ db w3 = db w2).
Proof.
  intros Hc Hcmp Hwk Hl w2. destruct (safe_complete _ _ _ _ _ _ _ Hcmp Hc) as [Hc1 _].
  destruct (complete_run _ _ _ _ _ _ _ Hc Hcmp) as (j & Hj & Hjp & Ht).
  destruct (run_calls_step cs w1 Hc1) as [Hc2 He]. fold w2 in Hc2, He.
  destruct (results_kept _ _ He _ _ Ht) as (t' & Ht' & <-).
  destruct (jobs_evolve _ _ He _ _ Hj) as (j' & Hj' & Hji & Hjp' & _). rewrite Hjp in Hjp'.
  destruct (job_rows _ Hc2 _ _ Hj') as (Hid & Hok & _).
  assert (job_state j' = COMPLETE) as Hdone.
  { destruct (processed_rows _ Hc2 _ _ Ht') as (_ & j2 & Hj2 & Hp2 & Hs2).
    assert (processing_job_id t = key) as <- by (by eapply (job_unique _ Hc2 _ j2 _ j'); [..|congruence]). congruence. }
  split; [done|]. split.
  - unfold complete_processing_job.
    assert (exists a w3, (match at_' with Some t => mret t | None => utc_now end : M Z) w2 = (Ok a, w3) /\ db w3 = db w2)
      as (a & w3 & Hnow & Hd) by (destruct at_'; by do 2 eexists).
    run_next Hnow. destruct (_same_processing_result t out') eqn:Hsame.
    + match goal with |- context [session_begin ?b w3] => assert (exists w4, b w3 = (Ok t, w4)) as [w4 Hrun] end.
      { pure_next. cbn. rewrite Hd, Hj'. pure_next. cbn. rewrite Hd, Hjp', Ht', Hsame. cbn. pure_next.
        match goal with |- context [(session_update ?x ≫= _) ?w0] =>
          destruct (update_job_total w0 j' x) as (tj & Hup & _) end; [by cbn; rewrite Hd, Hid|done|done| | |].
        - destruct Hok as (? & ? & _). repeat split; cbn; (lia || done).
        - by apply fits_unchanged.
        - run_next Hup. eauto. }
      do 2 eexists. split; [apply begin_ok, Hrun|done].
    + do 2 eexists. split; [apply raise_begin|by eauto].
      pure_next. cbn. rewrite Hd, Hj'. pure_next. cbn. rewrite Hd, Hjp', Ht', Hsame. done.
  - unfold claim_processing_job. rewrite (bool_decide_eq_false_2 (worker' = _)) by done.
    destruct (Z.leb_spec lease 0); [lia|]. pure_next.
    exists (mk_world (db w2) (S (clock_reads w2)) (uuid_draws w2)). split; [|done]. apply begin_ok.
    pure_next. cbn. rewrite Hj'. pure_next. cbn. rewrite Hjp', Ht', Hdone.
    by rewrite (bool_decide_eq_true_2 (COMPLETE = COMPLETE)).
Qed.

(** ** Listings *)

(** A job that a restarted queue must be given again at time [now]. *)
Definition recoverable (now : Z) (j : TelemetryProcessingJob) : Prop :=
  job_state j = PENDING_QUEUE \/ job_state j = QUEUED \/
  (job_state j = RETRY_WAIT /\ exists t, next_attempt_at j = Some t /\ t <= now).

(** Recovery list: reconstructing a lost queue lists recoverable jobs only, oldest first; it
    lists all of them whenever the limit allows, so no accepted packet is forgotten. *)
Theorem recovery_list_complete limit w :
  consistent (db w) -> 1 <= limit <= 10_000 ->
  exists keys w', recoverable_queue_jobs limit w = (Ok keys, w') /\ db w' = db w /\
    Z.of_nat (length keys) <= limit /\
    (forall k, k ∈ keys -> exists j, row_at (jobs (db w)) k = Some j /\ recoverable (clock (clock_reads w)) j) /\
    (Z.of_nat (length keys) < limit -> forall k j, row_at (jobs (db w)) k = Some j ->
       recoverable (clock (clock_reads w)) j -> k ∈ keys) /\
    (forall a b ka kb ja jb, (a < b)%nat -> keys !! a = Some ka -> keys !! b = Some kb ->
       row_at (jobs (db w)) ka = Some ja -> row_at (jobs (db w)) kb = Some jb -> job_created_at ja <= job_created_at jb).
Proof.
  intros Hc Hlim. unfold recoverable_queue_jobs.
  destruct (Z.leb_spec 1 limit); [|lia]. destruct (Z.leb_spec limit 10_000); [|lia]. cbn [andb negb]. pure_next.
  set (now := clock (clock_reads w)). unfold list_jobs.
  match goal with |- context [session_scalars ?p] => set (wanted := p) end.
  assert (forall j, wanted j = true <-> recoverable now j) as Hw.
  { intros j. unfold wanted, recoverable, due. rewrite !orb_true_iff, !andb_true_iff, !bool_decide_eq_true.
    destruct (next_attempt_at j) as [t|]; cbn; [rewrite Z.leb_le|]; naive_solver. }
  set (found := List.filter wanted (rows (jobs (db w)))).
  set (sorted := order_by job_created_at found).
  assert (forall j, j ∈ sorted <-> j ∈ rows (jobs (db w)) /\ wanted j = true) as Hin.
  { intros j. unfold sorted. rewrite order_by_perm. unfold found.
    by rewrite !list_elem_of_In, filter_In. }
  assert (forall j, j ∈ sorted -> row_at (jobs (db w)) (job_id j) = Some j) as Hrow.
  { intros j [[k Hk]%elem_of_rows _]%Hin. by eapply job_at. }
  exists (job_id <$> take (Z.to_nat limit) sorted). eexists. split; [by apply begin_ok|]. split; [done|].
  split_and!.
  - rewrite length_fmap, length_take. lia.
  - intros k (j & -> & Hj)%list_elem_of_fmap. apply elem_of_take in Hj as (i & Hj & _).
    apply list_elem_of_lookup_2 in Hj. exists j. split; [by apply Hrow|]. by apply Hw, Hin.
  - intros Hlen k j Hk Hrec. rewrite length_fmap, length_take in Hlen.
    rewrite take_ge by lia. destruct (job_rows _ Hc _ _ Hk) as (<- & _).
    apply list_elem_of_fmap_2, Hin. split; [apply elem_of_rows; eauto|by apply Hw].
  - intros a b ka kb ja jb Hab Ha Hb Hja Hjb.
    apply list_lookup_fmap_Some in Ha as (xa & -> & Hxa%lookup_take_Some).
    apply list_lookup_fmap_Some in Hb as (xb & -> & Hxb%lookup_take_Some).
    destruct Hxa as [Hxa _], Hxb as [Hxb _].
    rewrite Hrow in Hja by (by eapply list_elem_of_lookup_2). rewrite Hrow in Hjb by (by eapply list_elem_of_lookup_2).
    injection Hja as <-. injection Hjb as <-.
    by apply (sorted_before _ _ a b _ _ (order_by_sorted job_created_at found)).
Qed.

End Jobs.

(** ** Witnesses *)

Lemma claim_delivers_evidence_witness :
  exists item w', claim_processing_job example_job "worker-1" 60 queued_world = (Ok (Some item), w') /\
    work_raw_body item = example_raw /\ work_attempt_count item = 1.
Proof.
  destruct (row_at (jobs (db queued_world)) example_job) as [j|] eqn:Hj; [|by vm_compute in Hj].
  assert (claimable (clock (clock_reads queued_world)) j = true) as Hcl by (vm_compute in Hj; injection Hj as <-; vm_compute; reflexivity).
  destruct (claim_delivers_evidence example_job "worker-1"%string 60 queued_world j queued_consistent
    ltac:(by apply fresh_example; vm_compute) ltac:(discriminate) ltac:(vm_compute; discriminate) ltac:(reflexivity) Hj Hcl)
    as (p & r & item & w' & Hrun & _).
  exists item, w'. split; [exact Hrun|]. vm_compute in Hrun. injection Hrun as <- _. repeat split.
Defined.

Lemma lease_exclusive_witness :
  exists w', claim_processing_job example_job "worker-2" 60 claimed_world = (Ok None, w') /\ db w' = db claimed_world.
Proof.
  destruct (row_at (jobs (db claimed_world)) example_job) as [j|] eqn:Hj; [|by vm_compute in Hj].
  assert (held "worker-1"%string (1_784_203_201_000_000 + 1_000_000 * 72) j) as Hh.
  { vm_compute in Hj. injection Hj as <-. split; [|split]; vm_compute; reflexivity. }
  destruct (lease_exclusive example_job "worker-1"%string _ j claimed_world "worker-2"%string 60 example_result None
    "stolen"%string true 1 None claimed_consistent Hj Hh) as [Hclaim _].
  apply Hclaim; [discriminate|reflexivity|by vm_compute].
Defined.

Lemma fail_schedules_retry_witness :
  exists res w', fail_processing_attempt example_job "worker-1" "database restarting" true 4
      (Some 1_784_203_300_000_000) claimed_world = (Ok res, w') /\
    failure_state res = RETRY_WAIT /\ failure_next_attempt_at res = Some 1_784_203_304_000_000.
Proof.
  destruct (row_at (jobs (db claimed_world)) example_job) as [j|] eqn:Hj; [|by vm_compute in Hj].
  assert (job_state j = PROCESSING /\ claimed_by j = Some "worker-1"%string) as [Hs Hb]
    by (vm_compute in Hj; injection Hj as <-; split; reflexivity).
  destruct (fail_schedules_retry example_job "worker-1" "database restarting" true 4 1_784_203_300_000_000 claimed_world j
    claimed_consistent ltac:(by apply fresh_example; vm_compute) ltac:(reflexivity) Hj Hs Hb)
    as (res & w' & j' & Hrun & _).
  exists res, w'. split; [exact Hrun|]. vm_compute in Hrun. injection Hrun as <- _. repeat split.
Defined.

Lemma result_final_witness :
  exists t, complete_processing_job example_job example_result "worker-1" None claimed_world = (Ok t, completed_world) /\
    row_at (processed (db (run_calls example_calls completed_world))) (processed_packet_id t) = Some t.
Proof.
  destruct (complete_processing_job example_job example_result "worker-1" None claimed_world) as [[t|e] w1] eqn:Hrun;
    [|by vm_compute in Hrun].
  assert (w1 = completed_world) as -> by (unfold completed_world; by rewrite Hrun).
  destruct (result_final example_job example_result "worker-1" None claimed_world t completed_world example_calls
    example_result "worker-2"%string None 60 claimed_consistent Hrun ltac:(discriminate) ltac:(reflexivity)) as [Ht _].
  exists t. split; [reflexivity|exact Ht].
Defined.

Lemma recovery_list_complete_witness :
  exists keys w', recoverable_queue_jobs 1_000 queued_world = (Ok keys, w') /\ keys = [example_job].
Proof.
  destruct (recovery_list_complete 1_000 queued_world queued_consistent ltac:(lia)) as (keys & w' & Hrun & _).
  exists keys, w'. split; [exact Hrun|]. vm_compute in Hrun. by injection Hrun as <- _.
Defined.
