(* ===== verification/RepositoryTotal.v ===== *)
(** * Calls that return

    Rejecting a pending delivery, recording a new one, and marking a pending job queued return on
    consistent tables whose next identifiers are new; with what they leave. *)
From S2P Require Import Prelude PyFormat Sha256 Uuid Json Codec Sql Schema Session Repository RepositoryInv RepositorySafe.
From S2P Require Import RepositoryAccept RepositoryQuiet RepositoryRecord RepositoryJobs.

Open Scope Z_scope.

Section Total.
Context `{SqlEngine} `{!SqlLaws} `{Env}.
Implicit Types (w : world) (d : database).

(** The stream of packets is as it was. *)
Definition same_stream d d' : Prop := packets d' = packets d /\ sequence_states d' = sequence_states d.

Lemma same_work_stream d d' : same_work d d' -> same_stream d d'.
Proof. by intros (_ & ? & ?). Qed.

Lemma receipt_checks d k r : consistent d -> row_at (receipts d) k = Some r -> checks r = true.
Proof.
  intros Hc Hr. destruct (receipt_rows _ Hc _ _ Hr) as (_ & (Hsz & Hmax & _) & _). cbn. apply andb_true_iff. split; apply Z.leb_le; lia.
Qed.

(** A new request identifier, or none. *)
Lemma record_new_total raw peer presented canonical content received sent w :
  consistent (db w) -> fresh_uuids w -> Z.of_nat (length raw) <= MAX_EVIDENCE_BODY_BYTES -> peer <> ""%string ->
  Z.of_nat (String.length peer) <= 512 -> fits_column (255, content) = true ->
  canonical ≫= row_at (identities (db w)) = None ->
  exists r w', record_delivery raw peer presented canonical content received sent None w = (Ok (delivery_result r false false), w') /\
    row_at (receipts (db w')) (receipt_id r) = Some r /\ validation_status r = PENDING /\ raw_body r = raw /\
    canonical_request_id r = canonical /\ same_stream (db w) (db w') /\
    forall q, canonical = Some q -> exists i, row_at (identities (db w')) q = Some i /\ first_receipt_id i = receipt_id r.
Proof.
  intros Hc Hf Hsize Hpeer Hname Hcontent Hnew.
  assert (exists r w', record_delivery raw peer presented canonical content received sent None w = (Ok (delivery_result r false false), w') /\
    row_at (receipts (db w')) (receipt_id r) = Some r /\ validation_status r = PENDING /\ raw_body r = raw /\
    canonical_request_id r = canonical /\
    forall q, canonical = Some q -> exists i, row_at (identities (db w')) q = Some i /\ first_receipt_id i = receipt_id r) as (r & w' & Hrun & Hr).
  { unfold record_delivery. destruct (Z.ltb_spec MAX_EVIDENCE_BODY_BYTES (Z.of_nat (length raw))); [lia|].
    rewrite bool_decide_eq_false_2 by done. cbn zeta.
    assert (exists at_ w1, (match received with Some t => mret t | None => utc_now end : M Z) w = (Ok at_, w1) /\
      db w1 = db w /\ uuid_draws w1 = uuid_draws w) as (at_ & w1 & Hnow & Hd & Hu) by (destruct received; by do 2 eexists).
    run_next Hnow. rewrite <- Hd in *. assert (fresh_uuids w1) as Hf1 by (unfold fresh_uuids in *; by rewrite Hu, Hd).
    destruct (first_delivery_total canonical w1 Hc) as (o & Hfd & Ho). rewrite Hnew in Ho. destruct o as [[i x]|]; [done|].
    pose proof (first_delivery_ok _ _ _ _ Hfd) as [_ Hprior].
    cbn [retry_on_integrity_error]. unfold session_begin. run_next Hfd.
    destruct (add_delivery_total raw peer presented canonical content sent at_ None w1 Hc Hf1 Hsize Hname Hcontent)
      as (r & w' & -> & _ & Hrow & Hraw & _ & Hcan & Hv & _ & Hled); [done|]. specialize (Hled eq_refl). by exists r, w'. }
  exists r, w'. split; [done|]. destruct Hr as (Hr1 & Hr2 & Hr3 & Hr4 & Hr5). do 4 (split; [done|]).
  split; [|exact Hr5]. apply same_work_stream. by eapply frames_record_delivery.
Qed.

Lemma reject_total key why parsed actor w r :
  consistent (db w) -> fresh_uuids w -> row_at (receipts (db w)) key = Some r -> validation_status r = PENDING ->
  Z.of_nat (String.length actor) <= 512 ->
  exists res r' w', reject_delivery key why parsed actor w = (Ok res, w') /\ result_receipt_id res = key /\
    row_at (receipts (db w')) key = Some r' /\ validation_status r' = REJECTED /\ rejection_reason r' = Some why /\
    raw_body r' = raw_body r /\ same_stream (db w) (db w').
Proof.
  intros Hc Hf Hk Hpend Hactor. destruct (receipt_rows _ Hc _ _ Hk) as (Hid & _). pose proof (receipt_checks _ _ _ Hc Hk) as Hchk.
  set (r' := r |> set_validation_status REJECTED |> set_rejection_reason (Some why) |> set_parsed_identifiers parsed
    |> set_queue_status NOT_APPLICABLE |> set_receipt_updated_at (clock (clock_reads w))).
  destruct (update_total r r' (mk_world (db w) (S (clock_reads w)) (uuid_draws w))) as (t & Hup & Hrun);
    [cbn; by rewrite Hid|by apply fits_unchanged|exact Hchk|done|].
  assert (row_at t key = Some r') as Hat by (rewrite <- Hid; exact (row_at_updated _ _ _ Hup)).
  edestruct (audit_total "ground-api" "telemetry.delivery.rejected" actor "REJECTED" (Some why) (Some key) None None
    (default [] parsed) (with_db (with_table t (db w)) (mk_world (db w) (S (clock_reads w)) (uuid_draws w)))) as [w' Haud];
    [done|done|done|done|done|cbn; by eapply present_row|done|done|cbn; apply (Hf (uuid_draws w)); lia|].
  assert (reject_delivery key why parsed actor w = (Ok (delivery_result r' false false), w')) as Hrej.
  { apply begin_ok. pure_next. cbn beta. cbn [table_of receipts_mapped]. rewrite Hk, Hpend.
    rewrite (bool_decide_eq_false_2 (PENDING = REJECTED)), (bool_decide_eq_true_2 (PENDING = PENDING)) by done. cbn [negb].
    pure_next. fold r'. run_next Hrun. run_next Haud. done. }
  do 2 eexists. exists w'. split; [exact Hrej|]. split; [exact Hid|]. unfold _audit in Haud. do 3 run_step Haud. subst. cbn.
  split; [exact Hat|]. done.
Qed.

(** The receipts of a queued packet. *)
Lemma queue_receipts_total l w :
  (forall r, r ∈ l -> checks r = true /\ exists q, row_at (receipts (db w)) (receipt_id r) = Some q /\ texts q = texts r) ->
  exists t w', for_each l (fun r => t ← utc_now;
      session_update (r |> set_queue_status DELIVERY_QUEUED |> set_receipt_updated_at t)) w = (Ok tt, w') /\
    db w' = set_receipts t (db w) /\ uuid_draws w' = uuid_draws w.
Proof.
  revert w. induction l as [|r l IH]; intros w Hl; [exists (receipts (db w)), w; by destruct w as [[] ? ?]|].
  destruct (Hl r ltac:(left)) as (Hchk & q & Hq & Htq). cbn [for_each].
  set (r' := r |> set_queue_status DELIVERY_QUEUED |> set_receipt_updated_at (clock (clock_reads w))).
  destruct (update_total q r' (mk_world (db w) (S (clock_reads w)) (uuid_draws w))) as (t & Hup & Hrun);
    [exact Hq|by apply fits_unchanged|exact Hchk|done|].
  destruct (IH (with_db (with_table t (db w)) (mk_world (db w) (S (clock_reads w)) (uuid_draws w)))) as (t' & w' & Hrest & Hd & Hu).
  { intros x Hx. destruct (Hl x ltac:(by right)) as (Hxc & y & Hy & Hty). split; [done|]. cbn. rewrite (row_at_update _ _ _ _ Hup).
    case_decide as Hk; [|by exists y]. exists r'. split; [done|]. cbn in Hk. rewrite Hk in Hy. assert (y = q) as -> by congruence. exact (eq_trans (eq_sym Htq) Hty). }
  exists t', w'. split; [|by rewrite Hd, Hu]. rewrite (run_bind _ _ w tt _ Hrun). exact Hrest.
Qed.

Lemma mark_total key message actor w j :
  consistent (db w) -> fresh_uuids w -> row_at (jobs (db w)) key = Some j -> job_state j = PENDING_QUEUE ->
  Z.of_nat (String.length message) <= 255 -> Z.of_nat (String.length actor) <= 512 ->
  exists w' j', mark_job_queued key message actor w = (Ok true, w') /\ same_stream (db w) (db w') /\
    row_at (jobs (db w')) key = Some j' /\ job_state j' = QUEUED /\ job_packet_id j' = job_packet_id j.
Proof.
  intros Hc Hf Hk Hst Hmessage Hactor. destruct (job_rows _ Hc _ _ Hk) as (Hid & Hok & Hp). destruct Hok as (Hatt & Hmax & Hrest).
  pose proof (job_at _ _ _ Hc Hk) as Hj. set (w0 := mk_world (db w) (S (clock_reads w)) (uuid_draws w)).
  set (j' := j |> set_job_state QUEUED |> set_queue_message_id (Some message) |> set_next_attempt_at None
    |> set_job_updated_at (clock (clock_reads w))).
  destruct (update_job_total w0 j j') as (tj & Hup & Hat & _); [exact Hj|done|done|split_and!; cbn; (lia || done)|solve_fits_changed|].
  set (accepted := List.filter (fun r => bool_decide (logical_packet_id r = Some (job_packet_id j)) &&
    bool_decide (validation_status r = ACCEPTED)) (rows (receipts (db w)))).
  destruct (queue_receipts_total accepted (with_db (set_jobs tj (db w)) w0)) as (tr & w1 & Hloop & Hd & Hu).
  { intros r [Hin _]%list_elem_of_In%filter_In. apply list_elem_of_In, elem_of_rows in Hin as [k Hr].
    split; [by eapply receipt_checks|]. exists r. split; [exact (receipt_at _ _ _ Hc Hr)|done]. }
  destruct (audit_total "ground-api" "telemetry.processing.queued" actor "QUEUED" None None (Some (job_packet_id j)) (Some (job_id j))
    [("queue_message_id"%string, JString message)] w1) as [w' Haud].
  - done.
  - done.
  - done.
  - done.
  - by apply short_fits, (packet_names _ Hc).
  - done.
  - rewrite Hd. cbn. destruct Hp as [p Hp]. by eapply present_row.
  - rewrite Hd. cbn. by eapply present_row.
  - rewrite Hd, Hu. cbn. apply (Hf (uuid_draws w)). lia.
  - exists w', j'. split.
    + apply begin_ok. pure_next. cbn beta. cbn [table_of jobs_mapped]. rewrite Hk, Hst.
      rewrite (bool_decide_eq_false_2 (PENDING_QUEUE = QUEUED)), (bool_decide_eq_true_2 (PENDING_QUEUE = PENDING_QUEUE)) by done. cbn [negb orb].
      pure_next. fold j'. fold w0. run_next Hup.
      pure_next. cbn beta. cbn. fold accepted. run_next Hloop. run_next Haud. done.
    + unfold _audit in Haud. do 3 run_step Haud. subst. cbn. rewrite Hd. cbn. by split_and!.
Qed.

(** The job that an acceptance without conflict reports. *)
Lemma accept_job key v n actor w res w' r :
  consistent (db w) -> row_at (receipts (db w)) key = Some r -> validation_status r = PENDING ->
  accept_packet_and_create_job key v n actor w = (Ok res, w') -> conflict res = false ->
  acceptance_packet_id res = Some (values_packet_id v) /\
  exists k j, acceptance_job_id res = Some k /\ acceptance_packet_id res = Some (job_packet_id j) /\
    row_at (jobs (db w')) k = Some j /\
    (acceptance_queue_status res = DELIVERY_PENDING_QUEUE -> job_state j = PENDING_QUEUE) /\
    (duplicate res = false -> acceptance_queue_status res = DELIVERY_PENDING_QUEUE).
Proof.
  intros Hc Hk Hpend Ha Hnc. destruct (accept_run _ _ _ _ _ _ _ _ Ha Hk Hpend) as (Hseq & Hn & w1 & Hd & Hb). rewrite <- Hd in *. clear Ha Hd.
  pose proof (find_packet _ v Hc) as Hfind. pose proof (receipt_at _ _ _ Hc Hk) as Hat.
  assert (forall p, packet_ok p -> packet_key p = (v_payload_id v, v_boot_id v, v_sequence_number v) -> packet_id p = values_packet_id v) as Htext.
  { intros p [_ Ht] Hkey. unfold packet_key in Hkey. rewrite packet_text_values. injection Hkey as <- <- <-. congruence. }
  destruct (head _) as [p|].
  - destruct (accept_existing_run _ _ _ _ _ _ _ Hc Hat (proj1 Hfind) Hpend Hb) as (o & r' & t & te & _ & _ & _ & Hd' & _ & _ & _ & ->).
    cbn in Hnc. apply negb_false_iff in Hnc. rewrite Hnc.
    destruct Hfind as [Hp Hkey%same_source_key_spec]. destruct (packet_rows _ Hc _ _ Hp) as (_ & Hpok & _).
    split; [cbn; f_equal; by apply Htext|]. destruct (job_total _ Hc (packet_id p) ltac:(eauto)) as (kj & j & Hj & Hjp).
    pose proof (job_at _ _ _ Hc Hj) as Hj'. rewrite (find_job _ (packet_id p) j Hc Hj' Hjp).
    exists (job_id j), j. cbn. rewrite Hjp, Hd'. cbn.
    split_and!; try done. unfold job_state_to_queue_status. destruct (decide (job_state j = PENDING_QUEUE)); [done|].
    by rewrite bool_decide_eq_false_2.
  - destruct (accept_new_run _ _ _ _ _ _ _ Hc Hat Hpend Hn Hseq Hfind Hb)
      as (disp & missing & r' & p & s' & j & tr & tp & ts & tj & te & _ & Hacc & _ & _ & Hd' & Hkey & _ & _ & _ & _ & ->).
    destruct Hacc. split; [cbn; f_equal; by apply Htext|]. exists (job_id j), j. cbn. rewrite Hd'. cbn. split; [done|]. split; [congruence|].
    split; [apply (written_at _ _ _ acc_jobs)|]. by split.
Qed.
End Total.
