(* ===== verification/RepositoryRaces.v ===== *)
(** * Acceptances that overlap

    Repository.v runs a transaction as a whole.  The engine runs READ COMMITTED, where each statement sees
    what is committed when it starts, so another transaction may commit between two statements of
    [_accept_packet_transaction].  Here the one such interleaving that changes its decision: the look-up
    of the packet ran before another delivery of the same packet was accepted, and the look-up of the
    sequence state, which waits for that row's lock, ran after it. *)
From S2P Require Import Prelude PyFormat Sha256 Uuid Json Codec Sql Schema Session Repository RepositoryInv RepositorySafe.
From S2P Require Import RepositoryExample RepositoryAccept RepositoryProps RepositoryJobs.

Open Scope Z_scope.

Section Races.
Context `{SqlEngine} `{!SqlLaws} `{Env}.
Implicit Types (w : world) (d : database).


End Races.

(** ** Witness *)



