(* ===== verification/RepositoryIdle.v ===== *)
(** * Idle tables

    Between the requests of a gateway whose calls are served, no job waits to be queued and every accepted
    delivery is marked queued.  Recording and rejecting deliveries keep that; an acceptance may leave one
    new job, until [mark_job_queued]. *)
From S2P Require Import Prelude PyFormat Sha256 Uuid Json Codec Sql Schema Session Repository RepositoryInv RepositorySafe.
From S2P Require Import RepositoryAccept RepositoryFresh RepositoryMoves RepositoryJobs RepositoryTotal.

Open Scope Z_scope.

Section Idle.
Context `{SqlEngine} `{!SqlLaws} `{Env}.
Implicit Types (w : world) (d : database).

(** Idle, but for the job [except] and the accepted deliveries of its packet. *)
Record idle_but (except : option (uuid * string)) d : Prop := {
  idle_jobs k j : row_at (jobs d) k = Some j -> job_state j = PENDING_QUEUE -> fst <$> except = Some k;
  idle_receipts k r : row_at (receipts d) k = Some r -> validation_status r = ACCEPTED -> queue_status r <> DELIVERY_QUEUED ->
    exists e, except = Some e /\ logical_packet_id r = Some e.2
}.
Abbreviation idle := (idle_but None).

Definition keeps_idle d d' : Prop := idle d -> idle d'.

#[export] Instance keeps_idle_preorder : PreOrder keeps_idle.
Proof. split; [intros d Hd; exact Hd|]. unfold keeps_idle. auto. Qed.

Lemma idle_write_receipt d t r :
  (forall k x, row_at t k = Some x -> x = r \/ row_at (receipts d) k = Some x) ->
  validation_status r <> ACCEPTED \/ queue_status r = DELIVERY_QUEUED -> keeps_idle d (set_receipts t d).
Proof.
  intros Ht Hr [Hj Hs]. split; [exact Hj|]. cbn. intros k x [->|Hx]%Ht; [by destruct Hr|by eapply Hs].
Qed.

Lemma idle_insert_receipt d t r :
  insert_row (receipts d) r = Some t -> validation_status r <> ACCEPTED \/ queue_status r = DELIVERY_QUEUED -> keeps_idle d (set_receipts t d).
Proof.
  intros Hi. apply idle_write_receipt. intros k x. rewrite (row_at_insert _ _ _ _ Hi).
  case_decide; [by intros [= <-]; left|by right].
Qed.

Lemma idle_update_receipt d t r :
  update_row (receipts d) r = Some t -> validation_status r <> ACCEPTED \/ queue_status r = DELIVERY_QUEUED -> keeps_idle d (set_receipts t d).
Proof.
  intros Hi. apply idle_write_receipt. intros k x. rewrite (row_at_update _ _ _ _ Hi).
  case_decide; [by intros [= <-]; left|by right].
Qed.

Lemma idle_update_job d t j : update_row (jobs d) j = Some t -> job_state j <> PENDING_QUEUE -> keeps_idle d (set_jobs t d).
Proof.
  intros Hu Hst [Hj Hs]. split; [|exact Hs]. cbn. intros k x. rewrite (row_at_update _ _ _ _ Hu). case_decide; [by intros [= <-]|by apply Hj].
Qed.

Lemma idle_other d d' : jobs d' = jobs d -> receipts d' = receipts d -> keeps_idle d d'.
Proof. intros Hj Hr [Hs1 Hs2]. split; [rewrite Hj|rewrite Hr]; done. Qed.

(** What calls other than deliveries do: the ledger, the packets and the sequence states are as they were,
    and idle tables stay idle. *)
Record aside d d' : Prop := {
  aside_ledger : identities d' = identities d;
  aside_packets : packets d' = packets d;
  aside_states : sequence_states d' = sequence_states d;
  aside_idle : keeps_idle d d'
}.

#[export] Instance aside_preorder : PreOrder aside.
Proof.
  split; [by split|]. intros d1 d2 d3 [???? ] []. split; try congruence. by etransitivity.
Qed.

End Idle.
Abbreviation idle := (idle_but None).

Ltac leave_idle := first
  [ by apply idle_other
  | eapply idle_insert_receipt; [eassumption|left; cbn; repeat case_match; done]
  | eapply idle_update_receipt; [eassumption|first [by left|by right]]
  | eapply idle_update_job; [eassumption|cbn; repeat case_match; done] ].

Ltac solve_aside := solve_moves ltac:(split; [reflexivity|reflexivity|reflexivity|leave_idle]).

Section Methods.
Context `{SqlEngine} `{!SqlLaws} `{Env}.
Implicit Types (w : world) (d : database).

Lemma idle_record raw peer presented canonical content received sent :
  moves keeps_idle (record_delivery raw peer presented canonical content received sent None).
Proof. unfold record_delivery, first_delivery, add_delivery, _audit. solve_moves leave_idle. Qed.

Lemma idle_reject key why parsed actor : moves keeps_idle (reject_delivery key why parsed actor).
Proof. unfold reject_delivery, _audit. solve_moves leave_idle. Qed.

Lemma aside_mark key message actor : moves aside (mark_job_queued key message actor).
Proof. unfold mark_job_queued, _audit. solve_aside. Qed.
Lemma aside_claim key worker lease : moves aside (claim_processing_job key worker lease).
Proof. unfold claim_processing_job, _audit. solve_aside. Qed.
Lemma aside_complete key out worker at_ : moves aside (complete_processing_job key out worker at_).
Proof. unfold complete_processing_job, job_of_packet, _audit. solve_aside. Qed.
Lemma aside_fail key worker why temporary base at_ : moves aside (fail_processing_attempt key worker why temporary base at_).
Proof. unfold fail_processing_attempt, _audit. solve_aside. Qed.
Lemma aside_record_event service event actor out why r p j data : moves aside (record_audit_event service event actor out why r p j data).
Proof. unfold record_audit_event, _audit. solve_aside. Qed.

(** ** Acceptance *)

(** What an acceptance with result [res] leaves of idle tables: the job it created is still to be queued. *)
Definition rests (res : PacketAcceptanceResult) d : Prop :=
  (duplicate res || conflict res = true -> idle d) /\
  (duplicate res = true -> acceptance_queue_status res <> DELIVERY_PENDING_QUEUE) /\
  (duplicate res || conflict res = false -> exists k p, acceptance_job_id res = Some k /\ acceptance_packet_id res = Some p /\
    idle_but (Some (k, p)) d).

(** The classified receipt. *)
Lemma accept_classifies key v n actor w res w' r :
  consistent (db w) -> row_at (receipts (db w)) key = Some r -> validation_status r = PENDING ->
  accept_packet_and_create_job key v n actor w = (Ok res, w') ->
  exists r', row_at (receipts (db w')) key = Some r' /\ validation_status r' = acceptance_validation_status res.
Proof.
  intros Hc Hk Hpend Ha. destruct (accept_run _ _ _ _ _ _ _ _ Ha Hk Hpend) as (Hseq & Hn & w1 & Hd & Hb). rewrite <- Hd in *. clear Ha Hd.
  pose proof (find_packet _ v Hc) as Hfind. pose proof (receipt_at _ _ _ Hc Hk) as Hat. destruct (receipt_rows _ Hc _ _ Hk) as (Hid & _).
  destruct (head _) as [p|].
  - destruct (accept_existing_run _ _ _ _ _ _ _ Hc Hat (proj1 Hfind) Hpend Hb) as (o & r' & t & te & _ & [He _] & Hw & Hd' & Hval & _ & _ & ->).
    assert (receipt_id r' = key) as <- by (rewrite <- Hid; by injection He).
    rewrite Hd'. cbn. exists r'. split; [exact (written_at _ _ _ Hw)|exact Hval].
  - destruct (accept_new_run _ _ _ _ _ _ _ Hc Hat Hpend Hn Hseq Hfind Hb)
      as (disp & missing & r' & p & s' & j & tr & tp & ts & tj & te & _ & Hacc & _ & _ & Hd' & _ & _ & _ & _ & _ & ->).
    destruct Hacc. assert (receipt_id r' = key) as <- by (rewrite <- Hid; by injection acc_evidence). rewrite Hd'. cbn.
    exists r'. split; [exact (written_at _ _ _ acc_receipts)|done].
Qed.

Lemma accept_leaves_idle key v n actor w res w' r :
  consistent (db w) -> row_at (receipts (db w)) key = Some r -> validation_status r = PENDING -> idle (db w) ->
  accept_packet_and_create_job key v n actor w = (Ok res, w') ->
  rests res (db w').
Proof.
  intros Hc Hk Hpend Hset Ha. destruct (accept_run _ _ _ _ _ _ _ _ Ha Hk Hpend) as (Hseq & Hn & w1 & Hd & Hb). rewrite <- Hd in *. clear Ha Hd.
  pose proof (find_packet _ v Hc) as Hfind. pose proof (receipt_at _ _ _ Hc Hk) as Hat.
  destruct (head _) as [p|].
  - destruct (accept_existing_run _ _ _ _ _ _ _ Hc Hat (proj1 Hfind) Hpend Hb) as (o & r' & t & te & _ & _ & Hw & Hd' & Hval & _ & _ & ->).
    assert (validation_status r' <> ACCEPTED) as Hna by (rewrite Hval; by case_bool_decide).
    unfold rests. rewrite Hd'. cbn. split.
    { intros _. apply (idle_other (set_receipts t (db w1))); [done..|]. apply (idle_write_receipt _ _ r'); [|by left|exact Hset].
      intros k x [[_ ->]|[_ Hx]]%(written_inv _ _ _ _ _ Hw); auto. }
    case_bool_decide; split; try done. intros _. unfold from_option, job_state_to_queue_status.
    destruct (head (List.filter _ (rows (jobs (db w1))))) as [j|] eqn:Hj; [|done].
    rewrite bool_decide_eq_false_2; [done|]. intros Hst.
    apply head_Some_elem_of, list_elem_of_In, filter_In in Hj as [Hin _]. apply list_elem_of_In, elem_of_rows in Hin as [k Hj].
    by specialize (idle_jobs _ _ Hset k j Hj Hst).
  - destruct (accept_new_run _ _ _ _ _ _ _ Hc Hat Hpend Hn Hseq Hfind Hb)
      as (disp & missing & r' & p & s' & j & tr & tp & ts & tj & te & _ & Hacc & _ & _ & Hd' & _ & _ & _ & _ & _ & ->).
    destruct Hacc. unfold rests. rewrite Hd'. cbn.
    split; [done|]. split; [done|].
    intros _. exists (job_id j), (packet_id p). split; [done|]. split; [done|]. split; cbn.
    + intros k x [[-> _]|[_ Hx]]%(written_inv _ _ _ _ _ acc_jobs) Hst; [done|]. by specialize (idle_jobs _ _ Hset k x Hx Hst).
    + intros k x [[-> ->]|[_ Hx]]%(written_inv _ _ _ _ _ acc_receipts) Hst Hq; [by eexists|].
      by destruct (idle_receipts _ _ Hset k x Hx Hst Hq) as (? & ? & _).
Qed.

(** ** Marking the job queued *)

Lemma queue_receipts_run l : forall w w',
  for_each l (fun r => t ← utc_now;
    session_update (r |> set_queue_status DELIVERY_QUEUED |> set_receipt_updated_at t)) w = (Ok tt, w') ->
  jobs (db w') = jobs (db w) /\
  forall k r', row_at (receipts (db w')) k = Some r' ->
    queue_status r' = DELIVERY_QUEUED \/ row_at (receipts (db w)) k = Some r' /\ forall r, r ∈ l -> receipt_id r <> k.
Proof.
  induction l as [|r l IH]; intros w w' Hr; cbn [for_each] in Hr.
  - apply run_ret_ok in Hr as [_ <-]. split; [done|]. intros k r' Hk. right. split; [done|]. intros x Hx. by apply elem_of_nil in Hx.
  - apply run_bind_ok in Hr as ([] & w1 & Hu & Hr). run_step Hu. run_step Hu. subst. destruct (IH _ _ Hr) as [Hj Hrest]. cbn in Hj, Hrest.
    split; [exact Hj|]. intros k r' [Hq|[Hk Hl]]%Hrest; [by left|]. rewrite (row_at_update _ _ _ _ Hup) in Hk. cbn in Hk.
    case_decide as Heq; [left; by injection Hk as <-|]. right. split; [done|]. intros x [->|Hx]%elem_of_cons; [congruence|by apply Hl].
Qed.

Lemma mark_leaves_idle key message actor w w' j :
  consistent (db w) -> row_at (jobs (db w)) key = Some j -> job_state j = PENDING_QUEUE ->
  idle_but (Some (key, job_packet_id j)) (db w) -> mark_job_queued key message actor w = (Ok true, w') -> idle (db w').
Proof.
  intros Hc Hk Hst [Hjobs Hrec] Hr. destruct (job_rows _ Hc _ _ Hk) as (Hid & _).
  unfold mark_job_queued in Hr. apply run_begin_ok in Hr. run_step Hr. cbn in Hr. rewrite Hk, Hst in Hr.
  rewrite (bool_decide_eq_false_2 (PENDING_QUEUE = QUEUED)), (bool_decide_eq_true_2 (PENDING_QUEUE = PENDING_QUEUE)) in Hr by done. cbn in Hr.
  run_step Hr. apply run_bind_ok in Hr as (u & w1 & Hu & Hr). run_step Hu. subst. rename t into tj, Hup into Huj. cbn in Huj.
  run_step Hr. cbn in Hr. apply run_bind_ok in Hr as ([] & w2 & Hloop & Hr). apply queue_receipts_run in Hloop as [Hj Hloop]. cbn in Hj, Hloop.
  apply run_bind_ok in Hr as (u2 & w3 & Hu & Hr). unfold _audit in Hu. do 3 (run_step Hu). subst. apply run_ret_ok in Hr as [_ <-].
  split; cbn.
  - intros k x. rewrite (row_at_update _ _ _ _ Huj). cbn. case_decide as He; [by intros [= <-]|]. intros Hx Hs.
    specialize (Hjobs k x Hx Hs). cbn in Hjobs. congruence.
  - intros k x [Hq|[Hx Hno]]%Hloop Hv Hq'; [done|]. destruct (Hrec k x Hx Hv Hq') as (e & [= <-] & Hp). exfalso.
    destruct (receipt_rows _ Hc _ _ Hx) as (Hxid & _). apply (Hno x); [|done].
    apply list_elem_of_In, filter_In. split; [apply list_elem_of_In, elem_of_rows; by exists k|].
    by rewrite !bool_decide_eq_true_2.
Qed.
End Methods.
