(* ===== verification/Gateway.v ===== *)
(** * Effects of the services

    A service runs in a [system]: the database world, the Redis keyspace, the metric counters, and the
    position in the fates that the network gives to successive calls.  A call to the database or to Redis
    is an atomic [action]; it is served, refused, carried out with its reply lost, or never made because
    no connection could be opened.  A handler is a
    program [prog] of actions, with exceptions.  [run] executes one program alone; [pool_step] interleaves
    several, action by action. *)
From S2P Require Import Prelude PyFormat Uuid Json Codec Sql Schema Session Repository Redis Queue QueueSpec Metrics.

Open Scope Z_scope.

(** ** Exceptions *)

Inductive exn :=
| OperationalError
| ConnectionError
| OSError
| StorageExn (e : storage_error)
| QueueExn (e : queue_error)
| CodecExn (e : Codec.Codec.codec_error)
| PyValueError (reason : string)
| TypeError (reason : string)
| HTTPException (status : Z) (detail : string)
| RuntimeError (reason : string).

(** [isinstance(exc, SQLAlchemyError)] and [isinstance(exc, RedisError)].  SQLAlchemy wraps the errors of a
    statement on an open connection; the error of opening one is the driver's own, an [OSError]. *)
Definition is_sqlalchemy_error (e : exn) : bool :=
  match e with OperationalError | StorageExn IntegrityError | StorageExn DataError => true | _ => false end.
Definition is_redis_error (e : exn) : bool :=
  match e with ConnectionError | QueueExn ResponseError => true | _ => false end.

(** ** The network *)

(** [Unreachable]: the connection for the call cannot be opened. *)
Inductive fate := Served | Refused | ReplyLost | Unreachable.

#[export] Instance fate_eq_dec : EqDecision fate.
Proof. solve_decision. Defined.

Class Network := { database_fate : nat -> fate; redis_fate : nat -> fate }.

(** ** Programs over a type of states *)

Section Programs.
Context {S : Type}.

Definition action (A : Type) : Type := S -> result exn A * S.

Inductive prog (A : Type) : Type :=
| Return (a : A)
| Throw (e : exn)
| Act {B : Type} (a : action B) (k : result exn B -> prog A).
Arguments Return {A} a.
Arguments Throw {A} e.
Arguments Act {A B} a k.

#[export] Instance prog_ret : MRet prog := fun A a => Return a.
#[export] Instance prog_bind : MBind prog := fun A B f =>
  fix go p := match p with
  | Return a => f a
  | Throw e => Throw e
  | Act a k => Act a (fun r => go (k r))
  end.

(** [try: p except exc: handler(exc)]; a handler that does not match raises the exception again. *)
Fixpoint try_except {A} (p : prog A) (handler : exn -> prog A) : prog A :=
  match p with
  | Return a => Return a
  | Throw e => handler e
  | Act a k => Act a (fun r => try_except (k r) handler)
  end.

Definition perform {A} (a : action A) : prog A :=
  Act a (fun r => match r with Ok b => Return b | Raise e => Throw e end).

(** A computation without effects that may raise. *)
Definition pure {A} (r : result exn A) : prog A := match r with Ok a => Return a | Raise e => Throw e end.

Fixpoint run {A} (p : prog A) (s : S) : result exn A * S :=
  match p with
  | Return a => (Ok a, s)
  | Throw e => (Raise e, s)
  | Act a k => let '(r, s') := a s in run (k r) s'
  end.

(** Several programs interleaved: one of them performs its next action. *)
Inductive pool_step {A} : list (prog A) * S -> list (prog A) * S -> Prop :=
| step_thread before after B (a : action B) k s r s' :
    a s = (r, s') -> pool_step (before ++ Act a k :: after, s) (before ++ k r :: after, s').

(** ** Laws of runs *)

Lemma run_seq {A B} (p : prog A) (f : A -> prog B) s :
  run (p ≫= f) s = match run p s with (Ok a, s') => run (f a) s' | (Raise e, s') => (Raise e, s') end.
Proof. revert s; induction p as [a|e|C a k IH]; intros s; [done|done|]. cbn. destruct (a s) as [r s']. apply IH. Qed.

Lemma run_try {A} (p : prog A) h s :
  run (try_except p h) s = match run p s with (Ok a, s') => (Ok a, s') | (Raise e, s') => run (h e) s' end.
Proof. revert s; induction p as [a|e|C a k IH]; intros s; [done|done|]. cbn. destruct (a s) as [r s']. apply IH. Qed.

Lemma run_perform {A} (a : action A) s : run (perform a) s = a s.
Proof. cbn. by destruct (a s) as [[b|e] s']. Qed.

(** ** Rely and guarantee

    [inv] is what holds between actions and [rely] what every action of every program may do to the
    state.  [guarded p post s]: started at [s], whatever the other programs do in between, each action of
    [p] keeps to both, and its outcome satisfies [post]. *)
Section Guarded.
Context (inv : S -> Prop) (rely : S -> S -> Prop) `{!PreOrder rely}.

Fixpoint guarded {A} (p : prog A) (post : result exn A -> S -> Prop) (s0 : S) : Prop :=
  match p with
  | Return a => post (Ok a) s0
  | Throw e => post (Raise e) s0
  | Act a k => forall s, inv s -> rely s0 s ->
      let s' := (a s).2 in inv s' /\ rely s s' /\ guarded (k (a s).1) post s'
  end.

Lemma guarded_run {A} (p : prog A) post s :
  inv s -> guarded p post s ->
  inv (run p s).2 /\ rely s (run p s).2 /\ post (run p s).1 (run p s).2.
Proof.
  revert s; induction p as [a|e|C a k IH]; intros s Hi Hg; cbn; [done|done|].
  destruct (Hg s Hi) as (Hi' & Hr & Hk); [done|]. destruct (a s) as [r s']. cbn in *.
  destruct (IH r s' Hi' Hk) as (Hi2 & Hr2 & Hp). split; [done|]. split; [by etransitivity|done].
Qed.

(** Every program of a pool is guarded since some earlier state. *)
Definition pool_ok {A} (post : result exn A -> S -> Prop) (c : list (prog A) * S) : Prop :=
  inv c.2 /\ Forall (fun p => exists s0, rely s0 c.2 /\ guarded p post s0) c.1.

Lemma pool_step_ok {A} (post : result exn A -> S -> Prop) c c' :
  pool_step c c' -> pool_ok post c -> pool_ok post c' /\ rely c.2 c'.2.
Proof.
  destruct 1 as [before after B a k s r s' Ha]. intros [Hi Hf]. cbn in *.
  apply Forall_app in Hf as [Hb [(s0 & Hr & Hg) Haf]%Forall_cons].
  destruct (Hg s Hi Hr) as (Hi' & Hr' & Hk). rewrite Ha in *. cbn in *.
  split; [|done]. split; [done|]. cbn.
  assert (forall l, Forall (fun p => exists s0, rely s0 s /\ guarded p post s0) l ->
    Forall (fun p : prog A => exists s0, rely s0 s' /\ guarded p post s0) l) as Hl.
  { intros l Hl. eapply Forall_impl; [exact Hl|]. intros p (t & Ht & Hp). exists t. split; [by etransitivity|done]. }
  apply Forall_app. split; [by apply Hl|]. constructor; [by exists s'|by apply Hl].
Qed.

Lemma pool_run_ok {A} (post : result exn A -> S -> Prop) c c' :
  rtc pool_step c c' -> pool_ok post c -> pool_ok post c' /\ rely c.2 c'.2.
Proof.
  induction 1 as [c|c c1 c' Hs _ IH]; intros Hc; [done|].
  destruct (pool_step_ok post c c1 Hs Hc) as [Hc1 Hr]. destruct (IH Hc1) as [Hc' Hr']. split; [done|by etransitivity].
Qed.

Lemma guarded_weaken {A} (p : prog A) (post post' : result exn A -> S -> Prop) s :
  guarded p post s -> (forall r t, post r t -> post' r t) -> guarded p post' s.
Proof.
  revert s; induction p as [a|e|C a k IH]; cbn; intros s Hg Hp; [by apply Hp..|].
  intros t Hi Hr. destruct (Hg t Hi Hr) as (H1 & H2 & H3). split; [done|]. split; [done|]. by apply IH.
Qed.

(** The end state is related to the start, and satisfies the invariant. *)
Lemma guarded_since {A} (p : prog A) (post : result exn A -> S -> Prop) s :
  inv s -> guarded p post s -> guarded p (fun r t => post r t /\ inv t /\ rely s t) s.
Proof.
  assert (forall s0, inv s -> rely s0 s -> guarded p post s ->
    guarded p (fun r t => post r t /\ inv t /\ rely s0 t) s) as Hgen; [|intros Hi; by apply Hgen].
  revert s; induction p as [a|e|C a k IH]; cbn; intros s s0 Hi Hr0 Hg; [done|done|].
  intros t Ht Hr. destruct (Hg t Ht Hr) as (Hi' & Hr' & Hk). split; [done|]. split; [done|].
  apply IH; [done| |done]. etransitivity; [exact Hr0|]. by etransitivity.
Qed.

Lemma guarded_bind {A B} (p : prog A) (f : A -> prog B) mid post s :
  guarded p mid s ->
  (forall a t, mid (Ok a) t -> guarded (f a) post t) -> (forall e t, mid (Raise e) t -> post (Raise e) t) ->
  guarded (p ≫= f) post s.
Proof.
  intros Hg Hk He. revert s Hg; induction p as [a|e|C a k IH]; cbn; intros s Hg; [by apply Hk|by apply He|].
  intros t Hi Hr. destruct (Hg t Hi Hr) as (H1 & H2 & H3). split; [done|]. split; [done|]. by apply IH.
Qed.

Lemma guarded_try {A} (p : prog A) h mid post s :
  guarded p mid s ->
  (forall a t, mid (Ok a) t -> post (Ok a) t) -> (forall e t, mid (Raise e) t -> guarded (h e) post t) ->
  guarded (try_except p h) post s.
Proof.
  intros Hg Hk He. revert s Hg; induction p as [a|e|C a k IH]; cbn; intros s Hg; [by apply Hk|by apply He|].
  intros t Hi Hr. destruct (Hg t Hi Hr) as (H1 & H2 & H3). split; [done|]. split; [done|]. by apply IH.
Qed.

Lemma guarded_perform {A} (a : action A) post s0 :
  (forall s, inv s -> rely s0 s -> inv (a s).2 /\ rely s (a s).2 /\ post (a s).1 (a s).2) ->
  guarded (perform a) post s0.
Proof.
  intros Ha s Hi Hr. destruct (Ha s Hi Hr) as (H1 & H2 & H3). split; [done|]. split; [done|].
  destruct (a s) as [[b|e] s']; cbn in *; done.
Qed.
End Guarded.
End Programs.

Arguments prog : clear implicits.
Arguments Return {S A} a.
Arguments Throw {S A} e.
Arguments Act {S A B} a k.
Arguments action : clear implicits.

(** ** The gateway's system *)

Section System.
Context `{SqlEngine} `{Env} `{RedisServer} `{Network} `{interpreter : Interpreter}.

Record system := mk_system {
  tables : world;
  redis : keyspace;
  counters : gmap string Z;
  database_calls : nat;
  redis_calls : nat
}.

(** A repository method: one transaction of the database. *)
Definition in_database {A} (m : M A) : action system A := fun s =>
  let n := database_calls s in
  let after w := mk_system w (redis s) (counters s) (S n) (redis_calls s) in
  match database_fate n with
  | Refused => (Raise OperationalError, after (tables s))
  | Unreachable => (Raise OSError, after (tables s))
  | Served =>
      match m (tables s) with
      | (Ok a, w) => (Ok a, after w)
      | (Raise e, w) => (Raise (StorageExn e), after w)
      end
  | ReplyLost => (Raise OperationalError, after (m (tables s)).2)
  end.

(** A queue method up to its use of the reply: one script or command of the server. *)
Definition in_redis {A} (q : Q A) : action system A := fun s =>
  let n := redis_calls s in
  let after ks := mk_system (tables s) ks (counters s) (database_calls s) (S n) in
  match redis_fate n with
  | Refused | Unreachable => (Raise ConnectionError, after (redis s))
  | Served =>
      match q (redis s) with
      | (Ok a, ks) => (Ok a, after ks)
      | (Raise e, ks) => (Raise (QueueExn e), after ks)
      end
  | ReplyLost => (Raise ConnectionError, after (q (redis s)).2)
  end.

(** [datetime.now(UTC)] of the services. *)
Definition read_clock : action system Z := fun s =>
  match utc_now (tables s) with
  | (Ok t, w) => (Ok t, mk_system w (redis s) (counters s) (database_calls s) (redis_calls s))
  | (Raise e, w) => (Raise (StorageExn e), s)
  end.

(** [HINCRBY] on the hash of the metric counters. *)
Definition hincrby (name : string) (amount : Z) : action system () := fun s =>
  let n := redis_calls s in
  let up := <[name := default 0 (counters s !! name) + amount]> (counters s) in
  let after cs := mk_system (tables s) (redis s) cs (database_calls s) (S n) in
  match redis_fate n with
  | Refused | Unreachable => (Raise ConnectionError, after (counters s))
  | Served => (Ok (), after up)
  | ReplyLost => (Raise ConnectionError, after up)
  end.

(** [TelemetryMetrics.increment], and the services' wrappers that ignore its failures. *)
Definition increment (name : string) (amount : Z) : prog system () :=
  if negb (known_counter name) then Throw (PyValueError ("unknown telemetry metric: " +:+ name))
  else perform (hincrby name amount).
Definition _metric_safely (name : string) (amount : Z) : prog system () :=
  try_except (increment name amount) (fun _ => mret ()).

(** [HGETALL]. *)
Definition snapshot : action system (gmap string Z) := fun s =>
  let n := redis_calls s in
  let after := mk_system (tables s) (redis s) (counters s) (database_calls s) (S n) in
  match redis_fate n with Served => (Ok (counters s), after) | _ => (Raise ConnectionError, after) end.

(** The metric wrapper always returns, and changes counters only. *)
Lemma run_metric name n s :
  exists s', run (_metric_safely name n) s = (Ok tt, s') /\ tables s' = tables s /\ redis s' = redis s.
Proof.
  unfold _metric_safely. rewrite run_try. unfold increment. destruct (negb _); [by eexists|].
  rewrite run_perform. unfold hincrby. destruct (redis_fate _); by eexists.
Qed.
End System.
