(* ===== verification/GroundApi.v ===== *)
(** * The ground gateway: [mission_ground/services/ground_api.py]

    Every request handler as a program over the gateway's system.  A response is its status code with the
    members of its JSON body; an exception that leaves a handler is the server's 500.  Log records are not
    modelled. *)
From S2P Require Import Prelude PyFormat Sha256 Uuid PyText PyFloat PyDecimal Json Codec Sql Schema Session Repository Redis Queue.
From S2P Require Import QueueSpec Metrics Config Gateway.
From Stdlib Require Import SpecFloat Ascii.

Open Scope Z_scope.

Definition VENDOR_IDENTITY : string := "local-token:vendor-simulator".

(** The parts of a request that the handlers read: headers, and the body in the chunks it arrives in. *)
Record request := {
  x_vendor_token : option string;
  x_request_id : option string;
  header_content_length : option string;
  header_content_type : option string;
  body_stream : list bytes
}.

Record response := mk_response { status_code : Z; content : list (string * json) }.

Definition response_body (text : list (string * string)) : list (string * json) :=
  map (fun m => (m.1, JString m.2)) text.
Definition optional_text (s : option string) : json := from_option JString JNull s.

(** ** Helpers *)

Definition _canonical_uuid4 (presented : option string) : option uuid :=
  match presented with
  | None => None
  | Some text =>
      match UUID text with
      | None => None
      | Some parsed =>
          if negb (bool_decide (uuid_version parsed = Some 4)) || negb (bool_decide (uuid_str parsed = text)) then None
          else Some parsed
      end
  end.

Definition _telemetry_values (frame : Codec.TelemetryFrame) : DecodedTelemetryValues := {|
  v_protocol_version := Codec.protocol_version frame; v_payload_id := Codec.payload_id frame;
  v_boot_id := Codec.boot_id frame; v_sequence_number := Codec.sequence_number frame;
  v_sample_timestamp_us := Codec.timestamp_us frame;
  v_temperature_centi_c := Codec.temperature_centi_c frame; v_voltage_mv := Codec.voltage_mv frame;
  v_operating_mode := Codec.operating_mode frame; v_fault_flags := Codec.fault_flags frame |}.

Definition _iso_from_us (timestamp_us : Z) : string :=
  let text := isoformat_utc timestamp_us in
  (text_of (take (String.length text - 6) (chars_of text)) +:+ "Z")%string.

(** The body read chunk by chunk, up to the limit. *)
Fixpoint read_stream (maximum : Z) (body : bytes) (chunks : list bytes) : result exn bytes :=
  match chunks with
  | [] => Ok body
  | chunk :: rest =>
      let body := body ++ chunk in
      raise: HTTPException 413 "telemetry body exceeds 1024 bytes" when maximum <? Z.of_nat (length body) ;;
      read_stream maximum body rest
  end.

Definition _bounded_body (r : request) (maximum : Z) : result exn bytes :=
  match header_content_length r with
  | None => read_stream maximum [] (body_stream r)
  | Some content_length =>
      match py_int content_length with
      | None => Raise (HTTPException 400 "Content-Length must be an integer")
      | Some n =>
          raise: HTTPException 413 "telemetry body exceeds 1024 bytes" when maximum <? n ;;
          read_stream maximum [] (body_stream r)
      end
  end.

(** [hmac.compare_digest] as an expression of a handler. *)
Definition digest_equal (a b : string) : result exn bool :=
  match compare_digest a b with
  | Some v => Ok v
  | None => Raise (TypeError "comparing strings with non-ASCII characters is not supported")
  end.

Definition _bearer_identity (authorization : option string) (settings : GroundSettings) : result exn string :=
  match authorization with
  | None => Raise (HTTPException 401 "missing bearer credential")
  | Some text =>
      if negb (startswith "Bearer " text) then Raise (HTTPException 401 "missing bearer credential")
      else
        let token := removeprefix "Bearer " text in
        operator ← digest_equal token (operator_token settings);
        if (operator : bool) then Ok "operator"%string
        else
          administrator ← digest_equal token (admin_token settings);
          if (administrator : bool) then Ok "administrator"%string
          else Raise (HTTPException 401 "invalid bearer credential")
  end.

(** [content_type.split(";", 1)[0].strip().lower()]. *)
Definition media_type (content_type : string) : string :=
  text_of (map lower_char (strip_chars is_space (before_char ";"%char (chars_of content_type)))).
Definition is_octet_stream (content_type : option string) : bool :=
  match content_type with
  | None => false
  | Some text => bool_decide (media_type text = "application/octet-stream"%string)
  end.

(** The queue's default namespace. *)
Definition queue_keys : QueueKeys := {|
  pending := "ground:telemetry:jobs:pending"; processing := "ground:telemetry:jobs:processing";
  failed := "ground:telemetry:jobs:failed"; marker_prefix := "ground:telemetry:jobs:marker" |}.

Section Api.
Context `{SqlEngine} `{Env} `{RedisServer} `{Network} `{interpreter : Interpreter}.
Context (settings : GroundSettings).

Abbreviation handler A := (prog system A).

Definition transact {A} (m : M A) : handler A := perform (in_database m).
Definition exchange {A} (q : Q A) : handler A := perform (in_redis q).

Definition _audit_safely (event actor outcome_ reason_ : string) (data : list (string * json)) : handler () :=
  try_except
    (transact (record_audit_event "ground-api" event actor outcome_ (Some reason_) None None None data))
    (fun exc => if is_sqlalchemy_error exc then mret () else Throw exc).

Definition _queue_one (job : uuid) (packet : string) : handler bool :=
  message ← pure match new_message (uuid_str job) packet with Ok m => Ok m | Raise e => Raise (QueueExn e) end;
  exchange (enqueue queue_keys message) ;;
  transact (mark_job_queued job (uuid_str job) "ground-api").

(** The loop of start-up recovery over the listed jobs. *)
Fixpoint recover_each (job_ids : list uuid) (recovered : Z) : handler Z :=
  match job_ids with
  | [] => mret recovered
  | key :: rest =>
      job ← transact (get_job key);
      match job with
      | None => recover_each rest recovered
      | Some job =>
          transitioned ← _queue_one (job_id job) (job_packet_id job);
          recover_each rest (if (transitioned : bool) then recovered + 1 else recovered)
      end
  end.

Definition _recover_pending_jobs (limit : Z) : handler Z :=
  job_ids ← transact (recoverable_queue_jobs limit);
  recover_each job_ids 0.

(** ** POST /vendor/payload-data *)

Definition respond (status : Z) (members : list (string * json)) : handler response := mret (mk_response status members).

(** The answer to a replayed request identifier whose first delivery is already decided. *)
Definition decided_replay (existing : option TelemetryDeliveryReceipt) : option response :=
  match existing with
  | None => None
  | Some r =>
      if bool_decide (validation_status r = REJECTED) then
        Some (mk_response 422 [("receipt_id", JString (uuid_str (receipt_id r))); ("status", JString "REJECTED");
          ("reason", optional_text (rejection_reason r)); ("request_replay", JBool true)]%string)
      else if (bool_decide (validation_status r = ACCEPTED) || bool_decide (validation_status r = DUPLICATE))
              && bool_decide (queue_status r = DELIVERY_QUEUED) then
        Some (mk_response 200 [("receipt_id", JString (uuid_str (receipt_id r)));
          ("packet_id", optional_text (logical_packet_id r)); ("status", JString "QUEUED");
          ("duplicate", JBool (bool_decide (validation_status r = DUPLICATE))); ("request_replay", JBool true)]%string)
      else None
  end.

Definition refuse (status : Z) (key : uuid) (why : string) : handler response :=
  rejected ← transact (reject_delivery key why None "ground-api");
  _metric_safely "payload_messages_rejected_total" 1 ;;
  respond status [("receipt_id", JString (uuid_str (result_receipt_id rejected)));
    ("status", JString "REJECTED"); ("reason", JString why)]%string.

(** An accepted delivery whose job never reached the queue. *)
Definition requeue_replay (existing : TelemetryDeliveryReceipt) (packet : string) : handler response :=
  job ← transact (get_job_for_packet packet);
  match job with
  | None => Throw (RuntimeError "accepted packet has no processing job")
  | Some job =>
      transitioned ← _queue_one (job_id job) (job_packet_id job);
      respond (if (transitioned : bool) then 202 else 200)
        [("receipt_id", JString (uuid_str (receipt_id existing))); ("packet_id", JString packet);
         ("status", JString "QUEUED"); ("duplicate", JBool false); ("request_replay", JBool true)]%string
  end.

(** The answer to a decoded frame, after the acceptance transaction. *)
Definition answer_acceptance (accepted : PacketAcceptanceResult) : handler response :=
  let receipt := JString (uuid_str (acceptance_receipt_id accepted)) in
  if conflict accepted then
    _metric_safely "payload_messages_rejected_total" 1 ;;
    respond 409 [("receipt_id", receipt); ("status", JString "CONFLICT"); ("reason", JString "SEQUENCE_CONFLICT")]%string
  else if duplicate accepted then
    match acceptance_job_id accepted, acceptance_packet_id accepted with
    | Some job, Some packet =>
        if bool_decide (acceptance_queue_status accepted = DELIVERY_PENDING_QUEUE)
        then _queue_one job packet ;; mret () else mret ()
    | _, _ => mret ()
    end ;;
    _metric_safely "payload_duplicate_messages_total" 1 ;;
    respond 200 [("receipt_id", receipt); ("packet_id", optional_text (acceptance_packet_id accepted));
      ("status", JString "DUPLICATE"); ("duplicate", JBool true)]%string
  else
    match acceptance_job_id accepted, acceptance_packet_id accepted with
    | Some job, Some packet =>
        (if negb (acceptance_missing_before accepted =? 0)
         then _metric_safely "payload_sequence_gaps_total" (acceptance_missing_before accepted) else mret ()) ;;
        _queue_one job packet ;;
        respond 202 [("receipt_id", receipt); ("packet_id", JString packet); ("status", JString "QUEUED");
          ("duplicate", JBool false)]%string
    | _, _ => Throw (RuntimeError "accepted unique packet did not create a job")
    end.

Definition accept_frame (key : uuid) (raw : bytes) (received : Z) : handler response :=
  match Codec.decode_telemetry raw (utc received) with
  | Raise (Codec.TelemetryValidationError reason detail) =>
      transact (reject_delivery key (Codec.reason_value reason) None "ground-api") ;;
      _metric_safely "payload_messages_rejected_total" 1 ;;
      respond 422 [("receipt_id", JString (uuid_str key)); ("status", JString "REJECTED");
        ("reason", JString (Codec.reason_value reason)); ("detail", JString detail)]%string
  | Raise exc => Throw (CodecExn exc)
  | Ok frame =>
      accepted ← transact (accept_packet_and_create_job key (_telemetry_values frame)
                            (processing_maximum_attempts settings) "ground-api");
      answer_acceptance accepted
  end.

(** The block of the handler inside its database session. *)
Definition receive_in_session (r : request) (raw : bytes) (received : Z) : handler response :=
  let canonical := _canonical_uuid4 (x_request_id r) in
  delivery ← transact (record_delivery raw VENDOR_IDENTITY (x_request_id r) canonical
                        (header_content_type r) (Some received) None None);
  _metric_safely "payload_messages_received_total" 1 ;;
  if request_conflict delivery then
    _metric_safely "payload_messages_rejected_total" 1 ;;
    respond 409 [("receipt_id", JString (uuid_str (result_receipt_id delivery))); ("status", JString "CONFLICT");
      ("reason", JString "REQUEST_ID_REUSED_WITH_DIFFERENT_BODY")]%string
  else
    existing ← (if request_replay delivery then
                  found ← transact (get_delivery (result_receipt_id delivery));
                  match found with
                  | None => Throw (RuntimeError "request replay points to missing receipt")
                  | Some receipt => mret (Some receipt)
                  end
                else mret None);
    match decided_replay existing with
    | Some answer => mret answer
    | None =>
        if negb (is_octet_stream (header_content_type r)) then
          refuse 400 (result_receipt_id delivery) "INVALID_CONTENT_TYPE"
        else if bool_decide (canonical = None) then
          refuse 400 (result_receipt_id delivery) "INVALID_REQUEST_ID"
        else
          match existing with
          | Some receipt =>
              if bool_decide (validation_status receipt = ACCEPTED)
                 && bool_decide (queue_status receipt = DELIVERY_PENDING_QUEUE) then
                match logical_packet_id receipt with
                | Some packet => requeue_replay receipt packet
                | None => accept_frame (result_receipt_id delivery) raw received
                end
              else accept_frame (result_receipt_id delivery) raw received
          | None => accept_frame (result_receipt_id delivery) raw received
          end
    end.

Definition unauthenticated (r : request) : handler response :=
  _metric_safely "vendor_authentication_failures_total" 1 ;;
  _audit_safely "vendor.authentication.failed" "unauthenticated" "REJECTED" "INVALID_VENDOR_TOKEN"
    [("presented_request_id", optional_text (x_request_id r))]%string ;;
  respond 401 (response_body [("status", "REJECTED"); ("reason", "INVALID_VENDOR_TOKEN")]%string).

Definition refuse_body (r : request) (status : Z) : handler response :=
  let reason := if status =? 413 then "BODY_TOO_LARGE"%string else "INVALID_CONTENT_LENGTH"%string in
  _audit_safely "telemetry.delivery.security_rejected" VENDOR_IDENTITY "REJECTED" reason
    [("presented_request_id", optional_text (x_request_id r))]%string ;;
  respond status (response_body [("status", "REJECTED"); ("reason", reason)]%string).

Definition receive_payload_data (r : request) : handler response :=
  authentic ← pure match x_vendor_token r with
                   | None => Ok false
                   | Some token => digest_equal token (vendor_token settings)
                   end;
  if negb (authentic : bool) then unauthenticated r
  else
    match _bounded_body r (max_telemetry_body_bytes settings) with
    | Raise (HTTPException status _) => refuse_body r status
    | Raise exc => Throw exc
    | Ok raw_body =>
        received_at ← perform read_clock;
        try_except (receive_in_session r raw_body received_at) (fun exc =>
          if is_redis_error exc then
            respond 503 (response_body [("status", "PENDING_QUEUE"); ("reason", "REDIS_UNAVAILABLE")]%string)
          else if is_sqlalchemy_error exc then
            _metric_safely "database_errors_total" 1 ;;
            respond 503 (response_body [("status", "UNAVAILABLE"); ("reason", "POSTGRESQL_UNAVAILABLE")]%string)
          else Throw exc)
    end.
(** ** GET endpoints *)

(** [try: block except SQLAlchemyError] of the query endpoints. *)
Definition guard_database {A} (block : handler A) : handler A :=
  try_except block (fun exc =>
    if is_sqlalchemy_error exc then
      _metric_safely "database_errors_total" 1 ;; Throw (HTTPException 503 "PostgreSQL unavailable")
    else Throw exc).

Definition not_found {A} : handler A := Throw (HTTPException 404 "telemetry message not found").

Definition job_state_text (job : option TelemetryProcessingJob) : json :=
  from_option (fun j => JString (ProcessingJobState_value (job_state j))) JNull job.

Definition get_raw_payload (message_id : string) (authorization : option string) : handler response :=
  pure (_bearer_identity authorization settings) ;;
  if negb (fullmatch packet_id_pattern message_id) then not_found
  else guard_database (
    found ← transact (get_packet message_id);
    match found with
    | None => not_found
    | Some packet =>
        receipt ← transact (get_delivery (source_receipt_id packet));
        job ← transact (get_job_for_packet message_id);
        match receipt with
        | None => Throw (RuntimeError "logical packet has no source receipt")
        | Some receipt =>
            respond 200 [("message_id", JString (packet_id packet)); ("receipt_id", JString (uuid_str (receipt_id receipt)));
              ("raw_hex", JString (String.concat "" (map (fun b => format_02x (byte_val b)) (raw_body receipt))));
              ("body_sha256", JString (body_sha256 receipt)); ("received_at", JString (isoformat_utc (received_at receipt)));
              ("protocol_version", JInt (protocol_version packet));
              ("payload_id", JString ("PAYLOAD-" +:+ format_02d (payload_id packet)));
              ("boot_id", JInt (boot_id packet)); ("sequence_number", JInt (sequence_number packet));
              ("sample_time", JString (_iso_from_us (sample_timestamp_us packet)));
              ("sequence_disposition", JString (SequenceDisposition_value (sequence_disposition packet)));
              ("missing_before", JInt (missing_before packet)); ("processing_state", job_state_text job)]%string
        end
    end).

Definition get_processed_payload (message_id : string) (authorization : option string) : handler response :=
  pure (_bearer_identity authorization settings) ;;
  if negb (fullmatch packet_id_pattern message_id) then not_found
  else guard_database (
    found ← transact (get_packet message_id);
    match found with
    | None => not_found
    | Some _ =>
        processed ← transact (get_processed message_id);
        job ← transact (get_job_for_packet message_id);
        match processed with
        | None =>
            let state := from_option (fun j => ProcessingJobState_value (job_state j)) "UNKNOWN"%string job in
            let is_failed := from_option (fun j => bool_decide (job_state j = FAILED)) false job in
            respond (if is_failed then 422 else 202)
              [("message_id", JString message_id); ("processing_state", JString state)]%string
        | Some t =>
            respond 200 [("message_id", JString (processed_packet_id t)); ("temperature_c", JFloat (chars_of (float_repr (temperature_c t))));
              ("voltage_v", JFloat (chars_of (float_repr (voltage_v t)))); ("operating_mode", JString (mode_name t));
              ("fault_names", JArray (map JString (fault_names t)));
              ("classification", JString (HealthClassification_value (classification t)));
              ("freshness", JString (if stale t then "STALE" else "CURRENT"));
              ("processor_version", JString (processor_version t));
              ("processed_at", JString (isoformat_utc (processed_at t)))]%string
        end
    end).

Definition event_members (event : TelemetryAuditEvent) : list (string * json) := [
  ("event_id", JString (uuid_str (event_id event))); ("timestamp", JString (isoformat_utc (occurred_at event)));
  ("service_name", JString (service_name event)); ("event_name", JString (event_name event));
  ("actor_identity", JString (actor_identity event)); ("outcome", JString (outcome event));
  ("reason", optional_text (reason event));
  ("receipt_id", from_option (fun u => JString (uuid_str u)) JNull (event_receipt_id event));
  ("message_id", optional_text (event_packet_id event));
  ("job_id", from_option (fun u => JString (uuid_str u)) JNull (event_job_id event));
  ("event_data", JObject (event_data event))]%string.

(** The declared bounds of the query parameter are checked before the handler runs. *)
Definition get_audit_events (limit : Z) (authorization : option string) : handler (list (list (string * json))) :=
  if negb ((1 <=? limit) && (limit <=? 100)) then Throw (HTTPException 422 "limit")
  else
    identity ← pure (_bearer_identity authorization settings);
    if negb (bool_decide (identity = "administrator"%string)) then
      Throw (HTTPException 403 "administrator permission required")
    else guard_database (
      events ← transact (list_audit_events limit);
      mret (map event_members events)).

(** [SELECT 1] and [PING]. *)
Definition probe_database : action system () := in_database (mret ()).
Definition probe_redis : action system bool := in_redis (mret true).

Definition suppress (p : handler bool) : handler bool := try_except p (fun _ => mret false).

Definition readiness : handler response :=
  postgresql ← suppress (perform probe_database ;; mret true);
  redis_up ← suppress (perform probe_redis);
  let ready := postgresql && redis_up in
  respond (if (ready : bool) then 200 else 503)
    [("status", JString (if ready then "ready" else "not_ready"));
     ("dependencies", JObject [("postgresql", JBool postgresql); ("redis", JBool redis_up)])]%string.

Definition metrics (authorization : option string) : handler string :=
  identity ← pure (_bearer_identity authorization settings);
  if negb (bool_decide (identity = "administrator"%string)) then
    Throw (HTTPException 403 "administrator permission required")
  else
    try_except
      (counters ← perform snapshot;
       depth ← exchange (queue_depth queue_keys);
       mret (render_prometheus counters depth))
      (fun exc => if is_redis_error exc then Throw (HTTPException 503 "Redis unavailable") else Throw exc).
End Api.
