(* ===== verification/Worker.v ===== *)
(** * The payload worker: [mission_ground/services/payload_worker.py]

    One round of [run_worker]'s loop as a program over the gateway's system, and the rounds in sequence
    after the recovery of the processing list.  Sleeping only lets the clock advance, which the stream of
    clock readings already allows; log records are not modelled.  The text of an exception that is stored
    with a failed attempt comes from [describe]. *)
From S2P Require Import Prelude PyFloat PyFormat Sha256 Uuid PyText Json Codec Health Sql Schema Session Repository Redis Queue.
From S2P Require Import QueueSpec Metrics Config Gateway GroundApi.
From Stdlib Require Import Ascii.

Open Scope Z_scope.

(** ** Values *)

#[export] Instance values_eq_dec : EqDecision DecodedTelemetryValues.
Proof. solve_decision. Defined.

(** [_stored_values]: the same function of the frame as the gateway's. *)
Definition _stored_values (frame : Codec.TelemetryFrame) : DecodedTelemetryValues := {|
  v_protocol_version := Codec.protocol_version frame; v_payload_id := Codec.payload_id frame;
  v_boot_id := Codec.boot_id frame; v_sequence_number := Codec.sequence_number frame;
  v_sample_timestamp_us := Codec.timestamp_us frame;
  v_temperature_centi_c := Codec.temperature_centi_c frame; v_voltage_mv := Codec.voltage_mv frame;
  v_operating_mode := Codec.operating_mode frame; v_fault_flags := Codec.fault_flags frame |}.

Definition _fault_names (flags : Z) : list string :=
  Codec.FaultFlag_name <$> List.filter (fun f => negb (Z.land flags (Codec.FaultFlag_value f) =? 0)) Codec.FaultFlag_members.

(** The quotients of the frame's display properties. *)
Definition frame_temperature_c (frame : Codec.TelemetryFrame) : float :=
  float_div (float_of_Z (Codec.temperature_centi_c frame)) (float_of_Z 100).
Definition frame_voltage_v (frame : Codec.TelemetryFrame) : float :=
  float_div (float_of_Z (Codec.voltage_mv frame)) (float_of_Z 1_000).

(** [HealthClassification(assessment.classification.value)]. *)
Definition stored_classification (c : Health.HealthClassification) : HealthClassification :=
  match c with Health.NOMINAL => NOMINAL | Health.WARNING => WARNING | Health.CRITICAL => CRITICAL end.

(** The name of a valid operating mode. *)
Definition mode_text (mode : Z) : string := from_option Codec.OperatingMode_name ""%string (Codec.OperatingMode_of mode).

(** Decoding, checking and classifying the preserved bytes of a work item. *)
Definition process_work (work : TelemetryWorkItem) : result exn (ProcessingResultValues * bool) :=
  let received := utc (work_received_at work) in
  frame ← catch (Codec.decode_telemetry (work_raw_body work) received) (fun e => Raise (CodecExn e));
  raise: PyValueError "stored decoded fields do not match the preserved raw bytes"
    when negb (bool_decide (_stored_values frame = work_values work)) ;;
  assessment ← catch (Health.assess_health frame received) (fun e => Raise (CodecExn e));
  Ok ({| r_temperature_c := frame_temperature_c frame; r_voltage_v := frame_voltage_v frame;
         r_operating_mode := mode_text (Codec.operating_mode frame);
         r_fault_names := _fault_names (Codec.fault_flags frame);
         r_classification := stored_classification (Health.classification assessment);
         r_is_stale := Health.is_stale assessment;
         r_processor_version := "telemetry-v1" |}, Health.is_stale assessment).

(** [isinstance(exc, TelemetryValidationError | ValueError)]. *)
Definition is_value_error (e : exn) : bool :=
  match e with
  | CodecExn (Codec.TelemetryValidationError _ _) | CodecExn (Codec.ValueError _) => true
  | PyValueError _ | StorageExn (Session.ValueError _) => true
  | QueueExn (QueueMessageError _) | QueueExn (Queue.ValueError _) => true
  | _ => false
  end.

(** [max(0, math.ceil((next_attempt_at - now).total_seconds()))], one second without a time. *)
Definition retry_delay (next_attempt : option Z) (now : Z) : Z :=
  match next_attempt with
  | None => 1
  | Some t => Z.max 0 (- ((- (t - now)) / us_per_second))
  end.

Section Worker.
Context `{SqlEngine} `{Env} `{RedisServer} `{Network} `{interpreter : Interpreter}.
Context (settings : WorkerSettings) (worker_id : string) (describe : exn -> string).

Abbreviation handler A := (prog system A).

(** [await asyncio.sleep(seconds)]. *)
Definition sleep (seconds : Z) : handler () := mret ().

Definition _increment_safely (name : string) : handler () := _metric_safely name 1.

Definition _return_or_finish_unclaimed (message : QueueMessage) : handler () :=
  key ← pure match UUID (message_job_id message) with
             | Some key => Ok key
             | None => Raise (PyValueError "badly formed hexadecimal UUID string")
             end;
  job ← transact (get_job key);
  match job with
  | None => exchange (ack queue_keys message)
  | Some job =>
      if bool_decide (job_state job = COMPLETE) then exchange (ack queue_keys message)
      else if bool_decide (job_state job = FAILED) then exchange (dead_letter queue_keys message)
      else sleep 1 ;; exchange (retry queue_keys message)
  end.

(** The claim of the database job of a message. *)
Definition claim_work (message : QueueMessage) : handler (option TelemetryWorkItem) :=
  key ← pure match UUID (message_job_id message) with
             | Some key => Ok key
             | None => Raise (PyValueError "badly formed hexadecimal UUID string")
             end;
  work ← transact (claim_processing_job key worker_id 60);
  match work with
  | None => _return_or_finish_unclaimed message ;; mret None
  | Some item => mret (Some item)
  end.

(** From the claimed work to the acknowledged message. *)
Definition finish_work (message : QueueMessage) (work : TelemetryWorkItem) : handler () :=
  outcome ← pure (process_work work);
  let '(values, is_stale) := (outcome : ProcessingResultValues * bool) in
  transact (complete_processing_job (work_job_id work) values worker_id None) ;;
  acknowledged ← try_except (exchange (ack queue_keys message) ;; mret true) (fun _ => mret false);
  if negb (acknowledged : bool) then mret ()
  else
    _increment_safely "payload_processing_successes_total" ;;
    if is_stale then _increment_safely "payload_stale_results_total" else mret ().

(** The exception handler of the loop when the job had not been claimed, and when it had. *)
Definition return_message (message : QueueMessage) : handler () :=
  sleep 1 ;;
  try_except (exchange (retry queue_keys message)) (fun exc =>
    match exc with QueueExn (QueueStateError _) => mret () | _ => Throw exc end).

Definition fail_work (message : QueueMessage) (work : TelemetryWorkItem) (exc : exn) : handler () :=
  let temporary := negb (is_value_error exc) in
  failure ← try_except
    (result ← transact (fail_processing_attempt (work_job_id work) worker_id (describe exc) temporary 1 None);
     mret (Some result))
    (fun storage_exc =>
       if is_sqlalchemy_error storage_exc then
         _increment_safely "database_errors_total" ;; sleep 1 ;; mret None
       else Throw storage_exc);
  match (failure : option ProcessingFailureResult) with
  | None => mret ()
  | Some failure =>
      if bool_decide (failure_state failure = FAILED) then exchange (dead_letter queue_keys message)
      else
        now ← match failure_next_attempt_at failure with
              | Some _ => perform read_clock
              | None => mret 0
              end;
        sleep (retry_delay (failure_next_attempt_at failure) now) ;;
        exchange (retry queue_keys message)
  end.

Definition process_message (message : QueueMessage) : handler () :=
  claimed ← try_except
    (work ← claim_work message; mret (Ok work))
    (fun exc =>
       _increment_safely "payload_processing_failures_total" ;;
       return_message message ;; mret (Raise tt));
  match (claimed : result () (option TelemetryWorkItem)) with
  | Raise _ | Ok None => mret ()
  | Ok (Some work) =>
      try_except (finish_work message work) (fun exc =>
        _increment_safely "payload_processing_failures_total" ;;
        fail_work message work exc)
  end.

(** One round of [while True]. *)
Definition worker_round : handler () :=
  claimed ← try_except
    (exchange (claim queue_keys (claim_timeout_seconds settings)))
    (fun exc =>
       match exc with
       | QueueExn (QueueMessageError _) => mret None
       | _ => if is_redis_error exc then sleep 1 ;; mret None else Throw exc
       end);
  match (claimed : option QueueMessage) with
  | None => mret ()
  | Some message => process_message message
  end.

(** [queue.recover_processing()], with rounds for the entries that are there. *)
Definition recover_all : Q Z := fun s =>
  match recover_processing queue_keys (recovery_rounds queue_keys s) s with
  | (Ok (Some n), s') => (Ok n, s')
  | (Ok None, s') => (Raise ResponseError, s')
  | (Raise e, s') => (Raise e, s')
  end.

(** The worker's start and its first [rounds] rounds. *)
Fixpoint worker_rounds (rounds : nat) : handler () :=
  match rounds with
  | O => mret ()
  | S rounds' => worker_round ;; worker_rounds rounds'
  end.
Definition run_worker (rounds : nat) : handler () :=
  exchange recover_all ;; worker_rounds rounds.
End Worker.
