(* ===== verification/Linked.v ===== *)
(** * The database and the work queue together

    [linked]: the queue holds messages of stored jobs only, and every job at work has its message in the
    queue.  [sys_ok] is the invariant of the whole system, [rely] what any action of a service may do to it:
    rows only evolve, and a job stays [secured], that is, its message is in the queue or it is complete. *)
From S2P Require Import Prelude PyFormat Sha256 Uuid Json Codec Sql Schema Session Repository RepositoryInv RepositorySafe.
From S2P Require Import RepositoryAccept RepositoryProps RepositoryQuiet Redis Queue QueueSpec QueueProps Gateway GroundApi.

Open Scope Z_scope.

(** The message of a job. *)
Definition message_of (j : TelemetryProcessingJob) : QueueMessage :=
  mk_message (uuid_str (job_id j)) (job_packet_id j).

Lemma queue_keys_distinct : distinct_keys queue_keys.
Proof. apply (namespace_keys "ground:telemetry:jobs"). vm_compute. reflexivity. Qed.

Section Linked.
Context `{SqlEngine} `{!SqlLaws} `{Env} `{!UuidLaws} `{RedisServer} `{!RedisLaws} `{Network} `{interpreter : Interpreter}.
Implicit Types (d : database) (s : system).

Record linked d (w : work) : Prop := {
  linked_entries m : m ∈ entries w -> exists k j, row_at (jobs d) k = Some j /\ m = message_of j;
  linked_jobs k j : row_at (jobs d) k = Some j -> at_work (job_state j) = true -> message_of j ∈ entries w
}.

(** Identifiers and numbers within the ranges of their texts. *)
Record in_range d : Prop := {
  job_range k j : row_at (jobs d) k = Some j -> 0 <= k < uuid_max;
  packet_range k p : row_at (packets d) k = Some p -> displayable p
}.

Definition tables_of s : database := db (tables s).

Record sys_ok s : Prop := {
  sys_consistent : consistent (tables_of s);
  sys_range : in_range (tables_of s);
  sys_linked : exists w, represents queue_keys (redis s) w /\ linked (tables_of s) w
}.

(** The queue's marker of a job. *)
Definition marked s (k : uuid) : Prop := is_Some (value_at (redis s) (marker queue_keys (uuid_str k))).

Definition secured s (k : uuid) : Prop :=
  exists j, row_at (jobs (tables_of s)) k = Some j /\ (job_state j = COMPLETE \/ marked s k).

Record rely s s' : Prop := {
  rely_evolves : evolves (tables_of s) (tables_of s');
  rely_secured k : secured s k -> secured s' k
}.

#[export] Instance rely_preorder : PreOrder rely.
Proof.
  split.
  - intros s. split; [done|auto].
  - intros s1 s2 s3 [He1 Hs1] [He2 Hs2]. split; [by etransitivity|auto].
Qed.

(** ** Facts that outlive the actions of others *)

Lemma job_kept s s' k j :
  rely s s' -> row_at (jobs (tables_of s)) k = Some j ->
  exists j', row_at (jobs (tables_of s')) k = Some j' /\ job_evolves j j' /\ message_of j' = message_of j.
Proof.
  intros [He _] Hj. destruct (jobs_evolve _ _ He _ _ Hj) as (j' & Hj' & Hev). exists j'. split; [done|].
  split; [done|]. destruct Hev as (Hid & Hpk & _). unfold message_of. congruence.
Qed.

Lemma complete_kept j j' : job_evolves j j' -> job_state j = COMPLETE -> job_state j' = COMPLETE.
Proof. intros (_ & _ & _ & _ & _ & Hm) Hc. rewrite <- Hc. apply (job_move_terminal _ _ Hm). by left. Qed.

(** ** Messages and markers *)

Lemma job_message_valid s k j : sys_ok s -> row_at (jobs (tables_of s)) k = Some j -> valid_message (message_of j).
Proof.
  intros [Hc [Hjr Hpr] _] Hj. destruct (job_rows _ Hc _ _ Hj) as (Hid & _ & [p Hp]).
  destruct (packet_rows _ Hc _ _ Hp) as (Hpid & [Hchk Htext] & _ & _).
  destruct (Hpr _ _ Hp) as [Hpay Hboot]. unfold checks, packet_schema, MAX_UINT32 in Hchk. bool_to_prop.
  unfold valid_message. cbn [message_of message_job_id message_packet_id].
  apply (new_message_ok (job_id j) (payload_id p) (boot_id p) (sequence_number p)).
  - rewrite Hid. by eapply Hjr.
  - apply Codec.Codec.format_packet_id_ok. change Codec.Codec.UINT32_MAX with 4294967295 in *.
    split; [lia|]. split; [lia|]. split; [lia|]. congruence.
Qed.

Lemma marked_entry s w k j :
  sys_ok s -> represents queue_keys (redis s) w -> linked (tables_of s) w -> row_at (jobs (tables_of s)) k = Some j ->
  marked s k <-> message_of j ∈ entries w.
Proof.
  intros Hok Hrep Hlk Hj. pose proof Hok as [Hc [Hjr _] _].
  destruct (job_rows _ Hc _ _ Hj) as (Hid & _). pose proof (rep_ledger _ _ _ Hrep) as Hled. unfold marked. split.
  - intros [v Hv]. apply Hled in Hv as (m & Hm & Hmj & _).
    destruct (linked_entries _ _ Hlk _ Hm) as (k' & j' & Hj' & ->). cbn in Hmj.
    destruct (job_rows _ Hc _ _ Hj') as (Hid' & _).
    assert (k' = k) as -> by (rewrite Hid' in Hmj; eapply uuid_str_inj; eauto). congruence.
  - intros Hm. exists (RString (to_json_bytes (message_of j))). apply Hled. exists (message_of j).
    split; [done|]. split; [cbn; by rewrite Hid|done].
Qed.

Lemma work_unique s w w' :
  represents queue_keys (redis s) w -> represents queue_keys (redis s) w' -> forall m, m ∈ entries w <-> m ∈ entries w'.
Proof.
  enough (forall w w', represents queue_keys (redis s) w -> represents queue_keys (redis s) w' ->
    forall m, m ∈ entries w -> m ∈ entries w') as Hgen by (intros Hw Hw' m; split; eapply Hgen; eauto).
  clear w w'. intros w w' [_ _ _ Hl] [_ _ _ Hl'] m Hm.
  assert (value_at (redis s) (marker queue_keys (message_job_id m)) = Some (RString (to_json_bytes m))) as Hv
    by (apply Hl; by exists m).
  apply Hl' in Hv as (m' & Hm' & _ & He).
  apply (f_equal (fun v => match v with RString text => text | RList _ => [] end)) in He.
  assert (m = m') as ->; [|done]. apply to_json_inj; [| |done].
  - by eapply Forall_forall; [apply Hl|].
  - by eapply Forall_forall; [apply Hl'|].
Qed.

(** ** Actions *)

(** What an action does to the tables: nothing, or the change of a returning method. *)
Lemma in_database_cases {A} (m : M A) s r s' :
  atomic m -> in_database m s = (r, s') ->
  redis s' = redis s /\
  (tables_of s' = tables_of s \/ exists a w', m (tables s) = (Ok a, w') /\ tables_of s' = db w') /\
  (forall a, r = Ok a -> exists w', m (tables s) = (Ok a, w') /\ tables_of s' = db w').
Proof.
  intros Ha. unfold in_database, tables_of. destruct (database_fate _).
  - destruct (m (tables s)) as [[a|e] w] eqn:Hm; intros [= <- <-]; cbn.
    + split; [done|]. split; [right; eauto|]. intros b [= <-]. eauto.
    + split; [done|]. split; [left; by eapply Ha|done].
  - intros [= <- <-]. cbn. split; [done|]. split; [by left|done].
  - intros [= <- <-]. cbn. split; [done|]. split; [|done].
    destruct (m (tables s)) as [[a|e] w] eqn:Hm; cbn; [right; eauto|left; by eapply Ha].
  - intros [= <- <-]. cbn. split; [done|]. split; [by left|done].
Qed.

Lemma in_range_step more d d' : in_range d -> quiet_step more d d' -> in_range d'.
Proof.
  intros [Hj Hp] [Hqj Hqp]. split.
  - intros k j [(j0 & Hj0 & _)|[_ ?]]%Hqj; [by eapply Hj|done].
  - intros k p [Hp0|]%Hqp; [by eapply Hp|done].
Qed.

(** A change of the tables that puts only secured jobs to work. *)
Lemma tables_step s s' more :
  sys_ok s -> redis s' = redis s -> safe_step (tables_of s) (tables_of s') ->
  quiet_step more (tables_of s) (tables_of s') -> (forall k, more k -> secured s k) ->
  sys_ok s' /\ rely s s'.
Proof.
  intros Hok Hr Hsafe Hq Hmore. pose proof Hok as [Hc Hrg (w & Hrep & Hlk)]. destruct (Hsafe Hc) as [Hc' He].
  assert (forall k, secured s k -> secured s' k) as Hsec.
  { intros k (j & Hj & Hor). destruct (jobs_evolve _ _ He _ _ Hj) as (j' & Hj' & Hev). exists j'. split; [done|].
    destruct Hor as [Hcm|Hm]; [left; by eapply complete_kept|right; unfold marked; by rewrite Hr]. }
  split; [|by split]. split; [done|by eapply in_range_step|]. exists w. rewrite Hr. split; [done|]. split.
  - intros m Hm. destruct (linked_entries _ _ Hlk _ Hm) as (k & j & Hj & ->).
    destruct (jobs_evolve _ _ He _ _ Hj) as (j' & Hj' & Hid & Hpk & _). exists k, j'. split; [done|].
    unfold message_of. congruence.
  - intros k j' Hj' Hw'. destruct (quiet_jobs _ _ _ Hq _ _ Hj') as [(j & Hj & Hor)|[Hnew _]].
    + destruct (jobs_evolve _ _ He _ _ Hj) as (j0 & Hj0 & Hid & Hpk & _). rewrite Hj' in Hj0. injection Hj0 as <-.
      assert (message_of j' = message_of j) as -> by (unfold message_of; congruence).
      destruct (Hor Hw') as [Hwj|Hk]; [by eapply linked_jobs|]. destruct (Hmore _ Hk) as (j1 & Hj1 & Hsc).
      rewrite Hj in Hj1. injection Hj1 as <-. destruct Hsc as [Hcm|Hmk]; [|by eapply (marked_entry s w k)].
      assert (job_state j' = COMPLETE) as Hcm'.
      { destruct (jobs_evolve _ _ He _ _ Hj) as (j2 & Hj2 & Hev). rewrite Hj' in Hj2. injection Hj2 as <-. by eapply complete_kept. }
      by rewrite Hcm' in Hw'.
    + destruct (Hmore _ (Hnew Hw')) as (j1 & Hj1 & Hsc).
      destruct (jobs_evolve _ _ He _ _ Hj1) as (j2 & Hj2 & Hev). rewrite Hj' in Hj2. injection Hj2 as <-.
      destruct Hsc as [Hcm|Hmk]; [by rewrite (complete_kept _ _ Hev Hcm) in Hw'|].
      assert (message_of j' = message_of j1) as -> by (destruct Hev as (Hid & Hpk & _); unfold message_of; congruence).
      by eapply (marked_entry s w k).
Qed.

(** A repository method that is not [mark_job_queued]. *)
Lemma database_action {A} (m : M A) s r s' :
  atomic m -> safe m -> quiet m -> sys_ok s -> in_database m s = (r, s') -> sys_ok s' /\ rely s s'.
Proof.
  intros Ha Hs Hq Hok Hrun. destruct (in_database_cases m s r s' Ha Hrun) as (Hr & Hcases & _).
  destruct Hcases as [Heq|(a & w' & Hm & Hw)].
  - apply (tables_step s s' (fun _ => False)); [done|done|by rewrite Heq|by rewrite Heq|done].
  - apply (tables_step s s' (fun _ => False)); [done|done|rewrite Hw; by eapply Hs| |done].
    rewrite Hw. eapply Hq; [|exact Hm]. apply Hok.
Qed.

(** [mark_job_queued] of a secured job. *)
Lemma mark_action key message actor s r s' :
  sys_ok s -> (is_Some (row_at (jobs (tables_of s)) key) -> secured s key) ->
  in_database (mark_job_queued key message actor) s = (r, s') -> sys_ok s' /\ rely s s'.
Proof.
  intros Hok Hsec Hrun.
  destruct (in_database_cases _ s r s' (atomic_begin _) Hrun) as (Hr & Hcases & _).
  destruct Hcases as [Heq|(a & w' & Hm & Hw)].
  - apply (tables_step s s' (fun _ => False)); [done|done|by rewrite Heq|by rewrite Heq|done].
  - destruct (mark_puts_to_work _ _ _ _ _ _ (sys_consistent _ Hok) Hm) as [Hq Hrow].
    apply (tables_step s s' (fun k => k = key)); [done|done| |by rewrite Hw|by intros k ->; apply Hsec].
    rewrite Hw. eapply safe_mark_queued, Hm.
Qed.

(** ** Actions on the queue *)

(** A method of the queue is one of the calls of its specification, up to the form of its reply: it
    leaves the same keyspace and raises the same errors. *)
Definition performs {A} (q : Q A) (c : queue_call) : Prop :=
  forall ks, (run_call queue_keys c ks).2 = (q ks).2 /\
    forall e, (run_call queue_keys c ks).1 = Raise e <-> (q ks).1 = Raise e.

Lemma in_redis_cases {A} (q : Q A) s r s' :
  in_redis q s = (r, s') ->
  tables_of s' = tables_of s /\ (redis s' = redis s \/ redis s' = (q (redis s)).2) /\
  (forall a, r = Ok a -> (q (redis s)).1 = Ok a /\ redis s' = (q (redis s)).2) /\
  (forall e, r = Raise e -> e = ConnectionError \/ exists e', e = QueueExn e' /\ (q (redis s)).1 = Raise e' /\ redis s' = (q (redis s)).2).
Proof.
  unfold in_redis. destruct (redis_fate _).
  - destruct (q (redis s)) as [[a|e] ks] eqn:Hq; intros [= <- <-]; cbn.
    + split; [done|]. split; [by right|]. split; [by intros b [= <-]|done].
    + split; [done|]. split; [by right|]. split; [done|]. intros e' [= <-]. right. by exists e.
  - intros [= <- <-]. split; [done|]. split; [by left|]. split; [done|]. intros e [= <-]. by left.
  - intros [= <- <-]. split; [done|]. split; [by right|]. split; [done|]. intros e [= <-]. by left.
  - intros [= <- <-]. split; [done|]. split; [by left|]. split; [done|]. intros e [= <-]. by left.
Qed.

(** A change of the queue that keeps the messages of unfinished jobs. *)
Lemma queue_step s s' w w' :
  sys_ok s -> represents queue_keys (redis s) w -> linked (tables_of s) w ->
  tables_of s' = tables_of s -> represents queue_keys (redis s') w' ->
  (forall m, m ∈ entries w' -> m ∈ entries w \/ exists k j, row_at (jobs (tables_of s)) k = Some j /\ m = message_of j) ->
  (forall k j, row_at (jobs (tables_of s)) k = Some j -> message_of j ∈ entries w ->
     message_of j ∈ entries w' \/ job_state j = COMPLETE) ->
  sys_ok s' /\ rely s s'.
Proof.
  intros Hok Hrep Hlk Ht Hrep' Hnew Hold. pose proof Hok as [Hc Hrg _].
  assert (sys_ok s') as Hok'.
  { split; rewrite ?Ht; [done..|]. exists w'. split; [done|]. split.
    - intros m [Hm|Hm]%Hnew; [by apply (linked_entries _ _ Hlk)|done].
    - intros k j Hj Hw. destruct (Hold k j Hj) as [|Hcm]; [by eapply linked_jobs|done|by rewrite Hcm in Hw]. }
  split; [done|]. split; [by rewrite Ht|]. intros k (j & Hj & Hor). exists j. rewrite Ht. split; [done|].
  destruct Hor as [|Hm]; [by left|]. apply (marked_entry s w k j) in Hm; [|done..].
  destruct (Hold k j Hj Hm) as [Hm'|]; [|by left]. right.
  apply (marked_entry s' w' k j); [done|done| |by rewrite Ht|done].
  destruct Hok' as [_ _ (w2 & Hrep2 & Hlk2)]. split.
  - intros m Hin. apply (linked_entries _ _ Hlk2). by apply (work_unique s' w' w2).
  - intros k2 j2 Hj2 Hw2. apply (work_unique s' w' w2); [done|done|]. by eapply linked_jobs.
Qed.

(** Only acknowledging removes a message, and only enqueueing adds one. *)
Lemma call_entries c w x : NoDup (message_job_id <$> entries w) ->
  (x ∈ entries (spec_call c w).2 -> x ∈ entries w \/ c = Enqueue x) /\
  (x ∈ entries w -> x ∈ entries (spec_call c w).2 \/ c = Ack x).
Proof.
  intros Hu. assert (NoDup (running w)) as Hn.
  { apply (NoDup_fmap_1 message_job_id). unfold entries in Hu. rewrite !fmap_app in Hu.
    apply NoDup_app in Hu as (_ & _ & Hu). by apply NoDup_app in Hu as (? & _ & _). }
  destruct c as [m|t|m|m|m|]; cbn [spec_call].
  - destruct (find_job _ _) as [m'|]; [case_bool_decide; cbn; auto|]. cbn [snd].
    change (entries (mk_work _ _ _)) with (m :: entries w). rewrite elem_of_cons. split; [|by auto].
    intros [->|]; auto.
  - destruct (t <? 0); [auto|]. destruct (rev (waiting w)) as [|m rest] eqn:Hrev; [auto|]. cbn [snd].
    assert (entries (mk_work (rev rest) (m :: running w) (abandoned w)) ≡ₚ entries w) as ->; [|auto].
    unfold entries. cbn. rewrite <- (rev_involutive (waiting w)), Hrev. cbn. solve_Permutation.
  - unfold spec_leave. case_bool_decide as Hin; [|auto]. cbn [snd]. rewrite (entries_without w m Hn Hin), elem_of_cons.
    split; [auto|]. intros [->|]; auto.
  - unfold spec_leave. case_bool_decide as Hin; [|auto]. cbn [snd].
    assert (entries (mk_work (m :: waiting w) (without m (running w)) (abandoned w)) ≡ₚ entries w) as ->; [|auto].
    rewrite (entries_without w m Hn Hin). unfold entries. cbn. solve_Permutation.
  - unfold spec_leave. case_bool_decide as Hin; [|auto]. cbn [snd].
    assert (entries (mk_work (waiting w) (without m (running w)) (m :: abandoned w)) ≡ₚ entries w) as ->; [|auto].
    rewrite (entries_without w m Hn Hin). unfold entries. cbn. solve_Permutation.
  - cbn [snd]. assert (entries (mk_work (running w ++ waiting w) [] (abandoned w)) ≡ₚ entries w) as ->; [|auto].
    unfold entries. cbn. solve_Permutation.
Qed.

(** An exchange with the queue: messages enqueued are of stored jobs, messages acknowledged of complete ones. *)
Lemma queue_action {A} (q : Q A) c s r s' :
  performs q c -> call_ok c -> sys_ok s ->
  (forall m, c = Enqueue m -> exists k j, row_at (jobs (tables_of s)) k = Some j /\ m = message_of j) ->
  (forall m k j, c = Ack m -> row_at (jobs (tables_of s)) k = Some j -> m = message_of j -> job_state j = COMPLETE) ->
  in_redis q s = (r, s') -> sys_ok s' /\ rely s s'.
Proof.
  intros Hq Hc Hok Henq Hack Hrun. destruct (in_redis_cases q s r s' Hrun) as (Ht & Hcases & _).
  pose proof Hok as [_ _ (w & Hrep & Hlk)].
  destruct Hcases as [Heq|Heq].
  - eapply (queue_step s s' w w); [done..|by rewrite Heq|by left|by left].
  - destruct (call_refines queue_keys c queue_keys_distinct Hc (redis s) w Hrep) as [_ Hrep'].
    destruct (Hq (redis s)) as [Hqs _]. rewrite Hqs, <- Heq in Hrep'.
    pose proof (ledger_unique _ _ _ (rep_ledger _ _ _ Hrep)) as Hu.
    eapply (queue_step s s' w _); [done..|exact Hrep'| |].
    + intros m Hm. apply (call_entries c w m Hu) in Hm as [|Hm]; [by left|right; by apply Henq].
    + intros k j Hj Hm. apply (call_entries c w _ Hu) in Hm as [|Hm]; [by left|right; by eapply Hack].
Qed.

Lemma performs_bind {A} (q : Q A) (f : A -> reply) c : run_call queue_keys c = (a ← q; mret (f a)) -> performs q c.
Proof.
  intros Hc ks. rewrite Hc. unfold mbind, Q_bind. destruct (q ks) as [[a|e] ks']; split; [done| |done|]; cbn;
    intros e'; split; by intros [= <-].
Qed.

Lemma performs_enqueue m : performs (enqueue queue_keys m) (Enqueue m).
Proof. by eapply performs_bind. Qed.
Lemma performs_claim t : performs (claim queue_keys t) (Claim t).
Proof. by eapply performs_bind. Qed.
Lemma performs_ack m : performs (ack queue_keys m) (Ack m).
Proof. by eapply (performs_bind _ (fun _ => Done)). Qed.
Lemma performs_retry m : performs (retry queue_keys m) (Retry m).
Proof. by eapply (performs_bind _ (fun _ => Done)). Qed.
Lemma performs_dead_letter m : performs (dead_letter queue_keys m) (DeadLetter m).
Proof. by eapply (performs_bind _ (fun _ => Done)). Qed.

(** Actions that touch neither tables nor queue. *)
Lemma silent_action s s' : tables_of s' = tables_of s -> redis s' = redis s -> sys_ok s -> sys_ok s' /\ rely s s'.
Proof.
  intros Ht Hr Hok. apply (tables_step s s' (fun _ => False)); [done|done|by rewrite Ht|by rewrite Ht|done].
Qed.
End Linked.
