(* ===== verification/SystemApi.v ===== *)
(** * The gateway's handlers keep the system's invariant

    [calm]: a program whose actions keep [sys_ok] and [rely], and that raises no queue conflict.  Every
    handler of the gateway is calm; a handler that answers 202 leaves the packet's job secured. *)
From S2P Require Import Prelude PyFormat Sha256 Uuid PyText Json Codec Sql Schema Session Repository RepositoryInv RepositorySafe.
From S2P Require Import RepositoryAccept RepositoryProps RepositoryQuiet Redis Queue QueueSpec QueueProps Metrics Config.
From S2P Require Import Gateway GroundApi Linked.

Open Scope Z_scope.

(** An exception other than the queue's conflict. *)
Definition sane (e : exn) : Prop := match e with QueueExn (QueueConflictError _) => False | _ => True end.

Section Calm.
Context `{SqlEngine} `{!SqlLaws} `{Env} `{!UuidLaws} `{RedisServer} `{!RedisLaws} `{Network} `{interpreter : Interpreter}.
Implicit Types (s : system).

Definition sane_end {A} (r : result exn A) (_ : system) : Prop := match r with Ok _ => True | Raise e => sane e end.
Definition guard {A} (p : prog system A) (post : result exn A -> system -> Prop) (s : system) : Prop :=
  guarded sys_ok rely p post s.
Definition calm {A} (p : prog system A) : Prop := forall s, guard p sane_end s.

(** A computation with a known end, then the rest. *)
Lemma guard_bind {A B} (p : prog system A) (f : A -> prog system B) mid post s :
  guard p mid s -> (forall a t, mid (Ok a) t -> guard (f a) post t) ->
  (forall e t, mid (Raise e) t -> post (Raise e) t) -> guard (p ≫= f) post s.
Proof. apply guarded_bind. Qed.

Lemma guard_since {A} (p : prog system A) post s :
  sys_ok s -> guard p post s -> guard p (fun r t => post r t /\ sys_ok t /\ rely s t) s.
Proof. intros Hok Hp. apply guarded_since; [apply _|done|done]. Qed.

Lemma calm_ret {A} (a : A) : calm (mret a).
Proof. intros s. exact I. Qed.
Lemma calm_throw {A} e : sane e -> calm (Throw (A:=A) e).
Proof. intros He s. exact He. Qed.
Lemma calm_bind {A B} (p : prog system A) (f : A -> prog system B) : calm p -> (forall a, calm (f a)) -> calm (p ≫= f).
Proof. intros Hp Hf s. eapply guard_bind; [apply Hp|intros a t _; apply Hf|done]. Qed.
Lemma calm_try {A} (p : prog system A) h : calm p -> (forall e, sane e -> calm (h e)) -> calm (try_except p h).
Proof. intros Hp Hh s. eapply guarded_try; [apply Hp|done|]. intros e t He. by apply Hh. Qed.

(** [p], which is calm, before a program with a postcondition. *)
Lemma calm_then {A B} (p : prog system A) (f : A -> prog system B) post s :
  calm p -> (forall a t, guard (f a) post t) -> (forall e t, sane e -> post (Raise e) t) -> guard (p ≫= f) post s.
Proof. intros Hp Hf He. eapply guard_bind; [apply Hp|intros a t _; apply Hf|intros e t; apply He]. Qed.

Lemma calm_weaken {A} (p : prog system A) (post : result exn A -> system -> Prop) :
  (forall s, guard p post s) -> (forall r t, post r t -> sane_end r t) -> calm p.
Proof. intros Hp Hpost s. eapply guarded_weaken; [apply Hp|exact Hpost]. Qed.

Lemma calm_pure {A} (r : result exn A) : (forall e, r = Raise e -> sane e) -> calm (pure r).
Proof. intros Hr. destruct r as [a|e]; [apply calm_ret|]. apply calm_throw, Hr. done. Qed.

(** ** Actions *)

(** A repository call other than [mark_job_queued], and what it leaves. *)
Lemma guard_transact {A} (m : M A) post s0 :
  atomic m -> safe m -> quiet m ->
  (forall s r s', sys_ok s -> rely s0 s -> in_database m s = (r, s') -> sys_ok s' -> rely s s' -> post r s') ->
  guard (transact m) post s0.
Proof.
  intros Ha Hs Hq Hpost. apply guarded_perform. intros s Hok Hr.
  destruct (in_database m s) as [r s'] eqn:Hrun. cbn [fst snd].
  destruct (database_action m s r s' Ha Hs Hq Hok Hrun) as [Hok' Hr']. split; [done|]. split; [done|].
  exact (Hpost s r s' Hok Hr Hrun Hok' Hr').
Qed.

Lemma database_sane {A} (m : M A) s e s' : in_database m s = (Raise e, s') -> sane e.
Proof.
  unfold in_database. destruct (database_fate _); [destruct (m (tables s)) as [[a|x] w]|..]; by intros [= <- _].
Qed.

Lemma calm_transact {A} (m : M A) : atomic m -> safe m -> quiet m -> calm (transact m).
Proof.
  intros Ha Hs Hq s0. apply guard_transact; [done..|]. intros s r s' _ _ Hrun _ _. destruct r; [done|].
  by eapply database_sane.
Qed.

Lemma guard_exchange {A} (q : Q A) c post s0 :
  performs q c -> call_ok c ->
  (forall s, sys_ok s -> rely s0 s ->
     (forall m, c = Enqueue m -> exists k j, row_at (jobs (tables_of s)) k = Some j /\ m = message_of j) /\
     (forall m k j, c = Ack m -> row_at (jobs (tables_of s)) k = Some j -> m = message_of j -> job_state j = COMPLETE)) ->
  (forall s r s', sys_ok s -> rely s0 s -> in_redis q s = (r, s') -> sys_ok s' -> rely s s' -> post r s') ->
  guard (exchange q) post s0.
Proof.
  intros Hq Hc Hpre Hpost. apply guarded_perform. intros s Hok Hr.
  destruct (in_redis q s) as [r s'] eqn:Hrun. cbn [fst snd]. destruct (Hpre s Hok Hr) as [Henq Hack].
  destruct (queue_action q c s r s' Hq Hc Hok Henq Hack Hrun) as [Hok' Hr']. split; [done|]. split; [done|].
  exact (Hpost s r s' Hok Hr Hrun Hok' Hr').
Qed.

(** Only enqueueing can report a conflict. *)
Lemma redis_sane {A} (q : Q A) s e s' :
  (forall ks x ks', q ks = (Raise x, ks') -> sane (QueueExn x)) -> in_redis q s = (Raise e, s') -> sane e.
Proof.
  intros Hq. unfold in_redis. destruct (redis_fate _); [|by intros [= <- _]..].
  destruct (q (redis s)) as [[a|x] ks] eqn:Hx; [done|]. intros [= <- _]. by eapply Hq.
Qed.

Lemma calm_silent {A} (a : action system A) :
  (forall s r s', a s = (r, s') -> tables_of s' = tables_of s /\ redis s' = redis s /\ sane_end r s') -> calm (perform a).
Proof.
  intros Ha s0. apply guarded_perform. intros s Hok _. destruct (a s) as [r s'] eqn:Hrun. cbn [fst snd].
  destruct (Ha s r s' Hrun) as (Ht & Hr & He). destruct (silent_action s s' Ht Hr Hok). done.
Qed.

Lemma calm_clock : calm (perform read_clock).
Proof. apply calm_silent. intros s r s'. unfold read_clock, utc_now. by intros [= <- <-]. Qed.

Lemma calm_hincrby name n : calm (perform (hincrby name n)).
Proof. apply calm_silent. intros s r s'. unfold hincrby. by destruct (redis_fate _); intros [= <- <-]. Qed.

Lemma calm_snapshot : calm (perform snapshot).
Proof. apply calm_silent. intros s r s'. unfold snapshot. by destruct (redis_fate _); intros [= <- <-]. Qed.

Lemma calm_metric name n : calm (_metric_safely name n).
Proof.
  apply calm_try; [|intros; apply calm_ret]. unfold increment. destruct (negb _); [apply calm_throw; exact I|apply calm_hincrby].
Qed.

(** A command that changes nothing. *)
Lemma calm_look {A} (q : Q A) :
  (forall ks r ks', q ks = (r, ks') -> ks' = ks /\ match r with Ok _ => True | Raise x => sane (QueueExn x) end) ->
  calm (exchange q).
Proof.
  intros Hq. apply calm_silent. intros s r s'. unfold in_redis.
  destruct (q (redis s)) as [r0 ks] eqn:Hx. destruct (Hq _ _ _ Hx) as [-> Hr0].
  destruct (redis_fate _); [destruct r0|..]; by intros [= <- <-].
Qed.

Lemma calm_depth : calm (exchange (queue_depth queue_keys)).
Proof.
  apply calm_look. intros ks r ks'. unfold queue_depth, llen, call. destruct (list_at _ _); by intros [= <- <-].
Qed.

(** ** Repository methods *)

(** A method that only reads. *)
Definition still {A} (m : M A) : Prop := forall w a w', m w = (Ok a, w') -> db w' = db w.

Lemma still_ret {A} (a : A) : still (mret a).
Proof. by intros w b w' [_ ->]%run_ret_ok. Qed.
Lemma still_raise {A} e : still (raise (A:=A) e).
Proof. by intros w b w' ?%run_raise_ok. Qed.
Lemma still_now : still utc_now.
Proof. by intros w b w' [_ ->]%run_now_ok. Qed.
Lemma still_get `{Countable K} `{!Mapped K R} k : still (session_get (R:=R) k).
Proof. by intros w b w' [_ ->]%run_get_ok. Qed.
Lemma still_scalars `{Countable K} `{!Mapped K R} p : still (session_scalars (R:=R) p).
Proof. by intros w b w' [_ ->]%run_scalars_ok. Qed.
Lemma still_scalar `{Countable K} `{!Mapped K R} p : still (session_scalar (R:=R) p).
Proof. by intros w b w' [_ ->]%run_scalar_ok. Qed.
Lemma still_begin {A} (m : M A) : still m -> still (session_begin m).
Proof. intros Hm w b w' Hr%run_begin_ok. by eapply Hm. Qed.
Lemma still_bind {A B} (m : M A) (k : A -> M B) : still m -> (forall a, still (k a)) -> still (m ≫= k).
Proof. intros Hm Hk w b w' (a & w1 & Ha & Hb)%run_bind_ok. rewrite (Hk _ _ _ _ Hb). by eapply Hm. Qed.
Lemma still_if {A} (c : bool) (m m' : M A) : still m -> still m' -> still (if c then m else m').
Proof. by destruct c. Qed.

Lemma still_safe {A} (m : M A) : still m -> safe m.
Proof. intros Hm w a w' Hr. by rewrite (Hm _ _ _ Hr). Qed.
Lemma still_quiet {A} (m : M A) : still m -> quiet m.
Proof. intros Hm w a w' _ Hr. by rewrite (Hm _ _ _ Hr). Qed.

(** What a read returns held when it was made, and the system is as it was then. *)
Lemma guard_read {A} (m : M A) post s0 :
  atomic m -> still m ->
  (forall s r s', sys_ok s -> rely s0 s -> sys_ok s' -> rely s s' ->
     match r with
     | Ok a => exists w, m (tables s) = (Ok a, w) /\ tables_of s' = tables_of s
     | Raise e => sane e
     end -> post r s') ->
  guard (transact m) post s0.
Proof.
  intros Ha Hm Hpost. apply guard_transact; [done|by apply still_safe|by apply still_quiet|].
  intros s r s' Hok Hr Hrun Hok' Hr'. apply (Hpost s r s'); [done..|].
  destruct (in_database_cases m s r s' Ha Hrun) as (_ & _ & Hval). destruct r as [a|e]; [|by eapply database_sane].
  destruct (Hval a eq_refl) as (w & Hw & Ht). exists w. split; [done|]. rewrite Ht. by apply (Hm _ _ _ Hw).
Qed.

Lemma calm_read {A} (m : M A) : atomic m -> still m -> calm (transact m).
Proof. intros Ha Hm. apply calm_transact; [done|by apply still_safe|by apply still_quiet]. Qed.

Lemma calm_get_delivery key : calm (transact (get_delivery key)).
Proof. apply calm_read; [apply atomic_begin|apply still_begin, still_get]. Qed.
Lemma calm_get_packet key : calm (transact (get_packet key)).
Proof. apply calm_read; [apply atomic_begin|apply still_begin, still_get]. Qed.
Lemma calm_get_processed key : calm (transact (get_processed key)).
Proof. apply calm_read; [apply atomic_begin|apply still_begin, still_get]. Qed.
Lemma calm_get_job key : calm (transact (get_job key)).
Proof. apply calm_read; [apply atomic_begin|apply still_begin, still_get]. Qed.
Lemma still_job_for_packet key : still (get_job_for_packet key).
Proof. apply still_begin, still_scalar. Qed.
Lemma calm_job_for_packet key : calm (transact (get_job_for_packet key)).
Proof. apply calm_read; [apply atomic_begin|apply still_job_for_packet]. Qed.
Lemma calm_list_events limit : calm (transact (list_audit_events limit)).
Proof.
  apply calm_read; unfold list_audit_events; [apply atomic_if; [apply atomic_raise|apply atomic_begin]|].
  apply still_if; [apply still_raise|]. apply still_begin, still_bind; [apply still_scalars|intros; apply still_ret].
Qed.

Lemma atomic_record_delivery raw peer presented canonical kind received sent chosen :
  atomic (record_delivery raw peer presented canonical kind received sent chosen).
Proof.
  unfold record_delivery. repeat (apply atomic_if; [apply atomic_raise|]). apply atomic_optional_now.
  intros t. apply atomic_retry, atomic_begin.
Qed.
Lemma calm_record_delivery raw peer presented canonical kind received sent chosen :
  calm (transact (record_delivery raw peer presented canonical kind received sent chosen)).
Proof.
  apply calm_transact; [apply atomic_record_delivery|apply safe_record_delivery|].
  apply frames_quiet, frames_record_delivery.
Qed.
Lemma calm_reject key why parsed actor : calm (transact (reject_delivery key why parsed actor)).
Proof. apply calm_transact; [apply atomic_begin|apply safe_reject|apply frames_quiet, frames_reject]. Qed.
Lemma calm_record_event service event actor out why r p j data :
  calm (transact (record_audit_event service event actor out why r p j data)).
Proof. apply calm_transact; [apply atomic_begin|apply safe_record_event|apply frames_quiet, frames_record_event]. Qed.
Lemma atomic_accept key v n actor : atomic (accept_packet_and_create_job key v n actor).
Proof.
  unfold accept_packet_and_create_job. repeat (apply atomic_if; [apply atomic_raise|]). apply atomic_retry, atomic_begin.
Qed.

Lemma calm_audit event actor out why data : calm (_audit_safely event actor out why data).
Proof.
  apply calm_try; [apply calm_record_event|]. intros e He. destruct (is_sqlalchemy_error e); [apply calm_ret|by apply calm_throw].
Qed.

(** ** Queueing one job *)

(** Of a finished step: job [k] is secured. *)
Definition secures {A} (k : uuid) (r : result exn A) s : Prop :=
  match r with Ok _ => secured s k | Raise e => sane e end.

(** No other message of the queue has the job's identifier. *)
Lemma own_entry s w k j :
  sys_ok s -> linked (tables_of s) w -> row_at (jobs (tables_of s)) k = Some j ->
  forall m', find_job (message_job_id (message_of j)) (entries w) = Some m' -> m' = message_of j.
Proof.
  intros [Hc [Hjr _] _] Hlk Hj m' (Hin & He)%find_job_some. destruct (linked_entries _ _ Hlk _ Hin) as (k' & j' & Hj' & ->).
  cbn in He. destruct (job_rows _ Hc _ _ Hj) as (Hid & _). destruct (job_rows _ Hc _ _ Hj') as (Hid' & _).
  rewrite Hid, Hid' in He. apply uuid_str_inj in He; [|by eapply Hjr..]. congruence.
Qed.

(** The job of an [Enqueue] that is not served an error has its marker. *)
Lemma enqueue_reply m k j s r s' :
  sys_ok s -> row_at (jobs (tables_of s)) k = Some j -> m = message_of j -> valid_message m ->
  in_redis (enqueue queue_keys m) s = (r, s') -> sys_ok s' -> rely s s' ->
  match r with Ok _ => secured s' k | Raise e => sane e end.
Proof.
  intros Hok Hj Hm Hv Hrun Hok' Hr. destruct (in_redis_cases _ s r s' Hrun) as (Ht & _ & Hval & Herr).
  pose proof Hok as [Hc _ (w & Hrep & Hlk)].
  destruct (call_refines queue_keys (Enqueue m) queue_keys_distinct Hv (redis s) w Hrep) as [Hout Hrep'].
  pose proof (own_entry s w k j Hok Hlk Hj) as Hone. rewrite <- Hm in Hone.
  cbn [run_call spec_call] in Hout, Hrep'. unfold mbind, Q_bind in Hout, Hrep'.
  destruct r as [b|e].
  - destruct (Hval b eq_refl) as [Hq Hks].
    destruct (enqueue queue_keys m (redis s)) as [q ks] eqn:He. cbn in Hq, Hks. subst q. cbn in Hrep'. rewrite <- Hks in Hrep'.
    exists j. rewrite Ht. split; [done|]. right. unfold marked.
    exists (RString (to_json_bytes m)). apply (rep_ledger _ _ _ Hrep'). exists m.
    split; [|split; [subst m; cbn; by destruct (job_rows _ Hc _ _ Hj) as (-> & _)|done]].
    destruct (find_job (message_job_id m) (entries w)) as [m'|] eqn:Hf.
    + rewrite bool_decide_eq_true_2 by (by apply Hone). cbn. rewrite <- (Hone m' eq_refl). by destruct (find_job_some _ _ _ Hf).
    + cbn. unfold entries. cbn. set_solver.
  - destruct (Herr e eq_refl) as [->|(x & -> & Hx & _)]; [exact I|].
    destruct (enqueue queue_keys m (redis s)) as [q ks] eqn:He. cbn in Hx. subst q. cbn in Hout.
    destruct (find_job (message_job_id m) (entries w)) as [m'|] eqn:Hf; [|done].
    by rewrite bool_decide_eq_true_2 in Hout by (by apply Hone).
Qed.

(** The stored job [k] of packet [packet]. *)
Definition job_row s (k : uuid) (packet : string) : Prop :=
  exists j, row_at (jobs (tables_of s)) k = Some j /\ job_packet_id j = packet.

Lemma job_row_kept s s' k packet : rely s s' -> job_row s k packet -> job_row s' k packet.
Proof.
  intros Hr (j & Hj & <-). destruct (job_kept _ _ _ _ Hr Hj) as (j' & Hj' & (_ & Hp & _) & _). by exists j'.
Qed.

Lemma job_row_message s k packet : sys_ok s -> job_row s k packet ->
  new_message (uuid_str k) packet = Ok (mk_message (uuid_str k) packet) /\
  exists j, row_at (jobs (tables_of s)) k = Some j /\ mk_message (uuid_str k) packet = message_of j.
Proof.
  intros Hok (j & Hj & <-). pose proof (job_message_valid _ _ _ Hok Hj) as Hv.
  destruct (job_rows _ (sys_consistent _ Hok) _ _ Hj) as (<- & _). split; [exact Hv|]. by exists j.
Qed.

Lemma guard_mark key message actor s0 :
  secured s0 key -> guard (transact (mark_job_queued key message actor)) (secures key) s0.
Proof.
  intros Hsec. apply guarded_perform. intros s Hok Hr.
  destruct (in_database _ s) as [r s'] eqn:Hrun. cbn [fst snd].
  destruct (mark_action key message actor s r s' Hok) as [Hok' Hr']; [by intros _; eapply rely_secured|exact Hrun|].
  split; [done|]. split; [done|]. destruct r; cbn; [|by eapply database_sane].
  by eapply rely_secured, rely_secured.
Qed.

Lemma guard_queue_one k packet s0 : sys_ok s0 -> job_row s0 k packet -> guard (_queue_one k packet) (secures k) s0.
Proof.
  intros Hok0 Hrow. destruct (job_row_message _ _ _ Hok0 Hrow) as [Hnew _]. unfold _queue_one. rewrite Hnew.
  cbn [pure]. eapply (guard_bind (exchange _) _ (secures k)).
  - apply (guard_exchange _ (Enqueue (mk_message (uuid_str k) packet))); [apply performs_enqueue|exact Hnew| |].
    + intros s Hok Hr. split; [|done]. intros m [= <-].
      destruct (job_row_message s k packet Hok) as [_ (j & Hj & Hm)]; [by eapply job_row_kept|eauto].
    + intros s r s' Hok Hr Hrun Hok' Hr'.
      destruct (job_row_message s k packet Hok) as [_ (j & Hj & Hm)]; [by eapply job_row_kept|].
      exact (enqueue_reply _ k j s r s' Hok Hj Hm Hnew Hrun Hok' Hr').
  - intros b t Hsec. by apply guard_mark.
  - done.
Qed.

(** ** Recovery of unqueued jobs *)

Lemma guard_find_job key post s0 :
  (forall o s, sys_ok s -> rely s0 s -> (forall j, o = Some j -> row_at (jobs (tables_of s)) key = Some j) -> post (Ok o) s) ->
  (forall e s, sane e -> post (Raise e) s) -> guard (transact (get_job key)) post s0.
Proof.
  intros Hok He. apply guard_read; [apply atomic_begin|apply still_begin, still_get|].
  intros s r s' Hs Hr Hs' Hr' Hval. destruct r as [o|e]; [|by apply He].
  destruct Hval as (w & Hw & Ht). apply Hok; [done|by etransitivity|]. intros j ->. rewrite Ht.
  unfold get_job in Hw. apply run_begin_ok, run_get_ok in Hw as [Hj _]. by rewrite Hj.
Qed.

Lemma calm_recover_each keys n : calm (recover_each keys n).
Proof.
  revert n. induction keys as [|key keys IH]; intros n; cbn [recover_each]; [apply calm_ret|]. intros s0.
  eapply (guard_bind _ _ (fun r s => match r with
    | Ok o => sys_ok s /\ forall j, o = Some j -> row_at (jobs (tables_of s)) key = Some j
    | Raise e => sane e end)).
  - by apply guard_find_job.
  - intros [j|] s [Hok Hj]; [|apply IH]. specialize (Hj j eq_refl).
    destruct (job_rows _ (sys_consistent _ Hok) _ _ Hj) as (Hid & _).
    eapply (guard_bind _ _ (secures key)); [|intros b t _; apply IH|done].
    rewrite Hid. apply guard_queue_one; [done|]. by exists j.
  - done.
Qed.

Lemma calm_recover limit : calm (_recover_pending_jobs limit).
Proof.
  apply calm_bind; [|intros; apply calm_recover_each]. unfold recoverable_queue_jobs. apply calm_read.
  - apply atomic_if; [apply atomic_raise|]. apply atomic_now. intros t. apply atomic_begin.
  - apply still_if; [apply still_raise|]. apply still_bind; [apply still_now|]. intros t. unfold list_jobs.
    apply still_begin, still_bind; [apply still_scalars|intros; apply still_ret].
Qed.

(** ** POST /vendor/payload-data *)

(** A 202 answer names a packet whose job is in the queue or complete. *)
Definition handed_over (r : result exn response) s : Prop :=
  match r with
  | Ok a => status_code a = 202 ->
      exists k j, row_at (jobs (tables_of s)) k = Some j /\
        ("packet_id"%string, JString (job_packet_id j)) ∈ content a /\ secured s k
  | Raise e => sane e
  end.

Lemma handed_over_kept r s s' : rely s s' -> handed_over r s -> handed_over r s'.
Proof.
  intros Hr. destruct r as [a|e]; [|done]. intros Ha H202. destruct (Ha H202) as (k & j & Hj & Hp & Hsec).
  destruct (job_kept _ _ _ _ Hr Hj) as (j' & Hj' & (_ & Hpk & _) & _). exists k, j'. rewrite Hpk.
  split; [done|]. split; [done|]. by eapply rely_secured.
Qed.

(** An answer without a promise. *)
Lemma guard_respond status members s : status <> 202 -> guard (respond status members) handed_over s.
Proof. by intros Hs H202. Qed.

Lemma guard_refuse status key why s : status <> 202 -> guard (refuse status key why) handed_over s.
Proof.
  intros Hs. apply calm_then; [apply calm_reject| |done]. intros a t.
  apply calm_then; [apply calm_metric|intros; by apply guard_respond|done].
Qed.

Lemma guard_queue_and_answer k packet (answer : bool -> response) s :
  sys_ok s -> job_row s k packet -> (forall b, ("packet_id"%string, JString packet) ∈ content (answer b)) ->
  guard (transitioned ← _queue_one k packet; mret (answer transitioned)) handed_over s.
Proof.
  intros Hok Hrow Hin. eapply guard_bind.
  - apply guard_since; [done|]. by apply guard_queue_one.
  - intros b t (Hsec & _ & Hr) _. destruct (job_row_kept _ _ _ _ Hr Hrow) as (j & Hj & Hp). exists k, j.
    rewrite Hp. split; [done|]. by split.
  - by intros e t (He & _).
Qed.

Lemma guard_answer accepted key s :
  sys_ok s -> (conflict accepted = false -> settled (tables_of s) key accepted) ->
  guard (answer_acceptance accepted) handed_over s.
Proof.
  intros Hok Hset. unfold answer_acceptance. destruct (conflict accepted).
  { apply calm_then; [apply calm_metric|intros; by apply guard_respond|done]. }
  destruct (Hset eq_refl) as (r & p & j & _ & _ & _ & _ & Hj & Hjp & _ & -> & -> & _). clear Hset.
  assert (job_row s (job_id j) (packet_id p)) as Hrow by (by exists j).
  destruct (duplicate accepted).
  - eapply (guard_bind _ _ sane_end); [|intros a t _|done].
    + destruct (bool_decide _); [|apply calm_ret].
      eapply guard_bind; [by apply guard_queue_one|intros; apply calm_ret|done].
    + apply calm_then; [apply calm_metric|intros; by apply guard_respond|done].
  - eapply guard_bind; [apply (guard_since _ sane_end); [done|]| |].
    + destruct (negb _); [apply calm_metric|apply calm_ret].
    + intros [] t (_ & Hok' & Hr). apply (guard_queue_and_answer (job_id j) (packet_id p) (fun _ => mk_response 202 _));
        [done|by eapply job_row_kept|intros; set_solver].
    + by intros e t (He & _).
Qed.

Lemma decoded_displayable raw t frame : Codec.Codec.decode_telemetry raw t = Ok frame -> values_displayable (_telemetry_values frame).
Proof.
  intros (_ & -> & Hv)%Codec.Codec.decode_ok. apply Codec.Codec.validate_fields_ok in Hv as [Hv _].
  unfold Codec.Codec.valid_frame in Hv. unfold values_displayable, _telemetry_values. cbn [v_payload_id v_boot_id].
  change Codec.Codec.UINT32_MAX with (2 ^ 32 - 1). lia.
Qed.

Lemma guard_accept_frame settings key raw received s : guard (accept_frame settings key raw received) handed_over s.
Proof.
  unfold accept_frame. destruct (Codec.Codec.decode_telemetry raw (utc received)) as [frame|[reason detail| |]] eqn:Hd; try exact I.
  2: { apply calm_then; [apply calm_reject| |done]. intros a t.
       apply calm_then; [apply calm_metric|intros; by apply guard_respond|done]. }
  eapply (guard_bind _ _ (fun r s => match r with
    | Ok res => sys_ok s /\ (conflict res = false -> settled (tables_of s) key res)
    | Raise e => sane e end)); [|intros res t [Hok Hset]; by apply (guard_answer res key)|done].
  pose proof (decoded_displayable _ _ _ Hd) as Hv.
  apply guard_transact; [apply atomic_accept|apply safe_accept|by apply quiet_accept|].
  intros s1 r s' Hok _ Hrun Hok' _. destruct r as [res|e]; [|by eapply database_sane]. split; [done|]. intros Hcf.
  destruct (in_database_cases _ s1 _ s' (atomic_accept _ _ _ _) Hrun) as (_ & _ & Hval).
  destruct (Hval res eq_refl) as (w & Hw & ->).
  destruct (accept_settles _ _ _ _ _ _ _ (sys_consistent _ Hok) Hw Hcf) as [Hset _]. exact Hset.
Qed.

Lemma guard_requeue existing packet s : guard (requeue_replay existing packet) handed_over s.
Proof.
  unfold requeue_replay.
  eapply (guard_bind _ _ (fun r s => match r with
    | Ok o => sys_ok s /\ forall j, o = Some j -> row_at (jobs (tables_of s)) (job_id j) = Some j /\ job_packet_id j = packet
    | Raise e => sane e end)).
  - apply guard_read; [apply atomic_begin|apply still_job_for_packet|].
    intros s1 r s' Hok _ Hok' _ Hval. destruct r as [o|e]; [|done]. split; [done|]. intros j ->.
    destruct Hval as (w & Hw & Ht). rewrite Ht. apply run_begin_ok in Hw. unfold job_of_packet in Hw.
    apply run_scalar_ok in Hw as [Hj _]. symmetry in Hj. apply head_Some_elem_of in Hj.
    apply list_elem_of_In, filter_In in Hj as [Hj Hp]. apply list_elem_of_In, elem_of_rows in Hj as [k Hk].
    bool_to_prop. split; [|done]. eapply job_at; [|exact Hk]. apply Hok.
  - intros [j|] t [Hok Hj]; [|exact I]. destruct (Hj j eq_refl) as [Hrow Hp].
    apply (guard_queue_and_answer (job_id j) (job_packet_id j) (fun b : bool => mk_response (if b then 202 else 200) _));
      [done|by exists j|intros b; rewrite Hp; set_solver].
  - done.
Qed.

Lemma guard_receive_in_session settings r raw received s : guard (receive_in_session settings r raw received) handed_over s.
Proof.
  unfold receive_in_session. apply calm_then; [apply calm_record_delivery| |done]. intros delivery t1.
  apply calm_then; [apply calm_metric| |done]. intros _ t2.
  destruct (request_conflict delivery).
  { apply calm_then; [apply calm_metric|intros; by apply guard_respond|done]. }
  apply calm_then; [| |done].
  { destruct (request_replay delivery); [|apply calm_ret].
    apply calm_bind; [apply calm_get_delivery|]. intros [x|]; [apply calm_ret|by apply calm_throw]. }
  intros existing t3. destruct (decided_replay existing) as [answer|] eqn:Hdec.
  { intros H202. exfalso. unfold decided_replay in Hdec. repeat case_match; simplify_eq; done. }
  destruct (negb _); [by apply guard_refuse|]. destruct (bool_decide _); [by apply guard_refuse|].
  destruct existing as [receipt|]; [|apply guard_accept_frame].
  destruct (_ && _); [|apply guard_accept_frame].
  destruct (logical_packet_id receipt); [apply guard_requeue|apply guard_accept_frame].
Qed.

Lemma read_stream_raises maximum body chunks e :
  read_stream maximum body chunks = Raise e -> exists detail, e = HTTPException 413 detail.
Proof.
  revert body; induction chunks as [|chunk rest IH]; intros body; cbn; [done|].
  destruct (_ <? _); [intros [= <-]; by eexists|apply IH].
Qed.

Lemma bounded_body_raises r maximum e :
  _bounded_body r maximum = Raise e -> exists status detail, e = HTTPException status detail /\ status <> 202.
Proof.
  unfold _bounded_body. intros Hr. destruct (header_content_length r) as [text|].
  - destruct (py_int text) as [n|]; [|injection Hr as <-; by eexists _, _].
    destruct (maximum <? n); [injection Hr as <-; by eexists _, _|].
    apply read_stream_raises in Hr as [detail ->]. by eexists _, _.
  - apply read_stream_raises in Hr as [detail ->]. by eexists _, _.
Qed.

Lemma guard_receive settings r s : guard (receive_payload_data settings r) handed_over s.
Proof.
  unfold receive_payload_data. apply calm_then; [| |done].
  { apply calm_pure. intros e. destruct (x_vendor_token r); [|done]. unfold digest_equal.
    destruct (compare_digest _ _); [done|by intros [= <-]]. }
  intros authentic t1. destruct (negb authentic).
  { apply calm_then; [apply calm_metric| |done]. intros _ t2.
    apply calm_then; [apply calm_audit|intros; by apply guard_respond|done]. }
  destruct (_bounded_body _ _) as [raw|e] eqn:Hbody.
  - apply calm_then; [apply calm_clock| |done]. intros received t2.
    eapply guarded_try; [apply guard_receive_in_session|done|]. intros e t3 He.
    destruct (is_redis_error e); [by apply guard_respond|]. destruct (is_sqlalchemy_error e); [|exact He].
    apply calm_then; [apply calm_metric|intros; by apply guard_respond|done].
  - destruct (bounded_body_raises _ _ _ Hbody) as (status & detail & -> & Hne).
    apply calm_then; [apply calm_audit|intros; by apply guard_respond|done].
Qed.

(** ** The GET endpoints *)

Lemma calm_respond status members : calm (respond status members).
Proof. apply calm_ret. Qed.
Lemma calm_not_found {A} : calm (not_found (A:=A)).
Proof. by apply calm_throw. Qed.

Lemma bearer_raises authorization settings e :
  _bearer_identity authorization settings = Raise e -> (exists detail, e = HTTPException 401 detail) \/ exists why, e = TypeError why.
Proof.
  unfold _bearer_identity, digest_equal. destruct authorization as [text|]; [|intros [= <-]; left; by eexists].
  destruct (negb _); [intros [= <-]; left; by eexists|].
  destruct (compare_digest _ (operator_token _)) as [[]|]; cbn; [done| |intros [= <-]; right; by eexists].
  destruct (compare_digest _ (admin_token _)) as [[]|]; cbn; [done|intros [= <-]; left; by eexists|intros [= <-]; right; by eexists].
Qed.

Lemma calm_bearer authorization settings : calm (pure (_bearer_identity authorization settings)).
Proof. apply calm_pure. by intros e [[detail ->]|[why ->]]%bearer_raises. Qed.

Lemma calm_database {A} (block : prog system A) : calm block -> calm (guard_database block).
Proof.
  intros Hb. apply calm_try; [done|]. intros e He. destruct (is_sqlalchemy_error e); [|by apply calm_throw].
  apply calm_bind; [apply calm_metric|intros; by apply calm_throw].
Qed.
End Calm.

Create HintDb calm.
#[export] Hint Resolve calm_ret calm_respond calm_not_found calm_bearer calm_metric calm_audit calm_clock calm_snapshot
  calm_depth calm_get_delivery calm_get_packet calm_get_processed calm_get_job calm_job_for_packet calm_list_events
  calm_recover : calm.
#[export] Hint Extern 1 (calm (Throw _)) => (apply calm_throw; exact I) : calm.

(** Through binds, tests and the calls of a handler. *)
Ltac solve_calm :=
  repeat first
    [ solve [auto 2 with calm]
    | simple apply calm_bind | simple apply calm_database
    | progress intros
    | match goal with
      | |- calm (if ?c then _ else _) => destruct c
      | |- calm (match ?c with _ => _ end) => destruct c
      end ].

Section Queries.
Context `{SqlEngine} `{!SqlLaws} `{Env} `{!UuidLaws} `{RedisServer} `{!RedisLaws} `{Network} `{interpreter : Interpreter}.

Lemma calm_raw_payload settings message authorization : calm (get_raw_payload settings message authorization).
Proof. unfold get_raw_payload. solve_calm. Qed.

Lemma calm_processed_payload settings message authorization :
  calm (get_processed_payload settings message authorization).
Proof. unfold get_processed_payload. solve_calm. Qed.

Lemma calm_audit_events settings limit authorization : calm (get_audit_events settings limit authorization).
Proof. unfold get_audit_events. solve_calm. Qed.

Lemma calm_suppress p : calm p -> calm (suppress p).
Proof. intros Hp. apply calm_try; [done|intros; apply calm_ret]. Qed.

Lemma calm_readiness : calm readiness.
Proof.
  unfold readiness. apply calm_bind; [|intros a; apply calm_bind; [|solve_calm]]; apply calm_suppress.
  - apply calm_bind; [|intros; apply calm_ret]. apply calm_read; [apply atomic_ret|apply still_ret].
  - apply calm_look. intros ks r ks'. by intros [= <- <-].
Qed.

Lemma calm_metrics settings authorization : calm (metrics settings authorization).
Proof.
  unfold metrics. apply calm_bind; [apply calm_bearer|intros identity]. destruct (negb _); [by apply calm_throw|].
  apply calm_try; [solve_calm|]. intros e He. destruct (is_redis_error e); by apply calm_throw.
Qed.
End Queries.
