(* ===== verification/SystemWorker.v ===== *)
(** * The worker keeps the system's invariant

    A message that the worker claims is of a stored job, and stays so ([works_on]); the worker removes a
    message only after the job is complete.  Every round of the worker is [calm]. *)
From S2P Require Import Prelude PyFormat Sha256 Uuid PyText Json Codec Sql Schema Session Repository RepositoryInv RepositorySafe.
From S2P Require Import RepositoryAccept RepositoryProps RepositoryQuiet RepositoryJobs Redis Queue QueueSpec QueueProps.
From S2P Require Import Metrics Config Gateway GroundApi Worker Linked SystemApi.

Open Scope Z_scope.

Section Attends.
Context `{SqlEngine} `{!SqlLaws} `{Env} `{!UuidLaws} `{RedisServer} `{!RedisLaws} `{Network} `{interpreter : Interpreter}.
Implicit Types (s : system) (m : QueueMessage).

(** [m] is the message of stored job [k]. *)
Definition works_on m (k : uuid) s : Prop :=
  exists j, row_at (jobs (tables_of s)) k = Some j /\ m = message_of j.

Lemma works_on_kept m k s s' : rely s s' -> works_on m k s -> works_on m k s'.
Proof. intros Hr (j & Hj & ->). destruct (job_kept _ _ _ _ Hr Hj) as (j' & Hj' & _ & Hm). by exists j'. Qed.

Lemma works_on_valid m k s : sys_ok s -> works_on m k s -> valid_message m.
Proof. intros Hok (j & Hj & ->). by eapply job_message_valid. Qed.

Lemma works_on_key m k s : sys_ok s -> works_on m k s -> UUID (message_job_id m) = Some k.
Proof.
  intros Hok (j & Hj & ->). cbn. destruct (job_rows _ (sys_consistent _ Hok) _ _ Hj) as (-> & _).
  apply UUID_str. by eapply (job_range _ (sys_range _ Hok)).
Qed.

(** A program that is calm while [m] is the message of job [k]. *)
Definition attends {A} m (k : uuid) (p : prog system A) : Prop := forall s, sys_ok s -> works_on m k s -> guard p sane_end s.

Lemma calm_attends {A} m k (p : prog system A) : calm p -> attends m k p.
Proof. intros Hp s _ _. apply Hp. Qed.

Lemma attends_bind {A B} m k (p : prog system A) (f : A -> prog system B) :
  attends m k p -> (forall a, attends m k (f a)) -> attends m k (p ≫= f).
Proof.
  intros Hp Hf s Hok Hw. eapply guard_bind; [apply guard_since; [done|by apply Hp]| |by intros e t (He & _)].
  intros a t (_ & Hok' & Hr). apply Hf; [done|by eapply works_on_kept].
Qed.

Lemma attends_try {A} m k (p : prog system A) h :
  attends m k p -> (forall e, sane e -> attends m k (h e)) -> attends m k (try_except p h).
Proof.
  intros Hp Hh s Hok Hw. eapply guarded_try; [apply guard_since; [done|by apply Hp]|by intros a t (Ha & _)|].
  intros e t (He & Hok' & Hr). apply Hh; [done|done|by eapply works_on_kept].
Qed.

(** ** Queue calls of the worker *)

(** Only enqueueing can find a conflict. *)
Lemma spec_sane c w e : (forall m, c <> Enqueue m) -> (spec_call c w).1 = Raise e -> sane (QueueExn e).
Proof.
  intros Hc. destruct c as [m|t|m|m|m|]; cbn [spec_call]; [by destruct (Hc m)|..].
  - destruct (t <? 0); [by intros [= <-]|]. by destruct (rev (waiting w)).
  - unfold spec_leave. destruct (bool_decide _); [done|by intros [= <-]].
  - unfold spec_leave. destruct (bool_decide _); [done|by intros [= <-]].
  - unfold spec_leave. destruct (bool_decide _); [done|by intros [= <-]].
  - done.
Qed.

Lemma call_sane {A} (q : Q A) c s r s' :
  performs q c -> call_ok c -> (forall m, c <> Enqueue m) -> sys_ok s -> in_redis q s = (r, s') -> sane_end r s'.
Proof.
  intros Hq Hc Hne [_ _ (w & Hrep & _)] Hrun. destruct r as [a|e]; [done|].
  destruct (in_redis_cases q s _ s' Hrun) as (_ & _ & _ & Herr).
  destruct (Herr e eq_refl) as [->|(x & -> & Hx & _)]; [done|].
  apply (Hq (redis s)) in Hx. destruct (call_refines queue_keys c queue_keys_distinct Hc (redis s) w Hrep) as [Ho _].
  rewrite Ho in Hx. by eapply spec_sane.
Qed.

Lemma guard_call {A} (q : Q A) c s0 :
  performs q c -> call_ok c -> (forall m, c <> Enqueue m) ->
  (forall s m k j, sys_ok s -> rely s0 s -> c = Ack m -> row_at (jobs (tables_of s)) k = Some j -> m = message_of j -> job_state j = COMPLETE) ->
  guard (exchange q) sane_end s0.
Proof.
  intros Hq Hc Hne Hack. apply (guard_exchange q c); [done|done| |].
  - intros s Hok Hr. split; [by intros m Hm; destruct (Hne m)|]. intros m k j. by apply Hack.
  - intros s r s' Hok _ Hrun _ _. by eapply call_sane.
Qed.

Lemma attends_retry m k : attends m k (exchange (retry queue_keys m)).
Proof.
  intros s Hok Hw. apply (guard_call _ (Retry m)); [apply performs_retry|by eapply works_on_valid|done|done].
Qed.

Lemma attends_dead_letter m k : attends m k (exchange (dead_letter queue_keys m)).
Proof.
  intros s Hok Hw. apply (guard_call _ (DeadLetter m)); [apply performs_dead_letter|by eapply works_on_valid|done|done].
Qed.

(** Acknowledging once the job is complete. *)
Lemma guard_ack m k j s0 :
  sys_ok s0 -> row_at (jobs (tables_of s0)) k = Some j -> m = message_of j -> job_state j = COMPLETE ->
  guard (exchange (ack queue_keys m)) sane_end s0.
Proof.
  intros Hok Hj -> Hcm. apply (guard_call _ (Ack (message_of j))); [apply performs_ack|by eapply job_message_valid|done|].
  intros s m' k' j' Hoks Hr [= <-] Hj' Hm. destruct (job_kept _ _ _ _ Hr Hj) as (j1 & Hj1 & Hev & Hm1).
  assert (k' = k) as ->.
  { assert (works_on (message_of j') k' s) as Hw' by (by exists j'). assert (works_on (message_of j') k s) as Hw by (exists j1; by rewrite <- Hm, Hm1).
    apply works_on_key in Hw, Hw'; [|done..]. congruence. }
  rewrite Hj' in Hj1. injection Hj1 as <-. by eapply complete_kept.
Qed.

(** ** The steps of a round *)

Lemma calm_sleep n : calm (sleep n).
Proof. apply calm_ret. Qed.

Lemma attends_unclaimed m k : attends m k (_return_or_finish_unclaimed m).
Proof.
  intros s Hok Hw. unfold _return_or_finish_unclaimed. rewrite (works_on_key _ _ _ Hok Hw). cbn [pure].
  eapply (guard_bind (transact (get_job k)) _ (fun r t => match r with
    | Ok o => sys_ok t /\ works_on m k t /\ o = row_at (jobs (tables_of t)) k
    | Raise e => sane e end)).
  - apply guard_read; [apply atomic_begin|apply still_begin, still_get|].
    intros s1 r t Hok1 Hr1 Hokt Hrt Hval. destruct r as [o|e]; [|done]. split; [done|].
    split; [eapply works_on_kept; [|exact Hw]; by etransitivity|]. destruct Hval as (w & Hget & ->).
    by apply run_begin_ok, run_get_ok in Hget as [-> _].
  - intros o t (Hokt & Hwt & ->). destruct Hwt as (j & Hj & Hm). rewrite Hj.
    assert (works_on m k t) as Hwt by (by exists j).
    case_bool_decide; [by eapply guard_ack|]. case_bool_decide; [by eapply attends_dead_letter|].
    apply (attends_bind m k); [apply calm_attends, calm_sleep|intros; apply attends_retry|done|done].
  - done.
Qed.

Lemma calm_claim_job key worker lease : calm (transact (claim_processing_job key worker lease)).
Proof.
  apply calm_transact; [|apply safe_claim|apply quiet_claim].
  unfold claim_processing_job. repeat (apply atomic_if; [apply atomic_raise|]). apply atomic_now. intros t. apply atomic_begin.
Qed.

(** The work that a claim returns is of the claimed job. *)
Lemma claim_returns key worker lease w item w' :
  consistent (db w) -> claim_processing_job key worker lease w = (Ok (Some item), w') -> work_job_id item = key.
Proof.
  unfold claim_processing_job. intros Hc Hr. do 2 (case_test_in Hr; [by apply run_raise_ok in Hr|]).
  run_step Hr. apply run_begin_ok in Hr. run_step Hr. cbn in Hr.
  destruct (row_at (jobs (db w)) key) as [j|] eqn:Hk; [|by run_step Hr].
  destruct (job_rows _ Hc _ _ Hk) as (Hid & _). run_step Hr. cbn in Hr.
  destruct (row_at (processed (db w)) (job_packet_id j)) as [t|].
  { by apply run_bind_ok in Hr as (u & w1 & _ & [? _]%run_ret_ok). }
  case_test_in Hr; [by apply run_ret_ok in Hr as [? _]|].
  run_step Hr. cbn in Hr. case_test_in Hr; [|by run_step Hr].
  run_step Hr. cbn in Hr. case_test_in Hr; [|by run_step Hr].
  apply run_bind_ok in Hr as (u & w1 & _ & Hr). apply run_bind_ok in Hr as (u' & w2 & _ & Hr).
  apply run_ret_ok in Hr as [[= <-] _]. exact Hid.
Qed.

Lemma guard_claim_work worker_id m k s :
  sys_ok s -> works_on m k s ->
  guard (claim_work worker_id m) (fun r t => match r with
    | Ok (Some item) => work_job_id item = k
    | Ok None => True
    | Raise e => sane e end) s.
Proof.
  intros Hok Hw. unfold claim_work. rewrite (works_on_key _ _ _ Hok Hw). cbn [pure].
  eapply (guard_bind (transact (claim_processing_job k worker_id 60)) _ (fun r t => match r with
    | Ok o => sys_ok t /\ works_on m k t /\ forall item, o = Some item -> work_job_id item = k
    | Raise e => sane e end)).
  - assert (atomic (claim_processing_job k worker_id 60)) as Ha.
    { unfold claim_processing_job. repeat (apply atomic_if; [apply atomic_raise|]). apply atomic_now. intros t. apply atomic_begin. }
    apply guard_transact; [done|apply safe_claim|apply quiet_claim|].
    intros s1 r t Hok1 Hr1 Hrun Hokt Hrt. destruct r as [o|e]; [|by eapply database_sane]. split; [done|].
    split; [eapply works_on_kept; [|exact Hw]; by etransitivity|]. intros item ->.
    destruct (in_database_cases _ _ _ _ Ha Hrun) as (_ & _ & Hval). destruct (Hval _ eq_refl) as (w & Hcl & _).
    eapply claim_returns; [|exact Hcl]. apply Hok1.
  - intros [item|] t (Hokt & Hwt & Hit); [by apply Hit|].
    eapply guard_bind; [by apply (attends_unclaimed m k)|done|done].
  - done.
Qed.

(** A returned completion leaves the job complete. *)
Lemma complete_state key out worker at_ w t w1 :
  consistent (db w) -> complete_processing_job key out worker at_ w = (Ok t, w1) ->
  exists j, row_at (jobs (db w1)) key = Some j /\ job_state j = COMPLETE.
Proof.
  intros Hc Hr. destruct (complete_run _ _ _ _ _ _ _ Hc Hr) as (j & Hj & Hp & Ht). exists j. split; [done|].
  destruct (safe_complete _ _ _ _ _ _ _ Hr Hc) as [Hc1 _].
  destruct (processed_rows _ Hc1 _ _ Ht) as (_ & j' & Hj' & Hp' & Hs).
  assert (processing_job_id t = key) as He by (eapply job_unique; [done..|congruence]). congruence.
Qed.

Lemma guard_complete m k out worker s :
  sys_ok s -> works_on m k s ->
  guard (transact (complete_processing_job k out worker None)) (fun r t => match r with
    | Ok _ => sys_ok t /\ exists j, row_at (jobs (tables_of t)) k = Some j /\ m = message_of j /\ job_state j = COMPLETE
    | Raise e => sane e end) s.
Proof.
  intros Hok Hw. assert (atomic (complete_processing_job k out worker None)) as Ha
    by (apply atomic_optional_now; intros; apply atomic_begin).
  apply guard_transact; [done|apply safe_complete|apply quiet_complete|].
  intros s1 r t Hok1 Hr1 Hrun Hokt Hrt. destruct r as [o|e]; [|by eapply database_sane]. split; [done|].
  destruct (in_database_cases _ _ _ _ Ha Hrun) as (_ & _ & Hval). destruct (Hval _ eq_refl) as (w & Hcl & Ht).
  destruct (complete_state _ _ _ _ _ _ _ (sys_consistent _ Hok1) Hcl) as (j & Hj & Hst).
  assert (works_on m k t) as (j' & Hj' & Hm) by (eapply works_on_kept; [|exact Hw]; by etransitivity).
  exists j'. rewrite Ht in *. split; [done|]. split; [done|]. congruence.
Qed.

Lemma process_work_sane work e : process_work work = Raise e -> sane e.
Proof.
  unfold process_work. destruct (Codec.Codec.decode_telemetry _ _) as [frame|x]; cbn; [|by intros [= <-]].
  destruct (negb _); cbn; [by intros [= <-]|]. destruct (Health.Health.assess_health _ _); cbn; [done|by intros [= <-]].
Qed.

Lemma attends_finish worker_id m k work : work_job_id work = k -> attends m k (finish_work worker_id m work).
Proof.
  intros <-. apply attends_bind.
  { apply calm_attends, calm_pure. intros e. apply process_work_sane. }
  intros [values stale] s Hok Hw. eapply (guard_bind _ _ _); [by eapply guard_complete| |done].
  intros u t (Hokt & j & Hj & Hm & Hst).
  eapply (guard_bind _ _ sane_end); [|intros a t' _|done].
  - eapply guarded_try; [|done|done].
    eapply guard_bind; [by eapply guard_ack|intros; apply calm_ret|done].
  - destruct (negb a); [apply calm_ret|]. apply calm_bind; [apply calm_metric|intros].
    destruct stale; [apply calm_metric|apply calm_ret].
Qed.

Lemma attends_return m k : attends m k (return_message m).
Proof.
  apply attends_bind; [apply calm_attends, calm_sleep|intros _]. apply attends_try; [apply attends_retry|].
  intros e He. apply calm_attends. destruct e; try (apply calm_throw; exact He). destruct e; (apply calm_ret || by apply calm_throw).
Qed.

Context (describe : exn -> string).

Lemma attends_fail worker_id m k work e : attends m k (fail_work worker_id describe m work e).
Proof.
  apply attends_bind.
  - apply attends_try; [|intros x Hx; apply calm_attends].
    + apply attends_bind; [|intros; apply calm_attends, calm_ret].
      apply calm_attends, calm_transact; [|apply safe_fail|apply quiet_fail].
      unfold fail_processing_attempt. apply atomic_if; [apply atomic_raise|]. apply atomic_now.
      intros t. apply atomic_begin.
    + destruct (is_sqlalchemy_error x); [|by apply calm_throw].
      apply calm_bind; [apply calm_metric|intros]. apply calm_bind; [apply calm_sleep|intros; apply calm_ret].
  - intros [failure|]; [|apply calm_attends, calm_ret]. destruct (bool_decide _); [apply attends_dead_letter|].
    apply attends_bind; [apply calm_attends; destruct (failure_next_attempt_at failure); [apply calm_clock|apply calm_ret]|].
    intros now. apply attends_bind; [apply calm_attends, calm_sleep|intros; apply attends_retry].
Qed.

Lemma attends_process worker_id m k : attends m k (process_message worker_id describe m).
Proof.
  intros s Hok Hw. unfold process_message.
  eapply (guard_bind _ _ (fun r t => match r with
    | Ok (Ok (Some work)) => sys_ok t /\ works_on m k t /\ work_job_id work = k
    | Ok _ => True
    | Raise e => sane e end)).
  - eapply guarded_try.
    + eapply guard_since; [done|].
      eapply (guard_bind _ _ _ (fun r (_ : system) => match r with
        | Ok (Ok (Some work)) => work_job_id work = k | Ok _ => True | Raise e => sane e end));
        [by apply guard_claim_work|by intros [work|] t|by intros e t].
    + intros [[work|]|] t (Hwork & Hokt & Hr); [|done..]. split; [done|]. split; [by eapply works_on_kept|done].
    + intros e t (He & Hokt & Hr). assert (works_on m k t) as Hwt by (by eapply works_on_kept).
      eapply guard_bind; [apply guard_since; [done|apply calm_metric]| |by intros x u (Hx & _)].
      intros [] u (_ & Hoku & Hru).
      eapply (guard_bind _ _ sane_end); [|intros a v _; exact I|intros x v Hx; exact Hx].
      apply (attends_return m k); [exact Hoku|exact (works_on_kept _ _ _ _ Hru Hwt)].
  - intros [[work|]|x] t; [|intros _; apply calm_ret..]. intros (Hokt & Hwt & Hk).
    apply (attends_try m k); [by apply attends_finish| |done|done]. intros e He.
    apply attends_bind; [apply calm_attends, calm_metric|intros; apply attends_fail].
  - done.
Qed.

(** ** Rounds *)

(** The message that a claim returns is of a stored job. *)
Lemma guard_claim timeout s0 :
  guard (exchange (claim queue_keys timeout)) (fun r s => match r with
    | Ok (Some m) => sys_ok s /\ exists k, works_on m k s
    | Ok None => True
    | Raise e => sane e end) s0.
Proof.
  apply (guard_exchange _ (Claim timeout)); [apply performs_claim|exact I|done|].
  intros s r s' Hok Hr Hrun Hok' Hr'.
  assert (sane_end r s') as Hsane by (by refine (call_sane _ (Claim timeout) s r s' (performs_claim _) I _ Hok Hrun)).
  destruct r as [[m|]|e]; [|done|exact Hsane]. split; [done|].
  pose proof Hok as [Hc _ (w & Hrep & Hlk)].
  destruct (call_refines queue_keys (Claim timeout) queue_keys_distinct I (redis s) w Hrep) as [Ho _].
  destruct (in_redis_cases _ _ _ _ Hrun) as (Ht & _ & Hval & _). destruct (Hval _ eq_refl) as [Hq _].
  cbn [run_call spec_call] in Ho. unfold mbind, Q_bind in Ho.
  destruct (claim queue_keys timeout (redis s)) as [x ks]. cbn in Hq. subst x. cbn in Ho.
  destruct (timeout <? 0); [done|]. destruct (rev (waiting w)) as [|m' rest] eqn:Hrev; [done|]. cbn in Ho. injection Ho as <-.
  destruct (linked_entries _ _ Hlk m) as (k & j & Hj & ->).
  { unfold entries. rewrite <- (rev_involutive (waiting w)), Hrev. cbn. set_solver. }
  exists k, j. by rewrite Ht.
Qed.

Lemma calm_round settings worker_id : calm (worker_round settings worker_id describe).
Proof.
  intros s. unfold worker_round.
  eapply (guard_bind _ _ (fun r t => match r with
    | Ok (Some m) => sys_ok t /\ exists k, works_on m k t
    | Ok None => True
    | Raise e => sane e end)); [| |done].
  - eapply guarded_try; [apply guard_claim|done|]. intros e t He.
    assert (guard (if is_redis_error e then sleep 1 ;; mret None else Throw e) (fun r t => match r with
      | Ok (Some m) => sys_ok t /\ exists k, works_on m k t | Ok None => True | Raise e => sane e end) t) as Hrest
      by (by destruct (is_redis_error e)).
    destruct e as [| | |x|x| | | | |]; try exact Hrest. by destruct x.
  - intros [m|] t; [|intros _; apply calm_ret]. intros (Hok & k & Hw). by apply (attends_process worker_id m k).
Qed.

Lemma calm_rounds settings worker_id n : calm (worker_rounds settings worker_id describe n).
Proof. induction n as [|n IH]; [apply calm_ret|]. apply calm_bind; [apply calm_round|done]. Qed.

Lemma performs_recover : performs recover_all RecoverProcessing.
Proof.
  intros ks. cbn [run_call]. unfold recover_all. destruct (recover_processing _ _ _) as [[[n|]|e] ks']; (split; [done|]); intros e'; cbn;
    split; by intros [= <-].
Qed.

Lemma calm_worker settings worker_id n : calm (run_worker settings worker_id describe n).
Proof.
  apply calm_bind; [|intros; apply calm_rounds]. intros s.
  by apply (guard_call _ RecoverProcessing); [apply performs_recover|..].
Qed.
End Attends.
