(* ===== verification/SystemExample.v ===== *)
(** * A concrete system

    A clock, identifiers, settings and a request on which the theorems about the whole system are
    evaluated, and the empty system they start from. *)
From S2P Require Import Prelude PyFormat Sha256 Uuid PyText Json Codec Sql Schema Session Repository RepositoryInv RepositorySafe.
From S2P Require Import RepositoryExample RepositoryAccept RepositoryProps RepositoryQuiet Redis Queue QueueSpec QueueProps.
From S2P Require Import Metrics Config Gateway GroundApi Worker Linked.
From Stdlib Require Import SpecFloat Ascii.

Open Scope Z_scope.

Section Fresh.
Context `{SqlEngine} `{!SqlLaws} `{Env} `{RedisServer} `{!RedisLaws} `{interpreter : Interpreter}.

(** Freshly created tables and an empty server. *)
Lemma fresh_system s :
  tables_of s = create_schema -> (forall k, value_at (redis s) k = None) -> sys_ok s.
Proof.
  intros Ht Hr. split; rewrite Ht; [apply consistent_start| |].
  - split; intros k r; unfold create_schema; cbn [jobs packets]; by rewrite row_at_create.
  - exists no_work. split; [by apply empty_queue|]. split; [intros m Hm; by apply elem_of_nil in Hm|].
    intros k j. unfold create_schema; cbn [jobs]. by rewrite row_at_create.
Qed.
End Fresh.

Module SystemExample.
#[local] Existing Instance cpython.
#[local] Existing Instance MapRedis.server.
#[local] Existing Instance MapRedis.laws.

(** A clock that ticks once a second and version 4 identifiers, the last of which repeats. *)
#[export] Instance world_env : Env := {|
  clock := fun n => 1_784_203_201_000_000 + 1_000_000 * Z.of_nat n;
  uuid4 := fun n => 0x0b5d1e3a77f14c0e9a51c3d2e4f50000 + Z.min 1_000 (Z.of_nat n)
|}.
#[export] Instance world_uuids : UuidLaws.
Proof. intros n. cbn. unfold uuid_max. lia. Qed.

Definition settings : GroundSettings := {|
  ground_database_url := "postgresql"; ground_redis_url := "redis"; vendor_token := "vendor";
  operator_token := "operator"; admin_token := "admin"; max_telemetry_body_bytes := 1_024;
  processing_maximum_attempts := 3 |}%string.
Definition worker_settings : WorkerSettings := {|
  worker_database_url := "postgresql"; worker_redis_url := "redis"; claim_timeout_seconds := 2 |}%string.

Lemma settings_ok : ground_settings_ok settings.
Proof. apply (proj1 (ground_post_init_ok settings settings)). vm_compute. reflexivity. Qed.

Definition golden_request : request := {|
  x_vendor_token := Some "vendor"; x_request_id := Some "7d1b0a5c-e2d8-4d53-b4ce-4c1e5a0f0001";
  header_content_length := Some "28"; header_content_type := Some "application/octet-stream";
  body_stream := [example_raw] |}%string.

Definition start : system := mk_system (mk_world create_schema 0 0) (∅ : gmap string redis_value) ∅ 0 0.

Definition no_text (e : exn) : string := "".

Lemma start_ok : sys_ok start.
Proof. apply fresh_system; [reflexivity|]. intros k. exact (lookup_empty (K:=string) (M:=gmap string) (A:=redis_value) k). Qed.

(** Identifiers drawn later are not in tables whose keys are smaller. *)
Definition keys_smaller {R} (n : nat) (t : gmap uuid R) : bool := forallb (fun kr => kr.1 <? uuid4 n) (map_to_list t).

Lemma keys_smaller_fresh {R} n i (t : gmap uuid R) : keys_smaller n t = true -> (n <= i)%nat -> t !! uuid4 i = None.
Proof.
  intros Hb Hi. destruct (t !! uuid4 i) as [r|] eqn:Ht; [|done]. exfalso.
  apply elem_of_map_to_list, list_elem_of_In in Ht. unfold keys_smaller in Hb. rewrite forallb_forall in Hb.
  specialize (Hb _ Ht). cbn in Hb. bool_to_prop. lia.
Qed.

Lemma fresh_world w :
  keys_smaller (uuid_draws w) (receipts (db w)) && keys_smaller (uuid_draws w) (jobs (db w)) &&
  keys_smaller (uuid_draws w) (events (db w)) = true -> fresh_uuids w.
Proof.
  intros [[Hr Hj]%andb_true_iff He]%andb_true_iff i Hi. repeat split; (eapply keys_smaller_fresh; [done|lia]).
Qed.
End SystemExample.
