(* ===== verification/SystemProps.v ===== *)
(** * The services working together

    Requests to the gateway, its recovery of unqueued jobs and any number of workers run on one database
    and one Redis server, interleaved action by action in any order, with any call refused or its reply
    lost.  A process that crashes is a program that takes no further step. *)
From S2P Require Import Prelude PyFormat Sha256 Uuid PyText Json Codec Sql Schema Session Repository RepositoryInv RepositorySafe.
From S2P Require Import RepositoryExample RepositoryAccept RepositoryProps RepositoryQuiet RepositoryJobs Redis Queue QueueSpec QueueProps.
From S2P Require Import Metrics Config Gateway GroundApi Worker Linked SystemApi SystemWorker SystemExample.
From Stdlib Require Import SpecFloat Ascii.

Open Scope Z_scope.

(** What the services are asked to do. *)
Inductive task :=
| PostTelemetry (r : request)
| GetRaw (message_id : string) (authorization : option string)
| GetProcessed (message_id : string) (authorization : option string)
| GetAudit (limit : Z) (authorization : option string)
| GetReady
| GetMetrics (authorization : option string)
| RecoverPending (limit : Z)
| RunWorker (settings : WorkerSettings) (worker_id : string) (rounds : nat).

Inductive finished := Posted (a : response) | Other.

Section Pool.
Context `{SqlEngine} `{Env} `{RedisServer} `{Network} `{interpreter : Interpreter}.
Context (settings : GroundSettings) (describe : exn -> string).

Definition ignore {A} (p : prog system A) : prog system finished := p ;; mret Other.

Definition serve (t : task) : prog system finished :=
  match t with
  | PostTelemetry r => a ← receive_payload_data settings r; mret (Posted a)
  | GetRaw message_id authorization => ignore (get_raw_payload settings message_id authorization)
  | GetProcessed message_id authorization => ignore (get_processed_payload settings message_id authorization)
  | GetAudit limit authorization => ignore (get_audit_events settings limit authorization)
  | GetReady => ignore readiness
  | GetMetrics authorization => ignore (metrics settings authorization)
  | RecoverPending limit => ignore (_recover_pending_jobs limit)
  | RunWorker worker_settings worker_id rounds => ignore (run_worker worker_settings worker_id describe rounds)
  end.

(** The programs and the system that some interleaving of the tasks reaches. *)
Definition reaches (tasks : list task) (s0 : system) (pool : list (prog system finished)) (s : system) : Prop :=
  rtc pool_step (map serve tasks, s0) (pool, s).

(** One program of a pool run to its end. *)
Definition ended {A} (r : result exn A) : prog system A := match r with Ok a => Return a | Raise e => Throw e end.

Lemma run_in_pool {A} (before after : list (prog system A)) p s :
  rtc pool_step (before ++ p :: after, s) (before ++ ended (run p s).1 :: after, (run p s).2).
Proof.
  revert s; induction p as [a|e|B a k IH]; intros s; cbn; [done|done|].
  destruct (a s) as [r s'] eqn:Ha. eapply rtc_l; [by apply (step_thread before after B a k s r s')|apply IH].
Qed.

Context `{!SqlLaws} `{!UuidLaws} `{!RedisLaws}.

Definition task_end (r : result exn finished) (s : system) : Prop :=
  match r with Ok (Posted a) => handed_over (Ok a) s | Ok Other => True | Raise e => sane e end.

Lemma guard_ignore {A} (p : prog system A) s : calm p -> guard (ignore p) task_end s.
Proof. intros Hp. by apply calm_then. Qed.

Lemma guard_serve t s : guard (serve t) task_end s.
Proof.
  destruct t; cbn [serve]; try apply guard_ignore.
  - eapply guard_bind; [apply guard_receive|by intros a t Ha|by intros e t].
  - apply calm_raw_payload.
  - apply calm_processed_payload.
  - apply calm_audit_events.
  - apply calm_readiness.
  - apply calm_metrics.
  - apply calm_recover.
  - apply calm_worker.
Qed.

Lemma task_end_kept r s s' : rely s s' -> task_end r s -> task_end r s'.
Proof. intros Hr. destruct r as [[a|]|e]; [by apply handed_over_kept|done..]. Qed.

Lemma reaches_ok tasks s0 pool s :
  sys_ok s0 -> reaches tasks s0 pool s ->
  sys_ok s /\ rely s0 s /\ (forall a, Return a ∈ pool -> task_end (Ok a) s) /\ (forall e, Throw e ∈ pool -> task_end (Raise e) s).
Proof.
  intros Hok Hr. destruct (pool_run_ok sys_ok rely task_end _ _ Hr) as [[Hok' Hf] Hrely].
  { split; [done|]. cbn. apply Forall_map, Forall_true. intros t. exists s0. split; [done|apply guard_serve]. }
  cbn in *. split; [done|]. split; [done|].
  rewrite Forall_forall in Hf. split.
  - intros a Ha. destruct (Hf _ Ha) as (s1 & Hr1 & Hg). exact (task_end_kept (Ok a) s1 s Hr1 Hg).
  - intros e He. by destruct (Hf _ He) as (s1 & Hr1 & Hg).
Qed.

(** C1. Nothing accepted is lost: however the calls of requests, recoveries and workers interleave,
    crash or lose replies, the evidence of a delivery, an accepted packet and a stored result stay as
    they are; every packet has a job; a job between queueing and its end whose result is not stored has
    its message in the work queue; and the queue holds messages of stored jobs only, one for each.  The
    calls are whole transactions, one after the other; what is claimed rests on rows that are inserted
    once and on messages that are removed only after a stored result, not on what a transaction may have
    read before another one committed. *)
Theorem no_job_lost tasks s0 pool s :
  sys_ok s0 -> reaches tasks s0 pool s ->
  keeps (fun r r' => evidence r' = evidence r) (receipts (tables_of s0)) (receipts (tables_of s)) /\
  keeps eq (packets (tables_of s0)) (packets (tables_of s)) /\
  keeps eq (processed (tables_of s0)) (processed (tables_of s)) /\
  (forall id, is_Some (row_at (packets (tables_of s)) id) ->
     exists k j, row_at (jobs (tables_of s)) k = Some j /\ job_packet_id j = id) /\
  exists w, represents queue_keys (redis s) w /\ NoDup (message_job_id <$> entries w) /\
    (forall k j, row_at (jobs (tables_of s)) k = Some j -> at_work (job_state j) = true ->
       row_at (processed (tables_of s)) (job_packet_id j) = None -> message_of j ∈ entries w) /\
    (forall m, m ∈ entries w -> exists k j, row_at (jobs (tables_of s)) k = Some j /\ m = message_of j).
Proof.
  intros Hok Hr. destruct (reaches_ok _ _ _ _ Hok Hr) as ([Hc _ (w & Hrep & Hlk)] & [He _] & _).
  split; [intros k r Hk; destruct (receipts_evolve _ _ He _ _ Hk) as (r' & ? & ? & _); by exists r'|].
  split; [apply (packets_kept _ _ He)|]. split; [apply (results_kept _ _ He)|]. split; [apply (job_total _ Hc)|]. exists w. split; [done|]. split; [by eapply ledger_unique, rep_ledger|].
  split; [intros k j Hj Hw _; by apply (linked_jobs _ _ Hlk k)|apply (linked_entries _ _ Hlk)].
Qed.


(** The queue's conflict error never leaves a service: no interleaving makes two different messages
    claim the marker of one job. *)
Theorem no_queue_conflict tasks s0 pool s id :
  sys_ok s0 -> reaches tasks s0 pool s -> Throw (QueueExn (QueueConflictError id)) ∉ pool.
Proof. intros Hok Hr He. destruct (reaches_ok _ _ _ _ Hok Hr) as (_ & _ & _ & Hthrow). by apply (Hthrow _ He). Qed.
End Pool.

(** ** A concrete run *)

Module PoolExample.
#[local] Existing Instance cpython.
#[local] Existing Instance MapRedis.server.
#[local] Existing Instance MapRedis.laws.
Import SystemExample.

(** Every call is served, except that the reply to the worker's completion is lost. *)
#[local] Instance network : Network := {|
  database_fate := fun n => if (n =? 4)%nat then ReplyLost else Served;
  redis_fate := fun _ => Served
|}.

Definition tasks : list task := [PostTelemetry golden_request; RunWorker worker_settings "worker-1" 1].
Definition after_post : result exn finished * system := run (serve settings no_text (PostTelemetry golden_request)) start.
Definition after_work : result exn finished * system :=
  run (serve settings no_text (RunWorker worker_settings "worker-1" 1)) after_post.2.


Example work_done : (fun kj => job_state kj.2) <$> map_to_list (jobs (tables_of after_work.2)) = [COMPLETE].
Proof. vm_compute. reflexivity. Qed.

(** The pool after the request, and after the request and a round of the worker. *)
Definition pool_posted : list (prog system finished) :=
  [ended after_post.1; serve settings no_text (RunWorker worker_settings "worker-1" 1)].
Definition pool_worked : list (prog system finished) := [ended after_post.1; ended after_work.1].

Lemma posted_reached : reaches settings no_text tasks start pool_posted after_post.2.
Proof. exact (run_in_pool [] [_] _ start). Qed.
Lemma worked_reached : reaches settings no_text tasks start pool_worked after_work.2.
Proof. refine (transitivity (R:=rtc pool_step) posted_reached _). exact (run_in_pool [ended after_post.1] [] _ after_post.2). Qed.

Lemma no_job_lost_witness :
  exists w, represents queue_keys (redis after_work.2) w /\ NoDup (message_job_id <$> entries w) /\
    (forall m, m ∈ entries w -> exists k j, row_at (jobs (tables_of after_work.2)) k = Some j /\ m = message_of j).
Proof.
  destruct (no_job_lost settings no_text tasks start _ _ start_ok worked_reached) as (_ & _ & _ & _ & w & Hw & Hu & _ & Hm).
  exact (ex_intro _ w (conj Hw (conj Hu Hm))).
Defined.


Lemma no_queue_conflict_witness : Throw (QueueExn (QueueConflictError "job")) ∉ pool_worked.
Proof. exact (no_queue_conflict settings no_text tasks start _ _ "job" start_ok worked_reached). Defined.
End PoolExample.
