(* ===== verification/SystemLive.v ===== *)
(** * Progress of the worker

    What the worker computes for a job, and that a round completes the oldest queued job when the
    services answer. *)
From S2P Require Import Prelude PyFormat Sha256 Uuid PyText Json Codec Health Sql Schema Session Repository RepositoryInv RepositorySafe.
From S2P Require Import RepositoryExample RepositoryAccept RepositoryProps RepositoryQuiet RepositoryJobs Redis Queue QueueSpec QueueProps.
From S2P Require Import Metrics Config Gateway GroundApi Worker Linked SystemApi SystemWorker SystemExample.
From Stdlib Require Import SpecFloat Ascii.

Open Scope Z_scope.

(** ** Processing *)

(** The stored result of a frame and its assessment. *)
Definition processing_values (frame : Codec.Codec.TelemetryFrame) (a : Health.Health.HealthAssessment) : ProcessingResultValues := {|
  r_temperature_c := frame_temperature_c frame; r_voltage_v := frame_voltage_v frame;
  r_operating_mode := mode_text (Codec.Codec.operating_mode frame);
  r_fault_names := _fault_names (Codec.Codec.fault_flags frame);
  r_classification := stored_classification (Health.Health.classification a);
  r_is_stale := Health.Health.is_stale a; r_processor_version := "telemetry-v1" |}.

Lemma process_decoded work frame :
  Codec.Codec.decode_telemetry (work_raw_body work) (utc (work_received_at work)) = Ok frame ->
  _stored_values frame = work_values work ->
  exists a, Health.Health.assess_health frame (utc (work_received_at work)) = Ok a /\
    process_work work = Ok (processing_values frame a, Health.Health.is_stale a).
Proof.
  intros Hd Hv. pose proof Hd as (_ & _ & Hf)%Codec.Codec.decode_ok.
  assert (Codec.Codec.valid_frame frame) as Hvalid.
  { apply Codec.Codec.decode_ok in Hd as (_ & -> & _). by apply Codec.Codec.validate_fields_ok in Hf as [? _]. }
  destruct (Health.Health.assess_health_total frame (utc (work_received_at work)) 0 Hvalid eq_refl) as [a Ha].
  exists a. split; [done|]. unfold process_work. rewrite Hd. cbn [catch mbind result_bind].
  rewrite bool_decide_eq_true_2 by done. cbn. by rewrite Ha.
Qed.

(** C30. What the worker computes: a work item has a result exactly when its bytes decode at the stored
    receipt time to the stored values; the result is then the classification that the interface
    document gives the frame, with the names of the raised faults in their order.  An error is raised
    exactly when no such frame exists, and it is one that the worker never retries. *)
Theorem process_work_outcome work :
  match process_work work with
  | Ok (out, is_stale) =>
      exists frame, Codec.Codec.decode_telemetry (work_raw_body work) (utc (work_received_at work)) = Ok frame /\
        _stored_values frame = work_values work /\
        (r_classification out = CRITICAL <-> Health.Health.icd_critical frame) /\
        (r_classification out = NOMINAL <-> ~ Health.Health.icd_warning frame) /\
        (is_stale = true <-> 86_400_000_000 < work_received_at work - Codec.Codec.timestamp_us frame) /\
        r_is_stale out = is_stale /\
        r_fault_names out = Codec.Codec.FaultFlag_name <$>
          List.filter (Health.Health.has_fault (Codec.Codec.fault_flags frame)) Codec.Codec.FaultFlag_members
  | Raise e => is_value_error e = true /\
      forall frame, Codec.Codec.decode_telemetry (work_raw_body work) (utc (work_received_at work)) = Ok frame ->
        _stored_values frame <> work_values work
  end.
Proof.
  destruct (process_work work) as [[out is_stale]|e] eqn:Hp; unfold process_work in Hp;
    destruct (Codec.Codec.decode_telemetry _ _) as [frame|x] eqn:Hd; cbn [catch mbind result_bind] in Hp; try done.
  - case_bool_decide as Hv; cbn in Hp; [|done].
    pose proof (Health.Health.assess_health_icd frame (work_received_at work) 0) as Hicd.
    change (mk_datetime (work_received_at work) (Some 0)) with (utc (work_received_at work)) in Hicd.
    destruct (Health.Health.assess_health frame _) as [a|x]; [|done]. cbn in Hp. injection Hp as <- <-.
    destruct Hicd as (_ & Hcr & Hno & Hst). exists frame. cbn. rewrite <- Hcr, <- Hno, Hst. split; [done|]. split; [done|].
    split; [by destruct (Health.Health.classification a)|]. split; [by destruct (Health.Health.classification a)|].
    split; [|done]. by rewrite Z.sub_0_r.
  - case_bool_decide as Hv; cbn in Hp; [|injection Hp as <-; split; [done|by intros f [= <-]]].
    destruct (process_decoded work frame Hd Hv) as (a & Ha & _). by rewrite Ha in Hp.
  - injection Hp as <-. split; [|done]. by destruct (Codec.Codec.decode_raises _ (utc (work_received_at work)) 0 _ eq_refl Hd) as (r & detail & ->).
Qed.

Lemma mode_text_short mode : Z.of_nat (String.length (mode_text mode)) <= 32.
Proof. unfold mode_text. destruct (Codec.Codec.OperatingMode_of mode) as [[]|]; cbn; lia. Qed.

(** The wait before a message goes back to the queue: never shorter than the time until the next
    attempt is due, less than one second longer, and none when it is due already. *)
Theorem retry_delay_bounds t now :
  let d := retry_delay (Some t) now in
  0 <= d /\ t <= now + d * us_per_second /\ (now < t -> (d - 1) * us_per_second < t - now) /\ (t <= now -> d = 0).
Proof.
  unfold retry_delay, us_per_second. cbn zeta. pose proof (Z.div_mod (- (t - now)) 1000000 ltac:(lia)).
  pose proof (Z.mod_pos_bound (- (t - now)) 1000000 ltac:(lia)). lia.
Qed.

(** ** Progress *)

Section Progress.
Context `{SqlEngine} `{!SqlLaws} `{Env} `{!UuidLaws} `{RedisServer} `{!RedisLaws} `{Network} `{interpreter : Interpreter}.
Implicit Types (s : system).

(** Every call is served. *)
Definition all_served : Prop := forall n, database_fate n = Served /\ redis_fate n = Served.

Context (Hserved : all_served).

Definition after_database (w : world) s : system := mk_system w (redis s) (counters s) (S (database_calls s)) (redis_calls s).
Definition after_redis (ks : keyspace) s : system := mk_system (tables s) ks (counters s) (database_calls s) (S (redis_calls s)).

Lemma run_transact {A} (m : M A) s a w : m (tables s) = (Ok a, w) -> run (transact m) s = (Ok a, after_database w s).
Proof.
  intros Hm. unfold transact. rewrite run_perform. unfold in_database. destruct (Hserved (database_calls s)) as [-> _].
  by rewrite Hm.
Qed.

Lemma run_exchange {A} (q : Q A) s a ks : q (redis s) = (Ok a, ks) -> run (exchange q) s = (Ok a, after_redis ks s).
Proof.
  intros Hq. unfold exchange. rewrite run_perform. unfold in_redis. destruct (Hserved (redis_calls s)) as [_ ->].
  by rewrite Hq.
Qed.

(** The queue's methods in terms of the abstract queue. *)
Lemma run_claim_queue s w m rest timeout :
  represents queue_keys (redis s) w -> rev (waiting w) = m :: rest -> 0 <= timeout ->
  exists ks, claim queue_keys timeout (redis s) = (Ok (Some m), ks) /\
    represents queue_keys ks (mk_work (rev rest) (m :: running w) (abandoned w)).
Proof.
  intros Hrep Hrev Ht. destruct (call_refines queue_keys (Claim timeout) queue_keys_distinct I (redis s) w Hrep) as [Ho Hr].
  cbn [run_call spec_call] in Ho, Hr. destruct (Z.ltb_spec timeout 0); [lia|]. rewrite Hrev in Ho, Hr.
  unfold mbind, Q_bind in Ho, Hr. destruct (claim _ _ _) as [[o|e] ks]; [|done]. injection Ho as ->. by exists ks.
Qed.

Lemma run_ack_queue ks w m :
  represents queue_keys ks w -> valid_message m -> m ∈ running w ->
  exists ks', ack queue_keys m ks = (Ok tt, ks') /\
    represents queue_keys ks' (mk_work (waiting w) (without m (running w)) (abandoned w)).
Proof.
  intros Hrep Hm Hin. destruct (call_refines queue_keys (Ack m) queue_keys_distinct Hm ks w Hrep) as [Ho Hr].
  cbn [run_call spec_call] in Ho, Hr. unfold spec_leave in Ho, Hr. rewrite bool_decide_eq_true_2 in Ho, Hr by done.
  unfold mbind, Q_bind in Ho, Hr. destruct (ack _ _ _) as [[[]|e] ks']; [|done]. by exists ks'.
Qed.

Context (settings : WorkerSettings) (worker_id : string) (describe : exn -> string).

Lemma run_claim_work m k s item w :
  UUID (message_job_id m) = Some k -> claim_processing_job k worker_id 60 (tables s) = (Ok (Some item), w) ->
  run (claim_work worker_id m) s = (Ok (Some item), after_database w s).
Proof. intros Hk Hc. unfold claim_work. rewrite Hk, run_seq. cbn [pure run]. by rewrite run_seq, (run_transact _ _ _ _ Hc). Qed.

Lemma run_finish_work m item values stale t w ks s :
  process_work item = Ok (values, stale) ->
  complete_processing_job (work_job_id item) values worker_id None (tables s) = (Ok t, w) ->
  ack queue_keys m (redis s) = (Ok tt, ks) ->
  exists s', run (finish_work worker_id m item) s = (Ok tt, s') /\ tables s' = w /\ redis s' = ks.
Proof.
  intros Hp Hc Ha. unfold finish_work. rewrite Hp, run_seq. cbn [pure run].
  rewrite run_seq, (run_transact _ _ _ _ Hc), run_seq, run_try, run_seq, (run_exchange _ (after_database w s) _ _ Ha).
  cbn [run mret prog_ret negb]. rewrite run_seq.
  destruct (run_metric "payload_processing_successes_total" 1 (after_redis ks (after_database w s))) as (s1 & Hm & Ht & Hr).
  unfold _increment_safely. rewrite Hm. destruct stale; [|by exists s1].
  destruct (run_metric "payload_stale_results_total" 1 s1) as (s2 & Hm2 & Ht2 & Hr2). exists s2.
  rewrite Ht2, Hr2. by split.
Qed.

(** C5. Progress: when the services answer, one round of a worker takes the oldest queued message and,
    if its job may be claimed and its bytes decode to the stored values, completes the job: the result
    of the frame is stored for its packet, and the message has left the queue.  The worker's name must fit
    its column. *)
Theorem round_completes s w k j p r frame rest :
  sys_ok s -> represents queue_keys (redis s) w -> rev (waiting w) = message_of j :: rest ->
  row_at (jobs (tables_of s)) k = Some j -> claimable (clock (clock_reads (tables s))) j = true ->
  fresh_uuids (tables s) -> uuid4 (S (uuid_draws (tables s))) <> uuid4 (uuid_draws (tables s)) ->
  row_at (packets (tables_of s)) (job_packet_id j) = Some p ->
  row_at (receipts (tables_of s)) (source_receipt_id p) = Some r ->
  Codec.Codec.decode_telemetry (raw_body r) (utc (received_at r)) = Ok frame -> _stored_values frame = packet_values p ->
  0 <= claim_timeout_seconds settings -> worker_id <> ""%string -> Z.of_nat (String.length worker_id) <= 255 ->
  exists a s' t w', run (worker_round settings worker_id describe) s = (Ok tt, s') /\
    Health.Health.assess_health frame (utc (received_at r)) = Ok a /\
    row_at (processed (tables_of s')) (job_packet_id j) = Some t /\
    t = result_of j (processing_values frame a) (processed_at t) /\
    (exists j', row_at (jobs (tables_of s')) k = Some j' /\ job_state j' = COMPLETE) /\
    represents queue_keys (redis s') w' /\ message_of j ∉ entries w'.
Proof.
  intros Hok Hrep Hrev Hj Hcl Hf Hnext Hp Hr Hd Hv Ht Hwk Hlen. pose proof Hok as [Hc _ _].
  assert (UUID (message_job_id (message_of j)) = Some k) as Hkey by (apply (works_on_key _ _ s); [done|by exists j]).
  pose proof (job_message_valid _ _ _ Hok Hj) as Hvalid.
  destruct (run_claim_queue s w _ rest _ Hrep Hrev Ht) as (ks & Hclaim & Hrep1).
  destruct (run_ack_queue ks _ (message_of j) Hrep1 Hvalid) as (ks' & Hack & Hrep2); [by left|]. cbn [waiting running abandoned] in Hrep2.
  destruct (claim_total k worker_id 60 (tables s) j Hc Hf Hwk Hlen ltac:(lia) Hj Hcl)
    as (p' & r' & w1 & Hp' & Hr' & Hrun & Hrow & Hdraws & Hevents).
  unfold tables_of in Hp, Hr. rewrite Hp in Hp'. injection Hp' as <-. rewrite Hr in Hr'. injection Hr' as <-.
  match type of Hrun with _ = (Ok (Some ?x), _) => set (item := x) in * end.
  destruct (process_decoded item frame Hd Hv) as (a & Ha & Hproc).
  destruct (safe_claim _ _ _ _ _ _ Hrun Hc) as [Hc1 _].
  destruct (complete_total k (processing_values frame a) worker_id w1 (claimed_job j worker_id (clock (clock_reads (tables s))) 60) Hc1)
    as (w2 & Hcomplete); [|exact (mode_text_short _)|cbn; lia|exact Hrow|done|done|].
  { rewrite Hdraws, Hevents by done. by apply Hf; lia. }
  destruct (run_finish_work (message_of j) item _ _ _ w2 ks' (after_database w1 (after_redis ks s)) Hproc Hcomplete Hack)
    as (s' & Hfin & Hts & Hrs).
  exists a, s'. eexists. exists (mk_work (rev rest) (without (message_of j) (message_of j :: running w)) (abandoned w)).
  split; [|split; [exact Ha|]].
  - unfold worker_round. rewrite run_seq, run_try, (run_exchange _ s _ _ Hclaim). unfold process_message.
    rewrite run_seq, run_try, run_seq, (run_claim_work _ k (after_redis ks s) item w1 Hkey Hrun). cbn [run mret prog_ret].
    by rewrite run_try, Hfin.
  - unfold tables_of. rewrite Hts, Hrs. pose proof (complete_run _ _ _ _ _ _ _ Hc1 Hcomplete) as (j' & Hj' & Hjp' & Ht').
    split; [exact Ht'|]. split; [done|]. split; [eapply complete_state; [exact Hc1|exact Hcomplete]|]. split; [done|].
    intros Hin. pose proof (ledger_unique _ _ _ (rep_ledger _ _ _ Hrep1)) as Hu.
    destruct (running_unique _ _ _ Hrep1) as [Hn _]. cbn [running] in Hn.
    rewrite (entries_without (mk_work (rev rest) (message_of j :: running w) (abandoned w)) (message_of j) Hn) in Hu by (by left). cbn [fmap list_fmap] in Hu.
    apply NoDup_cons in Hu as [Hu _]. apply Hu. by apply list_elem_of_fmap_2.
Qed.
End Progress.

(** ** A concrete round *)

Module LiveExample.
#[local] Existing Instance cpython.
#[local] Existing Instance MapRedis.server.
#[local] Existing Instance MapRedis.laws.
Import SystemExample.

#[local] Instance steady : Network := {| database_fate := fun _ => Served; redis_fate := fun _ => Served |}.

Lemma steady_served : all_served.
Proof. intros n. split; reflexivity. Qed.

Definition posted : system := (run (receive_payload_data settings golden_request) start).2.

Lemma posted_ok : sys_ok posted.
Proof.
  exact (proj1 (guarded_run sys_ok rely (receive_payload_data settings golden_request) handed_over start start_ok
    (guard_receive settings golden_request start))).
Qed.

Definition key : uuid := uuid4 2.
Definition stored_job : option TelemetryProcessingJob := row_at (jobs (tables_of posted)) key.
Definition the_message : QueueMessage := mk_message (uuid_str key) "TLM-P01-B0000002A-S00000001".

Lemma message_valid : valid_message the_message.
Proof. vm_compute. reflexivity. Qed.

Lemma posted_queue : represents queue_keys (redis posted) (mk_work [the_message] [] []).
Proof.
  assert (forall k, value_at (redis start) k = None) as Hnone
    by (intros k; exact (lookup_empty (K:=string) (M:=gmap string) (A:=redis_value) k)).
  pose proof (run_refines queue_keys [Enqueue the_message] (redis start) no_work queue_keys_distinct
    (proj2 (Forall_singleton call_ok (Enqueue the_message)) message_valid) (empty_queue queue_keys _ Hnone)) as [_ H].
  assert (redis posted = (run_queue queue_keys [Enqueue the_message] (redis start)).2) as ->.
  { refine (bool_decide_eq_true_1 (@eq (gmap string redis_value) _ _) _). vm_compute. reflexivity. }
  exact H.
Qed.

(** What the theorem asks of the stored rows, as a test. *)
Definition rows_ready (d : database) (now : Z) : bool :=
  match row_at (jobs d) key with
  | Some j =>
      bool_decide (message_of j = the_message) && claimable now j &&
      match row_at (packets d) (job_packet_id j) with
      | Some p =>
          match row_at (receipts d) (source_receipt_id p) with
          | Some r =>
              match Codec.Codec.decode_telemetry (raw_body r) (utc (received_at r)) with
              | Ok frame => bool_decide (_stored_values frame = packet_values p)
              | Raise _ => false
              end
          | None => false
          end
      | None => false
      end
  | None => false
  end.

Lemma rows_ready_spec d now : rows_ready d now = true -> exists j p r frame,
  row_at (jobs d) key = Some j /\ message_of j = the_message /\ claimable now j = true /\
  row_at (packets d) (job_packet_id j) = Some p /\ row_at (receipts d) (source_receipt_id p) = Some r /\
  Codec.Codec.decode_telemetry (raw_body r) (utc (received_at r)) = Ok frame /\ _stored_values frame = packet_values p.
Proof.
  unfold rows_ready. intros Hready. destruct (row_at (jobs d) key) as [j|]; [|done].
  destruct (row_at (packets d) (job_packet_id j)) as [p|] eqn:Hp; [|apply andb_true_iff in Hready as [_ ?]; discriminate].
  destruct (row_at (receipts d) (source_receipt_id p)) as [r|] eqn:Hr; [|apply andb_true_iff in Hready as [_ ?]; discriminate].
  destruct (Codec.Codec.decode_telemetry _ _) as [frame|] eqn:Hd; [|apply andb_true_iff in Hready as [_ ?]; discriminate].
  apply andb_true_iff in Hready as [[Hm Hcl]%andb_true_iff Hv]. apply bool_decide_eq_true in Hm, Hv.
  exists j, p, r, frame. exact (conj eq_refl (conj Hm (conj Hcl (conj Hp (conj Hr (conj Hd Hv)))))).
Qed.

Lemma posted_ready : rows_ready (tables_of posted) (clock (clock_reads (tables posted))) = true.
Proof. vm_compute. reflexivity. Qed.

Lemma posted_fresh : fresh_uuids (tables posted).
Proof. apply fresh_world. vm_compute. reflexivity. Qed.

Lemma posted_draw : uuid4 (S (uuid_draws (tables posted))) <> uuid4 (uuid_draws (tables posted)).
Proof. vm_compute. discriminate. Qed.

Lemma round_completes_witness :
  exists s' j t, run (worker_round worker_settings "worker-1" no_text) posted = (Ok tt, s') /\
    message_of j = the_message /\ row_at (processed (tables_of s')) (job_packet_id j) = Some t.
Proof.
  destruct (rows_ready_spec _ _ posted_ready) as (j & p & r & frame & Hj & Hm & Hcl & Hp & Hr & Hd & Hv).
  assert (rev (waiting (mk_work [the_message] [] [])) = message_of j :: []) as Hrev by (rewrite Hm; reflexivity).
  assert (0 <= claim_timeout_seconds worker_settings) as Ht by (cbn; lia).
  assert ("worker-1"%string <> ""%string) as Hw by discriminate.
  destruct (round_completes steady_served worker_settings "worker-1" no_text posted (mk_work [the_message] [] []) key j p r frame []
    posted_ok posted_queue Hrev Hj Hcl posted_fresh posted_draw Hp Hr Hd Hv Ht Hw ltac:(cbn; lia)) as (a & s' & t & w' & Hrun & _ & Hres & _).
  exact (ex_intro _ s' (ex_intro _ j (ex_intro _ t (conj Hrun (conj Hm Hres))))).
Defined.
End LiveExample.
