(* ===== verification/GroundApiProps.v ===== *)
(** * What the gateway's handlers guarantee to their callers

    The body reader and its limit, the credentials, and the answers to outages. *)
From S2P Require Import Prelude PyFormat Sha256 Uuid PyText Json Codec Sql Schema Session Repository RepositoryInv RepositorySafe.
From S2P Require Import RepositoryExample RepositoryAccept RepositoryProps RepositoryQuiet Redis Queue QueueSpec QueueProps.
From S2P Require Import Metrics Config Gateway GroundApi Worker Linked SystemApi SystemExample.
From Stdlib Require Import SpecFloat Ascii.

Open Scope Z_scope.

(** ** The body *)

Lemma read_stream_spec maximum body chunks :
  Z.of_nat (length body) <= maximum ->
  read_stream maximum body chunks =
    if Z.of_nat (length (body ++ concat chunks)) <=? maximum then Ok (body ++ concat chunks)
    else Raise (HTTPException 413 "telemetry body exceeds 1024 bytes").
Proof.
  revert body; induction chunks as [|chunk rest IH]; intros body Hb; cbn [read_stream concat].
  - rewrite app_nil_r. destruct (Z.leb_spec (Z.of_nat (length body)) maximum); [done|lia].
  - destruct (Z.ltb_spec maximum (Z.of_nat (length (body ++ chunk)))) as [Hlt|Hge]; cbn [mbind result_bind].
    + rewrite app_assoc, (length_app (body ++ chunk)). destruct (Z.leb_spec (Z.of_nat (length (body ++ chunk) + length (concat rest))) maximum); [lia|done].
    + by rewrite IH, <- app_assoc.
Qed.

(** The declared length, when there is one, is an integer within the limit. *)
Definition declared_ok (r : request) (maximum : Z) : Prop :=
  match header_content_length r with
  | None => True
  | Some text => exists n, py_int text = Some n /\ n <= maximum
  end.

Lemma read_stream_ok maximum chunks raw :
  0 <= maximum -> read_stream maximum [] chunks = Ok raw <-> raw = concat chunks /\ Z.of_nat (length raw) <= maximum.
Proof.
  intros Hmax. rewrite read_stream_spec by done. cbn [app]. destruct (Z.leb_spec (Z.of_nat (length (concat chunks))) maximum).
  - split; [by intros [= <-]|by intros [-> _]].
  - split; [done|]. intros [-> ?]. lia.
Qed.

Lemma bounded_body_ok r maximum raw :
  0 <= maximum -> _bounded_body r maximum = Ok raw <->
    declared_ok r maximum /\ raw = concat (body_stream r) /\ Z.of_nat (length raw) <= maximum.
Proof.
  intros Hmax. unfold _bounded_body, declared_ok. destruct (header_content_length r) as [text|]; [|rewrite read_stream_ok by done; naive_solver].
  destruct (py_int text) as [n|]; [|naive_solver]. destruct (Z.ltb_spec maximum n); cbn [mbind result_bind].
  - split; [done|]. intros [(n' & [= <-] & ?) _]. lia.
  - rewrite read_stream_ok by done. naive_solver.
Qed.

(** C33. The body limit: a body is returned exactly when the declared length is absent or an integer
    within the limit and all the chunks together are within it, and it is then the chunks in their
    order; an unreadable declared length is answered 400 and everything else 413, and once the chunks
    read exceed the limit the rest of the stream makes no difference. *)
Theorem bounded_body_exact r maximum :
  0 <= maximum ->
  (forall raw, _bounded_body r maximum = Ok raw <->
     declared_ok r maximum /\ raw = concat (body_stream r) /\ Z.of_nat (length raw) <= maximum) /\
  (forall e, _bounded_body r maximum = Raise e -> exists status detail, e = HTTPException status detail /\
     (status = 400 <-> exists text, header_content_length r = Some text /\ py_int text = None) /\ (status = 400 \/ status = 413)) /\
  (forall sent unread unread', maximum < Z.of_nat (length (concat sent)) ->
     read_stream maximum [] (sent ++ unread) = read_stream maximum [] (sent ++ unread')).
Proof.
  intros Hmax. pose proof (fun chunks => read_stream_spec maximum [] chunks Hmax) as Hstream. cbn [app length] in Hstream.
  assert (forall e, read_stream maximum [] (body_stream r) = Raise e -> exists detail, e = HTTPException 413 detail) as Hraise
    by (intros e; apply read_stream_raises).
  split; [intros raw; by apply bounded_body_ok|]. unfold _bounded_body. split.
  - intros e. destruct (header_content_length r) as [text|].
    + destruct (py_int text) as [n|] eqn:Hn; [|intros [= <-]; naive_solver]. destruct (maximum <? n); cbn [mbind result_bind].
      * intros [= <-]. do 2 eexists. naive_solver.
      * intros [d ->]%Hraise. do 2 eexists. naive_solver.
    + intros [d ->]%Hraise. do 2 eexists. naive_solver.
  - intros sent unread unread' Hlong. rewrite !Hstream, !concat_app, !length_app.
    destruct (Z.leb_spec (Z.of_nat (length (concat sent) + length (concat unread))) maximum); [lia|].
    destruct (Z.leb_spec (Z.of_nat (length (concat sent) + length (concat unread'))) maximum); [lia|done].
Qed.

(** ** Credentials *)

Lemma text_drop prefix s : startswith prefix s = true -> s = prefix +:+ removeprefix prefix s.
Proof.
  intros Hs. unfold removeprefix. rewrite Hs. revert s Hs. induction prefix as [|c prefix IH]; intros s Hs.
  - symmetry. apply text_chars.
  - destruct s as [|d s]; [done|]. unfold startswith in *. cbn in Hs. destruct (ascii_dec c d) as [->|]; [|done].
    change (String d s = String d (prefix +:+ text_of (drop (String.length prefix) (chars_of s)))). f_equal. by apply IH.
Qed.

Lemma digest_equal_true a b : digest_equal a b = Ok true -> a = b.
Proof. unfold digest_equal, compare_digest. destruct (_ && _); [|done]. intros [= He]. by apply bool_decide_eq_true in He. Qed.

(** Credentials: an identity is granted to nothing but [Bearer] followed by the exact token of that
    role, and the two roles never share a token. *)
Theorem bearer_identity_exact settings authorization who :
  ground_settings_ok settings -> _bearer_identity authorization settings = Ok who ->
  exists token, authorization = Some ("Bearer " +:+ token)%string /\
    ((who = "operator"%string /\ token = operator_token settings /\ token <> admin_token settings) \/
     (who = "administrator"%string /\ token = admin_token settings /\ token <> operator_token settings)).
Proof.
  intros [_ Hd _ _]. unfold _bearer_identity. destruct authorization as [text|]; [|done].
  destruct (startswith "Bearer " text) eqn:Hp; [|done]. cbn [negb]. intros Hr. exists (removeprefix "Bearer " text).
  split; [f_equal; by apply text_drop|].
  assert (operator_token settings <> admin_token settings) as Hne.
  { intros He. rewrite He in Hd. apply NoDup_cons in Hd as [_ [Hd _]%NoDup_cons]. apply Hd. by left. }
  apply bind_ok in Hr as ([] & Ho & Hr).
  - injection Hr as <-. apply digest_equal_true in Ho as ->. by left.
  - apply bind_ok in Hr as ([] & Ha & Hr); [|done]. injection Hr as <-. apply digest_equal_true in Ha as ->. right. naive_solver.
Qed.

(** ** Outages *)

Section Raises.
Context `{SqlEngine} `{Env} `{RedisServer} `{Network} `{interpreter : Interpreter}.
Implicit Types (s : system) (P : exn -> Prop).

(** Every exception that a run ends with satisfies [P]. *)
Definition raises {A} P (p : prog system A) : Prop := forall s e s', run p s = (Raise e, s') -> P e.

Lemma raises_ret {A} P (a : A) : raises P (mret a).
Proof. by intros s e s'. Qed.
Lemma raises_throw {A} P e : P e -> raises P (Throw (A:=A) e).
Proof. intros He s e' s' [= <- <-]. exact He. Qed.
Lemma raises_bind {A B} P (p : prog system A) (f : A -> prog system B) :
  raises P p -> (forall a, raises P (f a)) -> raises P (p ≫= f).
Proof.
  intros Hp Hf s e s'. rewrite run_seq. destruct (run p s) as [[a|x] s1] eqn:Hr; [apply Hf|].
  intros [= -> ->]. by eapply Hp.
Qed.
Lemma raises_try {A} P P' (p : prog system A) h :
  raises P' p -> (forall e, P' e -> raises P (h e)) -> raises P (try_except p h).
Proof.
  intros Hp Hh s e s'. rewrite run_try. destruct (run p s) as [[a|x] s1] eqn:Hr; [done|].
  apply Hh. by eapply Hp.
Qed.
Lemma raises_any {A} (p : prog system A) : raises (fun _ => True) p.
Proof. done. Qed.
Lemma raises_pure {A} P (r : result exn A) : (forall e, r = Raise e -> P e) -> raises P (pure r).
Proof. intros Hr. destruct r as [a|e]; [apply raises_ret|]. by apply raises_throw, Hr. Qed.

(** The driver's connection error comes only from a database that could not be reached. *)
Definition reachable (e : exn) : Prop := e = OSError -> exists n, database_fate n = Unreachable.

Lemma raises_transact {A} P (m : M A) :
  P OperationalError -> (forall n, database_fate n = Unreachable -> P OSError) -> (forall e, P (StorageExn e)) -> raises P (transact m).
Proof.
  intros Ho Hu Hs s e s'. unfold transact. rewrite run_perform. unfold in_database.
  destruct (database_fate _) eqn:Hf; [destruct (m (tables s)) as [[a|x] w]|..]; intros [= <- _]; eauto.
Qed.
Lemma raises_redis {A} P (q : Q A) : P ConnectionError -> (forall e, P (QueueExn e)) -> raises P (perform (in_redis q)).
Proof.
  intros Ho Hs s e s'. rewrite run_perform. unfold in_redis.
  destruct (redis_fate _); [destruct (q (redis s)) as [[a|x] ks]|..]; by intros [= <- _].
Qed.
Lemma raises_clock P : raises P (perform read_clock).
Proof. intros s e s'. rewrite run_perform. done. Qed.
Lemma raises_metric P name n : raises P (_metric_safely name n).
Proof. eapply raises_try; [apply raises_any|intros; apply raises_ret]. Qed.

(** Neither SQLAlchemy's nor the Redis client's exceptions, nor an unexplained connection error. *)
Definition not_outage (e : exn) : Prop := is_sqlalchemy_error e = false /\ is_redis_error e = false /\ reachable e.
Definition not_redis (e : exn) : Prop := is_redis_error e = false /\ reachable e.

Lemma raises_transact_not_redis {A} (m : M A) : raises not_redis (transact m).
Proof. apply raises_transact; [done|intros n Hn; split; [done|by exists n]|done]. Qed.
Lemma raises_transact_reachable {A} (m : M A) : raises reachable (transact m).
Proof. apply raises_transact; [done|intros n Hn _; by exists n|done]. Qed.
Lemma raises_exchange_reachable {A} (q : Q A) : raises reachable (exchange q).
Proof. by apply raises_redis. Qed.

Lemma raises_audit event actor out why data : raises not_outage (_audit_safely event actor out why data).
Proof.
  eapply (raises_try _ not_redis); [apply raises_transact_not_redis|]. intros e [].
  destruct (is_sqlalchemy_error e) eqn:Hs; [apply raises_ret|by apply raises_throw].
Qed.

Lemma raises_database {A} (block : prog system A) : raises not_redis block -> raises not_outage (guard_database block).
Proof.
  intros Hb. eapply raises_try; [exact Hb|]. intros e []. destruct (is_sqlalchemy_error e) eqn:Hs; [|by apply raises_throw].
  apply raises_bind; [apply raises_metric|intros; by apply raises_throw].
Qed.

Lemma raises_bearer P authorization settings :
  (forall detail, P (HTTPException 401 detail)) -> (forall why, P (TypeError why)) -> raises P (pure (_bearer_identity authorization settings)).
Proof. intros Hh Ht. apply raises_pure. by intros e [[detail ->]|[why ->]]%bearer_raises. Qed.
End Raises.

Create HintDb raises.
#[export] Hint Resolve raises_ret raises_clock raises_metric raises_audit raises_transact_not_redis raises_transact_reachable
  raises_exchange_reachable : raises.
#[export] Hint Extern 1 (raises _ (Throw _)) => (apply raises_throw; by repeat split) : raises.
#[export] Hint Extern 1 (raises _ not_found) => (apply raises_throw; by repeat split) : raises.
#[export] Hint Extern 1 (raises _ (respond _ _)) => (apply raises_ret) : raises.
#[export] Hint Extern 1 (raises _ (pure (_bearer_identity _ _))) => (by apply raises_bearer) : raises.

(** Through binds, tests and the calls of a handler. *)
Ltac solve_raises :=
  repeat first
    [ solve [auto 2 with raises]
    | simple apply raises_bind | simple apply raises_database
    | progress intros
    | match goal with
      | |- raises _ (if ?c then _ else _) => destruct c
      | |- raises _ (match ?c with _ => _ end) => destruct c
      end ].

Section Handlers.
Context `{SqlEngine} `{Env} `{RedisServer} `{Network} `{interpreter : Interpreter}.
Context (settings : GroundSettings).
Implicit Types (s : system).

Lemma queue_one_reachable job packet : raises reachable (_queue_one job packet).
Proof.
  unfold _queue_one. apply raises_bind; [|solve_raises]. apply raises_pure. intros e. destruct (new_message _ _); [done|].
  by intros [= <-].
Qed.
Hint Resolve queue_one_reachable : raises.

Lemma session_reachable r raw received : raises reachable (receive_in_session settings r raw received).
Proof.
  unfold receive_in_session, accept_frame, answer_acceptance, requeue_replay, refuse. solve_raises.
Qed.

Lemma receive_raises r : raises not_outage (receive_payload_data settings r).
Proof.
  unfold receive_payload_data. apply raises_bind.
  { apply raises_pure. intros e. destruct (x_vendor_token r); [|done]. unfold digest_equal.
    destruct (compare_digest _ _); [done|by intros [= <-]]. }
  intros authentic. destruct (negb authentic); [unfold unauthenticated; solve_raises|].
  destruct (_bounded_body _ _) as [raw|e] eqn:Hbody.
  - apply raises_bind; [apply raises_clock|]. intros received. eapply raises_try; [apply session_reachable|]. intros e He.
    destruct (is_redis_error e) eqn:Hr; [apply raises_ret|]. destruct (is_sqlalchemy_error e) eqn:Hs; [|by apply raises_throw].
    solve_raises.
  - destruct (bounded_body_raises _ _ _ Hbody) as (status & detail & -> & _). unfold refuse_body. solve_raises.
Qed.

Lemma metrics_raises authorization : raises not_outage (metrics settings authorization).
Proof.
  unfold metrics. apply raises_bind; [by apply raises_bearer|]. intros identity. destruct (negb _); [by apply raises_throw|].
  eapply (raises_try _ (fun e => is_sqlalchemy_error e = false /\ reachable e)).
  - apply raises_bind.
    { intros s e s'. rewrite run_perform. unfold snapshot. destruct (redis_fate _); by intros [= <- _]. }
    intros counters. apply raises_bind; [by apply raises_redis|intros; apply raises_ret].
  - intros e []. destruct (is_redis_error e) eqn:Hr; by apply raises_throw.
Qed.

Lemma queries_raise message authorization limit :
  raises not_outage (get_raw_payload settings message authorization) /\
  raises not_outage (get_processed_payload settings message authorization) /\
  raises not_outage (get_audit_events settings limit authorization).
Proof.
  split; [unfold get_raw_payload; solve_raises|]. split; [unfold get_processed_payload; solve_raises|].
  unfold get_audit_events. solve_raises.
Qed.
End Handlers.

Section Guarantees.
Context `{SqlEngine} `{!SqlLaws} `{Env} `{RedisServer} `{Network} `{interpreter : Interpreter}.
Context (settings : GroundSettings).
Implicit Types (s : system).

(** A delivery of the vendor up to its first database call. *)
Lemma receive_first_call r s raw :
  x_vendor_token r = Some (vendor_token settings) -> is_ascii (vendor_token settings) = true ->
  _bounded_body r (max_telemetry_body_bytes settings) = Ok raw ->
  exists s1 received, tables_of s1 = tables_of s /\ redis s1 = redis s /\ database_calls s1 = database_calls s /\
    run (receive_payload_data settings r) s =
      run (try_except (receive_in_session settings r raw received) (fun exc =>
          if is_redis_error exc then
            respond 503 (response_body [("status", "PENDING_QUEUE"); ("reason", "REDIS_UNAVAILABLE")]%string)
          else if is_sqlalchemy_error exc then
            _metric_safely "database_errors_total" 1 ;;
            respond 503 (response_body [("status", "UNAVAILABLE"); ("reason", "POSTGRESQL_UNAVAILABLE")]%string)
          else Throw exc)) s1.
Proof.
  intros Htoken Hascii Hbody. unfold receive_payload_data. rewrite run_seq, Htoken.
  unfold digest_equal, compare_digest. rewrite Hascii, bool_decide_eq_true_2 by done. cbn [andb pure run negb].
  rewrite Hbody, run_seq, run_perform. unfold read_clock, utc_now. cbv beta iota.
  by refine (ex_intro _ _ (ex_intro _ _ (conj _ (conj _ (conj _ eq_refl))))).
Qed.

(** C32. Outages: whatever the database and the server refuse or lose, no handler ends with an exception
    of SQLAlchemy or of the Redis client, and it ends with the driver's own connection error only when
    the database could not be reached.  While the database refuses the statements of its open
    connections, every well-formed delivery of the vendor is answered 503; while no connection can be
    opened, the same delivery is not answered so: the handler ends with the connection error, which the
    server answers 500.  In both cases no table and no queue has changed. *)
Theorem outages_answered r message authorization limit :
  raises not_outage (receive_payload_data settings r) /\
  raises not_outage (get_raw_payload settings message authorization) /\
  raises not_outage (get_processed_payload settings message authorization) /\
  raises not_outage (get_audit_events settings limit authorization) /\
  raises not_outage (metrics settings authorization) /\
  (forall s raw, x_vendor_token r = Some (vendor_token settings) ->
     is_ascii (vendor_token settings) = true -> _bounded_body r (max_telemetry_body_bytes settings) = Ok raw ->
     exists res s', run (receive_payload_data settings r) s = (res, s') /\
       ((forall n, database_fate n = Refused) -> res = Ok (mk_response 503
          (response_body [("status", "UNAVAILABLE"); ("reason", "POSTGRESQL_UNAVAILABLE")]%string)) /\
          tables_of s' = tables_of s /\ redis s' = redis s) /\
       ((forall n, database_fate n = Unreachable) -> res = Raise OSError /\ tables_of s' = tables_of s /\ redis s' = redis s)).
Proof.
  destruct (queries_raise settings message authorization limit) as (Hraw & Hprocessed & Haudit).
  split; [apply receive_raises|]. split; [done|]. split; [done|]. split; [done|]. split; [apply metrics_raises|].
  intros s raw Htoken Hascii Hbody. destruct (receive_first_call r s raw Htoken Hascii Hbody) as (s1 & received & Ht1 & Hr1 & _ & Hrun).
  rewrite Hrun. clear Hrun. destruct (run _ s1) as [res s'] eqn:Hrun. exists res, s'. split; [done|].
  rewrite run_try in Hrun. unfold receive_in_session in Hrun. rewrite run_seq in Hrun. unfold transact at 1 in Hrun.
  rewrite run_perform in Hrun. unfold in_database at 1 in Hrun. split; intros Hfate; rewrite Hfate in Hrun.
  - cbn [is_redis_error is_sqlalchemy_error] in Hrun. rewrite run_seq in Hrun.
    match type of Hrun with context [run (_metric_safely ?n ?k) ?t] => destruct (run_metric n k t) as (s2 & Hm & Ht & Hr) end.
    rewrite Hm in Hrun. injection Hrun as <- <-. unfold tables_of in *. by rewrite Ht, Hr.
  - injection Hrun as <- <-. done.
Qed.

(** ** Requests without the vendor's token *)

(** Only audit events may differ. *)
Definition only_events (d d' : database) : Prop := exists t, d' = set_events t d.

Lemma audit_only_events service event actor out why r p j data w a w' :
  record_audit_event service event actor out why r p j data w = (Ok a, w') -> only_events (db w) (db w').
Proof. intros Hr%run_begin_ok. unfold _audit in Hr. do 3 run_step Hr. subst. by eexists. Qed.

Lemma only_events_refl d : only_events d d.
Proof. exists (events d). by destruct d. Qed.

Lemma run_audit event actor out why data s r s' :
  run (_audit_safely event actor out why data) s = (r, s') ->
  only_events (tables_of s) (tables_of s') /\ redis s' = redis s.
Proof.
  unfold _audit_safely, transact. rewrite run_try, run_perform.
  destruct (in_database _ s) as [r1 s1] eqn:Hrun.
  destruct (in_database_cases _ _ _ _ (atomic_begin _) Hrun) as (Hr & Hcases & _).
  assert (only_events (tables_of s) (tables_of s1)) as He.
  { destruct Hcases as [->|(a & w & Hw & ->)]; [apply only_events_refl|by eapply audit_only_events]. }
  destruct r1 as [a|e]; [by intros [= _ <-]|]. destruct (is_sqlalchemy_error e); by intros [= _ <-].
Qed.

(** The token and the configured one cannot be compared. *)
Definition incomparable (r : request) : Prop :=
  exists token, x_vendor_token r = Some token /\ is_ascii token && is_ascii (vendor_token settings) = false.

Lemma audit_raises event actor out why data s e s' :
  run (_audit_safely event actor out why data) s = (Raise e, s') -> e = OSError /\ exists n, database_fate n = Unreachable.
Proof.
  unfold _audit_safely, transact. rewrite run_try, run_perform. unfold in_database.
  destruct (database_fate (database_calls s)) eqn:Hf; cbn; [|done|done|intros [= <- _]; eauto].
  unfold record_audit_event, session_begin, _audit. pure_next. pure_next. unfold session_add.
  destruct (fits _); cbn [negb]; [|done]. destruct (foreign_keys _ _); [|done]. by destruct (insert_row _ _).
Qed.

(** C31. Authentication: a delivery request without the vendor's exact token is answered 401, in every
    run: the only exceptions are the error of comparing texts beyond ASCII, raised exactly for such a
    token, and the driver's connection error, when the record of the attempt finds the database out of
    reach.  Apart from that record in the audit trail every table and the work queue stay as they were. *)
Theorem vendor_authentication r s res s' :
  x_vendor_token r <> Some (vendor_token settings) -> run (receive_payload_data settings r) s = (res, s') ->
  (incomparable r -> (exists why, res = Raise (TypeError why)) /\ s' = s) /\
  (~ incomparable r -> (exists a, res = Ok a /\ status_code a = 401) \/
     (res = Raise OSError /\ exists n, database_fate n = Unreachable)) /\
  only_events (tables_of s) (tables_of s') /\ redis s' = redis s.
Proof.
  intros Hne. unfold receive_payload_data. rewrite run_seq.
  match goal with |- context [pure ?x] => assert ((x = Ok false /\ ~ incomparable r) \/
    (exists why, x = Raise (TypeError why) /\ incomparable r)) as Hx; [|set (answer := x) in *] end.
  { unfold incomparable. destruct (x_vendor_token r) as [token|]; [|left; split; [done|by intros (? & ? & _)]].
    unfold digest_equal, compare_digest. destruct (is_ascii token && is_ascii (vendor_token settings)) eqn:Hascii.
    - left. split; [f_equal; apply bool_decide_eq_false_2; congruence|]. intros (? & [= <-] & ?). congruence.
    - right. eexists. split; [done|]. eauto. }
  destruct Hx as [[-> Hcmp]|(why & -> & Hinc)]; cbn [pure run negb].
  2: { intros [= <- <-]. split; [by eauto|]. split; [done|]. split; [apply only_events_refl|done]. }
  intros Hrun. split; [done|]. revert Hrun. unfold unauthenticated. rewrite run_seq.
  destruct (run_metric "vendor_authentication_failures_total" 1 s) as (s1 & -> & Ht & Hr). rewrite run_seq.
  destruct (run _ s1) as [[u|e] s2] eqn:Haudit; destruct (run_audit _ _ _ _ _ _ _ _ Haudit) as [He Hr2];
    unfold tables_of in *; rewrite Ht in He; intros [= <- <-]; (split; [|split; [done|congruence]]).
  - left. by eexists.
  - right. by destruct (audit_raises _ _ _ _ _ _ _ _ Haudit) as [-> ?].
Qed.
End Guarantees.

(** ** Witnesses *)

Module ApiExample.
#[local] Existing Instance cpython.
#[local] Existing Instance MapRedis.server.
#[local] Existing Instance MapRedis.laws.
Import SystemExample.

(** The database refuses every call; the server answers. *)
#[local] Instance database_down : Network := {| database_fate := fun _ => Refused; redis_fate := fun _ => Served |}.

(** The golden frame in two chunks, and a request with another token. *)
Definition chunked_request : request := {|
  x_vendor_token := Some "vendor"; x_request_id := None; header_content_length := Some " 2_8 ";
  header_content_type := Some "application/octet-stream"; body_stream := [take 10 example_raw; drop 10 example_raw] |}%string.
Definition stranger_request : request := {|
  x_vendor_token := Some "Vendor"; x_request_id := None; header_content_length := None;
  header_content_type := None; body_stream := [example_raw] |}%string.

Lemma bounded_body_exact_witness :
  _bounded_body chunked_request 28 = Ok example_raw /\
  read_stream 27 [] ([example_raw] ++ []) = read_stream 27 [] ([example_raw] ++ [example_raw]).
Proof.
  destruct (bounded_body_exact chunked_request 28 ltac:(lia)) as (Hok & _ & _).
  destruct (bounded_body_exact chunked_request 27 ltac:(lia)) as (_ & _ & Hmore). split.
  - apply (proj2 (Hok example_raw)). split; [|split; [vm_compute; reflexivity|vm_compute; discriminate]].
    exists 28. split; [vm_compute; reflexivity|lia].
  - apply Hmore. vm_compute. reflexivity.
Defined.

Lemma bearer_identity_exact_witness :
  exists token, Some "Bearer admin"%string = Some ("Bearer " +:+ token)%string /\ token = admin_token settings.
Proof.
  destruct (bearer_identity_exact settings (Some "Bearer admin"%string) "administrator"%string settings_ok eq_refl)
    as (token & Ht & [[Hw _]|(_ & Ha & _)]); [discriminate Hw|]. exact (ex_intro _ token (conj Ht Ha)).
Defined.

Lemma outages_answered_witness :
  exists s', run (receive_payload_data settings golden_request) start = (Ok (mk_response 503
    (response_body [("status", "UNAVAILABLE"); ("reason", "POSTGRESQL_UNAVAILABLE")]%string)), s') /\ redis s' = redis start.
Proof.
  destruct (outages_answered settings golden_request ""%string None 1) as (_ & _ & _ & _ & _ & Hdown).
  destruct (Hdown start example_raw eq_refl eq_refl eq_refl) as (res & s' & Hrun & Hrefused & _).
  destruct (Hrefused (fun n => eq_refl)) as (-> & _ & Hr). exact (ex_intro _ s' (conj Hrun Hr)).
Defined.

Lemma vendor_authentication_witness :
  redis (run (receive_payload_data settings stranger_request) start).2 = redis start.
Proof.
  assert (x_vendor_token stranger_request <> Some (vendor_token settings)) as Hne by discriminate.
  destruct (vendor_authentication settings stranger_request start _ _ Hne (surjective_pairing _)) as (_ & _ & _ & Hr). exact Hr.
Defined.
End ApiExample.
