(* ===== verification/SystemAnswer.v ===== *)
(** * The gateway's answer to a first delivery

    When the services answer, the handler of a new request implements an abstract gateway on the sessions
    of the pure sequence algorithm: the status it answers and the sessions its tables represent
    afterwards are those of the specification, and a packet that is answered 202 has a queued job. *)
From S2P Require Import Prelude PyFormat Sha256 Uuid PyText Json Codec Sequence Sql Schema Session Repository RepositoryInv.
From S2P Require Import RepositorySafe RepositoryExample RepositoryAccept RepositoryProps RepositoryFresh RepositoryQuiet RepositoryTotal RepositoryIdle.
From S2P Require Import Redis Queue QueueSpec QueueProps Metrics Config Gateway GroundApi Worker Linked SystemApi SystemWorker.
From S2P Require Import SystemExample SystemLive GroundApiProps.
From Stdlib Require Import SpecFloat Ascii.

Open Scope Z_scope.

(** ** The abstract gateway *)

Definition sessions : Type := Z * Z -> Seq.session.

(** The status of a body received at a time, and the sessions it leaves. The algorithm refuses no frame that decodes, so the case of 500 is never taken. *)
Definition spec_receive (raw : bytes) (received : Z) (m : sessions) : Z * sessions :=
  match Codec.Codec.decode_telemetry raw (utc received) with
  | Raise _ => (422, m)
  | Ok frame =>
      let key := (Codec.Codec.payload_id frame, Codec.Codec.boot_id frame) in
      match Seq.deliver (m key) (Codec.Codec.sequence_number frame) raw with
      | Raise _ => (500, m)
      | Ok (decision, after) =>
          (match Seq.disposition decision with Seq.DUPLICATE => 200 | Seq.CONFLICT => 409 | _ => 202 end,
           fun k => if decide (k = key) then after else m k)
      end
  end.

Section Answer.
Context `{SqlEngine} `{!SqlLaws} `{Env} `{!UuidLaws} `{RedisServer} `{!RedisLaws} `{Network} `{interpreter : Interpreter}.
Implicit Types (s : system) (d : database).
Context (Hserved : all_served) (settings : GroundSettings).

(** The tables represent all sessions. *)
Definition represents_all d (m : sessions) : Prop := forall key, RepositoryAccept.represents d key (m key).

Lemma represents_same d d' m :
  consistent d -> evolves d d' -> same_stream d d' -> represents_all d m -> represents_all d' m.
Proof. intros Hc He [Hp Hs] Hm key. apply (represents_mono d d'); [apply He|done|done|done|apply Hm]. Qed.

(** ** Calls that are served *)

Lemma calm_run {A} (p : prog system A) s r s' : calm p -> sys_ok s -> run p s = (r, s') -> sys_ok s' /\ rely s s'.
Proof.
  intros Hp Hok Hr. pose proof (guarded_run sys_ok rely p _ s Hok (Hp s)) as (Hok' & Hrel & _). by rewrite Hr in Hok', Hrel.
Qed.

Lemma run_queue_one s k j :
  sys_ok s -> row_at (jobs (tables_of s)) k = Some j -> job_state j = PENDING_QUEUE -> fresh_uuids (tables s) ->
  exists s' j', run (_queue_one k (job_packet_id j)) s = (Ok true, s') /\ sys_ok s' /\ rely s s' /\
    same_stream (tables_of s) (tables_of s') /\ row_at (jobs (tables_of s')) k = Some j' /\ job_state j' = QUEUED /\
    job_packet_id j' = job_packet_id j /\ (idle_but (Some (k, job_packet_id j)) (tables_of s) -> idle (tables_of s')).
Proof.
  intros Hok Hj Hst Hf. pose proof Hok as [Hc _ (w & Hrep & Hlk)].
  destruct (job_row_message s k (job_packet_id j) Hok) as [Hnew (j0 & Hj0 & Hm)]; [by exists j|].
  assert (j0 = j) as -> by congruence. pose proof (own_entry s w k j Hok Hlk Hj) as Hone.
  destruct (call_refines queue_keys (Enqueue (message_of j)) queue_keys_distinct ltac:(rewrite <- Hm; exact Hnew) (redis s) w Hrep) as [Hout _].
  assert (exists b ks, enqueue queue_keys (message_of j) (redis s) = (Ok b, ks)) as (b & ks & Henq).
  { cbn [run_call spec_call] in Hout. unfold mbind, Q_bind in Hout.
    destruct (enqueue queue_keys (message_of j) (redis s)) as [[b|e] ks]; [by exists b, ks|]. cbn in Hout.
    destruct (find_job _ _) as [m'|] eqn:Hfind; [|done]. by rewrite bool_decide_eq_true_2 in Hout by (by apply Hone). }
  assert (Z.of_nat (String.length (uuid_str k)) <= 255) as Hlen
    by (rewrite uuid_str_length; [lia|by eapply (job_range _ (sys_range _ Hok))]).
  destruct (mark_total k (uuid_str k) "ground-api" (tables s) j Hc Hf Hj Hst Hlen ltac:(done)) as (w' & j' & Hmark & Hstream & Hj' & Hst' & Hp').
  assert (run (_queue_one k (job_packet_id j)) s = (Ok true, after_database w' (after_redis ks s))) as Hrun.
  { unfold _queue_one. rewrite Hnew, run_seq. cbn [pure run]. rewrite run_seq, Hm, (run_exchange Hserved _ s _ _ Henq).
    by rewrite (run_transact Hserved _ (after_redis ks s) _ _ Hmark). }
  pose proof (guarded_run sys_ok rely _ _ s Hok (guard_queue_one k (job_packet_id j) s Hok ltac:(by exists j))) as (Hok' & Hrel & _).
  rewrite Hrun in Hok', Hrel. do 2 eexists. split; [exact Hrun|]. split; [exact Hok'|]. split; [exact Hrel|]. split_and!; try done.
  intros Hidle. by eapply (mark_leaves_idle k (uuid_str k) "ground-api" (tables s)).
Qed.

(** ** The branches of the handler *)

Definition decided (decision : Seq.SequenceDecision) : Z :=
  match Seq.disposition decision with Seq.DUPLICATE => 200 | Seq.CONFLICT => 409 | _ => 202 end.

(** The answered packet has a queued job. *)
Definition has_queued_job s (packet : option string) : Prop :=
  exists k j, row_at (jobs (tables_of s)) k = Some j /\ job_state j = QUEUED /\ packet = Some (job_packet_id j).

(** A run that answers [code] and leaves the stream of packets alone. *)
Definition answers (p : prog system response) s (code : Z) (post : system -> Prop) : Prop :=
  exists answer s', run p s = (Ok answer, s') /\ status_code answer = code /\ sys_ok s' /\ rely s s' /\
    same_stream (tables_of s) (tables_of s') /\ post s'.

Lemma answers_metric name n p s code post :
  sys_ok s -> (forall s', tables s' = tables s -> redis s' = redis s -> sys_ok s' -> answers p s' code post) ->
  answers (_metric_safely name n ;; p) s code post.
Proof.
  intros Hok Hp. destruct (run_metric name n s) as (s1 & Hm & Ht & Hr).
  destruct (silent_action s s1 ltac:(unfold tables_of; by rewrite Ht) Hr Hok) as [Hok1 Hr1].
  destruct (Hp s1 Ht Hr Hok1) as (a & s' & Hrun & Hc & Hok' & Hrel & Hst & Hpost). exists a, s'. rewrite run_seq, Hm.
  split; [done|]. split; [done|]. split; [done|]. split; [by etransitivity|]. unfold tables_of in *. by rewrite Ht in Hst.
Qed.

Lemma answers_respond s code members (post : system -> Prop) : sys_ok s -> post s -> answers (respond code members) s code post.
Proof. intros Hok Hp. do 2 eexists. split; [done|]. by split_and!. Qed.

(** A job that is still to be queued is queued on the way. *)
Lemma answers_queue k j p s code (post : system -> Prop) :
  sys_ok s -> row_at (jobs (tables_of s)) k = Some j -> job_state j = PENDING_QUEUE -> fresh_uuids (tables s) ->
  (forall s', sys_ok s' -> has_queued_job s' (Some (job_packet_id j)) ->
     (idle_but (Some (k, job_packet_id j)) (tables_of s) -> idle (tables_of s')) -> answers p s' code post) ->
  answers (_queue_one k (job_packet_id j) ;; p) s code post.
Proof.
  intros Hok Hj Hst Hf Hp. destruct (run_queue_one s k j Hok Hj Hst Hf) as (s1 & j1 & Hrun & Hok1 & Hr1 & [Hs1 Hs2] & Hj1 & Hst1 & Hp1 & Hidle).
  destruct (Hp s1 Hok1) as (a & s' & Hrun' & Hc & Hok' & Hrel & [Ht1 Ht2] & Hpost); [exists k, j1; by rewrite Hp1|exact Hidle|].
  exists a, s'. rewrite run_seq, Hrun. split; [done|]. split; [done|]. split; [done|]. split; [by etransitivity|]. split; [split; congruence|done].
Qed.

Lemma answers_acceptance s decision res :
  sys_ok s -> fresh_uuids (tables s) -> reports decision res ->
  (conflict res = false -> exists k j, acceptance_job_id res = Some k /\ acceptance_packet_id res = Some (job_packet_id j) /\
    row_at (jobs (tables_of s)) k = Some j /\ (acceptance_queue_status res = DELIVERY_PENDING_QUEUE -> job_state j = PENDING_QUEUE) /\
    (duplicate res = false -> acceptance_queue_status res = DELIVERY_PENDING_QUEUE)) ->
  answers (answer_acceptance res) s (decided decision) (fun s' =>
    (decided decision = 202 -> has_queued_job s' (acceptance_packet_id res)) /\ (rests res (tables_of s) -> idle (tables_of s'))).
Proof.
  intros Hok Hf Hrep Hjob. unfold answer_acceptance, decided. unfold reports in Hrep.
  assert ((duplicate res = false /\ conflict res = true /\ Seq.disposition decision = Seq.CONFLICT) \/
    (duplicate res = true /\ conflict res = false /\ Seq.disposition decision = Seq.DUPLICATE) \/
    (duplicate res = false /\ conflict res = false /\ decided decision = 202)) as Hcases.
  { unfold decided. destruct (Seq.disposition decision); tauto. }
  destruct Hcases as [(Hd & Hc & Hdec)|[(Hd & Hc & Hdec)|(Hd & Hc & Hdec)]]; rewrite Hc.
  - rewrite Hdec. apply answers_metric; [done|]. intros s1 Ht _ Hok1. apply answers_respond; [done|]. split; [done|].
    unfold tables_of. rewrite Ht. intros (Hrest & _). apply Hrest. by rewrite Hc, orb_true_r.
  - rewrite Hd, Hdec. destruct (Hjob Hc) as (k & j & -> & -> & Hj & Hpend & _). set (post := fun s' : system => _).
    assert (forall s1, sys_ok s1 -> (rests res (tables_of s) -> idle (tables_of s1)) -> answers (_metric_safely "payload_duplicate_messages_total" 1 ;;
      respond 200 [("receipt_id", JString (uuid_str (acceptance_receipt_id res))); ("packet_id", optional_text (Some (job_packet_id j)));
        ("status", JString "DUPLICATE"); ("duplicate", JBool true)]%string) s1 200 post) as Hend.
    { intros s1 Hok1 Hrest. apply answers_metric; [done|]. intros s2 Ht _ Hok2. apply answers_respond; [done|]. split; [done|].
      unfold tables_of. by rewrite Ht. }
    case_bool_decide as Hq; [|by apply Hend; [|intros (Hrest & _); apply Hrest; rewrite Hd]].
    destruct (answers_queue k j _ s 200 _ Hok Hj (Hpend Hq) Hf (fun s' Hs' _ _ => Hend s' Hs'
      ltac:(intros (_ & Hno & _); by destruct (Hno Hd)))) as (a & s' & Hrun & Hrest).
    exists a, s'. split; [|exact Hrest]. rewrite run_seq in Hrun. do 2 rewrite run_seq.
    by destruct (run (_queue_one _ _) s) as [[b|e] s1].
  - rewrite Hd. fold (decided decision). rewrite Hdec. destruct (Hjob Hc) as (k & j & Hjk & Hjp & Hj & Hpend & Hq). rewrite Hjk, Hjp.
    set (post := fun s' : system => _).
    assert (forall s1, tables s1 = tables s -> sys_ok s1 -> answers (_queue_one k (job_packet_id j) ;;
      respond 202 [("receipt_id", JString (uuid_str (acceptance_receipt_id res))); ("packet_id", JString (job_packet_id j));
        ("status", JString "QUEUED"); ("duplicate", JBool false)]%string) s1 202 post) as Hend.
    { intros s1 Ht Hok1. apply answers_queue; [done|unfold tables_of; by rewrite Ht|by auto|by rewrite Ht|].
      intros s2 Hok2 Hhas Hidle. apply answers_respond; [done|]. split; [done|]. intros (_ & _ & Hone). apply Hidle.
      unfold tables_of. rewrite Ht. destruct Hone as (k' & p' & Hk' & Hp' & Hbut); [by rewrite Hd, Hc|].
      assert (k' = k) as -> by congruence. assert (p' = job_packet_id j) as -> by congruence. exact Hbut. }
    destruct (negb _); [|by apply Hend]. apply answers_metric; [done|]. intros s1 Ht _ Hok1. by apply Hend.
Qed.

(** The status that a delivery whose receipt has this status was first answered. *)
Definition first_status (v : DeliveryValidationStatus) : Z :=
  match v with ACCEPTED => 202 | DUPLICATE => 200 | CONFLICT => 409 | REJECTED => 422 | PENDING => 500 end.

(** Receipt [key] is classified as answered with [code]. *)
Definition classified s (key : uuid) (code : Z) : Prop :=
  exists r, row_at (receipts (tables_of s)) key = Some r /\ validation_status r <> PENDING /\ first_status (validation_status r) = code.

Lemma classified_kept s s' key code : rely s s' -> classified s key code -> classified s' key code.
Proof.
  intros Hr (r & Hk & Hp & Hcode). destruct (receipts_evolve _ _ (rely_evolves _ _ Hr) key r Hk) as (r' & Hk' & _ & Hst).
  destruct (Hst Hp) as (Hst' & _). exists r'. by rewrite Hst'.
Qed.

(** A pending receipt of a body: it is rejected, or accepted as the algorithm decides. *)
Lemma answers_frame key r raw received s m code m' :
  sys_ok s -> fresh_for 10 (tables s) -> row_at (receipts (tables_of s)) key = Some r -> validation_status r = PENDING ->
  raw_body r = raw -> 0 < processing_maximum_attempts settings -> represents_all (tables_of s) m ->
  spec_receive raw received m = (code, m') ->
  exists answer s', run (accept_frame settings key raw received) s = (Ok answer, s') /\ status_code answer = code /\ sys_ok s' /\
    rely s s' /\ represents_all (tables_of s') m' /\
    (code = 202 -> exists frame, Codec.Codec.decode_telemetry raw (utc received) = Ok frame /\
       has_queued_job s' (Some (values_packet_id (_telemetry_values frame)))) /\
    (idle (tables_of s) -> idle (tables_of s')) /\ classified s' key code.
Proof.
  intros Hok Hf Hk Hpend Hraw Hn Hm Hspec. pose proof Hok as [Hc _ _]. unfold accept_frame. unfold spec_receive in Hspec.
  destruct (Codec.Codec.decode_telemetry raw (utc received)) as [frame|e] eqn:Hd.
  2: { injection Hspec as <- <-. destruct (Codec.Codec.decode_raises raw (utc received) 0 e eq_refl Hd) as (why & detail & ->).
    destruct (reject_total key (Codec.Codec.reason_value why) None "ground-api" (tables s) r Hc (fresh_two 8 _ Hf) Hk Hpend ltac:(done))
      as (res & r' & w' & Hrej & _ & Hr' & Hv' & _ & _ & Hst).
    pose proof (run_transact Hserved _ s _ _ Hrej) as Hrun.
    destruct (calm_run _ s _ _ (calm_reject key (Codec.Codec.reason_value why) None "ground-api") Hok Hrun) as [Hok1 Hr1].
    destruct (answers_metric "payload_messages_rejected_total" 1 (respond 422 [("receipt_id", JString (uuid_str key)); ("status", JString "REJECTED");
        ("reason", JString (Codec.Codec.reason_value why)); ("detail", JString detail)]%string) (after_database w' s) 422 (fun s' => tables s' = w') Hok1)
      as (a & s' & Hrun' & Hcode & Hok' & Hrel & Hst' & Htab); [intros; by apply answers_respond|].
    exists a, s'. rewrite run_seq, Hrun. split; [exact Hrun'|]. split; [done|]. split; [done|]. split; [by etransitivity|].
    split; [|split; [done|]].
    - apply (represents_same (tables_of (after_database w' s))); [apply Hok1|apply Hrel|done|].
      by apply (represents_same (tables_of s)); [| |exact Hst|]; [|apply Hr1|].
    - unfold classified, tables_of. rewrite Htab. split; [|exists r'; by rewrite Hv'].
      pose proof (idle_reject key (Codec.Codec.reason_value why) None "ground-api" (tables s)) as Hidle. by rewrite Hrej in Hidle. }
  pose proof Hd as (_ & _ & Hval)%Codec.Codec.decode_ok.
  assert (Codec.Codec.valid_frame frame) as (Hver & Hpay & Hboot & Hseq & _).
  { apply Codec.Codec.decode_ok in Hd as (_ & -> & _). by apply Codec.Codec.validate_fields_ok in Hval as [? _]. }
  set (v := _telemetry_values frame) in *.
  assert (raw <> []) as Hne by (intros ->; by apply Codec.Codec.decode_ok in Hd as (? & _)).
  destruct (accept_total key v (processing_maximum_attempts settings) "ground-api" (tables s) r Hc (fresh_two 8 _ Hf) Hk Hpend)
    as (res & w' & Hacc & _); [cbn; lia|cbn; lia|cbn; change MAX_UINT32 with (2 ^ 32 - 1); lia|done| |done|].
  { rewrite packet_text_values, Codec.Codec.packet_id_text_length; [done|cbn; change Codec.Codec.UINT32_MAX with (2 ^ 32 - 1); lia..]. }
  pose proof (run_transact Hserved _ s _ _ Hacc) as Hrun.
  assert (calm (transact (accept_packet_and_create_job key v (processing_maximum_attempts settings) "ground-api"))) as Hcalm.
  { apply calm_transact; [apply atomic_accept|apply safe_accept|apply quiet_accept]. unfold values_displayable, v. cbn.
    change Codec.Codec.UINT32_MAX with (2 ^ 32 - 1). lia. }
  destruct (calm_run _ s _ _ Hcalm Hok Hrun) as [Hok1 Hr1].
  pose proof (drawn_call 4 6 (tables s) _ (drawn_accept key v (processing_maximum_attempts settings) "ground-api") Hf) as Hf1. rewrite Hacc in Hf1.
  rewrite <- Hraw in Hne. destruct (accept_decides key v _ _ (tables s) r res w' (m (v_payload_id v, v_boot_id v)) Hc Hk Hpend Hne (Hm _) Hacc)
    as ((dec & after & Hdel & Hrep & Hafter) & Hothers).
  rewrite Hraw in Hdel. cbn [v _telemetry_values v_payload_id v_boot_id v_sequence_number] in Hdel. rewrite Hdel in Hspec. injection Hspec as <- <-.
  fold (decided dec).
  destruct (answers_acceptance (after_database w' s) dec res Hok1 (fresh_two 4 _ Hf1) Hrep) as (a & s' & Hrun' & Hcode & Hok' & Hrel & Hst' & Hpost & Hidle).
  { intros Hnc. apply (accept_job _ _ _ _ _ _ _ _ Hc Hk Hpend Hacc Hnc). }
  exists a, s'. rewrite run_seq, Hrun. split; [exact Hrun'|]. split; [exact Hcode|]. split; [done|]. split; [by etransitivity|]. split_and!.
  - apply (represents_same (tables_of (after_database w' s))); [apply Hok1|apply Hrel|done|].
    intros k. case_decide as Hkey; [subst k; exact Hafter|by apply Hothers].
  - intros Hcd. exists frame. split; [done|]. specialize (Hpost Hcd). destruct (conflict res) eqn:Hcf.
    + exfalso. revert Hcd. unfold reports in Hrep. unfold decided. destruct (Seq.disposition dec); intuition congruence.
    + destruct (accept_job _ _ _ _ _ _ _ _ Hc Hk Hpend Hacc Hcf) as [Hpk _]. by rewrite Hpk in Hpost.
  - intros Hi. apply Hidle. by eapply (accept_leaves_idle key v _ _ (tables s)).
  - apply (classified_kept (after_database w' s)); [done|]. destruct (accept_classifies _ _ _ _ _ _ _ _ Hc Hk Hpend Hacc) as (r' & Hr' & Hv').
    exists r'. rewrite Hv'. split; [done|]. unfold reports, decided in *. destruct (Seq.disposition dec), Hrep as [-> _]; done.
Qed.

(** ** The whole handler *)

(** A request with the vendor's token, a body within the limit, a version 4 identifier and the media type,
    in a header that fits its column. *)
Record presentable (r : request) (raw : bytes) (q : uuid) : Prop := {
  right_token : x_vendor_token r = Some (vendor_token settings);
  right_body : _bounded_body r (max_telemetry_body_bytes settings) = Ok raw;
  right_identifier : _canonical_uuid4 (x_request_id r) = Some q;
  right_type : is_octet_stream (header_content_type r) = true;
  right_length : fits_column (255, header_content_type r) = true
}.

(** The tables after the request's delivery is recorded. *)
Definition recording (r : request) (raw : bytes) (received : Z) : M DeliveryRecordResult :=
  record_delivery raw VENDOR_IDENTITY (x_request_id r) (_canonical_uuid4 (x_request_id r)) (header_content_type r) (Some received) None None.

(** Receipt [e] is recorded, pending, for a request whose identifier is new or unusable. *)
Record recorded (r : request) (raw : bytes) (received : Z) s s1 (e : TelemetryDeliveryReceipt) : Prop := {
  recorded_ok : sys_ok s1;
  recorded_rely : rely s s1;
  recorded_tables : tables s1 = (recording r raw received (tables s)).2;
  recorded_stream : same_stream (tables_of s) (tables_of s1);
  recorded_row : row_at (receipts (tables_of s1)) (receipt_id e) = Some e;
  recorded_pending : validation_status e = PENDING;
  recorded_body : raw_body e = raw;
  recorded_identifier : canonical_request_id e = _canonical_uuid4 (x_request_id r);
  recorded_owner q : _canonical_uuid4 (x_request_id r) = Some q ->
    exists i, row_at (identities (tables_of s1)) q = Some i /\ first_receipt_id i = receipt_id e
}.

(** How the handler goes on from there. *)
Definition deal_with_new (r : request) (raw : bytes) (received : Z) (key : uuid) : prog system response :=
  if negb (is_octet_stream (header_content_type r)) then refuse 400 key "INVALID_CONTENT_TYPE"
  else if bool_decide (_canonical_uuid4 (x_request_id r) = None) then refuse 400 key "INVALID_REQUEST_ID"
  else accept_frame settings key raw received.

Lemma receive_new s r raw received :
  sys_ok s -> fresh_uuids (tables s) -> Z.of_nat (length raw) <= MAX_EVIDENCE_BODY_BYTES ->
  fits_column (255, header_content_type r) = true ->
  _canonical_uuid4 (x_request_id r) ≫= row_at (identities (tables_of s)) = None ->
  exists s1 e, run (receive_in_session settings r raw received) s = run (deal_with_new r raw received (receipt_id e)) s1 /\
    recorded r raw received s s1 e.
Proof.
  intros Hok Hf Hsize Hfit Hnew. pose proof Hok as [Hc _ _].
  destruct (record_new_total raw VENDOR_IDENTITY (x_request_id r) _ (header_content_type r) (Some received) None (tables s)
    Hc Hf Hsize ltac:(done) ltac:(done) Hfit Hnew) as (e & w' & Hrec & He & Hpend & Hraw & Hcan & Hst & Hown).
  pose proof (run_transact Hserved _ s _ _ Hrec) as Hrun.
  destruct (calm_run _ s _ _ (calm_record_delivery _ _ _ _ _ _ _ _) Hok Hrun) as [Hok1 Hr1].
  destruct (run_metric "payload_messages_received_total" 1 (after_database w' s)) as (s2 & Hmet & Ht2 & Hred2).
  assert (tables_of s2 = db w') as Htab by (unfold tables_of; by rewrite Ht2).
  destruct (silent_action (after_database w' s) s2 Htab Hred2 Hok1) as [Hok2 Hr2]. exists s2, e. split.
  - unfold receive_in_session. rewrite run_seq, Hrun. cbn [delivery_result request_conflict request_replay]. by rewrite run_seq, Hmet.
  - split; rewrite ?Htab; try done; [by etransitivity|]. unfold recording. by rewrite Hrec.
Qed.

(** A first delivery is answered as the abstract gateway answers it. When the services answer, the
    identifiers about to be drawn are new and the tables represent the sessions [m] of the sequence
    algorithm, a request with the vendor's token, an acceptable body and an identifier not seen before gets
    the status that [spec_receive] computes from the body, the time and [m] alone: 422 for a body that does
    not decode, 202 for a packet that is new, 200 for one that was stored with these bytes and 409 for one
    stored with others. Afterwards the tables represent the sessions of the specification, the delivery is
    recorded with its bytes and its identifier, and behind a 202 there is a queued job of the packet whose
    message is in the queue. *)
Theorem first_delivery_answered s r raw q m :
  sys_ok s -> fresh_for 14 (tables s) -> ground_settings_ok settings -> is_ascii (vendor_token settings) = true ->
  presentable r raw q -> row_at (identities (tables_of s)) q = None -> represents_all (tables_of s) m ->
  let received := clock (clock_reads (tables s)) in
  let '(code, m') := spec_receive raw received m in
  exists answer s', run (receive_payload_data settings r) s = (Ok answer, s') /\ status_code answer = code /\ sys_ok s' /\
    represents_all (tables_of s') m' /\
    (exists key e, row_at (receipts (tables_of s')) key = Some e /\ raw_body e = raw /\ canonical_request_id e = Some q) /\
    (code = 202 -> exists frame k j w, Codec.Codec.decode_telemetry raw (utc received) = Ok frame /\
       row_at (jobs (tables_of s')) k = Some j /\ job_packet_id j = values_packet_id (_telemetry_values frame) /\ job_state j = QUEUED /\
       QueueSpec.represents queue_keys (redis s') w /\ message_of j ∈ entries w).
Proof.
  intros Hok Hf Hset Hasc Hpres Hnew Hm received. destruct (spec_receive raw received m) as [code m'] eqn:Hspec.
  set (s0 := mk_system (mk_world (tables_of s) (S (clock_reads (tables s))) (uuid_draws (tables s))) (redis s) (counters s) (database_calls s) (redis_calls s)).
  destruct (silent_action s s0 eq_refl eq_refl Hok) as [Hok0 _]. assert (fresh_for 14 (tables s0)) as Hf0 by (split; apply Hf).
  destruct Hpres as [Htok Hbody Hid Htype Hfit]. destruct Hset as [_ _ Hlimit Hatt].
  assert (Z.of_nat (length raw) <= MAX_EVIDENCE_BODY_BYTES) as Hsize.
  { apply bounded_body_ok in Hbody as (_ & _ & Hl); [|lia]. change MAX_EVIDENCE_BODY_BYTES with 1024. lia. }
  destruct (receive_new s0 r raw received Hok0 (fresh_two 12 _ Hf0) Hsize Hfit) as (s1 & e & Hrec & [Hok1 Hr1 Ht1 Hst1 He Hpend Hraw Hcan _]); [by rewrite Hid|].
  pose proof (drawn_call 4 10 (tables s0) _ (drawn_record_delivery raw VENDOR_IDENTITY (x_request_id r) (_canonical_uuid4 (x_request_id r))
    (header_content_type r) (Some received) None) Hf0) as Hf1. fold (recording r raw received) in Hf1. rewrite <- Ht1 in Hf1.
  assert (represents_all (tables_of s1) m) as Hm1 by (apply (represents_same (tables_of s0)); [apply Hok0|apply Hr1|done|exact Hm]).
  destruct (answers_frame (receipt_id e) e raw received s1 m code m') as (a & s' & Hrun & Hcode & Hok' & Hrel & Hm' & Hjob & _); try done.
  exists a, s'. split; [|split; [done|split; [done|split; [done|split]]]].
  - unfold receive_payload_data. rewrite Htok. unfold digest_equal, compare_digest. rewrite Hasc. cbn [andb].
    rewrite bool_decide_eq_true_2, run_seq by done. cbn [pure run negb]. rewrite Hbody, run_seq, run_perform.
    assert (read_clock s = (Ok received, s0)) as -> by done. rewrite run_try, Hrec. unfold deal_with_new. rewrite Htype, Hid. cbn [negb].
    by rewrite bool_decide_eq_false_2, Hrun by done.
  - destruct (receipts_evolve _ _ (rely_evolves _ _ Hrel) (receipt_id e) e) as (e' & He' & Hev & _); [done|].
    exists (receipt_id e), e'. split; [done|]. split; [by rewrite <- Hraw; apply evidence_body|]. injection Hev as. congruence.
  - intros Hc. destruct (Hjob Hc) as (frame & Hd & k & j & Hj & Hst & Hp). pose proof Hok' as [_ _ (w & Hrep & Hlk)].
    exists frame, k, j, w. injection Hp as Hp. split_and!; try done. eapply linked_jobs; [done..|by rewrite Hst].
Qed.
End Answer.

(** ** A concrete delivery *)

Module AnswerExample.
#[local] Existing Instance cpython.
#[local] Existing Instance MapRedis.server.
#[local] Existing Instance MapRedis.laws.
Import SystemExample.

#[local] Instance steady : Network := {| database_fate := fun _ => Served; redis_fate := fun _ => Served |}.

Definition no_sessions : sessions := fun _ => Seq.empty_session.

Lemma start_sessions : represents_all (tables_of start) no_sessions.
Proof.
  intros key. split; [done|]. intros n raw. split; [intros Hn; cbn in Hn; by rewrite lookup_empty in Hn|].
  intros (p & _ & Hp & _). cbn in Hp. by rewrite lookup_empty in Hp.
Qed.

Lemma start_fresh : fresh_for 14 (tables start).
Proof.
  split; cbn.
  - intros i _ [[x Hx]|[[x Hx]|[x Hx]]]; cbn in Hx; by rewrite lookup_empty in Hx.
  - intros i j Hi Hj. lia.
Qed.

Definition golden_identifier : uuid := default 0 (_canonical_uuid4 (x_request_id golden_request)).

Lemma golden_presentable : presentable settings golden_request example_raw golden_identifier.
Proof. split; vm_compute; reflexivity. Qed.

Lemma first_delivery_answered_witness :
  exists answer s', run (receive_payload_data settings golden_request) start = (Ok answer, s') /\ status_code answer = 202 /\
    exists k j w, row_at (jobs (tables_of s')) k = Some j /\ QueueSpec.represents queue_keys (redis s') w /\ message_of j ∈ entries w.
Proof.
  assert (forall n, database_fate n = Served /\ redis_fate n = Served) as Hserved by (intros n; split; reflexivity).
  assert (row_at (identities (tables_of start)) golden_identifier = None) as Hnew by (vm_compute; reflexivity).
  pose proof (first_delivery_answered Hserved settings start golden_request example_raw golden_identifier no_sessions start_ok start_fresh
    settings_ok eq_refl golden_presentable Hnew start_sessions) as Hans. cbn zeta in Hans.
  destruct (spec_receive example_raw _ no_sessions) as [code m'] eqn:Hs. assert (code = 202) as -> by (vm_compute in Hs; by injection Hs).
  destruct Hans as (a & s' & Hrun & Hcode & _ & _ & _ & Hj). destruct (Hj eq_refl) as (frame & k & j & w & _ & Hrow & _ & _ & Hrep & Hin).
  exact (ex_intro _ a (ex_intro _ s' (conj Hrun (conj Hcode (ex_intro _ k (ex_intro _ j (ex_intro _ w (conj Hrow (conj Hrep Hin))))))))).
Defined.
End AnswerExample.
