(* ===== verification/Replays.v ===== *)
(** * Runs with refused calls and lost replies, evaluated

    Runs of the gateway's handler and of the worker that end in an error which no handler answers, or in
    which the repetition of a request is not answered as its first delivery. *)
From S2P Require Import Prelude PyFormat Sha256 Uuid PyText Json Codec Sql Schema Session Repository RepositoryExample.
From S2P Require Import RepositoryProps Redis Queue Metrics Config Gateway GroundApi Worker Linked SystemExample.

Open Scope Z_scope.

Module Replays.
#[local] Existing Instance cpython.
#[local] Existing Instance MapRedis.server.
#[local] Existing Instance MapRedis.laws.
Import SystemExample.

(** Networks by the one transaction or server call that they refuse. *)
Definition steady : Network := {| database_fate := fun _ => Served; redis_fate := fun _ => Served |}.
Definition refusing_database (n : nat) : Network :=
  {| database_fate := fun i => if (i =? n)%nat then Refused else Served; redis_fate := fun _ => Served |}.
Definition refusing_redis (n : nat) : Network :=
  {| database_fate := fun _ => Served; redis_fate := fun i => if (i =? n)%nat then Refused else Served |}.

(** The same packet identifier with another temperature. *)
Definition changed_frame : Codec.Codec.TelemetryFrame := {|
  Codec.Codec.payload_id := 1; Codec.Codec.boot_id := 42; Codec.Codec.sequence_number := 1;
  Codec.Codec.timestamp_us := 1_784_203_200_000_000; Codec.Codec.temperature_centi_c := 2_841;
  Codec.Codec.voltage_mv := 28_100; Codec.Codec.operating_mode := 2; Codec.Codec.fault_flags := 0;
  Codec.Codec.protocol_version := 1 |}.
Definition changed_raw : bytes :=
  match Codec.Codec.encode_telemetry changed_frame None with Ok raw => raw | Raise _ => [] end.

Definition post (id type : string) (body : bytes) : request := {|
  x_vendor_token := Some "vendor"%string; x_request_id := Some id; header_content_length := None;
  header_content_type := Some type; body_stream := [body] |}.

(** The outcomes of requests sent one after the other, and the system they leave. *)
Fixpoint send (net : Network) (rs : list request) (s : system) : list (result exn response) * system :=
  match rs with
  | [] => ([], s)
  | r :: rest =>
      let '(a, s1) := run (receive_payload_data settings r) s in
      let '(later, s2) := send net rest s1 in (a :: later, s2)
  end.
Definition statuses (net : Network) (rs : list request) : list (result exn Z) :=
  map (fun a => match a with Ok a => Ok (status_code a) | Raise e => Raise e end) (send net rs start).1.

Definition first_id : string := "7d1b0a5c-e2d8-4d53-b4ce-4c1e5a0f0001".
Definition second_id : string := "7d1b0a5c-e2d8-4d53-b4ce-4c1e5a0f0002".
Definition octets : string := "application/octet-stream".

(** A conflicting frame is answered 409; its repetition raises an error that no handler answers. *)
Example conflict_replayed :
  statuses steady [post first_id octets example_raw; post second_id octets changed_raw; post second_id octets changed_raw] =
    [Ok 202; Ok 409; Raise (StorageExn (InvalidDeliveryStateError "cannot accept a CONFLICT delivery"))].
Proof. vm_compute. reflexivity. Qed.

(** The server refuses the enqueueing of an accepted frame; its repetition with another content type
    raises an error that no handler answers. *)
Example queued_type_replayed :
  statuses (refusing_redis 2) [post first_id octets example_raw; post first_id "text/plain" example_raw] =
    [Ok 503; Raise (StorageExn (InvalidDeliveryStateError "cannot reject a ACCEPTED delivery"))].
Proof. vm_compute. reflexivity. Qed.

(** A frame from 301 seconds ahead whose rejection is lost with the database: the repetition, three
    seconds later, is accepted, and the worker, who decodes at the first receipt time, fails the job. *)
Definition early_frame : Codec.Codec.TelemetryFrame := {|
  Codec.Codec.payload_id := 1; Codec.Codec.boot_id := 42; Codec.Codec.sequence_number := 1;
  Codec.Codec.timestamp_us := 1_784_203_502_000_000; Codec.Codec.temperature_centi_c := 2_840;
  Codec.Codec.voltage_mv := 28_100; Codec.Codec.operating_mode := 2; Codec.Codec.fault_flags := 0;
  Codec.Codec.protocol_version := 1 |}.
Definition early_raw : bytes :=
  match Codec.Codec.encode_telemetry early_frame None with Ok raw => raw | Raise _ => [] end.
Definition early_posts : list request := [post first_id octets early_raw; post first_id octets early_raw].
Definition worked (net : Network) (s : system) : system := (run (worker_round worker_settings "worker-1" no_text) s).2.
Example early_replayed :
  (statuses (refusing_database 1) early_posts,
   (fun kj => job_state kj.2) <$> map_to_list (jobs (tables_of (worked steady (send (refusing_database 1) early_posts start).2)))) =
  ([Ok 503; Ok 202], [FAILED]).
Proof. vm_compute. reflexivity. Qed.

(** No connection to the database: a delivery, and even a request without a token, end with the driver's
    connection error, and so does the worker, in the handler of its first failure. *)
Definition unreachable_database (n : nat) : Network :=
  {| database_fate := fun i => if (n <=? i)%nat then Unreachable else Served; redis_fate := fun _ => Served |}.
Example database_unreachable :
  statuses (unreachable_database 0) [post first_id octets example_raw;
    {| x_vendor_token := None; x_request_id := None; header_content_length := None; header_content_type := None; body_stream := [] |}] =
    [Raise OSError; Raise OSError].
Proof. vm_compute. reflexivity. Qed.
Example worker_unreachable :
  (run (worker_round (H2:=unreachable_database 4) worker_settings "worker-1" no_text)
    (send steady [post first_id octets example_raw] start).2).1 = Raise OSError.
Proof. vm_compute. reflexivity. Qed.

(** A content type longer than its column: nothing is recorded, and the answer is that of an outage. *)
Fixpoint long_text (n : nat) : string := match n with O => "" | S k => ("x" +:+ long_text k)%string end.
Example wide_content_type :
  (statuses steady [post first_id (long_text 256) example_raw],
   map_to_list (receipts (tables_of (send steady [post first_id (long_text 256) example_raw] start).2))) = ([Ok 503], []).
Proof. vm_compute. reflexivity. Qed.

(** A token with a character beyond ASCII. *)
Example foreign_token :
  statuses steady [{| x_vendor_token := Some (String (Ascii.ascii_of_nat 233) ""); x_request_id := None; header_content_length := None;
    header_content_type := None; body_stream := [] |}] =
    [Raise (TypeError "comparing strings with non-ASCII characters is not supported")].
Proof. vm_compute. reflexivity. Qed.

(** The reply to the completion of a job is lost: the failure handler finds the job complete, and its
    error ends the worker; the message stays in the processing list until a worker starts again. *)
Definition losing_database (n : nat) : Network :=
  {| database_fate := fun i => if (i =? n)%nat then ReplyLost else Served; redis_fate := fun _ => Served |}.
Definition one_round (net : Network) (s : system) : result exn () * system :=
  run (worker_round worker_settings "worker-1" no_text) s.
Definition restarted (net : Network) (s : system) : result exn () * system :=
  run (run_worker worker_settings "worker-2" no_text 1) s.
Definition golden_posted : system := (send steady [post first_id octets example_raw] start).2.
Example completion_lost :
  let '(outcome, s) := one_round (losing_database 4) golden_posted in
  (outcome, (processing_depth queue_keys (redis s)).1, (processing_depth queue_keys (redis (restarted steady s).2)).1) =
    (Raise (StorageExn (InvalidDeliveryStateError "cannot fail a COMPLETE processing job")), Ok 1, Ok 0).
Proof. vm_compute. reflexivity. Qed.

(** An entry of the queue with an integer that is too long to convert is not put aside: the error ends the
    worker, the entry stays in the processing list, and the next start brings the same end. *)
Definition long_entry : chars := quoted "{'job_id':" ++ replicate 4301 (Ascii.ascii_of_nat 49) ++ quoted "}".
Definition with_long_entry : system := (run (exchange (H2:=steady) (lpush (pending queue_keys) long_entry)) start).2.
Example long_entry_ends_worker :
  let '(outcome, s) := one_round steady with_long_entry in
  let '(again, s') := restarted steady s in
  let escaped := Raise (QueueExn (Queue.ValueError "Exceeds the limit for integer string conversion")) in
  (outcome, again, (processing_depth queue_keys (redis s')).1, (failed_depth queue_keys (redis s')).1) =
    (escaped, escaped, Ok 1, Ok 0).
Proof. vm_compute. reflexivity. Qed.
End Replays.
