(* ===== verification/SystemFrames.v ===== *)
(** * What the services' programs may do to the tables

    [does R p]: however [p] ends and whatever calls the network refuses, the worlds before and after it
    are related by the preorder [R].  Every task but a delivery leaves the ledger, the packets and the
    sequence states as they were and idle tables idle ([aside]); dealing with a frame leaves the ledger
    as it was; and no task draws an identifier twice ([stays_fresh]). *)
From S2P Require Import Prelude PyFormat Sha256 Uuid PyText Json Codec Sql Schema Session Repository RepositoryInv RepositorySafe.
From S2P Require Import RepositoryFresh RepositoryMoves RepositoryTotal RepositoryIdle.
From S2P Require Import Redis Queue QueueSpec QueueProps Metrics Config Gateway GroundApi Worker Linked SystemProps SystemLive.

Open Scope Z_scope.

Section Does.
Context `{SqlEngine} `{Env} `{RedisServer} `{Network} `{interpreter : Interpreter}.
Context (R : world -> world -> Prop) `{!PreOrder R}.
Implicit Types (s : system).

Definition does {A} (p : prog system A) : Prop := forall s, R (tables s) (tables (run p s).2).

Lemma does_ret {A} (a : A) : does (mret a).
Proof. intros s. cbn. reflexivity. Qed.
Lemma does_throw {A} e : does (Throw (A:=A) e).
Proof. intros s. cbn. reflexivity. Qed.
Lemma does_pure {A} (r : result exn A) : does (pure r).
Proof. destruct r; [apply does_ret|apply does_throw]. Qed.

Lemma does_bind {A B} (p : prog system A) (f : A -> prog system B) : does p -> (forall a, does (f a)) -> does (p ≫= f).
Proof.
  intros Hp Hf s. specialize (Hp s). rewrite run_seq. destruct (run p s) as [[a|e] s1]; [|done].
  etransitivity; [exact Hp|apply Hf].
Qed.

Lemma does_try {A} (p : prog system A) h : does p -> (forall e, does (h e)) -> does (try_except p h).
Proof.
  intros Hp Hh s. specialize (Hp s). rewrite run_try. destruct (run p s) as [[a|e] s1]; [done|].
  etransitivity; [exact Hp|apply Hh].
Qed.

Lemma does_transact {A} (m : M A) : (forall w, R w (m w).2) -> does (transact m).
Proof.
  intros Hm s. specialize (Hm (tables s)). unfold transact. rewrite run_perform. unfold in_database.
  destruct (database_fate _); [destruct (m (tables s)) as [[a|e] w]|cbn; reflexivity| |cbn; reflexivity]; exact Hm.
Qed.

Lemma does_redis {A} (q : Q A) : does (perform (in_redis q)).
Proof.
  intros s. rewrite run_perform. unfold in_redis.
  destruct (redis_fate _); [destruct (q (redis s)) as [[a|e] ks]|..]; cbn; reflexivity.
Qed.

Lemma does_silent {A} (a : action system A) : (forall s, tables (a s).2 = tables s) -> does (perform a).
Proof. intros Ha s. rewrite run_perform, Ha. reflexivity. Qed.

Lemma does_snapshot : does (perform snapshot).
Proof. apply does_silent. intros s. unfold snapshot. by destruct (redis_fate _). Qed.

Lemma does_metric name n : does (_metric_safely name n).
Proof.
  apply does_try; [|intros; apply does_ret]. unfold increment. destruct (negb _); [apply does_throw|].
  apply does_silent. intros s. unfold hincrby. by destruct (redis_fate _).
Qed.
End Does.

(** Through binds, tests and the calls of a program; [tac] relates the worlds around a call. *)
Ltac solve_does tac :=
  repeat first
    [ match goal with |- PreOrder _ => apply _ end
    | simple apply does_ret | simple apply does_throw | simple apply does_pure | simple apply does_redis
    | simple apply does_metric | simple apply does_snapshot
    | simple apply does_transact; [apply _|intros; solve [tac]]
    | match goal with |- does _ (perform read_clock) => solve [tac] end
    | simple apply does_bind | simple apply does_try
    | progress intros
    | match goal with
      | |- does _ (if ?c then _ else _) => destruct c
      | |- does _ (match ?c with _ => _ end) => destruct c
      | |- does _ (let _ := _ in _) => cbv zeta
      end ].

Section Tasks.
Context `{SqlEngine} `{!SqlLaws} `{Env} `{RedisServer} `{Network} `{interpreter : Interpreter}.
Context (settings : GroundSettings) (describe : exn -> string).
Implicit Types (s : system) (w : world).

Definition ledger_stays w w' : Prop := same_ledger (db w) (db w').
Definition stays_aside w w' : Prop := aside (db w) (db w') /\ stays_fresh w w'.

#[export] Instance ledger_stays_preorder : PreOrder ledger_stays.
Proof. split; [intros w; unfold ledger_stays; reflexivity|]. intros w1 w2 w3. apply (transitivity (R:=same_ledger)). Qed.
#[export] Instance stays_aside_preorder : PreOrder stays_aside.
Proof. split; [intros w; split; reflexivity|]. intros w1 w2 w3 [] []. split; by etransitivity. Qed.

Lemma aside_call {A} n (m : M A) w : moves aside m -> drawn n [] m -> stays_aside w (m w).2.
Proof. intros Hm Hn. split; [apply Hm|by eapply drawn_fresh]. Qed.

Lemma aside_clock : does stays_aside (perform read_clock).
Proof. intros s. rewrite run_perform. split; [cbn; reflexivity|apply read_fresh]. Qed.
Lemma fresh_clock : does stays_fresh (perform read_clock).
Proof. intros s. rewrite run_perform. apply read_fresh. Qed.

(** ** Tasks other than deliveries *)

Ltac aside_method :=
  first
    [ apply aside_clock
    | eapply aside_call; [apply aside_mark|apply drawn_mark]
    | eapply aside_call; [apply aside_claim|apply drawn_claim]
    | eapply aside_call; [apply aside_complete|apply drawn_complete]
    | eapply aside_call; [apply aside_fail|apply drawn_fail]
    | eapply aside_call; [apply aside_record_event|apply drawn_record_event]
    | apply (aside_call 1);
        [unfold get_job, get_delivery, get_packet, get_processed, get_job_for_packet, job_of_packet, list_audit_events,
           recoverable_queue_jobs, list_jobs; solve_aside
        |unfold get_job, get_delivery, get_packet, get_processed, get_job_for_packet, job_of_packet, list_audit_events,
           recoverable_queue_jobs, list_jobs; solve_drawn] ].

Lemma aside_queue_one k packet : does stays_aside (_queue_one k packet).
Proof. unfold _queue_one, exchange. solve_does aside_method. Qed.

Lemma aside_recover_each keys n : does stays_aside (recover_each keys n).
Proof.
  revert n. induction keys as [|key keys IH]; intros n; cbn [recover_each]; [apply does_ret; apply _|].
  apply does_bind; [apply _|solve_does aside_method|]. intros [j|]; [|apply IH].
  apply does_bind; [apply _|apply aside_queue_one|intros; apply IH].
Qed.

Lemma aside_round settings' worker_id : does stays_aside (worker_round settings' worker_id describe).
Proof.
  unfold worker_round, process_message, claim_work, _return_or_finish_unclaimed, finish_work, return_message, fail_work,
    _increment_safely, sleep, exchange.
  solve_does aside_method.
Qed.

Lemma aside_worker settings' worker_id n : does stays_aside (run_worker settings' worker_id describe n).
Proof.
  apply does_bind; [apply _|apply does_redis; apply _|intros _]. induction n as [|n IH]; [apply does_ret; apply _|].
  apply does_bind; [apply _|apply aside_round|done].
Qed.

Lemma aside_serve t : (forall r, t <> PostTelemetry r) -> does stays_aside (serve settings describe t).
Proof.
  intros Ht. destruct t; [by destruct (Ht r)|..]; (apply does_bind; [apply _| |intros; apply does_ret; apply _]).
  - unfold get_raw_payload, guard_database, not_found, respond. solve_does aside_method.
  - unfold get_processed_payload, guard_database, not_found, respond. solve_does aside_method.
  - unfold get_audit_events, guard_database. solve_does aside_method.
  - unfold readiness, suppress, probe_redis, respond. change (perform probe_database) with (transact (mret (M:=M) ())). solve_does aside_method.
  - unfold metrics, exchange. solve_does aside_method.
  - unfold _recover_pending_jobs. apply does_bind; [apply _|solve_does aside_method|intros; apply aside_recover_each].
  - apply aside_worker.
Qed.

Lemma aside_audit event actor out why data : does stays_aside (_audit_safely event actor out why data).
Proof. unfold _audit_safely. solve_does aside_method. Qed.

(** ** Deliveries *)

Ltac ledger_method := first [apply ledger_reject|apply ledger_accept|apply ledger_mark|reflexivity].

Lemma ledger_accept_frame key raw received : does ledger_stays (accept_frame settings key raw received).
Proof.
  unfold accept_frame, answer_acceptance, _queue_one, respond, exchange. solve_does ledger_method.
Qed.

Ltac fresh_method :=
  first
    [ apply fresh_clock
    | eapply drawn_fresh;
      first [ apply drawn_record_delivery | apply drawn_reject | apply drawn_accept | apply drawn_mark | apply drawn_record_event
            | instantiate (1 := 1%nat); unfold get_delivery, get_job_for_packet, job_of_packet; solve_drawn ] ].

Lemma fresh_receive r : does stays_fresh (receive_payload_data settings r).
Proof.
  unfold receive_payload_data, receive_in_session, accept_frame, answer_acceptance, requeue_replay, refuse, unauthenticated, refuse_body,
    _audit_safely, _queue_one, respond, exchange.
  solve_does fresh_method.
Qed.
End Tasks.
