(* ===== verification/SystemStream.v ===== *)
(** * The gateway as an abstract machine

    An abstract gateway keeps the sessions of the sequence algorithm and, for each request identifier, the
    body and the fate of its first delivery.  While the services answer, every sequence of tasks (deliveries
    good and bad, repetitions, queries, recoveries, rounds of workers) implements it: each delivery gets the
    status that the abstract gateway computes. *)
From S2P Require Import Prelude PyFormat Sha256 Uuid PyText Json Codec Sequence Sql Schema Session Repository RepositoryInv.
From S2P Require Import RepositorySafe RepositoryExample RepositoryAccept RepositoryRecord RepositoryProps RepositoryFresh RepositoryMoves.
From S2P Require Import RepositoryQuiet RepositoryJobs RepositoryTotal RepositoryIdle Redis Queue QueueSpec QueueProps Metrics Config Gateway GroundApi.
From S2P Require Import Worker Linked SystemApi SystemWorker SystemExample SystemProps SystemLive GroundApiProps SystemAnswer SystemFrames Replays.
From Stdlib Require Import SpecFloat Ascii.

Open Scope Z_scope.

(** ** The abstract gateway *)

(** The fate of the first delivery under an identifier. *)
Inductive verdict := Declined | Taken | Repeated | Contradicting.

Record gateway := mk_gateway { known : sessions; ledger : gmap uuid (bytes * verdict) }.

Definition verdict_of (code : Z) : verdict :=
  if code =? 202 then Taken else if code =? 200 then Repeated else if code =? 409 then Contradicting else Declined.

(** The ledger after a first delivery. *)
Definition note (r : request) (raw : bytes) (v : verdict) (l : gmap uuid (bytes * verdict)) : gmap uuid (bytes * verdict) :=
  match _canonical_uuid4 (x_request_id r) with Some q => <[q := (raw, v)]> l | None => l end.

(** A delivery whose identifier is new or unusable. *)
Definition spec_new (r : request) (raw : bytes) (received : Z) (g : gateway) : Z * gateway :=
  if negb (is_octet_stream (header_content_type r)) || bool_decide (_canonical_uuid4 (x_request_id r) = None)
  then (400, mk_gateway (known g) (note r raw Declined (ledger g)))
  else let '(code, m) := spec_receive raw received (known g) in (code, mk_gateway m (note r raw (verdict_of code) (ledger g))).

(** A repetition of a request with the same body. *)
Definition spec_repeat (r : request) (raw : bytes) (received : Z) (v : verdict) : Z :=
  match v with
  | Declined => 422
  | Taken => 200
  | Repeated =>
      match Codec.Codec.decode_telemetry raw (utc received) with
      | Ok _ => if is_octet_stream (header_content_type r) then 200 else 500
      | Raise _ => 500
      end
  | Contradicting => 500
  end.

(** A content type that its column cannot hold. *)
Definition overlong (r : request) : bool := negb (fits_column (255, header_content_type r)).

Definition spec_deliver (r : request) (raw : bytes) (received : Z) (g : gateway) : Z * gateway :=
  match _canonical_uuid4 (x_request_id r) ≫= (fun q => ledger g !! q) with
  | Some (first, v) => (if bool_decide (first = raw) then spec_repeat r raw received v else if overlong r then 503 else 409, g)
  | None => if overlong r then (503, g) else spec_new r raw received g
  end.

Definition exception_status (e : exn) : Z := match e with HTTPException status _ => status | _ => 500 end.

(** The answer to a request received at a time. *)
Definition spec_post (settings : GroundSettings) (r : request) (received : Z) (g : gateway) : Z * gateway :=
  match x_vendor_token r with
  | None => (401, g)
  | Some token =>
      if negb (is_ascii token) then (500, g)
      else if bool_decide (token = vendor_token settings) then
        match _bounded_body r (max_telemetry_body_bytes settings) with
        | Raise e => (exception_status e, g)
        | Ok raw => spec_deliver r raw received g
        end
      else (401, g)
  end.

Definition verdict_status (v : verdict) : DeliveryValidationStatus :=
  match v with Declined => REJECTED | Taken => ACCEPTED | Repeated => DUPLICATE | Contradicting => CONFLICT end.

Lemma verdict_first v : v <> PENDING -> verdict_status (verdict_of (first_status v)) = v.
Proof. by destruct v. Qed.

(** Requests with their times, one after the other. *)
Fixpoint spec_all (settings : GroundSettings) (posts : list (request * Z)) (g : gateway) : list Z * gateway :=
  match posts with
  | [] => ([], g)
  | (r, received) :: posts' =>
      let '(code, g1) := spec_post settings r received g in
      let '(codes, g') := spec_all settings posts' g1 in (code :: codes, g')
  end.

Definition status_of {A} (code : A -> Z) (res : result exn A) : Z := match res with Ok a => code a | Raise e => exception_status e end.

(** ** Runs *)

Definition finished_code (f : finished) : Z := match f with Posted a => status_code a | Other => 200 end.

(** The tasks one after the other: the requests among them, each with the time read for it and its status. *)
Fixpoint serve_all `{SqlEngine} `{Env} `{RedisServer} `{Network} `{interpreter : Interpreter} (settings : GroundSettings) (describe : exn -> string)
  (ts : list task) (s : system) : list (request * Z * Z) * system :=
  match ts with
  | [] => ([], s)
  | t :: ts' =>
      let '(res, s1) := run (serve settings describe t) s in
      let '(entries, s') := serve_all settings describe ts' s1 in
      (match t with
       | PostTelemetry r => (r, clock (clock_reads (tables s)), status_of finished_code res) :: entries
       | _ => entries
       end, s')
  end.

Definition requests (ts : list task) : list request := omap (fun t => match t with PostTelemetry r => Some r | _ => None end) ts.

Section Stream.
Context `{SqlEngine} `{!SqlLaws} `{Env} `{!UuidLaws} `{RedisServer} `{!RedisLaws} `{Network} `{interpreter : Interpreter}.
Implicit Types (s : system) (d : database) (g : gateway).
Context (Hserved : all_served) (settings : GroundSettings) (Hset : ground_settings_ok settings)
  (Hascii : is_ascii (vendor_token settings) = true).

(** ** The abstraction *)

(** The ledger's first receipt of [q] has this body and status. *)
Definition owns d (q : uuid) (raw : bytes) (v : DeliveryValidationStatus) : Prop :=
  exists i r, row_at (identities d) q = Some i /\ row_at (receipts d) (first_receipt_id i) = Some r /\
    raw_body r = raw /\ validation_status r = v /\ v <> PENDING.

Record implements s g : Prop := {
  impl_ok : sys_ok s;
  impl_known : represents_all (tables_of s) (known g);
  impl_idle : idle (tables_of s);
  impl_ledger q : match ledger g !! q with
    | None => row_at (identities (tables_of s)) q = None
    | Some (raw, v) => owns (tables_of s) q raw (verdict_status v)
    end
}.

Lemma owns_kept d d' q raw v : evolves d d' -> owns d q raw v -> owns d' q raw v.
Proof.
  intros He (i & r & Hi & Hr & Hraw & Hv & Hp). destruct (identities_kept _ _ He _ _ Hi) as (i' & Hi' & <-).
  destruct (receipts_evolve _ _ He _ _ Hr) as (r' & Hr' & Hev & Hst). destruct Hst as (Hst & _); [congruence|].
  exists i, r'. split; [done|]. split; [done|]. split; [rewrite <- Hraw; by apply evidence_body|]. by rewrite Hst.
Qed.

(** A step after which the ledger has at most one new entry. *)
Lemma implements_step s s' g g' :
  implements s g -> sys_ok s' -> rely s s' -> represents_all (tables_of s') (known g') -> idle (tables_of s') ->
  (forall q, (ledger g' !! q = ledger g !! q /\ row_at (identities (tables_of s')) q = row_at (identities (tables_of s)) q) \/
     (ledger g' !! q = ledger g !! q /\ is_Some (ledger g !! q)) \/
     exists raw v, ledger g' !! q = Some (raw, v) /\ owns (tables_of s') q raw (verdict_status v)) ->
  implements s' g'.
Proof.
  intros Hi Hok Hr Hm Hidle Hled. split; [done..|]. intros q. pose proof (impl_ledger _ _ Hi q) as Hq.
  destruct (Hled q) as [[-> He]|[[-> [x Hx]]|(raw & v & -> & Ho)]]; [| |done].
  - rewrite He. destruct (ledger g !! q) as [[raw v]|]; [|done]. by apply (owns_kept (tables_of s)); [apply Hr|].
  - rewrite Hx in *. destruct x as [raw v]. by apply (owns_kept (tables_of s)); [apply Hr|].
Qed.

(** A step that leaves all tables but jobs, results and events, or at most adds receipts. *)
Lemma implements_same s s' g :
  implements s g -> sys_ok s' -> rely s s' -> same_stream (tables_of s) (tables_of s') -> keeps_idle (tables_of s) (tables_of s') ->
  (forall q, ledger g !! q = None -> row_at (identities (tables_of s')) q = row_at (identities (tables_of s)) q) -> implements s' g.
Proof.
  intros Hi Hok Hr Hst Hidle Hled. pose proof Hi as [[Hc _ _] Hm Hid _]. apply (implements_step s s' g); [done..| |by apply Hidle|].
  - by apply (represents_same (tables_of s)); [|apply Hr| |].
  - intros q. destruct (ledger g !! q) eqn:Hq; [right; left; split; [done|by eexists]|left]. split; [done|]. by apply Hled.
Qed.

(** Tables and queue as they were. *)
Lemma implements_silent s s' g : implements s g -> tables_of s' = tables_of s -> redis s' = redis s -> implements s' g.
Proof.
  intros Hi Ht Hr. destruct (silent_action s s' Ht Hr (impl_ok _ _ Hi)) as [Hok Hrel].
  apply (implements_same s); [done..| | |by rewrite Ht]; [by rewrite Ht|rewrite Ht; reflexivity].
Qed.

Lemma implements_aside s s' g :
  implements s g -> sys_ok s' -> rely s s' -> aside (tables_of s) (tables_of s') -> implements s' g.
Proof.
  intros Hi Hok Hr [Hl Hp Hs Hid]. apply (implements_same s); [done..|]. intros q _. by rewrite Hl.
Qed.

(** ** The branches of the handler *)

(** A run that answers [code], or ends with an exception that the server answers with [code]. *)
Definition ends (p : prog system response) s (code : Z) (post : system -> Prop) : Prop :=
  exists res s', run p s = (res, s') /\ status_of status_code res = code /\ (forall e, res = Raise e -> not_outage e) /\ post s'.

Lemma ends_weaken p s code (post post' : system -> Prop) : (forall s', post s' -> post' s') -> ends p s code post -> ends p s code post'.
Proof. intros Hp (res & s' & Hrun & Hc & He & Hpost). exists res, s'. auto. Qed.

Lemma ends_respond code members s (post : system -> Prop) : post s -> ends (respond code members) s code post.
Proof. intros Hp. by exists (Ok (mk_response code members)), s. Qed.

Lemma ends_metric name n p s code (post : system -> Prop) :
  (forall s', tables s' = tables s -> redis s' = redis s -> ends p s' code post) -> ends (_metric_safely name n ;; p) s code post.
Proof.
  intros Hp. destruct (run_metric name n s) as (s1 & Hm & Ht & Hr). destruct (Hp s1 Ht Hr) as (res & s' & Hrun & Hrest).
  exists res, s'. by rewrite run_seq, Hm.
Qed.

Lemma ends_bind {A} (p : prog system A) (k : A -> prog system response) s a s1 code post :
  run p s = (Ok a, s1) -> ends (k a) s1 code post -> ends (p ≫= k) s code post.
Proof. intros Hm (res & s' & Hrun & Hrest). exists res, s'. by rewrite run_seq, Hm. Qed.

(** A repository call that returns, and one that raises, before the rest. *)
Lemma ends_transact {A} (m : M A) (k : A -> prog system response) s a w code post :
  m (tables s) = (Ok a, w) -> ends (k a) (after_database w s) code post -> ends (a ← transact m; k a) s code post.
Proof. intros Hm. by apply ends_bind, run_transact. Qed.

Lemma ends_raise {A} (m : M A) (k : A -> prog system response) s text w (post : system -> Prop) :
  m (tables s) = (Raise (InvalidDeliveryStateError text), w) -> post (after_database w s) -> ends (a ← transact m; k a) s 500 post.
Proof.
  intros Hm Hp. exists (Raise (StorageExn (InvalidDeliveryStateError text))), (after_database w s). split; [|split; [done|split; [|done]]].
  - rewrite run_seq. unfold transact. rewrite run_perform. unfold in_database. destruct (Hserved (database_calls s)) as [-> _]. by rewrite Hm.
  - by intros e [= <-].
Qed.

(** A repository call that fails on a text too long for its column: the handler's answer to an outage. *)
Definition catch_outage (p : prog system response) : prog system response :=
  try_except p (fun exc =>
    if is_redis_error exc then respond 503 (response_body [("status", "PENDING_QUEUE"); ("reason", "REDIS_UNAVAILABLE")]%string)
    else if is_sqlalchemy_error exc then
      _metric_safely "database_errors_total" 1 ;;
      respond 503 (response_body [("status", "UNAVAILABLE"); ("reason", "POSTGRESQL_UNAVAILABLE")]%string)
    else Throw exc).

Lemma ends_caught p s code post : ends p s code post -> ends (catch_outage p) s code post.
Proof.
  intros (res & s' & Hrun & Hcode & Hno & Hpost). exists res, s'. split; [|done]. unfold catch_outage. rewrite run_try, Hrun.
  destruct res as [a|e]; [done|]. destruct (Hno e eq_refl) as (Hs & Hr & _). by rewrite Hr, Hs.
Qed.

Lemma ends_wide {A} (m : M A) (k : A -> prog system response) s w g :
  implements s g -> m (tables s) = (Raise DataError, w) -> db w = tables_of s ->
  ends (catch_outage (a ← transact m; k a)) s 503 (fun s' => implements s' g).
Proof.
  intros Hi Hm Hd. unfold catch_outage.
  assert (run (a ← transact m; k a) s = (Raise (StorageExn DataError), after_database w s)) as Hrun.
  { rewrite run_seq. unfold transact. rewrite run_perform. unfold in_database. destruct (Hserved (database_calls s)) as [-> _]. by rewrite Hm. }
  destruct (run_metric "database_errors_total" 1 (after_database w s)) as (s' & Hmet & Ht & Hr).
  eexists (Ok _), s'. split; [rewrite run_try, Hrun; cbn [is_redis_error is_sqlalchemy_error]; rewrite run_seq, Hmet; done|].
  split; [done|]. split; [done|]. apply (implements_silent s); [done|unfold tables_of; by rewrite Ht|by rewrite Hr].
Qed.

Lemma reject_decided key why parsed actor w r :
  row_at (receipts (db w)) key = Some r -> validation_status r <> PENDING -> validation_status r <> REJECTED ->
  exists text w', reject_delivery key why parsed actor w = (Raise (InvalidDeliveryStateError text), w') /\ db w' = db w.
Proof.
  intros Hk Hp Hr. unfold reject_delivery, session_begin. erewrite run_bind by done. cbn. rewrite Hk.
  rewrite !bool_decide_eq_false_2 by done. cbn. do 2 eexists. split; [done|]. done.
Qed.

Lemma accept_decided key v n actor w r :
  row_at (receipts (db w)) key = Some r -> validation_status r = CONFLICT ->
  0 <= v_sequence_number v <= MAX_UINT32 -> 0 < v_boot_id v -> 0 < n ->
  exists text w', accept_packet_and_create_job key v n actor w = (Raise (InvalidDeliveryStateError text), w') /\ db w' = db w.
Proof.
  intros Hk Hst Hseq Hboot Hn. unfold accept_packet_and_create_job.
  destruct (Z.leb_spec 0 (v_sequence_number v)); [|lia].
  destruct (Z.leb_spec (v_sequence_number v) MAX_UINT32); [|lia].
  destruct (Z.leb_spec (v_boot_id v) 0); [lia|]. destruct (Z.leb_spec n 0); [lia|]. cbn [andb negb retry_on_integrity_error].
  unfold _accept_packet_transaction, session_begin. erewrite run_bind by done. cbn. rewrite Hk, Hst. cbn.
  do 2 eexists. split; [done|]. done.
Qed.

Lemma decoded_ranges raw t frame :
  Codec.Codec.decode_telemetry raw t = Ok frame -> let v := _telemetry_values frame in
  0 <= v_sequence_number v <= MAX_UINT32 /\ 0 < v_boot_id v.
Proof.
  intros (_ & -> & Hval)%Codec.Codec.decode_ok. apply Codec.Codec.validate_fields_ok in Hval as [(_ & _ & Hboot & Hseq & _) _].
  cbn [_telemetry_values v_sequence_number v_boot_id]. change MAX_UINT32 with (2 ^ 32 - 1). lia.
Qed.

(** A repeated duplicate is found again, and its packet's job is not waiting to be queued. *)
Lemma replay_idle w f res w' :
  idle (db w) -> validation_status f = DUPLICATE -> queue_status f = NOT_APPLICABLE ->
  replay_acceptance f w = (Ok res, w') -> duplicate res = true /\ conflict res = false /\ acceptance_queue_status res <> DELIVERY_PENDING_QUEUE.
Proof.
  intros Hidle Hv Hq Hr. unfold replay_acceptance in Hr. apply run_bind_ok in Hr as ([p j] & w1 & Hj & Hr).
  apply run_ret_ok in Hr as [<- _]. cbn. rewrite Hv, Hq. split; [done|]. split; [done|].
  assert (forall x, j = Some x -> exists k, row_at (jobs (db w)) k = Some x) as Hrow.
  { intros x ->. destruct (logical_packet_id f) as [p'|]; [|by apply run_ret_ok in Hj as [[=] _]].
    unfold job_of_packet in Hj. do 2 run_step Hj. cbn in Hj. injection Hj as _ Hh _.
    apply head_Some_elem_of, list_elem_of_In, filter_In in Hh as [Hin _]. by apply list_elem_of_In, elem_of_rows in Hin. }
  destruct j as [x|]; [|done]. cbn. unfold job_state_to_queue_status. case_bool_decide as Hst; [|done].
  destruct (Hrow x eq_refl) as [k Hk]. by specialize (idle_jobs _ _ Hidle k x Hk Hst).
Qed.

(** Nothing but clocks, draws and counters changes. *)
Definition untouched s s' : Prop := tables_of s' = tables_of s /\ redis s' = redis s.

Lemma repeat_frame s f raw received :
  sys_ok s -> idle (tables_of s) -> row_at (receipts (tables_of s)) (receipt_id f) = Some f ->
  validation_status f = DUPLICATE \/ validation_status f = CONFLICT ->
  ends (accept_frame settings (receipt_id f) raw received) s
    match Codec.Codec.decode_telemetry raw (utc received), validation_status f with Ok _, DUPLICATE => 200 | _, _ => 500 end (untouched s).
Proof.
  intros Hok Hidle Hf Hst. pose proof Hok as [Hc _ _]. unfold accept_frame.
  destruct (Codec.Codec.decode_telemetry raw (utc received)) as [frame|e] eqn:Hd.
  2: { destruct (Codec.Codec.decode_raises raw (utc received) 0 e eq_refl Hd) as (why & detail & ->).
    destruct (reject_decided (receipt_id f) (Codec.Codec.reason_value why) None "ground-api" (tables s) f Hf)
      as (text & w' & Hrej & Hdb); [by destruct Hst as [-> | ->]..|]. by eapply ends_raise. }
  destruct (decoded_ranges _ _ _ Hd) as [Hseq Hboot]. destruct Hset as [_ _ _ Hatt].
  destruct Hst as [Hst|Hst]; rewrite Hst.
  - destruct (receipt_rows _ Hc _ _ Hf) as (_ & _ & Hq). unfold status_ok in Hq. rewrite Hst in Hq. destruct Hq as [Hq _].
    destruct (replay_settled f (tables s) Hc Hf ltac:(by right)) as (res & Hrun & _).
    pose proof (accept_settled_run (receipt_id f) _ _ "ground-api" (tables s) f Hseq Hboot Hatt Hf ltac:(by right) res Hrun) as Hacc.
    destruct (replay_idle _ _ _ _ Hidle Hst Hq Hrun) as (Hdup & Hcf & Hqs). eapply ends_transact; [exact Hacc|].
    unfold answer_acceptance. rewrite Hcf, Hdup, (bool_decide_eq_false_2 (_ = DELIVERY_PENDING_QUEUE)) by done.
    destruct (acceptance_job_id res), (acceptance_packet_id res);
      (apply ends_metric; intros s1 Ht Hr; apply ends_respond; split; [unfold tables_of; by rewrite Ht|exact Hr]).
  - destruct (accept_decided (receipt_id f) _ _ "ground-api" (tables s) f Hf Hst Hseq Hboot Hatt) as (text & w' & Hacc & Hdb).
    by eapply ends_raise.
Qed.

(** A repetition with the same body: the tables and the queue stay as they are. *)
Lemma repeat_delivery s r raw received f v g :
  implements s g -> row_at (receipts (tables_of s)) (receipt_id f) = Some f -> validation_status f = verdict_status v ->
  raw_body f = raw -> _canonical_uuid4 (x_request_id r) <> None ->
  let existing := Some f in
  ends
    (match decided_replay existing with
     | Some answer => mret answer
     | None =>
        if negb (is_octet_stream (header_content_type r)) then refuse 400 (receipt_id f) "INVALID_CONTENT_TYPE"
        else if bool_decide (_canonical_uuid4 (x_request_id r) = None) then refuse 400 (receipt_id f) "INVALID_REQUEST_ID"
        else if bool_decide (validation_status f = ACCEPTED) && bool_decide (queue_status f = DELIVERY_PENDING_QUEUE) then
          match logical_packet_id f with
          | Some packet => requeue_replay f packet
          | None => accept_frame settings (receipt_id f) raw received
          end
        else accept_frame settings (receipt_id f) raw received
     end) s (spec_repeat r raw received v) (untouched s).
Proof.
  intros [Hok _ Hidle _] Hf Hst Hraw Hq. cbn zeta. pose proof Hok as [Hc _ _].
  destruct (receipt_rows _ Hc _ _ Hf) as (_ & _ & Hso). unfold status_ok in Hso. rewrite Hst in Hso.
  assert (forall x, decided_replay (Some f) = Some x -> status_code x = spec_repeat r raw received v ->
    ends (mret x) s (spec_repeat r raw received v) (untouched s)) as Hret by (intros x _ <-; by exists (Ok x), s).
  destruct (decided_replay (Some f)) as [x|] eqn:Hdec.
  { apply Hret; [done|]. unfold decided_replay in Hdec. rewrite Hst in Hdec. destruct v; cbn in Hdec, Hso.
    - by injection Hdec as <-.
    - rewrite (bool_decide_eq_false_2 (ACCEPTED = REJECTED)) in Hdec by done. by case_match; [injection Hdec as <-|].
    - destruct Hso as [Hqs _]. by rewrite Hqs in Hdec.
    - done. }
  assert (v = Repeated \/ v = Contradicting) as Hv.
  { unfold decided_replay in Hdec. rewrite Hst in Hdec. destruct v; auto; [done|]. exfalso. cbn in Hdec, Hst.
    destruct (decide (queue_status f = DELIVERY_QUEUED)) as [Hqs|Hne]; [by rewrite Hqs in Hdec|].
    by destruct (idle_receipts _ _ Hidle _ _ Hf Hst Hne) as (e & [=] & _). }
  rewrite (bool_decide_eq_false_2 (_ = None)) by done.
  rewrite (bool_decide_eq_false_2 (validation_status f = ACCEPTED)) by (rewrite Hst; by destruct Hv as [-> | ->]). cbn [andb].
  destruct (is_octet_stream (header_content_type r)) eqn:Hoct; cbn [negb].
  - pose proof (repeat_frame s f raw received Hok Hidle Hf ltac:(rewrite Hst; destruct Hv as [-> | ->]; auto)) as Hr. rewrite Hst in Hr.
    unfold spec_repeat. rewrite Hoct. destruct Hv as [-> | ->]; by destruct (Codec.Codec.decode_telemetry raw (utc received)).
  - destruct (reject_decided (receipt_id f) "INVALID_CONTENT_TYPE" None "ground-api" (tables s) f Hf)
      as (text & w' & Hrej & Hdb); [rewrite Hst; by destruct Hv as [-> | ->]..|].
    assert (spec_repeat r raw received v = 500) as ->.
    { unfold spec_repeat. rewrite Hoct. destruct Hv as [-> | ->]; by destruct (Codec.Codec.decode_telemetry raw (utc received)). }
    unfold refuse. by eapply ends_raise.
Qed.

(** An identifier that is in the ledger. *)
Lemma receive_known s r raw received q first v g :
  implements s g -> fresh_uuids (tables s) -> Z.of_nat (length raw) <= MAX_EVIDENCE_BODY_BYTES ->
  _canonical_uuid4 (x_request_id r) = Some q -> ledger g !! q = Some (first, v) ->
  ends (catch_outage (receive_in_session settings r raw received)) s
    (if bool_decide (first = raw) then spec_repeat r raw received v else if overlong r then 503 else 409)
    (fun s' => implements s' g).
Proof.
  intros Hi Hf Hsize Hid Hq. pose proof Hi as [Hok _ _ Hled]. pose proof Hok as [Hc _ _]. specialize (Hled q). rewrite Hq in Hled.
  destruct Hled as (i & f & Hrow & Hf' & Hraw & Hst & _).
  destruct (receipt_rows _ Hc _ _ Hf') as (Hkey & _). case_bool_decide as Hsame.
  - destruct (record_replay raw VENDOR_IDENTITY (x_request_id r) q (header_content_type r) (Some received) None (tables s) i f
      Hc Hsize ltac:(done) Hrow Hf' ltac:(congruence)) as (w' & Hrec & Hdb). rewrite <- Hid in Hrec.
    apply ends_caught. unfold receive_in_session. eapply ends_transact; [exact Hrec|]. cbn [request_conflict request_replay delivery_result result_receipt_id].
    apply ends_metric. intros s1 Ht Hr. rewrite <- Hkey in Hf'.
    assert (get_delivery (receipt_id f) (tables s1) = (Ok (Some f), tables s1)) as Hget.
    { rewrite Ht. unfold get_delivery, session_begin. cbn. unfold session_get. cbn. rewrite Hdb. unfold tables_of in Hf'. by rewrite Hf'. }
    eapply ends_bind; [rewrite run_seq, (run_transact Hserved _ _ _ _ Hget); done|].
    set (s2 := after_database (tables s1) s1). assert (untouched s s2) as [Ht2 Hr2] by (split; [unfold tables_of; cbn; by rewrite Ht|exact Hr]).
    pose proof (implements_silent _ _ _ Hi Ht2 Hr2) as Hi2.
    apply (ends_weaken _ _ _ (untouched s2)); [intros s' [? ?]; by eapply implements_silent|].
    apply (repeat_delivery s2 r raw received f v g Hi2); [by rewrite Ht2|done|congruence|by rewrite Hid].
  - unfold overlong. destruct (fits_column (255, header_content_type r)) eqn:Hfit; cbn [negb].
    2: { destruct (record_wide raw VENDOR_IDENTITY (x_request_id r) (_canonical_uuid4 (x_request_id r)) (header_content_type r)
        (Some received) None (tables s) Hc Hsize ltac:(done) Hfit) as (w' & Hrec & Hdb); [|by eapply ends_wide].
      intros q' i' f' Hq' Hi' Hf2. assert (q' = q) as -> by congruence. unfold tables_of in Hrow, Hf'.
      assert (i' = i) as -> by congruence. assert (f' = f) as -> by congruence. congruence. }
    destruct (record_delivery_ledger raw VENDOR_IDENTITY (x_request_id r) (_canonical_uuid4 (x_request_id r)) (header_content_type r)
      (Some received) None (tables s) Hc Hf Hsize ltac:(done) ltac:(done) Hfit) as (res & w' & Hrec & Hcases).
    apply ends_caught. unfold receive_in_session. eapply ends_transact; [exact Hrec|]. rewrite Hid in Hcases. cbn [mbind option_bind] in Hcases.
    assert (row_at (identities (db (tables s))) q = Some i) as Hrow' by exact Hrow. rewrite Hrow' in Hcases.
    destruct Hcases as (f' & Hf2 & Hcases). assert (f' = f) as -> by (unfold tables_of in *; congruence). rewrite Hraw in Hcases.
    rewrite (bool_decide_eq_false_2 (first = raw)) in Hcases by done. destruct Hcases as (_ & Hcf & _). rewrite Hcf. apply ends_metric. intros s1 Ht1 Hr1. apply ends_metric. intros s2 Ht2 Hr2.
    apply ends_respond. pose proof (run_transact Hserved _ s _ _ Hrec) as Hrun.
    destruct (calm_run _ s _ _ (calm_record_delivery _ _ _ _ _ _ _ _) Hok Hrun) as [Hok1 Hrel].
    apply (implements_silent (after_database w' s)); [|unfold tables_of; by rewrite Ht2, Ht1|by rewrite Hr2, Hr1].
    apply (implements_same s); [done..|apply same_work_stream; by eapply frames_record_delivery| |].
    + pose proof (idle_record raw VENDOR_IDENTITY (x_request_id r) (_canonical_uuid4 (x_request_id r)) (header_content_type r)
        (Some received) None (tables s)) as Hidle. by rewrite Hrec in Hidle.
    + intros q' Hq'. pose proof (ledger_record raw VENDOR_IDENTITY (x_request_id r) (_canonical_uuid4 (x_request_id r))
        (header_content_type r) (Some received) None (tables s)) as Hgrow. rewrite Hrec in Hgrow. apply Hgrow. congruence.
Qed.

(** A new identifier with a content type that cannot be recorded. *)
Lemma receive_overlong s r raw received g :
  implements s g -> Z.of_nat (length raw) <= MAX_EVIDENCE_BODY_BYTES ->
  _canonical_uuid4 (x_request_id r) ≫= (fun q => ledger g !! q) = None -> overlong r = true ->
  ends (catch_outage (receive_in_session settings r raw received)) s 503 (fun s' => implements s' g).
Proof.
  intros Hi Hsize Hnew Hwide%negb_true_iff. pose proof Hi as [[Hc _ _] _ _ Hled].
  destruct (record_wide raw VENDOR_IDENTITY (x_request_id r) (_canonical_uuid4 (x_request_id r)) (header_content_type r)
    (Some received) None (tables s) Hc Hsize ltac:(done) Hwide) as (w' & Hrec & Hdb); [|by eapply ends_wide].
  intros q i f Hq Hrow. rewrite Hq in Hnew. cbn in Hnew. specialize (Hled q). rewrite Hnew in Hled. unfold tables_of in Hled. congruence.
Qed.

(** A new identifier. *)
Lemma implements_new r raw received e s s1 s' g m v :
  implements s g -> recorded r raw received s s1 e -> sys_ok s' -> rely s1 s' -> identities (tables_of s') = identities (tables_of s1) ->
  (idle (tables_of s1) -> idle (tables_of s')) -> represents_all (tables_of s') m ->
  (exists e', row_at (receipts (tables_of s')) (receipt_id e) = Some e' /\ validation_status e' = verdict_status v) ->
  implements s' (mk_gateway m (note r raw v (ledger g))).
Proof.
  intros Hi [Hok1 Hr1 Ht1 Hst1 He Hpend Hraw Hcan Hown] Hok Hrel Hids Hidle Hm (e' & He' & Hv).
  assert (rely s s') as Hrel' by (by etransitivity). apply (implements_step s s' g); [done..| |].
  - apply Hidle. unfold tables_of. rewrite Ht1.
    apply (idle_record raw VENDOR_IDENTITY (x_request_id r) _ (header_content_type r) (Some received) None), Hi.
  - intros q. rewrite Hids. destruct (decide (_canonical_uuid4 (x_request_id r) = Some q)) as [Hq|Hq].
    + right; right. exists raw, v. cbn. unfold note. rewrite Hq, lookup_insert_eq. split; [done|].
      destruct (Hown q Hq) as (i & Hrow & Hfirst). exists i, e'. rewrite Hids, Hfirst. split; [done|]. split; [done|].
      destruct (receipts_evolve _ _ (rely_evolves _ _ Hrel) _ _ He) as (e2 & He2 & Hev & _). rewrite He' in He2. injection He2 as <-.
      split; [rewrite <- Hraw; by apply evidence_body|]. split; [done|by destruct v].
    + left. split.
      * cbn. unfold note. destruct (_canonical_uuid4 (x_request_id r)) as [q'|]; [|done]. by rewrite lookup_insert_ne by congruence.
      * unfold tables_of. rewrite Ht1. by apply ledger_record.
Qed.

(** A pending delivery is refused. *)
Lemma refuse_pending s key why e :
  sys_ok s -> fresh_uuids (tables s) -> row_at (receipts (tables_of s)) key = Some e -> validation_status e = PENDING ->
  ends (refuse 400 key why) s 400 (fun s' => sys_ok s' /\ rely s s' /\ same_stream (tables_of s) (tables_of s') /\
    identities (tables_of s') = identities (tables_of s) /\ keeps_idle (tables_of s) (tables_of s') /\
    exists e', row_at (receipts (tables_of s')) key = Some e' /\ validation_status e' = REJECTED).
Proof.
  intros Hok Hf He Hpend. destruct (reject_total key why None "ground-api" (tables s) e (sys_consistent _ Hok) Hf He Hpend ltac:(done))
    as (res & e' & w' & Hrej & _ & He' & Hv & _ & _ & Hst).
  pose proof (run_transact Hserved _ s _ _ Hrej) as Hrun. destruct (calm_run _ s _ _ (calm_reject key why None "ground-api") Hok Hrun) as [Hok1 Hr1].
  unfold refuse. eapply ends_transact; [exact Hrej|]. apply ends_metric. intros s1 Ht Hr. apply ends_respond.
  assert (tables_of s1 = db w') as Htab by (unfold tables_of; by rewrite Ht).
  destruct (silent_action (after_database w' s) s1 Htab Hr Hok1) as [Hok2 Hr2]. rewrite Htab.
  split; [done|]. split; [by etransitivity|]. split; [done|].
  pose proof (ledger_reject key why None "ground-api" (tables s)) as Hled. rewrite Hrej in Hled. split; [exact Hled|].
  pose proof (idle_reject key why None "ground-api" (tables s)) as Hidle. rewrite Hrej in Hidle. split; [exact Hidle|]. by exists e'.
Qed.

Lemma receive_unknown s r raw received g :
  implements s g -> fresh_for 14 (tables s) -> Z.of_nat (length raw) <= MAX_EVIDENCE_BODY_BYTES ->
  _canonical_uuid4 (x_request_id r) ≫= (fun q => ledger g !! q) = None -> overlong r = false ->
  let '(code, g') := spec_new r raw received g in ends (receive_in_session settings r raw received) s code (fun s' => implements s' g').
Proof.
  intros Hi Hf Hsize Hnew Hfit%negb_false_iff. pose proof Hi as [Hok Hm Hidle Hled].
  destruct (receive_new Hserved settings s r raw received Hok (fresh_two 12 _ Hf) Hsize Hfit) as (s1 & e & Hrun & Hrec).
  { destruct (_canonical_uuid4 (x_request_id r)) as [q|]; [|done]. cbn in *. specialize (Hled q). by rewrite Hnew in Hled. }
  pose proof Hrec as [Hok1 Hr1 Ht1 Hst1 He Hpend Hraw Hcan Hown].
  pose proof (drawn_call 4 10 (tables s) _ (drawn_record_delivery raw VENDOR_IDENTITY (x_request_id r) (_canonical_uuid4 (x_request_id r))
    (header_content_type r) (Some received) None) Hf) as Hf1. fold (recording r raw received) in Hf1. rewrite <- Ht1 in Hf1.
  assert (represents_all (tables_of s1) (known g)) as Hm1 by (apply (represents_same (tables_of s)); [apply Hok|apply Hr1|done|exact Hm]).
  assert (forall code p (post : system -> Prop), deal_with_new settings r raw received (receipt_id e) = p -> ends p s1 code post ->
    ends (receive_in_session settings r raw received) s code post) as Hgo.
  { intros code p post <- (res & s' & Hrun' & Hrest). exists res, s'. by rewrite Hrun. }
  assert (forall why, ends (refuse 400 (receipt_id e) why) s1 400 (fun s' => implements s' (mk_gateway (known g) (note r raw Declined (ledger g))))) as Hrefuse.
  { intros why. eapply ends_weaken; [|by apply (refuse_pending s1 (receipt_id e) why e Hok1 (fresh_two 8 _ Hf1))].
    intros s' (Hok' & Hrel & Hst' & Hids & Hid' & Hrow). eapply implements_new; [done..| |exact Hrow].
    by apply (represents_same (tables_of s1)); [apply Hok1|apply Hrel| |]. }
  unfold spec_new. unfold deal_with_new in Hgo. destruct (is_octet_stream (header_content_type r)); cbn [negb orb] in *; [|by eapply Hgo].
  case_bool_decide; [by eapply Hgo|]. destruct (spec_receive raw received (known g)) as [code m'] eqn:Hspec.
  destruct (answers_frame Hserved settings (receipt_id e) e raw received s1 (known g) code m')
    as (a & s' & Hrun' & Hcode & Hok' & Hrel & Hm' & _ & Hid' & (e' & He' & Hne & Hfs)); [done..|apply Hset|done|done|].
  eapply Hgo; [done|]. exists (Ok a), s'. split; [done|]. split; [exact Hcode|]. split; [done|].
  eapply implements_new; [done..| |done|done|].
  - pose proof (ledger_accept_frame settings (receipt_id e) raw received s1) as Hids. by rewrite Hrun' in Hids.
  - exists e'. split; [done|]. by rewrite <- Hfs, verdict_first.
Qed.

(** ** The whole handler *)

Lemma ends_audit event actor why data p s code g (post : system -> Prop) :
  fits_column (128, Some event) = true -> Z.of_nat (String.length actor) <= 512 ->
  implements s g -> fresh_uuids (tables s) -> (forall s', implements s' g -> ends p s' code post) ->
  ends (_audit_safely event actor "REJECTED" why data ;; p) s code post.
Proof.
  intros He Ha Hi Hf Hp. destruct (audit_total "ground-api" event actor "REJECTED" (Some why) None None None data (tables s)) as [w Hw];
    [done..|apply (Hf (uuid_draws (tables s))); lia|].
  assert (run (_audit_safely event actor "REJECTED" why data) s = (Ok tt, after_database w s)) as Hrun.
  { unfold _audit_safely. rewrite run_try. unfold record_audit_event. by rewrite (run_transact Hserved _ _ _ _ (begin_ok _ _ _ _ Hw)). }
  eapply ends_bind; [exact Hrun|]. apply Hp. destruct (calm_run _ s _ _ (calm_audit _ _ _ _ _) (impl_ok _ _ Hi) Hrun) as [Hok Hr].
  apply (implements_aside s); [done..|]. destruct (aside_audit event actor "REJECTED" why data s) as [Has _]. by rewrite Hrun in Has.
Qed.

Lemma ends_counted name n p s code g (post : system -> Prop) :
  implements s g -> fresh_uuids (tables s) -> (forall s', implements s' g -> fresh_uuids (tables s') -> ends p s' code post) ->
  ends (_metric_safely name n ;; p) s code post.
Proof.
  intros Hi Hf Hp. apply ends_metric. intros s' Ht Hr. apply Hp; [|by rewrite Ht].
  apply (implements_silent s); [done|unfold tables_of; by rewrite Ht|done].
Qed.

Lemma post_ends s r g :
  implements s g -> fresh_for 14 (tables s) ->
  let '(code, g') := spec_post settings r (clock (clock_reads (tables s))) g in
  ends (receive_payload_data settings r) s code (fun s' => implements s' g').
Proof.
  intros Hi Hf. pose proof (fresh_two 12 _ Hf) as Hf2. set (received := clock (clock_reads (tables s))).
  assert (forall s', implements s' g -> fresh_uuids (tables s') -> ends (unauthenticated r) s' 401 (fun s' => implements s' g)) as Hun.
  { intros s' Hi' Hf'. unfold unauthenticated. eapply ends_counted; [done..|]. intros s1 Hi1 Hf1. eapply ends_audit; [done..|]. intros s2 Hi2. by apply ends_respond. }
  unfold spec_post, receive_payload_data. destruct (x_vendor_token r) as [token|]; [|by eapply ends_bind; [done|]; apply Hun].
  unfold digest_equal, compare_digest. rewrite Hascii. destruct (is_ascii token) eqn:Ht; cbn [negb andb].
  2: { eexists _, s. split; [done|]. split; [done|]. split; [by intros e [= <-]|done]. }
  case_bool_decide as Htok; [|by eapply ends_bind; [done|]; apply Hun]. cbn [pure].
  destruct (_bounded_body r (max_telemetry_body_bytes settings)) as [raw|e] eqn:Hbody.
  - assert (Z.of_nat (length raw) <= MAX_EVIDENCE_BODY_BYTES) as Hsize.
    { destruct Hset as [_ _ Hlimit _]. apply bounded_body_ok in Hbody as (_ & _ & Hl); [|lia]. change MAX_EVIDENCE_BODY_BYTES with 1024. lia. }
    set (s0 := mk_system (mk_world (tables_of s) (S (clock_reads (tables s))) (uuid_draws (tables s))) (redis s) (counters s) (database_calls s) (redis_calls s)).
    assert (implements s0 g) as Hi0 by (by apply (implements_silent s)). assert (fresh_for 14 (tables s0)) as Hf0 by (split; apply Hf).
    unfold spec_deliver.
    assert (forall code post, ends (catch_outage (receive_in_session settings r raw received)) s0 code post ->
      ends (received_at ← perform read_clock; try_except (receive_in_session settings r raw received_at) (fun exc =>
          if is_redis_error exc then respond 503 (response_body [("status", "PENDING_QUEUE"); ("reason", "REDIS_UNAVAILABLE")]%string)
          else if is_sqlalchemy_error exc then
            _metric_safely "database_errors_total" 1 ;;
            respond 503 (response_body [("status", "UNAVAILABLE"); ("reason", "POSTGRESQL_UNAVAILABLE")]%string)
          else Throw exc)) s code post) as Hgo.
    { intros code post (res & s' & Hrun & Hrest). exists res, s'. split; [|done]. rewrite run_seq, run_perform.
      assert (read_clock s = (Ok received, s0)) as -> by done. exact Hrun. }
    destruct (_canonical_uuid4 (x_request_id r) ≫= (fun q => ledger g !! q)) as [[first v]|] eqn:Hled.
    + destruct (_canonical_uuid4 (x_request_id r)) as [q|] eqn:Hq; [|done].
      apply Hgo. by apply (receive_known s0 r raw received q first v g Hi0 (fresh_two 12 _ Hf0)).
    + destruct (overlong r) eqn:Hwide; [by apply Hgo, receive_overlong|].
      pose proof (receive_unknown s0 r raw received g Hi0 Hf0 Hsize Hled Hwide) as Hnew. destruct (spec_new r raw received g) as [code g'].
      by apply Hgo, ends_caught.
  - destruct (bounded_body_raises _ _ _ Hbody) as (status & detail & -> & _). unfold refuse_body.
    eapply ends_audit; [done..|]. intros s1 Hi1. by apply ends_respond.
Qed.

(** ** Every run *)

Context (describe : exn -> string).

Lemma serve_fresh t s : stays_fresh (tables s) (tables (run (serve settings describe t) s).2).
Proof.
  assert ((exists r, t = PostTelemetry r) \/ forall r, t <> PostTelemetry r) as [[r ->]|Ht]
    by (destruct t as [r| | | | | | |]; [left; by exists r|by right..]).
  - assert (does stays_fresh (serve settings describe (PostTelemetry r))) as Hd; [|exact (Hd s)].
    apply does_bind; [apply _|apply fresh_receive|intros; apply does_ret; apply _].
  - by apply aside_serve.
Qed.

Lemma serve_all_fresh ts : forall s, stays_fresh (tables s) (tables (serve_all settings describe ts s).2).
Proof.
  induction ts as [|t ts IH]; intros s; cbn [serve_all]; [cbn; reflexivity|]. pose proof (serve_fresh t s) as Hf.
  destruct (run _ s) as [res s1]. specialize (IH s1). destruct (serve_all _ _ ts s1) as [es s']. cbn in *. by etransitivity.
Qed.

(** One task. *)
Lemma serve_implements t s g :
  implements s g -> fresh_for 14 (tables s) ->
  let '(res, s1) := run (serve settings describe t) s in
  match t with
  | PostTelemetry r =>
      let '(code, g') := spec_post settings r (clock (clock_reads (tables s))) g in
      status_of finished_code res = code /\ implements s1 g'
  | _ => implements s1 g
  end.
Proof.
  intros Hi Hf. assert ((exists r, t = PostTelemetry r) \/ forall r, t <> PostTelemetry r) as [[r ->]|Ht]
    by (destruct t as [r| | | | | | |]; [left; by exists r|by right..]).
  - pose proof (post_ends s r g Hi Hf) as Hp. cbn [serve]. destruct (spec_post _ _ _ _) as [code g'].
    destruct Hp as (res & s' & Hrun & Hcode & _ & Hi'). rewrite run_seq, Hrun. by destruct res as [a|e].
  - pose proof (aside_serve settings describe t Ht s) as [Ha _].
    pose proof (guarded_run sys_ok rely _ _ s (impl_ok _ _ Hi) (guard_serve settings describe t s)) as (Hok & Hr & _).
    destruct (run _ s) as [res s1]. cbn in *. assert (implements s1 g) by (by apply (implements_aside s)).
    destruct t as [r| | | | | | |]; [by destruct (Ht r)|done..].
Qed.

Lemma run_implements ts : forall s g,
  implements s g -> fresh_until (uuid_draws (tables (serve_all settings describe ts s).2) + 14) (tables s) ->
  let '(entries, s') := serve_all settings describe ts s in
  let '(codes, g') := spec_all settings entries.*1 g in
  entries.*2 = codes /\ implements s' g' /\ entries.*1.*1 = requests ts.
Proof.
  induction ts as [|t ts IH]; intros s g Hi Hf; cbn [serve_all] in *; [done|].
  pose proof (serve_fresh t s) as [Hd1 Hs1].
  pose proof (serve_implements t s g Hi) as Hone. destruct (run _ s) as [res s1]. cbn [snd] in Hd1, Hs1.
  pose proof (serve_all_fresh ts s1) as [Hd2 _]. specialize (IH s1). destruct (serve_all settings describe ts s1) as [es s'].
  cbn [snd] in Hf, Hd2, IH. specialize (Hone ltac:(eapply until_for; [exact Hf|lia])). specialize (fun g' Hg' => IH g' Hg' (Hs1 _ Hf)).
  destruct t as [r| | | | | | |]; try by apply IH. cbn [fmap list_fmap fst snd spec_all requests omap list_omap].
  destruct (spec_post _ _ _ _) as [code g1]. destruct Hone as [<- Hi1]. specialize (IH g1 Hi1).
  destruct (spec_all _ _ g1) as [codes g']. destruct IH as (-> & Hi' & ->). done.
Qed.

(** C3. Refinement of the whole gateway: while the services answer and the identifiers it draws are new, any sequence of
    tasks (requests of any kind, queries, recoveries of unqueued jobs, rounds of workers) implements the
    abstract gateway. The status of every request, or 500 where the handler raises, is the one that
    [spec_post] computes from the requests so far and the times read for them: 401 and 500 for wrong
    tokens, 400 and 413 for bodies that are not read, 400 for a missing identifier or content type, 422,
    202, 200 or 409 for a new identifier, and for a repetition 422, 200, 409 or 500 by the fate of its
    first delivery (a repetition of a delivery that was declined with 400 too is answered 422), and 503,
    with nothing recorded, where a delivery to be recorded has a content type of more than 255 characters;
    and the tables and the queue still represent the abstract state, so this goes on for ever. *)
Theorem gateway_refines ts s g entries s' :
  implements s g -> serve_all settings describe ts s = (entries, s') ->
  fresh_until (uuid_draws (tables s') + 14) (tables s) ->
  entries.*1.*1 = requests ts /\ entries.*2 = (spec_all settings entries.*1 g).1 /\ implements s' (spec_all settings entries.*1 g).2.
Proof.
  intros Hi Hrun Hf. pose proof (run_implements ts s g Hi) as Hall. rewrite Hrun in Hall. specialize (Hall Hf).
  destruct (spec_all _ _ g) as [codes g']. by destruct Hall as (-> & Hi' & ->).
Qed.
End Stream.

(** ** A concrete run *)

(** Freshly created tables and an empty keyspace implement the gateway that has seen nothing. *)
Definition new_gateway : gateway := mk_gateway (fun _ => Seq.empty_session) ∅.

Lemma fresh_implements `{SqlEngine} `{!SqlLaws} `{Env} `{!UuidLaws} `{RedisServer} `{!RedisLaws} `{interpreter : Interpreter} s :
  tables_of s = create_schema -> (forall k, value_at (redis s) k = None) -> implements s new_gateway.
Proof.
  intros Ht Hr. split; [by apply fresh_system|..]; rewrite Ht.
  - intros key. split; [cbn; by rewrite row_at_create|]. intros n raw. split; [intros Hn; cbn in Hn; by rewrite lookup_empty in Hn|].
    intros (p & r & Hp & _). unfold create_schema in Hp. cbn [packets] in Hp. by rewrite row_at_create in Hp.
  - split; intros k r; unfold create_schema; cbn [jobs receipts]; by rewrite row_at_create.
  - intros q. cbn. rewrite lookup_empty. unfold create_schema. cbn [identities]. by rewrite row_at_create.
Qed.

Module StreamExample.
#[local] Existing Instance cpython.
#[local] Existing Instance MapRedis.server.
#[local] Existing Instance MapRedis.laws.
#[local] Existing Instance Replays.steady.
Import SystemExample Replays.

Definition third_id : string := "7d1b0a5c-e2d8-4d53-b4ce-4c1e5a0f0003".
Definition fourth_id : string := "7d1b0a5c-e2d8-4d53-b4ce-4c1e5a0f0004".

Definition stream_tasks : list task := [
  PostTelemetry (post first_id octets example_raw); RunWorker worker_settings "worker-1" 1;
  PostTelemetry (post first_id octets example_raw); PostTelemetry (post first_id octets changed_raw);
  PostTelemetry (post second_id octets changed_raw); PostTelemetry (post second_id octets changed_raw);
  PostTelemetry (post third_id "text/plain" example_raw); GetReady; PostTelemetry (post third_id octets example_raw);
  PostTelemetry (post fourth_id (long_text 256) [Byte.x00]); PostTelemetry (post fourth_id octets [Byte.x00]); RecoverPending 10; PostTelemetry ApiExample.stranger_request].

Lemma start_implements : implements start new_gateway.
Proof. apply fresh_implements; [reflexivity|]. intros k. exact (lookup_empty (K:=string) (M:=gmap string) (A:=redis_value) k). Qed.

(** The identifiers of the example repeat only after a thousand. *)
Lemma start_until k : (k <= 1000)%nat -> fresh_until k (tables start).
Proof.
  intros Hk. split; cbn.
  - intros i _ [[x Hx]|[[x Hx]|[x Hx]]]; cbn in Hx; by rewrite lookup_empty in Hx.
  - intros i j Hi Hj. lia.
Qed.

Lemma gateway_refines_witness :
  (serve_all settings no_text stream_tasks start).1.*2 = [202; 200; 409; 409; 500; 400; 422; 503; 422; 401] /\
  exists g, implements (serve_all settings no_text stream_tasks start).2 g.
Proof.
  assert (all_served) as Hserved by (intros n; split; reflexivity).
  destruct (serve_all settings no_text stream_tasks start) as [entries s'] eqn:Hrun.
  assert (uuid_draws (tables s') + 14 <= 1000)%nat as Hd.
  { apply (f_equal (fun es => uuid_draws (tables es.2))) in Hrun. cbn [snd] in Hrun. rewrite <- Hrun. apply Nat.leb_le. vm_compute. reflexivity. }
  destruct (gateway_refines Hserved settings settings_ok eq_refl no_text stream_tasks start new_gateway entries s'
    start_implements Hrun (start_until _ Hd)) as (Hreq & Hcodes & Hi). split; [|exact (ex_intro _ _ Hi)].
  apply (f_equal fst) in Hrun. cbn [fst] in *. rewrite Hcodes, <- Hrun. vm_compute. reflexivity.
Defined.
End StreamExample.
