(* ===== verification/FloatBounds.v ===== *)
(** * Bounds of float arithmetic

    A float is below [2 ^ k] in magnitude when its mantissa and exponent say so; rounding keeps such a
    bound, and so sums and products have the bounds that the exact results have.  With them the readings
    that a program computes from bounded arguments are shown to fit their wire units. *)
From S2P Require Import Prelude PyFloat.

Open Scope Z_scope.

(** Zero, or a finite float of magnitude at most [2 ^ k]. *)
Definition bounded_by (k : Z) (f : float) : Prop :=
  match f with
  | S754_zero _ => True
  | S754_finite _ m e => e <= k /\ Z.pos m <= 2 ^ (k - e)
  | _ => False
  end.

Definition non_negative (f : float) : bool :=
  match f with S754_zero _ => true | S754_finite s _ _ | S754_infinity s => negb s | S754_nan => false end.

(** ** Rounding *)

Lemma shr_1_half r : 0 <= shr_m r -> shr_m (shr_1 r) = shr_m r / 2.
Proof.
  destruct r as [[|[p|p|]|p] a b]; cbn [shr_1 shr_m]; intros H; try done; [|].
  - rewrite (Pos2Z.inj_xI p). apply Z.div_unique with 1; lia.
  - rewrite (Pos2Z.inj_xO p). apply Z.div_unique with 0; lia.
Qed.

Lemma iter_shr p : forall r, 0 <= shr_m r -> shr_m (iter_pos shr_1 p r) = shr_m r / 2 ^ Z.pos p.
Proof.
  induction p as [p IH|p IH|]; intros r Hr; cbn [iter_pos].
  - pose proof (shr_1_half r Hr) as H1. assert (0 <= shr_m (shr_1 r)) as Hr1 by (rewrite H1; apply Z.div_pos; lia).
    assert (0 <= shr_m (shr_1 r) / 2 ^ Z.pos p) as Hr2 by (apply Z.div_pos; lia).
    rewrite IH by (by rewrite IH). rewrite IH, H1, !Z.div_div by lia. f_equal.
    rewrite (Pos2Z.inj_xI p). replace (2 * Z.pos p + 1) with (1 + (Z.pos p + Z.pos p)) by lia. rewrite !Z.pow_add_r by lia. lia.
  - assert (0 <= shr_m r / 2 ^ Z.pos p) as Hr2 by (apply Z.div_pos; lia).
    rewrite IH by (by rewrite IH). rewrite IH, !Z.div_div by lia. f_equal. rewrite (Pos2Z.inj_xO p), <- Z.pow_add_r by lia. f_equal. lia.
  - rewrite shr_1_half by done. by rewrite Z.pow_1_r.
Qed.

(** A shift keeps the integer quotient, and loses nothing when it is none. *)
Lemma shr_down m e : 0 <= m ->
  exists r d, shr_fexp 53 1024 m e loc_Exact = (r, e + d) /\ 0 <= d /\ shr_m r = m / 2 ^ d /\
    (d = 0 -> loc_of_shr_record r = loc_Exact) /\ (0 < d -> e + d = fexp 53 1024 (Zdigits2 m + e)).
Proof.
  intros Hm. unfold shr_fexp, shr. set (n := fexp 53 1024 (Zdigits2 m + e) - e). cbn [shr_record_of_loc].
  destruct (Z.lt_total 0 n) as [Hn|Hn].
  - exists (match n with Z.pos p => iter_pos shr_1 p {| shr_m := m; shr_r := false; shr_s := false |} | _ => {| shr_m := m; shr_r := false; shr_s := false |} end), n.
    assert (n = fexp 53 1024 (Zdigits2 m + e) - e) as Hf by done. clearbody n. destruct n as [|p|p]; try lia.
    split; [reflexivity|]. split; [lia|]. split; [by apply iter_shr|]. split; lia.
  - exists {| shr_m := m; shr_r := false; shr_s := false |}, 0. rewrite Z.add_0_r.
    split; [by destruct n as [|p|p]; try lia|]. split; [lia|]. cbn. rewrite Z.div_1_r. split_and!; done || lia.
Qed.

Lemma digits_below m j : 0 <= m < 2 ^ j -> 0 <= j -> Zdigits2 m <= j.
Proof.
  intros Hm Hj. destruct m as [|m|m]; cbn [Zdigits2]; [done| |lia].
  assert (Z.pos (digits2_pos m) = Z.log2 (Z.pos m) + 1) as ->.
  { enough (digits2_pos m = Pos.size m) as -> by (destruct m; cbn; lia). clear. induction m as [m IH|m IH|]; cbn; congruence. }
  pose proof (Z.log2_lt_pow2 (Z.pos m) j ltac:(lia)) as [Hl _]. specialize (Hl (proj2 Hm)). lia.
Qed.

Lemma round_up_by_one q l : q <= round_nearest_even q l <= q + 1.
Proof. destruct l as [|[]]; cbn; try lia. destruct (Z.even q); lia. Qed.

(** An exact value below [2 ^ k] is rounded to at most [2 ^ k]. *)
Lemma round_bounded s m e k :
  0 <= m < 2 ^ (k - e) -> e <= k -> -1074 <= k <= 971 ->
  bounded_by k (binary_round_aux 53 1024 s m e loc_Exact) /\
  (non_negative (binary_round_aux 53 1024 s m e loc_Exact) = true \/ s = true).
Proof.
  intros Hm He Hk. unfold binary_round_aux. destruct (shr_down m e) as (r & d & -> & Hd & Hr & _ & Hup); [lia|].
  assert (e + d <= k) as Hek.
  { destruct (decide (d = 0)); [lia|]. rewrite Hup by lia. pose proof (digits_below m (k - e) Hm ltac:(lia)). unfold fexp, emin. lia. }
  set (q := round_nearest_even _ _). assert (0 <= q <= 2 ^ (k - (e + d))) as Hq.
  { pose proof (round_up_by_one (shr_m r) (loc_of_shr_record r)) as Hq. fold q in Hq. rewrite Hr in Hq.
    assert (0 <= m / 2 ^ d) by (apply Z.div_pos; lia). assert (m / 2 ^ d < 2 ^ (k - (e + d))) as Hlt; [|lia].
    apply Z.div_lt_upper_bound; [lia|]. rewrite <- Z.pow_add_r by lia. replace (d + (k - (e + d))) with (k - e) by lia. apply Hm. }
  destruct (shr_down q (e + d)) as (r' & d' & -> & Hd' & Hr' & _ & _); [lia|]. rewrite Hr'.
  destruct (q / 2 ^ d') as [|m'|m'] eqn:Hm'; [by split; [|left]| |pose proof (Z.div_pos q (2 ^ d') ltac:(lia) ltac:(lia)); lia].
  assert (Z.pos m' * 2 ^ d' <= 2 ^ (k - (e + d))) as Hle by (pose proof (Z.mul_div_le q (2 ^ d') ltac:(lia)); lia).
  assert (e + d + d' <= k) as Hed.
  { destruct (Z.le_gt_cases (e + d + d') k); [done|]. pose proof (Z.pow_lt_mono_r 2 (k - (e + d)) d'). nia. }
  assert (Z.pos m' <= 2 ^ (k - (e + d + d'))) as Hmk.
  { replace (k - (e + d)) with (d' + (k - (e + d + d'))) in Hle by lia. rewrite Z.pow_add_r in Hle by lia.
    pose proof (Z.pow_pos_nonneg 2 d'). nia. }
  assert ((e + d + d' <=? 1024 - 53) = true) as -> by lia. split; [by split|]. destruct s; [by right|by left].
Qed.

Lemma iter_xO m d : Z.pos (Pos.iter xO m d) = Z.pos m * 2 ^ Z.pos d.
Proof.
  induction d as [|d IH] using Pos.peano_ind; [cbn; lia|]. rewrite Pos.iter_succ, Pos2Z.inj_xO, IH, Pos2Z.inj_succ, Z.pow_succ_r by lia. lia.
Qed.

Lemma align_down m e e' : e' <= e -> Z.pos (shl_align m e e').1 = Z.pos m * 2 ^ (e - e').
Proof.
  intros He. unfold shl_align. destruct (e' - e) as [|d|d] eqn:Hd; [|lia|]; cbn [fst].
  - replace (e - e') with 0 by lia. lia.
  - rewrite iter_xO. by replace (e - e') with (Z.pos d) by lia.
Qed.

Lemma normalize_bounded m e k :
  Z.abs m < 2 ^ (k - e) -> e <= k -> -1074 <= k <= 971 ->
  bounded_by k (binary_normalize 53 1024 m e false) /\ (0 <= m -> non_negative (binary_normalize 53 1024 m e false) = true).
Proof.
  intros Hm He Hk. assert (forall s p, Z.pos p < 2 ^ (k - e) ->
    bounded_by k (binary_round 53 1024 s p e) /\ (non_negative (binary_round 53 1024 s p e) = true \/ s = true)) as Hr.
  { intros s p Hp. unfold binary_round. set (e' := fexp 53 1024 _). destruct (Z.le_gt_cases e' e) as [Hle|Hgt].
    - pose proof (align_down p e e' Hle) as Ha. unfold shl_align in *. destruct (e' - e) as [|d|d] eqn:Hd; [by apply round_bounded; lia|lia|].
      cbn [fst] in Ha. rewrite Ha. apply round_bounded; [|lia|done].
      replace (k - e') with ((k - e) + (e - e')) by lia. rewrite Z.pow_add_r by lia. pose proof (Z.pow_pos_nonneg 2 (e - e')). nia.
    - unfold shl_align. destruct (e' - e) as [|d|d] eqn:Hd; [lia| |lia]. by apply round_bounded; lia. }
  destruct m as [|p|p]; cbn [binary_normalize]; [done| |].
  - destruct (Hr false p) as [Hb [Hn|Hn]]; by try lia.
  - destruct (Hr true p) as [Hb _]; [lia|]. split; [done|lia].
Qed.

(** ** Operations *)

(** A product with a literal below [2 ^ b]. *)
Lemma mul_bounded f m e a b :
  bounded_by a f -> e <= b -> Z.pos m < 2 ^ (b - e) -> -1074 <= a + b <= 971 ->
  bounded_by (a + b) (float_mul f (S754_finite false m e)) /\
  (non_negative f = true -> non_negative (float_mul f (S754_finite false m e)) = true).
Proof.
  intros Hf He Hm Hk. unfold float_mul. destruct f as [s|s| |s n x]; cbn [SFmul]; try done.
  destruct Hf as [Hx Hn]. rewrite Pos2Z.inj_mul.
  destruct (round_bounded (xorb s false) (Z.pos n * Z.pos m) (x + e) (a + b)) as [Hb Hs]; [|lia|done|].
  - replace (a + b - (x + e)) with ((a - x) + (b - e)) by lia. rewrite Z.pow_add_r by lia. nia.
  - split; [done|]. intros Hs'. destruct s; [done|]. by destruct Hs.
Qed.

(** A sum of a positive number with a smaller one of either sign. *)
Lemma add_bounded m e g a k :
  bounded_by a g -> e <= a -> 2 ^ (a - e) <= Z.pos m -> Z.pos m + 2 ^ (a - e) < 2 ^ (k - e) -> a <= k -> -1074 <= k <= 971 ->
  bounded_by k (float_add (S754_finite false m e) g) /\ non_negative (float_add (S754_finite false m e) g) = true.
Proof.
  intros Hg He Hlo Hhi Hak Hk. unfold float_add. destruct g as [s|s| |s n x]; cbn [SFadd]; try done.
  - split; [|done]. split; [lia|]. pose proof (Z.pow_pos_nonneg 2 (a - e)). lia.
  - destruct Hg as [Hx Hn]. cbn zeta. set (z := Z.min e x). cbn [cond_Zopp]. rewrite !align_down by lia.
    set (u := 2 ^ (e - z)). assert (0 < u) as Hu by (apply Z.pow_pos_nonneg; lia).
    assert (Z.pos n * 2 ^ (x - z) <= 2 ^ (a - e) * u) as Hsmall.
    { unfold u. rewrite <- Z.pow_add_r by lia. replace (a - e + (e - z)) with ((a - x) + (x - z)) by lia. rewrite Z.pow_add_r by lia.
      pose proof (Z.pow_pos_nonneg 2 (x - z)). nia. }
    assert (2 ^ (k - z) = 2 ^ (k - e) * u) as Hpow by (unfold u; rewrite <- Z.pow_add_r by lia; f_equal; lia).
    assert (0 <= Z.pos n * 2 ^ (x - z)) by (pose proof (Z.pow_pos_nonneg 2 (x - z)); nia).
    assert (0 <= Z.pos m * u + cond_Zopp s (Z.pos n * 2 ^ (x - z)) < 2 ^ (k - z)) as Hsum by (rewrite Hpow; destruct s; cbn [cond_Zopp]; nia).
    destruct (normalize_bounded (Z.pos m * u + cond_Zopp s (Z.pos n * 2 ^ (x - z))) z k) as [Hb Hs]; [lia..|].
    split; [done|]. apply Hs. lia.
Qed.

(** A double that is at most [m * 2 ^ e] in magnitude. *)
Lemma leb_bounded f m e k :
  valid_binary 53 1024 f = true -> SFleb (SFabs f) (S754_finite false m e) = true ->
  52 <= k - e -> Z.pos m <= 2 ^ (k - e) -> bounded_by k f.
Proof.
  intros Hv Hle Hk Hm. destruct f as [s|s| |s n x]; cbn in Hle; try done.
  cbn [valid_binary] in Hv. unfold bounded, canonical_mantissa, fexp, emin in Hv. bool_to_prop.
  assert (Z.pos n < 2 ^ 53) as Hn.
  { assert (Z.pos (digits2_pos n) = Z.log2 (Z.pos n) + 1) as Hd.
    { enough (digits2_pos n = Pos.size n) as -> by (destruct n; cbn; lia). clear. induction n as [n IH|n IH|]; cbn; congruence. }
    apply Z.log2_lt_pow2; lia. }
  unfold SFleb in Hle. cbn in Hle. destruct (Z.compare_spec x e) as [->|Hx|Hx]; [| |done].
  - change (Pos.compare_cont Eq n m) with (Pos.compare n m) in Hle. destruct (Pos.compare_spec n m); [..|done]; (split; [lia|]); [subst|]; lia.
  - split; [lia|]. pose proof (Z.pow_le_mono_r 2 53 (k - x)). lia.
Qed.

(** [round] of a bounded float. *)
Lemma round_of_bounded f k :
  bounded_by k f -> 0 <= k -> exists n, py_round f = Ok n /\ Z.abs n <= 2 ^ k /\ (non_negative f = true -> 0 <= n).
Proof.
  intros Hf Hk. destruct f as [s|s| |s m e]; try done; cbn [py_round].
  - exists 0. split; [done|]. pose proof (Z.pow_pos_nonneg 2 k). split; [lia|done].
  - destruct Hf as [He Hm]. set (n := if 0 <=? e then _ else _). assert (0 <= n <= 2 ^ k) as Hn.
    { unfold n. destruct (Z.leb_spec 0 e).
      - replace k with ((k - e) + e) by lia. rewrite Z.pow_add_r by lia. pose proof (Z.pow_pos_nonneg 2 e). nia.
      - replace (k - e) with (k + - e) in Hm by lia. rewrite Z.pow_add_r in Hm by lia. set (d := 2 ^ (- e)) in *.
        assert (0 < d) as Hd by (apply Z.pow_pos_nonneg; lia). pose proof (round_half_even_near (Z.pos m) d Hd). nia. }
    exists (if s then - n else n). split; [done|]. destruct s; cbn; split; try lia; done.
Qed.
