(* ===== verification/SpacePacket.v ===== *)
(** * Space packets and command frames: [mission_ground/common/packet.py]

    The primary header, the checksum, the health and acknowledgement payloads, and the command frame of
    the spacecraft link, with round trips in both directions, exact conditions of success and the
    detection of burst errors. *)
From S2P Require Import Prelude PyStruct PyFloat Crc32.

Open Scope Z_scope.

Module SpacePacket.

(** ** Constants *)

Definition PRIMARY_HEADER : list fmt := [fH; fH; fH].
Definition CRC : list fmt := [fI].
Definition HEALTH_PAYLOAD : list fmt := [fQ; fH; fh; fi; fB; fB].
Definition ACK_PAYLOAD : list fmt := [fI; fB; fi; fQ].
Definition COMMAND_PAYLOAD : list fmt := [fI; fB; fi; fQ].

Definition APID_HEALTH : Z := 100.
Definition APID_COMMAND_ACK : Z := 101.
Definition MAX_SEQUENCE : Z := Z.shiftl 1 14 - 1.

(** ** Errors

    [PacketError], or what a call to [struct] or [round] raises; the latter are not caught by the
    handlers of [PacketError]. *)
Inductive packet_exn :=
| PacketError (message : string)
| StructFailure (e : struct_error)
| RoundFailure (e : round_error).

Definition of_struct {A} (m : result struct_error A) : result packet_exn A :=
  catch m (fun e => Raise (StructFailure e)).
Definition of_round {A} (m : result round_error A) : result packet_exn A :=
  catch m (fun e => Raise (RoundFailure e)).

(** ** Data *)

Record Packet := mk_packet {
  apid : Z;
  sequence_count : Z;
  payload : bytes;
  packet_type : Z
}.

Record HealthTelemetry := mk_health {
  timestamp_ns : Z;
  bus_voltage_v : float;
  battery_temp_c : float;
  wheel_rpm : Z;
  mode : Z;
  fault_flags : Z
}.

Record CommandAck := mk_ack {
  ack_command_id : Z;
  status : Z;
  applied_value : Z;
  ack_timestamp_ns : Z
}.

Record CommandFrame := mk_command {
  command_id : Z;
  opcode : Z;
  argument : Z;
  issued_ns : Z
}.

#[export] Instance CommandAck_eq_dec : EqDecision CommandAck.
Proof. solve_decision. Defined.
#[export] Instance CommandFrame_eq_dec : EqDecision CommandFrame.
Proof. solve_decision. Defined.
#[export] Instance Packet_eq_dec : EqDecision Packet.
Proof. solve_decision. Defined.

(** [raw[:-n]] and [raw[-n:]] for a positive [n]. *)
Definition but_last (n : nat) (raw : bytes) : bytes := take (length raw - n) raw.
Definition last_bytes (n : nat) (raw : bytes) : bytes := drop (length raw - n) raw.

Definition crc_of (data : bytes) : Z := Z.land (zlib_crc32 data) 0xFFFFFFFF.

(** ** The packet *)

Definition _validate_apid (n : Z) : result packet_exn unit :=
  raise: PacketError ("APID out of range: " +:+ pretty n) when negb ((0 <=? n) && (n <=? 0x7FF)) ;;
  Ok tt.

Definition encode_space_packet (apid sequence_count : Z) (payload : bytes) (packet_type : Z)
  : result packet_exn bytes :=
  _validate_apid apid ;;
  raise: PacketError "packet_type must be 0 (telemetry) or 1 (command)"
    when negb ((packet_type =? 0) || (packet_type =? 1)) ;;
  raise: PacketError ("sequence_count out of range: " +:+ pretty sequence_count)
    when negb ((0 <=? sequence_count) && (sequence_count <=? MAX_SEQUENCE)) ;;
  raise: PacketError "payload must not be empty" when bool_decide (payload = []) ;;
  let first_word := Z.lor (Z.lor (Z.shiftl packet_type 12) (Z.shiftl 1 11)) apid in
  let second_word := Z.lor (Z.shiftl 3 14) sequence_count in
  let data_length := Z.of_nat (length payload) + Z.of_nat (calcsize CRC) - 1 in
  header ← of_struct (pack PRIMARY_HEADER [first_word; second_word; data_length]);
  let checksum := crc_of (header ++ payload) in
  trailer ← of_struct (pack CRC [checksum]);
  Ok (header ++ payload ++ trailer).

Definition decode_space_packet (raw : bytes) : result packet_exn Packet :=
  raise: PacketError "packet is too short"
    when (length raw <? calcsize PRIMARY_HEADER + calcsize CRC + 1)%nat ;;
  header ← of_struct (unpack PRIMARY_HEADER (take (calcsize PRIMARY_HEADER) raw));
  match header with
  | [first_word; second_word; data_length] =>
      let expected_total := Z.of_nat (calcsize PRIMARY_HEADER) + data_length + 1 in
      raise: PacketError ("length mismatch: expected " +:+ pretty expected_total +:+ ", got "
                          +:+ pretty (Z.of_nat (length raw)))
        when negb (Z.of_nat (length raw) =? expected_total) ;;
      trailer ← of_struct (unpack CRC (last_bytes (calcsize CRC) raw));
      let expected_crc := default 0 (trailer !! 0%nat) in
      let actual_crc := crc_of (but_last (calcsize CRC) raw) in
      raise: PacketError "CRC mismatch" when negb (expected_crc =? actual_crc) ;;
      let version := Z.land (Z.shiftr first_word 13) 7 in
      raise: PacketError ("unsupported packet version: " +:+ pretty version) when negb (version =? 0) ;;
      Ok {| packet_type := Z.land (Z.shiftr first_word 12) 1;
            apid := Z.land first_word 0x7FF;
            sequence_count := Z.land second_word MAX_SEQUENCE;
            payload := drop (calcsize PRIMARY_HEADER) (but_last (calcsize CRC) raw) |}
  | _ => Raise (StructFailure StructError)
  end.

(** ** Health samples *)

Definition encode_health (sequence_count : Z) (sample : HealthTelemetry) : result packet_exn bytes :=
  millivolts ← of_round (py_round (float_mul (bus_voltage_v sample) (float_of_Z 1000)));
  centidegrees ← of_round (py_round (float_mul (battery_temp_c sample) (float_of_Z 100)));
  payload ← of_struct (pack HEALTH_PAYLOAD
    [timestamp_ns sample; millivolts; centidegrees; wheel_rpm sample; mode sample; fault_flags sample]);
  encode_space_packet APID_HEALTH sequence_count payload 0.

Definition decode_health (packet : Packet) : result packet_exn HealthTelemetry :=
  raise: PacketError ("expected health APID " +:+ pretty APID_HEALTH +:+ ", got " +:+ pretty (apid packet))
    when negb (apid packet =? APID_HEALTH) ;;
  raise: PacketError "invalid health payload length"
    when negb (bool_decide (length (payload packet) = calcsize HEALTH_PAYLOAD)) ;;
  fields ← of_struct (unpack HEALTH_PAYLOAD (payload packet));
  match fields with
  | [ts; millivolts; centidegrees; rpm; mode; flags] =>
      Ok (mk_health ts (float_div (float_of_Z millivolts) (float_of_Z 1000))
            (float_div (float_of_Z centidegrees) (float_of_Z 100)) rpm mode flags)
  | _ => Raise (StructFailure StructError)
  end.

(** ** Acknowledgements and commands *)

Definition encode_ack (sequence_count : Z) (ack : CommandAck) : result packet_exn bytes :=
  payload ← of_struct (pack ACK_PAYLOAD
    [ack_command_id ack; status ack; applied_value ack; ack_timestamp_ns ack]);
  encode_space_packet APID_COMMAND_ACK sequence_count payload 0.

Definition decode_ack (packet : Packet) : result packet_exn CommandAck :=
  raise: PacketError ("expected ACK APID " +:+ pretty APID_COMMAND_ACK +:+ ", got " +:+ pretty (apid packet))
    when negb (apid packet =? APID_COMMAND_ACK) ;;
  raise: PacketError "invalid ACK payload length"
    when negb (bool_decide (length (payload packet) = calcsize ACK_PAYLOAD)) ;;
  fields ← of_struct (unpack ACK_PAYLOAD (payload packet));
  match fields with
  | [id; st; applied; ts] => Ok (mk_ack id st applied ts)
  | _ => Raise (StructFailure StructError)
  end.

Definition encode_command (frame : CommandFrame) : result packet_exn bytes :=
  payload ← of_struct (pack COMMAND_PAYLOAD [command_id frame; opcode frame; argument frame; issued_ns frame]);
  trailer ← of_struct (pack CRC [crc_of payload]);
  Ok (payload ++ trailer).

Definition decode_command (raw : bytes) : result packet_exn CommandFrame :=
  raise: PacketError "invalid command frame length"
    when negb (bool_decide (length raw = calcsize COMMAND_PAYLOAD + calcsize CRC)%nat) ;;
  let payload := but_last (calcsize CRC) raw in
  trailer ← of_struct (unpack CRC (last_bytes (calcsize CRC) raw));
  let expected := default 0 (trailer !! 0%nat) in
  let actual := crc_of payload in
  raise: PacketError "command CRC mismatch" when negb (expected =? actual) ;;
  fields ← of_struct (unpack COMMAND_PAYLOAD payload);
  match fields with
  | [id; op; arg; ts] => Ok (mk_command id op arg ts)
  | _ => Raise (StructFailure StructError)
  end.

(** ** Header words *)

Lemma lor_shiftl a b n : 0 <= n -> 0 <= b < 2 ^ n -> Z.lor (Z.shiftl a n) b = a * 2 ^ n + b.
Proof.
  intros Hn Hb. assert (Z.land (Z.shiftl a n) b = 0) as Hl.
  { apply Z.bits_inj'. intros i Hi. rewrite Z.land_spec, Z.bits_0. destruct (Z.ltb_spec i n).
    - by rewrite Z.shiftl_spec_low.
    - by rewrite (proj1 (bounded_bits n b Hn (proj1 Hb)) Hb i), andb_false_r. }
  by rewrite <- Z.lxor_lor, <- Z.add_nocarry_lxor, Z.shiftl_mul_pow2.
Qed.

Lemma first_word_value t n :
  0 <= t <= 1 -> 0 <= n <= 0x7FF -> Z.lor (Z.lor (Z.shiftl t 12) (Z.shiftl 1 11)) n = t * 4096 + 2048 + n.
Proof.
  intros Ht Hn. rewrite (lor_shiftl t) by (vm_compute; done).
  replace (t * 2 ^ 12 + Z.shiftl 1 11) with (Z.shiftl (2 * t + 1) 11)
    by (rewrite Z.shiftl_mul_pow2 by lia; change (Z.shiftl 1 11) with 2048; lia).
  rewrite lor_shiftl by lia. lia.
Qed.

Lemma second_word_value s : 0 <= s <= MAX_SEQUENCE -> Z.lor (Z.shiftl 3 14) s = 49152 + s.
Proof. change MAX_SEQUENCE with 16383. intros Hs. rewrite lor_shiftl by lia. lia. Qed.

Lemma land_low x n : 0 <= n -> Z.land x (Z.ones n) = x mod 2 ^ n.
Proof. intros. by apply Z.land_ones. Qed.

(** The fields of a header word. *)
Lemma version_field w : 0 <= w < 65536 -> Z.land (Z.shiftr w 13) 7 = w / 8192.
Proof. intros. change 7 with (Z.ones 3). rewrite land_low, Z.shiftr_div_pow2 by lia.
  change (2 ^ 13) with 8192. change (2 ^ 3) with 8. apply Z.mod_small. Z.to_euclidean_division_equations. lia.
Qed.
Lemma type_field w : Z.land (Z.shiftr w 12) 1 = w / 4096 mod 2.
Proof. change 4096 with (2 ^ 12). rewrite <- Z.shiftr_div_pow2 by lia. exact (land_low (Z.shiftr w 12) 1 ltac:(lia)). Qed.
Lemma apid_field w : Z.land w 0x7FF = w mod 2048.
Proof. change 0x7FF with (Z.ones 11). by rewrite land_low by lia. Qed.
Lemma sequence_field w : Z.land w MAX_SEQUENCE = w mod 16384.
Proof. change MAX_SEQUENCE with (Z.ones 14). by rewrite land_low by lia. Qed.

Lemma crc_of_spec data : crc_of data = zlib_crc32 data.
Proof.
  unfold crc_of. change 0xFFFFFFFF with (Z.ones 32). rewrite land_low by lia.
  apply Z.mod_small, zlib_crc32_u32.
Qed.

(** ** The bytes of a packet, read by position *)

(** The 16-bit word [i] of the header. *)
Definition word (i : nat) (raw : bytes) : Z := be_decode (take 2 (drop (2 * i) raw)).

(** The last four bytes are the checksum of the others. *)
Definition sealed (raw : bytes) : Prop := be_decode (last_bytes 4 raw) = zlib_crc32 (but_last 4 raw).

#[export] Instance sealed_dec raw : Decision (sealed raw) := decide (_ = _).

Definition well_formed (raw : bytes) : Prop :=
  (11 <= length raw)%nat /\ Z.of_nat (length raw) = 7 + word 2 raw /\ sealed raw /\ word 0 raw < 8192.

#[export] Instance well_formed_dec raw : Decision (well_formed raw).
Proof. unfold well_formed. apply _. Defined.

Definition packet_at (raw : bytes) : Packet := {|
  apid := word 0 raw mod 2048;
  sequence_count := word 1 raw mod 16384;
  payload := drop 6 (but_last 4 raw);
  packet_type := word 0 raw / 4096 mod 2 |}.

Lemma last_bytes_length n raw : (n <= length raw)%nat -> length (last_bytes n raw) = n.
Proof. intros. unfold last_bytes. rewrite length_drop. lia. Qed.

Lemma but_last_last n raw : but_last n raw ++ last_bytes n raw = raw.
Proof. apply take_drop. Qed.

Lemma but_last_app a b n : length b = n -> but_last n (a ++ b) = a /\ last_bytes n (a ++ b) = b.
Proof.
  intros <-. unfold but_last, last_bytes. rewrite length_app, Nat.add_sub.
  rewrite take_app_length, drop_app_length. done.
Qed.

Lemma unpack_seal bs : length bs = 4%nat -> unpack CRC bs = Ok [be_decode bs].
Proof. intros Hl. unfold unpack. rewrite bool_decide_true by done. cbn. by rewrite take_ge by lia. Qed.

Lemma pack_crc_ok data : exists crc, pack CRC [crc_of data] = Ok crc /\ length crc = 4%nat /\ be_decode crc = zlib_crc32 data.
Proof.
  destruct (proj2 (pack_ok_iff CRC [crc_of data])) as [crc Hc].
  { rewrite crc_of_spec. pose proof (zlib_crc32_u32 data) as Hu. unfold u32 in Hu. unfold CRC. solve_fits. }
  exists crc. pose proof (pack_length _ _ _ Hc) as Hl. split; [done|]. split; [done|].
  apply unpack_pack in Hc. rewrite unpack_seal, crc_of_spec in Hc by done. by simplify_eq.
Qed.

Lemma unpack_header raw :
  (6 <= length raw)%nat -> unpack PRIMARY_HEADER (take 6 raw) = Ok [word 0 raw; word 1 raw; word 2 raw].
Proof.
  intros Hl. do 6 (destruct raw as [|? raw]; [cbn in Hl; lia|]). done.
Qed.

Lemma word_range i raw : 0 <= word i raw < 65536.
Proof.
  pose proof (be_decode_range (take 2 (drop (2 * i) raw))) as Hr. unfold word.
  pose proof (Z.pow_le_mono_r 256 (Z.of_nat (length (take 2 (drop (2 * i) raw)))) 2 ltac:(lia)
    ltac:(rewrite length_take; lia)). lia.
Qed.

(** The decoder in terms of positions: its result and its only kind of error. *)
Lemma decode_packet_cases raw :
  (well_formed raw /\ decode_space_packet raw = Ok (packet_at raw)) \/
  (~ well_formed raw /\ exists m, decode_space_packet raw = Raise (PacketError m)).
Proof.
  unfold decode_space_packet, well_formed, sealed. change (calcsize PRIMARY_HEADER) with 6%nat. change (calcsize CRC) with 4%nat.
  destruct (Nat.ltb_spec (length raw) (6 + 4 + 1)) as [Hs|Hl]; [right; split; [lia|by eexists]|].
  rewrite unpack_header by lia. cbn [of_struct catch mbind result_bind].
  destruct (Z.eqb_spec (Z.of_nat (length raw)) (Z.of_nat 6 + word 2 raw + 1)) as [Hw|Hw]; cbn [negb];
    [|right; split; [lia|by eexists]].
  rewrite unpack_seal, crc_of_spec by (apply last_bytes_length; lia). cbn [of_struct catch mbind result_bind default lookup list_lookup from_option id].
  destruct (Z.eqb_spec (be_decode (last_bytes 4 raw)) (zlib_crc32 (but_last 4 raw))) as [Hc|Hc]; cbn [negb];
    [|right; split; [tauto|by eexists]].
  pose proof (word_range 0 raw) as Hr. rewrite version_field by done.
  destruct (Z.eqb_spec (word 0 raw / 8192) 0) as [Hv|Hv]; cbn [negb]; [left|right].
  - split; [split_and!; [lia|lia|done|Z.to_euclidean_division_equations; lia]|]. unfold packet_at. by rewrite type_field, apid_field, sequence_field.
  - split; [Z.to_euclidean_division_equations; lia|by eexists].
Qed.

(** ** Encoding *)

Definition packet_fits (p : Packet) : Prop :=
  0 <= apid p <= 0x7FF /\ 0 <= packet_type p <= 1 /\ 0 <= sequence_count p <= MAX_SEQUENCE /\
  payload p <> [] /\ Z.of_nat (length (payload p)) <= 65532.

Lemma of_struct_ok {A} (m : result struct_error A) a : of_struct m = Ok a <-> m = Ok a.
Proof. unfold of_struct. destruct m; cbn; split; intros H; by simplify_eq. Qed.

(** The header that the encoder writes, read back. *)
Lemma header_words t n s d header rest :
  0 <= t <= 1 -> 0 <= n <= 0x7FF -> 0 <= s <= MAX_SEQUENCE ->
  pack PRIMARY_HEADER [Z.lor (Z.lor (Z.shiftl t 12) (Z.shiftl 1 11)) n; Z.lor (Z.shiftl 3 14) s; d] = Ok header ->
  length header = 6%nat /\ word 0 (header ++ rest) = t * 4096 + 2048 + n /\
  word 1 (header ++ rest) = 49152 + s /\ word 2 (header ++ rest) = d.
Proof.
  intros Ht Hn Hs Hp. rewrite first_word_value, second_word_value in Hp by done.
  pose proof (pack_length _ _ _ Hp) as Hl. change (calcsize _) with 6%nat in Hl. split; [done|].
  apply unpack_pack in Hp. pose proof (unpack_header (header ++ rest)) as Hu.
  rewrite take_app_length' in Hu by done. rewrite Hp in Hu.
  specialize (Hu ltac:(rewrite length_app; lia)). by injection Hu as <- <- <-.
Qed.

Lemma encode_packet_total p :
  packet_fits p -> exists raw, encode_space_packet (apid p) (sequence_count p) (payload p) (packet_type p) = Ok raw.
Proof.
  intros (Ha & Ht & Hs & Hne & Hl). unfold encode_space_packet, _validate_apid.
  pose proof (first_word_value _ _ Ht Ha) as Hw1. pose proof (second_word_value _ Hs) as Hw2.
  change MAX_SEQUENCE with 16383 in *.
  destruct (pack_ok_iff PRIMARY_HEADER [Z.lor (Z.lor (Z.shiftl (packet_type p) 12) (Z.shiftl 1 11)) (apid p);
    Z.lor (Z.shiftl 3 14) (sequence_count p); Z.of_nat (length (payload p)) + Z.of_nat (calcsize CRC) - 1]) as [_ Hp].
  destruct Hp as [header Hh].
  { rewrite Hw1, Hw2. change (calcsize CRC) with 4%nat. unfold PRIMARY_HEADER. solve_fits. }
  destruct (pack_crc_ok (header ++ payload p)) as (crc & Hc & _). exists (header ++ payload p ++ crc).
  destruct (negb ((0 <=? apid p) && (apid p <=? 0x7FF))) eqn:?; bool_to_prop; [lia|]. cbn [mbind result_bind].
  rewrite bool_decide_false by done. pass_guards. rewrite Hh. cbn [of_struct catch mbind result_bind]. by rewrite Hc.
Qed.

Lemma encode_packet_inv n s pl t raw :
  encode_space_packet n s pl t = Ok raw ->
  packet_fits (mk_packet n s pl t) /\ decode_space_packet raw = Ok (mk_packet n s pl t) /\
  length raw = (10 + length pl)%nat.
Proof.
  intros He. unfold encode_space_packet, _validate_apid in He. follow_ok He. injection He as <-.
  rename v0 into header, v1 into crc. follow_ok Hrun. clear Hrun. apply of_struct_ok in Hrun0 as Hh, Hrun1 as Hc.
  bool_to_prop. change MAX_SEQUENCE with 16383 in *.
  assert (0 <= t <= 1) as Ht by lia.
  destruct (header_words t n s _ header (pl ++ crc) Ht ltac:(lia) ltac:(change MAX_SEQUENCE with 16383; lia) Hh)
    as (Hl & Hw0 & Hw1 & Hw2).
  destruct (pack_crc_ok (header ++ pl)) as (crc' & Hc' & Hcl & Hcv).
  assert (crc' = crc) as -> by congruence.
  change (calcsize CRC) with 4%nat in *.
  pose proof (word_range 2 (header ++ pl ++ crc)) as Hr. rewrite Hw2 in Hr.
  assert (length (header ++ pl ++ crc) = (10 + length pl)%nat) as Hlen by (rewrite !length_app; lia).
  destruct (but_last_app (header ++ pl) crc 4 Hcl) as [Hb Hlast]. rewrite <- app_assoc in Hb, Hlast.
  assert (0 < length pl)%nat by (destruct pl; [done|cbn; lia]).
  split; [by unfold packet_fits; cbn; change MAX_SEQUENCE with 16383; split_and!; try lia|].
  split; [|done].
  destruct (decode_packet_cases (header ++ pl ++ crc)) as [[_ ->]|[Hn _]].
  - unfold packet_at. rewrite Hw0, Hw1, Hb, drop_app_length' by done. f_equal. f_equal; Z.to_euclidean_division_equations; lia.
  - exfalso. apply Hn. unfold well_formed, sealed. rewrite Hlast, Hb, Hw0, Hw2, Hlen, Hcv. split_and!; try done; lia.
Qed.

(** ** Command frames *)

(** The seal is broken by a change of up to four consecutive bytes of the data, or of the checksum. *)
Lemma burst_breaks_seal pre bs cs post :
  length bs = length cs -> (length bs <= 4)%nat -> bs <> cs ->
  (4 <= length post \/ (length bs + length post <= 4)%nat)%nat ->
  (4 <= length (pre ++ bs ++ post))%nat -> sealed (pre ++ bs ++ post) -> ~ sealed (pre ++ cs ++ post).
Proof.
  intros Hbc H4 Hne Hwin Hl Hs Hs'. apply Hne. unfold sealed in *.
  assert (length (pre ++ cs ++ post) = length (pre ++ bs ++ post)) as Hlen by (rewrite !length_app; lia).
  unfold but_last, last_bytes in *. rewrite Hlen in Hs'. rewrite !length_app in *.
  destruct Hwin as [Hp|Hp].
  - set (k := (length post - 4)%nat). 
    assert (forall x, length x = length bs -> pre ++ x ++ post = (pre ++ x ++ take k post) ++ drop k post) as Hsplit
      by (intros x _; rewrite <- !app_assoc, take_drop; done).
    assert (length (take k post) = k) as Hk by (rewrite length_take; lia).
    rewrite (Hsplit bs), take_app_length', drop_app_length' in Hs by (rewrite ?length_app; lia).
    rewrite (Hsplit cs), take_app_length', drop_app_length' in Hs' by (rewrite ?length_app; lia).
    apply (crc32_detects_burst pre bs cs (take k post)); [done|done|congruence].
  - rewrite !take_app_le, !drop_app_le in * by lia. rewrite <- Hs' in Hs.
    apply be_decode_inj in Hs; [|rewrite !length_app, !length_drop; lia].
    apply app_inv_head in Hs. by apply app_inv_tail in Hs.
Qed.

Definition command_values (f : CommandFrame) : list Z := [command_id f; opcode f; argument f; issued_ns f].

Lemma unpack_command bs : length bs = 17%nat -> exists f, unpack COMMAND_PAYLOAD bs = Ok (command_values f).
Proof.
  intros Hl. destruct (unpack_total COMMAND_PAYLOAD bs Hl) as [vs Hu]. rewrite Hu.
  unfold unpack in Hu. rewrite bool_decide_true in Hu by done. injection Hu as <-.
  by eexists (mk_command _ _ _ _).
Qed.

(** What the command decoder does, by position. *)
Lemma decode_command_cases raw :
  (exists f, length raw = 21%nat /\ sealed raw /\ unpack COMMAND_PAYLOAD (but_last 4 raw) = Ok (command_values f) /\
     decode_command raw = Ok f) \/
  (~ (length raw = 21%nat /\ sealed raw) /\ exists m, decode_command raw = Raise (PacketError m)).
Proof.
  unfold decode_command, sealed. change (calcsize COMMAND_PAYLOAD + calcsize CRC)%nat with 21%nat. change (calcsize CRC) with 4%nat.
  case_bool_decide as Hl; cbn [negb]; [|right; split; [tauto|by eexists]].
  rewrite unpack_seal, crc_of_spec by (apply last_bytes_length; lia).
  cbn [of_struct catch mbind result_bind default lookup list_lookup from_option id].
  destruct (Z.eqb_spec (be_decode (last_bytes 4 raw)) (zlib_crc32 (but_last 4 raw))) as [Hc|Hc]; cbn [negb];
    [|right; split; [tauto|by eexists]].
  destruct (unpack_command (but_last 4 raw)) as [f Hf]; [unfold but_last; rewrite length_take; lia|].
  left. exists f. rewrite Hf. cbn. by destruct f.
Qed.

Lemma encode_command_inv f raw :
  encode_command f = Ok raw <->
  length raw = 21%nat /\ sealed raw /\ pack COMMAND_PAYLOAD (command_values f) = Ok (but_last 4 raw).
Proof.
  unfold encode_command. fold (command_values f). split.
  - intros (body & Hb%of_struct_ok & (crc & Hc%of_struct_ok & [= <-])%bind_ok)%bind_ok.
    destruct (pack_crc_ok body) as (crc' & Hc' & Hcl & Hcv). assert (crc' = crc) as -> by congruence.
    pose proof (pack_length _ _ _ Hb) as Hl. change (calcsize _) with 17%nat in Hl.
    destruct (but_last_app body crc 4 Hcl) as [Hbl Hlast]. unfold sealed. rewrite length_app, Hbl, Hlast, Hcv.
    split_and!; [lia|done|done].
  - intros (Hl & Hs & Hp). rewrite Hp. cbn [of_struct catch mbind result_bind].
    destruct (pack_crc_ok (but_last 4 raw)) as (crc & -> & Hcl & Hcv). cbn [of_struct catch mbind result_bind].
    f_equal. rewrite <- (but_last_last 4 raw) at 2. f_equal. apply be_decode_inj; [|by rewrite Hcv].
    rewrite last_bytes_length; lia.
Qed.

Lemma decode_command_ok raw f : decode_command raw = Ok f <-> encode_command f = Ok raw.
Proof.
  rewrite encode_command_inv. destruct (decode_command_cases raw) as [(f' & Hl & Hs & Hu & ->)|[Hn [m ->]]].
  - split; [intros [= <-]; split_and!; [done|done|by apply pack_unpack]|].
    intros (_ & _ & Hp). apply unpack_pack in Hp. rewrite Hu in Hp. destruct f, f'. unfold command_values in Hp. cbn in Hp. by simplify_eq.
  - split; [done|]. intros (Hl & Hs & _). by destruct Hn.
Qed.

Lemma decode_command_raises raw e : decode_command raw = Raise e -> exists m, e = PacketError m.
Proof. destruct (decode_command_cases raw) as [(f & _ & _ & _ & ->)|[_ [m ->]]]; [done|]. intros [= <-]. by exists m. Qed.

Definition command_fits (f : CommandFrame) : Prop :=
  0 <= command_id f < 2 ^ 32 /\ 0 <= opcode f < 2 ^ 8 /\ - 2 ^ 31 <= argument f < 2 ^ 31 /\ 0 <= issued_ns f < 2 ^ 64.

Lemma encode_command_total f : command_fits f -> exists raw, encode_command f = Ok raw.
Proof.
  intros (? & ? & ? & ?). unfold encode_command.
  destruct (proj2 (pack_ok_iff COMMAND_PAYLOAD (command_values f))) as [body Hb].
  { unfold COMMAND_PAYLOAD, command_values. solve_fits. }
  fold (command_values f). rewrite Hb. cbn [of_struct catch mbind result_bind].
  destruct (pack_crc_ok body) as (crc & -> & _). by eexists.
Qed.

(** ** Acknowledgements and health samples *)

Definition ack_values (a : CommandAck) : list Z := [ack_command_id a; status a; applied_value a; ack_timestamp_ns a].

Definition ack_fits (a : CommandAck) : Prop :=
  0 <= ack_command_id a < 2 ^ 32 /\ 0 <= status a < 2 ^ 8 /\ - 2 ^ 31 <= applied_value a < 2 ^ 31 /\
  0 <= ack_timestamp_ns a < 2 ^ 64.

Lemma encode_ack_total s a :
  0 <= s <= MAX_SEQUENCE -> ack_fits a ->
  exists raw p, encode_ack s a = Ok raw /\ decode_space_packet raw = Ok p /\ apid p = APID_COMMAND_ACK /\
    sequence_count p = s /\ decode_ack p = Ok a.
Proof.
  intros Hs (? & ? & ? & ?). unfold encode_ack. fold (ack_values a).
  destruct (proj2 (pack_ok_iff ACK_PAYLOAD (ack_values a))) as [body Hb].
  { unfold ACK_PAYLOAD, ack_values. solve_fits. }
  pose proof (pack_length _ _ _ Hb) as Hl. change (calcsize _) with 17%nat in Hl.
  rewrite Hb. cbn [of_struct catch mbind result_bind].
  destruct (encode_packet_total (mk_packet APID_COMMAND_ACK s body 0)) as [raw He].
  { unfold packet_fits, APID_COMMAND_ACK; cbn. rewrite Hl. split_and!; try lia. by destruct body. }
  cbn [apid sequence_count payload packet_type] in He. exists raw, (mk_packet APID_COMMAND_ACK s body 0). split; [done|].
  apply encode_packet_inv in He as (_ & -> & _). split_and!; try done.
  unfold decode_ack. cbn [payload apid]. rewrite bool_decide_true by done. rewrite (unpack_pack _ _ _ Hb).
  cbn. by destruct a.
Qed.

(** An encoded acknowledgement decodes to the acknowledgement, whatever its values. *)
Lemma encode_ack_inv s a raw p :
  encode_ack s a = Ok raw -> decode_space_packet raw = Ok p -> apid p = APID_COMMAND_ACK /\ decode_ack p = Ok a.
Proof.
  unfold encode_ack. intros (body & Hb%of_struct_ok & (_ & Hd & _)%encode_packet_inv)%bind_ok Hp.
  assert (p = mk_packet APID_COMMAND_ACK s body 0) as -> by congruence. split; [done|].
  pose proof (pack_length _ _ _ Hb) as Hl. unfold decode_ack. cbn [payload apid].
  rewrite bool_decide_true by done. rewrite (unpack_pack _ _ _ Hb). cbn. by destruct a.
Qed.

Definition health_values (h : HealthTelemetry) (mv cd : Z) : list Z :=
  [timestamp_ns h; mv; cd; wheel_rpm h; mode h; fault_flags h].

(** The sample as the ground decodes it: the two analogue values in steps of the wire unit. *)
Definition quantised (h : HealthTelemetry) (mv cd : Z) : HealthTelemetry :=
  mk_health (timestamp_ns h) (float_div (float_of_Z mv) (float_of_Z 1000)) (float_div (float_of_Z cd) (float_of_Z 100))
    (wheel_rpm h) (mode h) (fault_flags h).

Definition health_fits (h : HealthTelemetry) (mv cd : Z) : Prop :=
  py_round (float_mul (bus_voltage_v h) (float_of_Z 1000)) = Ok mv /\
  py_round (float_mul (battery_temp_c h) (float_of_Z 100)) = Ok cd /\
  0 <= timestamp_ns h < 2 ^ 64 /\ 0 <= mv < 2 ^ 16 /\ - 2 ^ 15 <= cd < 2 ^ 15 /\ - 2 ^ 31 <= wheel_rpm h < 2 ^ 31 /\
  0 <= mode h < 2 ^ 8 /\ 0 <= fault_flags h < 2 ^ 8.

Lemma encode_health_total s h mv cd :
  0 <= s <= MAX_SEQUENCE -> health_fits h mv cd ->
  exists raw p, encode_health s h = Ok raw /\ decode_space_packet raw = Ok p /\ apid p = APID_HEALTH /\
    sequence_count p = s /\ decode_health p = Ok (quantised h mv cd).
Proof.
  intros Hs (Hm & Hc & ? & ? & ? & ? & ? & ?). unfold encode_health. rewrite Hm, Hc. cbn [of_round catch mbind result_bind].
  fold (health_values h mv cd).
  destruct (proj2 (pack_ok_iff HEALTH_PAYLOAD (health_values h mv cd))) as [body Hb].
  { unfold HEALTH_PAYLOAD, health_values. solve_fits. }
  pose proof (pack_length _ _ _ Hb) as Hl. change (calcsize _) with 18%nat in Hl.
  rewrite Hb. cbn [of_struct catch mbind result_bind].
  destruct (encode_packet_total (mk_packet APID_HEALTH s body 0)) as [raw He].
  { unfold packet_fits, APID_HEALTH; cbn. rewrite Hl. split_and!; try lia. by destruct body. }
  cbn [apid sequence_count payload packet_type] in He. exists raw, (mk_packet APID_HEALTH s body 0). split; [done|].
  apply encode_packet_inv in He as (_ & -> & _). split_and!; try done.
  unfold decode_health. cbn [payload apid]. rewrite bool_decide_true by done. by rewrite (unpack_pack _ _ _ Hb).
Qed.

Lemma encode_health_inv s h raw p :
  encode_health s h = Ok raw -> decode_space_packet raw = Ok p -> apid p = APID_HEALTH.
Proof.
  unfold encode_health. intros He Hp. follow_ok He. apply encode_packet_inv in He as (_ & Hd & _).
  rewrite Hd in Hp. by injection Hp as <-.
Qed.

Lemma decode_ack_apid p a : decode_ack p = Ok a -> apid p = APID_COMMAND_ACK.
Proof. unfold decode_ack. destruct (Z.eqb_spec (apid p) APID_COMMAND_ACK); [done|]. by intros. Qed.

(** ** Properties *)

Definition sample_packet : Packet := mk_packet 100 7 (map byte_of [1; 2; 3]) 0.
Definition sample_command : CommandFrame := mk_command 42 2 (-1500) 1_784_203_200_000_000_000.

(** C14. Round trip and exact domain of a space packet: encoding succeeds for exactly the packets with an
    11-bit application identifier, a 14-bit sequence count, type 0 or 1 and a payload of 1 to 65532 bytes;
    the encoded packet is ten bytes longer than its payload and decodes to the packet encoded. *)
Theorem packet_roundtrip p :
  ((exists raw, encode_space_packet (apid p) (sequence_count p) (payload p) (packet_type p) = Ok raw) <-> packet_fits p) /\
  forall raw, encode_space_packet (apid p) (sequence_count p) (payload p) (packet_type p) = Ok raw ->
    length raw = (10 + length (payload p))%nat /\ decode_space_packet raw = Ok p.
Proof.
  destruct p as [n s pl t]. split; [split|].
  - by intros [raw (Hf & _)%encode_packet_inv].
  - apply encode_packet_total.
  - by intros raw (_ & Hd & Hl)%encode_packet_inv.
Qed.

(** Decoding received bytes is total and exact: a body is accepted when and only when it is at least
    eleven bytes long, its length field and its checksum are right and its version is 0, the fields are
    those at the header's positions, and any other body raises PacketError, never another exception. *)
Theorem decode_space_packet_exact raw :
  match decode_space_packet raw with
  | Ok p => well_formed raw /\ p = packet_at raw
  | Raise e => ~ well_formed raw /\ exists m, e = PacketError m
  end.
Proof. destruct (decode_packet_cases raw) as [[Hw ->]|[Hw [m ->]]]; [done|by split; [|exists m]]. Qed.

(** C15. Command frames and byte strings correspond one to one: a string decodes to a frame exactly when
    the frame encodes to that string, and every other string raises PacketError. *)
Theorem command_frame_exact raw :
  match decode_command raw with
  | Ok f => encode_command f = Ok raw
  | Raise e => (forall f, encode_command f <> Ok raw) /\ exists m, e = PacketError m
  end.
Proof.
  destruct (decode_command raw) as [f|e] eqn:Hd; [by apply decode_command_ok|].
  split; [|by eapply decode_command_raises]. intros f Hf%decode_command_ok. congruence.
Qed.

End SpacePacket.
