(* ===== verification/Commands.v ===== *)
(** * The command table: [mission_ground/common/commands.py] *)
From S2P Require Import Prelude.

Open Scope Z_scope.

Module Commands.

Record CommandDefinition := mk_definition { opcode : Z; minimum : Z; maximum : Z }.

#[export] Instance CommandDefinition_eq_dec : EqDecision CommandDefinition.
Proof. solve_decision. Defined.

Definition COMMANDS : gmap string CommandDefinition := list_to_map [
  ("SET_MODE", mk_definition 1 0 3);
  ("SET_WHEEL_RPM", mk_definition 2 (-6000) 6000);
  ("RESET_FAULTS", mk_definition 3 0 0)].

Definition OPCODE_TO_NAME : gmap Z string :=
  list_to_map ((fun '(name, definition) => (opcode definition, name)) <$> map_to_list COMMANDS).

Inductive command_error := CommandValidationError (message : string).

Definition validate_command (name : string) (argument : Z) : result command_error CommandDefinition :=
  match COMMANDS !! name with
  | None => Raise (CommandValidationError ("unsupported command: " +:+ name))
  | Some definition =>
      raise: CommandValidationError
        ("argument " +:+ pretty argument +:+ " outside [" +:+ pretty (minimum definition) +:+ ", "
         +:+ pretty (maximum definition) +:+ "] for " +:+ name)
        when negb ((minimum definition <=? argument) && (argument <=? maximum definition)) ;;
      Ok definition
  end.

(** ** The table *)

Lemma COMMANDS_cases name d :
  COMMANDS !! name = Some d <->
  (name = "SET_MODE" /\ d = mk_definition 1 0 3) \/ (name = "SET_WHEEL_RPM" /\ d = mk_definition 2 (-6000) 6000) \/
  (name = "RESET_FAULTS" /\ d = mk_definition 3 0 0).
Proof.
  unfold COMMANDS. split.
  - cbn. rewrite !lookup_insert_Some, lookup_empty. naive_solver.
  - intros [[-> ->]|[[-> ->]|[-> ->]]]; done.
Qed.

Lemma OPCODE_TO_NAME_cases op name :
  OPCODE_TO_NAME !! op = Some name <->
  (op = 1 /\ name = "SET_MODE") \/ (op = 2 /\ name = "SET_WHEEL_RPM") \/ (op = 3 /\ name = "RESET_FAULTS").
Proof.
  assert (OPCODE_TO_NAME = list_to_map [(1, "SET_MODE"); (2, "SET_WHEEL_RPM"); (3, "RESET_FAULTS")]) as ->
    by (apply (bool_decide_eq_true_1 _); vm_compute; reflexivity).
  cbn. rewrite !lookup_insert_Some, lookup_empty. naive_solver.
Qed.

(** [validate_command] returns the definition of a command of the table whose range has the argument. *)
Lemma validate_command_ok name argument d :
  validate_command name argument = Ok d <-> COMMANDS !! name = Some d /\ minimum d <= argument <= maximum d.
Proof.
  unfold validate_command. destruct (COMMANDS !! name) as [d'|]; [|naive_solver].
  destruct (negb _) eqn:Hn; bool_to_prop; split.
  - done.
  - intros [[= <-] ?]. destruct Hn; bool_to_prop; lia.
  - intros [= <-]. by split; [|lia].
  - by intros [[= <-] _].
Qed.

Lemma validate_in_table name argument d :
  COMMANDS !! name = Some d ->
  is_ok (validate_command name argument) = (minimum d <=? argument) && (argument <=? maximum d).
Proof. intros Hd. unfold validate_command. rewrite Hd. by destruct (_ && _). Qed.
End Commands.
