(* ===== verification/PyObject.v ===== *)
(** * Python objects in messages, and the exceptions of the link services

    The values that [json.loads] returns and [json.dumps] takes, as the services of the spacecraft link
    pass them over the message bus; subscripts, [int(x)], [float(x)] and [str(x)] of such a value.  The
    printing and reading of JSON text itself is left to the standard library: a message holds the value,
    or nothing when its data is not JSON. *)
From S2P Require Import Prelude PyFloat Uuid PyText PyDecimal SpacePacket.

Open Scope Z_scope.

#[local] Set Warnings "-register-all".

Inductive value :=
| VNone
| VBool (b : bool)
| VInt (z : Z)
| VFloat (f : float)
| VStr (s : string)
| VList (items : list value)
| VDict (members : list (string * value)).

Inductive exn :=
| PacketExn (e : SpacePacket.packet_exn)
| AssertionError
| ValueError (message : string)
| TypeError (message : string)
| KeyError (key : string)
| AttributeError (message : string)
| OverflowError (message : string)
| RecursionError
| OSError
| DataError
| Unavailable
| IndexError
| HTTPError (message : string)
| HTTPException (status : Z) (detail : string).

(** [isinstance(exc, PacketError)]. *)
Definition is_packet_error (e : exn) : bool :=
  match e with PacketExn (SpacePacket.PacketError _) => true | _ => false end.

Definition of_packet {A} (m : result SpacePacket.packet_exn A) : result exn A :=
  catch m (fun e => Raise (PacketExn e)).

Fixpoint assoc (key : string) (members : list (string * value)) : option value :=
  match members with
  | [] => None
  | (k, v) :: members' => if String.eqb key k then Some v else assoc key members'
  end.

(** [members[key] = v]: an existing member keeps its place. *)
Fixpoint dict_set (key : string) (v : value) (members : list (string * value)) : list (string * value) :=
  match members with
  | [] => [(key, v)]
  | (k, w) :: members' => if String.eqb key k then (k, v) :: members' else (k, w) :: dict_set key v members'
  end.
(** [v[key]] for a text key. *)
Definition subscript (v : value) (key : string) : result exn value :=
  match v with
  | VDict members => match assoc key members with Some w => Ok w | None => Raise (KeyError key) end
  | VStr _ | VList _ => Raise (TypeError "indices must be integers or slices, not str")
  | _ => Raise (TypeError "object is not subscriptable")
  end.

(** [v.get(key)]. *)
Definition dict_get (v : value) (key : string) : result exn value :=
  match v with
  | VDict members => Ok (default VNone (assoc key members))
  | _ => Raise (AttributeError "get")
  end.

(** [int(v)]. *)
Definition int_of (v : value) : result exn Z :=
  match v with
  | VInt z => Ok z
  | VBool b => Ok (if b then 1 else 0)
  | VFloat (S754_zero _) => Ok 0
  | VFloat (S754_finite s m e) => Ok (float_trunc s m e)
  | VFloat (S754_infinity _) => Raise (OverflowError "cannot convert float infinity to integer")
  | VFloat S754_nan => Raise (ValueError "cannot convert float NaN to integer")
  | VStr s => match py_int s with Some z => Ok z | None => Raise (ValueError "invalid literal for int()") end
  | _ => Raise (TypeError "int() argument must be a string or a real number")
  end.

Section Text.
(** [str] of a list or a dictionary. *)
Context (str_of : value -> string).

Definition float_of (v : value) : result exn float :=
  match v with
  | VFloat f => Ok f
  | VInt z =>
      match float_of_Z z with
      | S754_infinity _ => Raise (OverflowError "int too large to convert to float")
      | f => Ok f
      end
  | VBool b => Ok (float_of_Z (if b then 1 else 0))
  | VStr s => match py_float s with Some f => Ok f | None => Raise (ValueError "could not convert string to float") end
  | _ => Raise (TypeError "float() argument must be a string or a real number")
  end.

Definition py_str (v : value) : string :=
  match v with
  | VStr s => s
  | VInt z => pretty z
  | VNone => "None"
  | VBool b => if b then "True" else "False"
  | VFloat f => float_repr f
  | _ => str_of v
  end.
End Text.

Example assoc_first : subscript (VDict [("a", VInt 1); ("b", VNone)]) "b" = Ok VNone.
Proof. reflexivity. Qed.
Example int_of_text : int_of (VStr " -7 ") = Ok (-7).
Proof. vm_compute. reflexivity. Qed.
Example int_of_float : int_of (VFloat (decimal (-199) 2)) = Ok (-1).
Proof. vm_compute. reflexivity. Qed.
