(* ===== verification/PyEffect.v ===== *)
(** * Handlers with state and exceptions

    A handler of the spacecraft link is a function of the state of its service that returns a value or
    raises and leaves a new state: an exception does not undo what was done before it.  [keeps] is the
    relation between states before and after, with rules for each construct. *)
From S2P Require Import Prelude.

Open Scope Z_scope.

Definition eff (S E A : Type) : Type := S -> result E A * S.

Section Effects.
Context {S E : Type}.

#[export] Instance eff_ret : MRet (eff S E) := fun A a s => (Ok a, s).
#[export] Instance eff_bind : MBind (eff S E) := fun A B k m s =>
  match m s with (Ok a, s') => k a s' | (Raise e, s') => (Raise e, s') end.

Definition get : eff S E S := fun s => (Ok s, s).
Definition modify (f : S -> S) : eff S E unit := fun s => (Ok tt, f s).
Definition throw {A} (e : E) : eff S E A := fun s => (Raise e, s).
Definition lift {A} (r : result E A) : eff S E A := fun s => (r, s).

(** [try: m except e: h e]; [h] raises again what it does not handle. *)
Definition try_catch {A} (m : eff S E A) (h : E -> eff S E A) : eff S E A := fun s =>
  match m s with (Ok a, s') => (Ok a, s') | (Raise e, s') => h e s' end.

(** [for x in xs: body x]. *)
Fixpoint for_each {A} (xs : list A) (body : A -> eff S E unit) : eff S E unit :=
  match xs with [] => mret tt | x :: xs' => body x ;; for_each xs' body end.

(** [try: m finally: f]. *)
Definition try_finally {A} (m : eff S E A) (f : eff S E unit) : eff S E A := fun s =>
  let '(r, s') := m s in
  match f s' with (Ok _, s'') => (r, s'') | (Raise e, s'') => (Raise e, s'') end.

(** ** What a handler does to the state *)

Section Keeps.
Context (R : S -> S -> Prop) `{!PreOrder R}.

Definition keeps {A} (m : eff S E A) : Prop := forall s, R s (m s).2.

Lemma keeps_ret {A} (a : A) : keeps (mret a).
Proof. intros s. cbn. reflexivity. Qed.
Lemma keeps_throw {A} e : keeps (throw (A := A) e).
Proof. intros s. cbn. reflexivity. Qed.
Lemma keeps_lift {A} (r : result E A) : keeps (lift r).
Proof. intros s. cbn. reflexivity. Qed.
Lemma keeps_get : keeps get.
Proof. intros s. cbn. reflexivity. Qed.
Lemma keeps_modify f : (forall s, R s (f s)) -> keeps (modify f).
Proof. intros Hf s. apply Hf. Qed.
Lemma keeps_bind {A B} (m : eff S E A) (k : A -> eff S E B) : keeps m -> (forall a, keeps (k a)) -> keeps (m ≫= k).
Proof.
  intros Hm Hk s. specialize (Hm s). change (R s (eff_bind A B k m s).2). unfold eff_bind. destruct (m s) as [[a|e] s']; [|exact Hm].
  cbn in *. etransitivity; [exact Hm|apply Hk].
Qed.
(** The continuation of a pure computation knows its result. *)
Lemma keeps_lift_bind {A B} (r : result E A) (k : A -> eff S E B) :
  (forall a, r = Ok a -> keeps (k a)) -> keeps (lift r ≫= k).
Proof.
  intros Hk s. change (R s (eff_bind A B k (lift r) s).2). unfold eff_bind, lift.
  destruct r as [a|e]; [by apply Hk|]. cbn. reflexivity.
Qed.
Lemma keeps_try {A} (m : eff S E A) h : keeps m -> (forall e, keeps (h e)) -> keeps (try_catch m h).
Proof.
  intros Hm Hh s. specialize (Hm s). unfold try_catch. destruct (m s) as [[a|e] s']; [exact Hm|].
  cbn in *. etransitivity; [exact Hm|apply Hh].
Qed.
Lemma keeps_finally {A} (m : eff S E A) f : keeps m -> keeps f -> keeps (try_finally m f).
Proof.
  intros Hm Hf s. specialize (Hm s). unfold try_finally. destruct (m s) as [r s']. specialize (Hf s').
  destruct (f s') as [[a|e] s'']; cbn in *; by etransitivity.
Qed.
Lemma keeps_for {A} (xs : list A) body : (forall x, x ∈ xs -> keeps (body x)) -> keeps (for_each xs body).
Proof.
  induction xs as [|x xs IH]; intros Hb; cbn; [apply keeps_ret|].
  apply keeps_bind; [apply Hb; left|]. intros []. apply IH. intros y Hy. apply Hb. by right.
Qed.
End Keeps.
End Effects.

Lemma run_eff_bind {S E A B} (m : eff S E A) (k : A -> eff S E B) s :
  (m ≫= k) s = match m s with (Ok a, s') => k a s' | (Raise e, s') => (Raise e, s') end.
Proof. done. Qed.

Lemma run_lift_ok {S E A B} (a : A) (k : A -> eff S E B) s : (lift (Ok a) ≫= k) s = k a s.
Proof. done. Qed.

Lemma run_lift_eq {S E A B} (r : result E A) (a : A) (k : A -> eff S E B) s : r = Ok a -> (lift r ≫= k) s = k a s.
Proof. by intros ->. Qed.

Lemma run_bind_eq {S E A B} (m : eff S E A) (k : A -> eff S E B) s a s' : m s = (Ok a, s') -> (m ≫= k) s = k a s'.
Proof. intros H. rewrite run_eff_bind. by rewrite H. Qed.

Lemma try_ok {S E A} (m : eff S E A) h s a s' : m s = (Ok a, s') -> try_catch m h s = (Ok a, s').
Proof. unfold try_catch. by intros ->. Qed.

(** Walk through a handler; [tac] proves the relation of each change of state. *)
Ltac keep_step tac :=
  first
    [ apply keeps_lift_bind; [apply _|intros ? ?]
    | apply keeps_bind; [apply _| |intros ?]
    | apply keeps_try; [apply _| |intros ?]
    | apply keeps_finally; [apply _| |]
    | apply keeps_for; [apply _|intros ? ?]
    | apply keeps_ret; apply _
    | apply keeps_throw; apply _
    | apply keeps_lift; apply _
    | apply keeps_get; apply _
    | apply keeps_modify; intros ?; solve [tac]
    | case_match ].
Ltac keep_with tac := repeat keep_step tac.
