(* ===== verification/PyJson.v ===== *)
(** * [json.dumps] of the values that JSON carries

    The printer with the separators [","] and [":"] and with [ensure_ascii], which raises on an integer
    with too many digits and on too deep nesting, and the proof that the decoder of [Json] reads back
    every value that it prints: integers, the shortest decimal of any float, strings of any 8-bit
    characters, lists and dictionaries. *)
From S2P Require Import Prelude PyFloat PyFormat Uuid PyText PyDecimal Json PyObject.
From Stdlib Require Import Ascii.

Open Scope Z_scope.

Module PyJson.

(** ** The printer *)

Definition float_text (f : float) : chars :=
  match f with
  | S754_nan => chars_of "NaN"
  | S754_infinity s => chars_of (if s then "-Infinity" else "Infinity")
  | _ => chars_of (float_repr f)
  end%string.

Fixpoint commas (texts : list chars) : chars :=
  match texts with
  | [] => []
  | t :: texts' => t ++ match texts' with [] => [] | _ => ","%char :: commas texts' end
  end.

(** The text of a value, when there are no limits. *)
Fixpoint json_text (v : value) : chars :=
  match v with
  | VNone => chars_of "null"%string
  | VBool b => chars_of (if b then "true" else "false")%string
  | VInt z => chars_of (pretty z)
  | VFloat f => float_text f
  | VStr s => dump_string s
  | VList items => "["%char :: commas (map json_text items) ++ ["]"%char]
  | VDict members => "{"%char :: commas (map (fun '(k, w) => dump_string k ++ ":"%char :: json_text w) members) ++ ["}"%char]
  end.

Section Dumps.
Context `{interpreter : Interpreter}.

(** [str] of an integer. *)
Definition int_text (z : Z) : result exn chars :=
  raise: ValueError "Exceeds the limit for integer string conversion"
    when too_many_digits (Z.of_nat (length (chars_of (pretty (Z.abs z))))) ;;
  Ok (chars_of (pretty z)).

(** The texts of the items, up to the first that raises. *)
Fixpoint collect (texts : list (result exn chars)) : result exn (list chars) :=
  match texts with [] => Ok [] | t :: texts' => t ← t; ts ← collect texts'; Ok (t :: ts) end.

(** [json.dumps(v, separators=(",", ":"))]; [room] is the number of containers that may still be opened. *)
Fixpoint dumps (room : Z) (v : value) : result exn chars :=
  match v with
  | VInt z => int_text z
  | VList items =>
      raise: RecursionError when room <=? 0 ;;
      ts ← collect (map (dumps (room - 1)) items); Ok ("["%char :: commas ts ++ ["]"%char])
  | VDict members =>
      raise: RecursionError when room <=? 0 ;;
      ts ← collect (map (fun '(k, w) => t ← dumps (room - 1) w; Ok (dump_string k ++ ":"%char :: t)) members);
      Ok ("{"%char :: commas ts ++ ["}"%char])
  | _ => Ok (json_text v)
  end.
Definition json_dumps : value -> result exn chars := dumps nesting_limit.

(** The values that have a text: no integer has too many digits, and nesting is within the room. *)
Fixpoint within (room : Z) (v : value) : bool :=
  match v with
  | VInt z => negb (too_many_digits (Z.of_nat (length (chars_of (pretty (Z.abs z))))))
  | VList items => (0 <? room) && forallb (within (room - 1)) items
  | VDict members => (0 <? room) && forallb (fun '(_, w) => within (room - 1) w) members
  | _ => true
  end.
End Dumps.

(** The decoded document of a value. *)
Fixpoint json_of (v : value) : json :=
  match v with
  | VNone => JNull
  | VBool b => JBool b
  | VInt z => JInt z
  | VFloat f => JFloat (float_text f)
  | VStr s => JString s
  | VList items => JArray (map json_of items)
  | VDict members => JObject (map (fun '(k, w) => (k, json_of w)) members)
  end.

(** The floats of a value are doubles. *)
Fixpoint doubles (v : value) : bool :=
  match v with
  | VFloat f => valid_binary 53 1024 f
  | VList items => forallb doubles items
  | VDict members => forallb (fun '(_, w) => doubles w) members
  | _ => true
  end.

Section Induction.
Variable P : value -> Prop.
Hypotheses (none : P VNone) (bool : forall b, P (VBool b)) (int : forall z, P (VInt z)) (float : forall f, P (VFloat f))
  (str : forall s, P (VStr s)) (items : forall l, Forall P l -> P (VList l)) (members : forall l, Forall (fun m => P m.2) l -> P (VDict l)).

Fixpoint value_nested_ind (v : value) : P v :=
  match v with
  | VNone => none
  | VBool b => bool b
  | VInt z => int z
  | VFloat f => float f
  | VStr s => str s
  | VList l => items l ((fix all l := match l return Forall P l with [] => Forall_nil_2 P | w :: l' => Forall_cons_2 P w l' (value_nested_ind w) (all l') end) l)
  | VDict l => members l ((fix all l := match l return Forall (fun m => P m.2) l with
                                        | [] => Forall_nil_2 _
                                        | (k, w) :: l' => Forall_cons_2 (fun m => P m.2) (k, w) l' (value_nested_ind w) (all l')
                                        end) l)
  end.
End Induction.

(** ** Decimal numerals *)

Definition decimals (cs : chars) : Prop := Forall (fun c => is_decimal c = true) cs.

(** The integer part of a numeral: no leading zero but in the numeral of zero. *)
Definition whole_part (cs : chars) : Prop :=
  cs = ["0"%char] \/ exists c cs', cs = c :: cs' /\ c <> "0"%char /\ decimals (c :: cs').

Lemma decimal_digit d : 0 <= d < 10 -> is_decimal (digit_char false d) = true.
Proof. intros Hd. unfold is_decimal. rewrite char_digit_of_char by lia. apply andb_true_iff. lia. Qed.

Lemma digit_char_zero d : 0 <= d < 10 -> digit_char false d = "0"%char -> d = 0.
Proof. intros Hd Hc. rewrite <- (char_digit_of_char false d) by lia. by rewrite Hc. Qed.

Lemma decimals_digits ds : Forall (fun d => 0 <= d < 10) ds -> decimals (map (digit_char false) ds).
Proof. intros Hds. apply Forall_map. eapply Forall_impl; [exact Hds|]. intros d Hd. by apply decimal_digit. Qed.

Lemma char_digits ds : Forall (fun d => 0 <= d < 10) ds -> map char_digit (map (digit_char false) ds) = ds.
Proof. induction 1 as [|d ds Hd _ IH]; [done|]. cbn. by rewrite IH, char_digit_of_char by lia. Qed.

Lemma pretty_N_digit (x : N) : (x < 10)%N -> pretty_N_char x = digit_char false (Z.of_N x).
Proof.
  intros Hx. assert (In x (map N.of_nat (seq 0 10))) as Hin.
  { apply in_map_iff. exists (N.to_nat x). split; [lia|]. apply in_seq. lia. }
  cbn in Hin. by repeat (destruct Hin as [<-|Hin]; [reflexivity|]).
Qed.

Lemma pretty_N_digits (x : N) s : (0 < x)%N ->
  exists d ds, chars_of (pretty_N_go x s) = map (digit_char false) (d :: ds) ++ chars_of s /\
    0 < d < 10 /\ Forall (fun d => 0 <= d < 10) ds /\ of_digits 10 (d :: ds) = Z.of_N x.
Proof.
  revert s. induction (N.lt_wf_0 x) as [x _ IH]; intros s Hx. rewrite pretty_N_go_step by done.
  pose proof (N.mod_lt x 10 ltac:(lia)) as Hm. destruct (N.ltb_spec x 10) as [Hs|Hs].
  - rewrite N.div_small, pretty_N_go_0, N.mod_small by done. exists (Z.of_N x), [].
    split_and!; [cbn; by rewrite pretty_N_digit|lia|lia|constructor|cbn; lia].
  - destruct (IH (x `div` 10)%N) with (s := String.String (pretty_N_char (x `mod` 10)) s) as (d & ds & -> & Hd & Hds & Hv);
      [by apply N.div_lt|apply N.div_str_pos; lia|].
    exists d, (ds ++ [Z.of_N (x `mod` 10)]). pose proof (N.div_mod x 10 ltac:(lia)) as Hx'.
    set (q := (x `div` 10)%N) in *. set (r := (x `mod` 10)%N) in *. clearbody q r. split_and!; [|lia|lia| |].
    + cbn [map]. rewrite map_app, <- !app_comm_cons, <- app_assoc. cbn. by rewrite pretty_N_digit.
    + apply Forall_app_2; [done|]. constructor; [lia|done].
    + rewrite app_comm_cons, of_digits_snoc, Hv. lia.
Qed.

(** A positive integer in decimal. *)
Lemma pretty_positive z : 0 < z ->
  exists d ds, chars_of (pretty z) = map (digit_char false) (d :: ds) /\ 0 < d < 10 /\
    Forall (fun d => 0 <= d < 10) (d :: ds) /\ of_digits 10 (d :: ds) = z.
Proof.
  intros Hz. destruct z as [|p|p]; [lia| |lia].
  destruct (pretty_N_digits (N.pos p) ""%string) as (d & ds & Hc & Hd & Hds & Hv); [lia|].
  exists d, ds. rewrite app_nil_r in Hc. split_and!; [|lia|lia|constructor; [lia|done]|done].
  rewrite <- Hc. reflexivity.
Qed.

Lemma pretty_negative z : z < 0 -> chars_of (pretty z) = "-"%char :: chars_of (pretty (- z)).
Proof. intros Hz. destruct z as [|p|p]; [lia..|]. reflexivity. Qed.

Lemma span_decimals ds rest :
  decimals ds -> (forall c r, rest = c :: r -> is_decimal c = false) -> span is_decimal (ds ++ rest) = (ds, rest).
Proof.
  intros Hds Hr. induction Hds as [|c ds Hc _ IH]; cbn [app span]; [|by rewrite Hc, IH].
  destruct rest as [|c r]; [done|]. cbn. by rewrite (Hr c r).
Qed.

(** What follows a value. *)
Definition ends (rest : chars) : Prop := forall c r, rest = c :: r -> c = ","%char \/ c = "]"%char \/ c = "}"%char.

(** A numeral: sign, integer part, fraction and exponent. *)
Record numeral (sign int frac expo : chars) : Prop := {
  numeral_sign : sign = [] \/ sign = ["-"%char];
  numeral_int : whole_part int;
  numeral_frac : frac = [] \/ exists ds, frac = "."%char :: ds /\ ds <> [] /\ decimals ds;
  numeral_expo : expo = [] \/ exists sg ds, expo = "e"%char :: sg :: ds /\ (sg = "+"%char \/ sg = "-"%char) /\ ds <> [] /\ decimals ds
}.

Lemma decimal_not c : is_decimal c = true -> c <> "."%char /\ c <> "e"%char /\ c <> "E"%char /\ c <> "-"%char /\ c <> "+"%char /\ 32 <= char_val c <= 126.
Proof. destruct c as [[] [] [] [] [] [] [] []]; (discriminate || (intros _; split_and!; (discriminate || (vm_compute; discriminate)))). Qed.

Lemma ends_stop rest c r : ends rest -> rest = c :: r ->
  is_decimal c = false /\ is_char "." c = false /\ is_char "e" c = false /\ is_char "E" c = false.
Proof. intros He Hr. by destruct (He c r Hr) as [->|[->| ->]]. Qed.

Lemma is_char_eq c d : is_char c d = true -> d = c.
Proof. intros H. symmetry. by apply Ascii.eqb_eq. Qed.
Lemma is_char_ne c d : d <> c -> is_char c d = false.
Proof. intros H. apply Ascii.eqb_neq. congruence. Qed.

Lemma take_exponent_numeral expo rest :
  (expo = [] \/ exists sg ds, expo = "e"%char :: sg :: ds /\ (sg = "+"%char \/ sg = "-"%char) /\ ds <> [] /\ decimals ds) -> ends rest ->
  take_exponent (expo ++ rest) = (expo, rest).
Proof.
  intros [->|(sg & ds & -> & Hsg & Hne & Hds)] Hr; cbn [app].
  - destruct rest as [|c r]; [done|]. unfold take_exponent. destruct (ends_stop _ c r Hr eq_refl) as (_ & _ & -> & ->).
    destruct (match r with [] => _ | _ :: _ => _ end) as [sg r']. by destruct (span is_decimal r').
  - unfold take_exponent. assert (is_char "+" sg || is_char "-" sg = true) as -> by (by destruct Hsg as [->| ->]).
    rewrite span_decimals by (done || (intros c r ->; by apply (ends_stop _ c r Hr))). by destruct ds.
Qed.

(** A character that ends a run of digits and of itself starts no fraction. *)
Lemma after_fraction expo rest c r :
  (expo = [] \/ exists sg ds, expo = "e"%char :: sg :: ds /\ (sg = "+"%char \/ sg = "-"%char) /\ ds <> [] /\ decimals ds) -> ends rest ->
  expo ++ rest = c :: r -> is_decimal c = false /\ is_char "." c = false.
Proof.
  intros [->|(sg & ds & -> & _)] Hr Hc; [by destruct (ends_stop _ c r Hr Hc) as (? & ? & _)|]. by injection Hc as <- _.
Qed.

Lemma take_fraction_numeral frac tail :
  (frac = [] \/ exists ds, frac = "."%char :: ds /\ ds <> [] /\ decimals ds) ->
  (forall c r, tail = c :: r -> is_decimal c = false /\ is_char "." c = false) ->
  take_fraction (frac ++ tail) = (frac, tail).
Proof.
  intros [->|(ds & -> & Hne & Hds)] Ht; cbn [app].
  - destruct tail as [|c r]; [done|]. unfold take_fraction. destruct (Ht c r eq_refl) as [_ ->]. by destruct (span is_decimal r).
  - unfold take_fraction. rewrite span_decimals by (done || (intros c r ->; by apply (Ht c r))). by destruct ds.
Qed.

Lemma take_whole_numeral int tail :
  whole_part int -> (forall c r, tail = c :: r -> is_decimal c = false) -> take_whole (int ++ tail) = (int, tail).
Proof.
  intros [->|(c & ds & -> & Hc & Hds)] Ht; [done|]. rewrite <- (span_decimals (c :: ds) tail) by done.
  cbn [app take_whole]. by rewrite is_char_ne.
Qed.

Section Reading.
Context `{interpreter : Interpreter}.

Lemma scan_numeral sign int frac expo rest :
  numeral sign int frac expo -> frac <> [] \/ expo <> [] \/ too_many_digits (Z.of_nat (length int)) = false -> ends rest ->
  scan_number (sign ++ int ++ frac ++ expo ++ rest) = Ok (number_of sign int frac expo, rest).
Proof.
  intros [Hs Hi Hf He] Hlim Hr. unfold scan_number.
  assert (take_sign (sign ++ int ++ frac ++ expo ++ rest) = (sign, int ++ frac ++ expo ++ rest)) as ->.
  { destruct Hs as [->| ->]; [|done]. destruct Hi as [->|(c & ds & -> & Hc & Hds)]; [done|]. unfold take_sign. cbn [app].
    apply Forall_cons in Hds as [Hd _]. by rewrite is_char_ne by apply (decimal_not c Hd). }
  pose proof (after_fraction expo rest) as Ha.
  rewrite take_whole_numeral, take_fraction_numeral, take_exponent_numeral; try done; [|by intros; eapply Ha|].
  - assert ((length int =? 0)%nat = false) as -> by (by destruct Hi as [->|(c & ds & -> & _)]).
    assert (((length frac + length expo =? 0)%nat && too_many_digits (Z.of_nat (length int))) = false) as ->; [|done].
    destruct Hlim as [Hne|[Hne| ->]]; [| |by rewrite andb_false_r]; apply andb_false_iff; left; apply Nat.eqb_neq;
      destruct frac, expo; cbn; (done || lia).
  - intros c r. destruct Hf as [->|(ds & -> & _)]; cbn [app]; [intros Hc; by eapply Ha|by intros [= <- _]].
Qed.

(** ** The shortest decimal of a float is a numeral *)

Lemma lstrip_last (f : ascii -> bool) l x : f x = false -> exists l1 l2, l = l1 ++ l2 /\ lstrip f (l ++ [x]) = l2 ++ [x].
Proof.
  intros Hx. induction l as [|y l (l1 & l2 & -> & Hl)]; cbn; [exists [], []; by rewrite Hx|].
  destruct (f y); [by exists (y :: l1), l2|by exists [], (y :: l1 ++ l2)].
Qed.

Lemma significant_digits c : 0 < c -> exists d ds, significant c = d :: ds /\ d <> "0"%char /\ decimals (d :: ds).
Proof.
  intros Hc. destruct (pretty_positive c Hc) as (d & ds & Hp & Hd & Hds & _). unfold significant. rewrite Hp. cbn [map rev].
  assert (digit_char false d <> "0"%char) as Hne by (intros H; apply digit_char_zero in H; lia).
  destruct (lstrip_last (is_char "0") (rev (map (digit_char false) ds)) (digit_char false d)) as (l1 & l2 & Hl & ->); [by apply is_char_ne|].
  apply decimals_digits in Hds. cbn [map] in Hds. apply Forall_cons in Hds as [Hd' Hds].
  apply (f_equal (@rev ascii)) in Hl. rewrite rev_involutive, rev_app_distr in Hl. unfold decimals in *. rewrite Hl in Hds. apply Forall_app in Hds as [Hds _].
  rewrite rev_app_distr. exists (digit_char false d), (rev l2). split_and!; [done|done|by constructor].
Qed.

Lemma decimals_zeros n : decimals (zeros n).
Proof. unfold zeros. induction (Z.to_nat n); by constructor. Qed.

Lemma decimals_app a b : decimals a -> decimals b -> decimals (a ++ b).
Proof. apply Forall_app_2. Qed.

Lemma decimals_pretty z : 0 <= z -> decimals (chars_of (pretty z)) /\ chars_of (pretty z) <> [].
Proof.
  intros Hz. destruct (Z.eq_dec z 0) as [->|]; [split; [by repeat constructor|done]|].
  destruct (pretty_positive z) as (d & ds & -> & _ & Hds & _); [lia|]. split; [by apply decimals_digits|done].
Qed.

(** The coefficient of the shortest decimal is positive: zero is not read back as the float, and the
    seventeen digits of the last resort are not all zero. *)
Definition ten_power_fits (l : Z) : bool :=
  let e := (l + 1) * 30103 / 100000 + 1 - 16 in
  if 0 <=? e then 2 ^ Z.max (- l) 0 * 10 ^ e <=? 2 ^ Z.max l 0 else 2 ^ Z.max (- l) 0 <=? 2 ^ Z.max l 0 * 10 ^ (- e).

Lemma ten_powers_fit l : -1200 <= l <= 1200 -> ten_power_fits l = true.
Proof.
  intros Hl. assert (forallb ten_power_fits (map (fun n => Z.of_nat n - 1200) (seq 0 2401)) = true) as H by (vm_compute; reflexivity).
  eapply forallb_forall in H; [exact H|]. apply in_map_iff. exists (Z.to_nat (l + 1200)). split; [lia|]. apply in_seq. lia.
Qed.

(** [10 ^ e] is at most [num / den]. *)
Definition reaches (num den e : Z) : bool := if 0 <=? e then den * 10 ^ e <=? num else den <=? num * 10 ^ (- e).

Lemma reaches_below num den e e' : 0 < num -> 0 < den -> e' <= e -> reaches num den e = true -> reaches num den e' = true.
Proof.
  unfold reaches. intros Hn Hd He. destruct (Z.leb_spec 0 e), (Z.leb_spec 0 e'); rewrite !Z.leb_le; intros H1; [| |lia|].
  - pose proof (Z.pow_le_mono_r 10 e' e). nia.
  - pose proof (Z.pow_pos_nonneg 10 e). pose proof (Z.pow_pos_nonneg 10 (- e')). nia.
  - pose proof (Z.pow_le_mono_r 10 (- e) (- e')). nia.
Qed.

Lemma neighbours_nonnegative num den e c : 0 < num -> 0 < den -> c ∈ neighbours num den e -> 0 <= c.
Proof.
  intros Hn Hd Hc. unfold neighbours in Hc.
  assert (exists n d, (if 0 <=? e then (num, den * 10 ^ e) else (num * 10 ^ (- e), den)) = (n, d) /\ 0 <= n /\ 0 < d) as (n & d & Hnd & Hle).
  { destruct (Z.leb_spec 0 e); eexists _, _; (split; [reflexivity|]); [pose proof (Z.pow_pos_nonneg 10 e)|pose proof (Z.pow_pos_nonneg 10 (- e))]; nia. }
  rewrite Hnd in Hc. assert (0 <= n / d) by (apply Z.div_pos; lia).
  destruct (2 * (n mod d) <=? d); repeat (apply elem_of_cons in Hc as [->|Hc]; [lia|]); by apply elem_of_nil in Hc.
Qed.

Lemma neighbours_positive num den e c :
  0 < num -> 0 < den -> reaches num den e = true -> c ∈ neighbours num den e -> 0 < c.
Proof.
  intros Hn Hd He Hc. unfold reaches in He. unfold neighbours in Hc.
  assert (exists n d, (if 0 <=? e then (num, den * 10 ^ e) else (num * 10 ^ (- e), den)) = (n, d) /\ 0 < d <= n) as (n & d & Hnd & Hle).
  { destruct (Z.leb_spec 0 e); apply Z.leb_le in He; eexists _, _; (split; [reflexivity|]); [|lia]. pose proof (Z.pow_pos_nonneg 10 e). nia. }
  rewrite Hnd in Hc. assert (1 <= n / d) by (apply Z.div_le_lower_bound; lia).
  destruct (2 * (n mod d) <=? d); repeat (apply elem_of_cons in Hc as [->|Hc]; [lia|]); by apply elem_of_nil in Hc.
Qed.

Lemma shortest_positive n f num den e :
  0 < num -> 0 < den -> reaches num den (e - Z.of_nat n) = true -> (forall s, f <> S754_zero s) ->
  0 < (shortest_from n f num den e).1.
Proof.
  intros Hn Hd He Hf. revert e He. induction n as [|n IH]; intros e He; cbn [shortest_from];
    destruct (List.filter _ _) as [|c cs] eqn:Hfilter.
  2, 4: assert (In c (c :: cs)) as Hin by (by left); rewrite <- Hfilter in Hin; apply filter_In in Hin as [Hin Heq];
    cbn; apply list_elem_of_In in Hin; pose proof (neighbours_nonnegative num den e c Hn Hd Hin);
    destruct (Z.eq_dec c 0) as [->|]; [|lia]; cbn in Heq; unfold SFeqb, SFcompare in Heq; destruct f as [s|[]| |[]]; try done; by destruct (Hf s eq_refl).
  - cbn [fst]. apply (neighbours_positive num den e); [done|done|by rewrite Z.sub_0_r in He|].
    unfold neighbours. destruct (if 0 <=? e then _ else _). destruct (_ <=? _); apply elem_of_cons; by left.
  - apply IH. by replace (e - 1 - Z.of_nat n) with (e - Z.of_nat (S n)) by lia.
Qed.

Lemma leading_below fuel num den e : leading_exponent fuel num den e <= e.
Proof. revert e. induction fuel as [|fuel IH]; intros e; cbn [leading_exponent]; [lia|]. case_test; [lia|]. specialize (IH (e - 1)). lia. Qed.

Lemma digits2_log2 m : Z.pos (digits2_pos m) = Z.log2 (Z.pos m) + 1.
Proof. enough (digits2_pos m = Pos.size m) as -> by (destruct m; cbn; lia). induction m as [m IH|m IH|]; cbn; congruence. Qed.

Lemma decimal_of_positive m e : valid_binary 53 1024 (S754_finite false m e) = true -> 0 < (decimal_of (S754_finite false m e)).1.
Proof.
  cbn [valid_binary]. unfold bounded, canonical_mantissa, fexp, emin. rewrite digits2_log2. intros Hv. bool_to_prop.
  pose proof (Z.log2_nonneg (Z.pos m)) as Hl. unfold decimal_of, fraction.
  set (num := Z.pos m * 2 ^ Z.max e 0). set (den := 2 ^ Z.max (- e) 0).
  assert (0 < den) as Hd by (apply Z.pow_pos_nonneg; lia). assert (0 < num) as Hn by (unfold num; pose proof (Z.pow_pos_nonneg 2 (Z.max e 0)); nia).
  assert (Z.log2 num - Z.log2 den = Z.log2 (Z.pos m) + e) as HL.
  { unfold num, den. rewrite Z.log2_mul_pow2, Z.log2_pow2 by lia. lia. }
  set (lead := leading_exponent 5 num den (above num den)). assert (lead <= above num den) as Hlead by apply leading_below.
  destruct (shortest_from _ _ _ _ _) as [c k] eqn:Hs. cbn. change c with (c, k).1. rewrite <- Hs.
  apply shortest_positive; [done|done| |done]. apply (reaches_below num den (above num den - 16)); [done|done|lia|].
  unfold above. rewrite HL. pose proof (ten_powers_fit (Z.log2 (Z.pos m) + e) ltac:(lia)) as Hfit. unfold ten_power_fits in Hfit.
  set (e10 := _ - 16) in *. clearbody e10. pose proof (Z.log2_spec (Z.pos m) ltac:(lia)) as [Hm _].
  assert (den * 2 ^ Z.max (Z.log2 (Z.pos m) + e) 0 <= num * 2 ^ Z.max (- (Z.log2 (Z.pos m) + e)) 0) as Hnd.
  { unfold num, den. etransitivity; [|apply Z.mul_le_mono_nonneg_r; [apply Z.pow_nonneg; lia|apply Z.mul_le_mono_nonneg_r; [apply Z.pow_nonneg; lia|exact Hm]]].
    rewrite <- !Z.pow_add_r by lia. apply Z.pow_le_mono_r; lia. }
  assert (0 < 2 ^ Z.max (Z.log2 (Z.pos m) + e) 0) as Hp by (apply Z.pow_pos_nonneg; lia).
  assert (0 < 2 ^ Z.max (- (Z.log2 (Z.pos m) + e)) 0) as Hp' by (apply Z.pow_pos_nonneg; lia).
  set (hi := 2 ^ Z.max (Z.log2 (Z.pos m) + e) 0) in *. set (lo := 2 ^ Z.max (- (Z.log2 (Z.pos m) + e)) 0) in *.
  unfold reaches. destruct (0 <=? e10); apply Z.leb_le in Hfit; apply Z.leb_le.
  all: apply (Zmult_le_reg_r _ _ lo); [lia|]; nia.
Qed.

Definition printable (cs : chars) : Prop := Forall (fun c => 32 <= char_val c <= 126) cs.

Lemma printable_decimals cs : decimals cs -> printable cs.
Proof. intros Hcs. eapply Forall_impl; [exact Hcs|]. intros c Hc. apply (decimal_not c Hc). Qed.

Ltac printable_by := repeat first [apply Forall_cons; split; [vm_compute; split; discriminate|] | apply Forall_app_2 | by apply printable_decimals | apply Forall_nil_2].

Lemma numeral_printable sign int frac expo : numeral sign int frac expo -> printable (sign ++ int ++ frac ++ expo).
Proof.
  intros [Hs Hi Hf He]. repeat apply Forall_app_2.
  - destruct Hs as [->| ->]; printable_by.
  - destruct Hi as [->|(c & ds & -> & _ & Hds)]; printable_by.
  - destruct Hf as [->|(ds & -> & _ & Hds)]; printable_by.
  - destruct He as [->|(sg & ds & -> & [->| ->] & _ & Hds)]; printable_by.
Qed.

(** How a number's text begins. *)
Definition number_start (cs : chars) : Prop :=
  exists c cs', cs = c :: cs' /\ (c = "-"%char /\ (exists d cs'', cs' = d :: cs'' /\ is_decimal d = true) \/ is_decimal c = true).

(** A text that the decoder takes whole for the number of that text. *)
Record float_numeral (cs : chars) : Prop := {
  float_reads : forall rest, ends rest -> scan_number (cs ++ rest) = Ok (JFloat cs, rest);
  float_starts : number_start cs;
  float_printable : printable cs
}.

Lemma numeral_float sign int frac expo :
  numeral sign int frac expo -> frac <> [] \/ expo <> [] -> float_numeral (sign ++ int ++ frac ++ expo).
Proof.
  intros Hn Hf. split.
  - intros rest Hr. rewrite <- !app_assoc, scan_numeral by (done || tauto). unfold number_of. destruct frac, expo; try done. by destruct Hf.
  - destruct Hn as [Hs Hi _ _]. assert (exists c cs, int = c :: cs /\ is_decimal c = true) as (c & cs & -> & Hc).
    { destruct Hi as [->|(c & ds & -> & _ & Hds)]; [by eexists _, _|]. apply Forall_cons in Hds as [Hd _]. by eexists _, _. }
    destruct Hs as [->| ->]; eexists _, _; (split; [reflexivity|]); [by right|left]. split; [done|]. by eexists _, _.
  - by apply numeral_printable.
Qed.

Definition sign_of (s : bool) : chars := if s then ["-"%char] else [].

Lemma numeral_text sign int frac expo cs :
  numeral sign int frac expo -> frac <> [] \/ expo <> [] -> cs = sign ++ int ++ frac ++ expo -> float_numeral cs.
Proof. intros Hn Hf ->. by apply numeral_float. Qed.

Lemma chars_app s t : chars_of (s +:+ t) = chars_of s ++ chars_of t.
Proof. apply string_app_list. Qed.

Lemma sign_chars (s : bool) : chars_of (if s then "-"%string else ""%string) = sign_of s.
Proof. by destruct s. Qed.
Lemma sign_ok s : sign_of s = [] \/ sign_of s = ["-"%char].
Proof. destruct s; auto. Qed.
#[local] Hint Resolve sign_ok : core.

Lemma float_repr_numeral f : valid_binary 53 1024 f = true ->
  match f with S754_nan | S754_infinity _ => True | _ => float_numeral (chars_of (float_repr f)) end.
Proof.
  intros Hv. destruct f as [s|s| |s m e]; [|done..|].
  - assert (numeral (if s then ["-"%char] else []) ["0"%char] ["."; "0"]%char []) as Hn.
    { split; [destruct s; auto|by left|right; by exists ["0"%char]; repeat constructor|by left]. }
    apply numeral_float in Hn; [|by left]. by destruct s.
  - cbn [float_repr]. pose proof (decimal_of_positive m e Hv) as Hc. destruct (decimal_of _) as [c k]. cbn [fst] in Hc.
    destruct (significant_digits c Hc) as (d & ds & -> & Hd & Hds).
    set (point := (_ + k)%Z). destruct ((-4 <? point) && (point <=? 16)) eqn:Hpoint.
    + destruct (Z.leb_spec point 0) as [Hp|Hp].
      * eapply (numeral_text (sign_of s) ["0"%char] ("."%char :: zeros (- point) ++ d :: ds) []); [split| |].
        all: rewrite ?chars_app, ?chars_text, ?sign_chars, ?app_nil_r; auto.
        -- by left.
        -- right. exists (zeros (- point) ++ d :: ds). split_and!; [done|by destruct (zeros (- point))|]. by apply decimals_app; [apply decimals_zeros|].
      * eapply (numeral_text (sign_of s) (take (Z.to_nat point) (d :: ds) ++ zeros (point - Z.of_nat (length (d :: ds))))
          ("."%char :: if bool_decide (drop (Z.to_nat point) (d :: ds) = []) then ["0"%char] else drop (Z.to_nat point) (d :: ds)) []); [split| |].
        all: rewrite ?chars_app, ?chars_text, ?sign_chars, ?app_nil_r; auto.
        -- right. destruct (Z.to_nat point) as [|n] eqn:Hpt; [lia|]. cbn [take app]. eexists _, _. split; [reflexivity|]. split; [done|].
           apply (decimals_app (take (S n) (d :: ds))); [by apply Forall_take|apply decimals_zeros].
        -- right. eexists. split; [reflexivity|]. case_bool_decide; [by repeat constructor|]. split; [done|by apply Forall_drop].
        -- rewrite <- !app_assoc. cbn. by case_bool_decide.
    + destruct (decimals_pretty (Z.abs (point - 1)) ltac:(lia)) as [Hx Hne].
      set (x := pretty (Z.abs (point - 1))) in *. set (short := (String.length x <? 2)%nat). set (below := point - 1 <? 0). clearbody x short below.
      eapply (numeral_text (sign_of s) [d] (if bool_decide (ds = []) then [] else "."%char :: ds)
        ("e"%char :: (if below then "-"%char else "+"%char) :: (if short then "0"%char :: chars_of x else chars_of x))); [split| |].
      all: rewrite ?chars_app, ?chars_text, ?sign_chars, ?app_nil_r; auto.
      * right. eexists _, _. split; [reflexivity|]. split; [done|]. apply Forall_cons in Hds as [Hd' _]. by repeat constructor.
      * case_bool_decide; [by left|right]. eexists. split; [reflexivity|]. by apply Forall_cons in Hds as [_ Hds].
      * right. eexists _, _. split; [reflexivity|]. split; [destruct below; auto|]. destruct short; [|done]. split; [done|by constructor].
      * change (drop 1 (d :: ds)) with ds. case_bool_decide; destruct below, short; rewrite ?chars_app; cbn; by rewrite <- ?app_assoc.
Qed.

(** ** Numbers and literals *)

Lemma scan_pretty z : number_start (chars_of (pretty z)) /\
  forall rest, too_many_digits (Z.of_nat (length (chars_of (pretty (Z.abs z))))) = false -> ends rest ->
    scan_number (chars_of (pretty z) ++ rest) = Ok (JInt z, rest).
Proof.
  assert (forall n, 0 < n -> exists c cs, chars_of (pretty n) = c :: cs /\ is_decimal c = true /\ whole_part (c :: cs) /\
    of_digits 10 (map char_digit (c :: cs)) = n) as Hpos.
  { intros n Hn. destruct (pretty_positive n Hn) as (d & ds & -> & Hd & Hds & Hv). pose proof (decimals_digits _ Hds) as Hdec.
    cbn [map] in *. exists (digit_char false d), (map (digit_char false) ds). split_and!; [done| | |].
    - apply Forall_cons in Hdec. apply Hdec.
    - right. eexists _, _. split; [reflexivity|]. split; [|done]. intros H. apply digit_char_zero in H; lia.
    - rewrite <- Hv. f_equal. exact (char_digits (d :: ds) Hds). }
  destruct (Z.lt_total z 0) as [Hz|[->|Hz]].
  - rewrite pretty_negative, Z.abs_neq by lia. destruct (Hpos (- z)) as (c & cs & -> & Hc & Hw & Hv); [lia|]. split.
    + eexists _, _. split; [reflexivity|]. left. split; [done|]. by eexists _, _.
    + intros rest Hl Hr. pose proof (scan_numeral ["-"%char] (c :: cs) [] [] rest) as Hs. cbn [app] in *. rewrite Hs by (auto || (split; auto)).
      unfold number_of. rewrite Hv. cbn. by rewrite Z.opp_involutive.
  - split; [by eexists _, _; split; [reflexivity|right]|]. intros rest Hl Hr.
    apply (scan_numeral [] ["0"%char] [] [] rest); [|by auto|done]. split; auto. by left.
  - rewrite Z.abs_eq by lia. destruct (Hpos z Hz) as (c & cs & -> & Hc & Hw & Hv). split; [by eexists _, _; split; [reflexivity|right]|].
    intros rest Hl Hr. pose proof (scan_numeral [] (c :: cs) [] [] rest) as Hs. cbn [app] in *. rewrite Hs by (auto || (split; auto)).
    unfold number_of. by rewrite Hv.
Qed.

Lemma starts_other a pat c cs : c <> a -> starts (String.String a pat) (c :: cs) = None.
Proof. intros Hc. unfold starts. rewrite bool_decide_false; [done|]. cbn. congruence. Qed.

Lemma starts_infinity d cs : is_decimal d = true -> starts "-Infinity" ("-"%char :: d :: cs) = None.
Proof. intros Hd. unfold starts. rewrite bool_decide_false; [done|]. cbn. intros [= -> _]. discriminate Hd. Qed.

Lemma scan_value_number fuel room cs rest : number_start cs -> scan_value (S fuel) room (cs ++ rest) = scan_number (cs ++ rest).
Proof.
  intros (c & cs' & -> & Hc). cbn [app].
  assert (c <> quote /\ c <> "{"%char /\ c <> "["%char /\ c <> "n"%char /\ c <> "t"%char /\ c <> "f"%char /\ c <> "N"%char /\ c <> "I"%char) as Hne.
  { destruct Hc as [[-> _]|Hc]; [by split_and!|]. split_and!; intros ->; discriminate Hc. }
  destruct Hne as (H1 & H2 & H3 & H4 & H5 & H6 & H7 & H8). cbn [scan_value]. rewrite !is_char_ne by done.
  unfold scan_literal. rewrite !starts_other by done.
  assert (starts "-Infinity" (c :: cs' ++ rest) = None) as ->; [|done].
  destruct Hc as [[-> (d & cs'' & -> & Hd)]|Hc]; [by apply starts_infinity|]. apply starts_other. intros ->. discriminate Hc.
Qed.

(** ** Strings *)

Lemma scan_escape fuel c tl :
  scan_string (S fuel) (escape_char c ++ tl) = '(s, rest) ← scan_string fuel tl; Some (c :: s, rest).
Proof. destruct c as [[] [] [] [] [] [] [] []]; reflexivity. Qed.

Lemma scan_escaped cs : forall fuel rest, (length cs < fuel)%nat ->
  scan_string fuel (flat_map escape_char cs ++ quote :: rest) = Some (cs, rest).
Proof.
  induction cs as [|c cs IH]; intros [|fuel] rest Hf; cbn [length] in Hf; try lia; [done|].
  cbn [flat_map]. rewrite <- app_assoc, scan_escape, IH by lia. done.
Qed.

Lemma escaped_length cs : (length cs <= length (flat_map escape_char cs))%nat.
Proof.
  induction cs as [|c cs IH]; [done|]. cbn [flat_map length]. rewrite length_app.
  assert (1 <= length (escape_char c))%nat by (destruct c as [[] [] [] [] [] [] [] []]; vm_compute; lia). lia.
Qed.

(** ** Values *)

Definition member_text (m : string * value) : chars := let '(k, w) := m in dump_string k ++ ":"%char :: json_text w.
Definition member_json (m : string * value) : string * json := let '(k, w) := m in (k, json_of w).

(** The text of a value is read back, whatever value-ending text follows it, with fuel twice its length
    and the room that it was printed in. *)
Record reads (room : Z) (v : value) : Prop := {
  reads_value fuel rest : ends rest -> (2 * length (json_text v) <= fuel)%nat -> scan_value fuel room (json_text v ++ rest) = Ok (json_of v, rest);
  reads_start : exists c cs, json_text v = c :: cs /\ is_ws c = false /\ c <> "]"%char
}.

Lemma reads_skip room v rest : reads room v -> skip_ws (json_text v ++ rest) = json_text v ++ rest.
Proof. intros [_ (c & cs & -> & Hc & _)]. by apply skip_ws_stop. Qed.

Lemma reads_number room v j : number_start (json_text v) -> json_of v = j ->
  (forall rest, ends rest -> scan_number (json_text v ++ rest) = Ok (j, rest)) -> reads room v.
Proof.
  intros Hs <- Hn. split.
  - intros [|fuel] rest Hr Hf; [destruct Hs as (c & cs & Hc & _); rewrite Hc in Hf; cbn in Hf; lia|]. rewrite scan_value_number by done. by apply Hn.
  - destruct Hs as (c & cs & -> & Hc). eexists _, _. split; [reflexivity|]. destruct Hc as [[-> _]|Hc]; [done|].
    pose proof (decimal_not c Hc) as Hd. split; [|intros ->; discriminate Hc].
    destruct (is_ws c) eqn:Hw; [|done]. exfalso. revert Hc Hw. clear. destruct c as [[] [] [] [] [] [] [] []]; discriminate.
Qed.

Lemma reads_float room f : valid_binary 53 1024 f = true -> reads room (VFloat f).
Proof.
  intros Hv. pose proof (float_repr_numeral f Hv) as Hn. destruct f as [s|s| |s m e].
  1, 4: by eapply reads_number; [apply Hn|done|apply Hn].
  - split; [|by destruct s; eexists _, _]. intros [|fuel] rest Hr Hf; destruct s; cbn in Hf; (lia || reflexivity).
  - split; [|by eexists _, _]. intros [|fuel] rest Hr Hf; cbn in Hf; (lia || reflexivity).
Qed.

Lemma reads_string room s : reads room (VStr s).
Proof.
  split; [|by eexists _, _]. intros [|fuel] rest Hr Hf; cbn [json_text] in *; unfold dump_string in *; cbn [length] in Hf; [lia|].
  rewrite <- app_comm_cons, <- app_assoc. change ([quote] ++ rest) with (quote :: rest). cbn [scan_value].
  rewrite scan_escaped; [cbn; by rewrite text_chars|]. rewrite length_app in Hf. pose proof (escaped_length (chars_of s)). lia.
Qed.

Lemma commas_cons t ts : ts <> [] -> commas (t :: ts) = t ++ ","%char :: commas ts.
Proof. by destruct ts. Qed.

Lemma ends_comma r : ends (","%char :: r).
Proof. intros c r' [= <- _]. auto. Qed.
Lemma ends_bracket r : ends ("]"%char :: r).
Proof. intros c r' [= <- _]. auto. Qed.
Lemma ends_brace r : ends ("}"%char :: r).
Proof. intros c r' [= <- _]. auto. Qed.

Lemma scan_items_text room vs rest : Forall (reads room) vs -> vs <> [] -> forall fuel,
  (2 * S (length (commas (map json_text vs))) <= fuel)%nat ->
  scan_items fuel room (commas (map json_text vs) ++ "]"%char :: rest) = Ok (map json_of vs, rest).
Proof.
  induction 1 as [|v vs Hv Hvs IH]; intros Hne [|fuel] Hf; [done..|lia|]. cbn [map]. destruct (decide (vs = [])) as [->|Hvs'].
  - cbn [map commas scan_items] in *. rewrite app_nil_r in *. rewrite (reads_value room v Hv) by (apply ends_bracket || lia). reflexivity.
  - cbn [map] in Hf. rewrite commas_cons in * by (by destruct vs). rewrite length_app in Hf. cbn [length] in Hf.
    rewrite <- app_assoc. cbn [app scan_items]. rewrite (reads_value room v Hv) by (apply ends_comma || lia). cbn [mbind result_bind].
    rewrite skip_ws_stop by done. change (is_char "]" ",") with false. change (is_char "," ",") with true. cbn iota.
    assert (skip_ws (commas (map json_text vs) ++ "]"%char :: rest) = commas (map json_text vs) ++ "]"%char :: rest) as ->.
    { destruct Hvs as [|w vs Hw _]; [done|]. cbn [map commas]. rewrite <- app_assoc. by eapply reads_skip. }
    by rewrite IH by (done || lia).
Qed.

Lemma scan_members_text room ms rest : Forall (fun m => reads room m.2) ms -> ms <> [] -> forall fuel,
  (2 * S (length (commas (map member_text ms))) <= fuel)%nat ->
  scan_members fuel room (commas (map member_text ms) ++ "}"%char :: rest) = Ok (map member_json ms, rest).
Proof.
  assert (forall fuel k v tl, reads room v -> ends tl -> (2 * length (member_text (k, v)) <= fuel)%nat ->
    scan_members (S fuel) room (member_text (k, v) ++ tl) =
    match skip_ws tl with
    | sep :: tl =>
        if is_char "}" sep then Ok ([(k, json_of v)], tl)
        else if is_char "," sep then '(ms, tl) ← scan_members fuel room (skip_ws tl); Ok ((k, json_of v) :: ms, tl)
        else Raise JSONDecodeError
    | [] => Raise JSONDecodeError
    end) as Hmember.
  { intros fuel k v tl Hv Ht Hf. cbn [member_text] in *. unfold dump_string in *. rewrite length_app in Hf. cbn [length] in Hf.
    rewrite length_app in Hf. cbn [length] in Hf. pose proof (escaped_length (chars_of k)).
    rewrite <- !app_comm_cons, <- !app_assoc. cbn [app scan_members]. change (negb (is_char quote quote)) with false. cbn iota.
    rewrite scan_escaped by lia. cbn [expect mbind result_bind].
    rewrite skip_ws_stop by done. change (negb (is_char ":" ":")) with false. cbn iota.
    rewrite (reads_skip room), (reads_value room v Hv) by (done || lia). cbn [mbind result_bind]. by rewrite text_chars. }
  induction 1 as [|[k v] ms Hv Hms IH]; intros Hne [|fuel] Hf; [done..|lia|]. cbn [map] in *. cbn [snd] in Hv. destruct (decide (ms = [])) as [->|Hms'].
  - cbn [map commas] in *. rewrite app_nil_r in *. rewrite Hmember by (done || apply ends_brace || lia). by rewrite skip_ws_stop.
  - rewrite commas_cons in * by (by destruct ms). rewrite length_app in Hf. cbn [length] in Hf.
    rewrite <- app_assoc, <- app_comm_cons, Hmember by (done || apply ends_comma || lia). rewrite skip_ws_stop by done.
    change (is_char "}" ",") with false. change (is_char "," ",") with true. cbn iota.
    assert (skip_ws (commas (map member_text ms) ++ "}"%char :: rest) = commas (map member_text ms) ++ "}"%char :: rest) as ->.
    { destruct ms as [|[k' w] ms]; [done|]. cbn [map commas member_text]. unfold dump_string. rewrite <- !app_comm_cons. by apply skip_ws_stop. }
    by rewrite IH by (done || lia).
Qed.

(** Every value whose floats are doubles is read back in the room that it is printed in. *)
Lemma value_reads v : doubles v = true -> forall room, within room v = true -> reads room v.
Proof.
  induction v as [|b|z|f|s|vs IH|ms IH] using value_nested_ind; intros Hd room Hw.
  - split; [|by eexists _, _]. intros [|fuel] rest _ Hf; cbn in Hf; [lia|reflexivity].
  - split; [|by destruct b; eexists _, _]. intros [|fuel] rest _ Hf; destruct b; cbn in Hf; (lia || reflexivity).
  - destruct (scan_pretty z) as [Hs Hr]. eapply reads_number; [done..|]. intros rest. apply Hr. by apply negb_true_iff in Hw.
  - by apply reads_float.
  - apply reads_string.
  - cbn in Hw. apply andb_true_iff in Hw as [Hroom Hw]. assert (Forall (reads (room - 1)) vs) as Hvs.
    { cbn in Hd. rewrite forallb_forall in Hd, Hw. rewrite Forall_forall in *. intros v Hv. apply IH; [done|..]; [by apply Hd, list_elem_of_In|by apply Hw, list_elem_of_In]. }
    assert ((room <=? 0) = false) as Hopen by (bool_to_prop; lia).
    split; [|by eexists _, _]. intros [|fuel] rest Hr Hf; cbn [json_text length] in Hf; [lia|]. rewrite length_app in Hf. cbn [length] in Hf.
    cbn [json_text json_of]. rewrite <- app_comm_cons, <- app_assoc. cbn [scan_value]. change (is_char quote "[") with false.
    change (is_char "{" "[") with false. change (is_char "[" "[") with true. cbn iota. rewrite Hopen. destruct (decide (vs = [])) as [->|Hne]; [reflexivity|].
    pose proof (scan_items_text _ vs rest Hvs Hne fuel ltac:(lia)) as Hi.
    destruct Hvs as [|v vs [_ (c & cs & Hc & Hws & Hb)] _]; [done|]. cbn [map commas app] in *. rewrite Hc in *. cbn [app] in *.
    rewrite skip_ws_stop, (is_char_ne "]" c) by done. by rewrite Hi.
  - cbn in Hw. apply andb_true_iff in Hw as [Hroom Hw]. assert (Forall (fun m => reads (room - 1) m.2) ms) as Hms.
    { cbn in Hd. rewrite forallb_forall in Hd, Hw. rewrite Forall_forall in *. intros [k v] Hv. apply (IH (k, v)); [done|..]; [by apply (Hd (k, v)), list_elem_of_In|by apply (Hw (k, v)), list_elem_of_In]. }
    assert ((room <=? 0) = false) as Hopen by (bool_to_prop; lia).
    split; [|by eexists _, _]. intros [|fuel] rest Hr Hf; cbn [json_text length] in Hf; [lia|]. rewrite length_app in Hf. cbn [length] in Hf.
    change (json_text (VDict ms)) with ("{"%char :: commas (map member_text ms) ++ ["}"%char]). change (json_of (VDict ms)) with (JObject (map member_json ms)).
    rewrite <- app_comm_cons, <- app_assoc. cbn [scan_value]. change (is_char quote "{") with false. change (is_char "{" "{") with true. cbn iota.
    rewrite Hopen. destruct (decide (ms = [])) as [->|Hne]; [reflexivity|].
    pose proof (scan_members_text _ ms rest Hms Hne fuel) as Hi. change (map (fun '(k, w) => _) ms) with (map member_text ms) in Hf. specialize (Hi ltac:(lia)).
    destruct ms as [|[k v] ms]; [done|]. cbn [map commas app member_text] in *. unfold dump_string in *. rewrite <- !app_comm_cons in *.
    rewrite skip_ws_stop by done. change (is_char "}" quote) with false. cbn iota. by rewrite Hi.
Qed.

Lemma printable_pretty (z : Z) : printable (chars_of (pretty z)).
Proof.
  destruct (Z.leb_spec 0 z); [by apply printable_decimals, decimals_pretty|]. rewrite pretty_negative by done.
  constructor; [vm_compute; split; discriminate|]. apply printable_decimals, decimals_pretty. lia.
Qed.

Lemma printable_string s : printable (dump_string s).
Proof.
  unfold dump_string. constructor; [vm_compute; split; discriminate|]. apply Forall_app_2; [|printable_by].
  induction (chars_of s) as [|c cs IH]; [constructor|]. cbn [flat_map]. apply Forall_app_2; [|done].
  destruct c as [[] [] [] [] [] [] [] []]; printable_by.
Qed.

Lemma printable_commas ts : Forall printable ts -> printable (commas ts).
Proof.
  induction 1 as [|t ts Ht Hts IH]; [constructor|]. cbn [commas]. apply Forall_app_2; [done|]. destruct ts; [constructor|].
  constructor; [vm_compute; split; discriminate|done].
Qed.

(** The text of a value is a single line of printable ASCII. *)
Lemma value_printable v : doubles v = true -> printable (json_text v).
Proof.
  induction v as [|b|z|f|s|vs IH|ms IH] using value_nested_ind; intros Hd.
  - cbn. printable_by.
  - destruct b; cbn; printable_by.
  - apply printable_pretty.
  - pose proof (float_repr_numeral f Hd) as Hn. destruct f as [s|[]| |s m e]; [apply Hn|cbn; printable_by..|apply Hn].
  - apply printable_string.
  - cbn in *. constructor; [vm_compute; split; discriminate|]. apply Forall_app_2; [|printable_by]. apply printable_commas, Forall_map.
    rewrite forallb_forall in Hd. rewrite Forall_forall in *. intros v Hv. apply IH; [done|]. by apply Hd, list_elem_of_In.
  - cbn in *. constructor; [vm_compute; split; discriminate|]. apply Forall_app_2; [|printable_by]. apply printable_commas, Forall_map.
    rewrite forallb_forall in Hd. rewrite Forall_forall in *. intros [k v] Hv. change (printable (dump_string k ++ ":"%char :: json_text v)). apply Forall_app_2; [apply printable_string|].
    constructor; [vm_compute; split; discriminate|]. apply (IH (k, v)); [done|]. by apply (Hd (k, v)), list_elem_of_In.
Qed.

(** Printing raises exactly on the values that are not within the limits; the text of the others is theirs. *)
Lemma collect_all {A} (f : A -> result exn chars) (g : A -> chars) l :
  Forall (fun x => f x = Ok (g x)) l -> collect (map f l) = Ok (map g l).
Proof. induction 1 as [|x l Hx _ IH]; [done|]. cbn. by rewrite Hx, IH. Qed.

Lemma collect_fails {A} (f : A -> result exn chars) l : Exists (fun x => is_ok (f x) = false) l -> is_ok (collect (map f l)) = false.
Proof.
  induction 1 as [x l Hx|x l _ IH]; cbn; [by destruct (f x)|]. destruct (f x); cbn; [|done]. by destruct (collect _).
Qed.

Lemma dumps_within v : forall room, within room v = true -> dumps room v = Ok (json_text v).
Proof.
  induction v as [|b|z|f|s|vs IH|ms IH] using value_nested_ind; intros room Hw; try done; cbn in Hw |- *.
  - unfold int_text. apply negb_true_iff in Hw. by rewrite Hw.
  - apply andb_true_iff in Hw as [Hroom Hw]. assert ((room <=? 0) = false) as -> by (bool_to_prop; lia).
    rewrite (collect_all _ json_text); [done|]. rewrite forallb_forall in Hw. rewrite Forall_forall in *. intros v Hv. apply IH; [done|].
    by apply Hw, list_elem_of_In.
  - apply andb_true_iff in Hw as [Hroom Hw]. assert ((room <=? 0) = false) as -> by (bool_to_prop; lia).
    rewrite (collect_all _ member_text); [done|]. rewrite forallb_forall in Hw. rewrite Forall_forall in *. intros [k v] Hv.
    rewrite (IH (k, v)); [done..|]. by apply (Hw (k, v)), list_elem_of_In.
Qed.

Lemma not_all {A} (f : A -> bool) l : forallb f l = false -> Exists (fun x => f x = false) l.
Proof. induction l as [|x l IH]; cbn; [done|]. intros [Hx|Hl]%andb_false_iff; [by left|right; by apply IH]. Qed.

Lemma exists_both {A} (P Q R : A -> Prop) l : Forall P l -> (forall x, P x -> Q x -> R x) -> Exists Q l -> Exists R l.
Proof. intros Hp Hi Hq. induction Hq as [x l Hx|x l _ IH]; apply Forall_cons in Hp as [Hp Hl]; [left; auto|right; auto]. Qed.

Lemma dumps_beyond v : forall room, within room v = false -> is_ok (dumps room v) = false.
Proof.
  induction v as [|b|z|f|s|vs IH|ms IH] using value_nested_ind; intros room Hw; try done; cbn in Hw |- *.
  - unfold int_text. apply negb_false_iff in Hw. by rewrite Hw.
  - destruct (Z.leb_spec room 0); [done|]. apply andb_false_iff in Hw as [Hw|Hw%not_all]; [lia|].
    pose proof (collect_fails (dumps (room - 1)) vs) as Hc. destruct (collect _); [|done]. exfalso. enough (true = false) by done. apply Hc.
    eapply exists_both; [exact IH| |exact Hw]. intros v Hv. apply Hv.
  - destruct (Z.leb_spec room 0); [done|]. apply andb_false_iff in Hw as [Hw|Hw%not_all]; [lia|].
    match goal with |- context [collect (map ?f ms)] => pose proof (collect_fails f ms) as Hc end. destruct (collect _); [|done]. exfalso. enough (true = false) by done. apply Hc.
    eapply exists_both; [exact IH| |exact Hw]. intros [k v] Hv Hk. cbn in *. specialize (Hv _ Hk). by destruct (dumps _ v).
Qed.

(** What is printed is read back. *)
Lemma loads_dumps v : doubles v = true -> within nesting_limit v = true -> json_loads (json_text v) = Ok (json_of v).
Proof.
  intros Hd Hw. pose proof (value_reads v Hd _ Hw) as Hr. unfold json_loads. pose proof (reads_skip _ v [] Hr) as Hs. rewrite app_nil_r in Hs. rewrite Hs.
  pose proof (reads_value _ v Hr (S (2 * length (json_text v))) []) as Hv. rewrite app_nil_r in Hv. by rewrite Hv by (done || lia).
Qed.
End Reading.
End PyJson.
