(* ===== verification/Logging.v ===== *)
(** * Structured logging: [mission_ground/telemetry/structured_logging.py]

    The line of a log record, when [json.dumps] prints one, and the configuration of a service's logger in the registry of the logging
    package.  A value of [extra] that JSON does not know is the string that [default=str] makes of it. *)
From S2P Require Import Prelude PyFloat PyFormat Uuid PyText Json PyObject PyEffect PyJson.

Open Scope Z_scope.
Open Scope string_scope.

Module Logging.

(** A record: its level, [getMessage()], its attributes in order, and the formatted exception if it has one. *)
Record LogRecord := mk_record {
  levelname : string;
  get_message : string;
  attributes : list (string * value);
  exception : option string
}.

Definition _STANDARD_FIELDS : list string :=
  ["args"; "asctime"; "created"; "exc_info"; "exc_text"; "filename"; "funcName"; "levelname"; "levelno"; "lineno"; "module";
   "msecs"; "message"; "msg"; "name"; "pathname"; "process"; "processName"; "relativeCreated"; "stack_info"; "thread";
   "threadName"; "taskName"].

(** An attribute that a line may show. *)
Definition exposed (key : string) : bool := negb (bool_decide (key ∈ _STANDARD_FIELDS)) && negb (startswith "_" key).

(** The loop over [record.__dict__]. *)
Definition add_attributes (attributes payload : list (string * value)) : list (string * value) :=
  foldl (fun payload '(key, v) =>
    if exposed key && negb (bool_decide (is_Some (assoc key payload))) then (payload ++ [(key, v)])%list else payload) payload attributes.

(** [isoformat().replace("+00:00", "Z")]: the offset is at the end. *)
Definition timestamp (now_us : Z) : string :=
  let text := isoformat_utc now_us in text_of (take (String.length text - 6) (chars_of text)) +:+ "Z".

(** The dictionary that [JsonFormatter.format] builds, and the line it prints. *)
Definition payload (service_name : string) (now_us : Z) (record : LogRecord) : list (string * value) :=
  let payload := [
    ("timestamp", VStr (timestamp now_us)); ("level", VStr (levelname record)); ("service_name", VStr service_name);
    ("event_name", default (VStr "service_log") (assoc "event_name" (attributes record)));
    ("message", VStr (get_message record))] in
  let payload := add_attributes (attributes record) payload in
  match exception record with Some text => dict_set "exception" (VStr text) payload | None => payload end.

Definition format `{Interpreter} (service_name : string) (now_us : Z) (record : LogRecord) : result exn string :=
  line ← PyJson.json_dumps (VDict (payload service_name now_us record)); Ok (text_of line).

(** ** The loggers of a process *)

(** A handler that writes to the standard error with the formatter of a service, or another one. *)
Inductive Handler := StreamHandler (formatter : string) | OtherHandler (id : Z).

Record Logger := mk_logger { handlers : list Handler; level : Z; propagate : bool }.

(** The loggers that exist, by name. *)
Abbreviation Registry := (gmap string Logger).

(** [logging.getLogger]: no name is the root's, and a logger that does not exist is made. *)
Definition getLogger (name : string) : eff Registry exn string :=
  let name := if String.eqb name "" then "root" else name in
  modify (fun reg => match reg !! name with Some _ => reg | None => <[name := mk_logger [] 0 true]> reg end) ;; mret name.

Definition on_logger (logger : string) (f : Logger -> Logger) : eff Registry exn unit := modify (alter f logger).

Definition _nameToLevel (name : string) : option Z :=
  if String.eqb name "CRITICAL" || String.eqb name "FATAL" then Some 50
  else if String.eqb name "ERROR" then Some 40
  else if String.eqb name "WARN" || String.eqb name "WARNING" then Some 30
  else if String.eqb name "INFO" then Some 20
  else if String.eqb name "DEBUG" then Some 10
  else if String.eqb name "NOTSET" then Some 0
  else None.

(** Of an unknown name, without quotation marks, the message quotes the name. *)
Definition setLevel (logger name : string) : eff Registry exn unit :=
  match _nameToLevel name with
  | Some n => on_logger logger (fun l => mk_logger (handlers l) n (propagate l))
  | None => throw (ValueError ("Unknown level: '" +:+ name +:+ "'"))
  end.

Definition upper_char (c : Ascii.ascii) : Ascii.ascii :=
  let n := Ascii.N_of_ascii c in if ((97 <=? n) && (n <=? 122))%N then Ascii.ascii_of_N (n - 32) else c.
Definition upper (s : string) : string := text_of (upper_char <$> chars_of s).

(** [configure_logging], with the environment's LOG_LEVEL. *)
Definition configure_logging (LOG_LEVEL : option string) (service_name : string) : eff Registry exn string :=
  logger ← getLogger service_name;
  on_logger logger (fun l => mk_logger [] (level l) (propagate l)) ;;
  on_logger logger (fun l => mk_logger (handlers l ++ [StreamHandler service_name])%list (level l) (propagate l)) ;;
  setLevel logger (upper (default "INFO" LOG_LEVEL)) ;;
  on_logger logger (fun l => mk_logger (handlers l) (level l) false) ;;
  mret logger.

(** [callHandlers]: the handlers that get a record of a logger, itself first and then its parents. *)
Fixpoint callHandlers (reg : Registry) (chain : list string) : list Handler :=
  match chain with
  | [] => []
  | name :: parents =>
      match reg !! name with
      | Some l => handlers l ++ (if propagate l then callHandlers reg parents else [])
      | None => callHandlers reg parents
      end
  end%list.

(** [getEffectiveLevel]: the first level that is set. *)
Fixpoint getEffectiveLevel (reg : Registry) (chain : list string) : Z :=
  match chain with
  | [] => 0
  | name :: parents =>
      match reg !! name with
      | Some l => if (level l =? 0)%Z then getEffectiveLevel reg parents else level l
      | None => getEffectiveLevel reg parents
      end
  end.

(** Who writes a record of a level. *)
Definition written (reg : Registry) (chain : list string) (levelno : Z) : list Handler :=
  if (getEffectiveLevel reg chain <=? levelno)%Z then callHandlers reg chain else [].

(** ** What a line holds *)

Lemma assoc_app key l l' : assoc key (l ++ l')%list = match assoc key l with Some v => Some v | None => assoc key l' end.
Proof. induction l as [|[k v] l IH]; [done|]. cbn. by destruct (String.eqb key k). Qed.

Lemma assoc_set key k v l : assoc key (dict_set k v l) = if String.eqb key k then Some v else assoc key l.
Proof.
  induction l as [|[k' w] l IH]; cbn; [done|]. destruct (String.eqb_spec k k') as [->|Hne]; cbn.
  - by destruct (String.eqb key k').
  - destruct (String.eqb_spec key k') as [->|]; [|done]. by destruct (String.eqb_spec k' k) as [->|].
Qed.

(** A member of the payload wins over an attribute, and the first attribute of a name over the others. *)
Lemma assoc_add key attrs payload :
  assoc key (add_attributes attrs payload) =
  match assoc key payload with Some v => Some v | None => if exposed key then assoc key attrs else None end.
Proof.
  revert payload; induction attrs as [|[k v] attrs IH]; intros payload; cbn [add_attributes foldl].
  - cbn. destruct (assoc key payload); [done|by destruct (exposed key)].
  - unfold add_attributes in IH. rewrite IH. cbn [assoc]. destruct (String.eqb_spec key k) as [->|Hne].
    + destruct (exposed k) eqn:He; cbn [andb]; [|done].
      case_bool_decide as Hs; cbn [negb]; [by destruct Hs as [w ->]|].
      rewrite assoc_app. destruct (assoc k payload); [done|]. cbn. by rewrite String.eqb_refl.
    + destruct (exposed k && _); [|done]. rewrite assoc_app. cbn.
      apply String.eqb_neq in Hne as ->. by destruct (assoc key payload).
Qed.

(** What a line shows under a name. *)
Definition shown (service_name : string) (now_us : Z) (record : LogRecord) (key : string) : option value :=
  if String.eqb key "timestamp" then Some (VStr (timestamp now_us))
  else if String.eqb key "level" then Some (VStr (levelname record))
  else if String.eqb key "service_name" then Some (VStr service_name)
  else if String.eqb key "event_name" then Some (default (VStr "service_log") (assoc "event_name" (attributes record)))
  else if String.eqb key "message" then Some (VStr (get_message record))
  else match exception record with
       | Some text => if String.eqb key "exception" then Some (VStr text) else if exposed key then assoc key (attributes record) else None
       | None => if exposed key then assoc key (attributes record) else None
       end.

Lemma payload_shown service_name now_us record key : assoc key (payload service_name now_us record) = shown service_name now_us record key.
Proof.
  unfold payload, shown. destruct (exception record) as [text|]; rewrite ?assoc_set, assoc_add; cbn [assoc];
    repeat case_match; try done; repeat match goal with H : String.eqb _ _ = true |- _ => apply String.eqb_eq in H end; congruence.
Qed.

(** A dictionary's names are distinct. *)
Lemma assoc_absent key ms : assoc key ms = None <-> key ∉ ms.*1.
Proof.
  induction ms as [|[k v] ms IH]; cbn; [split; [intros _; apply not_elem_of_nil|done]|].
  rewrite not_elem_of_cons, <- IH. destruct (String.eqb_spec key k) as [->|]; [split; [done|by intros [[] _]]|]. by split; [|intros []].
Qed.

Lemma distinct_set key v ms : NoDup ms.*1 -> NoDup (dict_set key v ms).*1.
Proof.
  induction ms as [|[k w] ms IH]; cbn; intros Hnd; [by repeat constructor; apply not_elem_of_nil|].
  apply NoDup_cons in Hnd as [Hk Hnd]. destruct (String.eqb_spec key k) as [->|Hne]; cbn; constructor; auto.
  apply assoc_absent. rewrite assoc_set. apply String.eqb_neq in Hne. rewrite String.eqb_sym, Hne. by apply assoc_absent.
Qed.

Lemma distinct_add attrs ms : NoDup ms.*1 -> NoDup (add_attributes attrs ms).*1.
Proof.
  revert ms. induction attrs as [|[k v] attrs IH]; intros ms Hnd; [done|]. unfold add_attributes in *. cbn [foldl]. apply IH.
  destruct (exposed k); cbn [andb]; [|done]. case_bool_decide as Hs; cbn [negb]; [done|].
  rewrite fmap_app. apply NoDup_app. split_and!; [done| |by repeat constructor; apply not_elem_of_nil].
  intros x Hx Hk. cbn in Hk. apply elem_of_cons in Hk as [->|Hk%elem_of_nil]; [|done]. revert Hx. apply assoc_absent.
  by destruct (assoc k ms); [destruct Hs|].
Qed.

Lemma distinct_payload service_name now_us record : NoDup (payload service_name now_us record).*1.
Proof.
  unfold payload. match goal with |- context [add_attributes _ ?l] => assert (NoDup l.*1) as Hnd by (cbn; apply (bool_decide_unpack _); vm_compute; exact I) end.
  destruct (exception record); [apply distinct_set|]; by apply distinct_add.
Qed.

Lemma doubles_assoc key ms v : forallb (fun '(_, w) => PyJson.doubles w) ms = true -> assoc key ms = Some v -> PyJson.doubles v = true.
Proof. induction ms as [|[k w] ms IH]; cbn; [done|]. intros [Hw Hms]%andb_true_iff. destruct (String.eqb key k); [by intros [= <-]|by apply IH]. Qed.

(** The entries of a payload are what is shown. *)
Lemma payload_entries service_name now_us record k v :
  (k, v) ∈ payload service_name now_us record <-> shown service_name now_us record k = Some v.
Proof.
  rewrite <- payload_shown. pose proof (distinct_payload service_name now_us record) as Hnd. revert Hnd.
  generalize (payload service_name now_us record). intros ms. induction ms as [|[k' w] ms IH]; intros Hnd; cbn; [by rewrite elem_of_nil|].
  apply NoDup_cons in Hnd as [Hk Hnd]. rewrite elem_of_cons, IH by done. destruct (String.eqb_spec k k') as [->|Hne].
  - split; [intros [[= ->]|Hin]; [done|]|intros [= ->]; by left]. cbn in Hk. apply assoc_absent in Hk. congruence.
  - split; [by intros [[= ? _]|]|by right].
Qed.

(** A payload holds doubles when the attributes do: each of its values is shown. *)
Lemma doubles_payload service_name now_us record :
  PyJson.doubles (VDict (attributes record)) = true -> PyJson.doubles (VDict (payload service_name now_us record)) = true.
Proof.
  cbn [PyJson.doubles]. intros Ha.
  apply forallb_forall. intros [k v] Hk%list_elem_of_In. apply payload_entries in Hk. unfold shown in Hk.
  repeat (destruct (String.eqb k _); [injection Hk as <-; try reflexivity|]).
  - destruct (assoc "event_name" (attributes record)) eqn:He; [by eapply doubles_assoc|done].
  - destruct (exception record); [destruct (String.eqb k _); [by injection Hk as <-|]|]; (destruct (exposed k); [by eapply doubles_assoc|done]).
Qed.

(** The decoder finds under a name what the dictionary has. *)
Lemma member_assoc key ms : NoDup ms.*1 -> member key (map PyJson.member_json ms) = PyJson.json_of <$> assoc key ms.
Proof.
  induction ms as [|[k v] ms IH]; intros Hnd; [done|]. apply NoDup_cons in Hnd as [Hk Hnd]. cbn. rewrite IH by done.
  destruct (String.eqb_spec key k) as [->|Hne].
  - cbn in Hk. apply assoc_absent in Hk as ->. cbn. by rewrite bool_decide_true.
  - destruct (assoc key ms); cbn; [done|]. by rewrite bool_decide_false by congruence.
Qed.

Section Lines.
Context `{interpreter : Interpreter}.

Lemma within_shown service_name now_us record :
  PyJson.within nesting_limit (VDict (payload service_name now_us record)) = true ->
  forall key v, shown service_name now_us record key = Some v -> PyJson.within (nesting_limit - 1) v = true.
Proof.
  cbn. intros [_ Hw]%andb_true_iff key v Hk%payload_entries. rewrite forallb_forall in Hw. by apply (Hw (key, v)), list_elem_of_In.
Qed.

Lemma beyond_shown service_name now_us record :
  PyJson.within nesting_limit (VDict (payload service_name now_us record)) = false ->
  exists key v, shown service_name now_us record key = Some v /\ PyJson.within (nesting_limit - 1) v = false.
Proof.
  pose proof nesting_some as Hs. cbn. intros [Hw|Hw%PyJson.not_all]%andb_false_iff; [apply Z.ltb_ge in Hw; lia|].
  apply Exists_exists in Hw as ([key v] & Hin & Hw). exists key, v. split; [by apply payload_entries|done].
Qed.

Lemma format_cases service_name now_us record :
  if PyJson.within nesting_limit (VDict (payload service_name now_us record))
  then format service_name now_us record = Ok (text_of (PyJson.json_text (VDict (payload service_name now_us record))))
  else is_ok (format service_name now_us record) = false.
Proof.
  unfold format, PyJson.json_dumps. destruct (PyJson.within _ _) eqn:Hw.
  - by rewrite PyJson.dumps_within.
  - apply PyJson.dumps_beyond in Hw. by destruct (PyJson.dumps _ _).
Qed.

(** C20. Every log line can be read back: it is one line of printable ASCII, and the JSON decoder finds in it,
    each under its name once, the time, level, service, event's name and message, whatever the attributes
    are called; every other attribute that is neither the logging package's nor private, unchanged; the
    exception, which wins over an attribute of that name; and nothing else.  There is a line unless a value
    to be shown has an integer with more digits than the interpreter prints or is nested deeper than its
    recursion limit: then, and only then, formatting raises. *)
Theorem line_read_back service_name now_us record :
  PyJson.doubles (VDict (attributes record)) = true ->
  match format service_name now_us record with
  | Ok line =>
      PyJson.printable (chars_of line) /\
      exists ms, json_loads (chars_of line) = Ok (JObject ms) /\ NoDup ms.*1 /\
        forall key, member key ms = PyJson.json_of <$> shown service_name now_us record key
  | Raise _ => exists key v, shown service_name now_us record key = Some v /\ PyJson.within (nesting_limit - 1) v = false
  end /\
  (is_ok (format service_name now_us record) = true ->
     forall key v, shown service_name now_us record key = Some v -> PyJson.within (nesting_limit - 1) v = true).
Proof.
  intros Hd. apply (doubles_payload service_name now_us) in Hd. pose proof (format_cases service_name now_us record) as Hf.
  destruct (PyJson.within _ _) eqn:Hw; [rewrite Hf|].
  - split; [|intros _; by apply within_shown]. rewrite chars_text. split; [by apply PyJson.value_printable|].
    exists (map PyJson.member_json (payload service_name now_us record)).
    pose proof (distinct_payload service_name now_us record) as Hnd. split_and!.
    + rewrite PyJson.loads_dumps by done. reflexivity.
    + assert (forall ms, (map PyJson.member_json ms).*1 = ms.*1) as Hk by (intros ms; induction ms as [|[k v] ms IH]; [done|]; cbn; by rewrite IH).
      by rewrite Hk.
    + intros key. by rewrite member_assoc, payload_shown.
  - destruct (format _ _ _); [done|]. split; [by apply beyond_shown|done].
Qed.
End Lines.

#[local] Existing Instance cpython.

Definition claimed_record : LogRecord := mk_record "INFO" "job claimed"
  [("msg", VStr "job claimed"); ("event_name", VStr "job.claimed"); ("level", VInt 9); ("_private", VInt 1); ("job_id", VStr "j"); ("seconds", VFloat (decimal 25 2))] None.

Example line_example :
  format "payload-worker" 1_784_203_201_000_000 claimed_record =
  Ok (text_of (quoted "{'timestamp':'2026-07-16T12:00:01Z','level':'INFO','service_name':'payload-worker','event_name':'job.claimed','message':'job claimed','job_id':'j','seconds':0.25}")).
Proof. vm_compute. reflexivity. Qed.

(** A record with a list that is nested too deep. *)
Definition nested : value := Nat.iter 900 (fun v => VList [v]) VNone.
Definition deep_record : LogRecord := mk_record "INFO" "m" [("path", nested)] None.

Lemma line_read_back_witness :
  (exists line ms, format "payload-worker" 1_784_203_201_000_000 claimed_record = Ok line /\
    json_loads (chars_of line) = Ok (JObject ms) /\
    member "job_id" ms = Some (JString "j") /\ member "level" ms = Some (JString "INFO") /\ member "_private" ms = None) /\
  is_ok (format "payload-worker" 0 deep_record) = false.
Proof.
  split.
  - destruct (line_read_back "payload-worker" 1_784_203_201_000_000 claimed_record eq_refl) as [H _].
    rewrite line_example in H. destruct H as (_ & ms & Hl & _ & Hm).
    eexists _, ms. split; [exact line_example|]. split; [exact Hl|]. rewrite !Hm. split_and!; reflexivity.
  - destruct (line_read_back "payload-worker" 0 deep_record eq_refl) as [_ H].
    destruct (is_ok _) eqn:Hok; [|reflexivity]. exfalso.
    assert (PyJson.within (nesting_limit - 1) nested = false) as Hf by (vm_compute; reflexivity).
    rewrite (H eq_refl "path" _ eq_refl) in Hf. discriminate Hf.
Defined.

(** ** What the configuration guarantees *)

Lemma get_logger service_name reg : service_name <> "" ->
  exists l, getLogger service_name reg = (Ok service_name, <[service_name := l]> reg).
Proof.
  intros Hne%String.eqb_neq. unfold getLogger. rewrite Hne. destruct (reg !! service_name) as [l|] eqn:Hl.
  - exists l. rewrite insert_id by done. unfold mbind, eff_bind, modify. by rewrite Hl.
  - eexists. unfold mbind, eff_bind, modify. by rewrite Hl.
Qed.

Lemma run_on_logger name f l reg : on_logger name f (<[name := l]> reg) = (Ok tt, <[name := f l]> reg).
Proof. unfold on_logger, modify. by rewrite alter_insert_eq. Qed.

(** What the configuration leaves in the registry. *)
Lemma configured LOG_LEVEL service_name reg : service_name <> "" -> exists l,
  configure_logging LOG_LEVEL service_name reg =
    match _nameToLevel (upper (default "INFO" LOG_LEVEL)) with
    | Some n => (Ok service_name, <[service_name := mk_logger [StreamHandler service_name] n false]> reg)
    | None => (Raise (ValueError ("Unknown level: '" +:+ upper (default "INFO" LOG_LEVEL) +:+ "'")),
               <[service_name := mk_logger [StreamHandler service_name] (level l) (propagate l)]> reg)
    end.
Proof.
  intros Hne. destruct (get_logger service_name reg Hne) as [l Hl]. exists l. unfold configure_logging, setLevel.
  rewrite run_eff_bind, Hl, run_eff_bind, run_on_logger, run_eff_bind, run_on_logger, run_eff_bind.
  destruct (_nameToLevel _) as [n|]; [|done]. rewrite run_on_logger, run_eff_bind, run_on_logger. done.
Qed.

(** Configuring a service's logger: however often it runs and whatever the logger was, a record of the
    service is written by its own handler once or, below the level, not at all, and by no other; the
    loggers of other names stay as they were, so that no service relabels the lines of another; a level
    that does not exist ends the start with a ValueError. *)
Theorem configured_once LOG_LEVEL service_name reg :
  service_name <> "" ->
  let '(r, reg') := configure_logging LOG_LEVEL service_name reg in
  (forall other, other <> service_name -> reg' !! other = reg !! other) /\
  match _nameToLevel (upper (default "INFO" LOG_LEVEL)) with
  | Some n =>
      r = Ok service_name /\
      configure_logging LOG_LEVEL service_name reg' = (r, reg') /\
      forall parents levelno,
        written reg' (service_name :: parents) levelno =
          if ((if n =? 0 then getEffectiveLevel reg' parents else n) <=? levelno)%Z then [StreamHandler service_name] else []
  | None => exists m, r = Raise (ValueError m)
  end.
Proof.
  intros Hne. destruct (configured LOG_LEVEL service_name reg Hne) as [l Hl]. rewrite Hl.
  destruct (_nameToLevel (upper _)) as [n|] eqn:Hn.
  - split; [by intros other Ho; rewrite lookup_insert_ne|]. split; [done|]. split.
    + destruct (configured LOG_LEVEL service_name (<[service_name := mk_logger [StreamHandler service_name] n false]> reg) Hne) as [l' ->].
      by rewrite Hn, insert_insert_eq.
    + intros parents levelno. unfold written. cbn [getEffectiveLevel callHandlers]. rewrite !lookup_insert_eq. cbn. by destruct (n =? 0)%Z.
  - split; [by intros other Ho; rewrite lookup_insert_ne|]. by eexists.
Qed.

Definition process_loggers : Registry := {["root" := mk_logger [OtherHandler 1] 30 true; "ground-api" := mk_logger [OtherHandler 2] 0 true]}.

Example configured_example :
  let reg := (configure_logging (Some "debug") "ground-api" process_loggers).2 in
  written reg ["ground-api"; "root"] 10 = [StreamHandler "ground-api"] /\ written reg ["other"; "root"] 20 = [] /\
  written reg ["other"; "root"] 30 = [OtherHandler 1].
Proof. vm_compute. split_and!; reflexivity. Qed.
End Logging.
