(* ===== verification/Spacecraft.v ===== *)
(** * The spacecraft simulator: [mission_ground/services/spacecraft_sim.py]

    The commandable state, the datagram handler and one round of the telemetry loop.  Readings of the
    clock, of [math.sin] and of [random.uniform], and whether the loop's [sendto] returns, are arguments;
    sockets are the list of datagrams sent (what asyncio's transport cannot send it reports to the
    protocol, which ignores it; a lost datagram is the link's); asyncio's pause between rounds does
    nothing. *)
From S2P Require Import Prelude PyStruct PyFloat FloatBounds Crc32 SpacePacket Commands PyObject PyEffect.

Open Scope Z_scope.

Module Spacecraft.
Import SpacePacket.

Record SpacecraftState := mk_craft {
  sc_mode : Z;
  sc_wheel_rpm : Z;
  sc_fault_flags : Z;
  health_sequence : Z;
  ack_sequence : Z;
  command_results : gmap Z CommandAck
}.

Definition initial_craft : SpacecraftState := mk_craft 1 1200 0 0 0 ∅.

Definition set_mode (v : Z) (st : SpacecraftState) : SpacecraftState :=
  mk_craft v (sc_wheel_rpm st) (sc_fault_flags st) (health_sequence st) (ack_sequence st) (command_results st).
Definition set_wheel_rpm (v : Z) (st : SpacecraftState) : SpacecraftState :=
  mk_craft (sc_mode st) v (sc_fault_flags st) (health_sequence st) (ack_sequence st) (command_results st).
Definition set_fault_flags (v : Z) (st : SpacecraftState) : SpacecraftState :=
  mk_craft (sc_mode st) (sc_wheel_rpm st) v (health_sequence st) (ack_sequence st) (command_results st).
Definition set_health_sequence (v : Z) (st : SpacecraftState) : SpacecraftState :=
  mk_craft (sc_mode st) (sc_wheel_rpm st) (sc_fault_flags st) v (ack_sequence st) (command_results st).
Definition set_ack_sequence (v : Z) (st : SpacecraftState) : SpacecraftState :=
  mk_craft (sc_mode st) (sc_wheel_rpm st) (sc_fault_flags st) (health_sequence st) v (command_results st).
Definition store_result (id : Z) (ack : CommandAck) (st : SpacecraftState) : SpacecraftState :=
  mk_craft (sc_mode st) (sc_wheel_rpm st) (sc_fault_flags st) (health_sequence st) (ack_sequence st)
    (<[id := ack]> (command_results st)).

(** The process: the state, whether [connection_made] has run, the labelled counters, the gauges and the
    datagrams sent, in order. *)
Record Simulator := mk_sim {
  craft : SpacecraftState;
  transport : bool;
  commands_received : gmap string Z;
  packets_sent : gmap string Z;
  gauges : option (float * float);
  radio : list bytes
}.

Definition initial_sim : Simulator := mk_sim initial_craft false ∅ ∅ None [].

Abbreviation sim := (eff Simulator exn).

Definition on_craft (f : SpacecraftState -> SpacecraftState) : sim unit := modify (fun s =>
  mk_sim (f (craft s)) (transport s) (commands_received s) (packets_sent s) (gauges s) (radio s)).
Definition bump (label : string) (counts : gmap string Z) : gmap string Z :=
  <[label := default 0 (counts !! label) + 1]> counts.
Definition count_command (label : string) : sim unit := modify (fun s =>
  mk_sim (craft s) (transport s) (bump label (commands_received s)) (packets_sent s) (gauges s) (radio s)).
Definition count_sent (label : string) : sim unit := modify (fun s =>
  mk_sim (craft s) (transport s) (commands_received s) (bump label (packets_sent s)) (gauges s) (radio s)).
Definition set_gauges (voltage temperature : float) : sim unit := modify (fun s =>
  mk_sim (craft s) (transport s) (commands_received s) (packets_sent s) (Some (voltage, temperature)) (radio s)).
Definition sendto (raw : bytes) : sim unit := modify (fun s =>
  mk_sim (craft s) (transport s) (commands_received s) (packets_sent s) (gauges s) (radio s ++ [raw])).

Definition connection_made : sim unit := modify (fun s =>
  mk_sim (craft s) true (commands_received s) (packets_sent s) (gauges s) (radio s)).

(** The branches on the command's name: the status and the change of the state. *)
Definition execute (frame : CommandFrame) : Z * (SpacecraftState -> SpacecraftState) :=
  let name := Commands.OPCODE_TO_NAME !! opcode frame in
  if bool_decide (name = Some "SET_MODE") && ((0 <=? argument frame) && (argument frame <=? 3)) then
    (0, set_mode (argument frame))
  else if bool_decide (name = Some "SET_WHEEL_RPM") && ((-6000 <=? argument frame) && (argument frame <=? 6000)) then
    (0, set_wheel_rpm (argument frame))
  else if bool_decide (name = Some "RESET_FAULTS") && (argument frame =? 0) then
    (0, set_fault_flags 0)
  else (1, id).

Definition apply (raw : bytes) (now_ns : Z) : sim CommandAck :=
  frame ← lift (of_packet (decode_command raw));
  s ← get;
  match command_results (craft s) !! command_id frame with
  | Some cached => mret cached
  | None =>
      let '(status, change) := execute frame in
      on_craft change ;;
      let ack := mk_ack (command_id frame) status (argument frame) now_ns in
      on_craft (store_result (command_id frame) ack) ;;
      mret ack
  end.

(** The part of the handler that answers. *)
Definition respond (ack : CommandAck) : sim unit :=
  count_command (if status ack =? 0 then "accepted" else "rejected") ;;
  s ← get;
  raw_ack ← lift (of_packet (encode_ack (ack_sequence (craft s)) ack));
  on_craft (fun st => set_ack_sequence (Z.land (ack_sequence st + 1) 0x3FFF) st) ;;
  s' ← get;
  (if transport s' then mret tt else throw AssertionError) ;;
  sendto raw_ack ;;
  count_sent "command_ack".

Definition datagram_received (data : bytes) (now_ns : Z) : sim unit :=
  try_catch (ack ← apply data now_ns; respond ack)
    (fun exc => if is_packet_error exc then count_command "malformed" else throw exc).

(** ** The telemetry loop *)

(** The environment's share of one round: the clock, [math.sin(tick / 30)], [random.uniform(-0.4, 0.4)],
    and whether [sock.sendto] returns or raises an OSError, as it does when the target's name has no address. *)
Record Reading := mk_reading { read_ns : Z; sine : float; noise : float; sent : bool }.

Definition is_anomaly (anomaly_every tick : Z) : bool := (0 <? anomaly_every) && (tick mod anomaly_every =? 0).

Definition simulated_voltage (anomaly : bool) (r : Reading) : float :=
  if anomaly then decimal 228 1 else float_add (decimal 284 1) (float_mul (sine r) (decimal 3 1)).
Definition simulated_temperature (anomaly : bool) (r : Reading) : float :=
  if anomaly then float_of_Z 69 else float_add (float_of_Z 31) (noise r).

(** One round, with [tick] already incremented. *)
Definition send_health (r : Reading) (voltage temperature : float) : sim unit :=
  s ← get;
  let st := craft s in
  let sample := mk_health (read_ns r) voltage temperature (sc_wheel_rpm st) (sc_mode st) (sc_fault_flags st) in
  raw ← lift (of_packet (encode_health (health_sequence st) sample));
  (if sent r then mret tt else throw OSError) ;;
  sendto raw ;;
  on_craft (fun st => set_health_sequence (Z.land (health_sequence st + 1) 0x3FFF) st) ;;
  count_sent "health" ;;
  set_gauges voltage temperature.

Definition telemetry_round (anomaly_every tick : Z) (r : Reading) : sim unit :=
  let anomaly := is_anomaly anomaly_every tick in
  let voltage := simulated_voltage anomaly r in
  let temperature := simulated_temperature anomaly r in
  (if anomaly then on_craft (fun st => set_fault_flags (Z.lor (sc_fault_flags st) 1) st) else mret tt) ;;
  send_health r voltage temperature.

(** ** Runs *)

Inductive event :=
| Connected
| Datagram (data : bytes) (now_ns : Z)
| Round (tick : Z) (r : Reading).

Definition handle (anomaly_every : Z) (e : event) : sim unit :=
  match e with
  | Connected => connection_made
  | Datagram data now_ns => datagram_received data now_ns
  | Round tick r => telemetry_round anomaly_every tick r
  end.

(** An exception that leaves the datagram handler is logged by asyncio and ends that call only.  One that
    leaves a round ends the process; a run that goes on after it is more than the program does. *)
Definition simulate (anomaly_every : Z) (events : list event) (s : Simulator) : Simulator :=
  foldl (fun s e => (handle anomaly_every e s).2) s events.

(** ** Specification: the log of executed commands *)

Inductive entry := Command (frame : CommandFrame) (at_ns : Z) | Anomaly.

Definition entry_id (x : entry) : option Z := match x with Command f _ => Some (command_id f) | Anomaly => None end.
Definition logged (id : Z) (log : list entry) : bool := bool_decide (id ∈ omap entry_id log).

(** A well-formed frame is logged the first time its identifier arrives. *)
Definition log_event (anomaly_every : Z) (log : list entry) (e : event) : list entry :=
  match e with
  | Connected => log
  | Datagram data now_ns =>
      match decode_command data with
      | Ok f => if logged (command_id f) log then log else log ++ [Command f now_ns]
      | Raise _ => log
      end
  | Round tick _ => if is_anomaly anomaly_every tick then log ++ [Anomaly] else log
  end.
Definition log_of (anomaly_every : Z) (events : list event) : list entry := foldl (log_event anomaly_every) [] events.

(** A frame is allowed when the operators' command table allows its command and argument. *)
Definition allowed (f : CommandFrame) : bool :=
  match Commands.OPCODE_TO_NAME !! opcode f with
  | Some name => is_ok (Commands.validate_command name (argument f))
  | None => false
  end.

(** What an entry sets: the mode, the wheel speed, the fault flags. *)
Definition sets_mode (x : entry) : option Z :=
  match x with Command f _ => if allowed f && (opcode f =? 1) then Some (argument f) else None | Anomaly => None end.
Definition sets_rpm (x : entry) : option Z :=
  match x with Command f _ => if allowed f && (opcode f =? 2) then Some (argument f) else None | Anomaly => None end.
Definition sets_flags (x : entry) : option Z :=
  match x with Command f _ => if allowed f && (opcode f =? 3) then Some 0 else None | Anomaly => Some 1 end.

(** The latest value that an entry set, and the value before any. *)
Definition latest (f : entry -> option Z) (start : Z) (log : list entry) : Z := default start (last (omap f log)).

Definition answer (f : CommandFrame) (at_ns : Z) : CommandAck :=
  mk_ack (command_id f) (if allowed f then 0 else 1) (argument f) at_ns.
Definition answers (log : list entry) : gmap Z CommandAck :=
  foldl (fun m x => match x with Command f t => <[command_id f := answer f t]> m | Anomaly => m end) ∅ log.

(** The state that a log describes. *)
Definition described (log : list entry) (st : SpacecraftState) : Prop :=
  sc_mode st = latest sets_mode 1 log /\ sc_wheel_rpm st = latest sets_rpm 1200 log /\
  sc_fault_flags st = latest sets_flags 0 log /\ command_results st = answers log.

(** ** Execution against the table *)

Lemma execute_cases f :
  (allowed f = true /\ opcode f = 1 /\ 0 <= argument f <= 3 /\ execute f = (0, set_mode (argument f))) \/
  (allowed f = true /\ opcode f = 2 /\ -6000 <= argument f <= 6000 /\ execute f = (0, set_wheel_rpm (argument f))) \/
  (allowed f = true /\ opcode f = 3 /\ argument f = 0 /\ execute f = (0, set_fault_flags 0)) \/
  (allowed f = false /\ execute f = (1, id)).
Proof.
  unfold allowed, execute. destruct (Commands.OPCODE_TO_NAME !! opcode f) as [name|] eqn:Hn; [|right; right; right; split; reflexivity].
  apply Commands.OPCODE_TO_NAME_cases in Hn as [[-> ->]|[[-> ->]|[-> ->]]].
  - rewrite (Commands.validate_in_table _ _ (Commands.mk_definition 1 0 3)) by reflexivity. cbn.
    destruct ((0 <=? argument f) && (argument f <=? 3)) eqn:?; bool_to_prop; [left|right; right; right; split; reflexivity]. split_and!; lia || done.
  - rewrite (Commands.validate_in_table _ _ (Commands.mk_definition 2 (-6000) 6000)) by reflexivity. cbn.
    destruct ((-6000 <=? argument f) && (argument f <=? 6000)) eqn:?; bool_to_prop; [right; left|right; right; right; split; reflexivity].
    split_and!; lia || done.
  - rewrite (Commands.validate_in_table _ _ (Commands.mk_definition 3 0 0)) by reflexivity. cbn.
    destruct (Z.eqb_spec (argument f) 0) as [->|]; [right; right; left; by split_and!|].
    destruct ((0 <=? argument f) && (argument f <=? 0)) eqn:?; bool_to_prop; [lia|right; right; right; split; reflexivity].
Qed.

(** ** One event *)

(** The parts of the state that commands and anomalies change are the same. *)
Definition same_commands (s s' : Simulator) : Prop :=
  sc_mode (craft s') = sc_mode (craft s) /\ sc_wheel_rpm (craft s') = sc_wheel_rpm (craft s) /\
  sc_fault_flags (craft s') = sc_fault_flags (craft s) /\ command_results (craft s') = command_results (craft s).

#[export] Instance same_commands_preorder : PreOrder same_commands.
Proof. split; unfold same_commands; [done|]. intros s1 s2 s3 (? & ? & ? & ?) (? & ? & ? & ?). split_and!; congruence. Qed.

Lemma described_same log s s' : same_commands s s' -> described log (craft s) -> described log (craft s').
Proof. unfold same_commands, described. intros (-> & -> & -> & ->). done. Qed.

Ltac keep_commands := keep_with ltac:(by split_and!).

(** The state that [apply] leaves and the acknowledgement it returns. *)
Lemma apply_run raw now s :
  apply raw now s =
  match decode_command raw with
  | Raise e => (Raise (PacketExn e), s)
  | Ok f =>
      match command_results (craft s) !! command_id f with
      | Some cached => (Ok cached, s)
      | None => (Ok (answer f now),
          mk_sim (store_result (command_id f) (answer f now) ((execute f).2 (craft s))) (transport s)
            (commands_received s) (packets_sent s) (gauges s) (radio s))
      end
  end.
Proof.
  unfold apply. rewrite run_eff_bind. unfold lift. destruct (decode_command raw) as [f|e]; [|done]. cbn [of_packet catch].
  rewrite run_eff_bind. cbn [get]. destruct (command_results (craft s) !! command_id f); [done|].
  unfold answer. destruct (execute_cases f) as [(-> & _ & _ & ->)|[(-> & _ & _ & ->)|[(-> & _ & _ & ->)|(-> & ->)]]]; done.
Qed.

Lemma respond_keeps ack : keeps same_commands (respond ack).
Proof. unfold respond. keep_commands. Qed.

Lemma send_health_keeps r v t : keeps same_commands (send_health r v t).
Proof. unfold send_health. keep_commands. Qed.

Lemma datagram_craft raw now s : same_commands (apply raw now s).2 (datagram_received raw now s).2.
Proof.
  unfold datagram_received, try_catch. rewrite run_eff_bind.
  destruct (apply raw now s) as [[ack|e] s1]; cbn [snd].
  - pose proof (respond_keeps ack s1) as Hk. destruct (respond ack s1) as [[a|e] s2]; [done|]. cbn in Hk.
    destruct (is_packet_error e); [|done]. etransitivity; [exact Hk|by split_and!].
  - destruct (is_packet_error e); [by split_and!|done].
Qed.

Lemma answers_logged log id : is_Some (answers log !! id) <-> logged id log = true.
Proof.
  unfold logged. rewrite bool_decide_eq_true. induction log as [|x log IH] using rev_ind.
  - unfold answers. cbn. rewrite lookup_empty, elem_of_nil. split; [by intros []|done].
  - unfold answers in *. rewrite foldl_app, omap_app, elem_of_app. destruct x as [f t|]; cbn.
    + rewrite lookup_insert_is_Some, IH, list_elem_of_singleton. destruct (decide (command_id f = id)); naive_solver.
    + rewrite elem_of_nil. naive_solver.
Qed.

Lemma latest_snoc g start log x : latest g start (log ++ [x]) = default (latest g start log) (g x).
Proof.
  unfold latest. rewrite omap_app. cbn. destruct (g x) as [v|]; cbn; [by rewrite last_snoc|by rewrite app_nil_r].
Qed.

(** A first command changes the state as its entry says. *)
Lemma described_command log st f now :
  described log st -> described (log ++ [Command f now]) (store_result (command_id f) (answer f now) ((execute f).2 st)).
Proof.
  unfold described. rewrite !latest_snoc. unfold answers. rewrite foldl_app. fold (answers log). intros (<- & <- & <- & <-). cbn [foldl].
  unfold sets_mode, sets_rpm, sets_flags.
  destruct (execute_cases f) as [(-> & -> & _ & ->)|[(-> & -> & _ & ->)|[(-> & -> & _ & ->)|(-> & ->)]]]; cbn; split_and!; done.
Qed.

(** The flags are 0 or 1, so that setting bit 0 sets them to 1. *)
Lemma latest_flags log : latest sets_flags 0 log = 0 \/ latest sets_flags 0 log = 1.
Proof.
  induction log as [|x log IH] using rev_ind; [by left|]. rewrite latest_snoc. destruct x as [f t|]; cbn; [|by right].
  destruct (allowed f && (opcode f =? 3)); [by left|done].
Qed.

Lemma log_step n log s e : described log (craft s) -> described (log_event n log e) (craft (handle n e s).2).
Proof.
  intros Hd. destruct e as [|raw now|tick r]; cbn [handle log_event]; [done| |].
  - apply described_same with (1 := datagram_craft raw now s). rewrite apply_run.
    destruct (decode_command raw) as [f|e]; [|done].
    pose proof (answers_logged log (command_id f)) as Hl. destruct Hd as (Hm & Hr & Hf & Ha). rewrite <- Ha in Hl.
    destruct (command_results (craft s) !! command_id f) as [c|].
    + rewrite (proj1 Hl) by done. done.
    + destruct (logged (command_id f) log); [by destruct (proj2 Hl eq_refl)|]. by apply described_command.
  - unfold telemetry_round. set (s1 := if is_anomaly n tick
      then mk_sim (set_fault_flags (Z.lor (sc_fault_flags (craft s)) 1) (craft s)) (transport s) (commands_received s) (packets_sent s) (gauges s) (radio s)
      else s).
    assert (forall m : sim unit, ((if is_anomaly n tick then on_craft (fun st => set_fault_flags (Z.lor (sc_fault_flags st) 1) st)
      else mret tt) ;; m) s = m s1) as -> by (intros m; unfold s1; by destruct (is_anomaly n tick)).
    pose proof (send_health_keeps r (simulated_voltage (is_anomaly n tick) r) (simulated_temperature (is_anomaly n tick) r)) as Hk.
    apply described_same with (1 := Hk s1). unfold s1. destruct (is_anomaly n tick); [|done].
    destruct Hd as (Hm & Hr & Hf & Ha). unfold described. rewrite !latest_snoc. unfold answers. rewrite foldl_app. cbn.
    split_and!; [done|done| |done]. rewrite Hf. by destruct (latest_flags log) as [-> | ->].
Qed.

Lemma log_ids_fresh n events : NoDup (omap entry_id (log_of n events)).
Proof.
  unfold log_of. induction events as [|e events IH] using rev_ind; [constructor|]. rewrite foldl_app. cbn.
  set (log := foldl _ _ _) in *. destruct e as [|raw now|tick r]; cbn; [done| |].
  - destruct (decode_command raw) as [f|]; [|done]. unfold logged. case_bool_decide as Hl; [done|].
    rewrite omap_app. cbn. apply NoDup_app. split; [done|]. split; [|apply NoDup_singleton].
    intros i Hi ->%list_elem_of_singleton. done.
  - destruct (is_anomaly n tick); [|done]. rewrite omap_app. cbn. by rewrite app_nil_r.
Qed.

(** The only datagram that a received datagram may cause is the answer's packet. *)
Lemma datagram_radio raw now s :
  radio (datagram_received raw now s).2 = radio s \/
  exists q a raw_ack, (apply raw now s).1 = Ok a /\ encode_ack q a = Ok raw_ack /\
    radio (datagram_received raw now s).2 = radio s ++ [raw_ack].
Proof.
  assert (radio (apply raw now s).2 = radio s) as Hr
    by (rewrite apply_run; repeat case_match; done).
  unfold datagram_received, try_catch. rewrite run_eff_bind.
  destruct (apply raw now s) as [[ack|e] s1]; cbn [fst snd] in *; [|left; by destruct (is_packet_error e)].
  unfold respond. rewrite run_eff_bind. cbn [count_command modify]. rewrite run_eff_bind. cbn [get].
  rewrite run_eff_bind. cbn [craft]. destruct (encode_ack (ack_sequence (craft s1)) ack) as [raw_ack|e] eqn:He; cbn [lift of_packet catch].
  - rewrite run_eff_bind. cbn [on_craft modify]. rewrite run_eff_bind. cbn [get transport].
    destruct (transport s1); [|by left]. right. exists (ack_sequence (craft s1)), ack, raw_ack. cbn. by rewrite Hr.
  - left. by destruct (is_packet_error (PacketExn e)).
Qed.

Lemma round_radio n tick r s :
  radio (telemetry_round n tick r s).2 = radio s \/
  exists q h raw, encode_health q h = Ok raw /\ radio (telemetry_round n tick r s).2 = radio s ++ [raw].
Proof.
  unfold telemetry_round. set (v := simulated_voltage _ _). set (t := simulated_temperature _ _). clearbody v t.
  assert (forall s, radio (send_health r v t s).2 = radio s \/
    exists q h raw, encode_health q h = Ok raw /\ radio (send_health r v t s).2 = radio s ++ [raw]) as Hs.
  { clear s. intros s. unfold send_health. rewrite run_eff_bind. cbn [get]. rewrite run_eff_bind.
    match goal with |- context [encode_health ?q ?h] => destruct (encode_health q h) as [raw|e] eqn:He end; [|by left].
    cbn [lift of_packet catch]. rewrite run_eff_bind. destruct (sent r); [right|by left].
    eexists _, _, raw. split; [exact He|done]. }
  destruct (is_anomaly n tick); [|apply Hs].
  exact (Hs (mk_sim (set_fault_flags (Z.lor (sc_fault_flags (craft s)) 1) (craft s)) (transport s) (commands_received s)
    (packets_sent s) (gauges s) (radio s))).
Qed.

Lemma round_results n tick r s :
  command_results (craft (telemetry_round n tick r s).2) = command_results (craft s).
Proof.
  unfold telemetry_round. set (v := simulated_voltage _ _). set (t := simulated_temperature _ _). clearbody v t.
  destruct (is_anomaly n tick); [|by destruct (send_health_keeps r v t s) as (_ & _ & _ & ?)].
  by destruct (send_health_keeps r v t (mk_sim (set_fault_flags (Z.lor (sc_fault_flags (craft s)) 1) (craft s)) (transport s)
    (commands_received s) (packets_sent s) (gauges s) (radio s))) as (_ & _ & _ & ?).
Qed.

(** ** The range of the state *)

Definition craft_ok (st : SpacecraftState) : Prop :=
  0 <= sc_mode st <= 3 /\ -6000 <= sc_wheel_rpm st <= 6000 /\ 0 <= sc_fault_flags st <= 1 /\
  0 <= health_sequence st <= MAX_SEQUENCE /\ 0 <= ack_sequence st <= MAX_SEQUENCE /\
  map_Forall (fun id a => ack_command_id a = id /\ ack_fits a) (command_results st).

Lemma craft_ok_health st q : craft_ok st -> 0 <= q <= MAX_SEQUENCE -> craft_ok (set_health_sequence q st).
Proof. unfold craft_ok. destruct st. cbn. tauto. Qed.
Lemma craft_ok_ack st q : craft_ok st -> 0 <= q <= MAX_SEQUENCE -> craft_ok (set_ack_sequence q st).
Proof. unfold craft_ok. destruct st. cbn. tauto. Qed.
Lemma craft_ok_flags st v : craft_ok st -> 0 <= v <= 1 -> craft_ok (set_fault_flags v st).
Proof. unfold craft_ok. destruct st. cbn. tauto. Qed.

Lemma anomaly_flags (b : bool) x : 0 <= x <= 1 -> 0 <= (if b then Z.lor x 1 else x) <= 1.
Proof. intros Hx. assert (x = 0 \/ x = 1) as [-> | ->] by lia; by destruct b. Qed.

(** A clock within 64 bits, and analogue values that fit their wire units. *)
Definition clock_ok (now_ns : Z) : Prop := 0 <= now_ns < 2 ^ 64.
Definition analogue_ok (voltage temperature : float) : Prop :=
  exists mv cd, py_round (float_mul voltage (float_of_Z 1000)) = Ok mv /\
    py_round (float_mul temperature (float_of_Z 100)) = Ok cd /\ 0 <= mv < 2 ^ 16 /\ - 2 ^ 15 <= cd < 2 ^ 15.

Definition sane_event (anomaly_every : Z) (e : event) : Prop :=
  match e with
  | Connected => True
  | Datagram _ now_ns => clock_ok now_ns
  | Round tick r => clock_ok (read_ns r) /\ sent r = true /\
      (is_anomaly anomaly_every tick = false -> analogue_ok (simulated_voltage false r) (simulated_temperature false r))
  end.

Lemma anomaly_analogue r : analogue_ok (simulated_voltage true r) (simulated_temperature true r).
Proof. exists 22_800, 6_900. split_and!; (vm_compute; reflexivity) || (vm_compute; discriminate). Qed.

Lemma sane_analogue n tick r :
  sane_event n (Round tick r) ->
  analogue_ok (simulated_voltage (is_anomaly n tick) r) (simulated_temperature (is_anomaly n tick) r).
Proof. intros (_ & _ & Ha). destruct (is_anomaly n tick); [apply anomaly_analogue|by apply Ha]. Qed.

(** The documented ranges: [math.sin] is a double from -1 to 1, [random.uniform] one from -0.4 to 0.4. *)
Definition in_range (f limit : float) : Prop := valid_binary 53 1024 f = true /\ SFleb (SFabs f) limit = true.
Definition ordinary_event (e : event) : Prop :=
  match e with
  | Connected => True
  | Datagram _ now_ns => clock_ok now_ns
  | Round _ r => clock_ok (read_ns r) /\ sent r = true /\ in_range (sine r) (float_of_Z 1) /\ in_range (noise r) (decimal 4 1)
  end.

Lemma literal_3 : decimal 3 1 = S754_finite false 5_404_319_552_844_595 (-54).
Proof. vm_compute. reflexivity. Qed.
Lemma literal_4 : decimal 4 1 = S754_finite false 7_205_759_403_792_794 (-54).
Proof. vm_compute. reflexivity. Qed.
Lemma literal_284 : decimal 284 1 = S754_finite false 7_993_889_338_582_630 (-48).
Proof. vm_compute. reflexivity. Qed.
Lemma literal_31 : float_of_Z 31 = S754_finite false 8_725_724_278_030_336 (-48).
Proof. vm_compute. reflexivity. Qed.
Lemma literal_1 : float_of_Z 1 = S754_finite false 4_503_599_627_370_496 (-52).
Proof. vm_compute. reflexivity. Qed.
Lemma literal_1000 : float_of_Z 1000 = S754_finite false 8_796_093_022_208_000 (-43).
Proof. vm_compute. reflexivity. Qed.
Lemma literal_100 : float_of_Z 100 = S754_finite false 7_036_874_417_766_400 (-46).
Proof. vm_compute. reflexivity. Qed.

(** Ordinary readings fit their wire units: between 0 and 32.768 V, and below 41 degrees. *)
Lemma ordinary_analogue r :
  in_range (sine r) (float_of_Z 1) -> in_range (noise r) (decimal 4 1) ->
  analogue_ok (simulated_voltage false r) (simulated_temperature false r).
Proof.
  rewrite literal_1, literal_4. intros [Hs Hs1] [Hn Hn1]. unfold simulated_voltage, simulated_temperature, analogue_ok.
  rewrite literal_3, literal_284, literal_31, literal_1000, literal_100.
  apply (leb_bounded _ _ _ 0) in Hs1; [|done|lia|vm_compute; discriminate].
  apply (leb_bounded _ _ _ (-1)) in Hn1; [|done|lia|vm_compute; discriminate].
  destruct (mul_bounded (sine r) 5_404_319_552_844_595 (-54) 0 (-1)) as [Hx _]; [done|lia|reflexivity|lia|].
  destruct (add_bounded 7_993_889_338_582_630 (-48) _ _ 5 Hx) as [Hv Hv0]; [lia|vm_compute; discriminate|reflexivity|lia|lia|].
  destruct (add_bounded 8_725_724_278_030_336 (-48) _ _ 5 Hn1) as [Ht _]; [lia|vm_compute; discriminate|reflexivity|lia|lia|].
  destruct (mul_bounded _ 8_796_093_022_208_000 (-43) _ 10 Hv) as [Hmv Hmv0]; [lia|reflexivity|lia|].
  destruct (mul_bounded _ 7_036_874_417_766_400 (-46) _ 7 Ht) as [Hcd _]; [lia|reflexivity|lia|].
  destruct (round_of_bounded _ _ Hmv) as (mv & Hmv1 & Hmv2 & Hmv3); [lia|].
  destruct (round_of_bounded _ _ Hcd) as (cd & Hcd1 & Hcd2 & _); [lia|].
  exists mv, cd. split; [exact Hmv1|]. split; [exact Hcd1|]. specialize (Hmv3 (Hmv0 Hv0)). lia.
Qed.

Lemma ordinary_sane n e : ordinary_event e -> sane_event n e.
Proof. destruct e as [| |tick r]; [done..|]. intros (Hc & Hs & Hsin & Hn). split; [done|]. split; [done|]. intros _. by apply ordinary_analogue. Qed.

Lemma next_sequence x : Z.land (x + 1) 0x3FFF = (x + 1) mod 16384.
Proof. apply sequence_field. Qed.

Lemma next_sequence_range x : 0 <= Z.land (x + 1) 0x3FFF <= MAX_SEQUENCE.
Proof.
  rewrite next_sequence. change MAX_SEQUENCE with 16383. pose proof (Z.mod_pos_bound (x + 1) 16384). lia.
Qed.

Lemma decoded_command_fits raw f : decode_command raw = Ok f -> command_fits f.
Proof.
  intros (_ & _ & Hp)%decode_command_ok%encode_command_inv.
  assert (Forall2 (fun x v => fmt_fits x v = true) COMMAND_PAYLOAD (command_values f)) as Hf by (apply pack_ok_iff; by eexists).
  unfold COMMAND_PAYLOAD, command_values in Hf. rewrite !Forall2_cons, !fmt_fits_spec in Hf. unfold command_fits. tauto.
Qed.

Lemma answer_fits f now : command_fits f -> clock_ok now -> ack_fits (answer f now).
Proof. intros (? & ? & ? & ?) ?. unfold ack_fits, answer, clock_ok in *. cbn. destruct (allowed f); split_and!; lia || done. Qed.

(** [apply] keeps the range, and what it returns is what the state remembers. *)
Lemma apply_ok raw now s :
  craft_ok (craft s) -> clock_ok now ->
  let '(r, s') := apply raw now s in
  craft_ok (craft s') /\ transport s' = transport s /\ radio s' = radio s /\
  ack_sequence (craft s') = ack_sequence (craft s) /\
  match r with
  | Ok a => ack_fits a /\ exists f, decode_command raw = Ok f /\ command_results (craft s') !! command_id f = Some a
  | Raise e => is_packet_error e = true /\ s' = s /\ exists e', decode_command raw = Raise e'
  end.
Proof.
  intros Hs Hn. rewrite apply_run.
  destruct (decode_command raw) as [f|e] eqn:Hd.
  - destruct Hs as (Hm & Hr & Hf & Hh & Hq & Ha). destruct (command_results (craft s) !! command_id f) as [c|] eqn:Hc.
    + destruct (Ha _ _ Hc) as [_ Hfit]. do 4 (split; [done|]). split; [exact Hfit|]. exists f. by split.
    + pose proof (answer_fits f now (decoded_command_fits raw f Hd) Hn) as Hfit.
      assert (forall st, ack_sequence ((execute f).2 st) = ack_sequence st) as Hseq
        by (intros st; by destruct (execute_cases f) as [(_ & _ & _ & ->)|[(_ & _ & _ & ->)|[(_ & _ & _ & ->)|(_ & ->)]]]).
      split; [|split; [done|split; [done|split; [apply Hseq|split; [done|]]]]].
      * assert (map_Forall (fun id a => ack_command_id a = id /\ ack_fits a)
          (<[command_id f := answer f now]> (command_results (craft s)))) as Ha' by (apply map_Forall_insert_2; done).
        unfold craft_ok.
        destruct (execute_cases f) as [(_ & _ & ? & ->)|[(_ & _ & ? & ->)|[(_ & _ & ? & ->)|(_ & ->)]]]; cbn; split_and!; lia || done.
      * exists f. split; [done|]. cbn. by rewrite lookup_insert_eq.
  - destruct (decode_command_raises raw e Hd) as [m ->]. do 4 (split; [done|]). split; [done|]. split; [done|]. by eexists.
Qed.

(** The state after an answer with the datagram [raw_ack] has been sent. *)
Definition answered (raw_ack : bytes) (label : string) (s : Simulator) : Simulator :=
  mk_sim (set_ack_sequence (Z.land (ack_sequence (craft s) + 1) 0x3FFF) (craft s)) (transport s)
    (bump label (commands_received s)) (bump "command_ack" (packets_sent s)) (gauges s) (radio s ++ [raw_ack]).

Lemma respond_run a s :
  craft_ok (craft s) -> ack_fits a -> transport s = true ->
  exists raw_ack p, respond a s = (Ok tt, answered raw_ack (if status a =? 0 then "accepted" else "rejected") s) /\
    decode_space_packet raw_ack = Ok p /\ apid p = APID_COMMAND_ACK /\ sequence_count p = ack_sequence (craft s) /\
    decode_ack p = Ok a.
Proof.
  intros (_ & _ & _ & _ & Hq & _) Ha Ht. destruct (encode_ack_total _ a Hq Ha) as (raw_ack & p & He & Hp).
  exists raw_ack, p. split; [|done]. unfold respond. rewrite run_eff_bind. cbn [count_command modify].
  rewrite run_eff_bind. cbn [get]. rewrite run_eff_bind. cbn [craft]. rewrite He. cbn [lift of_packet catch].
  rewrite run_eff_bind. cbn [on_craft modify]. rewrite run_eff_bind. cbn [get transport].
  unfold answered. by rewrite Ht.
Qed.

(** What a datagram does to a connected simulator in range. *)
Lemma datagram_cases raw now s :
  craft_ok (craft s) -> transport s = true -> clock_ok now ->
  let out := datagram_received raw now s in
  out.1 = Ok tt /\ craft_ok (craft out.2) /\ transport out.2 = true /\
  match decode_command raw with
  | Raise _ => craft out.2 = craft s /\ radio out.2 = radio s
  | Ok f => exists raw_ack p a, radio out.2 = radio s ++ [raw_ack] /\
      decode_space_packet raw_ack = Ok p /\ apid p = APID_COMMAND_ACK /\ sequence_count p = ack_sequence (craft s) /\
      decode_ack p = Ok a /\ command_results (craft out.2) !! command_id f = Some a
  end.
Proof.
  intros Hs Ht Hn. pose proof (apply_ok raw now s Hs Hn) as Ha. unfold datagram_received, try_catch. rewrite run_eff_bind.
  destruct (apply raw now s) as [[a|e] s1]; destruct Ha as (Hs1 & Ht1 & Hr1 & Hq1 & Hres); rewrite Ht in Ht1.
  - destruct Hres as (Hfit & f & Hd & Hres). destruct (respond_run a s1 Hs1 Hfit Ht1) as (raw_ack & p & -> & Hp & Hap & Hsq & Hda).
    rewrite Hd. cbn [fst snd]. split; [done|]. split; [|split; [done|]].
    + apply craft_ok_ack; [done|apply next_sequence_range].
    + exists raw_ack, p, a. unfold answered. cbn. rewrite Hr1, <- Hq1. by split_and!.
  - destruct Hres as (He & -> & e' & Hd). rewrite He, Hd. cbn. by split_and!.
Qed.

(** The state after a round whose datagram is [raw]. *)
Lemma round_cases n tick r s :
  craft_ok (craft s) -> sane_event n (Round tick r) ->
  let out := telemetry_round n tick r s in
  let voltage := simulated_voltage (is_anomaly n tick) r in
  let temperature := simulated_temperature (is_anomaly n tick) r in
  out.1 = Ok tt /\ craft_ok (craft out.2) /\ transport out.2 = transport s /\
  sc_mode (craft out.2) = sc_mode (craft s) /\ sc_wheel_rpm (craft out.2) = sc_wheel_rpm (craft s) /\
  health_sequence (craft out.2) = (health_sequence (craft s) + 1) mod 16384 /\
  gauges out.2 = Some (voltage, temperature) /\
  exists raw p mv cd, radio out.2 = radio s ++ [raw] /\ decode_space_packet raw = Ok p /\
    apid p = APID_HEALTH /\ sequence_count p = health_sequence (craft s) /\
    py_round (float_mul voltage (float_of_Z 1000)) = Ok mv /\ py_round (float_mul temperature (float_of_Z 100)) = Ok cd /\
    decode_health p = Ok (mk_health (read_ns r) (float_div (float_of_Z mv) (float_of_Z 1000))
      (float_div (float_of_Z cd) (float_of_Z 100)) (sc_wheel_rpm (craft out.2)) (sc_mode (craft out.2)) (sc_fault_flags (craft out.2))).
Proof.
  intros Hs Hr. destruct (sane_analogue n tick r Hr) as (mv & cd & Hmv & Hcd & Hm & Hc). destruct Hr as (Hr & Hsent & _).
  unfold telemetry_round. set (v := simulated_voltage _ _) in *. set (t := simulated_temperature _ _) in *.
  set (flags := if is_anomaly n tick then Z.lor (sc_fault_flags (craft s)) 1 else sc_fault_flags (craft s)).
  set (st := set_fault_flags flags (craft s)).
  set (s1 := mk_sim st (transport s) (commands_received s) (packets_sent s) (gauges s) (radio s)).
  assert (forall m : sim unit, ((if is_anomaly n tick then on_craft (fun st => set_fault_flags (Z.lor (sc_fault_flags st) 1) st)
      else mret tt) ;; m) s = m s1) as ->
    by (intros m; unfold s1, st, flags; destruct (is_anomaly n tick); [done|by destruct s as [[] ? ? ? ? ?]]).
  assert (craft_ok st) as Hst.
  { apply craft_ok_flags; [done|]. apply anomaly_flags. by destruct Hs as (_ & _ & Hf & _). }
  pose proof Hst as (Hmode & Hrpm & Hflags & Hseq & Hack & Hres).
  destruct (encode_health_total (health_sequence st) (mk_health (read_ns r) v t (sc_wheel_rpm st) (sc_mode st) (sc_fault_flags st)) mv cd Hseq)
    as (raw & p & He & Hd & Hap & Hsq & Hdh).
  { unfold health_fits, clock_ok in *. cbn [bus_voltage_v battery_temp_c timestamp_ns wheel_rpm mode fault_flags]. split_and!; done || lia. }
  assert (send_health r v t s1 = (Ok tt, mk_sim (set_health_sequence (Z.land (health_sequence st + 1) 0x3FFF) st) (transport s)
    (commands_received s) (bump "health" (packets_sent s)) (Some (v, t)) (radio s ++ [raw]))) as ->.
  { unfold send_health. rewrite run_eff_bind. cbn [get]. rewrite run_eff_bind. change (craft s1) with st. rewrite He.
    cbn [lift of_packet catch]. by rewrite run_eff_bind, Hsent. }
  cbn [fst snd craft transport gauges radio].
  assert (craft_ok (set_health_sequence (Z.land (health_sequence st + 1) 0x3FFF) st)) as Hok.
  { apply craft_ok_health; [done|apply next_sequence_range]. }
  split; [done|]. split; [exact Hok|]. do 3 (split; [done|]). split; [apply next_sequence|]. split; [done|].
  exists raw, p, mv, cd. do 6 (split; [done|]). exact Hdh.
Qed.

(** A command damaged on the link, in up to four consecutive bytes of its data or in its checksum, changes
    nothing and is not answered. *)
Lemma damaged_command_ignored pre bs cs post f now s :
  encode_command f = Ok (pre ++ bs ++ post) -> length bs = length cs -> (length bs <= 4)%nat -> bs <> cs ->
  (4 <= length post \/ length bs + length post <= 4)%nat ->
  let s' := (datagram_received (pre ++ cs ++ post) now s).2 in
  same_commands s s' /\ radio s' = radio s.
Proof.
  intros (Hl & Hs & _)%encode_command_inv Hbc H4 Hne Hwin s'.
  assert (~ sealed (pre ++ cs ++ post)) as Hbad by (apply (burst_breaks_seal pre bs cs post); [done..|lia|done]).
  destruct (decode_command_cases (pre ++ cs ++ post)) as [(f' & _ & Hs' & _)|[_ [m Hd]]]; [done|].
  pose proof (datagram_craft (pre ++ cs ++ post) now s) as Hsame. fold s' in Hsame.
  destruct (datagram_radio (pre ++ cs ++ post) now s) as [Hr|(q & a & raw_ack & Ha & _)]; rewrite apply_run, Hd in *; [done|discriminate Ha].
Qed.

(** ** Runs *)

Lemma simulate_snoc n events e s : simulate n (events ++ [e]) s = (handle n e (simulate n events s)).2.
Proof. unfold simulate. by rewrite foldl_app. Qed.

Lemma log_of_snoc n events e : log_of n (events ++ [e]) = log_event n (log_of n events) e.
Proof. unfold log_of. by rewrite foldl_app. Qed.

Lemma simulate_described n events : described (log_of n events) (craft (simulate n events initial_sim)).
Proof.
  induction events as [|e events IH] using rev_ind; [done|]. rewrite simulate_snoc, log_of_snoc. by apply log_step.
Qed.

(** A simulator in range whose transport is connected. *)
Definition ready (s : Simulator) : Prop := craft_ok (craft s) /\ transport s = true.

Definition started : Simulator := (handle 0 Connected initial_sim).2.

Lemma started_ready : ready started.
Proof. split; [|done]. unfold craft_ok. cbn. split_and!; try done. Qed.

Lemma handle_ready n e s : ready s -> sane_event n e -> (handle n e s).1 = Ok tt /\ ready (handle n e s).2.
Proof.
  intros [Hs Ht] He. destruct e as [|raw now|tick r]; cbn [handle].
  - by split; [|split].
  - destruct (datagram_cases raw now s Hs Ht He) as (Hr & Hok & Htr & _). by split; [|split].
  - destruct (round_cases n tick r s Hs He) as (Hr & Hok & Htr & _). split; [done|]. split; [done|congruence].
Qed.

Lemma simulate_ready n events s : ready s -> Forall (sane_event n) events -> ready (simulate n events s).
Proof.
  intros Hs. induction events as [|e events IH] using rev_ind; intros Hf; [done|].
  apply Forall_app in Hf as [Hf [He _]%Forall_cons]. rewrite simulate_snoc. exact (proj2 (handle_ready n e _ (IH Hf) He)).
Qed.

Lemma simulate_started n events : simulate n (Connected :: events) initial_sim = simulate n events started.
Proof. done. Qed.

Lemma log_of_started n events : log_of n (Connected :: events) = log_of n events.
Proof. done. Qed.

(** ** Properties *)

Definition calm_reading : Reading := mk_reading 1_784_203_200_000_000_000 (S754_zero false) (S754_zero false) true.
Definition frame_of (f : CommandFrame) : bytes := match encode_command f with Ok raw => raw | Raise _ => [] end.
Definition set_mode_2 : CommandFrame := mk_command 7 1 2 1_784_203_200_000_000_000.
Definition repeated_id : CommandFrame := mk_command 7 1 3 1_784_203_200_000_000_000.
Definition too_fast : CommandFrame := mk_command 8 2 6001 1_784_203_200_000_000_000.
Definition sample_events : list event :=
  [Round 1 calm_reading; Datagram (frame_of set_mode_2) 5; Round 2 calm_reading; Datagram (frame_of repeated_id) 6;
   Datagram (frame_of too_fast) 7; Datagram [x00] 8].

(** C9. At-most-once execution: whatever datagrams arrive, in whatever order and number, with telemetry
    rounds in between, the state of the spacecraft is what the log of first-received commands describes:
    every identifier is logged at most once, the mode, wheel speed and flags are those that the latest
    allowed entry set, and the remembered acknowledgements are the answers to the logged commands, positive
    exactly for those the operators' command table allows. *)
Theorem commands_executed_once n events :
  let log := log_of n events in
  NoDup (omap entry_id log) /\ described log (craft (simulate n events initial_sim)).
Proof. split; [apply log_ids_fresh|apply simulate_described]. Qed.

(** C22. The telemetry of a run reports what was executed.  In a run with a 64-bit clock, with [math.sin] and
    [random.uniform] within their documented ranges and a link that takes the loop's datagrams, no event's
    handler raises, and every telemetry round sends one packet, which the ground decodes to the time of the
    round and to the mode, wheel speed and flags that the commands and anomalies up to then have set. *)
Theorem telemetry_reports_log n events :
  Forall ordinary_event events ->
  forall before e after, events = before ++ e :: after ->
  let s := simulate n (Connected :: before) initial_sim in
  let log := log_of n (Connected :: before ++ [e]) in
  exists s', handle n e s = (Ok tt, s') /\
  match e with
  | Round _ r => exists raw p h, radio s' = radio s ++ [raw] /\
      decode_space_packet raw = Ok p /\ decode_health p = Ok h /\ timestamp_ns h = read_ns r /\
      mode h = latest sets_mode 1 log /\ wheel_rpm h = latest sets_rpm 1200 log /\ fault_flags h = latest sets_flags 0 log
  | _ => True
  end.
Proof.
  intros Hf before e after ->. apply Forall_app in Hf as [Hf [He _]%Forall_cons]. intros s log.
  assert (Forall (sane_event n) before) as Hsane by (eapply Forall_impl; [exact Hf|]; intros; by apply ordinary_sane).
  apply (ordinary_sane n) in He. pose proof (simulate_ready n before started started_ready Hsane) as Hready.
  rewrite <- simulate_started in Hready. fold s in Hready. destruct (handle_ready n e s Hready He) as [Hok _].
  destruct (handle n e s) as [res s'] eqn:Hrun. cbn [fst] in Hok. subst res. exists s'. split; [done|]. destruct e as [| |tick r]; try done.
  pose proof (simulate_described n ((Connected :: before) ++ [Round tick r])) as (Hm & Hr & Hg & _).
  rewrite simulate_snoc in Hm, Hr, Hg. fold s in Hm, Hr, Hg. rewrite Hrun in Hm, Hr, Hg. cbn [snd] in *.
  destruct (round_cases n tick r s (proj1 Hready) He) as (_ & _ & _ & _ & _ & _ & _ & raw & p & mv & cd & Hrad & Hd & _ & _ & _ & _ & Hh).
  change (telemetry_round n tick r s) with (handle n (Round tick r) s) in *. rewrite Hrun in *. cbn [snd] in *.
  exists raw, p. eexists. split; [done|]. split; [done|]. split; [exact Hh|]. by split_and!.
Qed.

(** In any run with a 64-bit clock every well-formed command is answered with one packet that the
    ground decodes to the answer to the first command of that identifier. *)
Theorem command_answered n events f raw now_ns :
  Forall (sane_event n) events -> clock_ok now_ns -> encode_command f = Ok raw ->
  let s := simulate n (Connected :: events) initial_sim in
  let log := log_of n (Connected :: events ++ [Datagram raw now_ns]) in
  exists s' raw_ack p a, handle n (Datagram raw now_ns) s = (Ok tt, s') /\ radio s' = radio s ++ [raw_ack] /\
    decode_space_packet raw_ack = Ok p /\ decode_ack p = Ok a /\ answers log !! command_id f = Some a.
Proof.
  intros Hf Hn Hd%decode_command_ok s log.
  destruct (simulate_ready n events started started_ready Hf) as [Hs Ht]. rewrite <- simulate_started in Hs, Ht.
  pose proof (simulate_described n ((Connected :: events) ++ [Datagram raw now_ns])) as (_ & _ & _ & Ha).
  rewrite simulate_snoc in Ha. fold s in Ha, Hs, Ht. change (handle n _ s) with (datagram_received raw now_ns s) in *.
  destruct (datagram_cases raw now_ns s Hs Ht Hn) as (Hok & _ & _ & Hres). rewrite Hd in Hres.
  destruct Hres as (raw_ack & p & a & Hrad & Hp & _ & _ & Hda & Hc).
  destruct (datagram_received raw now_ns s) as [res s']. cbn [fst snd] in *. subst res.
  exists s', raw_ack, p, a. split; [done|]. split; [done|]. split; [done|]. split; [done|].
  unfold log. rewrite app_comm_cons, <- Ha. done.
Qed.

Lemma sample_ordinary : Forall ordinary_event sample_events.
Proof.
  unfold sample_events. repeat (constructor; [unfold ordinary_event, clock_ok, in_range; cbn [read_ns sent sine noise calm_reading]; first [lia|split_and!; lia || reflexivity]|]).
  constructor.
Qed.

Lemma sample_sane : Forall (sane_event 2) sample_events.
Proof. eapply Forall_impl; [exact sample_ordinary|]. intros e. apply ordinary_sane. Qed.

(** A round with the largest arguments. *)
Definition hot_reading : Reading := mk_reading 1_784_203_200_000_000_000 (float_of_Z 1) (decimal 4 1) true.

Lemma telemetry_reports_log_witness :
  let s := simulate 2 (Connected :: sample_events) initial_sim in
  exists s' raw p h, handle 2 (Round 5 hot_reading) s = (Ok tt, s') /\ radio s' = radio s ++ [raw] /\
    decode_space_packet raw = Ok p /\ decode_health p = Ok h /\ mode h = 2 /\ wheel_rpm h = 1200 /\ fault_flags h = 1.
Proof.
  intros s. destruct (telemetry_reports_log 2 (sample_events ++ [Round 5 hot_reading])) with (before := sample_events) (e := Round 5 hot_reading) (after := @nil event)
    as (s' & Hh & raw & p & h & Hr & Hp & Hd & _ & Hm & Hw & Hf).
  - apply Forall_app. split; [apply sample_ordinary|]. constructor; [|constructor].
    unfold ordinary_event, clock_ok, in_range. cbn. split_and!; lia || (vm_compute; reflexivity).
  - reflexivity.
  - exists s', raw, p, h. do 4 (split; [assumption|]). rewrite Hm, Hw, Hf. vm_compute. auto.
Defined.

Lemma command_answered_witness :
  exists s' raw_ack p, handle 2 (Datagram (frame_of repeated_id) 9) (simulate 2 (Connected :: sample_events) initial_sim) = (Ok tt, s') /\
    decode_space_packet raw_ack = Ok p /\ decode_ack p = Ok (mk_ack 7 0 2 5).
Proof.
  destruct (command_answered 2 sample_events repeated_id (frame_of repeated_id) 9) as (s' & raw_ack & p & a & Hh & _ & Hp & Hd & Ha).
  - apply sample_sane.
  - unfold clock_ok. lia.
  - vm_compute. reflexivity.
  - exists s', raw_ack, p. split; [assumption|]. split; [assumption|]. rewrite Hd.
    assert (a = mk_ack 7 0 2 5) as ->; [|reflexivity].
    assert (Some a = Some (mk_ack 7 0 2 5)) as He by (rewrite <- Ha; vm_compute; reflexivity). by injection He.
Defined.
End Spacecraft.
