(* ===== verification/Link.v ===== *)
(** * State of the ground segment of the spacecraft link

    What the services of the link share: the PostgreSQL tables of [mission_ground/common/db.py], the
    message bus, the uplink socket and the labelled metrics; and the calls they make on them.  A call to
    the database, the bus or the socket may be served, refused, or carried out with its answer lost: the
    coming [faults] say which, and calls beyond them are served.  Values that the server itself refuses
    (text with a NUL character, a float that JSON has no number for) are refused calls.  The columns [id] are
    assigned by the database; [created_at] and the other columns filled by [now()] are not part of the
    rows ([MissionReads] takes them as parameters). *)
From S2P Require Import Prelude PyFloat SpacePacket PyObject PyEffect.

Open Scope Z_scope.

(** ** Tables *)

Record CommandRow := mk_command_row {
  row_name : string;
  row_argument : Z;
  row_dry_run : bool;
  row_status : string;
  row_operator_id : string;
  row_status_detail : option string
}.

Record HealthRow := mk_health_row {
  hr_spacecraft_time_ns : Z;
  hr_sequence_count : Z;
  hr_bus_voltage_v : float;
  hr_battery_temp_c : float;
  hr_wheel_rpm : Z;
  hr_mode : Z;
  hr_fault_flags : Z;
  hr_raw : value
}.

Record AlertRow := mk_alert_row {
  al_parameter : string;
  al_value : float;
  al_severity : string;
  al_message : string;
  al_telemetry_sequence : Z
}.

Record AuditRow := mk_audit_row {
  au_actor : string;
  au_action : string;
  au_object_type : string;
  au_object_id : string;
  au_detail : value
}.

Record Tables := mk_tables {
  telemetry_health : list HealthRow;
  alerts : list AlertRow;
  commands : gmap Z CommandRow;
  next_command : Z;
  audit_events : list AuditRow
}.

(** ** Messages *)

(** The data of a message: a value printed as JSON, or bytes that are not JSON. *)
Record Message := mk_message { subject : string; data : option value }.

Inductive Disposition := Acked | Nacked (delay : Z).

Inductive fate := Served | Refused | ReplyLost.

(** The tracker is the ingest service's; [settled] lists the dispositions sent, with their messages. *)
Record Ground := mk_ground {
  tables : Tables;
  bus : list Message;
  settled : list (Message * Disposition);
  uplink : list bytes;
  tracker : gmap Z Z;
  metrics : gmap (list string) Z;
  latencies : list Z;
  latest_gauges : option (float * float);
  faults : list fate
}.

Definition empty_ground (fs : list fate) : Ground := mk_ground (mk_tables [] [] ∅ 1 []) [] [] [] ∅ ∅ [] None fs.

Abbreviation link := (eff Ground exn).

Definition with_tables (f : Tables -> Tables) (g : Ground) : Ground :=
  mk_ground (f (tables g)) (bus g) (settled g) (uplink g) (tracker g) (metrics g) (latencies g) (latest_gauges g) (faults g).
Definition with_bus (f : list Message -> list Message) (g : Ground) : Ground :=
  mk_ground (tables g) (f (bus g)) (settled g) (uplink g) (tracker g) (metrics g) (latencies g) (latest_gauges g) (faults g).
Definition with_settled (f : list (Message * Disposition) -> list (Message * Disposition)) (g : Ground) : Ground :=
  mk_ground (tables g) (bus g) (f (settled g)) (uplink g) (tracker g) (metrics g) (latencies g) (latest_gauges g) (faults g).
Definition with_uplink (f : list bytes -> list bytes) (g : Ground) : Ground :=
  mk_ground (tables g) (bus g) (settled g) (f (uplink g)) (tracker g) (metrics g) (latencies g) (latest_gauges g) (faults g).
Definition with_tracker (t : gmap Z Z) (g : Ground) : Ground :=
  mk_ground (tables g) (bus g) (settled g) (uplink g) t (metrics g) (latencies g) (latest_gauges g) (faults g).
Definition with_metrics (f : gmap (list string) Z -> gmap (list string) Z) (g : Ground) : Ground :=
  mk_ground (tables g) (bus g) (settled g) (uplink g) (tracker g) (f (metrics g)) (latencies g) (latest_gauges g) (faults g).
Definition with_latency (ns : Z) (g : Ground) : Ground :=
  mk_ground (tables g) (bus g) (settled g) (uplink g) (tracker g) (metrics g) (latencies g ++ [ns]) (latest_gauges g) (faults g).
Definition with_gauges (v t : float) (g : Ground) : Ground :=
  mk_ground (tables g) (bus g) (settled g) (uplink g) (tracker g) (metrics g) (latencies g) (Some (v, t)) (faults g).
Definition with_faults (fs : list fate) (g : Ground) : Ground :=
  mk_ground (tables g) (bus g) (settled g) (uplink g) (tracker g) (metrics g) (latencies g) (latest_gauges g) fs.

(** ** Calls *)

(** A call that leaves the process. *)
Definition external {A} (m : link A) : link A := fun g =>
  match faults g with
  | [] => m g
  | Served :: fs => m (with_faults fs g)
  | Refused :: fs => (Raise Unavailable, with_faults fs g)
  | ReplyLost :: fs => (Raise Unavailable, (m (with_faults fs g)).2)
  end.

Definition count (labels : list string) (n : Z) : link unit :=
  modify (with_metrics (fun m => <[labels := default 0 (m !! labels) + n]> m)).

Definition publish (s : string) (v : value) : link unit :=
  external (modify (with_bus (fun b => b ++ [mk_message s (Some v)]))).
Definition ack (msg : Message) : link unit := external (modify (with_settled (fun l => l ++ [(msg, Acked)]))).
Definition nak (msg : Message) (delay : Z) : link unit :=
  external (modify (with_settled (fun l => l ++ [(msg, Nacked delay)]))).
Definition uplink_sendto (raw : bytes) : link unit := external (modify (with_uplink (fun l => l ++ [raw]))).

(** [json.loads(msg.data)]. *)
Definition loads (msg : Message) : result exn value :=
  match data msg with Some v => Ok v | None => Raise (ValueError "Expecting value") end.

(** [pool.acquire()]. *)
Definition acquire : link unit := external (mret tt).

(** asyncpg refuses an argument outside the column's range, or of another type, before it is sent. *)
Definition int32 (z : Z) : bool := (- 2 ^ 31 <=? z) && (z <? 2 ^ 31).
Definition int64 (z : Z) : bool := (- 2 ^ 63 <=? z) && (z <? 2 ^ 63).
Definition checked (ok : bool) : link unit := if ok then mret tt else throw DataError.

Definition insert_health (r : HealthRow) : link unit :=
  checked (int64 (hr_spacecraft_time_ns r) && int32 (hr_sequence_count r) && int32 (hr_wheel_rpm r)
           && int32 (hr_mode r) && int32 (hr_fault_flags r)) ;;
  external (modify (with_tables (fun t =>
    mk_tables (telemetry_health t ++ [r]) (alerts t) (commands t) (next_command t) (audit_events t)))).

Definition insert_alert (r : AlertRow) : link unit :=
  checked (int32 (al_telemetry_sequence r)) ;;
  external (modify (with_tables (fun t =>
    mk_tables (telemetry_health t) (alerts t ++ [r]) (commands t) (next_command t) (audit_events t)))).

Definition insert_audit (r : AuditRow) : link unit :=
  external (modify (with_tables (fun t =>
    mk_tables (telemetry_health t) (alerts t) (commands t) (next_command t) (audit_events t ++ [r])))).

(** [INSERT INTO commands ... RETURNING id]. *)
Definition insert_command (r : CommandRow) : link Z :=
  checked (int32 (row_argument r)) ;;
  external (
    g ← get;
    let id := next_command (tables g) in
    modify (with_tables (fun t =>
      mk_tables (telemetry_health t) (alerts t) (<[id := r]> (commands t)) (id + 1) (audit_events t))) ;;
    mret id).

Definition set_row_status (status : string) (detail : option string) (r : CommandRow) : CommandRow :=
  mk_command_row (row_name r) (row_argument r) (row_dry_run r) status (row_operator_id r) detail.

(** [UPDATE commands SET status=$1, status_detail=$2 ... WHERE id=$3]: the command tag. *)
Definition update_command (status : string) (detail : option string) (id : Z) : link string :=
  checked (int64 id) ;;
  external (
    g ← get;
    match commands (tables g) !! id with
    | None => mret "UPDATE 0"
    | Some r =>
        modify (with_tables (fun t =>
          mk_tables (telemetry_health t) (alerts t) (<[id := set_row_status status detail r]> (commands t))
            (next_command t) (audit_events t))) ;;
        mret "UPDATE 1"
    end).

(** ** Rules for [keeps] *)

Lemma keeps_external (R : Ground -> Ground -> Prop) `{!PreOrder R} {A} (m : link A) :
  (forall g fs, R g (with_faults fs g)) -> keeps R m -> keeps R (external m).
Proof.
  intros Hf Hm g. unfold external. destruct (faults g) as [|[] fs]; cbn; [apply Hm| |apply Hf|];
    (etransitivity; [apply (Hf g fs)|apply Hm]).
Qed.

(** What a refused or lost call may have done to the state is no more than what the call does. *)
Lemma run_external {A} (m : link A) g : faults g = [] -> external m g = m g.
Proof. intros Hf. unfold external. by rewrite Hf. Qed.
