(* ===== verification/Ingest.v ===== *)
(** * Telemetry ingest: [mission_ground/services/telemetry_ingest.py] and [mission_ground/common/sequence.py]

    The sequence tracker and the datagram handler of the ingest service, with the accounting of lost
    packets over any subsequence of a stream. *)
From S2P Require Import Prelude PyFloat SpacePacket PyObject PyEffect Link.

Open Scope Z_scope.

Module Ingest.
Import SpacePacket.

(** ** The tracker *)

(** [SequenceTracker.observe]: the number of missing packets and the new table. *)
Definition observe (last_counts : gmap Z Z) (apid current : Z) : Z * gmap Z Z :=
  let previous := last_counts !! apid in
  let table := <[apid := current]> last_counts in
  match previous with
  | None => (0, table)
  | Some previous =>
      let expected := Z.land (previous + 1) MAX_SEQUENCE in
      if current =? expected then (0, table) else (Z.land (current - expected) MAX_SEQUENCE, table)
  end.

(** ** The handler *)

Definition health_data (h : HealthTelemetry) : value := VDict [
  ("timestamp_ns", VInt (timestamp_ns h)); ("bus_voltage_v", VFloat (bus_voltage_v h));
  ("battery_temp_c", VFloat (battery_temp_c h)); ("wheel_rpm", VInt (wheel_rpm h));
  ("mode", VInt (mode h)); ("fault_flags", VInt (fault_flags h))].
Definition ack_data (a : CommandAck) : value := VDict [
  ("command_id", VInt (ack_command_id a)); ("status", VInt (status a));
  ("applied_value", VInt (applied_value a)); ("timestamp_ns", VInt (ack_timestamp_ns a))].

Definition envelope (p : Packet) (received_ns : Z) (source : string) (content : value) : value := VDict [
  ("apid", VInt (apid p)); ("sequence_count", VInt (sequence_count p)); ("received_ns", VInt received_ns);
  ("source", VStr source); ("data", content)].

(** [received_ns] and [latency_ns] are the two readings of the clock; the latency is kept in nanoseconds. *)
Definition _process (raw : bytes) (source : string) (received_ns latency_ns : Z) : link unit :=
  try_catch
    (packet ← lift (of_packet (decode_space_packet raw));
     g ← get;
     let '(gaps, table) := observe (tracker g) (apid packet) (sequence_count packet) in
     modify (with_tracker table) ;;
     (if negb (gaps =? 0) then count ["ingest_sequence_gaps_total"; pretty (apid packet)] gaps else mret tt) ;;
     if apid packet =? APID_HEALTH then
       health ← lift (of_packet (decode_health packet));
       modify (with_latency (Z.max 0 (latency_ns - timestamp_ns health))) ;;
       publish "telemetry.health" (envelope packet received_ns source (health_data health)) ;;
       count ["ingest_packets_total"; "accepted"; "health"] 1
     else if apid packet =? APID_COMMAND_ACK then
       ack ← lift (of_packet (decode_ack packet));
       publish "telemetry.command_ack" (envelope packet received_ns source (ack_data ack)) ;;
       count ["ingest_packets_total"; "accepted"; "command_ack"] 1
     else
       count ["ingest_packets_total"; "unsupported"; pretty (apid packet)] 1)
    (fun exc =>
       if is_packet_error exc then count ["ingest_packets_total"; "rejected"; "unknown"] 1
       else count ["ingest_packets_total"; "error"; "unknown"] 1).

(** ** Accounting of lost packets *)

(** The gaps reported while the packets with these counts of one source arrive. *)
Fixpoint gaps_of (table : gmap Z Z) (apid : Z) (counts : list Z) : Z :=
  match counts with
  | [] => 0
  | c :: counts' => let '(gaps, table') := observe table apid c in gaps + gaps_of table' apid counts'
  end.

(** Positions in the unbounded stream, increasing by less than the counter's period. *)
Fixpoint spaced (previous : Z) (ns : list Z) : Prop :=
  match ns with [] => True | n :: ns' => previous < n <= previous + 16384 /\ spaced n ns' end.

Lemma observe_gap table apid previous n :
  0 <= previous -> previous < n <= previous + 16384 -> table !! apid = Some (previous mod 16384) ->
  observe table apid (n mod 16384) = (n - previous - 1, <[apid := n mod 16384]> table).
Proof.
  intros Hp Hn Ht. unfold observe. rewrite Ht, !sequence_field.
  assert ((previous mod 16384 + 1) mod 16384 = (previous + 1) mod 16384) as -> by (rewrite Z.add_mod_idemp_l; lia).
  assert ((n mod 16384 - (previous + 1) mod 16384) mod 16384 = n - previous - 1) as ->.
  { rewrite <- Zminus_mod, Z.mod_small by lia. lia. }
  destruct (Z.eqb_spec (n mod 16384) ((previous + 1) mod 16384)) as [He|]; [|done].
  f_equal. assert ((n - (previous + 1)) mod 16384 = 0) as Hm by (rewrite Zminus_mod, He, Z.sub_diag; done).
  rewrite Z.mod_small in Hm; lia.
Qed.

Lemma gaps_spaced ns : forall table apid previous,
  0 <= previous -> spaced previous ns -> table !! apid = Some (previous mod 16384) ->
  gaps_of table apid (map (fun n => n mod 16384) ns) + Z.of_nat (length ns) = List.last ns previous - previous.
Proof.
  induction ns as [|n ns IH]; intros table apid previous Hp Hs Ht; [cbn; lia|].
  destruct Hs as [Hn Hs]. cbn [map gaps_of length]. rewrite (observe_gap table apid previous n) by done.
  specialize (IH (<[apid := n mod 16384]> table) apid n ltac:(lia) Hs (lookup_insert_eq _ _ _)).
  assert (List.last (n :: ns) previous = List.last ns n) as -> by (clear; revert n; induction ns as [|m ns IH]; intros n; [done|]; cbn in *; by destruct ns).
  lia.
Qed.

(** C21. Accounting of losses: of a stream numbered without bound and sent with 14-bit counts, any
    subsequence that never misses a full period of 16384 packets is accounted exactly: packets received and
    gaps reported add up to the packets sent from the first to the last one received. *)
Theorem losses_accounted table apid first ns :
  0 <= first -> spaced first ns -> table !! apid = None ->
  gaps_of table apid (map (fun n => n mod 16384) (first :: ns)) + Z.of_nat (length (first :: ns))
  = List.last ns first - first + 1.
Proof.
  intros Hf Hs Ht. cbn [map gaps_of length]. unfold observe at 1. rewrite Ht.
  pose proof (gaps_spaced ns (<[apid := first mod 16384]> table) apid first Hf Hs (lookup_insert_eq _ _ _)). lia.
Qed.

Lemma losses_accounted_witness :
  gaps_of ∅ 100 [16382; 16383; 0; 3] = 2.
Proof.
  pose proof (losses_accounted ∅ 100 16382 [16383; 16384; 16387] ltac:(lia) ltac:(cbn; lia) eq_refl) as H.
  change (map _ _) with [16382; 16383; 0; 3] in H. cbn [length List.last] in H. lia.
Defined.

(** A repeated packet is reported as almost a full period of lost ones. *)
Lemma repeated_packet_gap table apid c :
  0 <= c <= MAX_SEQUENCE -> table !! apid = Some c -> (observe table apid c).1 = MAX_SEQUENCE.
Proof.
  intros Hc Ht. unfold observe. rewrite Ht, !sequence_field. change MAX_SEQUENCE with 16383 in *.
  assert ((c - (c + 1) mod 16384) mod 16384 = 16383) as Hm.
  { assert (c = 16383 \/ c + 1 < 16384) as [->|Hl] by lia; [done|]. rewrite (Z.mod_small (c + 1)) by lia.
    replace (c - (c + 1)) with (16383 + (-1) * 16384) by lia. by rewrite Z.mod_add. }
  destruct (Z.eqb_spec c ((c + 1) mod 16384)) as [He|]; [|exact Hm].
  rewrite <- He, Z.sub_diag in Hm. discriminate Hm.
Qed.
End Ingest.
