(* ===== verification/Processor.v ===== *)
(** * Telemetry processor: [mission_ground/services/telemetry_processor.py] and [mission_ground/common/limits.py]

    Limit evaluation of a health sample and the three message handlers of the processor. *)
From S2P Require Import Prelude PyFloat SpacePacket PyObject PyEffect Link.

Open Scope Z_scope.

Module Processor.
Import SpacePacket.

(** ** Limits *)

(** The value of a violation is a float or an integer. *)
Inductive number := NFloat (f : float) | NInt (z : Z).
Definition number_value (n : number) : value := match n with NFloat f => VFloat f | NInt z => VInt z end.
Definition number_float (n : number) : float := match n with NFloat f => f | NInt z => float_of_Z z end.

Record LimitViolation := mk_violation {
  parameter : string;
  violation_value : number;
  severity : string;
  violation_message : string
}.

Definition below (x : float) (n : Z) : bool := SFltb x (float_of_Z n).
Definition above (x : float) (n : Z) : bool := SFltb (float_of_Z n) x.

Definition evaluate_health (sample : HealthTelemetry) : list LimitViolation :=
  (if below (bus_voltage_v sample) 24 then
     [mk_violation "bus_voltage_v" (NFloat (bus_voltage_v sample)) "CRITICAL" "Bus voltage below 24.0 V"]
   else if below (bus_voltage_v sample) 26 then
     [mk_violation "bus_voltage_v" (NFloat (bus_voltage_v sample)) "WARNING" "Bus voltage below 26.0 V"]
   else []) ++
  (if above (battery_temp_c sample) 65 then
     [mk_violation "battery_temp_c" (NFloat (battery_temp_c sample)) "CRITICAL" "Battery temperature above 65 C"]
   else if above (battery_temp_c sample) 55 then
     [mk_violation "battery_temp_c" (NFloat (battery_temp_c sample)) "WARNING" "Battery temperature above 55 C"]
   else []) ++
  (if 5500 <? Z.abs (wheel_rpm sample) then
     [mk_violation "wheel_rpm" (NInt (wheel_rpm sample)) "CRITICAL" "Reaction wheel speed exceeds 5500 RPM"]
   else []) ++
  (if negb (fault_flags sample =? 0) then
     [mk_violation "fault_flags" (NInt (fault_flags sample)) "CRITICAL" "Spacecraft fault flag is set"]
   else []).

(** ** Handlers *)

Section Handlers.
Context (str_of : value -> string).

(** Integers and floats of a subscript: [int(data[key])]. *)
Definition int_at (v : value) (key : string) : link Z := lift (subscript v key ≫= int_of).
Definition float_at (v : value) (key : string) : link float := lift (subscript v key ≫= float_of).

(** [{**v, key: w}]. *)
Definition extend (v : value) (key : string) (w : value) : result exn value :=
  match v with VDict members => Ok (VDict (dict_set key w members)) | _ => Raise (TypeError "argument after ** must be a mapping") end.

(** [dataclasses.asdict(violation)]. *)
Definition violation_dict (v : LimitViolation) : value := VDict [
  ("parameter", VStr (parameter v)); ("value", number_value (violation_value v)); ("severity", VStr (severity v));
  ("message", VStr (violation_message v))].

Definition raise_alert (envelope : value) (violation : LimitViolation) : link unit :=
  n ← int_at envelope "sequence_count";
  let alert := VDict [
    ("parameter", VStr (parameter violation)); ("value", number_value (violation_value violation));
    ("severity", VStr (severity violation)); ("message", VStr (violation_message violation));
    ("telemetry_sequence", VInt n)] in
  acquire ;;
  insert_alert (mk_alert_row (parameter violation) (number_float (violation_value violation)) (severity violation)
    (violation_message violation) n) ;;
  publish "alerts.limit" alert ;;
  count ["processor_alerts_total"; severity violation; parameter violation] 1.

(** [except Exception]: count the error and ask for the message again. *)
Definition or_nak (msg : Message) (label : string) (m : link unit) : link unit :=
  try_catch m (fun _ => count ["processor_messages_total"; label; "error"] 1 ;; nak msg 1).

Definition process_health (msg : Message) : link unit := or_nak msg "health" (
  envelope ← lift (loads msg);
  data ← lift (subscript envelope "data");
  ts ← int_at data "timestamp_ns";
  voltage ← float_at data "bus_voltage_v";
  temperature ← float_at data "battery_temp_c";
  rpm ← int_at data "wheel_rpm";
  mode ← int_at data "mode";
  flags ← int_at data "fault_flags";
  let sample := mk_health ts voltage temperature rpm mode flags in
  acquire ;;
  n ← int_at envelope "sequence_count";
  insert_health (mk_health_row ts n voltage temperature rpm mode flags envelope) ;;
  modify (with_gauges voltage temperature) ;;
  let violations := evaluate_health sample in
  for_each violations (raise_alert envelope) ;;
  processed ← lift (extend envelope "violations" (VList (violation_dict <$> violations)));
  publish "telemetry.processed" processed ;;
  count ["processor_messages_total"; "health"; "ok"] 1 ;;
  ack msg).

Definition process_ack (msg : Message) : link unit := or_nak msg "command_ack" (
  envelope ← lift (loads msg);
  data ← lift (subscript envelope "data");
  command_id ← int_at data "command_id";
  code ← int_at data "status";
  let status := if code =? 0 then "ACKED" else "REJECTED" in
  acquire ;;
  applied ← int_at data "applied_value";
  update_command status (Some ("spacecraft applied_value=" +:+ pretty applied)) command_id ;;
  insert_audit (mk_audit_row "spacecraft" "COMMAND_ACK" "command" (pretty command_id) envelope) ;;
  count ["processor_messages_total"; "command_ack"; "ok"] 1 ;;
  ack msg).

(** A column of text takes a text, or nothing when it may be null. *)
Definition text_argument (v : value) : result exn string :=
  match v with VStr s => Ok s | _ => Raise DataError end.
Definition optional_text (v : value) : result exn (option string) :=
  match v with VStr s => Ok (Some s) | VNone => Ok None | _ => Raise DataError end.

Definition process_status (msg : Message) : link unit := or_nak msg "command_status" (
  event ← lift (loads msg);
  acquire ;;
  status ← lift (subscript event "status");
  detail ← lift (dict_get event "detail");
  command_id ← int_at event "command_id";
  status_text ← lift (text_argument status);
  detail_text ← lift (optional_text detail);
  update_command status_text detail_text command_id ;;
  id ← lift (subscript event "command_id");
  insert_audit (mk_audit_row "dispatcher" "COMMAND_STATUS" "command" (py_str str_of id) event) ;;
  count ["processor_messages_total"; "command_status"; "ok"] 1 ;;
  ack msg).
End Handlers.

(** ** The limits at their thresholds *)

Definition wire_sample (millivolts centidegrees rpm flags : Z) : HealthTelemetry :=
  mk_health 0 (float_div (float_of_Z millivolts) (float_of_Z 1000)) (float_div (float_of_Z centidegrees) (float_of_Z 100)) rpm 1 flags.

(** A limit itself is not violated; one wire unit beyond it is. *)
Example limits_at_thresholds :
  map (fun s => (fun v => (parameter v, severity v)) <$> evaluate_health s)
    [wire_sample 26000 5500 5500 0; wire_sample 25999 5501 5501 0; wire_sample 24000 6500 (-5500) 0; wire_sample 23999 6501 (-5501) 1] =
  [[]; [("bus_voltage_v", "WARNING"); ("battery_temp_c", "WARNING"); ("wheel_rpm", "CRITICAL")];
   [("bus_voltage_v", "WARNING"); ("battery_temp_c", "WARNING")];
   [("bus_voltage_v", "CRITICAL"); ("battery_temp_c", "CRITICAL"); ("wheel_rpm", "CRITICAL"); ("fault_flags", "CRITICAL")]].
Proof. vm_compute. reflexivity. Qed.
End Processor.
