(* ===== verification/HealthPath.v ===== *)
(** * The path of a health sample

    The processor's health handler under any faults of the database and the bus, and the composition of
    the ingest service with it: what a packet of the spacecraft leaves in the tables and on the bus. *)
From S2P Require Import Prelude PyFloat PyStruct SpacePacket PyObject PyEffect Link Ingest Processor.

Open Scope Z_scope.

Module HealthPath.
Import SpacePacket.

(** ** What the handler writes *)

(** The handler only adds: rows of health and alerts, and messages. *)
Record appended (rows : list HealthRow) (als : list AlertRow) (msgs : list Message) (g g' : Ground) : Prop := {
  app_rows : telemetry_health (tables g') = telemetry_health (tables g) ++ rows;
  app_alerts : alerts (tables g') = alerts (tables g) ++ als;
  app_bus : bus g' = bus g ++ msgs;
  app_commands : commands (tables g') = commands (tables g);
  app_audit : audit_events (tables g') = audit_events (tables g);
  app_settled : settled g' = settled g
}.

Lemma appended_nothing g g' : tables g' = tables g -> bus g' = bus g -> settled g' = settled g -> appended [] [] [] g g'.
Proof. intros Ht Hb Hs. split; rewrite ?Ht, ?Hb, ?app_nil_r; done. Qed.

Lemma appended_trans r1 a1 m1 r2 a2 m2 g1 g2 g3 :
  appended r1 a1 m1 g1 g2 -> appended r2 a2 m2 g2 g3 -> appended (r1 ++ r2) (a1 ++ a2) (m1 ++ m2) g1 g3.
Proof. intros [] []. split; rewrite ?app_assoc; congruence. Qed.

Definition health_row (sample : HealthTelemetry) (n : Z) (envelope : value) : HealthRow :=
  mk_health_row (timestamp_ns sample) n (bus_voltage_v sample) (battery_temp_c sample) (wheel_rpm sample) (mode sample)
    (fault_flags sample) envelope.
Definition alert_row (n : Z) (v : Processor.LimitViolation) : AlertRow :=
  mk_alert_row (Processor.parameter v) (Processor.number_float (Processor.violation_value v)) (Processor.severity v)
    (Processor.violation_message v) n.
Definition alert_message (n : Z) (v : Processor.LimitViolation) : Message :=
  mk_message "alerts.limit" (Some (VDict [
    ("parameter", VStr (Processor.parameter v)); ("value", Processor.number_value (Processor.violation_value v));
    ("severity", VStr (Processor.severity v)); ("message", VStr (Processor.violation_message v));
    ("telemetry_sequence", VInt n)])).

(** The sample and the sequence count that a message carries. *)
Definition sample_of (envelope : value) : result exn (HealthTelemetry * Z) :=
  data ← subscript envelope "data";
  let int_at v key := subscript v key ≫= int_of in
  let float_at v key := subscript v key ≫= float_of in
  ts ← int_at data "timestamp_ns"; voltage ← float_at data "bus_voltage_v"; temperature ← float_at data "battery_temp_c";
  rpm ← int_at data "wheel_rpm"; mode ← int_at data "mode"; flags ← int_at data "fault_flags";
  n ← int_at envelope "sequence_count";
  Ok (mk_health ts voltage temperature rpm mode flags, n).

Definition processed (envelope : value) (sample : HealthTelemetry) : result exn value :=
  Processor.extend envelope "violations" (VList (Processor.violation_dict <$> Processor.evaluate_health sample)).

(** A message has been processed: its row, and one alert row and one alert message for each violation, in
    their order, and the message with the violations. *)
Definition health_done (msg : Message) (g g' : Ground) : Prop := exists envelope sample n v,
  loads msg = Ok envelope /\ sample_of envelope = Ok (sample, n) /\ processed envelope sample = Ok v /\
  telemetry_health (tables g') = telemetry_health (tables g) ++ [health_row sample n envelope] /\
  alerts (tables g') = alerts (tables g) ++ (alert_row n <$> Processor.evaluate_health sample) /\
  bus g' = bus g ++ (alert_message n <$> Processor.evaluate_health sample) ++ [mk_message "telemetry.processed" (Some v)] /\
  commands (tables g') = commands (tables g) /\ audit_events (tables g') = audit_events (tables g).

(** ** Steps that may fail *)

(** A step that returns has added what it says; one that fails has settled nothing. *)
Definition adds {A} (m : link A) rows als msgs : Prop := forall g,
  match m g with (Ok _, g') => appended rows als msgs g g' | (Raise _, g') => settled g' = settled g end.

Lemma adds_external f rows als msgs :
  (forall g, appended rows als msgs g (f g)) -> adds (external (modify f)) rows als msgs.
Proof.
  intros Hf g. unfold external. destruct (faults g) as [|[] fs]; cbn; [apply Hf| |done|apply (app_settled _ _ _ _ _ (Hf (with_faults fs g)))].
  by destruct (Hf (with_faults fs g)).
Qed.

Lemma adds_modify f : (forall g, appended [] [] [] g (f g)) -> adds (modify f) [] [] [].
Proof. intros Hf g. apply Hf. Qed.

Lemma adds_acquire : adds acquire [] [] [].
Proof. intros g. unfold acquire, external. destruct (faults g) as [|[] fs]; cbn; [| |done|done]; by apply appended_nothing. Qed.

Lemma adds_checked ok f rows als msgs : adds (external (modify f)) rows als msgs -> adds (checked ok ;; external (modify f)) rows als msgs.
Proof. intros Hf g. rewrite run_eff_bind. unfold checked. destruct ok; [apply Hf|done]. Qed.

Lemma adds_insert_health r : adds (insert_health r) [r] [] [].
Proof. apply adds_checked, adds_external. intros g. split; cbn; rewrite ?app_nil_r; done. Qed.

Lemma adds_insert_alert r : adds (insert_alert r) [] [r] [].
Proof. apply adds_checked, adds_external. intros g. split; cbn; rewrite ?app_nil_r; done. Qed.

Lemma adds_publish s v : adds (publish s v) [] [] [mk_message s (Some v)].
Proof. apply adds_external. intros g. split; cbn; rewrite ?app_nil_r; done. Qed.

Lemma adds_count labels n : adds (count labels n) [] [] [].
Proof. apply adds_modify. intros g. by apply appended_nothing. Qed.

Lemma adds_seq {A} (m : link unit) (k : link A) r1 a1 m1 r2 a2 m2 :
  adds m r1 a1 m1 -> adds k r2 a2 m2 -> adds (m ;; k) (r1 ++ r2) (a1 ++ a2) (m1 ++ m2).
Proof.
  intros Hm Hk g. specialize (Hm g). rewrite run_eff_bind. destruct (m g) as [[[]|e] g1]; [|done].
  specialize (Hk g1). destruct (k g1) as [[a|e] g2]; [by eapply appended_trans|]. rewrite Hk. apply Hm.
Qed.

Lemma adds_for_each {X} (xs : list X) (body : X -> link unit) (al : X -> AlertRow) (m : X -> Message) :
  (forall x, adds (body x) [] [al x] [m x]) -> adds (for_each xs body) [] (al <$> xs) (m <$> xs).
Proof.
  intros Hb. induction xs as [|x xs IH]; cbn [for_each]; [intros g; by apply appended_nothing|].
  exact (adds_seq _ _ _ _ _ _ _ _ (Hb x) IH).
Qed.

Lemma adds_raise_alert envelope n v :
  (subscript envelope "sequence_count" ≫= int_of) = Ok n ->
  adds (Processor.raise_alert envelope v) [] [alert_row n v] [alert_message n v].
Proof.
  intros Hn. unfold Processor.raise_alert, Processor.int_at. rewrite Hn.
  refine (adds_seq acquire _ _ _ _ _ _ _ adds_acquire _).
  refine (adds_seq _ _ _ _ _ _ _ _ (adds_insert_alert _) _).
  exact (adds_seq _ _ _ _ _ _ _ _ (adds_publish _ _) (adds_count _ _)).
Qed.

(** ** The handler under any faults *)

Section Handler.
Context (msg : Message).

(** From [g0]: a run that returns has processed and acknowledged the message; one that fails has done
    both, or settled nothing. *)
Definition completes (g0 : Ground) (m : link unit) (g : Ground) : Prop :=
  let finished g' := health_done msg g0 g' /\ settled g' = settled g0 ++ [(msg, Acked)] in
  match m g with (Ok _, g') => finished g' | (Raise _, g') => settled g' = settled g0 \/ finished g' end.

Lemma completes_lift {A} (r : result exn A) (k : A -> link unit) g0 g :
  settled g = settled g0 -> (forall a, r = Ok a -> completes g0 (k a) g) -> completes g0 (lift r ≫= k) g.
Proof. intros Hs Hk. unfold completes. rewrite run_eff_bind. unfold lift. destruct r as [a|e]; [by apply Hk|by left]. Qed.

Lemma completes_adds (m : link unit) (k : link unit) rows als msgs r a ms g0 g :
  adds m r a ms -> appended rows als msgs g0 g ->
  (forall g1, appended (rows ++ r) (als ++ a) (msgs ++ ms) g0 g1 -> completes g0 k g1) -> completes g0 (m ;; k) g.
Proof.
  intros Hm Hg Hk. unfold completes. rewrite run_eff_bind. specialize (Hm g). destruct (m g) as [[[]|e] g1].
  - apply Hk. by eapply appended_trans.
  - left. rewrite Hm. apply Hg.
Qed.

Lemma completes_ack g0 g : health_done msg g0 g -> settled g = settled g0 -> completes g0 (ack msg) g.
Proof.
  intros Hd Hs. assert (forall fs, health_done msg g0 (with_settled (fun l => l ++ [(msg, Acked)]) (with_faults fs g))) as Hd' by (intros fs; exact Hd).
  unfold completes, ack, external. destruct (faults g) as [|[] fs]; cbn; rewrite Hs; [|by split; [exact (Hd' [])|]|by left|by right; split].
  split; [exact (Hd' [])|done].
Qed.

Definition handler_body : link unit :=
  envelope ← lift (loads msg);
  data ← lift (subscript envelope "data");
  ts ← Processor.int_at data "timestamp_ns";
  voltage ← Processor.float_at data "bus_voltage_v";
  temperature ← Processor.float_at data "battery_temp_c";
  rpm ← Processor.int_at data "wheel_rpm";
  mode ← Processor.int_at data "mode";
  flags ← Processor.int_at data "fault_flags";
  let sample := mk_health ts voltage temperature rpm mode flags in
  acquire ;;
  n ← Processor.int_at envelope "sequence_count";
  insert_health (mk_health_row ts n voltage temperature rpm mode flags envelope) ;;
  modify (with_gauges voltage temperature) ;;
  let violations := Processor.evaluate_health sample in
  for_each violations (Processor.raise_alert envelope) ;;
  processed ← lift (Processor.extend envelope "violations" (VList (Processor.violation_dict <$> violations)));
  publish "telemetry.processed" processed ;;
  count ["processor_messages_total"; "health"; "ok"] 1 ;;
  ack msg.

Lemma process_health_body : Processor.process_health msg = Processor.or_nak msg "health" handler_body.
Proof. reflexivity. Qed.

Lemma body_completes g : completes g handler_body g.
Proof.
  unfold handler_body, Processor.int_at, Processor.float_at.
  apply completes_lift; [done|]. intros envelope He. apply completes_lift; [done|]. intros data Hdata.
  do 6 (apply completes_lift; [done|]; intros ? ?).
  set (sample := mk_health _ _ _ _ _ _).
  eapply completes_adds; [apply adds_acquire|by apply (appended_nothing g g)|]. cbn [app]. intros g1 G1.
  apply completes_lift; [apply G1|]. intros n Hn.
  assert (sample_of envelope = Ok (sample, n)) as Hs.
  { unfold sample_of. rewrite Hdata. cbn [mbind result_bind] in *.
    repeat match goal with H : ?e = Ok _ |- context [?e] => rewrite H; clear H; cbn [mbind result_bind] end. done. }
  eapply completes_adds; [apply adds_insert_health|exact G1|]. cbn [app]. intros g2 G2.
  eapply completes_adds; [apply adds_modify; intros x; by apply appended_nothing|exact G2|]. cbn [app]. intros g3 G3.
  eapply completes_adds; [apply adds_for_each; intros x; by apply adds_raise_alert|exact G3|]. cbn [app]. intros g4 G4.
  apply completes_lift; [apply G4|]. intros v Hv.
  eapply completes_adds; [apply adds_publish|exact G4|]. intros g5 G5.
  eapply completes_adds; [apply adds_count|exact G5|]. intros g6 [Hr Ha Hb Hc Hau Hse].
  apply completes_ack; [|done]. rewrite ?app_nil_r in *. exists envelope, sample, n, v. by split_and!.
Qed.

(** Asking for the message again adds nothing else. *)
Lemma nak_settles g : exists l, let g' := ((count ["processor_messages_total"; "health"; "error"] 1 ;; nak msg 1) g).2 in
  tables g' = tables g /\ bus g' = bus g /\ settled g' = settled g ++ l /\ (l = [] \/ l = [(msg, Nacked 1)]).
Proof.
  rewrite run_eff_bind. cbn [count modify]. unfold nak, external. cbn.
  destruct (faults g) as [|[] fs]; cbn; [exists [(msg, Nacked 1)]|exists [(msg, Nacked 1)]|exists []|exists [(msg, Nacked 1)]];
    rewrite ?app_nil_r; auto.
Qed.
End Handler.

(** ** The whole path when the calls are served *)

(** A step that returns when the calls are served, and leaves them served. *)
Definition serves (m : link unit) : Prop := forall g, faults g = [] -> exists g', m g = (Ok tt, g') /\ faults g' = [].

Lemma serves_seq m k : serves m -> serves k -> serves (m ;; k).
Proof. intros Hm Hk g Hf. rewrite run_eff_bind. destruct (Hm g Hf) as (g1 & -> & Hf1). by apply Hk. Qed.
Lemma serves_lift {A} r (a : A) (k : A -> link unit) : r = Ok a -> serves (k a) -> serves (lift r ≫= k).
Proof. intros -> Hk. exact Hk. Qed.
Lemma serves_modify f : (forall g, faults (f g) = faults g) -> serves (modify f).
Proof. intros Hf g Hg. eexists. split; [done|]. by rewrite Hf. Qed.
Lemma serves_external m : serves m -> serves (external m).
Proof. intros Hm g Hg. rewrite run_external by done. by apply Hm. Qed.
Lemma serves_acquire : serves acquire.
Proof. apply serves_external. intros g Hg. by eexists. Qed.
Lemma serves_checked ok m : ok = true -> serves m -> serves (checked ok ;; m).
Proof. by intros ->. Qed.
Lemma serves_for_each {X} (xs : list X) body : (forall x, serves (body x)) -> serves (for_each xs body).
Proof.
  intros Hb. induction xs as [|x xs IH]; cbn [for_each]; [intros g Hg; by eexists|]. by apply serves_seq.
Qed.

(** The columns of the health table hold the sample. *)
Definition sample_fits (sample : HealthTelemetry) (n : Z) : bool :=
  int64 (timestamp_ns sample) && int32 n && int32 (wheel_rpm sample) && int32 (mode sample) && int32 (fault_flags sample).

Lemma serves_insert_health r :
  int64 (hr_spacecraft_time_ns r) && int32 (hr_sequence_count r) && int32 (hr_wheel_rpm r)
    && int32 (hr_mode r) && int32 (hr_fault_flags r) = true -> serves (insert_health r).
Proof. intros Hc. apply serves_checked; [done|]. by apply serves_external, serves_modify. Qed.
Lemma serves_insert_alert r : int32 (al_telemetry_sequence r) = true -> serves (insert_alert r).
Proof. intros Hc. apply serves_checked; [done|]. by apply serves_external, serves_modify. Qed.

(** Follow a handler whose calls are served. *)
Ltac serve := repeat first
  [ apply serves_insert_health | apply serves_insert_alert | apply serves_seq | eapply serves_lift; [reflexivity|] | apply serves_acquire | apply serves_for_each; intros ? | apply serves_external | apply serves_modify; done ].

Lemma body_served p h received source :
  sample_fits h (sequence_count p) = true ->
  serves (handler_body (mk_message "telemetry.health" (Some (Ingest.envelope p received source (Ingest.health_data h))))).
Proof.
  intros Hfit. unfold handler_body, Processor.int_at, Processor.float_at. serve.
  - exact Hfit.
  - unfold Processor.raise_alert, Processor.int_at. serve. unfold sample_fits in Hfit. by bool_to_prop.
Qed.

Lemma decoded_sample_fits raw p h :
  decode_space_packet raw = Ok p -> decode_health p = Ok h -> timestamp_ns h < 2 ^ 63 -> sample_fits h (sequence_count p) = true.
Proof.
  intros Hp Hh Ht.
  assert (0 <= sequence_count p < 16384) as Hs.
  { destruct (decode_packet_cases raw) as [[_ Hd]|[_ [m Hd]]]; [|congruence]. rewrite Hd in Hp. injection Hp as <-.
    by apply Z.mod_pos_bound. }
  unfold decode_health in Hh. follow_ok Hh; [|done]. apply of_struct_ok, pack_unpack in Hrun. injection Hh as <-.
  assert (Forall2 (fun f v => fmt_fits f v = true) HEALTH_PAYLOAD [z; z0; z1; z2; z3; z4]) as Hf by (apply pack_ok_iff; by eexists).
  unfold HEALTH_PAYLOAD in Hf. rewrite !Forall2_cons, !fmt_fits_spec in Hf.
  unfold sample_fits, int64, int32. cbn in *. rewrite !andb_true_iff, !Z.leb_le, !Z.ltb_lt. lia.
Qed.

Lemma run_ingest_health raw p h source t1 t2 g :
  faults g = [] -> decode_space_packet raw = Ok p -> decode_health p = Ok h ->
  let g' := (Ingest._process raw source t1 t2 g).2 in
  bus g' = bus g ++ [mk_message "telemetry.health" (Some (Ingest.envelope p t1 source (Ingest.health_data h)))] /\
  tables g' = tables g /\ faults g' = [].
Proof.
  intros Hf Hp Hh. assert (apid p = APID_HEALTH) as Hap by (unfold decode_health in Hh; follow_ok Hh; lia).
  unfold Ingest._process. rewrite Hp. cbn [of_packet catch]. set (body := lift (Ok p) ≫= _).
  assert (exists g', body g = (Ok tt, g') /\ tables g' = tables g /\ faults g' = [] /\
    bus g' = bus g ++ [mk_message "telemetry.health" (Some (Ingest.envelope p t1 source (Ingest.health_data h)))]) as (g' & Hrun & Ht & Hf' & Hb).
  { unfold body. rewrite run_lift_ok, run_eff_bind. cbn [get]. rewrite Hap, Hh. cbn [of_packet catch].
    destruct (Ingest.observe _ _ _) as [gaps table]. rewrite run_eff_bind. cbn [modify]. rewrite run_eff_bind.
    destruct (negb (gaps =? 0)); cbn [count modify mret eff_ret]; rewrite Z.eqb_refl, run_lift_ok, run_eff_bind; cbn [modify];
      rewrite run_eff_bind; unfold publish; rewrite run_external by done; by eexists. }
  rewrite (try_ok _ _ _ _ _ Hrun). by split_and!.
Qed.

(** C17. A health message is acknowledged only when its processing is complete. Whatever calls to the
    database and the bus are refused or lose their answers, the handler leaves the message unsettled, or
    asks for it again, or acknowledges it; and once it is acknowledged the health row, an alert row and an
    alert message for each violated limit, in their order, and the processed message have all been
    written, once, and nothing else has been touched. *)
Theorem acknowledged_processed msg g :
  let g' := (Processor.process_health msg g).2 in
  settled g' = settled g \/ settled g' = settled g ++ [(msg, Nacked 1)] \/
  (health_done msg g g' /\ exists l, settled g' = settled g ++ (msg, Acked) :: l).
Proof.
  rewrite process_health_body. unfold Processor.or_nak, try_catch. pose proof (body_completes msg g) as Hc. unfold completes in Hc.
  destruct (handler_body msg g) as [[[]|e] g1]; cbn zeta.
  - right. right. destruct Hc as [Hd Hs]. cbn. split; [done|]. by exists [].
  - destruct (nak_settles msg g1) as (l & Ht & Hb & Hs & Hl). cbn zeta in *.
    destruct ((count _ 1 ;; nak msg 1) g1) as [r g2]. cbn [snd] in *. destruct Hc as [Hc|[Hd Hc]]; rewrite Hs, Hc.
    + destruct Hl as [-> | ->]; rewrite ?app_nil_r; auto.
    + right. right. split; [|exists l; by rewrite <- app_assoc]. unfold health_done in *. by rewrite Ht, Hb.
Qed.

(** C16. The path of a health sample. When the calls are served, a packet that the ground decodes to a sample with a
    time that the column can hold is published by the ingest service as one message; and the processor
    answers that message, whenever it arrives, with exactly one health row of the decoded values, one alert
    row and one alert message for each violated limit, the processed message, and an acknowledgement. *)
Theorem health_reported raw p h source t1 t2 g :
  decode_space_packet raw = Ok p -> decode_health p = Ok h -> timestamp_ns h < 2 ^ 63 -> faults g = [] ->
  exists msg, bus (Ingest._process raw source t1 t2 g).2 = bus g ++ [msg] /\
    forall g1, faults g1 = [] -> exists g2 envelope v, Processor.process_health msg g1 = (Ok tt, g2) /\
      telemetry_health (tables g2) = telemetry_health (tables g1) ++ [health_row h (sequence_count p) envelope] /\
      alerts (tables g2) = alerts (tables g1) ++ (alert_row (sequence_count p) <$> Processor.evaluate_health h) /\
      bus g2 = bus g1 ++ (alert_message (sequence_count p) <$> Processor.evaluate_health h) ++
        [mk_message "telemetry.processed" (Some v)] /\
      settled g2 = settled g1 ++ [(msg, Acked)].
Proof.
  intros Hp Hh Ht Hf. destruct (run_ingest_health raw p h source t1 t2 g Hf Hp Hh) as (Hb & _ & _).
  eexists. split; [exact Hb|]. intros g1 Hf1.
  destruct (body_served p h t1 source (decoded_sample_fits _ _ _ Hp Hh Ht) g1 Hf1) as (g2 & Hrun & _).
  match type of Hrun with handler_body ?m _ = _ => pose proof (body_completes m g1) as Hc end.
  unfold completes in Hc. rewrite Hrun in Hc. destruct Hc as [(env & sample & n & v & Hl & Hs & _ & Hr & Ha & Hbus & _) Hset].
  injection Hl as <-. assert (sample = h /\ n = sequence_count p) as [-> ->].
  { destruct h. cbn in Hs. by injection Hs as <- <-. }
  exists g2, (Ingest.envelope p t1 source (Ingest.health_data h)), v. split; [|done].
  rewrite process_health_body. unfold Processor.or_nak. by rewrite (try_ok _ _ _ _ _ Hrun).
Qed.

(** A sample below the critical voltage, with a fault flag. *)
Definition low_voltage : HealthTelemetry := mk_health 1_784_203_200_000_000_000 (decimal 235 1) (decimal 31 0) 1200 1 1.

Lemma health_reported_witness :
  exists raw msg, encode_health 7 low_voltage = Ok raw /\ bus (Ingest._process raw "udp" 8 9 (empty_ground [])).2 = [msg] /\
    exists g2, Processor.process_health msg (empty_ground []) = (Ok tt, g2) /\
      (fun a => (al_parameter a, al_severity a)) <$> alerts (tables g2) = [("bus_voltage_v", "CRITICAL"); ("fault_flags", "CRITICAL")]%string.
Proof.
  destruct (encode_health 7 low_voltage) as [raw|e] eqn:He; [|vm_compute in He; discriminate He].
  destruct (encode_health_total 7 low_voltage 23_500 3_100) as (raw' & p & He' & Hp & _ & Hn & Hh).
  { change MAX_SEQUENCE with 16383. lia. }
  { split; [vm_compute; reflexivity|]. split; [vm_compute; reflexivity|]. cbn. lia. }
  assert (raw' = raw) as -> by congruence.
  destruct (health_reported raw p _ "udp" 8 9 (empty_ground []) Hp Hh eq_refl eq_refl) as (msg & Hb & Hrest).
  destruct (Hrest (empty_ground []) eq_refl) as (g2 & env & v & Hrun & _ & Ha & _).
  exists raw, msg. split; [exact eq_refl|]. split; [exact Hb|]. exists g2. split; [exact Hrun|]. rewrite Ha. vm_compute. reflexivity.
Defined.

(** A call that fails after the row is stored makes the message come again, and the sample is stored a second time. *)
Example sample_stored_twice :
  let msg := mk_message "telemetry.health" (Some (Ingest.envelope (mk_packet APID_HEALTH 7 [] 0) 8 "udp" (Ingest.health_data low_voltage))) in
  let g1 := (Processor.process_health msg (empty_ground [Served; Served; Served; Refused])).2 in
  let g2 := (Processor.process_health msg g1).2 in
  snd <$> settled g2 = [Nacked 1; Acked] /\ length (telemetry_health (tables g2)) = 2%nat /\ length (alerts (tables g2)) = 2%nat.
Proof. vm_compute. auto. Qed.
End HealthPath.
