(* ===== verification/Advisor.v ===== *)
(** * AI advisor: [mission_ground/services/ai_advisor.py]

    The handler of alerts.  The language model is outside the program: [complete] is its answer to a
    request, any answer at all.  [dumps_sorted] is [json.dumps(..., sort_keys=True)]. *)
From S2P Require Import Prelude PyObject PyEffect Link.

Open Scope Z_scope.

Module Advisor.

Definition SYSTEM : string :=
"You are an advisory-only spacecraft operations assistant. Summarize the supplied alert,
identify the deterministic checks an operator should perform, and explicitly state that you cannot
approve or transmit commands. Never invent telemetry or claim a fault is resolved.".

(** What [client.post] brings: no response, or a status and a body that may be JSON. *)
Inductive reply := NoResponse | Response (status : Z) (body : option value).

Section Advise.
Context (dumps_sorted : value -> string) (model : string).

Definition chat_request (alert : value) : value := VDict [
  ("model", VStr model); ("temperature", VInt 0); ("max_tokens", VInt 220);
  ("messages", VList [
    VDict [("role", VStr "system"); ("content", VStr SYSTEM)];
    VDict [("role", VStr "user"); ("content", VStr (dumps_sorted alert))]])].

(** [v[0]]. *)
Definition first_item (v : value) : result exn value :=
  match v with
  | VList (x :: _) => Ok x
  | VList [] | VStr String.EmptyString => Raise IndexError
  | VStr (String.String c _) => Ok (VStr (String.String c String.EmptyString))
  | VDict _ => Raise (KeyError "0")
  | _ => Raise (TypeError "object is not subscriptable")
  end.

(** [response.raise_for_status()] and the text of the first choice. *)
Definition advisory_text (r : reply) : result exn value :=
  match r with
  | NoResponse => Raise (HTTPError "request failed")
  | Response status body =>
      raise: HTTPError "status" when negb ((200 <=? status) && (status <? 300)) ;;
      body ← match body with Some v => Ok v | None => Raise (ValueError "Expecting value") end;
      choices ← subscript body "choices";
      choice ← first_item choices;
      message ← subscript choice "message";
      subscript message "content"
  end.

Definition advisory (alert text : value) : value := VDict [
  ("source_alert", alert); ("model", VStr model); ("advisory", text)].

Definition advise (msg : Message) (complete : value -> reply) : link unit :=
  try_catch
    (alert ← lift (loads msg);
     text ← lift (advisory_text (complete (chat_request alert)));
     publish "advisories.alert" (advisory alert text) ;;
     count ["ai_advisor_requests_total"; "ok"] 1 ;;
     ack msg)
    (fun _ => count ["ai_advisor_requests_total"; "error"] 1 ;; nak msg 10).

(** ** What an advisory can do *)

(** The tables, the uplink and the sequence tracker are left alone. *)
Definition untouched (g g' : Ground) : Prop :=
  tables g' = tables g /\ uplink g' = uplink g /\ tracker g' = tracker g.

#[export] Instance untouched_preorder : PreOrder untouched.
Proof. split; [by intros g|]. intros x y z (H1 & H2 & H3) (H4 & H5 & H6). split_and!; congruence. Qed.

Lemma advise_untouched msg complete : keeps untouched (advise msg complete).
Proof.
  unfold advise, publish, ack, nak, count.
  repeat first [apply keeps_external; [apply _|by split|] | keep_step ltac:(by split)].
Qed.

(** Messages sent and dispositions of [msg] between two states. *)
Definition sends (msg : Message) (advs : list Message) (ds : list Disposition) (g g' : Ground) : Prop :=
  bus g' = bus g ++ advs /\ settled g' = settled g ++ map (pair msg) ds.

Lemma sends_nothing msg g g' : bus g' = bus g -> settled g' = settled g -> sends msg [] [] g g'.
Proof. intros Hb Hs. split; by rewrite app_nil_r. Qed.

Lemma sends_trans msg a1 d1 a2 d2 x y z :
  sends msg a1 d1 x y -> sends msg a2 d2 y z -> sends msg (a1 ++ a2) (d1 ++ d2) x z.
Proof. intros [H1 H2] [H3 H4]. split; [by rewrite H3, H1, app_assoc|]. by rewrite H4, H2, map_app, app_assoc. Qed.

(** A call that sends is carried out, or not, and returns only when it is. *)
Lemma external_sends msg advs ds f g :
  (forall g, sends msg advs ds g (f g)) ->
  match external (modify f) g with
  | (Ok _, g') => sends msg advs ds g g'
  | (Raise _, g') => sends msg advs ds g g' \/ sends msg [] [] g g'
  end.
Proof.
  intros Hf. assert (forall fs, sends msg advs ds g (f (with_faults fs g))) as Hf' by (intros fs; exact (Hf (with_faults fs g))).
  unfold external. destruct (faults g) as [|[] fs]; cbn; auto. right. by apply sends_nothing.
Qed.

(** The handler of exceptions only asks for the message again. *)
Lemma failed_sends msg advs ds0 g0 g :
  sends msg advs ds0 g0 g ->
  exists ds, sends msg advs (ds0 ++ ds) g0 ((count ["ai_advisor_requests_total"; "error"] 1 ;; nak msg 10) g).2 /\ Acked ∉ ds.
Proof.
  intros H0. unfold nak. rewrite run_eff_bind. cbn [count modify]. set (f := with_settled _). set (g1 := with_metrics _ g).
  assert (sends msg advs ds0 g0 g1) as H1 by exact H0. clearbody g1.
  pose proof (external_sends msg [] [Nacked 10] f g1 ltac:(intros ?; split; [by rewrite app_nil_r|done])) as Hx.
  assert (forall g', sends msg [] [Nacked 10] g1 g' \/ sends msg [] [] g1 g' ->
    exists ds, sends msg advs (ds0 ++ ds) g0 g' /\ Acked ∉ ds) as Hend.
  { intros g' [H|H]; pose proof (sends_trans _ _ _ _ _ _ _ _ H1 H) as H2; rewrite app_nil_r in H2; eexists; (split; [exact H2|set_solver]). }
  destruct (external (modify f) g1) as [[[]|e] g']; apply Hend; auto.
Qed.

(** The advisor settles a message and adds nothing to the bus but the advisory of its alert, which is there
    before the message is acknowledged; tables and uplink are left alone. *)
Theorem advisory_only msg complete g :
  let g' := (advise msg complete g).2 in
  untouched g g' /\
  exists advs ds, sends msg advs ds g g' /\ (Acked ∈ ds -> advs <> []) /\
    (advs = [] \/ exists alert text, loads msg = Ok alert /\ advisory_text (complete (chat_request alert)) = Ok text /\
       advs = [mk_message "advisories.alert" (Some (advisory alert text))]).
Proof.
  intros g'. split; [apply advise_untouched|]. unfold g', advise, try_catch, lift. clear g'.
  assert (sends msg [] [] g g) as Hg by by apply sends_nothing. destruct (failed_sends msg [] [] g g Hg) as (ds0 & Hds0 & Hn0).
  rewrite run_eff_bind. destruct (loads msg) as [alert|e] eqn:Hl; [|exists [], ds0; split; [done|split; [done|by left]]].
  rewrite run_eff_bind. destruct (advisory_text _) as [text|e] eqn:Ht; [|exists [], ds0; split; [done|split; [done|by left]]].
  rewrite run_eff_bind. unfold publish. clear ds0 Hds0 Hn0. set (adv := mk_message "advisories.alert" (Some (advisory alert text))).
  assert (forall advs (ds : list Disposition), advs = [adv] \/ (advs = [] /\ Acked ∉ ds) -> (Acked ∈ ds -> advs <> []) /\
    (advs = [] \/ exists a t, Ok (E := exn) alert = Ok a /\ advisory_text (complete (chat_request a)) = Ok t /\ advs = [mk_message "advisories.alert" (Some (advisory a t))])) as Hend.
  { intros advs ds [->|[-> Hn]]; [|split; [done|by left]]. split; [done|]. right. by exists alert, text. }
  pose proof (external_sends msg [adv] [] (with_bus (fun b => b ++ [adv])) g ltac:(intros ?; split; [done|by rewrite app_nil_r])) as Hp.
  destruct (external (modify (with_bus _)) g) as [[[]|e] g1].
  2: { destruct Hp as [Hp|Hp]; destruct (failed_sends msg _ _ g g1 Hp) as (ds & Hds & Hn); do 2 eexists; (split; [exact Hds|]); apply Hend; auto. }
  rewrite run_eff_bind. cbn [count modify]. unfold ack. set (g2 := with_metrics _ g1). set (f := with_settled _).
  assert (sends msg [adv] [] g g2) as H2 by exact Hp. clearbody g2.
  pose proof (external_sends msg [] [Acked] f g2 ltac:(intros ?; split; [by rewrite app_nil_r|done])) as Ha.
  destruct (external (modify f) g2) as [[[]|e] g3].
  - pose proof (sends_trans _ _ _ _ _ _ _ _ H2 Ha) as H3. do 2 eexists. split; [exact H3|]. apply Hend. auto.
  - destruct Ha as [Ha|Ha]; pose proof (sends_trans _ _ _ _ _ _ _ _ H2 Ha) as H3; destruct (failed_sends msg _ _ g g3 H3) as (ds & Hds & Hn);
      do 2 eexists; (split; [exact Hds|]); apply Hend; auto.
Qed.
End Advise.
End Advisor.
