(* ===== verification/Dispatcher.v ===== *)
(** * Command dispatcher: [mission_ground/services/command_dispatcher.py]

    The handler of a dispatch message.  The text of an exception is [describe]; [target] is the text of the
    configured address. *)
From S2P Require Import Prelude PyFloat SpacePacket PyObject PyEffect Link.

Open Scope Z_scope.

Module Dispatcher.
Import SpacePacket.

Section Dispatch.
Context (str_of : value -> string) (describe : exn -> string) (target : string).

Definition int_field (v : value) (key : string) : link Z := lift (subscript v key ≫= int_of).

(** The status event of a command that was sent, and of one that was not. *)
Definition dispatched (command_id : Z) : value := VDict [
  ("command_id", VInt command_id); ("status", VStr "DISPATCHED"); ("detail", VStr ("UDP target " +:+ target))].
Definition dispatch_error (command_id : Z) (exc : exn) : value := VDict [
  ("command_id", VInt command_id); ("status", VStr "DISPATCH_ERROR"); ("detail", VStr (describe exc))].

(** The body of the [try] once [name] is known, and the handler of its exceptions. *)
Definition send_command (msg : Message) (event : value) (name : string) (now_ns : Z) : link unit :=
  id ← int_field event "command_id";
  op ← int_field event "opcode";
  arg ← int_field event "argument";
  raw ← lift (of_packet (encode_command (mk_command id op arg now_ns)));
  uplink_sendto raw ;;
  publish "commands.status" (dispatched id) ;;
  count ["command_dispatch_total"; "sent"; name] 1 ;;
  ack msg.

Definition dispatch_failed (msg : Message) (name : string) (exc : exn) : link unit :=
  count ["command_dispatch_total"; "error"; name] 1 ;;
  try_finally
    (event ← lift (loads msg);
     id ← int_field event "command_id";
     publish "commands.status" (dispatch_error id exc))
    (nak msg 2).

Definition dispatch (msg : Message) (now_ns : Z) : link unit :=
  match (event ← loads msg; name ← subscript event "name"; Ok (event, py_str str_of name)) with
  | Ok (event, name) => try_catch (send_command msg event name now_ns) (dispatch_failed msg name)
  | Raise exc => dispatch_failed msg "unknown" exc
  end.
End Dispatch.
End Dispatcher.
