(* ===== verification/MissionApi.v ===== *)
(** * Mission API: [mission_ground/services/mission_api.py]

    The command route, from the validated request to the published dispatch event.  FastAPI's parsing of the
    request body is not modelled: a request is the record that pydantic has checked. *)
From S2P Require Import Prelude PyFloat SpacePacket Commands PyObject PyEffect Link.

Open Scope Z_scope.

Module MissionApi.

Record CommandRequest := mk_request {
  name : string;
  argument : Z;
  dry_run : bool;
  operator_id : string
}.

(** [Field(min_length=1, max_length=80)] of [operator_id]. *)
Definition request_valid (r : CommandRequest) : bool :=
  (1 <=? String.length (operator_id r))%nat && (String.length (operator_id r) <=? 80)%nat.

Record CommandResponse := mk_response { command_id : Z; response_status : string; response_dry_run : bool }.

Section Api.
(** The environment's OPERATOR_TOKEN and COMMAND_ARM_TOKEN. *)
Context (operator_token arm_token : string).

Definition dry_label (b : bool) : string := if b then "true" else "false".

(** [request.model_dump_json()], as a value. *)
Definition request_dump (r : CommandRequest) : value := VDict [
  ("name", VStr (name r)); ("argument", VInt (argument r)); ("dry_run", VBool (dry_run r)); ("operator_id", VStr (operator_id r))].

Definition dispatch_event (command_id : Z) (r : CommandRequest) (definition : Commands.CommandDefinition) : value := VDict [
  ("command_id", VInt command_id); ("name", VStr (name r)); ("opcode", VInt (Commands.opcode definition));
  ("argument", VInt (argument r)); ("operator_id", VStr (operator_id r))].

(** The token checks of a live command. *)
Definition check_tokens (x_operator_token x_command_arm : option string) : link unit :=
  (if bool_decide (x_operator_token = Some operator_token) then mret tt else
     count ["mission_api_command_requests_total"; "unauthorized"; "false"] 1 ;;
     throw (HTTPException 401 "invalid operator token")) ;;
  (if bool_decide (x_command_arm = Some arm_token) then mret tt else
     count ["mission_api_command_requests_total"; "unarmed"; "false"] 1 ;;
     throw (HTTPException 409 "command path is not armed")).

Definition create_command (request : CommandRequest) (x_operator_token x_command_arm : option string) : link CommandResponse :=
  definition ← match Commands.validate_command (name request) (argument request) with
    | Ok d => mret d
    | Raise (Commands.CommandValidationError m) =>
        count ["mission_api_command_requests_total"; "invalid"; dry_label (dry_run request)] 1 ;;
        throw (HTTPException 422 m)
    end;
  (if dry_run request then mret tt else check_tokens x_operator_token x_command_arm) ;;
  let status := if dry_run request then "DRY_RUN_VALIDATED" else "QUEUED" in
  acquire ;;
  id ← insert_command (mk_command_row (name request) (argument request) (dry_run request) status (operator_id request) None);
  insert_audit (mk_audit_row (operator_id request) "COMMAND_CREATED" "command" (pretty id) (request_dump request)) ;;
  (if dry_run request then mret tt else publish "commands.dispatch" (dispatch_event id request definition)) ;;
  count ["mission_api_command_requests_total"; "accepted"; dry_label (dry_run request)] 1 ;;
  mret (mk_response id status (dry_run request)).

(** The routes that read. *)
Definition command_status (command_id : Z) : link CommandRow :=
  acquire ;;
  checked (int64 command_id) ;;
  external (g ← get; match commands (tables g) !! command_id with
                     | Some row => mret row
                     | None => throw (HTTPException 404 "command not found")
                     end).

(** The readiness probe; [connected] is the state of the bus connection. *)
Definition readyz (connected : bool) : link string :=
  acquire ;;
  external (mret tt) ;;
  if connected then mret "ready" else throw (HTTPException 503 "NATS disconnected").
End Api.

(** ** The event queue of a stream: at most [maxsize] events, the oldest dropped *)

Definition maxsize : nat := 100.

Definition stream_callback (queue : list (string * value)) (msg : Message) : result exn (list (string * value)) :=
  payload ← loads msg;
  let event := (subject msg, payload) in
  let queue := if (maxsize <=? length queue)%nat then tail queue else queue in
  Ok (queue ++ [event]).
End MissionApi.
