(* ===== verification/MissionReads.v ===== *)
(** * What the Mission API shows: [mission_ground/services/mission_api.py]

    The two list routes, whose rows the database orders by the times it gave them, and the stream of a
    websocket: its subscriptions, its bounded queue and its loop.  The times that [now()] gave the rows,
    the identifiers of alerts, the order of rows of one time and the matching of subjects by the message
    bus are parameters. *)
From S2P Require Import Prelude PyFloat PyFormat Sql PyObject PyEffect Link MissionApi.
From Stdlib Require Import Sorting.Sorted.

Open Scope Z_scope.

Module MissionReads.
Import MissionApi.

(** ** The list routes *)

Section Lists.
Context `{SqlEngine}.

(** [ORDER BY time DESC LIMIT limit]. *)
Definition newest {R} (time : R -> Z) (limit : Z) (rows : list R) : list R :=
  take (Z.to_nat limit) (order_by (fun r => - time r) rows).

(** [Query(..., ge=1, le=500)]: FastAPI answers 422 before the route runs. *)
Definition limited {A} (limit : Z) (route : link A) : link A :=
  if (1 <=? limit) && (limit <=? 500) then route else throw (HTTPException 422 "limit").

(** The rows with the values of their columns that the database fills. *)
Context (received_at created_at alert_id : nat -> Z).

Definition health_columns (r : Z * HealthRow) : list (string * value) := [
  ("received_at", VStr (isoformat_utc r.1)); ("spacecraft_time_ns", VInt (hr_spacecraft_time_ns r.2));
  ("sequence_count", VInt (hr_sequence_count r.2)); ("bus_voltage_v", VFloat (hr_bus_voltage_v r.2));
  ("battery_temp_c", VFloat (hr_battery_temp_c r.2)); ("wheel_rpm", VInt (hr_wheel_rpm r.2)); ("mode", VInt (hr_mode r.2));
  ("fault_flags", VInt (hr_fault_flags r.2))]%string.

Definition alert_columns (r : Z * Z * AlertRow) : list (string * value) := [
  ("id", VInt r.1.2); ("created_at", VStr (isoformat_utc r.1.1)); ("parameter", VStr (al_parameter r.2)); ("value", VFloat (al_value r.2));
  ("severity", VStr (al_severity r.2)); ("message", VStr (al_message r.2)); ("telemetry_sequence", VInt (al_telemetry_sequence r.2))]%string.

Definition health_rows (t : Tables) : list (Z * HealthRow) := imap (fun i r => (received_at i, r)) (telemetry_health t).
Definition alert_rows (t : Tables) : list (Z * Z * AlertRow) := imap (fun i r => (created_at i, alert_id i, r)) (alerts t).

Definition latest_telemetry (limit : Z) : link (list (list (string * value))) :=
  limited limit (acquire ;; external (g ← get; mret (health_columns <$> newest fst limit (health_rows (tables g))))).

Definition list_alerts (limit : Z) : link (list (list (string * value))) :=
  limited limit (acquire ;; external (g ← get; mret (alert_columns <$> newest (fun r => r.1.1) limit (alert_rows (tables g))))).

(** [shown] are the newest [limit] of [rows], newest first. *)
Record newest_of {R} (time : R -> Z) (limit : nat) (rows shown : list R) : Prop := {
  newest_length : length shown = Nat.min limit (length rows);
  newest_sorted : StronglySorted (fun a b => time b <= time a) shown;
  newest_others : exists others, shown ++ others ≡ₚ rows /\ forall a b, a ∈ shown -> b ∈ others -> time b <= time a
}.

Lemma sorted_split {R} (P : R -> R -> Prop) l l' :
  StronglySorted P (l ++ l') -> StronglySorted P l /\ forall a b, a ∈ l -> b ∈ l' -> P a b.
Proof.
  induction l as [|x l IH]; intros Hs; [split; [constructor|by intros a b Ha%elem_of_nil]|]. cbn in Hs.
  apply StronglySorted_inv in Hs as [Hs Hx]. destruct (IH Hs) as [Hl Hll]. apply Forall_app in Hx as [Hx Hx']. split; [by constructor|].
  intros a b [->|Ha]%elem_of_cons Hb; [by eapply Forall_forall in Hx'|by apply Hll].
Qed.

Lemma newest_spec `{!SqlLaws} {R} (time : R -> Z) limit rows : newest_of time (Z.to_nat limit) rows (newest time limit rows).
Proof.
  pose proof (order_by_perm (fun r => - time r) rows) as Hp. pose proof (order_by_sorted (fun r => - time r) rows) as Hs.
  unfold newest. set (l := order_by _ rows) in *.
  assert (StronglySorted (fun a b => time b <= time a) l) as Hd.
  { clear Hp. induction Hs as [|x l' _ IH Hx]; constructor; [done|]. eapply Forall_impl; [exact Hx|]. cbn. lia. }
  rewrite <- (take_drop (Z.to_nat limit) l) in Hd. apply sorted_split in Hd as [Hd Hdd]. split; [by rewrite length_take, Hp|done|].
  exists (drop (Z.to_nat limit) l). by rewrite take_drop.
Qed.

(** The list routes: while the calls are served, the samples and the alerts shown are exactly the newest
    [limit] of those stored, newest first, each with the columns of its row, and nothing changes; a limit
    outside 1 to 500 is answered 422. *)
Theorem lists_newest `{!SqlLaws} limit g :
  faults g = [] ->
  if (1 <=? limit) && (limit <=? 500) then
    (exists samples, latest_telemetry limit g = (Ok (health_columns <$> samples), g) /\
       newest_of fst (Z.to_nat limit) (health_rows (tables g)) samples) /\
    (exists shown, list_alerts limit g = (Ok (alert_columns <$> shown), g) /\
       newest_of (fun r => r.1.1) (Z.to_nat limit) (alert_rows (tables g)) shown)
  else latest_telemetry limit g = (Raise (HTTPException 422 "limit"), g) /\ list_alerts limit g = (Raise (HTTPException 422 "limit"), g).
Proof.
  intros Hf. unfold latest_telemetry, list_alerts, limited. destruct ((1 <=? limit) && (limit <=? 500)); [|done].
  split; eexists; (split; [|apply newest_spec]); rewrite run_eff_bind; unfold acquire; rewrite run_external by done; cbn;
    by rewrite run_external.
Qed.
End Lists.

(** ** The websocket *)

Abbreviation event := (string * value)%type.

Definition topics : list string := ["telemetry.processed"; "alerts.>"; "advisories.>"]%string.

(** A connection: its subscriptions, its queue and what has been sent on it. *)
Record Stream := mk_stream { subscriptions : list string; queue : list event; sent : list event }.

Definition stream_start : Stream := mk_stream topics [] [].

(** What happens to a connection: a message on the bus; the loop takes the next event and sends it, or
    finds that the client has gone. *)
Inductive occurrence := Arrives (msg : Message) | Sends | Gone.

Section Stream.
(** [matches pattern subject], of the message bus. *)
Context (matches : string -> string -> bool).

(** The callback of each matching subscription; its exception leaves the queue as it is. *)
Definition hear (msg : Message) (q : list event) (topic : string) : list event :=
  if matches topic (subject msg) then match stream_callback q msg with Ok q' => q' | Raise _ => q end else q.

Definition stream_step (st : Stream) (o : occurrence) : Stream :=
  match o with
  | Arrives msg => mk_stream (subscriptions st) (foldl (hear msg) (queue st) (subscriptions st)) (sent st)
  | Sends => match queue st with [] => st | e :: q => mk_stream (subscriptions st) q (sent st ++ [e]) end
  | Gone => match queue st with [] => st | e :: q => mk_stream [] q (sent st) end
  end.

(** The events that a message makes for the subscriptions. *)
Definition arrivals (subs : list string) (msg : Message) : list event :=
  match data msg with
  | Some v => map (fun _ => (subject msg, v)) (List.filter (fun topic => matches topic (subject msg)) subs)
  | None => []
  end.

(** A run and the events that arrived during it. *)
Fixpoint stream_run (st : Stream) (os : list occurrence) : Stream * list event :=
  match os with
  | [] => (st, [])
  | o :: os' =>
      let '(st', later) := stream_run (stream_step st o) os' in
      (st', match o with Arrives msg => arrivals (subscriptions st) msg | _ => [] end ++ later)
  end.

(** Of all that has arrived, the queue holds the last events, and what was sent are earlier ones in their order. *)
Record in_order (st : Stream) (arrived : list event) : Prop := {
  order_split : exists before, arrived = before ++ queue st /\ sublist (sent st) before;
  order_bound : (length (queue st) <= maxsize)%nat
}.

Lemma in_order_hear subs msg : forall q snt arrived,
  in_order (mk_stream [] q snt) arrived -> in_order (mk_stream [] (foldl (hear msg) q subs) snt) (arrived ++ arrivals subs msg).
Proof.
  induction subs as [|topic subs IH]; intros q snt arrived Hi; cbn [foldl].
  - unfold arrivals. by destruct (data msg); rewrite app_nil_r.
  - unfold arrivals in *. cbn [List.filter]. unfold hear at 2, stream_callback, loads.
    destruct (matches topic (subject msg)); [|by apply IH]. destruct (data msg) as [v|]; cbn [mbind result_bind map]; [|by apply IH].
    rewrite (cons_middle _ arrived), (app_assoc arrived). apply IH. destruct Hi as [(before & -> & Hsub) Hlen]. cbn [queue sent] in *.
    destruct (Nat.leb_spec maxsize (length q)) as [Hq|Hq].
    + destruct q as [|e q]; [unfold maxsize in *; cbn in *; lia|]. split; cbn [queue sent tail].
      * exists (before ++ [e]). split; [by rewrite <- !app_assoc|by apply sublist_inserts_r].
      * rewrite length_app. cbn [length] in *. lia.
    + split; cbn [queue sent]; [exists before; by rewrite app_assoc|rewrite length_app; cbn [length]; lia].
Qed.

Lemma in_order_step st o arrived :
  in_order st arrived -> in_order (stream_step st o) (arrived ++ match o with Arrives msg => arrivals (subscriptions st) msg | _ => [] end).
Proof.
  intros Hi. destruct o as [msg| |]; cbn [stream_step].
  - destruct (in_order_hear (subscriptions st) msg (queue st) (sent st) arrived) as [Hs Hb]; [by destruct Hi; split|]. by split.
  - rewrite app_nil_r. destruct Hi as [(before & -> & Hsub) Hlen]. destruct (queue st) as [|e q] eqn:Hq; [split; [by exists before; rewrite Hq|by rewrite Hq]|].
    split; cbn in *; [|lia]. exists (before ++ [e]). rewrite <- app_assoc. split; [done|]. by apply sublist_app.
  - rewrite app_nil_r. destruct Hi as [(before & -> & Hsub) Hlen]. destruct (queue st) as [|e q] eqn:Hq; [split; [by exists before; rewrite Hq|by rewrite Hq]|].
    split; cbn in *; [|lia]. exists (before ++ [e]). rewrite <- app_assoc. split; [done|]. by apply sublist_inserts_r.
Qed.

Lemma stream_run_in_order os : forall st arrived, in_order st arrived -> in_order (stream_run st os).1 (arrived ++ (stream_run st os).2).
Proof.
  induction os as [|o os IH]; intros st arrived Hi; cbn [stream_run]; [by rewrite app_nil_r|].
  pose proof (in_order_step st o arrived Hi) as Hs. specialize (IH _ _ Hs). destruct (stream_run _ os) as [st' later]. cbn [fst snd] in *.
  by rewrite app_assoc.
Qed.

(** The loop keeps up: it finds the client there, and no message arrives at a full queue. *)
Fixpoint keeps_up (st : Stream) (os : list occurrence) : Prop :=
  match os with
  | [] => True
  | o :: os' =>
      match o with
      | Arrives msg => (length (queue st) + length (arrivals (subscriptions st) msg) <= maxsize)%nat
      | Sends => True
      | Gone => queue st = []
      end /\ keeps_up (stream_step st o) os'
  end.

Lemma hear_room subs msg : forall q,
  (length q + length (arrivals subs msg) <= maxsize)%nat -> foldl (hear msg) q subs = q ++ arrivals subs msg.
Proof.
  induction subs as [|topic subs IH]; intros q Hlen; cbn [foldl].
  - unfold arrivals. by destruct (data msg); rewrite app_nil_r.
  - unfold arrivals in *. cbn [List.filter] in *. unfold hear at 2, stream_callback, loads.
    destruct (matches topic (subject msg)); [|by apply IH]. destruct (data msg) as [v|]; cbn [mbind result_bind map] in *; [|by apply IH].
    cbn [length] in Hlen. destruct (Nat.leb_spec maxsize (length q)); [lia|]. rewrite IH by (rewrite length_app; cbn; lia).
    by rewrite <- app_assoc.
Qed.

Lemma keeps_up_all os : forall st, keeps_up st os ->
  sent (stream_run st os).1 ++ queue (stream_run st os).1 = sent st ++ queue st ++ (stream_run st os).2.
Proof.
  induction os as [|o os IH]; intros st Hk; cbn [stream_run]; [by rewrite app_nil_r|]. destruct Hk as [Ho Hk]. specialize (IH _ Hk).
  destruct (stream_run _ os) as [st' later]. cbn [fst snd] in *. rewrite IH. destruct o as [msg| |]; cbn [stream_step].
  - cbn. by rewrite hear_room, <- app_assoc.
  - destruct (queue st) as [|e q] eqn:Hq; cbn; rewrite ?Hq; [done|]. by rewrite <- app_assoc.
  - rewrite Ho. cbn. by rewrite Ho.
Qed.

(** C19. The stream of a client: whatever arrives and however slow the client is, the queue holds the last events
    that arrived, never more than a hundred, and what was sent are earlier ones in the order of arrival; a
    client that keeps up is sent everything. *)
Theorem stream_ordered os :
  let '(st, arrived) := stream_run stream_start os in
  (exists before, arrived = before ++ queue st /\ sublist (sent st) before) /\
  (length (queue st) <= maxsize)%nat /\
  (keeps_up stream_start os -> sent st ++ queue st = arrived).
Proof.
  pose proof (stream_run_in_order os stream_start []) as Hi. pose proof (keeps_up_all os stream_start) as Hk.
  destruct (stream_run stream_start os) as [st arrived]. cbn in *.
  destruct Hi as [Hs Hb]; [split; [by exists []|cbn; lia]|]. split; [done|]. split; [done|]. exact Hk.
Qed.
End Stream.

(** The bus's matching of the three patterns. *)
Definition nats_matches (pattern subject : string) : bool :=
  if bool_decide (pattern = "telemetry.processed"%string) then bool_decide (subject = pattern)
  else if bool_decide (pattern = "alerts.>"%string) then PyText.startswith "alerts." subject
  else PyText.startswith "advisories." subject.

Example stream_example :
  let m s n := mk_message s (Some (VInt n)) in
  stream_run nats_matches stream_start
    [Arrives (m "telemetry.processed"%string 1); Arrives (m "telemetry.raw"%string 2); Sends; Arrives (m "alerts.limit"%string 3); Arrives (mk_message "alerts.limit"%string None); Gone; Arrives (m "alerts.limit"%string 4)] =
  (mk_stream [] [] [("telemetry.processed"%string, VInt 1)], [("telemetry.processed"%string, VInt 1); ("alerts.limit"%string, VInt 3)]).
Proof. vm_compute. reflexivity. Qed.

Definition brisk_client : list occurrence :=
  let m s n := Arrives (mk_message s (Some (VInt n))) in [m "telemetry.processed" 1; Sends; m "alerts.limit" 2; m "other" 3; m "advisories.x" 4]%string.

Lemma stream_ordered_witness :
  keeps_up nats_matches stream_start brisk_client /\
  let '(st, arrived) := stream_run nats_matches stream_start brisk_client in
  sent st = [("telemetry.processed"%string, VInt 1)] /\ length arrived = 3%nat /\ sent st ++ queue st = arrived.
Proof.
  assert (keeps_up nats_matches stream_start brisk_client) as Hk by (vm_compute; repeat split; lia).
  split; [exact Hk|]. pose proof (stream_ordered nats_matches brisk_client) as H.
  destruct (stream_run nats_matches stream_start brisk_client) as [st arrived] eqn:Hrun.
  assert (sent st = [("telemetry.processed"%string, VInt 1)] /\ length arrived = 3%nat) as [Hs Ha] by (vm_compute in Hrun; injection Hrun as <- <-; split; reflexivity).
  split; [exact Hs|]. split; [exact Ha|]. exact (proj2 (proj2 H) Hk).
Defined.
End MissionReads.
