(* ===== verification/CommandPath.v ===== *)
(** * The command path: API, dispatcher, spacecraft, ingest and processor together

    One system of the services of the spacecraft link.  The bus delivers any message any number of times,
    in any order; the radio links do the same with datagrams, or lose them; every call of a ground service
    may be refused or lose its answer.  The theorems hold for all such runs. *)
From S2P Require Import Prelude PyFloat SpacePacket Commands PyObject PyEffect Spacecraft Link Ingest Processor Advisor Dispatcher MissionApi.

Open Scope Z_scope.

Module CommandPath.
Import SpacePacket.

Record System := mk_system { ground : Ground; sim : Spacecraft.Simulator }.

(** One delivery: messages and datagrams are named by their position among all those ever sent. *)
Inductive step :=
| Request (r : MissionApi.CommandRequest) (x_operator_token x_command_arm : option string)
| Dispatch (i : nat) (now_ns : Z)
| Uplink (i : nat) (now_ns : Z)
| Downlink (i : nat) (source : string) (received_ns latency_ns : Z)
| Round (tick : Z) (r : Spacecraft.Reading)
| Consume (i : nat)
| Advise (i : nat) (complete : value -> Advisor.reply).

Section Path.
Context (anomaly_every : Z) (str_of : value -> string)
  (dumps_sorted : value -> string) (describe : exn -> string) (model target operator_token arm_token : string).

(** The subscriptions of the services. *)
Definition consume (msg : Message) : link unit :=
  if String.eqb (subject msg) "telemetry.health" then Processor.process_health msg
  else if String.eqb (subject msg) "telemetry.command_ack" then Processor.process_ack msg
  else if String.eqb (subject msg) "commands.status" then Processor.process_status str_of msg
  else mret tt.
Definition receive_dispatch (msg : Message) (now_ns : Z) : link unit :=
  if String.eqb (subject msg) "commands.dispatch" then Dispatcher.dispatch str_of describe target msg now_ns
  else mret tt.
Definition receive_alert (msg : Message) (complete : value -> Advisor.reply) : link unit :=
  if String.prefix "alerts." (subject msg) then Advisor.advise dumps_sorted model msg complete else mret tt.

(** A step of a ground service. *)
Definition ground_step (e : step) (s : System) : link unit :=
  match e with
  | Request r token arm => MissionApi.create_command operator_token arm_token r token arm ;; mret tt
  | Dispatch i now => match bus (ground s) !! i with Some msg => receive_dispatch msg now | None => mret tt end
  | Downlink i source t1 t2 =>
      match Spacecraft.radio (sim s) !! i with Some raw => Ingest._process raw source t1 t2 | None => mret tt end
  | Consume i => match bus (ground s) !! i with Some msg => consume msg | None => mret tt end
  | Advise i complete => match bus (ground s) !! i with Some msg => receive_alert msg complete | None => mret tt end
  | Uplink _ _ | Round _ _ => mret tt
  end.

(** A step of the spacecraft. *)
Definition craft_step (e : step) (s : System) : Spacecraft.sim unit :=
  match e with
  | Uplink i now => match uplink (ground s) !! i with Some raw => Spacecraft.datagram_received raw now | None => mret tt end
  | Round tick r => Spacecraft.telemetry_round anomaly_every tick r
  | _ => mret tt
  end.

(** A step with the fates of its calls. *)
Definition advance (s : System) (e : step * list fate) : System :=
  mk_system (ground_step e.1 s (with_faults e.2 (ground s))).2 (craft_step e.1 s (sim s)).2.

Definition initial : System := mk_system (empty_ground []) Spacecraft.started.
Definition run (steps : list (step * list fate)) : System := foldl advance initial steps.

(** ** Invariant *)

(** The tables' row of a live command for which [d] is the definition. *)
Definition live (g : Ground) (id op arg : Z) : Prop :=
  exists row d, commands (tables g) !! id = Some row /\ row_dry_run row = false /\
    Commands.COMMANDS !! row_name row = Some d /\ op = Commands.opcode d /\ arg = row_argument row /\
    Commands.minimum d <= arg <= Commands.maximum d.

Abbreviation results := (gmap Z CommandAck).

Definition status_ok (res : results) (id : Z) (row : CommandRow) : Prop :=
  if row_dry_run row then row_status row = "DRY_RUN_VALIDATED"
  else row_status row ∈ ["QUEUED"; "DISPATCHED"; "DISPATCH_ERROR"] \/
    (row_status row = "ACKED" /\ is_Some (res !! id)).

(** Rows have been assigned identifiers, and live ones come from an authorised request. *)
Definition rows_ok (auth : MissionApi.CommandRequest -> Prop) (res : results) (g : Ground) : Prop :=
  map_Forall (fun id row => id < next_command (tables g) /\ status_ok res id row /\
    (row_dry_run row = false -> (exists op, live g id op (row_argument row)) /\
       exists r, auth r /\ MissionApi.name r = row_name row /\ MissionApi.argument r = row_argument row))
    (commands (tables g)).

Definition status_event (id : Z) (v : value) : Prop :=
  v = Dispatcher.dispatched target id \/ exists e, v = Dispatcher.dispatch_error describe id e.

Definition message_ok (res : results) (g : Ground) (m : Message) : Prop :=
  (subject m = "commands.dispatch" -> exists id r d, data m = Some (MissionApi.dispatch_event id r d) /\
     live g id (Commands.opcode d) (MissionApi.argument r)) /\
  (subject m = "telemetry.command_ack" -> exists p t src a, data m = Some (Ingest.envelope p t src (Ingest.ack_data a)) /\
     res !! ack_command_id a = Some a) /\
  (subject m = "commands.status" -> exists id v op arg, data m = Some v /\ status_event id v /\ live g id op arg).

Definition uplink_ok (g : Ground) (raw : bytes) : Prop :=
  exists f, encode_command f = Ok raw /\ live g (command_id f) (opcode f) (argument f).

(** What the ground holds is consistent with the acknowledgements that the spacecraft remembers. *)
Record ground_ok (auth : MissionApi.CommandRequest -> Prop) (res : results) (g : Ground) : Prop := mk_ground_ok {
  ok_rows : rows_ok auth res g;
  ok_bus : Forall (message_ok res g) (bus g);
  ok_uplink : Forall (uplink_ok g) (uplink g);
  ok_results : map_Forall (fun id a => ack_command_id a = id /\ status a = 0 /\ exists op, live g id op (applied_value a)) res;
  ok_next : 1 <= next_command (tables g)
}.

(** Only acknowledgements that the spacecraft remembers are in the radio's datagrams. *)
Definition radio_ok (res : results) (raw : bytes) : Prop :=
  forall p a, decode_space_packet raw = Ok p -> decode_ack p = Ok a -> res !! ack_command_id a = Some a.

Definition system_ok (auth : MissionApi.CommandRequest -> Prop) (s : System) : Prop :=
  let res := Spacecraft.command_results (Spacecraft.craft (sim s)) in
  ground_ok auth res (ground s) /\ Forall (radio_ok res) (Spacecraft.radio (sim s)).

(** ** Changes that keep the invariant *)

(** Rows keep their command; rows are not removed. *)
Definition rows_kept (g g' : Ground) : Prop :=
  forall id row, commands (tables g) !! id = Some row -> exists row', commands (tables g') !! id = Some row' /\
    row_name row' = row_name row /\ row_argument row' = row_argument row /\ row_dry_run row' = row_dry_run row.

Lemma live_kept g g' id op arg : rows_kept g g' -> live g id op arg -> live g' id op arg.
Proof.
  intros Hk (row & d & Hr & Hd & Hc & -> & -> & Hb). destruct (Hk id row Hr) as (row' & Hr' & Hn & Ha & Hdry).
  exists row', d. rewrite Hn, Ha, Hdry. split_and!; done || lia.
Qed.

Lemma message_ok_kept res g g' m : rows_kept g g' -> message_ok res g m -> message_ok res g' m.
Proof.
  intros Hk (Hd & Ha & Hs). split; [|split; [exact Ha|]].
  - intros H. destruct (Hd H) as (id & r & d & He & Hl). exists id, r, d. split; [done|]. by eapply live_kept.
  - intros H. destruct (Hs H) as (id & v & op & arg & He & Hv & Hl). exists id, v, op, arg. split; [done|]. split; [done|]. by eapply live_kept.
Qed.

Lemma uplink_ok_kept g g' raw : rows_kept g g' -> uplink_ok g raw -> uplink_ok g' raw.
Proof. intros Hk (f & He & Hl). exists f. split; [done|]. by eapply live_kept. Qed.

(** A change that leaves the commands alone and appends good messages and datagrams. *)
Lemma ground_ok_append auth res g g' msgs raws :
  ground_ok auth res g -> commands (tables g') = commands (tables g) -> next_command (tables g') = next_command (tables g) ->
  bus g' = bus g ++ msgs -> uplink g' = uplink g ++ raws ->
  Forall (message_ok res g) msgs -> Forall (uplink_ok g) raws -> ground_ok auth res g'.
Proof.
  intros [Hr Hb Hu Ha Hx] Hc Hn Hbus Hup Hm Hd.
  assert (rows_kept g g') as Hk by (intros id row Hrow; rewrite Hc; by exists row).
  split.
  - intros id row. rewrite Hc, Hn. intros Hrow. destruct (Hr id row Hrow) as (Hlt & Hst & Hl). split; [done|]. split; [done|].
    intros Hdry. destruct (Hl Hdry) as [[op Hlive] Hreq]. split; [|done]. exists op. by eapply live_kept.
  - rewrite Hbus. apply Forall_app. split; (eapply Forall_impl; [eassumption|]; intros m; by apply message_ok_kept).
  - rewrite Hup. apply Forall_app. split; (eapply Forall_impl; [eassumption|]; intros m; by apply uplink_ok_kept).
  - intros id a Hres. destruct (Ha id a Hres) as (Hi & Hs & op & Hl). split; [done|]. split; [done|]. exists op. by eapply live_kept.
  - by rewrite Hn.
Qed.

(** More remembered acknowledgements, of live commands. *)
Lemma ground_ok_results auth res res' g :
  ground_ok auth res g -> res ⊆ res' ->
  map_Forall (fun id a => ack_command_id a = id /\ status a = 0 /\ exists op, live g id op (applied_value a)) res' ->
  ground_ok auth res' g.
Proof.
  intros [Hr Hb Hu Ha Hx] Hsub Hnew. split; [| |done..].
  - intros id row Hrow. destruct (Hr id row Hrow) as (Hlt & Hst & Hl). split; [done|]. split; [|done].
    unfold status_ok in *. destruct (row_dry_run row); [done|]. destruct Hst as [|[Hack [a Hres]]]; [by left|right].
    split; [done|]. exists a. by eapply lookup_weaken.
  - eapply Forall_impl; [exact Hb|]. intros m (Hd & Hk & Hs). split; [done|]. split; [|done].
    intros H. destruct (Hk H) as (p & t & src & a & He & Hres). exists p, t, src, a. split; [done|]. by eapply lookup_weaken.
Qed.

Definition with_status (id : Z) (row : CommandRow) (status : string) (detail : option string) : Ground -> Ground :=
  with_tables (fun t => mk_tables (telemetry_health t) (alerts t)
    (<[id := set_row_status status detail row]> (commands t)) (next_command t) (audit_events t)).

Lemma with_status_kept g id row status detail :
  commands (tables g) !! id = Some row -> rows_kept g (with_status id row status detail g).
Proof.
  intros Hrow id' row' Hrow'. change (commands (tables (with_status id row status detail g)))
    with (<[id := set_row_status status detail row]> (commands (tables g))).
  destruct (decide (id' = id)) as [->|Hne].
  - exists (set_row_status status detail row). rewrite lookup_insert_eq. assert (row' = row) as -> by congruence. done.
  - exists row'. by rewrite lookup_insert_ne.
Qed.

(** A command's status changes to one that its row may have. *)
Lemma ground_ok_status auth res g id row status detail :
  ground_ok auth res g -> commands (tables g) !! id = Some row -> status_ok res id (set_row_status status detail row) ->
  ground_ok auth res (with_status id row status detail g).
Proof.
  intros [Hr Hb Hu Ha Hx] Hrow Hst. pose proof (with_status_kept g id row status detail Hrow) as Hk.
  split.
  - intros id' row' Hrow'. cbn in Hrow'. destruct (decide (id' = id)) as [->|Hne].
    + rewrite lookup_insert_eq in Hrow'. injection Hrow' as <-. destruct (Hr id row Hrow) as (Hlt & _ & Hl).
      split; [done|]. split; [done|]. intros Hdry. destruct (Hl Hdry) as [[op Hlive] Hreq]. split; [|done]. exists op. by eapply live_kept.
    + rewrite lookup_insert_ne in Hrow' by done. destruct (Hr id' row' Hrow') as (Hlt & Hst' & Hl).
      split; [done|]. split; [done|]. intros Hdry. destruct (Hl Hdry) as [[op Hlive] Hreq]. split; [|done]. exists op. by eapply live_kept.
  - eapply Forall_impl; [exact Hb|]. intros m. by apply message_ok_kept.
  - eapply Forall_impl; [exact Hu|]. intros m. by apply uplink_ok_kept.
  - intros i a Hres. destruct (Ha i a Hres) as (Hi & Hs & op & Hl). split; [done|]. split; [done|]. exists op. by eapply live_kept.
  - done.
Qed.

(** ** Handlers that keep the invariant, together with a fact [P] about the rows *)

Section Keeping.
Context (auth : MissionApi.CommandRequest -> Prop) (res : results) (P : Ground -> Prop)
  (stable : forall g g', rows_kept g g' -> P g -> P g').

Definition Keep (g g' : Ground) : Prop := ground_ok auth res g /\ P g -> ground_ok auth res g' /\ P g'.

#[export] Instance Keep_preorder : PreOrder Keep.
Proof. split; unfold Keep; [intros g H; exact H|]. intros x y z Hxy Hyz H. exact (Hyz (Hxy H)). Qed.

Lemma same_rows_kept g g' : commands (tables g') = commands (tables g) -> rows_kept g g'.
Proof. intros Hc id row Hrow. rewrite Hc. by exists row. Qed.

Lemma Keep_append g g' msgs raws :
  commands (tables g') = commands (tables g) -> next_command (tables g') = next_command (tables g) ->
  bus g' = bus g ++ msgs -> uplink g' = uplink g ++ raws ->
  (ground_ok auth res g -> P g -> Forall (message_ok res g) msgs /\ Forall (uplink_ok g) raws) -> Keep g g'.
Proof.
  intros Hc Hn Hb Hu Hgood [Hok HP]. destruct (Hgood Hok HP) as [Hm Hr]. split; [by eapply ground_ok_append|].
  eapply stable; [by apply same_rows_kept|done].
Qed.

Lemma Keep_quiet g g' :
  commands (tables g') = commands (tables g) -> next_command (tables g') = next_command (tables g) ->
  bus g' = bus g -> uplink g' = uplink g -> Keep g g'.
Proof. intros Hc Hn Hb Hu. apply (Keep_append g g' [] []); rewrite ?app_nil_r; try done. Qed.

Lemma keeps_external_ground {A} (m : link A) : keeps Keep m -> keeps Keep (external m).
Proof. apply keeps_external; [apply _|]. intros g fs. by apply Keep_quiet. Qed.

Lemma keeps_publish subj v :
  (forall g, ground_ok auth res g -> P g -> message_ok res g (mk_message subj (Some v))) -> keeps Keep (publish subj v).
Proof.
  intros Hm. apply keeps_external_ground, keeps_modify. intros g.
  apply (Keep_append _ _ [mk_message subj (Some v)] []); cbn; rewrite ?app_nil_r; try done.
  intros Hok HP. split; [|done]. constructor; [by apply Hm|done].
Qed.

Lemma message_ok_other g subj v :
  subj <> "commands.dispatch" -> subj <> "telemetry.command_ack" -> subj <> "commands.status" ->
  message_ok res g (mk_message subj v).
Proof. intros H1 H2 H3. split_and!; intros H; by destruct (H1 H) || by destruct (H2 H) || by destruct (H3 H). Qed.

Lemma keeps_sendto raw : (forall g, P g -> uplink_ok g raw) -> keeps Keep (uplink_sendto raw).
Proof.
  intros Hr. apply keeps_external_ground, keeps_modify. intros g. apply (Keep_append _ _ [] [raw]); cbn; rewrite ?app_nil_r; try done.
  intros _ HP. split; [done|]. constructor; [by apply Hr|done].
Qed.

Lemma keeps_checked b : keeps Keep (checked b).
Proof. unfold checked. destruct b; [apply keeps_ret|apply keeps_throw]; apply _. Qed.

Lemma keeps_update_command st detail id :
  (forall g row, ground_ok auth res g -> P g -> commands (tables g) !! id = Some row -> status_ok res id (set_row_status st detail row)) ->
  keeps Keep (update_command st detail id).
Proof.
  intros Hst. unfold update_command. apply keeps_bind; [apply _|apply keeps_checked|intros _].
  apply keeps_external_ground. intros g. rewrite run_eff_bind. cbn [get].
  destruct (commands (tables g) !! id) as [row|] eqn:Hrow; [|cbn; reflexivity].
  intros [Hok HP]. cbn. pose proof (ground_ok_status auth res g id row st detail Hok Hrow (Hst g row Hok HP Hrow)) as Hok'.
  split; [exact Hok'|]. eapply stable; [by apply (with_status_kept g id row st detail)|exact HP].
Qed.
End Keeping.

Ltac keep_ground :=
  repeat first
    [ apply keeps_checked
    | apply keeps_publish; [by auto|intros ? ? ?; first [by apply message_ok_other|idtac]]
    | apply keeps_update_command; [by auto|intros ? ? ? ? ?]
    | apply keeps_sendto; [by auto|]
    | apply keeps_external_ground; [by auto|]
    | keep_step ltac:(by apply Keep_quiet) ].

(** A message that the processor takes for telemetry only adds rows and messages. *)
Lemma health_keeps auth res msg : keeps (Keep auth res (fun _ => True)) (Processor.process_health msg).
Proof.
  unfold Processor.process_health, Processor.or_nak, Processor.int_at, Processor.float_at, acquire, insert_health, checked, count, ack, nak.
  keep_ground.
Qed.

(** Whatever the language model answers. *)
Lemma advise_keeps auth res msg complete :
  keeps (Keep auth res (fun _ => True)) (Advisor.advise dumps_sorted model msg complete).
Proof. unfold Advisor.advise, count, ack, nak. keep_ground. Qed.

(** A fact without the rows is stable. *)
Lemma Keep_true auth res {A} (m : link A) g :
  keeps (Keep auth res (fun _ => True)) m -> ground_ok auth res g -> ground_ok auth res (m g).2.
Proof. intros Hk Hok. by destruct (Hk g (conj Hok I)). Qed.

Lemma live_status_ok res id g row status detail op arg :
  live g id op arg -> commands (tables g) !! id = Some row ->
  status ∈ ["DISPATCHED"; "DISPATCH_ERROR"] \/ (status = "ACKED" /\ is_Some (res !! id)) ->
  status_ok res id (set_row_status status detail row).
Proof.
  intros (row' & d & Hr & Hd & _) Hrow Hst. assert (row' = row) as -> by congruence.
  unfold status_ok. cbn. rewrite Hd. destruct Hst as [Hst|Hst]; [left; by right|by right].
Qed.

(** Members of the events that the services publish. *)
Lemma envelope_data p t src v : subscript (Ingest.envelope p t src v) "data" = Ok v.
Proof. reflexivity. Qed.
Lemma ack_data_id a : subscript (Ingest.ack_data a) "command_id" ≫= int_of = Ok (ack_command_id a).
Proof. reflexivity. Qed.
Lemma ack_data_status a : subscript (Ingest.ack_data a) "status" ≫= int_of = Ok (status a).
Proof. reflexivity. Qed.
Lemma event_id id v : status_event id v -> subscript v "command_id" ≫= int_of = Ok id.
Proof. by intros [->|[e ->]]. Qed.
Lemma event_status id v w : status_event id v -> subscript v "status" = Ok w -> w = VStr "DISPATCHED" \/ w = VStr "DISPATCH_ERROR".
Proof. intros [->|[e ->]] [= <-]; [by left|by right]. Qed.
Lemma dispatch_id id r d : subscript (MissionApi.dispatch_event id r d) "command_id" ≫= int_of = Ok id.
Proof. reflexivity. Qed.
Lemma dispatch_fields id r d :
  let v := MissionApi.dispatch_event id r d in
  subscript v "name" = Ok (VStr (MissionApi.name r)) /\ subscript v "command_id" ≫= int_of = Ok id /\
  subscript v "opcode" ≫= int_of = Ok (Commands.opcode d) /\ subscript v "argument" ≫= int_of = Ok (MissionApi.argument r).
Proof. by split_and!. Qed.

Ltac known_fields :=
  repeat match goal with
  | H : subscript (Ingest.envelope _ _ _ _) _ = _ |- _ => rewrite envelope_data in H; injection H as <-
  | H : subscript (Ingest.ack_data _) _ ≫= _ = _ |- _ =>
      first [rewrite ack_data_id in H | rewrite ack_data_status in H]; injection H as <-
  | H : subscript (MissionApi.dispatch_event _ _ _) "command_id" ≫= _ = _ |- _ => rewrite dispatch_id in H; injection H as <-
  | Hv : status_event _ ?v, H : subscript ?v _ ≫= _ = _ |- _ => rewrite (event_id _ _ Hv) in H; injection H as <-
  end.

Lemma processor_ack_keeps auth res msg p t src a :
  data msg = Some (Ingest.envelope p t src (Ingest.ack_data a)) -> res !! ack_command_id a = Some a ->
  keeps (Keep auth res (fun _ => True)) (Processor.process_ack msg).
Proof.
  intros Hdata Hres.
  unfold Processor.process_ack, Processor.or_nak, Processor.int_at, acquire, insert_audit, count, ack, nak, loads. rewrite Hdata.
  keep_ground; simplify_eq; known_fields;
    match goal with H : ground_ok _ _ _ |- _ => destruct (ok_results _ _ _ H _ _ Hres) as (_ & Hst & op & Hlive) end.
  - eapply live_status_ok; [done|done|]. right. by split; [|exists a].
  - match goal with H : (status a =? 0) = false |- _ => rewrite Hst in H; discriminate H end.
Qed.

Lemma processor_status_keeps auth res msg id v op arg :
  data msg = Some v -> status_event id v ->
  keeps (Keep auth res (fun g => live g id op arg)) (Processor.process_status str_of msg).
Proof.
  intros Hdata Hv. assert (forall g g', rows_kept g g' -> live g id op arg -> live g' id op arg) as Hstable by (intros g g'; apply live_kept).
  unfold Processor.process_status, Processor.or_nak, Processor.int_at, acquire, insert_audit, count, ack, nak, loads. rewrite Hdata.
  keep_ground; simplify_eq; known_fields.
  match goal with Hv : status_event _ ?w, H : subscript ?w "status" = Ok _ |- _ => destruct (event_status _ _ _ Hv H) as [-> | ->] end; simplify_eq/=;
    (eapply live_status_ok; [done|done|]; left; set_solver).
Qed.

(** The dispatcher sends what the event says. *)
Lemma dispatch_keeps auth res msg id r d now :
  data msg = Some (MissionApi.dispatch_event id r d) ->
  keeps (Keep auth res (fun g => live g id (Commands.opcode d) (MissionApi.argument r)))
    (Dispatcher.dispatch str_of describe target msg now).
Proof.
  intros Hdata. set (P := fun g => live g id _ _). destruct (dispatch_fields id r d) as (Hname & Hid & Hop & Harg).
  assert (forall g g', rows_kept g g' -> P g -> P g') as Hstable by (intros g g'; apply live_kept).
  assert (forall v g, status_event id v -> P g -> message_ok res g (mk_message "commands.status" (Some v))) as Hevent.
  { intros v g Hv HP. split; [done|]. split; [done|]. intros _. by exists id, v, (Commands.opcode d), (MissionApi.argument r). }
  unfold Dispatcher.dispatch, loads. rewrite Hdata. cbn [mbind result_bind]. rewrite Hname. cbn [mbind result_bind].
  apply keeps_try; [by apply Keep_preorder| |intros e].
  - unfold Dispatcher.send_command, Dispatcher.int_field, count, ack. rewrite Hid, Hop, Harg. keep_ground; simplify_eq.
    + intros g HP. match goal with H : of_packet ?m = Ok _ |- _ => destruct m as [raw|] eqn:He; [|discriminate H]; injection H as <- end.
      eexists. by split; [exact He|].
    + apply Hevent; [by left|done].
  - unfold Dispatcher.dispatch_failed, Dispatcher.int_field, loads, count, nak. rewrite Hdata. keep_ground; simplify_eq.
    apply Hevent; [|done]. right. known_fields. by eexists.
Qed.

Lemma true_stable (g g' : Ground) : rows_kept g g' -> True -> True.
Proof. done. Qed.

(** Only acknowledgements of the spacecraft reach the bus. *)
Lemma ingest_keeps auth res raw source t1 t2 :
  radio_ok res raw -> keeps (Keep auth res (fun _ => True)) (Ingest._process raw source t1 t2).
Proof.
  intros Hr. unfold Ingest._process, count. keep_ground.
  match goal with H : of_packet (decode_space_packet raw) = Ok ?p, H' : of_packet (decode_ack ?p) = Ok ?a |- _ =>
    destruct (decode_space_packet raw) as [p'|] eqn:Hp; [|discriminate H]; injection H as ->;
    destruct (decode_ack p) as [a'|] eqn:Ha; [|discriminate H']; injection H' as ->;
    split; [done|]; split; [|done]; intros _; exists p, t1, source, a; split; [done|exact (Hr p a Hp Ha)] end.
Qed.

(** ** The command route *)

Definition row_valid (auth : MissionApi.CommandRequest -> Prop) (op : Z) (row : CommandRow) : Prop :=
  if row_dry_run row then row_status row = "DRY_RUN_VALIDATED"
  else row_status row = "QUEUED" /\
    (exists d, Commands.COMMANDS !! row_name row = Some d /\ op = Commands.opcode d /\
       Commands.minimum d <= row_argument row <= Commands.maximum d) /\
    exists r, auth r /\ MissionApi.name r = row_name row /\ MissionApi.argument r = row_argument row.

Definition with_row (row : CommandRow) (g : Ground) : Ground :=
  with_tables (fun t => mk_tables (telemetry_health t) (alerts t) (<[next_command (tables g) := row]> (commands t))
    (next_command (tables g) + 1) (audit_events t)) g.

Lemma row_ok_kept (auth : MissionApi.CommandRequest -> Prop) g g' id row :
  rows_kept g g' ->
  (row_dry_run row = false -> (exists op, live g id op (row_argument row)) /\
     exists r, auth r /\ MissionApi.name r = row_name row /\ MissionApi.argument r = row_argument row) ->
  row_dry_run row = false -> (exists op, live g' id op (row_argument row)) /\
     exists r, auth r /\ MissionApi.name r = row_name row /\ MissionApi.argument r = row_argument row.
Proof. intros Hk Hl Hdry. destruct (Hl Hdry) as [[op Hlive] Hreq]. split; [|done]. exists op. by eapply live_kept. Qed.

Lemma insert_row_ok auth res op row g :
  row_valid auth op row -> ground_ok auth res g ->
  ground_ok auth res (with_row row g) /\
  (row_dry_run row = false -> live (with_row row g) (next_command (tables g)) op (row_argument row)).
Proof.
  intros Hv [Hr Hb Hu Ha Hx]. set (id := next_command (tables g)).
  assert (commands (tables g) !! id = None) as Hnew.
  { destruct (commands (tables g) !! id) as [row'|] eqn:He; [|done]. destruct (Hr id row' He) as (Hlt & _). unfold id in Hlt. lia. }
  assert (rows_kept g (with_row row g)) as Hk.
  { intros id' row' Hrow'. exists row'. split; [|done]. cbn. rewrite lookup_insert_ne; [done|]. intros <-. unfold id in Hnew. congruence. }
  assert (row_dry_run row = false -> live (with_row row g) id op (row_argument row)) as Hlive.
  { intros Hdry. unfold row_valid in Hv. rewrite Hdry in Hv. destruct Hv as (_ & (d & Hd & Hop & Hb') & _).
    exists row, d. cbn. rewrite lookup_insert_eq. do 5 (split; [done|]). exact Hb'. }
  split; [|exact Hlive]. split.
  - intros id' row' Hrow'. cbn in Hrow'. change (next_command (tables (with_row row g))) with (id + 1).
    destruct (decide (id' = id)) as [->|Hne].
    + rewrite lookup_insert_eq in Hrow'. injection Hrow' as <-. split; [lia|]. unfold status_ok, row_valid in *.
      destruct (row_dry_run row); [by split|]. destruct Hv as (-> & _ & Hreq). split; [left; left|]. intros _.
      split; [|exact Hreq]. exists op. by apply Hlive.
    + rewrite lookup_insert_ne in Hrow' by done. destruct (Hr id' row' Hrow') as (Hlt & Hst & Hl).
      split; [unfold id; lia|]. split; [done|]. by apply (row_ok_kept auth g).
  - eapply Forall_impl; [exact Hb|]. intros m. by apply message_ok_kept.
  - eapply Forall_impl; [exact Hu|]. intros m. by apply uplink_ok_kept.
  - intros i a Hres. destruct (Ha i a Hres) as (Hi & Hs & op' & Hl). split; [done|]. split; [done|]. exists op'. by eapply live_kept.
  - cbn. lia.
Qed.

Lemma keeps_insert auth res op row {B} (k : Z -> link B) :
  row_valid auth op row ->
  (forall id, keeps (Keep auth res (fun g => row_dry_run row = false -> live g id op (row_argument row))) (k id)) ->
  keeps (Keep auth res (fun _ => True)) (insert_command row ≫= k).
Proof.
  intros Hv Hk g [Hok _]. rewrite run_eff_bind. unfold insert_command. rewrite run_eff_bind. unfold checked.
  destruct (int32 (row_argument row)); [|by split]. cbn [mret eff_ret].
  assert (forall g, ground_ok auth res g -> ground_ok auth res (k (next_command (tables g)) (with_row row g)).2) as Hrun.
  { intros g1 Hok1. destruct (insert_row_ok auth res op row g1 Hv Hok1) as [Hok2 Hl2]. by destruct (Hk _ _ (conj Hok2 Hl2)). }
  assert (forall fs, ground_ok auth res (with_faults fs g)) as Hf.
  { intros fs. destruct (Keep_quiet auth res (fun _ => True) true_stable g (with_faults fs g)) as [H _]; by auto. }
  unfold external. destruct (faults g) as [|[] fs].
  - split; [by apply Hrun|done].
  - split; [by apply (Hrun (with_faults fs g))|done].
  - split; [apply Hf|done].
  - split; [|done]. by destruct (insert_row_ok auth res op row (with_faults fs g) Hv (Hf fs)).
Qed.

Lemma keeps_check_tokens auth res token arm {B} (k : link B) :
  (token = Some operator_token -> arm = Some arm_token -> keeps (Keep auth res (fun _ => True)) k) ->
  keeps (Keep auth res (fun _ => True)) (MissionApi.check_tokens operator_token arm_token token arm ;; k).
Proof.
  intros Hk. assert (forall l n g, Keep auth res (fun _ => True) g (count l n g).2) as Hc
    by (intros l n g; apply Keep_quiet; [apply true_stable|done..]).
  unfold MissionApi.check_tokens. destruct (bool_decide (token = Some operator_token)) eqn:Ht; [|intros g; apply Hc].
  destruct (bool_decide (arm = Some arm_token)) eqn:Ha; [|intros g; apply Hc].
  bool_to_prop. intros g. by apply Hk.
Qed.

Lemma create_command_keeps auth res r token arm :
  (MissionApi.dry_run r = false -> token = Some operator_token -> arm = Some arm_token -> auth r) ->
  keeps (Keep auth res (fun _ => True)) (MissionApi.create_command operator_token arm_token r token arm).
Proof.
  intros Hauth. unfold MissionApi.create_command.
  destruct (Commands.validate_command (MissionApi.name r) (MissionApi.argument r)) as [d|[m]] eqn:Hd.
  2: { intros g. rewrite run_eff_bind. apply (Keep_quiet auth res (fun _ => True) true_stable); done. }
  apply Commands.validate_command_ok in Hd as [Hd Hrange].
  apply (keeps_lift_bind (Keep auth res (fun _ => True)) (Ok d)). intros a [= <-].
  match goal with |- keeps _ (_ ;; ?k) => set (rest := k) end.
  assert ((MissionApi.dry_run r = false -> auth r) -> keeps (Keep auth res (fun _ => True)) rest) as Hrest.
  { intros Ha. unfold rest, acquire. apply keeps_bind; [apply _| |intros _].
    { apply keeps_external_ground; [apply true_stable|]. apply keeps_ret, _. }
    apply (keeps_insert auth res (Commands.opcode d)).
    - unfold row_valid. cbn. destruct (MissionApi.dry_run r); [done|]. split; [done|]. split; [by exists d|]. exists r. by split; [apply Ha|].
    - intros id. unfold insert_audit, count. cbn [row_dry_run row_argument].
      assert (forall g g', rows_kept g g' -> (MissionApi.dry_run r = false -> live g id (Commands.opcode d) (MissionApi.argument r)) ->
        MissionApi.dry_run r = false -> live g' id (Commands.opcode d) (MissionApi.argument r)) as Hstable
        by (intros g g' Hk Hl Hdry; eapply live_kept; [done|by apply Hl]).
      keep_ground. split; [|by split]. intros _. exists id, r, d. by split; [|auto]. }
  destruct (MissionApi.dry_run r) eqn:Hdry.
  - apply (keeps_lift_bind (Keep auth res (fun _ => True)) (Ok tt)). intros a _. by apply Hrest.
  - apply keeps_check_tokens. intros Ht Harm. apply Hrest. intros _. by apply Hauth.
Qed.

(** ** The spacecraft *)

Lemma live_allowed g f : live g (command_id f) (opcode f) (argument f) -> Spacecraft.allowed f = true.
Proof.
  intros (row & d & _ & _ & Hd & Hop & _ & Hb). unfold Spacecraft.allowed.
  assert (Commands.OPCODE_TO_NAME !! opcode f = Some (row_name row)) as ->.
  { apply Commands.OPCODE_TO_NAME_cases. rewrite Hop.
    apply Commands.COMMANDS_cases in Hd as [[-> ->]|[[-> ->]|[-> ->]]]; cbn; auto. }
  by rewrite (proj2 (Commands.validate_command_ok _ _ d)).
Qed.

Lemma radio_ok_weaken res res' raw : res ⊆ res' -> radio_ok res raw -> radio_ok res' raw.
Proof. intros Hsub Hr p a Hp Ha. eapply lookup_weaken; [by apply (Hr p a)|done]. Qed.

Abbreviation sim_results s := (Spacecraft.command_results (Spacecraft.craft s)).

(** A received command of the uplink: remembered, positive, and answered by its acknowledgement only. *)
Lemma uplink_step auth g s raw now :
  ground_ok auth (sim_results s) g -> Forall (radio_ok (sim_results s)) (Spacecraft.radio s) -> uplink_ok g raw ->
  let s' := (Spacecraft.datagram_received raw now s).2 in
  ground_ok auth (sim_results s') g /\ Forall (radio_ok (sim_results s')) (Spacecraft.radio s').
Proof.
  intros Hok Hr (f & He & Hlive) s'.
  pose proof (Spacecraft.datagram_craft raw now s) as (_ & _ & _ & Hres). fold s' in Hres.
  pose proof (Spacecraft.datagram_radio raw now s) as Hradio. fold s' in Hradio.
  rewrite Spacecraft.apply_run in Hres, Hradio. apply decode_command_ok in He. rewrite He in Hres, Hradio.
  assert (sim_results s ⊆ sim_results s' /\
    map_Forall (fun id a => ack_command_id a = id /\ status a = 0 /\ exists op, live g id op (applied_value a)) (sim_results s') /\
    forall a, (match sim_results s !! command_id f with Some c => c | None => Spacecraft.answer f now end) = a ->
      sim_results s' !! ack_command_id a = Some a) as (Hsub & Hnew & Hans).
  { destruct (sim_results s !! command_id f) as [c|] eqn:Hc; cbn [fst snd] in Hres.
    - rewrite Hres. split; [done|]. split; [apply (ok_results _ _ _ Hok)|]. intros a <-.
      destruct (ok_results _ _ _ Hok _ _ Hc) as (-> & _). done.
    - assert (sim_results s' = <[command_id f := Spacecraft.answer f now]> (sim_results s)) as ->.
      { rewrite Hres. by destruct (Spacecraft.execute_cases f) as [(_ & _ & _ & ->)|[(_ & _ & _ & ->)|[(_ & _ & _ & ->)|(_ & ->)]]]. }
      split; [by apply insert_subseteq|]. split.
      + apply map_Forall_insert_2; [|apply (ok_results _ _ _ Hok)]. unfold Spacecraft.answer. cbn.
        rewrite (live_allowed g f Hlive). split; [done|]. split; [done|]. by exists (opcode f).
      + intros a <-. cbn. by rewrite lookup_insert_eq. }
  split; [by eapply ground_ok_results|].
  assert (Forall (radio_ok (sim_results s')) (Spacecraft.radio s)) as Hold
    by (eapply Forall_impl; [exact Hr|]; intros x; by apply radio_ok_weaken).
  destruct Hradio as [->|(q & a & raw_ack & Ha & Henc & ->)]; [done|]. apply Forall_app. split; [done|]. constructor; [|constructor].
  intros p a' Hp Ha'. destruct (encode_ack_inv q a raw_ack p Henc Hp) as [_ Hd]. assert (a' = a) as -> by congruence.
  apply Hans. destruct (sim_results s !! command_id f); cbn in Ha; by injection Ha.
Qed.

Lemma round_step s tick r :
  Forall (radio_ok (sim_results s)) (Spacecraft.radio s) ->
  let s' := (Spacecraft.telemetry_round anomaly_every tick r s).2 in
  sim_results s' = sim_results s /\ Forall (radio_ok (sim_results s')) (Spacecraft.radio s').
Proof.
  intros Hr s'. pose proof (Spacecraft.round_results anomaly_every tick r s) as Hres. fold s' in Hres.
  split; [exact Hres|]. rewrite Hres. destruct (Spacecraft.round_radio anomaly_every tick r s) as [H|(q & h & raw & He & H)];
    fold s' in H; rewrite H; [done|]. apply Forall_app. split; [done|]. constructor; [|constructor].
  intros p a Hp Ha. apply decode_ack_apid in Ha. rewrite (encode_health_inv q h raw p He Hp) in Ha. discriminate Ha.
Qed.

(** ** Every step *)

(** The requests that carried both tokens. *)
Definition authorised (steps : list (step * list fate)) (r : MissionApi.CommandRequest) : Prop :=
  exists fs, (Request r (Some operator_token) (Some arm_token), fs) ∈ steps /\ MissionApi.dry_run r = false.

Lemma consume_ok auth res msg g :
  message_ok res g msg -> ground_ok auth res g -> ground_ok auth res (consume msg g).2.
Proof.
  intros (_ & Ha & Hs) Hok. unfold consume.
  destruct (String.eqb_spec (subject msg) "telemetry.health"); [by apply (Keep_true auth res), Hok; apply health_keeps|].
  destruct (String.eqb_spec (subject msg) "telemetry.command_ack") as [He|_].
  { destruct (Ha He) as (p & t & src & a & Hdata & Hres). by apply (Keep_true auth res _ _ (processor_ack_keeps _ _ _ _ _ _ _ Hdata Hres)). }
  destruct (String.eqb_spec (subject msg) "commands.status") as [He|_]; [|done].
  destruct (Hs He) as (id & v & op & arg & Hdata & Hv & Hlive).
  by destruct (processor_status_keeps auth res msg id v op arg Hdata Hv g (conj Hok Hlive)).
Qed.

Lemma receive_dispatch_ok auth res msg now g :
  message_ok res g msg -> ground_ok auth res g -> ground_ok auth res (receive_dispatch msg now g).2.
Proof.
  intros (Hd & _) Hok. unfold receive_dispatch. destruct (String.eqb_spec (subject msg) "commands.dispatch") as [He|_]; [|done].
  destruct (Hd He) as (id & r & d & Hdata & Hlive). by destruct (dispatch_keeps auth res msg id r d now Hdata g (conj Hok Hlive)).
Qed.

Lemma with_faults_ok auth res fs g : ground_ok auth res g -> ground_ok auth res (with_faults fs g).
Proof. intros Hok. by destruct (Keep_quiet auth res (fun _ => True) true_stable g (with_faults fs g)) as [H _]; auto. Qed.

Lemma ground_ok_auth (auth auth' : MissionApi.CommandRequest -> Prop) res g :
  (forall r, auth r -> auth' r) -> ground_ok auth res g -> ground_ok auth' res g.
Proof.
  intros Ha [Hr Hb Hu Hs Hx]. split; [|done..]. intros id row Hrow. destruct (Hr id row Hrow) as (Hlt & Hst & Hl).
  split; [done|]. split; [done|]. intros Hdry. destruct (Hl Hdry) as [Hlive (r & Hreq & H)]. split; [done|]. exists r. by split; [apply Ha|].
Qed.

Lemma advance_ok steps e s :
  system_ok (authorised steps) s -> system_ok (authorised (steps ++ [e])) (advance s e).
Proof.
  intros [Hok Hradio]. set (auth := authorised (steps ++ [e])).
  assert (ground_ok auth (sim_results (sim s)) (with_faults e.2 (ground s))) as Hg.
  { apply with_faults_ok. eapply ground_ok_auth; [|exact Hok]. intros r (fs & Hin & Hdry). exists fs. split; [|done]. apply elem_of_app. by left. }
  assert (Forall (message_ok (sim_results (sim s)) (with_faults e.2 (ground s))) (bus (ground s))) as Hbus by apply (ok_bus _ _ _ Hg).
  unfold advance, system_ok. cbn [ground sim]. destruct e as [[r tok arm|i now|i now|i src t1 t2|tick r|i|i complete] fs]; cbn [fst snd ground_step craft_step] in *.
  - split; [|done]. cbn [mret eff_ret snd].
    assert (keeps (Keep auth (sim_results (sim s)) (fun _ => True)) (MissionApi.create_command operator_token arm_token r tok arm ;; mret tt)) as Hk.
    { apply keeps_bind; [apply _| |intros _; apply keeps_ret, _]. apply create_command_keeps. intros Hdry -> ->.
      exists fs. split; [|done]. apply elem_of_app. right. by left. }
    by apply (Keep_true _ _ _ _ Hk).
  - split; [|done]. destruct (bus (ground s) !! i) as [msg|] eqn:Hm; [|done].
    apply receive_dispatch_ok; [|done]. by eapply Forall_lookup_1.
  - destruct (uplink (ground s) !! i) as [raw|] eqn:Hu; [|done]. cbn [mret eff_ret snd].
    apply uplink_step; [done|done|]. eapply (Forall_lookup_1 (uplink_ok (with_faults fs (ground s)))); [apply (ok_uplink _ _ _ Hg)|exact Hu].
  - split; [|done]. destruct (Spacecraft.radio (sim s) !! i) as [raw|] eqn:Hr; [|done].
    apply (Keep_true auth); [|done]. apply ingest_keeps. by eapply Forall_lookup_1.
  - destruct (round_step (sim s) tick r Hradio) as [-> Hr]. by split.
  - split; [|done]. destruct (bus (ground s) !! i) as [msg|] eqn:Hm; [|done]. apply consume_ok; [|done]. by eapply Forall_lookup_1.
  - split; [|done]. destruct (bus (ground s) !! i) as [msg|]; [|done]. unfold receive_alert. destruct (String.prefix _ _); [|done].
    by apply (Keep_true _ _ _ _ (advise_keeps auth _ msg complete)).
Qed.

Lemma initial_ok : system_ok (authorised []) initial.
Proof. by split; [split|]. Qed.

Lemma run_ok steps : system_ok (authorised steps) (run steps).
Proof.
  induction steps as [|e steps IH] using rev_ind; [apply initial_ok|]. unfold run. rewrite foldl_app. by apply advance_ok.
Qed.

(** ** One command, delivered once at every hop without faults *)

Abbreviation quiet := (with_faults []).

Lemma run_create r d g :
  Commands.validate_command (MissionApi.name r) (MissionApi.argument r) = Ok d ->
  int32 (MissionApi.argument r) = true -> MissionApi.dry_run r = false ->
  let id := next_command (tables g) in
  let g' := (MissionApi.create_command operator_token arm_token r (Some operator_token) (Some arm_token) (quiet g)).2 in
  commands (tables g') = <[id := mk_command_row (MissionApi.name r) (MissionApi.argument r) false "QUEUED" (MissionApi.operator_id r) None]>
    (commands (tables g)) /\
  bus g' = bus g ++ [mk_message "commands.dispatch" (Some (MissionApi.dispatch_event id r d))] /\ uplink g' = uplink g.
Proof.
  intros Hv Hi Hd. unfold MissionApi.create_command, MissionApi.check_tokens, insert_command, checked, row_argument. rewrite Hv, Hd, Hi.
  rewrite !bool_decide_true by done. by split_and!.
Qed.

Lemma run_dispatch id r d now raw g :
  encode_command (mk_command id (Commands.opcode d) (MissionApi.argument r) now) = Ok raw ->
  let msg := mk_message "commands.dispatch" (Some (MissionApi.dispatch_event id r d)) in
  let g' := (Dispatcher.dispatch str_of describe target msg now (quiet g)).2 in
  commands (tables g') = commands (tables g) /\
  bus g' = bus g ++ [mk_message "commands.status" (Some (Dispatcher.dispatched target id))] /\ uplink g' = uplink g ++ [raw].
Proof.
  intros He msg. destruct (dispatch_fields id r d) as (Hname & Hid & Hop & Harg).
  unfold Dispatcher.dispatch, loads, msg. cbn [data mbind result_bind]. rewrite Hname. cbn [mbind result_bind].
  erewrite try_ok; cycle 1.
  { unfold Dispatcher.send_command, Dispatcher.int_field. rewrite Hid, Hop, Harg, !run_lift_ok, He. reflexivity. }
  by split_and!.
Qed.

Lemma run_ingest_ack raw p a source t1 t2 g :
  decode_space_packet raw = Ok p -> apid p = APID_COMMAND_ACK -> decode_ack p = Ok a ->
  let g' := (Ingest._process raw source t1 t2 (quiet g)).2 in
  commands (tables g') = commands (tables g) /\
  bus g' = bus g ++ [mk_message "telemetry.command_ack" (Some (Ingest.envelope p t1 source (Ingest.ack_data a)))].
Proof.
  intros Hp Hap Ha. unfold Ingest._process. rewrite Hp. cbn [of_packet catch].
  set (body := lift (Ok p) ≫= _).
  assert (exists g', body (quiet g) = (Ok tt, g') /\ commands (tables g') = commands (tables g) /\
    bus g' = bus g ++ [mk_message "telemetry.command_ack" (Some (Ingest.envelope p t1 source (Ingest.ack_data a)))]) as (g' & Hrun & H).
  { unfold body. rewrite run_lift_ok, run_eff_bind. cbn [get]. rewrite Hap, Ha.
    destruct (Ingest.observe _ _ _) as [gaps table]. rewrite run_eff_bind. cbn [modify]. rewrite run_eff_bind.
    destruct (negb (gaps =? 0)); by eexists. }
  by rewrite (try_ok _ _ _ _ _ Hrun).
Qed.

Lemma run_update st detail id row g :
  faults g = [] -> commands (tables g) !! id = Some row -> int64 id = true ->
  update_command st detail id g = (Ok "UPDATE 1", with_status id row st detail g).
Proof.
  intros Hf Hrow Hid. unfold update_command, checked. rewrite Hid. erewrite run_bind_eq by reflexivity.
  rewrite run_external by done. rewrite run_eff_bind. cbn [get]. by rewrite Hrow.
Qed.

(** Follow a handler through calls that are served. *)
Ltac follow_run :=
  repeat first [erewrite run_lift_eq by reflexivity | erewrite run_bind_eq by reflexivity | erewrite run_bind_eq by (apply run_update; done)].

Lemma run_status id row g :
  commands (tables g) !! id = Some row -> int64 id = true ->
  let msg := mk_message "commands.status" (Some (Dispatcher.dispatched target id)) in
  let g' := (Processor.process_status str_of msg (quiet g)).2 in
  commands (tables g') = <[id := set_row_status "DISPATCHED" (Some ("UDP target " +:+ target)) row]> (commands (tables g)) /\
  bus g' = bus g.
Proof.
  intros Hrow Hid msg. unfold Processor.process_status, Processor.or_nak. erewrite try_ok; cycle 1.
  { follow_run. reflexivity. }
  by split_and!.
Qed.

Lemma run_ack id row p t src a g :
  commands (tables g) !! id = Some row -> int64 id = true -> ack_command_id a = id -> status a = 0 ->
  let msg := mk_message "telemetry.command_ack" (Some (Ingest.envelope p t src (Ingest.ack_data a))) in
  let g' := (Processor.process_ack msg (quiet g)).2 in
  commands (tables g') = <[id := set_row_status "ACKED" (Some ("spacecraft applied_value=" +:+ pretty (applied_value a))) row]>
    (commands (tables g)).
Proof.
  intros Hrow Hid <- Ha msg. unfold Processor.process_ack, Processor.or_nak. erewrite try_ok; cycle 1.
  { do 2 erewrite run_lift_eq by reflexivity. do 2 erewrite run_bind_eq by reflexivity. rewrite Ha. follow_run. reflexivity. }
  done.
Qed.

Definition sane_step (e : step * list fate) : Prop :=
  match e.1 with
  | Uplink _ now => Spacecraft.clock_ok now
  | Round tick r => Spacecraft.sane_event anomaly_every (Spacecraft.Round tick r)
  | _ => True
  end.

Lemma advance_ready s e : Spacecraft.ready (sim s) -> sane_step e -> Spacecraft.ready (sim (advance s e)).
Proof.
  intros Hr He. unfold advance, sane_step in *. cbn [sim]. destruct e as [[| |i now| |tick r| |] fs]; cbn [fst craft_step] in *; try done.
  - destruct (uplink (ground s) !! i) as [raw|]; [|done].
    exact (proj2 (Spacecraft.handle_ready anomaly_every (Spacecraft.Datagram raw now) (sim s) Hr He)).
  - exact (proj2 (Spacecraft.handle_ready anomaly_every (Spacecraft.Round tick r) (sim s) Hr He)).
Qed.

Lemma run_ready steps : Forall sane_step steps -> Spacecraft.ready (sim (run steps)).
Proof.
  induction steps as [|e steps IH] using rev_ind; intros Hf; [apply Spacecraft.started_ready|].
  apply Forall_app in Hf as [Hf [He _]%Forall_cons]. unfold run. rewrite foldl_app. apply advance_ready; [by apply IH|done].
Qed.

(** A new command that the spacecraft receives is executed and answered. *)
Lemma run_uplink f raw now s :
  Spacecraft.ready s -> Spacecraft.clock_ok now -> encode_command f = Ok raw -> Spacecraft.allowed f = true ->
  sim_results s !! command_id f = None ->
  let s' := (Spacecraft.datagram_received raw now s).2 in
  let a := mk_ack (command_id f) 0 (argument f) now in
  Spacecraft.sc_mode (Spacecraft.craft s') = (if opcode f =? 1 then argument f else Spacecraft.sc_mode (Spacecraft.craft s)) /\
  Spacecraft.sc_wheel_rpm (Spacecraft.craft s') = (if opcode f =? 2 then argument f else Spacecraft.sc_wheel_rpm (Spacecraft.craft s)) /\
  Spacecraft.sc_fault_flags (Spacecraft.craft s') = (if opcode f =? 3 then 0 else Spacecraft.sc_fault_flags (Spacecraft.craft s)) /\
  sim_results s' !! command_id f = Some a /\
  exists raw_ack p, Spacecraft.radio s' = Spacecraft.radio s ++ [raw_ack] /\ decode_space_packet raw_ack = Ok p /\
    apid p = APID_COMMAND_ACK /\ decode_ack p = Ok a.
Proof.
  intros [Hok Ht] Hn Hd%decode_command_ok Hall Hnew s' a.
  destruct (Spacecraft.datagram_cases raw now s Hok Ht Hn) as (_ & _ & _ & Hres). fold s' in Hres. rewrite Hd in Hres.
  destruct Hres as (raw_ack & p & a' & Hrad & Hp & Hap & _ & Ha & Hstored).
  pose proof (Spacecraft.datagram_craft raw now s) as (Hm & Hr & Hf & Hc). fold s' in Hm, Hr, Hf, Hc.
  clearbody s'. rewrite Spacecraft.apply_run, Hd, Hnew in Hm, Hr, Hf, Hc. cbn [snd Spacecraft.craft] in Hm, Hr, Hf, Hc.
  assert (Spacecraft.answer f now = a) as Hans by (unfold Spacecraft.answer; by rewrite Hall).
  assert (a' = a) as ->.
  { cbn in Hc. rewrite Hc, lookup_insert_eq, Hans in Hstored. by injection Hstored. }
  destruct (Spacecraft.execute_cases f) as [(_ & Ho & _ & He)|[(_ & Ho & _ & He)|[(_ & Ho & _ & He)|(Hno & _)]]]; [..|rewrite Hall in Hno; discriminate Hno];
    rewrite He in Hm, Hr, Hf; cbn in Hm, Hr, Hf; rewrite Ho; (split; [exact Hm|split; [exact Hr|split; [exact Hf|split; [exact Hstored|]]]]);
    exists raw_ack, p; (split; [exact Hrad|split; [exact Hp|split; [exact Hap|exact Ha]]]).
Qed.

(** One delivery at every hop, from the system [s] on. *)
Definition delivery (s : System) (r : MissionApi.CommandRequest) (t_dispatch t_uplink : Z) (source : string) (t1 t2 : Z)
  : list (step * list fate) :=
  let m := length (bus (ground s)) in
  [(Request r (Some operator_token) (Some arm_token), []);
   (Dispatch m t_dispatch, []);
   (Uplink (length (uplink (ground s))) t_uplink, []);
   (Downlink (length (Spacecraft.radio (sim s))) source t1 t2, []);
   (Consume (m + 1), []);
   (Consume (m + 2), [])].

Lemma run_discard {A} (m : link A) g : ((m ;; mret tt) g).2 = (m g).2.
Proof. rewrite run_eff_bind. by destruct (m g) as [[a|e] g']. Qed.

Lemma lookup_end {A} (l l' : list A) x n : length l = n -> (l ++ x :: l') !! n = Some x.
Proof. intros <-. by rewrite list_lookup_middle. Qed.

(** The ground's half: the request and its dispatch. *)
Lemma deliver_up s r d raw t_dispatch :
  Commands.validate_command (MissionApi.name r) (MissionApi.argument r) = Ok d -> MissionApi.dry_run r = false ->
  let id := next_command (tables (ground s)) in
  encode_command (mk_command id (Commands.opcode d) (MissionApi.argument r) t_dispatch) = Ok raw ->
  let s' := advance (advance s (Request r (Some operator_token) (Some arm_token), [])) (Dispatch (length (bus (ground s))) t_dispatch, []) in
  sim s' = sim s /\ uplink (ground s') = uplink (ground s) ++ [raw] /\
  (exists msg, bus (ground s') = bus (ground s) ++ [msg; mk_message "commands.status" (Some (Dispatcher.dispatched target id))]) /\
  commands (tables (ground s')) = <[id := mk_command_row (MissionApi.name r) (MissionApi.argument r) false "QUEUED" (MissionApi.operator_id r) None]>
    (commands (tables (ground s))).
Proof.
  intros Hv Hdry id He.
  assert (int32 (MissionApi.argument r) = true) as Hi.
  { apply Commands.validate_command_ok in Hv as [Hd Hb].
    apply Commands.COMMANDS_cases in Hd as [[_ ->]|[[_ ->]|[_ ->]]]; cbn in Hb; unfold int32; lia. }
  destruct (run_create r d (ground s) Hv Hi Hdry) as (Hc & Hb & Hu). fold id in Hc, Hb.
  set (s1 := advance s (Request r (Some operator_token) (Some arm_token), [])).
  assert (ground s1 = (MissionApi.create_command operator_token arm_token r (Some operator_token) (Some arm_token) (quiet (ground s))).2) as Hg1
    by apply run_discard.
  rewrite <- Hg1 in Hc, Hb, Hu. assert (sim s1 = sim s) as Hs1 by done.
  clear Hg1. clearbody s1. intros s'. rename Hc into Hc1, Hb into Hb1, Hu into Hu1.
  destruct (run_dispatch id r d t_dispatch raw (ground s1) He) as (Hc2 & Hb2 & Hu2).
  assert (sim s' = sim s1) as -> by done.
  assert (ground s' = (Dispatcher.dispatch str_of describe target
    (mk_message "commands.dispatch" (Some (MissionApi.dispatch_event id r d))) t_dispatch (quiet (ground s1))).2) as ->.
  { unfold s', advance. cbn [ground fst snd ground_step]. by rewrite Hb1, lookup_end. }
  split; [exact Hs1|]. rewrite Hc2, Hb2, Hu2, Hc1, Hb1, Hu1. split; [done|]. split; [|done]. eexists. by rewrite <- app_assoc.
Qed.

(** The way back: the acknowledgement, and the two events that the processor consumes. *)
Lemma deliver_down s id row raw p a msgs msg source t1 t2 i m :
  Spacecraft.radio (sim s) !! i = Some raw -> decode_space_packet raw = Ok p -> apid p = APID_COMMAND_ACK -> decode_ack p = Ok a ->
  ack_command_id a = id -> status a = 0 -> int64 id = true -> commands (tables (ground s)) !! id = Some row ->
  bus (ground s) = msgs ++ [msg; mk_message "commands.status" (Some (Dispatcher.dispatched target id))] -> length msgs = m ->
  let s' := advance (advance (advance s (Downlink i source t1 t2, [])) (Consume (m + 1), [])) (Consume (m + 2), []) in
  sim s' = sim s /\ exists row', commands (tables (ground s')) !! id = Some row' /\ row_status row' = "ACKED" /\
    row_name row' = row_name row /\ row_argument row' = row_argument row.
Proof.
  intros Hr Hp Hap Ha Hida Hst Hid Hrow Hb Hm.
  destruct (run_ingest_ack raw p a source t1 t2 (ground s) Hp Hap Ha) as (Hc1 & Hb1).
  set (s1 := advance s (Downlink i source t1 t2, [])).
  assert (ground s1 = (Ingest._process raw source t1 t2 (quiet (ground s))).2) as Hg1
    by (unfold s1, advance; cbn [ground fst snd ground_step]; by rewrite Hr).
  assert (sim s1 = sim s) as Hs1 by done. rewrite <- Hg1 in Hc1, Hb1. clearbody s1. rewrite Hb, <- app_assoc in Hb1. cbn [app] in Hb1.
  rewrite <- Hc1 in Hrow. destruct (run_status id row (ground s1) Hrow Hid) as (Hc2 & Hb2).
  set (s2 := advance s1 (Consume (m + 1), [])).
  assert (ground s2 = (Processor.process_status str_of (mk_message "commands.status" (Some (Dispatcher.dispatched target id))) (quiet (ground s1))).2) as Hg2.
  { unfold s2, advance. cbn [ground fst snd ground_step]. rewrite Hb1, (cons_middle msg), app_assoc, lookup_end; [done|]. rewrite length_app. cbn. lia. }
  assert (sim s2 = sim s1) as Hs2 by done. rewrite <- Hg2 in Hc2, Hb2. clearbody s2.
  assert (commands (tables (ground s2)) !! id = Some (set_row_status "DISPATCHED" (Some ("UDP target " +:+ target)) row)) as Hrow2
    by (rewrite Hc2; apply lookup_insert_eq).
  pose proof (run_ack id _ p t1 source a (ground s2) Hrow2 Hid Hida Hst) as Hc3. intros s'. 
  assert (ground s' = (Processor.process_ack (mk_message "telemetry.command_ack" (Some (Ingest.envelope p t1 source (Ingest.ack_data a)))) (quiet (ground s2))).2) as Hg3.
  { unfold s', advance. cbn [ground fst snd ground_step]. rewrite Hb2, Hb1.
    match goal with |- context [msgs ++ [msg; ?x; ?y]] => change (msgs ++ [msg; x; y]) with (msgs ++ [msg; x] ++ [y]) end.
    rewrite app_assoc, lookup_end; [done|]. rewrite length_app. cbn. lia. }
  cbv zeta in Hc3. rewrite <- Hg3 in Hc3. split; [change (sim s' = sim s); unfold s'; cbn; congruence|]. clearbody s'.
  rewrite Hc3, lookup_insert_eq. eexists. by split.
Qed.

(** ** Properties *)

(** C6. Safety of the command path, in every run: with messages and datagrams lost, repeated or reordered
    and calls that fail or lose their answers, what the spacecraft remembers as executed is a live command
    of the table, positive, with the argument of its row, in range, and requested with both tokens, whatever
    a language model answers to the alerts in between; a
    dry run is never executed and its status never changes; a command is never marked REJECTED; and one
    marked ACKED has been executed. *)
Theorem command_path_sound steps :
  let s := run steps in
  (forall id a, sim_results (sim s) !! id = Some a ->
    status a = 0 /\ exists row d r fs, commands (tables (ground s)) !! id = Some row /\ row_dry_run row = false /\
      Commands.COMMANDS !! row_name row = Some d /\ Commands.minimum d <= applied_value a <= Commands.maximum d /\
      applied_value a = row_argument row /\ (Request r (Some operator_token) (Some arm_token), fs) ∈ steps /\
      MissionApi.name r = row_name row /\ MissionApi.argument r = row_argument row) /\
  (forall id row, commands (tables (ground s)) !! id = Some row ->
    if row_dry_run row then row_status row = "DRY_RUN_VALIDATED" /\ sim_results (sim s) !! id = None
    else row_status row <> "REJECTED" /\ (row_status row = "ACKED" -> is_Some (sim_results (sim s) !! id))).
Proof.
  intros s. destruct (run_ok steps) as [Hok _]. fold s in Hok. split.
  - intros id a Ha. destruct (ok_results _ _ _ Hok id a Ha) as (_ & Hst & op & row & d & Hrow & Hdry & Hd & _ & Harg & Hb).
    destruct (ok_rows _ _ _ Hok id row Hrow) as (_ & _ & Hreq). destruct (Hreq Hdry) as (_ & r & (fs & Hin & _) & Hn & Hr).
    split; [exact Hst|]. exists row, d, r, fs. do 3 (split; [assumption|]). split; [exact Hb|]. by split_and!.
  - intros id row Hrow. destruct (ok_rows _ _ _ Hok id row Hrow) as (_ & Hst & _). unfold status_ok in Hst.
    destruct (row_dry_run row) eqn:Hdry.
    + split; [exact Hst|]. destruct (sim_results (sim s) !! id) as [a|] eqn:Ha; [exfalso|done].
      destruct (ok_results _ _ _ Hok id a Ha) as (_ & _ & op & row' & d & Hrow' & Hdry' & _). congruence.
    + destruct Hst as [Hst|[Hst Hres]]; [|rewrite Hst; by split].
      assert (row_status row <> "REJECTED" /\ row_status row <> "ACKED") as [Hr Ha] by (split; intros He; rewrite He in Hst; set_solver).
      split; [done|]. intros He. by destruct (Ha He).
Qed.

(** C7. Delivery: after any run with a 64-bit clock whose telemetry rounds were sent with analogue values that
    fit their wire units, as ordinary readings do, an authorised live command of the table whose row number
    is below 2^32, and that is handed on once at every hop without faults, is executed by the spacecraft,
    which changes what the command names and nothing else, and ends ACKED in the command table. *)
Theorem command_delivered steps r d t_dispatch t_uplink source t1 t2 :
  Forall sane_step steps -> Spacecraft.clock_ok t_dispatch -> Spacecraft.clock_ok t_uplink ->
  Commands.validate_command (MissionApi.name r) (MissionApi.argument r) = Ok d -> MissionApi.dry_run r = false ->
  let s := run steps in
  let id := next_command (tables (ground s)) in
  id < 2 ^ 32 ->
  let s' := run (steps ++ delivery s r t_dispatch t_uplink source t1 t2) in
  let before := Spacecraft.craft (sim s) in let after := Spacecraft.craft (sim s') in
  Spacecraft.sc_mode after = (if Commands.opcode d =? 1 then MissionApi.argument r else Spacecraft.sc_mode before) /\
  Spacecraft.sc_wheel_rpm after = (if Commands.opcode d =? 2 then MissionApi.argument r else Spacecraft.sc_wheel_rpm before) /\
  Spacecraft.sc_fault_flags after = (if Commands.opcode d =? 3 then 0 else Spacecraft.sc_fault_flags before) /\
  exists row, commands (tables (ground s')) !! id = Some row /\ row_status row = "ACKED" /\
    row_name row = MissionApi.name r /\ row_argument row = MissionApi.argument r.
Proof.
  intros Hsane Hc1 Hc2 Hv Hdry s id Hid s'. destruct (run_ok steps) as [Hok _]. pose proof (run_ready steps Hsane) as Hready. fold s in Hok, Hready.
  pose proof (ok_next _ _ _ Hok) as Hnext. fold id in Hnext.
  set (f := mk_command id (Commands.opcode d) (MissionApi.argument r) t_dispatch).
  pose proof (proj1 (Commands.validate_command_ok _ _ _) Hv) as [Hd Hb].
  destruct (encode_command_total f) as [raw He].
  { unfold command_fits, f, Spacecraft.clock_ok in *. cbn. apply Commands.COMMANDS_cases in Hd as [[_ ->]|[[_ ->]|[_ ->]]]; cbn in *; lia. }
  destruct (deliver_up s r d raw t_dispatch Hv Hdry He) as (Hsim1 & Hup & (msg & Hbus) & Hcom). fold id in Hcom, Hbus.
  unfold s', run, delivery. rewrite foldl_app. fold (run steps). fold s. cbn [foldl].
  match type of Hsim1 with sim ?x = _ => set (s1 := x) in * end. clearbody s1.
  set (s2 := advance s1 (Uplink (length (uplink (ground s))) t_uplink, [])).
  assert (sim s2 = (Spacecraft.datagram_received raw t_uplink (sim s)).2) as Hs2
    by (unfold s2, advance; cbn [sim fst craft_step]; rewrite Hup, lookup_end by done; by rewrite Hsim1).
  assert (commands (tables (ground s2)) = commands (tables (ground s1)) /\ bus (ground s2) = bus (ground s1)) as [Hg2 Hb2] by done. clearbody s2.
  assert (sim_results (sim s) !! id = None) as Hnew.
  { destruct (sim_results (sim s) !! id) as [a|] eqn:Ha; [exfalso|done].
    destruct (ok_results _ _ _ Hok id a Ha) as (_ & _ & op & row & _ & Hrow & _). destruct (ok_rows _ _ _ Hok id row Hrow) as (Hlt & _). unfold id in Hlt. lia. }
  assert (Spacecraft.allowed f = true) as Hall.
  { unfold Spacecraft.allowed. assert (Commands.OPCODE_TO_NAME !! opcode f = Some (MissionApi.name r)) as ->; [|by cbn; rewrite Hv].
    apply Commands.OPCODE_TO_NAME_cases. apply Commands.COMMANDS_cases in Hd as [[-> ->]|[[-> ->]|[-> ->]]]; cbn; auto. }
  destruct (run_uplink f raw t_uplink (sim s) Hready Hc2 He Hall Hnew) as (Hm & Hr & Hf & _ & raw_ack & p & Hrad & Hp & Hap & Ha).
  rewrite <- Hs2 in Hm, Hr, Hf, Hrad.
  destruct (deliver_down s2 id _ raw_ack p _ (bus (ground s)) msg source t1 t2 (length (Spacecraft.radio (sim s))) (length (bus (ground s)))
    ltac:(rewrite Hrad; by apply lookup_end) Hp Hap Ha eq_refl eq_refl ltac:(unfold int64; lia)
    ltac:(rewrite Hg2, Hcom; apply lookup_insert_eq) ltac:(rewrite Hb2; exact Hbus) eq_refl) as (Hsim & row & Hrow & Hst & Hn & Harg).
  cbn zeta in Hsim, Hrow. rewrite Hsim. split; [exact Hm|]. split; [exact Hr|]. split; [exact Hf|]. exists row. by split_and!.
Qed.
End Path.

(** ** Concrete runs *)

Definition no_text (v : value) : string := "".
Definition error_text (e : exn) : string := "error".

Abbreviation demo_run := (run 0 no_text no_text error_text "model" "spacecraft-sim:5006" "operator" "arm").
Definition safe_hold : MissionApi.CommandRequest := MissionApi.mk_request "SET_MODE" 2 false "alice".
Definition dry_hold : MissionApi.CommandRequest := MissionApi.mk_request "SET_MODE" 3 true "alice".
Abbreviation request_of r := (Request r (Some "operator") (Some "arm")).

Definition row_of (s : System) (id : Z) : option (string * bool) :=
  (fun row => (row_status row, row_dry_run row)) <$> commands (tables (ground s)) !! id.
Definition mode_of (s : System) : Z := Spacecraft.sc_mode (Spacecraft.craft (sim s)).

Lemma command_delivered_witness :
  let steps := [(request_of dry_hold, []); (Round 1 Spacecraft.calm_reading, [])] in
  let s := demo_run steps in
  let s' := demo_run (steps ++ delivery "operator" "arm" s safe_hold 5 6 "udp" 7 8) in
  mode_of s' = 2 /\ exists row, commands (tables (ground s')) !! 2 = Some row /\ row_status row = "ACKED".
Proof.
  intros steps s s'.
  assert (next_command (tables (ground s)) = 2) as Hid by (vm_compute; reflexivity).
  destruct (command_delivered 0 no_text no_text error_text "model" "spacecraft-sim:5006" "operator" "arm" steps safe_hold
    (Commands.mk_definition 1 0 3) 5 6 "udp" 7 8) as (Hm & _ & _ & row & Hrow & Hst & _).
  - constructor; [exact I|]. constructor; [|constructor]. pose proof Spacecraft.sample_ordinary as H.
    apply Forall_inv in H. exact (Spacecraft.ordinary_sane 0 _ H).
  - unfold Spacecraft.clock_ok. lia.
  - unfold Spacecraft.clock_ok. lia.
  - reflexivity.
  - reflexivity.
  - fold s. rewrite Hid. reflexivity.
  - fold s in Hm, Hrow. rewrite Hid in Hrow. split; [exact Hm|]. exists row. split; [exact Hrow|exact Hst].
Defined.

(** The acknowledgement may be processed before the dispatcher's status, which then overwrites it: the
    command has been executed and stays DISPATCHED. *)
Example ack_overwritten :
  let s := demo_run [(request_of safe_hold, []); (Dispatch 0 5, []); (Uplink 0 6, []); (Downlink 0 "udp" 7 8, []);
    (Consume 2, []); (Consume 1, [])] in
  row_of s 1 = Some ("DISPATCHED", false) /\ mode_of s = 2.
Proof. split; vm_compute; reflexivity. Qed.

(** When publishing the dispatch event fails after the row is stored, the command stays QUEUED for ever. *)
Example queued_for_ever :
  let s := demo_run [(request_of safe_hold, [Served; Served; Served; Refused])] in
  row_of s 1 = Some ("QUEUED", false) /\ bus (ground s) = [].
Proof. split; vm_compute; reflexivity. Qed.

(** A dispatch whose status event is lost is sent again, and executed once. *)
Example dispatched_twice :
  let s := demo_run [(request_of safe_hold, []); (Dispatch 0 5, [Served; Refused]); (Dispatch 0 6, []); (Uplink 1 7, []); (Uplink 0 8, [])] in
  row_of s 1 = Some ("QUEUED", false) /\ mode_of s = 2 /\ length (uplink (ground s)) = 2%nat /\
  Spacecraft.command_results (Spacecraft.craft (sim s)) !! 1 = Some (mk_ack 1 0 2 7).
Proof. split_and!; vm_compute; reflexivity. Qed.
End CommandPath.
