(* ===== verification/LinkSchema.v ===== *)
(** * The schema of the link database: [mission_ground/common/db.py]

    The columns of the four tables, and that every row the services store fits them: text is text,
    integers are within the width of their column, and no column that must have a value is left out. *)
From S2P Require Import Prelude PyFloat SpacePacket Commands PyObject PyEffect Spacecraft Link Ingest Processor Advisor Dispatcher MissionApi CommandPath.

Open Scope Z_scope.

Module LinkSchema.

Inductive column_type := BIGINT | INTEGER | DOUBLE_PRECISION | TEXT | BOOLEAN | JSONB | TIMESTAMPTZ.

(** A column that may be left out is null or has a value of the database's: BIGSERIAL, DEFAULT now(). *)
Record column := mk_column { column_name : string; type_of : column_type; not_null : bool; filled : bool }.

Definition required (name : string) (t : column_type) : column := mk_column name t true false.
Definition serial (name : string) : column := mk_column name BIGINT true true.
Definition stamped (name : string) : column := mk_column name TIMESTAMPTZ true true.

(** The tables of [SCHEMA_SQL]. *)
Definition health_table : list column := [
  serial "id"; required "spacecraft_time_ns" BIGINT; stamped "received_at"; required "sequence_count" INTEGER;
  required "bus_voltage_v" DOUBLE_PRECISION; required "battery_temp_c" DOUBLE_PRECISION; required "wheel_rpm" INTEGER;
  required "mode" INTEGER; required "fault_flags" INTEGER; required "raw" JSONB]%string.
Definition alerts_table : list column := [
  serial "id"; stamped "created_at"; required "parameter" TEXT; required "value" DOUBLE_PRECISION; required "severity" TEXT;
  required "message" TEXT; required "telemetry_sequence" INTEGER]%string.
Definition commands_table : list column := [
  serial "id"; stamped "created_at"; stamped "updated_at"; required "name" TEXT; required "argument" INTEGER;
  required "dry_run" BOOLEAN; required "status" TEXT; required "operator_id" TEXT; mk_column "status_detail" TEXT false false]%string.
Definition audit_table : list column := [
  serial "id"; stamped "created_at"; required "actor" TEXT; required "action" TEXT; required "object_type" TEXT;
  required "object_id" TEXT; required "detail" JSONB]%string.

(** The statements, each [IF NOT EXISTS]. *)
Inductive statement := CreateTable (name : string) (columns : list column) | CreateIndex (name table : string) (newest_first : string).

Definition SCHEMA_SQL : list statement := [
  CreateTable "telemetry_health" health_table; CreateIndex "telemetry_health_received_idx" "telemetry_health" "received_at";
  CreateTable "alerts" alerts_table; CreateIndex "alerts_created_idx" "alerts" "created_at";
  CreateTable "commands" commands_table; CreateTable "audit_events" audit_table]%string.

(** The relations of a database: tables with their columns and indexes with their column. *)
Record catalog := mk_catalog { relations : gmap string (list column); indexes : gmap string (string * string) }.

Definition execute_statement (s : statement) : eff catalog exn unit :=
  c ← get;
  match s with
  | CreateTable name columns =>
      modify (fun c => match relations c !! name with Some _ => c | None => mk_catalog (<[name := columns]> (relations c)) (indexes c) end)
  | CreateIndex name table by_column =>
      match indexes c !! name, relations c !! table with
      | Some _, _ => mret tt
      | None, None => throw (ValueError "relation does not exist")
      | None, Some columns =>
          if bool_decide (by_column ∈ column_name <$> columns)
          then modify (fun c => mk_catalog (relations c) (<[name := (table, by_column)]> (indexes c)))
          else throw (ValueError "column does not exist")
      end
  end.

(** [create_pool]: the pool, after the schema. *)
Definition create_pool {P} (connect : eff catalog exn P) : eff catalog exn P :=
  pool ← connect; for_each SCHEMA_SQL execute_statement ;; mret pool.

(** The first service to start creates the tables; the others find them, and so does every restart. *)
Theorem create_pool_idempotent {P} (pool : P) :
  exists c, create_pool (mret pool) (mk_catalog ∅ ∅) = (Ok pool, c) /\ create_pool (mret pool) c = (Ok pool, c) /\
    relations c = {["telemetry_health" := health_table; "alerts" := alerts_table; "commands" := commands_table; "audit_events" := audit_table]}%string.
Proof. eexists. split; [vm_compute; reflexivity|]. split; vm_compute; reflexivity. Qed.

(** A value of a column's type; the JSON null is a value of JSONB. *)
Definition fits (t : column_type) (v : value) : bool :=
  match t, v with
  | BIGINT, VInt z => int64 z
  | INTEGER, VInt z => int32 z
  | DOUBLE_PRECISION, VFloat _ | TEXT, VStr _ | BOOLEAN, VBool _ | JSONB, _ => true
  | _, _ => false
  end.

(** The columns that a statement names, with their arguments; nothing is the null. *)
Definition cells : Type := list (string * option value).

Fixpoint cell (name : string) (row : cells) : option (option value) :=
  match row with [] => None | (k, v) :: row' => if String.eqb name k then Some v else cell name row' end.

Definition column_ok (row : cells) (c : column) : bool :=
  match cell (column_name c) row with
  | None => filled c || negb (not_null c)
  | Some None => negb (not_null c)
  | Some (Some v) => fits (type_of c) v
  end.

Definition row_ok (columns : list column) (row : cells) : bool :=
  bool_decide (NoDup row.*1) && forallb (fun name => bool_decide (name ∈ column_name <$> columns)) row.*1 && forallb (column_ok row) columns.

(** The rows of the services' statements. *)
Definition health_cells (r : HealthRow) : cells := [
  ("spacecraft_time_ns", Some (VInt (hr_spacecraft_time_ns r))); ("sequence_count", Some (VInt (hr_sequence_count r)));
  ("bus_voltage_v", Some (VFloat (hr_bus_voltage_v r))); ("battery_temp_c", Some (VFloat (hr_battery_temp_c r)));
  ("wheel_rpm", Some (VInt (hr_wheel_rpm r))); ("mode", Some (VInt (hr_mode r))); ("fault_flags", Some (VInt (hr_fault_flags r)));
  ("raw", Some (hr_raw r))]%string.
Definition alert_cells (r : AlertRow) : cells := [
  ("parameter", Some (VStr (al_parameter r))); ("value", Some (VFloat (al_value r))); ("severity", Some (VStr (al_severity r)));
  ("message", Some (VStr (al_message r))); ("telemetry_sequence", Some (VInt (al_telemetry_sequence r)))]%string.
Definition command_cells (r : CommandRow) : cells := [
  ("name", Some (VStr (row_name r))); ("argument", Some (VInt (row_argument r))); ("dry_run", Some (VBool (row_dry_run r)));
  ("status", Some (VStr (row_status r))); ("operator_id", Some (VStr (row_operator_id r)));
  ("status_detail", VStr <$> row_status_detail r)]%string.
Definition audit_cells (r : AuditRow) : cells := [
  ("actor", Some (VStr (au_actor r))); ("action", Some (VStr (au_action r))); ("object_type", Some (VStr (au_object_type r)));
  ("object_id", Some (VStr (au_object_id r))); ("detail", Some (au_detail r))]%string.

(** Every stored row fits its table. *)
Record conforms (t : Tables) : Prop := {
  health_conform : Forall (fun r => row_ok health_table (health_cells r) = true) (telemetry_health t);
  alerts_conform : Forall (fun r => row_ok alerts_table (alert_cells r) = true) (alerts t);
  commands_conform : map_Forall (fun _ r => row_ok commands_table (command_cells r) = true) (commands t);
  audit_conform : Forall (fun r => row_ok audit_table (audit_cells r) = true) (audit_events t)
}.

(** ** What the statements check *)

Ltac conforms_by := unfold row_ok;
  match goal with |- ?a && ?b && _ = _ => replace a with true by (vm_compute; reflexivity); replace b with true by (vm_compute; reflexivity) end;
  cbn; rewrite ?andb_true_r, ?andb_assoc; reflexivity.

Lemma health_row_ok r :
  row_ok health_table (health_cells r) =
    int64 (hr_spacecraft_time_ns r) && int32 (hr_sequence_count r) && int32 (hr_wheel_rpm r) && int32 (hr_mode r) && int32 (hr_fault_flags r).
Proof. conforms_by. Qed.
Lemma alert_row_ok r : row_ok alerts_table (alert_cells r) = int32 (al_telemetry_sequence r).
Proof. conforms_by. Qed.
Lemma command_row_ok r : row_ok commands_table (command_cells r) = int32 (row_argument r).
Proof. destruct r as [? ? ? ? ? []]; conforms_by. Qed.
Lemma audit_row_ok r : row_ok audit_table (audit_cells r) = true.
Proof. conforms_by. Qed.

Definition stays_conform (g g' : Ground) : Prop := conforms (tables g) -> conforms (tables g').

#[export] Instance stays_conform_preorder : PreOrder stays_conform.
Proof. split; [intros g Hg; exact Hg|]. intros g1 g2 g3 H12 H23 Hg. by apply H23, H12. Qed.

Lemma conform_external {A} (m : link A) : keeps stays_conform m -> keeps stays_conform (external m).
Proof. apply keeps_external; [apply _|]. intros g fs Hg. exact Hg. Qed.

Lemma conform_checked {A} (b : bool) (k : link A) : (b = true -> keeps stays_conform k) -> keeps stays_conform (checked b ;; k).
Proof. intros Hk. unfold checked. destruct b; [by apply Hk|]. intros g. cbn. reflexivity. Qed.

Lemma conform_insert_health r : keeps stays_conform (insert_health r).
Proof.
  apply conform_checked. intros Hok. apply conform_external, keeps_modify. intros g [Hh Ha Hc He]. split; [|done..].
  apply Forall_app_2; [done|]. constructor; [|done]. by rewrite health_row_ok.
Qed.
Lemma conform_insert_alert r : keeps stays_conform (insert_alert r).
Proof.
  apply conform_checked. intros Hok. apply conform_external, keeps_modify. intros g [Hh Ha Hc He]. split; [done| |done..].
  apply Forall_app_2; [done|]. constructor; [|done]. by rewrite alert_row_ok.
Qed.
Lemma conform_insert_audit r : keeps stays_conform (insert_audit r).
Proof.
  apply conform_external, keeps_modify. intros g [Hh Ha Hc He]. split; [done..|]. apply Forall_app_2; [done|]. constructor; [apply audit_row_ok|done].
Qed.
Lemma conform_insert_command r : keeps stays_conform (insert_command r).
Proof.
  apply conform_checked. intros Hok. apply conform_external, keeps_bind; [apply _|apply keeps_get; apply _|intros g].
  apply keeps_bind; [apply _| |intros; apply keeps_ret; apply _]. apply keeps_modify. intros g' [Hh Ha Hc He]. split; [done..| |done].
  apply map_Forall_insert_2; [|done]. by rewrite command_row_ok.
Qed.
Lemma conform_update_command status detail id : keeps stays_conform (update_command status detail id).
Proof.
  apply conform_checked. intros _. apply conform_external. intros g [Hh Ha Hc He]. rewrite run_eff_bind. cbn [get].
  destruct (commands (tables g) !! id) as [r|] eqn:Hr; [|by split]. cbn. split; [done..| |done]. cbn.
  apply map_Forall_insert_2; [|done]. pose proof (Hc id r Hr) as Hrow. cbv beta in Hrow. rewrite command_row_ok in *. exact Hrow.
Qed.

Ltac keep_conform :=
  repeat first
    [ apply conform_insert_health | apply conform_insert_alert | apply conform_insert_audit | apply conform_insert_command
    | apply conform_update_command | apply conform_external
    | keep_step ltac:(by intros ?) ].

Section Runs.
Context (anomaly_every : Z) (str_of dumps_sorted : value -> string) (describe : exn -> string) (model target operator_token arm_token : string).

Lemma conform_ground_step e s :
  keeps stays_conform (CommandPath.ground_step str_of dumps_sorted describe model target operator_token arm_token e s).
Proof.
  unfold CommandPath.ground_step, CommandPath.receive_dispatch, CommandPath.consume, CommandPath.receive_alert,
    MissionApi.create_command, MissionApi.check_tokens, Processor.process_health, Processor.process_ack, Processor.process_status,
    Processor.raise_alert, Processor.or_nak, Processor.int_at, Processor.float_at, Dispatcher.dispatch, Dispatcher.send_command,
    Dispatcher.dispatch_failed, Dispatcher.int_field, Advisor.advise, Ingest._process, acquire, count, publish, ack, nak, uplink_sendto.
  keep_conform.
Qed.

(** The schema holds. In every run of the services of the link, whatever requests and messages come and whatever
    calls are refused or lose their answers, every row of the four tables fits the schema: it names only
    columns of its table, each once, gives a value to every column that must have one and that the database
    does not fill, and every value is of its column's type, integers within its width. *)
Theorem rows_conform steps :
  conforms (tables (CommandPath.ground (CommandPath.run anomaly_every str_of dumps_sorted describe model target operator_token arm_token steps))).
Proof.
  unfold CommandPath.run. induction steps as [|[e fs] steps IH] using rev_ind; [split; cbn; [constructor..|apply map_Forall_empty|constructor]|].
  rewrite foldl_app. cbn [foldl]. unfold CommandPath.advance at 1. cbn [CommandPath.ground fst snd].
  apply conform_ground_step. exact IH.
Qed.
End Runs.
End LinkSchema.
