(* ===== verification/VendorSim.v ===== *)
(** * The vendor simulator: [mission_ground/services/vendor_simulator.py]

    The payload source with its persisted boot identifier, the deliberate wire failures, and the forwarder
    with its retries.  The clock, the identifiers of requests, the answers of the gateway and the fates of
    file writes are arguments. *)
From S2P Require Import Prelude PyStruct PyFloat PyFormat Uuid PyText PyDecimal Crc32 Codec PyEffect.
From Stdlib Require Import Ascii.

Open Scope Z_scope.

Module VendorSim.
Import Codec.

(** ** Requests *)

Inductive FailureMode := NONE | CORRUPT_CRC | UNSUPPORTED_VERSION | SKIP_SEQUENCE | DUPLICATE_LAST.

#[export] Instance FailureMode_eq_dec : EqDecision FailureMode.
Proof. solve_decision. Defined.

(** The two enumerations of operating modes have the same member names. *)
Definition OperatingModeName := OperatingMode.

Record TelemetryRequest := mk_request {
  q_temperature_c : float;
  q_voltage_v : float;
  q_operating_mode : OperatingModeName;
  q_fault_flags : Z;
  q_failure_mode : FailureMode
}.

Definition in_range (x : float) (lo hi : Z) : bool := SFleb (float_of_Z lo) x && SFleb x (float_of_Z hi).

(** The bounds of the model's fields. *)
Definition request_valid (q : TelemetryRequest) : bool :=
  in_range (q_temperature_c q) (-100) 150 && in_range (q_voltage_v q) 0 50 &&
  ((0 <=? q_fault_flags q) && (q_fault_flags q <=? 0x3F)).

Inductive exn :=
| RuntimeError (message : string)
| OSError
| UnicodeDecodeError
| ValueError (message : string)
| CodecExn (e : codec_error)
| HTTPError (type_name : string)
| AssertionError (message : string)
| HTTPException (status : Z) (detail : string).

(** ** State: the disk, and the process while it runs *)

Record Payload := mk_payload { p_boot_id : Z; next_sequence : Z }.

Record Vendor := mk_vendor {
  boot_file : option string;
  payload : option Payload;
  last_raw : option bytes;
  last_message_id : option string;
  posts : list (bytes * uuid);
  write_fates : list bool
}.

Abbreviation vendor := (eff Vendor exn).

Definition set_payload (p : Payload) (v : Vendor) : Vendor :=
  mk_vendor (boot_file v) (Some p) (last_raw v) (last_message_id v) (posts v) (write_fates v).
Definition set_last (raw : bytes) (id : string) (v : Vendor) : Vendor :=
  mk_vendor (boot_file v) (payload v) (Some raw) (Some id) (posts v) (write_fates v).
Definition add_post (raw : bytes) (id : uuid) (v : Vendor) : Vendor :=
  mk_vendor (boot_file v) (payload v) (last_raw v) (last_message_id v) (posts v ++ [(raw, id)]) (write_fates v).

(** [f"{value}\n"]. *)
Definition newline : ascii := ascii_of_N 10.
Definition boot_text (value : Z) : string := format_int 10 false 1 value +:+ String.String newline "".

(** [persist(value)]: the file is replaced in one step, or not at all. *)
Definition persist (value : Z) : vendor unit := fun v =>
  match write_fates v with
  | false :: fs => (Raise OSError, mk_vendor (boot_file v) (payload v) (last_raw v) (last_message_id v) (posts v) fs)
  | fs => (Ok tt, mk_vendor (Some (boot_text value)) (payload v) (last_raw v) (last_message_id v) (posts v) (tail fs))
  end.

(** ** The payload source *)

Definition _scaled (value : float) (factor : Z) : Z :=
  let '(coefficient, exponent) := decimal_of value in
  let n := coefficient * factor in
  if 0 <=? exponent then n * 10 ^ exponent else half_up n (10 ^ (- exponent)).

(** [int(now.timestamp() * 1_000_000)] of an aware time with [us] microseconds since the epoch. *)
Definition float_int (f : float) : Z :=
  match f with S754_finite s m e => float_trunc s m e | _ => 0 end.
Definition _timestamp_us (us : Z) : Z :=
  float_int (float_mul (float_div (float_of_Z us) (float_of_Z 1_000_000)) (float_of_Z 1_000_000)).

Definition _roll_session_if_needed (p : Payload) : vendor Payload :=
  if next_sequence p <=? UINT32_MAX then mret p
  else if p_boot_id p =? UINT32_MAX then throw (RuntimeError "payload boot identifier space is exhausted")
  else
    let boot := p_boot_id p + 1 in
    modify (set_payload (mk_payload boot (next_sequence p))) ;;
    persist boot ;;
    modify (set_payload (mk_payload boot 0)) ;;
    mret (mk_payload boot 0).

Definition frame_of (p : Payload) (q : TelemetryRequest) (now_us : Z) : TelemetryFrame := {|
  payload_id := 1; boot_id := p_boot_id p; sequence_number := next_sequence p;
  timestamp_us := _timestamp_us now_us;
  temperature_centi_c := _scaled (q_temperature_c q) 100; voltage_mv := _scaled (q_voltage_v q) 1_000;
  operating_mode := OperatingMode_value (q_operating_mode q); fault_flags := q_fault_flags q;
  protocol_version := PROTOCOL_VERSION |}.

Definition of_codec {A} (m : result codec_error A) : result exn A := catch m (fun e => Raise (CodecExn e)).

Definition make_frame (p : Payload) (q : TelemetryRequest) (now_us : Z) : vendor (bytes * string) :=
  let p1 := if bool_decide (q_failure_mode q = SKIP_SEQUENCE) then mk_payload (p_boot_id p) (next_sequence p + 1) else p in
  modify (set_payload p1) ;;
  p2 ← _roll_session_if_needed p1;
  modify (set_payload (mk_payload (p_boot_id p2) (next_sequence p2 + 1))) ;;
  let frame := frame_of p2 q now_us in
  raw ← lift (of_codec (encode_telemetry frame None));
  id ← lift (of_codec (packet_id frame));
  mret (raw, id).

(** ** Start-up *)

(** [text.strip()] and [int(text)] of the file. *)
Definition read_boot (text : string) : result exn Z :=
  raise: UnicodeDecodeError when negb (is_ascii text) ;;
  let stripped := text_of (strip_chars is_space (chars_of text)) in
  if bool_decide (stripped = ""%string) then Ok 0
  else match py_int stripped with Some z => Ok z | None => Raise (ValueError "invalid literal for int()") end.

Definition _load_next_boot_id : vendor Z :=
  v ← get;
  previous ← lift (match boot_file v with None => Ok 0 | Some text => read_boot text end);
  (if (0 <=? previous) && (previous <? UINT32_MAX) then mret tt
   else throw (RuntimeError "persisted boot identifier cannot be incremented safely")) ;;
  let current := previous + 1 in
  persist current ;;
  mret current.

(** A new process: nothing of the old one is left but the file. *)
Definition start : vendor unit :=
  modify (fun v => mk_vendor (boot_file v) None None None (posts v) (write_fates v)) ;;
  boot ← _load_next_boot_id;
  modify (set_payload (mk_payload boot 0)).

(** ** Wire failures *)

Definition _apply_wire_failure (raw : bytes) (mode : FailureMode) : bytes :=
  match mode with
  | CORRUPT_CRC =>
      match last raw with
      | Some b => take (length raw - 1) raw ++ [byte_of (Z.lxor (byte_val b) 0x01)]
      | None => raw
      end
  | UNSUPPORTED_VERSION =>
      let changed := byte_of 2 :: tail raw in
      let body := take TELEMETRY_V1_BODY_SIZE changed in
      match pack CRC32_BIG_ENDIAN [crc32_iso_hdlc body] with Ok crc => body ++ crc | Raise _ => raw end
  | _ => raw
  end.

(** ** The forwarder *)

Inductive answer := Answered (status : Z) (text : string) | Failed (type_name : string).

(** The loop of [forward] from an attempt on, with the attempts that are left. *)
Fixpoint forward_from (left : nat) (attempt : Z) (raw : bytes) (request_id : uuid) (answers : Z -> answer) : vendor (Z * string) :=
  match left with
  | O => throw (AssertionError "unreachable vendor retry state")
  | S left' =>
      modify (add_post raw request_id) ;;
      match answers attempt with
      | Failed name =>
          if attempt =? 3 then throw (HTTPError name) else forward_from left' (attempt + 1) raw request_id answers
      | Answered status text =>
          if (status <? 500) || (attempt =? 3) then mret (status, text)
          else forward_from left' (attempt + 1) raw request_id answers
      end
  end.
Definition forward : bytes -> uuid -> (Z -> answer) -> vendor (Z * string) := forward_from 3 1.

(** ** The route *)

Record Submitted := mk_submitted {
  message_id : option string;
  submitted_request_id : uuid;
  sent_raw : bytes;
  ground_status : Z;
  ground_text : string
}.

(** The part under the lock: the bytes to send and their message identifier. *)
Definition choose_frame (q : TelemetryRequest) (now_us : Z) : vendor (bytes * option string) :=
  v ← get;
  if bool_decide (q_failure_mode q = DUPLICATE_LAST) then
    match last_raw v with
    | None => throw (HTTPException 409 "DUPLICATE_LAST requires one earlier telemetry frame")
    | Some raw => mret (raw, last_message_id v)
    end
  else
    match payload v with
    | None => throw (RuntimeError "not started")
    | Some p =>
        '(made, id) ← make_frame p q now_us;
        let raw := _apply_wire_failure made (q_failure_mode q) in
        (if bool_decide (q_failure_mode q = NONE \/ q_failure_mode q = SKIP_SEQUENCE)
         then modify (set_last raw id) else mret tt) ;;
        mret (raw, Some id)
    end.

Definition submit_telemetry (q : TelemetryRequest) (now_us : Z) (request_id : uuid) (answers : Z -> answer) : vendor Submitted :=
  '(raw, id) ← choose_frame q now_us;
  response ← try_catch (forward raw request_id answers) (fun exc =>
    match exc with
    | HTTPError _ => throw (HTTPException 502 "ground-api could not be reached")
    | _ => throw exc
    end);
  mret (mk_submitted id request_id raw response.1 response.2).

(** A round of the automatic loop: the clock, the identifier of the request and the gateway's answers. *)
Record round := mk_round { round_now_us : Z; round_request_id : uuid; round_answers : Z -> answer }.

Definition automatic_request : TelemetryRequest := mk_request (decimal 284 1) (decimal 281 1) SCIENCE 0 NONE.

(** [_automatic_loop] for as many rounds as it runs before it is cancelled. *)
Definition _automatic_loop (rounds : list round) : vendor unit :=
  for_each rounds (fun r =>
    try_catch (submit_telemetry automatic_request (round_now_us r) (round_request_id r) (round_answers r) ;; mret tt) (fun _ => mret tt)).

(** The automatic request is one that the route accepts, and no failure ends the loop: its rounds are the
    submissions one after another. *)
Lemma automatic_loop_continues rounds v :
  request_valid automatic_request = true /\
  _automatic_loop rounds v =
    (Ok tt, foldl (fun v r => (submit_telemetry automatic_request (round_now_us r) (round_request_id r) (round_answers r) v).2) v rounds).
Proof.
  split; [vm_compute; reflexivity|]. revert v. unfold _automatic_loop. induction rounds as [|r rounds IH]; intros v; [done|].
  cbn [for_each foldl]. rewrite run_eff_bind. unfold try_catch at 1. rewrite run_eff_bind.
  destruct (submit_telemetry _ _ _ _ v) as [[a|e] v']; cbn [snd]; apply IH.
Qed.

(** ** The boot file *)

Lemma strip_trailing ds c :
  Forall (fun d => is_space d = false) ds -> ds <> [] -> is_space c = true -> strip_chars is_space (ds ++ [c]) = ds.
Proof.
  intros Hds Hne Hc. unfold strip_chars.
  assert (lstrip is_space (ds ++ [c]) = ds ++ [c]) as ->.
  { destruct Hds as [|d ds Hd Hds]; [done|]. cbn. by rewrite Hd. }
  rewrite rev_app_distr. cbn [rev app lstrip]. rewrite Hc.
  assert (Forall (fun d => is_space d = false) (rev ds)) as Hr by (apply Forall_rev in Hds; by rewrite <- ?rev_alt in *).
  rewrite lstrip_absent by done. apply rev_involutive.
Qed.

(** Facts about the characters of decimal digits, by enumeration. *)
Lemma decimal_char d :
  0 <= d < 10 -> is_space (digit_char false d) = false /\ (N_of_ascii (digit_char false d) <? 128)%N = true /\
  is_char "-" (digit_char false d) = false /\ is_char "+" (digit_char false d) = false.
Proof.
  intros Hd. enough (negb (is_space (digit_char false d)) && (N_of_ascii (digit_char false d) <? 128)%N &&
    negb (is_char "-" (digit_char false d)) && negb (is_char "+" (digit_char false d)) = true) as H by (bool_to_prop; done).
  apply (zrange_check (fun d => negb (is_space (digit_char false d)) && (N_of_ascii (digit_char false d) <? 128)%N &&
    negb (is_char "-" (digit_char false d)) && negb (is_char "+" (digit_char false d))) 0 10); [by vm_compute|lia].
Qed.

Lemma read_boot_text z : 0 <= z < 2 ^ 32 -> read_boot (boot_text z) = Ok z.
Proof.
  intros Hz. unfold boot_text, format_int. destruct (Z.ltb_spec z 0); [lia|].
  destruct (digits_spec 10 z ltac:(lia) ltac:(lia)) as [Hv Hds].
  pose proof (to_digits_length (S (Z.to_nat (Z.log2 z))) 10 z 9 ltac:(lia) ltac:(cbn; lia)) as Hlen.
  set (ds := zero_pad 1 (digits 10 z)).
  assert (Forall (fun d => 0 <= d < 10) ds /\ of_digits 10 ds = z /\ ds <> [] /\ (length ds <= 10)%nat) as (Hd & Hval & Hne & Hl).
  { unfold ds, zero_pad. fold (digits 10 z) in Hlen. split; [apply Forall_app; split; [apply Forall_replicate; lia|done]|].
    rewrite of_digits_zeros. split; [done|]. rewrite length_app, length_replicate. split; [|lia].
    destruct (digits 10 z); [done|]. by destruct (replicate _ 0). }
  clearbody ds. clear Hds Hlen Hv. set (cs := map (digit_char false) ds).
  assert (chars_of (digits_string false ds +:+ String.String newline "") = cs ++ [newline]) as Hchars
    by (unfold chars_of; rewrite string_app_list; unfold digits_string; by rewrite String.list_ascii_of_string_of_list_ascii).
  assert (Forall (fun c => is_space c = false) cs) as Hsp by (apply Forall_map; eapply Forall_impl; [exact Hd|]; intros d Hx; apply (decimal_char d Hx)).
  assert (cs <> []) as Hcne by (unfold cs; by destruct ds).
  unfold read_boot, is_ascii. rewrite Hchars.
  assert (forallb (fun c => (N_of_ascii c <? 128)%N) (cs ++ [newline]) = true) as ->.
  { apply forallb_forall. intros c [Hc|[<-|[]]]%in_app_iff; [|done]. apply in_map_iff in Hc as (d & <- & Hin).
    eapply Forall_forall in Hd; [|apply list_elem_of_In; exact Hin]. apply (decimal_char d Hd). }
  cbn [negb]. rewrite strip_trailing by done.
  assert (bool_decide (text_of cs = ""%string) = false) as -> by (apply bool_decide_eq_false; destruct cs; [done|]; unfold text_of; by cbn).
  unfold py_int. rewrite chars_text, strip_absent by done.
  destruct (Nat.ltb_spec 4300 (length (List.filter is_decimal cs))) as [Hlong|_].
  { pose proof (filter_length_le is_decimal cs) as Hf. unfold cs in *. rewrite length_map in Hf. lia. }
  pose proof (int10_digits_plain 0 ds Hd Hne) as Hint. fold cs in Hint. fold (of_digits 10 ds) in Hint. rewrite Hval in Hint.
  destruct ds as [|d ds]; [done|]. unfold cs in *. cbn [map] in *. apply Forall_inv in Hd.
  destruct (decimal_char d Hd) as (_ & _ & -> & ->). by rewrite Hint.
Qed.

(** ** Runs of the payload source *)

Inductive event := Start | Make (q : TelemetryRequest) (now_us : Z).


Definition with_fates (fs : list bool) (v : Vendor) : Vendor :=
  mk_vendor (boot_file v) (payload v) (last_raw v) (last_message_id v) (posts v) fs.

(** The message identifier that an event produces, and the state after it. *)
Definition source_step (v : Vendor) (e : event) : option string * Vendor :=
  match e with
  | Start => (None, (start v).2)
  | Make q now =>
      match payload v with
      | None => (None, v)
      | Some p => let '(r, v') := make_frame p q now v in
          (match r with Ok (_, id) => Some id | Raise _ => None end, v')
      end
  end.

(** Events with the fates of their file writes: the identifiers made, and the last state. *)
Fixpoint identifiers (v : Vendor) (events : list (event * list bool)) : list string * Vendor :=
  match events with
  | [] => ([], v)
  | (e, fs) :: events' =>
      let '(id, v1) := source_step (with_fates fs v) e in
      let '(ids, v2) := identifiers v1 events' in
      (match id with Some i => i :: ids | None => ids end, v2)
  end.

Definition blank : Vendor := mk_vendor None None None None [] [].

(** ** Invariant: the pairs of boot identifier and sequence number used so far *)

Definition used_ok (used : list (Z * Z)) (p : Payload) : Prop :=
  Forall (fun x => x.1 < p_boot_id p \/ x.1 = p_boot_id p /\ x.2 < next_sequence p) used.

Definition payload_ok (used : list (Z * Z)) (stored : Z) (p : Payload) : Prop :=
  stored <= p_boot_id p <= UINT32_MAX /\ 0 <= next_sequence p /\
  (next_sequence p <= UINT32_MAX -> p_boot_id p = stored /\ used_ok used p).

Definition source_ok (used : list (Z * Z)) (v : Vendor) : Prop :=
  match boot_file v with
  | None => used = [] /\ payload v = None
  | Some text => exists stored, text = boot_text stored /\ 1 <= stored <= UINT32_MAX /\
      Forall (fun x => x.1 <= stored) used /\
      match payload v with None => True | Some p => payload_ok used stored p end
  end.

(** What rolling the session may do to a state whose payload is [p]. *)
Lemma roll_cases used stored p v :
  boot_file v = Some (boot_text stored) -> payload v = Some p -> 1 <= stored ->
  Forall (fun x => x.1 <= stored) used -> payload_ok used stored p ->
  let '(r, v') := _roll_session_if_needed p v in
  match r with
  | Raise _ => source_ok used v -> source_ok used v'
  | Ok p' => exists stored', boot_file v' = Some (boot_text stored') /\ 1 <= stored' <= UINT32_MAX /\
      Forall (fun x => x.1 <= stored') used /\ p_boot_id p' = stored' /\ 0 <= next_sequence p' <= UINT32_MAX /\ used_ok used p'
  end.
Proof.
  intros Hf Hp H1 Hu (Hb & Hn & Hw). unfold _roll_session_if_needed, source_ok, payload_ok. change UINT32_MAX with 4294967295 in *.
  destruct (Z.leb_spec (next_sequence p) 4294967295) as [Hle|Hgt].
  { destruct (Hw Hle) as [He Hused]. exists stored. split; [done|]. split; [lia|]. split; [done|]. split; [done|]. by split. }
  destruct (Z.eqb_spec (p_boot_id p) 4294967295) as [He|He]; [intros H; exact H|].
  rewrite run_eff_bind. cbn [modify]. rewrite run_eff_bind. unfold persist. cbn [write_fates set_payload].
  assert (Forall (fun x : Z * Z => x.1 <= p_boot_id p + 1) used) as Hu'
    by (eapply Forall_impl; [exact Hu|]; cbn; intros x Hx; lia).
  destruct (write_fates v) as [|[] fs].
  1, 2: exists (p_boot_id p + 1); split; [done|]; split; [lia|]; split; [exact Hu'|]; split; [done|]; split; [cbn; lia|];
    eapply Forall_impl; [exact Hu|]; cbn; intros x Hx; lia.
  intros _. cbn. rewrite Hf. exists stored. split; [done|]. split; [lia|]. split; [done|].
  cbn. split; [lia|]. split; [done|]. lia.
Qed.

(** Making a frame uses a new pair, or none. *)
Lemma make_cases used v p q now :
  source_ok used v -> payload v = Some p ->
  let '(r, v') := make_frame p q now v in
  match r with
  | Raise _ => source_ok used v'
  | Ok (raw, id) => exists x, ~ In x used /\ 0 <= x.1 /\ 0 <= x.2 <= UINT32_MAX /\ x.1 <= UINT32_MAX /\
      id = packet_id_text 1 x.1 x.2 /\ source_ok (x :: used) v' /\
      exists f, encode_telemetry f None = Ok raw /\ payload_id f = 1 /\ (boot_id f, sequence_number f) = x
  end.
Proof.
  intros Hok Hp. unfold source_ok in Hok. destruct (boot_file v) as [text|] eqn:Hf; [|by destruct Hok; congruence].
  destruct Hok as (stored & -> & Hst & Hu & Hpay). rewrite Hp in Hpay.
  unfold make_frame. set (p1 := if bool_decide _ then _ else p).
  assert (payload_ok used stored p1) as Hpay1.
  { unfold p1. case_bool_decide; [|done]. destruct Hpay as (Hb & Hn & Hw). unfold payload_ok. cbn. split; [done|]. split; [lia|].
    intros Hle. destruct (Hw ltac:(lia)) as [He Hused]. split; [done|]. eapply Forall_impl; [exact Hused|]. cbn. intros x; lia. }
  clearbody p1. rewrite run_eff_bind. cbn [modify]. rewrite run_eff_bind.
  set (v1 := set_payload p1 v). pose proof (roll_cases used stored p1 v1 Hf eq_refl (proj1 Hst) Hu Hpay1) as Hroll.
  assert (source_ok used v1) as Hok1 by (unfold source_ok; cbn; rewrite Hf; by exists stored).
  destruct (_roll_session_if_needed p1 v1) as [[p2|e] v2]; [|by apply Hroll].
  destruct Hroll as (stored2 & Hf2 & Hst2 & Hu2 & Hb2 & Hn2 & Hused2). clear Hpay1 Hok1. clearbody v1.
  rewrite run_eff_bind. cbn [modify]. set (v3 := set_payload _ v2).
  assert (forall used', Forall (fun x => x.1 <= stored2) used' -> used_ok used' (mk_payload (p_boot_id p2) (next_sequence p2 + 1)) ->
    source_ok used' v3) as Hnext.
  { intros used' Hle Hus. unfold source_ok. cbn. rewrite Hf2. exists stored2. split; [done|]. split; [done|]. split; [done|].
    unfold payload_ok. cbn. split; [lia|]. split; [lia|]. by intros _. }
  assert (used_ok used (mk_payload (p_boot_id p2) (next_sequence p2 + 1))) as Hused3
    by (eapply Forall_impl; [exact Hused2|]; cbn; intros x; lia).
  rewrite run_eff_bind. unfold lift. destruct (of_codec (encode_telemetry _ None)) as [raw|e] eqn:Henc; [|by apply Hnext].
  rewrite run_eff_bind. destruct (of_codec (packet_id _)) as [id|e] eqn:Hid; [|by apply Hnext].
  exists (p_boot_id p2, next_sequence p2). split; [|split; [cbn; lia|split; [done|split; [cbn; lia|split; [|split]]]]].
  - intros Hin. eapply Forall_forall in Hused2; [|apply list_elem_of_In; exact Hin]. cbn in Hused2. lia.
  - unfold packet_id, of_codec in Hid. cbn [payload_id boot_id sequence_number frame_of] in Hid.
    destruct (format_packet_id 1 (p_boot_id p2) (next_sequence p2)) as [id'|] eqn:He; [|discriminate Hid].
    apply format_packet_id_ok in He as (_ & _ & _ & ->). by injection Hid as <-.
  - apply Hnext; constructor; cbn; try done; lia.
  - exists (frame_of p2 q now). split; [|done]. unfold of_codec in Henc. by destruct (encode_telemetry _ None) as [raw'|e]; [injection Henc as <-|].
Qed.

(** The frame kept for repetition is the route's. *)
Lemma make_keeps_last p q now v : last_raw (make_frame p q now v).2 = last_raw v.
Proof.
  set (same := fun v v' : Vendor => last_raw v' = last_raw v). enough (keeps same (make_frame p q now)) as H by exact (H v).
  assert (PreOrder same) by (split; [done|intros ??? H1 H2; unfold same in *; congruence]).
  unfold make_frame, _roll_session_if_needed. keep_with ltac:(reflexivity). all: intros w; unfold persist; by repeat case_match.
Qed.

Lemma start_source_ok used v : source_ok used v -> source_ok used (start v).2.
Proof.
  intros Hok. unfold start. rewrite run_eff_bind. cbn [modify]. rewrite run_eff_bind. unfold _load_next_boot_id.
  rewrite run_eff_bind. cbn [get]. rewrite run_eff_bind. cbn [boot_file]. unfold source_ok in *. unfold lift.
  destruct (boot_file v) as [text|] eqn:Hf.
  - destruct Hok as (stored & -> & Hst & Hu & _). change UINT32_MAX with 4294967295 in *.
    rewrite read_boot_text by lia. rewrite run_eff_bind.
    destruct ((0 <=? stored) && (stored <? 4294967295)) eqn:Hrange; [|cbn; by exists stored]. bool_to_prop. cbn [mret eff_ret].
    rewrite run_eff_bind. unfold persist. cbn [write_fates].
    assert (Forall (fun x : Z * Z => x.1 <= stored + 1) used) as Hu' by (eapply Forall_impl; [exact Hu|]; cbn; intros; lia).
    assert (payload_ok used (stored + 1) (mk_payload (stored + 1) 0)) as Hnew.
    { unfold payload_ok. change UINT32_MAX with 4294967295. cbn. split; [lia|]. split; [lia|]. intros _. split; [done|].
      eapply Forall_impl; [exact Hu|]. cbn. intros; lia. }
    destruct (write_fates v) as [|[] fs]; cbn; [exists (stored + 1)|exists (stored + 1)|exists stored]; split; try done; split; try lia; by split.
  - destruct Hok as [-> Hnone]. rewrite run_eff_bind. cbn [mret eff_ret Z.leb Z.ltb Z.compare andb]. 
    change (0 <? UINT32_MAX) with true. cbn [mret eff_ret andb]. rewrite run_eff_bind. unfold persist. cbn [write_fates].
    assert (payload_ok [] 1 (mk_payload 1 0)) as Hnew
      by (unfold payload_ok; change UINT32_MAX with 4294967295; cbn; split; [lia|]; split; [lia|]; intros _; split; [done|constructor]).
    destruct (write_fates v) as [|[] fs]; cbn; [exists 1|exists 1|by split]; split; try done; split; try (change UINT32_MAX with 4294967295; lia); by split.
Qed.

Lemma identifiers_new events : forall used v, source_ok used v ->
  exists news, (identifiers v events).1 = map (fun x => packet_id_text 1 x.1 x.2) news /\ NoDup news /\
    Forall (fun x => ~ In x used /\ 0 <= x.1 /\ 0 <= x.2) news.
Proof.
  induction events as [|[e fs] events IH]; intros used v Hok; [exists []; split; [done|split; constructor]|]. cbn [identifiers].
  assert (source_ok used (with_fates fs v)) as Hok1 by exact Hok.
  destruct e as [|q now]; cbn [source_step].
  - destruct (IH used (start (with_fates fs v)).2 (start_source_ok used _ Hok1)) as (news & Hn & H).
    destruct (identifiers _ events) as [ids v2]. by exists news.
  - destruct (payload (with_fates fs v)) as [p|] eqn:Hp.
    2: { destruct (IH used (with_fates fs v) Hok1) as (news & Hn & H). destruct (identifiers _ events) as [ids v2]. by exists news. }
    pose proof (make_cases used (with_fates fs v) p q now Hok1 Hp) as Hm.
    destruct (make_frame p q now (with_fates fs v)) as [[[raw id]|e] v1].
    + destruct Hm as (x & Hx & H1 & H2 & _ & -> & Hok2 & _). destruct (IH (x :: used) v1 Hok2) as (news & Hn & Hnd & Hf).
      destruct (identifiers v1 events) as [ids v2]. cbn in Hn |- *. exists (x :: news). split; [by rewrite Hn|]. split.
      * constructor; [|done]. intros Hin. eapply Forall_forall in Hf; [|exact Hin]. destruct Hf as (Hf & _). apply Hf. by left.
      * constructor; [by split; [|lia]|]. eapply Forall_impl; [exact Hf|]. cbn. intros y (Hy & ? & ?). split; [|done]. intros Hin. apply Hy. by right.
    + destruct (IH used v1 Hm) as (news & Hn & H). destruct (identifiers v1 events) as [ids v2]. by exists news.
Qed.

(** ** The forwarder *)

(** What [forward] does after [attempt - 1] attempts with [left] to go. *)
Lemma forward_from_run left attempt raw id answers v :
  attempt + Z.of_nat left = 4 -> (1 <= left)%nat ->
  exists k, (1 <= k <= left)%nat /\
    posts (forward_from left attempt raw id answers v).2 = posts v ++ replicate k (raw, id) /\
    (forall j, (j < k - 1)%nat -> match answers (attempt + Z.of_nat j) with Answered st _ => 500 <= st | Failed _ => True end) /\
    match answers (attempt + Z.of_nat (k - 1)) with
    | Answered st text => (forward_from left attempt raw id answers v).1 = Ok (st, text) /\ (st < 500 \/ k = left)
    | Failed name => (forward_from left attempt raw id answers v).1 = Raise (HTTPError name) /\ k = left
    end.
Proof.
  revert attempt v; induction left as [|left IH]; intros attempt v Ha Hl; [lia|]. cbn [forward_from].
  rewrite run_eff_bind. cbn [modify]. set (v1 := add_post raw id v).
  destruct (answers attempt) as [st text|name] eqn:Hans.
  - destruct ((st <? 500) || (attempt =? 3)) eqn:Hstop.
    + exists 1%nat. split; [lia|]. split; [done|]. split; [lia|]. rewrite Z.add_0_r, Hans. split; [done|].
      bool_to_prop. destruct Hstop; bool_to_prop; [by left|right; lia].
    + bool_to_prop. destruct (IH (attempt + 1) v1 ltac:(lia) ltac:(lia)) as (k & Hk & Hp & Hj & Hr). exists (S k).
      split; [lia|]. split; [rewrite Hp; cbn; by rewrite <- app_assoc|]. split.
      * intros [|j] Hlt; [rewrite Z.add_0_r, Hans; lia|]. replace (attempt + Z.of_nat (S j)) with (attempt + 1 + Z.of_nat j) by lia. apply Hj. lia.
      * replace (attempt + Z.of_nat (S k - 1)) with (attempt + 1 + Z.of_nat (k - 1)) by lia.
        revert Hr. destruct (answers (attempt + 1 + Z.of_nat (k - 1))); intros [-> Hr]; (split; [done|]); [destruct Hr as [Hr|Hr]; [by left|right; lia]|lia].
  - destruct (Z.eqb_spec attempt 3) as [->|Hne].
    + exists 1%nat. split; [lia|]. split; [done|]. split; [lia|]. rewrite Z.add_0_r, Hans. split; [done|lia].
    + destruct (IH (attempt + 1) v1 ltac:(lia) ltac:(lia)) as (k & Hk & Hp & Hj & Hr). exists (S k).
      split; [lia|]. split; [rewrite Hp; cbn; by rewrite <- app_assoc|]. split.
      * intros [|j] Hlt; [by rewrite Z.add_0_r, Hans|]. replace (attempt + Z.of_nat (S j)) with (attempt + 1 + Z.of_nat j) by lia. apply Hj. lia.
      * replace (attempt + Z.of_nat (S k - 1)) with (attempt + 1 + Z.of_nat (k - 1)) by lia.
        revert Hr. destruct (answers (attempt + 1 + Z.of_nat (k - 1))); intros [-> Hr]; (split; [done|]); [destruct Hr as [Hr|Hr]; [by left|right; lia]|lia].
Qed.

(** ** Wire failures *)

Lemma encoded_bytes f raw :
  encode_telemetry f None = Ok raw ->
  length raw = 28%nat /\ wire_field raw 0 1 = 1 /\ wire_field raw 24 4 = zlib_crc32 (take 24 raw).
Proof.
  intros (Hf & _ & body & crc & Hb & Hc & ->)%encode_ok. destruct (encoded_wire f body crc Hb Hc) as (Hl & Hi & Hcrc).
  split; [done|]. split; [|done]. change (wire_field _ 0 1) with (protocol_version (icd_frame (body ++ crc))). rewrite Hi. apply Hf.
Qed.

Lemma flip_last_byte b : byte_of (Z.lxor (byte_val b) 0x01) <> b.
Proof. by destruct b; vm_compute. Qed.

Lemma corrupted_rejected raw t :
  length raw = 28%nat -> wire_field raw 0 1 = 1 -> wire_field raw 24 4 = zlib_crc32 (take 24 raw) ->
  exists d, decode_telemetry (_apply_wire_failure raw CORRUPT_CRC) t = Raise (TelemetryValidationError CRC_MISMATCH d).
Proof.
  intros Hl Hv Hc. apply decode_wire_rejects. destruct raw as [|b0 raw _] using rev_ind; [discriminate Hl|].
  rewrite length_app in Hl. cbn in Hl. unfold _apply_wire_failure. rewrite last_snoc, length_app. cbn [length].
  rewrite Nat.add_sub, take_app_length.
  assert (wire_field (raw ++ [byte_of (Z.lxor (byte_val b0) 1)]) 24 4 <>
    zlib_crc32 (take 24 (raw ++ [byte_of (Z.lxor (byte_val b0) 1)]))) as Hne.
  { pose proof (burst_breaks_crc raw [b0] [byte_of (Z.lxor (byte_val b0) 1)] []) as H. cbn [app] in H. apply H; try done.
    - rewrite length_app. cbn. lia.
    - cbn. lia.
    - intros [= He]. by apply (flip_last_byte b0).
    - right. lia. }
  set (changed := raw ++ [byte_of (Z.lxor (byte_val b0) 1)]) in *.
  assert (wire_field changed 0 1 = 1) as Hv' by (rewrite <- Hv; unfold wire_field, changed; destruct raw; [cbn in Hl; lia|done]).
  assert (length changed = 28%nat) as Hl' by (unfold changed; rewrite length_app; cbn; lia).
  unfold wire_rules. cbn [first_broken]. rewrite bool_decide_false by (intros He; by rewrite He in Hl').
  rewrite Hv'. cbn [Z.eqb Pos.eqb negb]. rewrite bool_decide_true by done. cbn [negb].
  destruct (Z.eqb_spec (wire_field changed 24 4) (zlib_crc32 (take 24 changed))); [done|done].
Qed.

Lemma unsupported_rejected raw t :
  length raw = 28%nat ->
  let changed := _apply_wire_failure raw UNSUPPORTED_VERSION in
  (exists d, decode_telemetry changed t = Raise (TelemetryValidationError UNSUPPORTED_PROTOCOL_VERSION d)) /\
  wire_field changed 24 4 = zlib_crc32 (take 24 changed).
Proof.
  intros Hl. unfold _apply_wire_failure. set (body := take TELEMETRY_V1_BODY_SIZE (byte_of 2 :: tail raw)).
  assert (length body = 24%nat) as Hlb by (unfold body; rewrite length_take; change TELEMETRY_V1_BODY_SIZE with 24%nat;
    destruct raw; [discriminate Hl|]; cbn [length tail] in *; lia).
  destruct (pack_crc body) as [crc Hcrc]. rewrite Hcrc. cbn zeta.
  pose proof (pack_length _ _ _ Hcrc) as Hlc. change (calcsize _) with 4%nat in Hlc.
  assert (exists rest, body = byte_of 2 :: rest) as [rest Hbody] by (unfold body; by eexists).
  split.
  - apply decode_wire_rejects. rewrite Hbody. unfold wire_rules. cbn [first_broken app].
    rewrite bool_decide_false by done. done.
  - apply unpack_pack in Hcrc. unfold wire_field. rewrite drop_app_length' by lia. rewrite take_app_length' by lia.
    rewrite take_ge by lia. unfold unpack in Hcrc. rewrite bool_decide_true in Hcrc by done. cbn in Hcrc.
    rewrite take_ge in Hcrc by lia. rewrite crc32_iso_hdlc_spec in Hcrc. by simplify_eq.
Qed.

(** ** Properties *)

(** C10. Identities are never reused: over any number of frames, skipped numbers, session rolls and restarts
    of the simulator, with file writes that fail at any of them, no message identifier is made twice. *)
Theorem identifiers_never_repeat events : NoDup (identifiers blank events).1.
Proof.
  destruct (identifiers_new events [] blank) as (news & -> & Hnd & Hf); [by split|].
  clear -Hnd Hf. induction Hnd as [|x news Hx _ IH]; [constructor|]. apply Forall_cons in Hf as [(_ & Hx1 & Hx2) Hf].
  cbn [map]. constructor; [|by apply IH]. intros ([b s] & He & Hin%list_elem_of_In)%list_elem_of_In%in_map_iff.
  eapply Forall_forall in Hf as (_ & Hb & Hs); [|exact Hin]. cbn in *.
  apply packet_id_text_inj in He as (_ & He1 & He2); try lia. apply Hx. destruct x as [b' s']. cbn in *. by subst.
Qed.

(** C23. The forwarder sends the exact bytes under one request identifier, at most three times: it stops at
    the first answer below 500, repeats after each failure or server error, and its result is that of the
    last attempt. *)
Theorem forward_exact raw id answers v :
  exists k, (1 <= k <= 3)%nat /\
    posts (forward raw id answers v).2 = posts v ++ replicate k (raw, id) /\
    (forall j, (j < k - 1)%nat -> match answers (1 + Z.of_nat j) with Answered st _ => 500 <= st | Failed _ => True end) /\
    match answers (Z.of_nat k) with
    | Answered st text => (forward raw id answers v).1 = Ok (st, text) /\ (st < 500 \/ k = 3%nat)
    | Failed name => (forward raw id answers v).1 = Raise (HTTPError name) /\ k = 3%nat
    end.
Proof.
  destruct (forward_from_run 3 1 raw id answers v) as (k & Hk & Hp & Hj & Hr); [done|lia|].
  exists k. split; [done|]. split; [done|]. split; [done|]. by replace (1 + Z.of_nat (k - 1)) with (Z.of_nat k) in Hr by lia.
Qed.

(** The deliberate wire failures of any encoded frame do what they are named for: a corrupted checksum
    is rejected by the ground's decoder as CRC_MISMATCH, an unsupported version as such although its
    checksum is right, at every receipt time, and the other modes leave the bytes alone. *)
Theorem wire_failures_rejected f raw t :
  encode_telemetry f None = Ok raw ->
  (exists d, decode_telemetry (_apply_wire_failure raw CORRUPT_CRC) t = Raise (TelemetryValidationError CRC_MISMATCH d)) /\
  (exists d, decode_telemetry (_apply_wire_failure raw UNSUPPORTED_VERSION) t
     = Raise (TelemetryValidationError UNSUPPORTED_PROTOCOL_VERSION d)) /\
  wire_field (_apply_wire_failure raw UNSUPPORTED_VERSION) 24 4
    = zlib_crc32 (take 24 (_apply_wire_failure raw UNSUPPORTED_VERSION)) /\
  _apply_wire_failure raw NONE = raw /\ _apply_wire_failure raw SKIP_SEQUENCE = raw.
Proof.
  intros (Hl & Hv & Hc)%encoded_bytes. destruct (unsupported_rejected raw t Hl) as [Hu Hcrc].
  split; [by apply corrupted_rejected|]. by split_and!.
Qed.

Lemma wire_failures_rejected_witness :
  exists d, decode_telemetry (_apply_wire_failure golden_raw CORRUPT_CRC) golden_receipt = Raise (TelemetryValidationError CRC_MISMATCH d).
Proof.
  destruct (wire_failures_rejected golden_frame golden_raw golden_receipt) as [H _]; [vm_compute; reflexivity|exact H].
Defined.

(** ** Concrete runs *)

Definition nominal (mode : FailureMode) : TelemetryRequest := mk_request (decimal 284 1) (decimal 281 1) SCIENCE 0 mode.

Example identifiers_example :
  (identifiers blank [(Start, []); (Make (nominal NONE) 1_784_203_200_000_000, []);
    (Make (nominal SKIP_SEQUENCE) 1_784_203_200_000_000, []); (Start, [false]); (Start, []); (Make (nominal NONE) 1_784_203_200_000_000, [])]).1
  = ["TLM-P01-B00000001-S00000000"; "TLM-P01-B00000001-S00000002"; "TLM-P01-B00000002-S00000000"]%string.
Proof. vm_compute. reflexivity. Qed.

(** The sample time goes through a float of seconds, which can cost a microsecond, here in 2038. *)
Example timestamp_truncated : _timestamp_us 2_175_937_381_792_174 = 2_175_937_381_792_173.
Proof. vm_compute. reflexivity. Qed.
End VendorSim.
