(* ===== verification/VendorPath.v ===== *)
(** * From the vendor to the gateway

    What the frames of the vendor simulator, over restarts, rolled sessions, failed writes and deliberate
    wire failures, are answered by the abstract gateway that the real one implements. *)
From S2P Require Import Prelude PyFormat Codec Sequence PyEffect VendorSim Repository RepositoryAccept SystemAnswer.

Open Scope Z_scope.

Module VendorPath.
Import Codec.Codec VendorSim.

(** ** The bytes a run of the simulator emits *)

Definition emit (v : Vendor) (e : event) : option bytes * Vendor :=
  match e with
  | Start => (None, (start v).2)
  | Make q now =>
      let '(r, v') := choose_frame q now v in
      (match r with Ok (raw, _) => Some raw | Raise _ => None end, v')
  end.

(** Events with the fates of their file writes, as in [identifiers]. *)
Fixpoint emitted (v : Vendor) (events : list (event * list bool)) : list bytes :=
  match events with
  | [] => []
  | (e, fs) :: events' =>
      let '(raw, v') := emit (with_fates fs v) e in
      match raw with Some raw => raw :: emitted v' events' | None => emitted v' events' end
  end.

Definition frame_key : Type := Z * Z.
Implicit Types (made : list (frame_key * bytes)) (seen : list bytes) (m : sessions).

(** Frames made: no key twice, and each frame is the encoding of one with its key. *)
Record frames_ok made : Prop := {
  keys_unique : NoDup made.*1;
  frames_encode k raw : (k, raw) ∈ made ->
    exists f, encode_telemetry f None = Ok raw /\ payload_id f = 1 /\ (boot_id f, sequence_number f) = k
}.

Lemma frames_key made k k' raw raw' :
  frames_ok made -> (k, raw) ∈ made -> (k', raw') ∈ made -> (k = k' <-> raw = raw').
Proof.
  intros [Hnd Henc] Hin Hin'. split; [intros ->|intros ->].
  - clear Henc. induction made as [|[k1 raw1] made IH]; [by apply elem_of_nil in Hin|]. cbn in Hnd. apply NoDup_cons in Hnd as [Hn Hnd].
    apply elem_of_cons in Hin as [[= -> ->]|Hin], Hin' as [He|Hin'].
    + by injection He.
    + destruct Hn. by apply (list_elem_of_fmap_2 fst _ _ Hin').
    + injection He as -> ->. destruct Hn. by apply (list_elem_of_fmap_2 fst _ _ Hin).
    + by apply IH.
  - destruct (Henc _ _ Hin) as (f & (_ & Hf & _)%(encoded_decodes _ _ _ (utc 0)) & _ & <-).
    destruct (Henc _ _ Hin') as (f' & (_ & Hf' & _)%(encoded_decodes _ _ _ (utc 0)) & _ & <-). congruence.
Qed.

(** No receipt time makes the bytes decode. *)
Definition undecodable (raw : bytes) : Prop := forall t, exists e, decode_telemetry raw t = Raise e.

(** The state of the simulator and the frames it has made. *)
Definition source_made made (v : Vendor) : Prop :=
  source_ok made.*1 v /\ frames_ok made /\ forall raw, last_raw v = Some raw -> raw ∈ made.*2.

Lemma start_last v : last_raw (start v).2 = None.
Proof.
  unfold start. rewrite run_eff_bind. cbn [modify]. set (v1 := mk_vendor _ _ _ _ _ _).
  set (same := fun v v' : Vendor => last_raw v' = last_raw v).
  assert (PreOrder same) by (split; [done|intros ??? H1 H2; unfold same in *; congruence]).
  enough (keeps same (_load_next_boot_id ≫= fun boot => modify (set_payload (mk_payload boot 0)))) as Hsame by exact (Hsame v1).
  unfold _load_next_boot_id. keep_with ltac:(reflexivity). all: intros w; unfold persist; by repeat case_match.
Qed.

Lemma wire_failure_cases f raw mode :
  encode_telemetry f None = Ok raw -> _apply_wire_failure raw mode = raw \/ undecodable (_apply_wire_failure raw mode).
Proof.
  intros (Hl & Hv & Hc)%encoded_bytes. destruct mode; try by left.
  - right. intros t. destruct (corrupted_rejected raw t) as [d Hd]; [done..|]. by eexists.
  - right. intros t. destruct (unsupported_rejected raw t Hl) as [[d Hd] _]. by eexists.
Qed.

(** One event makes at most one frame, which keeps the keys apart, and emits it or an earlier one, or bytes
    that do not decode. *)
Lemma emit_made made v e :
  source_made made v -> exists made', source_made made' (emit v e).2 /\ made ⊆ made' /\
    forall raw, (emit v e).1 = Some raw -> raw ∈ made'.*2 \/ undecodable raw.
Proof.
  intros Hv. pose proof Hv as (Hs & Hok & Hlast). destruct e as [|q now]; cbn [emit].
  { exists made. split; [|done]. split; [by apply start_source_ok|]. split; [done|]. cbn. intros raw. by rewrite start_last. }
  unfold choose_frame. rewrite run_eff_bind. cbn [get]. case_bool_decide as Hd.
  { destruct (last_raw v) as [raw|] eqn:Hl; (exists made; split; [exact Hv|split; [done|]]); [|done].
    intros r [= <-]. left. by apply Hlast. }
  destruct (payload v) as [p|] eqn:Hp; [|exists made; by split_and!].
  rewrite run_eff_bind. pose proof (make_cases _ v p q now Hs Hp) as Hm. pose proof (make_keeps_last p q now v) as Hl.
  destruct (make_frame p q now v) as [[[raw id]|e] v1]; cbn [snd] in Hl; [|exists made; split; [split; [exact Hm|split; [done|cbn [snd]; by rewrite Hl]]|done]].
  destruct Hm as (k & Hk & _ & _ & _ & _ & Hs1 & f & He & Hp1 & Hkey). exists ((k, raw) :: made).
  assert (frames_ok ((k, raw) :: made)) as Hok1.
  { split; [cbn; constructor; [by rewrite list_elem_of_In|apply Hok]|]. intros k' raw' [[= -> ->]|Hin]%elem_of_cons; [by exists f|].
    by apply (frames_encode _ Hok). }
  assert (raw ∈ ((k, raw) :: made).*2 \/ undecodable raw) as Hraw by (left; by left).
  rewrite run_eff_bind. split; [split; [|split; [done|]]|split; [set_solver|]].
  - case_bool_decide; exact Hs1.
  - case_bool_decide as Hmode; cbn; intros r Hr; [|rewrite Hl in Hr; right; by apply Hlast].
    assert (_apply_wire_failure raw (q_failure_mode q) = raw) as Hsame by (by destruct Hmode as [-> | ->]). rewrite Hsame in Hr.
    injection Hr as <-. by left.
  - intros r. case_bool_decide; cbn; intros [= <-]; (destruct (wire_failure_cases f raw (q_failure_mode q) He) as [-> | ?]; [done|by right]).
Qed.

Lemma emitted_made events : forall made v, source_made made v ->
  exists made', frames_ok made' /\ made ⊆ made' /\ forall raw, raw ∈ emitted v events -> raw ∈ made'.*2 \/ undecodable raw.
Proof.
  induction events as [|[e fs] events IH]; intros made v Hv.
  { exists made. split; [apply Hv|]. split; [done|]. intros raw Hin. by apply elem_of_nil in Hin. }
  cbn [emitted]. destruct (emit_made made (with_fates fs v) e Hv) as (made1 & Hv1 & Hsub & Hraw).
  destruct (emit (with_fates fs v) e) as [raw v1]. cbn [fst snd] in *. destruct (IH made1 v1 Hv1) as (made2 & Hok & Hsub2 & Hall).
  exists made2. split; [done|]. split; [set_solver|]. destruct raw as [raw|]; [|done]. intros r [->|Hr]%elem_of_cons; [|by apply Hall].
  destruct (Hraw raw eq_refl) as [Hin|]; [left|by right]. apply list_elem_of_fmap in Hin as ([k ?] & -> & Hin).
  apply (list_elem_of_fmap_2 snd _ (k, _)). by apply Hsub2.
Qed.

(** ** The gateway's answers *)

(** The statuses of deliveries, each with its time of receipt. *)
Fixpoint answers m (deliveries : list (bytes * Z)) : list Z :=
  match deliveries with
  | [] => []
  | (raw, received) :: deliveries' => let '(code, m') := spec_receive raw received m in code :: answers m' deliveries'
  end.

(** What the vendor may expect: 422 for bytes that do not decode at that time, 202 for a frame that arrives for
    the first time and 200 for one that has arrived before. *)
Fixpoint expected seen (deliveries : list (bytes * Z)) : list Z :=
  match deliveries with
  | [] => []
  | (raw, received) :: deliveries' =>
      match decode_telemetry raw (utc received) with
      | Raise _ => 422 :: expected seen deliveries'
      | Ok _ => (if bool_decide (raw ∈ seen) then 200 else 202) :: expected (raw :: seen) deliveries'
      end
  end.

(** The sessions hold the frames seen, under their keys. *)
Definition sessions_hold made seen m : Prop :=
  (forall key, Seq.session_ok (m key)) /\
  forall boot number raw, Seq.packets (m (1, boot)) !! number = Some raw <-> raw ∈ seen /\ ((boot, number), raw) ∈ made.

(** A session after the delivery of a frame with a number that no other frame seen has. *)
Lemma deliver_frame s number raw :
  Seq.session_ok s -> 0 <= number <= Seq.UINT32_MAX -> raw <> [] -> (forall raw', Seq.packets s !! number = Some raw' -> raw' = raw) ->
  exists d s', Seq.deliver s number raw = Ok (d, s') /\ Seq.session_ok s' /\ Seq.packets s' = <[number := raw]> (Seq.packets s) /\
    decided d = if bool_decide (Seq.packets s !! number = Some raw) then 200 else 202.
Proof.
  intros Hs Hn Hr Hsame. destruct (Seq.packets s !! number) as [raw'|] eqn:Hp.
  - rewrite (Hsame raw' eq_refl) in Hp. destruct (Seq.redelivery_idempotent s number raw raw Hs Hp Hr) as (d & Hd & _ & Hdisp & _).
    rewrite bool_decide_true in Hdisp by done. exists d, s. split; [done|]. split; [done|]. rewrite insert_id by done. split; [done|].
    unfold decided. rewrite Hdisp, (Hsame raw' eq_refl), bool_decide_true; done.
  - destruct (Seq.deliver_ok s number raw Hs Hn Hr) as (d & s' & Hd & Hs' & Hu & _ & Hnew).
    apply Hu in Hp as Hun. exists d, s'. split; [done|]. split; [done|]. split; [by apply Hnew|]. rewrite bool_decide_false by done.
    unfold Seq.is_unique in Hun. apply negb_true_iff, bool_decide_eq_false in Hun. unfold decided.
    destruct (Seq.disposition d); try done; destruct Hun; rewrite !elem_of_cons; auto.
Qed.

Lemma receive_made made seen m k raw received :
  frames_ok made -> sessions_hold made seen m -> (k, raw) ∈ made ->
  let '(code, m') := spec_receive raw received m in
  match decode_telemetry raw (utc received) with
  | Raise _ => code = 422 /\ m' = m
  | Ok _ => code = (if bool_decide (raw ∈ seen) then 200 else 202) /\ sessions_hold made (raw :: seen) m'
  end.
Proof.
  intros Hok [Hses Hpk] Hin. destruct (frames_encode _ Hok _ _ Hin) as (f & He & Hp & Hkey).
  unfold spec_receive. destruct (decode_telemetry raw (utc received)) as [g|e] eqn:Hd; [|done].
  destruct (encoded_decodes _ _ _ (utc received) He) as (Hl & Hi & (_ & _ & _ & Hn & _) & _).
  assert (g = f) as -> by (apply decode_ok in Hd as (_ & -> & _); done).
  destruct k as [boot number]. injection Hkey as Hb Hs. rewrite Hp, Hb, Hs in *.
  destruct (deliver_frame (m (1, boot)) number raw) as (d & s' & Hdel & Hses' & Hnew & Hcode); [apply Hses| | | |].
  { change Seq.UINT32_MAX with (2 ^ 32 - 1). lia. }
  { intros ->. discriminate Hl. }
  { intros raw' [_ Hin']%Hpk. by apply (frames_key made (boot, number) (boot, number)). }
  rewrite Hdel. fold (decided d). rewrite Hcode. split; [apply (f_equal (fun b : bool => if b then 200 else 202)), bool_decide_ext; rewrite Hpk; tauto|].
  split; [intros key; cbv beta; destruct (decide (key = (1, boot))); [exact Hses'|apply Hses]|]. intros b n raw'. cbv beta. destruct (decide ((1, b) = (1, boot))) as [Hkey|Hkey].
  - injection Hkey as ->. rewrite Hnew. destruct (decide (n = number)) as [->|Hne].
    + rewrite lookup_insert_eq, elem_of_cons. split; [intros [= <-]; auto|]. intros [_ Hin']. f_equal. by apply (frames_key made (boot, number) (boot, number)).
    + rewrite lookup_insert_ne, Hpk, elem_of_cons by done. split; [tauto|]. intros [[->|] Hin']; [|done].
      destruct Hne. apply (frames_key made (boot, n) (boot, number) raw raw) in Hin' as [_ Hk]; [|done..]. by injection (Hk eq_refl).
  - rewrite Hpk, elem_of_cons. split; [tauto|]. intros [[->|] Hin']; [|done].
    destruct Hkey. apply (frames_key made (b, n) (boot, number) raw raw) in Hin' as [_ Hk]; [|done..]. by injection (Hk eq_refl) as -> ->.
Qed.

Lemma answers_expected made deliveries : frames_ok made -> forall seen m,
  sessions_hold made seen m -> (forall raw, raw ∈ deliveries.*1 -> raw ∈ made.*2 \/ undecodable raw) ->
  answers m deliveries = expected seen deliveries.
Proof.
  intros Hok. induction deliveries as [|[raw received] deliveries IH]; intros seen m Hm Hall; [done|]. cbn [answers expected].
  assert (forall r, r ∈ deliveries.*1 -> r ∈ made.*2 \/ undecodable r) as Hrest by (intros r Hr; apply Hall; by right).
  destruct (Hall raw ltac:(by left)) as [([k ?] & -> & Hin)%list_elem_of_fmap|Hun].
  - pose proof (receive_made made seen m k _ received Hok Hm Hin) as Hrec. cbn [snd]. destruct (spec_receive _ received m) as [code m'].
    destruct (decode_telemetry _ (utc received)); destruct Hrec as [-> Hm']; f_equal; [by apply IH|]. subst. by apply IH.
  - unfold spec_receive. destruct (Hun (utc received)) as [e ->]. f_equal. by apply IH.
Qed.

(** The vendor's frames are never lost to a conflict. Take any run of the simulator, with restarts, rolled
    sessions, failed writes of its boot file and deliberate wire failures, and deliver any of the bytes it
    emits, in any order and any number of times: a gateway that starts empty answers 422 where the bytes do
    not decode at their time of receipt, 202 the first time a frame arrives and 200 when it arrives again; it
    never answers 409 and never takes one frame for another. *)
Theorem vendor_frames_accepted events deliveries :
  (forall raw, raw ∈ deliveries.*1 -> raw ∈ emitted blank events) ->
  answers (fun _ => Seq.empty_session) deliveries = expected [] deliveries.
Proof.
  intros Hall. destruct (emitted_made events [] blank) as (made & Hok & _ & Hemit).
  { split; [by split|]. split; [|done]. split; [constructor|]. intros k raw Hin. by apply elem_of_nil in Hin. }
  apply (answers_expected made); [done| |auto].
  split; [intros key; apply Seq.empty_session_ok|]. intros boot number raw. split; [intros H; cbn in H; by rewrite lookup_empty in H|].
  intros [Hin _]. by apply elem_of_nil in Hin.
Qed.

(** ** A concrete run: a restart, a skipped number, a corrupted frame and a repetition *)

Definition demo_events : list (event * list bool) :=
  let at_ := 1_784_203_200_000_000 in
  [(Start, []); (Make (nominal NONE) at_, []); (Make (nominal SKIP_SEQUENCE) at_, []); (Make (nominal DUPLICATE_LAST) at_, []);
   (Make (nominal CORRUPT_CRC) at_, []); (Start, []); (Make (nominal NONE) at_, [])].
Definition backwards (sent : list bytes) : list (bytes * Z) := (fun raw => (raw, 1_784_203_201_000_000)) <$> (rev sent ++ take 1 sent).

Lemma backwards_sent sent raw : raw ∈ (backwards sent).*1 -> raw ∈ sent.
Proof.
  unfold backwards. rewrite <- list_fmap_compose, list_elem_of_fmap. intros (r & -> & Hin). cbn.
  apply elem_of_app in Hin as [Hin|Hin]; [by apply list_elem_of_In, in_rev, list_elem_of_In|].
  rewrite <- (take_drop 1 sent). apply elem_of_app. by left.
Qed.

Lemma vendor_frames_accepted_witness :
  answers (fun _ => Seq.empty_session) (backwards (emitted blank demo_events)) = [202; 422; 202; 200; 202; 200].
Proof.
  rewrite (vendor_frames_accepted demo_events _ (backwards_sent _)). vm_compute. reflexivity.
Defined.
End VendorPath.
