(* ===== verification/VendorStream.v ===== *)
(** * The vendor's stream at the gateway

    The requests that the vendor simulator's forwarder posts, and what the running gateway answers them. *)
From S2P Require Import Prelude PyFormat Uuid PyText Json Codec Sequence PyEffect VendorSim Sql Schema Session Repository RepositoryFresh RepositoryMoves.
From S2P Require Import RepositoryAccept RepositoryExample RepositoryQuiet Redis Queue QueueSpec Config Gateway GroundApi Worker Linked.
From S2P Require Import SystemExample SystemProps SystemLive GroundApiProps SystemAnswer SystemFrames Replays SystemStream VendorPath.

Open Scope Z_scope.

(** ** The forwarder's requests *)

(** Bytes to post under an identifier; the HTTP client may declare their length and sends them in chunks. *)
Record parcel := mk_parcel { parcel_raw : bytes; parcel_id : uuid; parcel_length : option string; parcel_chunks : list bytes }.

(** The request that [forward] posts. *)
Definition forward_request (settings : VendorSettings) (p : parcel) : request := {|
  x_vendor_token := Some (simulator_vendor_token settings);
  x_request_id := Some (uuid_str (parcel_id p));
  header_content_length := parcel_length p;
  header_content_type := Some "application/octet-stream"%string;
  body_stream := parcel_chunks p |}.

(** The client sends the bytes and declares their length, and the identifier is of version 4. *)
Record sendable (limit : Z) (p : parcel) : Prop := {
  sends_bytes : concat (parcel_chunks p) = parcel_raw p;
  declares_length text : parcel_length p = Some text -> py_int text = Some (Z.of_nat (length (parcel_raw p)));
  within_limit : Z.of_nat (length (parcel_raw p)) <= limit;
  version_4 : _canonical_uuid4 (Some (uuid_str (parcel_id p))) = Some (parcel_id p)
}.

Section Answers.
Context (settings : GroundSettings) (vendor : VendorSettings).
Context (Htoken : simulator_vendor_token vendor = vendor_token settings) (Hascii : is_ascii (vendor_token settings) = true)
  (Hset : ground_settings_ok settings).

Lemma forward_presentable p :
  sendable (max_telemetry_body_bytes settings) p -> presentable settings (forward_request vendor p) (parcel_raw p) (parcel_id p).
Proof.
  intros [Hb Hl Hlim Hid]. split; [cbn; by rewrite Htoken| |exact Hid|vm_compute; reflexivity|vm_compute; reflexivity].
  apply bounded_body_ok; [pose proof (body_limit _ Hset); lia|]. cbn [body_stream forward_request]. split; [|by rewrite Hb].
  unfold declared_ok. cbn [header_content_length forward_request]. destruct (parcel_length p) as [text|]; [|done]. rewrite (Hl text eq_refl). by eexists.
Qed.

(** A parcel under a new identifier is answered as its bytes are. *)
Lemma spec_post_parcel p received g :
  sendable (max_telemetry_body_bytes settings) p -> ledger g !! parcel_id p = None ->
  spec_post settings (forward_request vendor p) received g =
    let '(code, m) := spec_receive (parcel_raw p) received (known g) in
    (code, mk_gateway m (<[parcel_id p := (parcel_raw p, verdict_of code)]> (ledger g))).
Proof.
  intros Hs Hnew. destruct (forward_presentable p Hs) as [Ht Hb Hid Hoct Hfit]. unfold spec_post. rewrite Ht, Hascii.
  cbn [negb]. rewrite bool_decide_eq_true_2, Hb by done. unfold spec_deliver. rewrite Hid. cbn [mbind option_bind]. rewrite Hnew.
  unfold overlong, spec_new, note. rewrite Hfit. rewrite Hoct, Hid. cbn [negb orb]. by rewrite bool_decide_eq_false_2.
Qed.

Lemma spec_all_parcels parcels : forall posts g,
  posts.*1 = forward_request vendor <$> parcels -> Forall (sendable (max_telemetry_body_bytes settings)) parcels ->
  NoDup (parcel_id <$> parcels) -> (forall p, p ∈ parcels -> ledger g !! parcel_id p = None) ->
  (spec_all settings posts g).1 = VendorPath.answers (known g) (zip (parcel_raw <$> parcels) posts.*2).
Proof.
  induction parcels as [|p parcels IH]; intros [|[r received] posts] g Hreq Hs Hnd Hnew; try done.
  cbn [fmap list_fmap fst] in Hreq, Hnd. injection Hreq as -> Hreq. apply Forall_cons in Hs as [Hp Hs]. apply NoDup_cons in Hnd as [Hnot Hnd].
  cbn [spec_all fmap list_fmap fst snd zip zip_with VendorPath.answers]. rewrite spec_post_parcel by (done || (apply Hnew; by left)).
  destruct (spec_receive (parcel_raw p) received (known g)) as [code m].
  specialize (IH posts (mk_gateway m (<[parcel_id p := (parcel_raw p, verdict_of code)]> (ledger g))) Hreq Hs Hnd).
  destruct (spec_all _ _ _) as [codes g']. cbn [fst known] in *. f_equal. apply IH. intros p' Hp'. cbn. rewrite lookup_insert_ne.
  - apply Hnew. by right.
  - intros He. apply Hnot. rewrite He. by apply list_elem_of_fmap_2.
Qed.
End Answers.

(** C4. From the vendor to the running gateway. Take any run of the simulator, with restarts, rolled sessions, failed
    writes of its boot file and deliberate wire failures, and let its forwarder post any of the bytes it
    emits, in any order and any number of times, each under its own identifier, to a gateway that starts on
    new tables and an empty queue. Whatever else the gateway and its workers are asked to do in between,
    while the services answer it replies 422 where the bytes do not decode at their time of receipt, 202 the
    first time a frame arrives and 200 when it arrives again: never 409, and never one frame for another. *)
Theorem vendor_stream_answered `{SqlEngine} `{!SqlLaws} `{Env} `{!UuidLaws} `{RedisServer} `{!RedisLaws} `{Network} `{interpreter : Interpreter}
    settings vendor describe events parcels ts s entries s' :
  all_served -> ground_settings_ok settings -> is_ascii (vendor_token settings) = true ->
  simulator_vendor_token vendor = vendor_token settings ->
  Forall (sendable (max_telemetry_body_bytes settings)) parcels -> NoDup (parcel_id <$> parcels) ->
  (forall p, p ∈ parcels -> parcel_raw p ∈ VendorPath.emitted VendorSim.blank events) ->
  tables_of s = create_schema -> (forall k, value_at (redis s) k = None) -> requests ts = forward_request vendor <$> parcels ->
  serve_all settings describe ts s = (entries, s') -> fresh_until (uuid_draws (tables s') + 14) (tables s) ->
  entries.*2 = VendorPath.expected [] (zip (parcel_raw <$> parcels) entries.*1.*2).
Proof.
  intros Hserved Hset Hascii Htoken Hs Hnd Hem Ht Hr Hreq Hrun Hf.
  pose proof (run_implements Hserved settings Hset Hascii describe ts s new_gateway (fresh_implements s Ht Hr)) as Hall.
  rewrite Hrun in Hall. specialize (Hall Hf). destruct (spec_all settings entries.*1 new_gateway) as [codes g'] eqn:Hspec.
  destruct Hall as (-> & _ & Hreqs). rewrite Hreq in Hreqs.
  pose proof (spec_all_parcels settings vendor Htoken Hascii Hset parcels entries.*1 new_gateway Hreqs Hs Hnd (fun p _ => lookup_empty _)) as Hans.
  rewrite Hspec in Hans. cbn [fst known new_gateway] in Hans. rewrite Hans. apply (VendorPath.vendor_frames_accepted events).
  intros raw Hin. apply list_elem_of_fmap in Hin as ([raw' received] & -> & Hin). apply elem_of_zip_l in Hin.
  apply list_elem_of_fmap in Hin as (p & -> & Hp). by apply Hem.
Qed.

(** ** A concrete stream: a restart, a skipped number, a corrupted frame and repetitions, last frame first *)

Module VendorStreamExample.
#[local] Existing Instance cpython.
#[local] Existing Instance MapRedis.server.
#[local] Existing Instance MapRedis.laws.
#[local] Existing Instance Replays.steady.
Import SystemExample.

Definition vendor : VendorSettings := {|
  ground_api_url := "http://ground-api"; simulator_vendor_token := "vendor"; boot_id_file := "boot";
  auto_send_interval_seconds := PyFloat.float_of_Z 0 |}%string.

Definition sent : list bytes := VendorPath.emitted VendorSim.blank VendorPath.demo_events.
Definition pack (raws : list bytes) : list parcel :=
  imap (fun i raw => mk_parcel raw (0x7d1b0a5ce2d84d53b4ce4c1e5a0f0001 + Z.of_nat i) None [take 10 raw; drop 10 raw]) raws.
Definition parcels : list parcel := pack (VendorPath.backwards sent).*1.
Definition vendor_tasks : list task :=
  flat_map (fun p => [PostTelemetry (forward_request vendor p); GetReady; RunWorker worker_settings "worker-1" 1]) parcels.

Definition sendable_check (p : parcel) : bool :=
  bool_decide (concat (parcel_chunks p) = parcel_raw p) && bool_decide (parcel_length p = None) &&
  (Z.of_nat (length (parcel_raw p)) <=? max_telemetry_body_bytes settings) &&
  bool_decide (_canonical_uuid4 (Some (uuid_str (parcel_id p))) = Some (parcel_id p)).

Lemma parcels_sendable : Forall (sendable (max_telemetry_body_bytes settings)) parcels.
Proof.
  assert (forallb sendable_check parcels = true) as Hall by (vm_compute; reflexivity).
  apply Forall_forall. intros p Hp. rewrite forallb_forall in Hall. specialize (Hall p (proj1 (list_elem_of_In _ _) Hp)). clear Hp.
  unfold sendable_check in Hall. bool_to_prop. split; [done|congruence|lia|done].
Qed.

Lemma pack_raw raws p : p ∈ pack raws -> parcel_raw p ∈ raws.
Proof. unfold pack. rewrite elem_of_lookup_imap. intros (i & raw & -> & Hin%list_elem_of_lookup_2). exact Hin. Qed.

Lemma vendor_stream_answered_witness :
  (serve_all settings no_text vendor_tasks start).1.*2 = [202; 422; 202; 200; 202; 200].
Proof.
  assert (all_served) as Hserved by (intros n; split; reflexivity).
  destruct (serve_all settings no_text vendor_tasks start) as [entries s'] eqn:Hrun.
  assert (uuid_draws (tables s') + 14 <= 1000)%nat as Hd.
  { apply (f_equal (fun es => uuid_draws (tables es.2))) in Hrun. cbn [snd] in Hrun. rewrite <- Hrun. apply Nat.leb_le. vm_compute. reflexivity. }
  cbn [fst]. rewrite (vendor_stream_answered settings vendor no_text VendorPath.demo_events parcels vendor_tasks start entries s'
    Hserved settings_ok eq_refl eq_refl parcels_sendable ltac:(apply (bool_decide_unpack _); vm_compute; exact I)
    (fun p Hp => VendorPath.backwards_sent sent _ (pack_raw _ p Hp)) eq_refl
    (fun k => lookup_empty (K:=string) (M:=gmap string) (A:=redis_value) k) ltac:(vm_compute; reflexivity) Hrun (StreamExample.start_until _ Hd)).
  apply (f_equal fst) in Hrun. cbn [fst] in Hrun. rewrite <- Hrun. vm_compute. reflexivity.
Defined.
End VendorStreamExample.
