(* ===== verification/Startup.v ===== *)
(** * Start-up helpers: [mission_ground/common/retry.py], [common/config.py] and [common/nats.py]

    The repetition of a failing operation with growing delays, environment variables with defaults, and
    the connection to the message bus with the creation of its stream. *)
From S2P Require Import Prelude PyFloat PyFormat Uuid PyText PyDecimal PyEffect.

Open Scope Z_scope.

Module Startup.

(** ** [retry_async] *)

Inductive retry_exn (E : Type) := AssertionError | Failure (e : E).
Arguments AssertionError {E}.
Arguments Failure {E} e.

(** What is outside the program, and the delays slept so far. *)
Record World (S : Type) := mk_world { outside : S; slept : list float }.
Arguments mk_world {S} outside slept.
Arguments outside {S} w : rename.
Arguments slept {S} w : rename.

(** [min(a, b)]: [a] unless [b] is smaller. *)
Definition py_min (a b : float) : float := if SFltb b a then b else a.
Definition next_delay (max_delay delay : float) : float := py_min (float_mul delay (decimal 15 1)) max_delay.

Section Retry.
Context {S E A : Type} (operation : eff S E A) (max_delay : float).

Fixpoint retry_from (left : nat) (delay : float) (last_error : option E) : eff (World S) (retry_exn E) A :=
  match left with
  | O => match last_error with Some e => throw (Failure e) | None => throw AssertionError end
  | Datatypes.S left' => fun w =>
      match operation (outside w) with
      | (Ok a, o) => (Ok a, mk_world o (slept w))
      | (Raise e, o) => retry_from left' (next_delay max_delay delay) (Some e) (mk_world o (slept w ++ [delay]))
      end
  end.

Definition retry_async (attempts : nat) (initial_delay : float) : eff (World S) (retry_exn E) A :=
  retry_from attempts initial_delay None.

(** The state after [k] runs of the operation that all raise, with the last exception. *)
Fixpoint failures (k : nat) (last_error : option E) (o : S) : option (option E * S) :=
  match k with
  | O => Some (last_error, o)
  | Datatypes.S k' => match operation o with (Raise e, o') => failures k' (Some e) o' | (Ok _, _) => None end
  end.

(** The delays after [k] failures. *)
Fixpoint delays (k : nat) (delay : float) : list float :=
  match k with O => [] | Datatypes.S k' => delay :: delays k' (next_delay max_delay delay) end.

Definition retry_error (last_error : option E) : retry_exn E :=
  match last_error with Some e => Failure e | None => AssertionError end.

Lemma retry_from_outcome left : forall delay last_error w,
  exists k last o, failures k last_error (outside w) = Some (last, o) /\
    let '(r, w') := retry_from left delay last_error w in
    slept w' = slept w ++ delays k delay /\
    ((k < left)%nat /\ (exists a, operation o = (Ok a, outside w') /\ r = Ok a) \/
     k = left /\ outside w' = o /\ r = Raise (retry_error last)).
Proof.
  induction left as [|left IH]; intros delay last_error w; cbn [retry_from].
  - exists O, last_error, (outside w). split; [done|]. destruct last_error; cbn; rewrite app_nil_r; (split; [done|by right]).
  - destruct (operation (outside w)) as [[a|e] o] eqn:Hop.
    + exists O, last_error, (outside w). split; [done|]. cbn. rewrite app_nil_r. split; [done|]. left. split; [lia|by exists a].
    + destruct (IH (next_delay max_delay delay) (Some e) (mk_world o (slept w ++ [delay]))) as (k & last & o' & Hf & Hr).
      exists (Datatypes.S k), last, o'. cbn [failures delays outside slept] in *. rewrite Hop. split; [done|].
      destruct (retry_from _ _ _ _) as [r w']. destruct Hr as (Hs & Hr). split; [by rewrite Hs, <- app_assoc|].
      destruct Hr as [[Hk Hr]|[-> Hr]]; [left; split; [lia|done]|by right].
Qed.

(** The retry returns: the operation runs until its first success, at most [attempts] times, with the
    growing delays in between; its result is that of the last run, and only for no attempts at all there
    is none. *)
Theorem retry_async_outcome attempts initial_delay w :
  exists k last o, (k <= attempts)%nat /\ failures k None (outside w) = Some (last, o) /\
    let '(r, w') := retry_async attempts initial_delay w in
    slept w' = slept w ++ delays k initial_delay /\
    (if (k <? attempts)%nat then exists a, operation o = (Ok a, outside w') /\ r = Ok a
     else outside w' = o /\ r = Raise (retry_error last)) /\
    (last = None <-> k = O).
Proof.
  destruct (retry_from_outcome attempts initial_delay None w) as (k & last & o & Hf & Hr). unfold retry_async.
  exists k, last, o. destruct (retry_from _ _ _ _) as [r w']. destruct Hr as (Hs & Hr).
  split; [destruct Hr as [[? _]|[-> _]]; lia|]. split; [done|]. split; [done|]. split.
  - destruct Hr as [[Hk Hr]|(-> & Ho & Hr)]; [by rewrite (proj2 (Nat.ltb_lt _ _) Hk)|by rewrite Nat.ltb_irrefl].
  - assert (forall k o0 l, failures k (Some l) o0 = Some (last, o) -> last <> None) as Hsome.
    { clear. induction k as [|k IH]; intros o0 l; cbn; [by intros [= <- _]|]. destruct (operation o0) as [[a|e] o']; [done|apply IH]. }
    destruct k as [|k]; cbn in Hf; [by injection Hf as <- _|]. split; [intros ->|done].
    destruct (operation (outside w)) as [[a|e] o']; [done|]. by destruct (Hsome _ _ _ Hf).
Qed.

(** No delay exceeds the maximum. *)
Lemma delays_bounded k delay :
  SFltb max_delay max_delay = false -> SFltb max_delay delay = false ->
  Forall (fun d => SFltb max_delay d = false) (delays k delay).
Proof.
  intros Hm. revert delay. induction k as [|k IH]; intros delay Hd; constructor; [done|]. apply IH.
  unfold next_delay, py_min. by destruct (SFltb max_delay (float_mul _ _)) eqn:Hlt.
Qed.
End Retry.

(** The thirty delays of the default settings: about 130 seconds in all. *)
Example default_delays :
  map float_repr (take 8 (delays (float_of_Z 5) 30 (decimal 5 1)))
    = ["0.5"; "0.75"; "1.125"; "1.6875"; "2.53125"; "3.796875"; "5.0"; "5.0"]%string /\
  float_repr (foldl float_add (S754_zero false) (delays (float_of_Z 5) 30 (decimal 5 1))) = "130.390625"%string.
Proof. split; vm_compute; reflexivity. Qed.

(** ** Environment *)

Section Environment.
Context (getenv : string -> option string).

Definition env (name default_ : string) : string := default default_ (getenv name).

Definition value_error {A} (m : option A) : result string A :=
  match m with Some a => Ok a | None => Raise "ValueError"%string end.

Definition env_int (name : string) (default_ : Z) : result string Z := value_error (py_int (env name (pretty default_))).
Definition env_float (name : string) (default_ : float) : result string float := value_error (py_float (env name (float_repr default_))).
End Environment.

Example env_defaults :
  env_int (fun _ => None) "METRICS_PORT" 9105 = Ok 9105 /\ env_float (fun _ => None) "SIM_RATE_HZ" (float_of_Z 20) = Ok (float_of_Z 20).
Proof. split; vm_compute; reflexivity. Qed.

(** ** [connect_nats] *)

Section Nats.
Context {S E C : Type} (connect : eff S E C) (stream_info add_stream : eff S E ()).

(** The stream [GROUND] is created when asking for it fails; another service may be faster. *)
Definition ensure_stream : eff S E () :=
  try_catch stream_info (fun _ => try_catch add_stream (fun _ => stream_info)).

(** Lift a call past the record of delays. *)
Definition unslept {A} (m : eff S E A) : eff (World S) (retry_exn E) A := fun w =>
  let '(r, o) := m (outside w) in (catch r (fun e => Raise (Failure e)), mk_world o (slept w)).

Definition connect_nats : eff (World S) (retry_exn E) C :=
  nc ← retry_async connect (float_of_Z 5) 30 (decimal 5 1);
  unslept ensure_stream ;;
  mret nc.

(** A service that is connected has the stream, whichever service created it. *)
Theorem connected_has_stream (exists_stream : S -> Prop) w c w' :
  (forall s s', stream_info s = (Ok tt, s') -> exists_stream s') ->
  (forall s s', add_stream s = (Ok tt, s') -> exists_stream s') ->
  connect_nats w = (Ok c, w') -> exists_stream (outside w').
Proof.
  intros Hinfo Hadd. unfold connect_nats. rewrite run_eff_bind. destruct (retry_async _ _ _ _ w) as [[nc|e] w1]; [|done].
  rewrite run_eff_bind. unfold unslept, ensure_stream, try_catch.
  destruct (stream_info (outside w1)) as [[[]|e1] s1] eqn:H1; [intros [= _ <-]; by eapply Hinfo|].
  destruct (add_stream s1) as [[[]|e2] s2] eqn:H2; [intros [= _ <-]; by eapply Hadd|].
  destruct (stream_info s2) as [[[]|e3] s3] eqn:H3; [intros [= _ <-]; by eapply Hinfo|done].
Qed.
End Nats.
End Startup.
